(* ===== verification/_CoqProject ===== *)
-Q . S2P
Prelude.v
GoStrings.v
GoPath.v
Float.v
Api.v
Kube.v
Conditions.v
Samples.v
UpdateFlow.v
CellId.v
Labeller.v
Proxy.v
Component.v
Resources.v
ConfigHelper.v
Server.v
InitJob.v
Observe.v
ServerComponent.v
Nodes.v
Proxies.v
Names.v
YtApi.v
Yson.v
Logging.v
CommonConfig.v
NodeConfig.v
YtsaurusClient.v
ClientFacts.v
Masters.v
StateJobs.v
Agents.v
TabletNodes.v
Initialised.v
Manager.v
Sync.v
Flows.v
Reach.v
Updates.v
Webhook.v
Microservice.v
Ui.v
ServerConfigs.v
Constructors.v
Wiring.v
Golden.v
ConfigFacts.v
Releases.v
ReleaseFacts.v
RemoteNodes.v
Controllers.v
StartUp.v
TestSpecs.v
Canonize.v
