(* ===== verification/Prelude.v ===== *)
(** * Verification of the YTsaurus Kubernetes operator

    The operator (src/, in Go) runs YTsaurus clusters on Kubernetes.  A
    [Ytsaurus] resource describes a cluster; a reconciliation compares it with
    what runs, acts a little, and writes the status of the resource back.  This
    library models the operator in Rocq, definition by function, and proves what
    makes it correct.

    ** How a reconciliation works, and where its parts are

    The webhook (api/v1/ytsaurus_webhook.go) admits a resource.  The reconciler
    (controllers/sync.go) builds the component manager
    (controllers/component_manager.go), which constructs the components of the
    specification (pkg/components), fetches their Kubernetes objects
    (pkg/resources) and asks each for its status.  Depending on the cluster
    state the reconciler then lets the manager synchronise the components, or
    chooses an update flow and moves it on, one state of an update at a time.
    Components render their configuration with pkg/ytconfig, and merge the
    user's overrides in (pkg/components/config_helper.go).  Everything reads and
    writes the API server through pkg/apiproxy, and the YT cluster through the
    YT client component (pkg/components/ytsaurus_client.go).

    ** How it is modelled

    Go code that acts is a program of the monad of Kube.v and Proxy.v over a
    [World]: the heap [H] of the variables the Go structs own (reached through
    lenses, [Ref], so that shared maps stay shared), the outside [E] (API
    server, YT cluster, events), and the resource in memory; a program may panic.
    Pure code is a function; errors are values ([error], sums, options; [Res] of
    Yson.v where a generator may also panic).  Go's interfaces are records of
    operations with type classes for their laws: [ComponentLaws], [ServerLaws]
    (Component.v), [ComponentReads] (Observe.v), so that the reconciler and the
    manager are verified against any component that keeps its promise, and
    Wiring.v discharges the promises for the components of the operator.

    Code outside the repository is a parameter, a class: [Kube] (API server),
    [Yt] (YT client), [ConditionMeta] (conditions), [Codec] and [YsonText] and
    [YsonPretty] (YSON, JSON, TOML), [ContainerYaml], [PartialYaml], [PathText],
    [Lister] (the webhook's), [Quantities] (resource quantities), [Uuid],
    [FileSystem] and [Difflib] (the golden files),
    [Entropy], [MapOrder] (the order of a Go map), [Alloc] (allocation),
    [RandomBytes] (what the entropy source promises), [ReleaseWriter] (the status
    writer of the smaller resources).  Classes
    named [...Laws] hold the documented behaviour the theorems use; every
    theorem that uses one has a witness with a concrete instance.

    Integers are [Z]; where the width matters the wrap-around is written
    ([int32], bytes in CellId.v); floats are rounded dyadic numbers (Float.v).
    Recursion is structural and the loops of Go run over lists; only the ports of
    a TCP service (Resources.v) are a counting loop, with the number of ports as
    its fuel.

    ** Files

    - Prelude, GoStrings, GoPath, Float, Samples: Go slices and errors,
      strings.Split, path.Join, floats, sample resources for the witnesses.
    - Api (api/v1/ytsaurus_types.go, pkg/consts), Kube, Conditions and Proxy
      (pkg/apiproxy), Labeller (pkg/labeller), Resources (pkg/resources).
    - Component (component.go, helpers.go, pods_manager.go), ConfigHelper
      (config_helper.go), Server (server.go, volume.go, serveroptions.go),
      InitJob (init_job.go), Microservice (microservice.go): the machinery of the
      components, of pkg/components.
    - Observe, ServerComponent: what only looks; the skeleton of the components.
    - Nodes, Proxies, Masters, StateJobs, Agents, TabletNodes, Ui, YtApi with
      YtsaurusClient and ClientFacts: the components themselves.  Initialised:
      what readiness means for those with a state.
    - UpdateFlow, Sync (controllers/sync.go), Manager
      (controllers/component_manager.go); Flows, Reach and Updates: their
      specification as lists of phases, as a step relation, and over sequences of
      reconciliations.
    - Webhook (api/v1/ytsaurus_webhook.go).
    - CellId, Names, Yson, Logging, CommonConfig, NodeConfig, ServerConfigs
      (pkg/ytconfig); Golden reproduces the golden files of its tests;
      ConfigFacts proves what the configurations promise.
    - Constructors (the functions New... of pkg/components), Wiring: the
      operator put together.
    - Releases, ReleaseFacts (chyt.go, spyt.go), RemoteNodes
      (exec_node_remote.go): the three smaller resources, their components and
      their reconcilers (controllers/*_sync.go).  Controllers: how the
      reconcilers find their resources (controllers/*_controller.go), the
      cluster domain (helpers.go) and the webhooks of CHYT and SPYT, which accept
      everything.
    - StartUp (main.go): the options of the manager and the order of the
      registrations.  TestSpecs (pkg/testutil): the resources the tests start
      from, and what test/webhooks expects of them.  Canonize (pkg/canonize): how
      golden files are written and compared.

    ** What is proved

    - Updates (UpdateFlow, Flows, Reach, Updates): C1, C2 the choice of a flow; C4
      the handlers implement lists of phases; C5 to C7, over sequences of
      reconciliations, an update ends, starts with a blank status, holds what its
      flow requires when it removes pods and when it finishes, and completes; C39
      the whole operator moves the persisted status along the life cycle of a
      cluster and keeps it coherent, whatever the API server, the YT cluster and
      the renderers answer.
    - Sync: C11 what one reconciliation decides outside an update, from the
      statuses the components report.
    - Manager: C10, C12 what it builds, selects and synchronises; C40 in an
      admitted cluster it is always built, with components of different names and
      labels.
    - Configurations: C8 every generator renders for an admitted resource; C9
      watermarks, C16 logging, C22 replication; C13, C14 overrides and
      reloading; C23 identifiers; C25 names.
    - Servers, jobs and microservices: C17 convergence; C24 tokens; C18 shared annotations;
      C19 jobs run once; C21 the dry run predicts the wet run; C26 the removal
      of pods; C38 deployments.
    - The update steps of the components: C27 to C30 the YT client (C29
      what each of its answers stands for, C30 the snapshots, also when a run
      fails); C31 the masters, over the runs of an update; C33 the scheduler and the query tracker; C34 readiness; C35 the
      bundles; C36 queue agents.
    - The smaller resources: C15 the release status of CHYT names the missing
      step (ReleaseFacts has the same of SPYT); C20 remote exec nodes are recorded
      as running exactly when they are.
    - C3 the order of conditions; C37 the webhook admits exactly the well-formed
      resources; C32 the start-up.

    C18 and C36 state behaviour the code does not mean to have, and so do
    [proxy_services_collide] of Names.v and [stale_exit_job_counts] of Masters.v.

    ** Bounds

    C9 holds for quotas below 2^52 bytes, where a tenth in floating point is the
    integer division; C22 for fewer than 2^31 data nodes, the range of the
    [int32] that counts them.  An update makes at most 16 moves (C5).
    A sequence of reconciliations (C5 to C7, C39) is one where each reads the
    status the one before left on the API server; a read that is behind is not
    modelled.  A coherent status names its cluster state and, outside the end of
    an update, its update state; the first write of a new resource has the API
    server fill in [Created] and [None] where they are empty, and sequences begin
    there.

    ** Not modelled

    - What controller-runtime does with the registrations of main.go, and the
      flags of the logger.
    - Generated code (zz_generated.deepcopy.go, pkg/mock); the helpers that drive
      the tests (pkg/testutil/testhelper.go), which only start and poll an API
      server.
    - Logging and the text of events beyond the fact that they are recorded.
      Kubernetes types are projected to the fields the operator reads or sets
      (Api.v, Kube.v list them). *)

From stdpp Require Export base tactics list gmap strings pretty relations.
From Stdlib Require Export ZArith Lia.

(** ** Go slices

    A Go slice distinguishes [nil] from an empty slice; the operator relies on
    the difference (a nil list of updating components means "all of them"). *)

Definition slice (A : Type) : Type := option (list A).

(** The elements a [range] loop visits: none for [nil]. *)
Definition elems {A} (s : slice A) : list A := default [] s.

(** [append(s, x)]: appending to [nil] allocates. *)
Definition go_append {A} (s : slice A) (x : A) : slice A := Some (elems s ++ [x]).

(** [len(s)]. *)
Definition go_len {A} (s : slice A) : Z := Z.of_nat (length (elems s)).

(** [s == nil]. *)
Definition is_nil {A} (s : slice A) : bool := match s with None => true | Some _ => false end.

Lemma elems_go_append {A} (s : slice A) x : elems (go_append s x) = elems s ++ [x].
Proof. done. Qed.

(** ** Errors

    Go's [error] value: [None] is [nil]. *)
Definition error : Type := option string.

Definition no_error (e : error) : bool := match e with None => true | Some _ => false end.

(** The double quote, in the commands and the messages of the operator. *)
Definition DQ : string := String (Ascii.ascii_of_nat 34) EmptyString.

(** [fmt.Sprintf("%v", xs)] of a [[]string]. *)
Definition sprint_strings (l : list string) : string :=
  ("[" +:+ String.concat " " l +:+ "]")%string.

(** ** The state and panic monad

    A Go function that reads and writes the world [W] and may panic: [None] is
    a panic, which aborts the whole reconciliation.  Errors are ordinary
    values, so a function returning [(T, error)] is an [M W (T * error)]. *)

Definition M (W A : Type) : Type := W -> option (A * W).

#[export] Instance M_ret {W} : MRet (M W) := fun A a w => Some (a, w).
#[export] Instance M_bind {W} : MBind (M W) :=
  fun A B f m w => match m w with Some (a, w') => f a w' | None => None end.

Definition panic {W A} : M W A := fun _ => None.
Definition gets {W A} (f : W -> A) : M W A := fun w => Some (f w, w).
Definition modify {W} (f : W -> W) : M W unit := fun w => Some (tt, f w).

Lemma bind_inv {W A B} (m : M W A) (f : A -> M W B) w b w' :
  (m ≫= f) w = Some (b, w') ->
  exists a w1, m w = Some (a, w1) /\ f a w1 = Some (b, w').
Proof. unfold mbind, M_bind. destruct (m w) as [[a w1]|]; naive_solver. Qed.

Lemma bind_step {W A B} (m : M W A) (f : A -> M W B) w a w1 :
  m w = Some (a, w1) -> (m ≫= f) w = f a w1.
Proof. unfold mbind, M_bind. by intros ->. Qed.

(** Running the primitives, as rewrite rules. *)
Lemma run_ret {W A B} (a : A) (f : A -> M W B) w : (mret a ≫= f) w = f a w.
Proof. done. Qed.
Lemma run_gets {W A B} (g : W -> A) (f : A -> M W B) w : (gets g ≫= f) w = f (g w) w.
Proof. done. Qed.
Lemma run_modify {W B} (g : W -> W) (f : unit -> M W B) w : (modify g ≫= f) w = f tt (g w).
Proof. done. Qed.
Lemma run_assoc {W A B C} (m : M W A) (f : A -> M W B) (g : B -> M W C) w :
  ((m ≫= f) ≫= g) w = (m ≫= (fun a => f a ≫= g)) w.
Proof. unfold mbind, M_bind. by destruct (m w) as [[a w1]|]. Qed.

Create Rewrite HintDb run.
#[export] Hint Rewrite @run_ret @run_gets @run_modify @run_assoc : run.

(** ** The frame calculus

    [preserves R m]: whenever [m] returns, the world before and the world
    after are related by [R].  For a preorder [R] the property is
    compositional; the hint database [frame] collects the lemmas. *)

Definition preserves {W A} (R : relation W) (m : M W A) : Prop :=
  forall w a w', m w = Some (a, w') -> R w w'.

(** [yields Q m]: every value [m] returns satisfies [Q]. *)
Definition yields {W A} (Q : A -> Prop) (m : M W A) : Prop :=
  forall w a w', m w = Some (a, w') -> Q a.

Section Frame.
Context {W : Type} (R : relation W) `{!PreOrder R}.

Lemma preserves_ret {A} (a : A) : preserves R (mret a : M W A).
Proof. intros w b w' [= -> ->]. reflexivity. Qed.

Lemma preserves_bind {A B} (m : M W A) (f : A -> M W B) :
  preserves R m -> (forall a, preserves R (f a)) -> preserves R (m ≫= f).
Proof.
  intros Hm Hf w b w' (a & w1 & H1 & H2)%bind_inv.
  transitivity w1; [by eapply Hm | by eapply Hf].
Qed.

Lemma preserves_gets {A} (f : W -> A) : preserves R (gets f).
Proof. intros w b w' [= _ ->]. reflexivity. Qed.

Lemma preserves_panic {A} : preserves R (panic : M W A).
Proof. by intros w b w'. Qed.

Lemma preserves_if {A} (b : bool) (m1 m2 : M W A) :
  preserves R m1 -> preserves R m2 -> preserves R (if b then m1 else m2).
Proof. by destruct b. Qed.

Lemma preserves_modify (f : W -> W) : (forall w, R w (f w)) -> preserves R (modify f).
Proof. intros H w u w' E. inversion E; subst. apply H. Qed.
End Frame.

Create HintDb frame.
#[export] Hint Resolve preserves_ret preserves_bind preserves_gets preserves_panic preserves_if : frame.

(** [frame_step] follows the structure of the monadic program in the goal;
    [solve_frame] closes the goal when every leaf is in the hint database. *)
Ltac frame_step :=
  match goal with
  | |- preserves _ (mret _) => eapply @preserves_ret; tc_solve
  | |- preserves _ (_ ≫= _) => eapply @preserves_bind; [tc_solve| |intros ?]
  | |- preserves _ (gets _) => eapply @preserves_gets; tc_solve
  | |- preserves _ panic => eapply @preserves_panic
  | |- preserves _ (if ?b then _ else _) => destruct b eqn:?
  | |- preserves _ (match ?x with _ => _ end) => destruct x eqn:?
  | |- preserves _ (let _ := _ in _) => cbv zeta
  | |- forall _, preserves _ _ => intros ?
  end.

Ltac solve_frame := repeat first [ frame_step | solve [ eauto with frame typeclass_instances ] ].

(** Inverting one run of a monadic program that returned. *)
Ltac inv_run H :=
  let a := fresh "a" in let w := fresh "w" in let H1 := fresh "Hrun" in
  match type of H with
  | (_ ≫= _) _ = Some _ => apply bind_inv in H as (a & w & H1 & H)
  end.

(** Sequential search with early return: Go's [for] loop whose body may
    [return].  [f x] is [Some r] when the body returns [r]. *)
Fixpoint for_each {W A R} (xs : list A) (body : A -> M W (option R)) : M W (option R) :=
  match xs with
  | [] => mret None
  | x :: xs' =>
      r ← body x;
      match r with Some _ => mret r | None => for_each xs' body end
  end.

Lemma preserves_for_each {W A R'} (R : relation W) `{!PreOrder R} (xs : list A)
    (body : A -> M W (option R')) :
  (forall x, preserves R (body x)) -> preserves R (for_each xs body).
Proof. intros H. induction xs; simpl; solve_frame. Qed.

#[export] Hint Resolve preserves_for_each : frame.

(** ** Pointers

    A [Ref S A] is a pointer to a Go variable of type [A] living in the heap
    [S]: a lawful getter and setter pair. *)
Record Ref (S A : Type) := {
  load : S -> A;
  store : A -> S -> S;
  load_store : forall a s, load (store a s) = a;
  store_load : forall s, store (load s) s = s;
  store_store : forall a b s, store a (store b s) = store a s;
}.
Arguments load {S A} _ _. Arguments store {S A} _ _ _.

(** Two variables do not overlap: assigning [r2] leaves [r1] alone. *)
Definition separate {S A B} (r1 : Ref S A) (r2 : Ref S B) : Prop :=
  forall b s, load r1 (store r2 b s) = load r1 s.

(** The components of a pair, and pointers into a component. *)
Program Definition fst_ref {A B} : Ref (A * B) A :=
  {| load := fst; store := fun a s => (a, s.2) |}.
Solve All Obligations with by intros; repeat match goal with x : _ * _ |- _ => destruct x end.

Program Definition snd_ref {A B} : Ref (A * B) B :=
  {| load := snd; store := fun b s => (s.1, b) |}.
Solve All Obligations with by intros; repeat match goal with x : _ * _ |- _ => destruct x end.

Program Definition comp_ref {S A B} (r : Ref S A) (q : Ref A B) : Ref S B :=
  {| load := fun s => load q (load r s); store := fun b s => store r (store q b (load r s)) s |}.
Next Obligation. intros S A B r q b s. simpl. by rewrite (load_store _ _ r), (load_store _ _ q). Qed.
Next Obligation. intros S A B r q s. simpl. by rewrite (store_load _ _ q), (store_load _ _ r). Qed.
Next Obligation.
  intros S A B r q a b s. simpl.
  by rewrite (load_store _ _ r), (store_store _ _ q), (store_store _ _ r).
Qed.

(** ** Strings *)

#[export] Instance string_app_inj_l s : Inj (=) (=) (String.append s).
Proof. intros s1 s2. induction s as [|a s IH]; simpl; [done|]. intros [= H]. auto. Qed.

Lemma string_length_app s1 s2 : String.length (s1 +:+ s2) = String.length s1 + String.length s2.
Proof. induction s1; simpl; auto. Qed.

Lemma string_app_inv_tail (s1 s2 t : string) : (s1 +:+ t)%string = (s2 +:+ t)%string -> s1 = s2.
Proof.
  revert s2. induction s1 as [|c s1 IH]; intros [|c2 s2] Heq; [done| | |].
  - apply (f_equal String.length) in Heq. rewrite !string_length_app in Heq. simpl in Heq. lia.
  - apply (f_equal String.length) in Heq. rewrite !string_length_app in Heq. simpl in Heq. lia.
  - injection Heq as -> Heq. f_equal. auto.
Qed.

(** ** Machine integers: Go's [int32] conversion wraps around *)

Definition int32 (z : Z) : Z := (Z.modulo (z + 2 ^ 31) (2 ^ 32) - 2 ^ 31)%Z.

Lemma int32_small z : (- 2 ^ 31 <= z < 2 ^ 31)%Z -> int32 z = z.
Proof. intros Hz. unfold int32. rewrite Z.mod_small; lia. Qed.

Lemma int32_overflow z : (2 ^ 31 <= z < 2 ^ 32)%Z -> int32 z = (z - 2 ^ 32)%Z.
Proof.
  intros Hz. unfold int32.
  replace (z + 2 ^ 31)%Z with (z - 2 ^ 31 + 1 * 2 ^ 32)%Z by lia.
  rewrite Z.mod_add, Z.mod_small; lia.
Qed.
