(* ===== verification/GoStrings.v ===== *)
(** * Go's package strings

    [strings.Split] at a separator of one character, and [strings.HasPrefix]:
    what the operator, its paths and its tests use of the package. *)

From S2P Require Import Prelude.
From Stdlib Require Import Ascii.

(** [strings.Split(s, sep)]. *)
Fixpoint Split (sep : ascii) (s : string) : list string :=
  match s with
  | EmptyString => [EmptyString]
  | String c s' =>
      if decide (c = sep) then EmptyString :: Split sep s'
      else match Split sep s' with
           | [] => [String c EmptyString]
           | x :: xs => String c x :: xs
           end
  end.

(** [strings.Contains(s, sep)]. *)
Fixpoint contains_char (sep : ascii) (s : string) : bool :=
  match s with
  | EmptyString => false
  | String c s' => bool_decide (c = sep) || contains_char sep s'
  end.

(** [strings.HasPrefix(s, prefix)]. *)
Definition HasPrefix (s prefix : string) : bool := String.prefix prefix s.

Lemma Split_one sep s : contains_char sep s = false -> Split sep s = [s].
Proof.
  induction s as [|c s IH]; simpl; [done|]. intros [Hc Hs]%orb_false_iff.
  apply bool_decide_eq_false in Hc. by rewrite decide_False, IH.
Qed.

Lemma Split_nonempty sep s : Split sep s <> [].
Proof. destruct s as [|c s]; simpl; [done|]. case_decide; [done|]. by destruct (Split sep s). Qed.

(** Splitting loses nothing, and leaves no separator. *)
Lemma Split_roundtrip sep s : String.concat (String sep EmptyString) (Split sep s) = s.
Proof.
  induction s as [|c s IH]; [done|]. simpl. pose proof (Split_nonempty sep s) as Hne.
  destruct (Split sep s) as [|x xs]; [done|]. case_decide as Hc.
  - subst c. simpl in IH |- *. by rewrite <- IH.
  - rewrite <- IH. by destruct xs.
Qed.

Lemma Split_plain sep s : Forall (fun x => contains_char sep x = false) (Split sep s).
Proof.
  induction s as [|c s IH]; simpl; [by repeat constructor|].
  case_decide as Hc; [by constructor|]. destruct (Split sep s) as [|x xs].
  { constructor; [|constructor]. simpl. by rewrite bool_decide_eq_false_2. }
  inversion IH as [|? ? Hx Hxs]; subst. constructor; [|done]. simpl. by rewrite bool_decide_eq_false_2.
Qed.

Lemma string_app_assoc (a b c : string) : ((a +:+ b) +:+ c = a +:+ (b +:+ c))%string.
Proof. induction a as [|x a IH]; [done|]. change (String x ((a +:+ b) +:+ c) = String x (a +:+ (b +:+ c)))%string. by rewrite IH. Qed.
