(* ===== verification/GoPath.v ===== *)
(** * Go's packages path and path/filepath

    [path.Clean] and [path.Join] of the Go standard library, on which the
    operator relies to place files in containers, and [filepath.Dir]; on Unix
    the two packages agree. *)

From S2P Require Import Prelude GoStrings.

Definition slash : Ascii.ascii := Ascii.ascii_of_nat 47.

Definition path_split (s : string) : list string := Split slash s.

(** The elements of a path after the processing of the ones before it; [out]
    is reversed. *)
Definition clean_step (rooted : bool) (out : list string) (elem : string) : list string :=
  if decide (elem = "" \/ elem = ".") then out
  else if decide (elem = "..") then
    match out with
    | top :: out' => if decide (top = "..") then elem :: out else out'
    | [] => if rooted then [] else [elem]
    end
  else elem :: out.

Definition path_rooted (p : string) : bool :=
  match p with String c _ => bool_decide (c = slash) | EmptyString => false end.

Definition path_Clean (p : string) : string :=
  let rooted := path_rooted p in
  let body := String.concat "/" (rev (fold_left (clean_step rooted) (path_split p) [])) in
  let res := if rooted then ("/" +:+ body)%string else body in
  if decide (res = "") then "."%string else res.

(** [path.Join]: the empty elements are dropped. *)
Definition path_Join (elems : list string) : string :=
  match filter (fun e => e <> ""%string) elems with
  | [] => ""%string
  | es => path_Clean (String.concat "/" es)
  end.

(** [filepath.Dir]: all but the last element. *)
Definition path_Dir (p : string) : string :=
  path_Clean (String.concat "/" (removelast (path_split p) ++ [""%string])).

(** The examples of the package's documentation. *)
Example path_Join_docs :
  path_Join ["a"; "b"; "c"] = "a/b/c"%string /\ path_Join ["a"; "b/c"] = "a/b/c"%string /\
  path_Join ["a/b"; "../../../xyz"] = "../xyz"%string /\ path_Join [""; ""] = ""%string /\
  path_Clean "/../a//b/./c/.." = "/a/b"%string /\ path_Clean "" = "."%string.
Proof. repeat split; reflexivity. Qed.
Example path_Dir_docs :
  path_Dir "/foo/bar/baz.js" = "/foo/bar"%string /\ path_Dir "/foo/bar/baz" = "/foo/bar"%string /\
  path_Dir "/foo/bar/baz/" = "/foo/bar/baz"%string /\ path_Dir "/dirty//path///" = "/dirty/path"%string /\
  path_Dir "dev.txt" = "."%string /\ path_Dir "../todo.txt" = ".."%string /\ path_Dir "/" = "/"%string.
Proof. repeat split; reflexivity. Qed.
