(* ===== verification/Float.v ===== *)
(** * Binary floating point: Go's [float32] and [float64]

    A finite float is a dyadic number [mantissa * 2 ^ exponent]; an operation
    computes the exact result and rounds its mantissa to 24 or 53 bits, ties to
    even.  Overflow to infinity and subnormal numbers are out of reach of the
    quantities the operator computes with (at most 2^63, at least 10^-9). *)

From S2P Require Import Prelude.

Local Open Scope Z_scope.

Record float := mkFloat { fl_mantissa : Z; fl_exponent : Z }.

#[export] Instance float_eq_dec : EqDecision float.
Proof. solve_decision. Defined.

Definition float_zero : float := mkFloat 0 0.

(** The magnitude [a] without its [d] last bits, to the nearest, ties to even. *)
Definition round_bits (a d : Z) : Z :=
  let q := a / 2 ^ d in
  let r := a mod 2 ^ d in
  let half := 2 ^ (d - 1) in
  if r <? half then q else if half <? r then q + 1 else if Z.even q then q else q + 1.

(** Rounding to [p] bits. *)
Definition round (p : Z) (x : float) : float :=
  let a := Z.abs (fl_mantissa x) in
  let d := Z.log2 a + 1 - p in
  if d <=? 0 then x else mkFloat (Z.sgn (fl_mantissa x) * round_bits a d) (fl_exponent x + d).

Definition float32 (x : float) : float := round 24 x.
Definition float64 (x : float) : float := round 53 x.

(** [float64(n)]. *)
Definition float64_of_int (n : Z) : float := float64 (mkFloat n 0).

(** The mantissas of two floats on their smaller exponent. *)
Definition aligned (x y : float) : Z * Z * Z :=
  let e := Z.min (fl_exponent x) (fl_exponent y) in
  (fl_mantissa x * 2 ^ (fl_exponent x - e), fl_mantissa y * 2 ^ (fl_exponent y - e), e).

Definition mul_exact (x y : float) : float :=
  mkFloat (fl_mantissa x * fl_mantissa y) (fl_exponent x + fl_exponent y).
Definition sub_exact (x y : float) : float :=
  let '(a, b, e) := aligned x y in mkFloat (a - b) e.

Definition mul64 (x y : float) : float := float64 (mul_exact x y).
Definition mul32 (x y : float) : float := float32 (mul_exact x y).
Definition sub32 (x y : float) : float := float32 (sub_exact x y).

Definition float_ltb (x y : float) : bool := let '(a, b, _) := aligned x y in a <? b.

(** [math.Min]. *)
Definition float_min (x y : float) : float := if float_ltb y x then y else x.

(** [int64(x)]: towards zero. *)
Definition truncate (x : float) : Z :=
  if fl_exponent x <? 0 then Z.quot (fl_mantissa x) (2 ^ (- fl_exponent x))
  else fl_mantissa x * 2 ^ fl_exponent x.

(** The constant [0.1] of type [float64]. *)
Definition one_tenth : float := mkFloat 7205759403792794 (-56).

Example float_examples :
  truncate (mul64 one_tenth (float64_of_int 10737418240)) = 1073741824 /\
  truncate (mul64 one_tenth (float64_of_int 25)) = 2 /\
  truncate (mul32 (mkFloat 5 0) (sub32 (mkFloat 41 (-1)) (mkFloat 0 0))) = 102.
Proof. repeat split; reflexivity. Qed.

(** ** Rounding *)

Lemma pow_split a b : 0 <= a <= b -> 2 ^ b = 2 ^ a * 2 ^ (b - a).
Proof. intros. rewrite <- Z.pow_add_r by lia. f_equal. lia. Qed.

(** The rounded magnitude is at most half a unit away. *)
Lemma round_bits_near a d :
  0 < d -> a - 2 ^ (d - 1) <= round_bits a d * 2 ^ d <= a + 2 ^ (d - 1).
Proof.
  intros Hd. unfold round_bits. set (half := 2 ^ (d - 1)).
  assert (2 ^ d = 2 * half) as -> by (unfold half; rewrite <- Z.pow_succ_r by lia; f_equal; lia).
  assert (0 < half) as Hh by (apply Z.pow_pos_nonneg; lia).
  pose proof (Z_div_mod_eq_full a (2 * half)). pose proof (Z.mod_pos_bound a (2 * half) ltac:(lia)).
  repeat case_match; nia.
Qed.

(** Rounding does not go below a multiple of the unit. *)
Lemma round_bits_floor a d k : 0 < d -> k * 2 ^ d <= a -> k <= round_bits a d.
Proof.
  intros Hd Hk. assert (k <= a / 2 ^ d) by (apply Z.div_le_lower_bound; [apply Z.pow_pos_nonneg|]; lia).
  unfold round_bits. repeat case_match; lia.
Qed.

(** A number of at most [p] bits is not rounded. *)
Lemma round_exact p x : Z.abs (fl_mantissa x) < 2 ^ p -> 0 < p -> round p x = x.
Proof.
  intros Hx Hp. unfold round. rewrite (proj2 (Z.leb_le _ 0)); [done|].
  destruct (Z.eq_dec (Z.abs (fl_mantissa x)) 0) as [->|]; [simpl; lia|].
  pose proof (proj1 (Z.log2_lt_pow2 (Z.abs (fl_mantissa x)) p ltac:(lia)) Hx). lia.
Qed.

(** A tenth of [n], computed in floating point, is an integer division while
    [n] is below 2^52. *)
Lemma truncate_one_tenth n :
  0 <= n < 2 ^ 52 -> truncate (mul64 one_tenth (float64_of_int n)) = n / 10.
Proof.
  intros Hn. unfold float64_of_int, float64 at 1. rewrite round_exact by (simpl in *; lia).
  unfold mul64, mul_exact, float64, one_tenth, round. simpl. set (m := 7205759403792794 * n).
  assert (0 <= m) as Hm by (unfold m; lia). rewrite (Z.abs_eq _ Hm).
  set (d := Z.log2 m + 1 - 53). destruct (Z.leb_spec d 0) as [Hd|Hd].
  - unfold truncate. simpl. rewrite Z.quot_div_nonneg by lia.
    assert (m < 2 ^ 53) as Hlt.
    { destruct (Z.eq_dec m 0) as [->|]; [lia|]. apply Z.log2_lt_pow2; lia. }
    unfold m in *. assert (n < 10) by lia. rewrite !Z.div_small by lia. done.
  - assert (0 < m) as Hpos.
    { destruct (Z.eq_dec m 0) as [H0|]; [|lia]. exfalso. unfold d in Hd. rewrite H0 in Hd. simpl in Hd. lia. }
    rewrite Z.sgn_pos, Z.mul_1_l by done.
    assert (d <= 52) as Hd52.
    { assert (Z.log2 m < 105); [|lia]. apply Z.log2_lt_pow2; unfold m; lia. }
    unfold truncate. simpl fl_exponent. simpl fl_mantissa. rewrite Z.add_0_r, (proj2 (Z.ltb_lt (-56 + d) 0)) by lia.
    pose proof (round_bits_near m d Hd) as [_ Hup].
    pose proof (round_bits_floor m d (n / 10 * 2 ^ (56 - d)) Hd) as Hlow.
    pose proof (pow_split d 56 ltac:(lia)) as H56. pose proof (Z.pow_pos_nonneg 2 d ltac:(lia) ltac:(lia)).
    pose proof (Z.pow_pos_nonneg 2 (56 - d) ltac:(lia) ltac:(lia)).
    assert (2 ^ (d - 1) <= 2 ^ 51) as Hhalf by (apply Z.pow_le_mono_r; lia).
    pose proof (Z_div_mod_eq_full n 10). pose proof (Z.mod_pos_bound n 10 ltac:(lia)).
    change (2 ^ 56) with 72057594037927936 in H56. change (2 ^ 51) with 2251799813685248 in Hhalf.
    assert (n / 10 * 2 ^ (56 - d) <= round_bits m d) as Hlo.
    { apply Hlow. rewrite <- Z.mul_assoc, (Z.mul_comm (2 ^ (56 - d))), <- H56. unfold m. nia. }
    rewrite Z.quot_div_nonneg by nia. replace (- (-56 + d)) with (56 - d) by lia.
    symmetry. apply (Z.div_unique_pos _ _ _ (round_bits m d - n / 10 * 2 ^ (56 - d))); [|lia].
    split; [lia|]. apply (Z.mul_lt_mono_pos_r (2 ^ d)); [done|].
    rewrite Z.mul_sub_distr_r, <- Z.mul_assoc, (Z.mul_comm (2 ^ (56 - d))), <- H56. unfold m in *. nia.
Qed.

(** ** The minimum *)

(** The value of a non-negative float is a fraction over any power of two that
    is large enough. *)
Lemma truncate_over e x :
  0 <= fl_mantissa x -> e <= 0 -> e <= fl_exponent x ->
  truncate x = fl_mantissa x * 2 ^ (fl_exponent x - e) / 2 ^ (- e).
Proof.
  intros Hm He Hx. unfold truncate. destruct (Z.ltb_spec (fl_exponent x) 0).
  - rewrite Z.quot_div_nonneg by (try apply Z.pow_pos_nonneg; lia).
    rewrite (pow_split (fl_exponent x - e) (- e)) by lia.
    rewrite (Z.mul_comm (2 ^ (fl_exponent x - e)) (2 ^ _)), Z.div_mul_cancel_r.
    + do 2 f_equal. lia.
    + apply Z.pow_nonzero; lia.
    + apply Z.pow_nonzero; lia.
  - rewrite (pow_split (- e) (fl_exponent x - e)) by lia.
    replace (fl_exponent x - e - - e) with (fl_exponent x) by lia.
    rewrite (Z.mul_comm (2 ^ (- e))), Z.mul_assoc, Z.div_mul; [done|]. apply Z.pow_nonzero; lia.
Qed.

Lemma float_ltb_over e x y :
  e <= fl_exponent x -> e <= fl_exponent y ->
  float_ltb x y = (fl_mantissa x * 2 ^ (fl_exponent x - e) <? fl_mantissa y * 2 ^ (fl_exponent y - e)).
Proof.
  intros Hx Hy. unfold float_ltb, aligned. set (e' := Z.min _ _).
  assert (forall f, e' <= fl_exponent f ->
    2 ^ (fl_exponent f - e) = 2 ^ (e' - e) * 2 ^ (fl_exponent f - e')) as Hs.
  { intros f Hf. rewrite <- Z.pow_add_r by lia. f_equal. lia. }
  rewrite (Hs x), (Hs y) by lia. pose proof (Z.pow_pos_nonneg 2 (e' - e) ltac:(lia) ltac:(lia)).
  apply eq_true_iff_eq. rewrite !Z.ltb_lt. nia.
Qed.

Lemma truncate_min x y :
  0 <= fl_mantissa x -> 0 <= fl_mantissa y ->
  truncate (float_min x y) = Z.min (truncate x) (truncate y).
Proof.
  intros Hx Hy. set (e := Z.min 0 (Z.min (fl_exponent x) (fl_exponent y))).
  unfold float_min. rewrite (float_ltb_over e), (truncate_over e x), (truncate_over e y) by lia.
  pose proof (Z.pow_pos_nonneg 2 (- e) ltac:(lia) ltac:(lia)) as Hp.
  destruct (Z.ltb_spec (fl_mantissa y * 2 ^ (fl_exponent y - e)) (fl_mantissa x * 2 ^ (fl_exponent x - e))).
  - rewrite (truncate_over e y), Z.min_r by (try (apply Z.div_le_mono; lia); lia). done.
  - rewrite (truncate_over e x), Z.min_l by (try (apply Z.div_le_mono; lia); lia). done.
Qed.

Lemma fl_mantissa_nonneg x y : 0 <= fl_mantissa x -> 0 <= fl_mantissa y -> 0 <= fl_mantissa (mul64 x y).
Proof.
  intros Hx Hy. unfold mul64, float64, round, mul_exact. simpl.
  set (m := fl_mantissa x * fl_mantissa y). assert (0 <= m) as Hm by (unfold m; nia).
  rewrite (Z.abs_eq _ Hm). case_match; simpl; [done|].
  destruct (Z.eq_dec m 0) as [->|]; [done|]. rewrite Z.sgn_pos, Z.mul_1_l by lia.
  apply round_bits_floor; lia.
Qed.
