(* ===== verification/Api.v ===== *)
(** * The custom resources: api/v1 and pkg/consts/types.go

    The data of the [Ytsaurus] resource, with Go's constants as constructors.
    A Go string enumeration admits any string; the constructor [...Other] holds
    the values that are none of the declared constants, so that the default
    branch of every Go [switch] is reachable in the model.

    The Go types of k8s.io/api are projected to the fields the operator reads;
    each projection is listed in the section "Kubernetes types". *)

From S2P Require Import Prelude.

(** ** Kubernetes types (k8s.io/api, read by the operator) *)

(** [corev1.LocalObjectReference]: its only field, the name. *)
Definition LocalObjectReference : Type := string.

(** [resource.Quantity], counted in its finest documented unit, 10^-9. *)
Definition Quantity : Type := Z.

(** [corev1.VolumeMount]. *)
Record VolumeMount := mkVolumeMount {
  vm_Name : string;
  vm_MountPath : string;
  vm_ReadOnly : bool;
  vm_MountPropagation : option string;
  vm_SubPath : string;
}.

(** [corev1.VolumeSource]: the sources the operator reads or writes, and the
    serialization of any other. *)
Inductive VolumeSource :=
| VolumeEmptyDir (sizeLimit : option Quantity)
| VolumeConfigMap (name : string) (defaultMode : option Z)
| VolumeSecret (name : string)
| VolumeSourceOther (s : string).

(** [corev1.Volume]. *)
Record Volume := mkVolume {
  vol_Name : string;
  vol_Source : VolumeSource;
}.

Record NodeSelectorRequirement := mkNodeSelectorRequirement {
  nsr_Key : string;
  nsr_Operator : string;
  nsr_Values : list string;
}.

(** [corev1.NodeSelectorTerm]: its match expressions. *)
Definition NodeSelectorTerm : Type := list NodeSelectorRequirement.

(** [corev1.NodeAffinity]: the terms of its required node selector. *)
Record NodeAffinity := mkNodeAffinity {
  na_Required : option (list NodeSelectorTerm);
}.

(** [corev1.Affinity]; the pod anti-affinity is opaque to the operator. *)
Record Affinity := mkAffinity {
  aff_NodeAffinity : option NodeAffinity;
  aff_PodAntiAffinity : option string;
}.

(** [corev1.Toleration] is copied to the pod as it is: its serialization. *)
Definition Toleration : Type := string.

(** [corev1.EnvVarSource]: a field of the pod or a key of a secret. *)
Inductive EnvVarSource :=
| EnvFieldRef (fieldPath : string)
| EnvSecretKeyRef (name key : string).

(** [corev1.EnvVar]. *)
Record EnvVar := mkEnvVar {
  env_Name : string;
  env_Value : string;
  env_ValueFrom : option EnvVarSource;
}.

(** [corev1.ResourceRequirements]; a Go map may be [nil]. *)
Record ResourceRequirements := mkResourceRequirements {
  rr_Requests : option (gmap string Quantity);
  rr_Limits : option (gmap string Quantity);
}.

(** ** Locations: api/v1/ytsaurus_types.go, api/v1/helpers.go *)

Inductive LocationType :=
| LocationTypeChunkStore
| LocationTypeChunkCache
| LocationTypeSlots
| LocationTypeLogs
| LocationTypeMasterChangelogs
| LocationTypeMasterSnapshots
| LocationTypeImageCache
| LocationTypeOther (s : string).

#[export] Instance LocationType_eq_dec : EqDecision LocationType.
Proof. solve_decision. Defined.

Record LocationSpec := mkLocationSpec {
  loc_LocationType : LocationType;
  loc_Path : string;
  loc_Medium : string;
  loc_Quota : option Quantity;
  loc_LowWatermark : option Quantity;
  loc_MaxTrashMilliseconds : option Z;
}.

Fixpoint FindFirstLocation (locations : list LocationSpec) (locationType : LocationType)
    : option LocationSpec :=
  match locations with
  | [] => None
  | location :: rest =>
      if decide (loc_LocationType location = locationType) then Some location
      else FindFirstLocation rest locationType
  end.

Definition FindAllLocations (locations : list LocationSpec) (locationType : LocationType)
    : list LocationSpec :=
  filter (fun location => loc_LocationType location = locationType) locations.

(** ** Loggers *)

Inductive LogLevel :=
| LogLevelTrace | LogLevelDebug | LogLevelInfo | LogLevelWarning | LogLevelError
| LogLevelOther (s : string).

Inductive LogWriterType :=
| LogWriterTypeFile | LogWriterTypeStderr | LogWriterTypeOther (s : string).

Inductive LogFormat :=
| LogFormatPlainText | LogFormatYson | LogFormatJson | LogFormatOther (s : string).

Inductive LogCompression :=
| LogCompressionNone | LogCompressionGzip | LogCompressionZstd | LogCompressionOther (s : string).

Inductive CategoriesFilterType :=
| CategoriesFilterTypeExclude | CategoriesFilterTypeInclude | CategoriesFilterTypeOther (s : string).

#[export] Instance LogWriterType_eq_dec : EqDecision LogWriterType.
Proof. solve_decision. Defined.
#[export] Instance LogFormat_eq_dec : EqDecision LogFormat.
Proof. solve_decision. Defined.
#[export] Instance LogCompression_eq_dec : EqDecision LogCompression.
Proof. solve_decision. Defined.

Record CategoriesFilter := mkCategoriesFilter {
  cf_Type : CategoriesFilterType;
  cf_Values : list string;
}.

Record LogRotationPolicy := mkLogRotationPolicy {
  lrp_RotationPeriodMilliseconds : option Z;
  lrp_MaxSegmentSize : option Quantity;
  lrp_MaxTotalSizeToKeep : option Quantity;
  lrp_MaxSegmentCountToKeep : option Z;
}.

Record BaseLoggerSpec := mkBaseLoggerSpec {
  bl_Name : string;
  bl_Format : LogFormat;
  bl_MinLogLevel : LogLevel;
  bl_Compression : LogCompression;
  bl_UseTimestampSuffix : bool;
  bl_RotationPolicy : option LogRotationPolicy;
}.

Record TextLoggerSpec := mkTextLoggerSpec {
  tl_BaseLoggerSpec : BaseLoggerSpec;
  tl_WriterType : LogWriterType;
  tl_CategoriesFilter : option CategoriesFilter;
}.

Record StructuredLoggerSpec := mkStructuredLoggerSpec {
  sl_BaseLoggerSpec : BaseLoggerSpec;
  sl_Category : string;
}.

(** ** Instance specifications *)

Record EmbeddedPersistentVolumeClaim := mkEmbeddedPersistentVolumeClaim {
  evc_Name : string;
  evc_Labels : gmap string string;
  evc_Annotations : gmap string string;
  (** [Spec.Resources] of the embedded claim. *)
  evc_Resources : ResourceRequirements;
}.

Record RPCTransportSpec := mkRPCTransportSpec {
  rt_TLSSecret : option LocalObjectReference;
  rt_TLSRequired : bool;
  rt_TLSInsecure : bool;
  rt_TLSPeerAlternativeHostName : string;
}.

Record HTTPTransportSpec := mkHTTPTransportSpec {
  ht_HTTPSSecret : option LocalObjectReference;
  ht_DisableHTTP : bool;
}.

Record HealthcheckProbeParams := mkHealthcheckProbeParams {
  hc_InitialDelaySeconds : Z;
  hc_TimeoutSeconds : Z;
  hc_PeriodSeconds : Z;
  hc_SuccessThreshold : Z;
  hc_FailureThreshold : Z;
}.

Record InstanceSpec := mkInstanceSpec {
  is_Image : option string;
  is_EntrypointWrapper : list string;
  is_Volumes : list Volume;
  is_VolumeMounts : list VolumeMount;
  is_ReadinessProbeParams : option HealthcheckProbeParams;
  is_Resources : ResourceRequirements;
  is_InstanceCount : Z;
  is_MinReadyInstanceCount : option Z;
  is_Locations : list LocationSpec;
  is_VolumeClaimTemplates : list EmbeddedPersistentVolumeClaim;
  is_RuntimeClassName : option string;
  is_EnableAntiAffinity : option bool;
  is_HostNetwork : option bool;
  is_MonitoringPort : option Z;
  is_Loggers : list TextLoggerSpec;
  is_StructuredLoggers : list StructuredLoggerSpec;
  is_Affinity : option Affinity;
  is_NodeSelector : gmap string string;
  is_Tolerations : list Toleration;
  is_PodLabels : gmap string string;
  is_PodAnnotations : gmap string string;
  is_SetHostnameAsFQDN : option bool;
  is_TerminationGracePeriodSeconds : option Z;
  is_NativeTransport : option RPCTransportSpec;
}.

Record MasterConnectionSpec := mkMasterConnectionSpec {
  mcs_CellTag : Z;
  mcs_HostAddresses : list string;
}.

Record MastersSpec := mkMastersSpec {
  ms_InstanceSpec : InstanceSpec;
  ms_MasterConnectionSpec : MasterConnectionSpec;
  ms_HostAddressLabel : string;
  ms_MaxSnapshotCountToKeep : option Z;
  ms_MaxChangelogCountToKeep : option Z;
  ms_Sidecars : list string;
}.

Record HTTPProxiesSpec := mkHTTPProxiesSpec {
  hp_InstanceSpec : InstanceSpec;
  hp_ServiceType : string;
  hp_HttpNodePort : option Z;
  hp_HttpsNodePort : option Z;
  hp_Role : string;
  hp_Transport : HTTPTransportSpec;
}.

Record RPCProxiesSpec := mkRPCProxiesSpec {
  rp_InstanceSpec : InstanceSpec;
  rp_ServiceType : option string;
  rp_NodePort : option Z;
  rp_Role : string;
  rp_Transport : RPCTransportSpec;
}.

Record TCPProxiesSpec := mkTCPProxiesSpec {
  tp_InstanceSpec : InstanceSpec;
  tp_ServiceType : option string;
  tp_MinPort : Z;
  tp_PortCount : Z;
  tp_Role : string;
}.

Record ClusterNodesSpec := mkClusterNodesSpec {
  cn_Tags : list string;
  cn_Rack : string;
}.

Record DataNodesSpec := mkDataNodesSpec {
  dn_InstanceSpec : InstanceSpec;
  dn_ClusterNodesSpec : ClusterNodesSpec;
  dn_Name : string;
}.

Record CRIJobEnvironmentSpec := mkCRIJobEnvironmentSpec {
  cri_EntrypointWrapper : list string;
  cri_SandboxImage : option string;
  cri_APIRetryTimeoutSeconds : option Z;
  cri_CRINamespace : option string;
  cri_BaseCgroup : option string;
  cri_RegistryConfigPath : option string;
  cri_ImageSizeEstimation : option Z;
  cri_ImageCompressionRatioEstimation : option Z;
  cri_AlwaysPullLatestImage : option bool;
  cri_ImagePullPeriodSeconds : option Z;
}.

Record JobEnvironmentSpec := mkJobEnvironmentSpec {
  je_Isolated : option bool;
  je_UserSlots : option Z;
  je_CRI : option CRIJobEnvironmentSpec;
  je_UseArtifactBinds : option bool;
  je_DoNotSetUserId : option bool;
}.

Record ExecNodesSpec := mkExecNodesSpec {
  en_InstanceSpec : InstanceSpec;
  en_ClusterNodesSpec : ClusterNodesSpec;
  en_Name : string;
  en_InitContainers : list string;
  en_Sidecars : list string;
  en_Privileged : bool;
  en_JobProxyLoggers : list TextLoggerSpec;
  en_JobResources : option ResourceRequirements;
  en_JobEnvironment : option JobEnvironmentSpec;
}.

Record TabletNodesSpec := mkTabletNodesSpec {
  tn_InstanceSpec : InstanceSpec;
  tn_ClusterNodesSpec : ClusterNodesSpec;
  tn_Name : string;
}.

Record BundleBootstrapSpec := mkBundleBootstrapSpec {
  bb_SnapshotPrimaryMedium : option string;
  bb_ChangelogPrimaryMedium : option string;
  bb_TabletCellCount : Z;
}.

Record BundlesBootstrapSpec := mkBundlesBootstrapSpec {
  bbs_Sys : option BundleBootstrapSpec;
  bbs_Default : option BundleBootstrapSpec;
}.

Record BootstrapSpec := mkBootstrapSpec {
  bs_TabletCellBundles : option BundlesBootstrapSpec;
}.

Record OauthUserInfoHandlerSpec := mkOauthUserInfoHandlerSpec {
  oui_Endpoint : string;
  oui_LoginField : string;
  oui_ErrorField : option string;
}.

Record OauthServiceSpec := mkOauthServiceSpec {
  oa_Host : string;
  oa_Port : Z;
  oa_Secure : bool;
  oa_UserInfo : OauthUserInfoHandlerSpec;
}.

Record UISpec := mkUISpec {
  ui_Image : option string;
  ui_ServiceType : string;
  ui_HttpNodePort : option Z;
  ui_UseInsecureCookies : bool;
  ui_Secure : bool;
  ui_Resources : ResourceRequirements;
  ui_InstanceCount : Z;
  ui_ExternalProxy : option string;
  ui_OdinBaseUrl : option string;
  ui_ExtraEnvVariables : list EnvVar;
  ui_Environment : string;
  ui_Theme : string;
  ui_Description : option string;
  ui_Group : option string;
  ui_DirectDownload : option bool;
}.

Record StrawberryControllerSpec := mkStrawberryControllerSpec {
  sc_Resources : ResourceRequirements;
  sc_Image : option string;
}.

Record DeprecatedSpytSpec := mkDeprecatedSpytSpec {
  ds_SparkVersion : string;
  ds_SpytVersion : string;
}.

Record MasterCachesSpec := mkMasterCachesSpec {
  mc_InstanceSpec : InstanceSpec;
  mc_CellTag : Z;
  mc_HostAddresses : list string;
  mc_HostAddressLabel : string;
}.

Record CommonSpec := mkCommonSpec {
  cs_CoreImage : string;
  cs_JobImage : option string;
  cs_CABundle : option LocalObjectReference;
  cs_NativeTransport : option RPCTransportSpec;
  cs_EphemeralCluster : bool;
  cs_UseIPv6 : bool;
  cs_UseIPv4 : bool;
  cs_KeepSocket : option bool;
  cs_ForceTCP : option bool;
  cs_UseShortNames : bool;
  cs_HostNetwork : bool;
  cs_UsePorto : bool;
  (** A Go map, [None] for nil. *)
  cs_ExtraPodAnnotations : option (gmap string string);
  cs_ConfigOverrides : option LocalObjectReference;
  cs_ImagePullSecrets : list LocalObjectReference;
}.

(** ** The update machinery: cluster states, update states, selectors, flows *)

Inductive ClusterState :=
| ClusterStateCreated
| ClusterStateInitializing
| ClusterStateRunning
| ClusterStateReconfiguration
| ClusterStateUpdating
| ClusterStateUpdateFinishing
| ClusterStateCancelUpdate
| ClusterStateOther (s : string).

#[export] Instance ClusterState_eq_dec : EqDecision ClusterState.
Proof. solve_decision. Defined.

Definition IsReadyToUpdateClusterState (clusterState : ClusterState) : bool :=
  bool_decide (clusterState = ClusterStateRunning).

Inductive UpdateState :=
| UpdateStateNone
| UpdateStatePossibilityCheck
| UpdateStateImpossibleToStart
| UpdateStateWaitingForSafeModeEnabled
| UpdateStateWaitingForTabletCellsSaving
| UpdateStateWaitingForTabletCellsRemovingStart
| UpdateStateWaitingForTabletCellsRemoved
| UpdateStateWaitingForSnapshots
| UpdateStateWaitingForPodsRemoval
| UpdateStateWaitingForPodsCreation
| UpdateStateWaitingForMasterExitReadOnly
| UpdateStateWaitingForTabletCellsRecovery
| UpdateStateWaitingForOpArchiveUpdatingPrepare
| UpdateStateWaitingForOpArchiveUpdate
| UpdateStateWaitingForQTStateUpdatingPrepare
| UpdateStateWaitingForQTStateUpdate
| UpdateStateWaitingForSafeModeDisabled
| UpdateStateOther (s : string).

#[export] Instance UpdateState_eq_dec : EqDecision UpdateState.
Proof. solve_decision. Defined.

(** [json:",value"] of the bundle, with its number of tablet cells. *)
Record TabletCellBundleInfo := mkTabletCellBundleInfo {
  tcb_Name : string;
  tcb_TabletCellCount : Z;
}.

Inductive UpdateSelector :=
| UpdateSelectorUnspecified
| UpdateSelectorNothing
| UpdateSelectorStatelessOnly
| UpdateSelectorMasterOnly
| UpdateSelectorTabletNodesOnly
| UpdateSelectorExecNodesOnly
| UpdateSelectorEverything
| UpdateSelectorOther (s : string).

#[export] Instance UpdateSelector_eq_dec : EqDecision UpdateSelector.
Proof. solve_decision. Defined.

Inductive UpdateFlow :=
| UpdateFlowNone
| UpdateFlowStateless
| UpdateFlowMaster
| UpdateFlowTabletNodes
| UpdateFlowFull
| UpdateFlowOther (s : string).

#[export] Instance UpdateFlow_eq_dec : EqDecision UpdateFlow.
Proof. solve_decision. Defined.

(** [metav1.Condition]; the transition time is a number of seconds. *)
Inductive ConditionStatus := ConditionTrue | ConditionFalse | ConditionUnknown.

#[export] Instance ConditionStatus_eq_dec : EqDecision ConditionStatus.
Proof. solve_decision. Defined.

Record Condition := mkCondition {
  cond_Type : string;
  cond_Status : ConditionStatus;
  cond_LastTransitionTime : Z;
  cond_Reason : string;
  cond_Message : string;
}.

#[export] Instance Condition_eq_dec : EqDecision Condition.
Proof. solve_decision. Defined.

Record UpdateStatus := mkUpdateStatus {
  us_State : UpdateState;
  us_Components : slice string;
  us_Flow : UpdateFlow;
  us_Conditions : list Condition;
  us_TabletCellBundles : list TabletCellBundleInfo;
  us_MasterMonitoringPaths : list string;
}.

Record YtsaurusStatus := mkYtsaurusStatus {
  st_State : ClusterState;
  st_Conditions : list Condition;
  st_UpdateStatus : UpdateStatus;
}.

Record YtsaurusSpec := mkYtsaurusSpec {
  sp_CommonSpec : CommonSpec;
  sp_UIImage : string;
  sp_AdminCredentials : option LocalObjectReference;
  sp_OauthService : option OauthServiceSpec;
  sp_IsManaged : bool;
  sp_EnableFullUpdate : bool;
  sp_UpdateSelector : UpdateSelector;
  sp_Bootstrap : option BootstrapSpec;
  sp_Discovery : InstanceSpec; (* DiscoverySpec only inlines InstanceSpec, like
     SchedulersSpec, ControllerAgentsSpec, QueryTrackerSpec, YQLAgentSpec and QueueAgentSpec *)
  sp_PrimaryMasters : MastersSpec;
  sp_SecondaryMasters : list MastersSpec;
  sp_MasterCaches : option MasterCachesSpec;
  sp_HTTPProxies : list HTTPProxiesSpec;
  sp_RPCProxies : list RPCProxiesSpec;
  sp_TCPProxies : list TCPProxiesSpec;
  sp_DataNodes : list DataNodesSpec;
  sp_ExecNodes : list ExecNodesSpec;
  sp_Schedulers : option InstanceSpec;
  sp_ControllerAgents : option InstanceSpec;
  sp_TabletNodes : list TabletNodesSpec;
  sp_StrawberryController : option StrawberryControllerSpec;
  sp_DeprecatedChytController : option StrawberryControllerSpec;
  sp_QueryTrackers : option InstanceSpec;
  sp_Spyt : option DeprecatedSpytSpec;
  sp_YQLAgents : option InstanceSpec;
  sp_QueueAgents : option InstanceSpec;
  sp_UI : option UISpec;
}.

(** The [Ytsaurus] resource with the two metadata fields the operator reads. *)
Record Ytsaurus := mkYtsaurus {
  yt_Name : string;
  yt_Namespace : string;
  yt_Spec : YtsaurusSpec;
  yt_Status : YtsaurusStatus;
}.

(** ** Component types: pkg/consts/types.go *)

Inductive ComponentType :=
| ControllerAgentType | DataNodeType | DiscoveryType | ExecNodeType | HttpProxyType
| MasterCacheType | MasterType | QueryTrackerType | QueueAgentType | RpcProxyType
| SchedulerType | StrawberryControllerType | TabletNodeType | TcpProxyType | UIType
| YqlAgentType | YtsaurusClientType.

#[export] Instance ComponentType_eq_dec : EqDecision ComponentType.
Proof. solve_decision. Defined.

(** [string(consts.XxxType)]. *)
Definition ComponentType_string (t : ComponentType) : string :=
  match t with
  | ControllerAgentType => "ControllerAgent"
  | DataNodeType => "DataNode"
  | DiscoveryType => "Discovery"
  | ExecNodeType => "ExecNode"
  | HttpProxyType => "HttpProxy"
  | MasterCacheType => "MasterCache"
  | MasterType => "Master"
  | QueryTrackerType => "QueryTracker"
  | QueueAgentType => "QueueAgent"
  | RpcProxyType => "RpcProxy"
  | SchedulerType => "Scheduler"
  | StrawberryControllerType => "StrawberryController"
  | TabletNodeType => "TabletNode"
  | TcpProxyType => "TcpProxy"
  | UIType => "UI"
  | YqlAgentType => "YqlAgent"
  | YtsaurusClientType => "YtsaurusClient"
  end.

(** ** Assignments to the fields of the status *)

Definition set_us_State (v : UpdateState) (u : UpdateStatus) : UpdateStatus :=
  mkUpdateStatus v (us_Components u) (us_Flow u) (us_Conditions u)
    (us_TabletCellBundles u) (us_MasterMonitoringPaths u).
Definition set_us_Components (v : slice string) (u : UpdateStatus) : UpdateStatus :=
  mkUpdateStatus (us_State u) v (us_Flow u) (us_Conditions u)
    (us_TabletCellBundles u) (us_MasterMonitoringPaths u).
Definition set_us_Flow (v : UpdateFlow) (u : UpdateStatus) : UpdateStatus :=
  mkUpdateStatus (us_State u) (us_Components u) v (us_Conditions u)
    (us_TabletCellBundles u) (us_MasterMonitoringPaths u).
Definition set_us_Conditions (v : list Condition) (u : UpdateStatus) : UpdateStatus :=
  mkUpdateStatus (us_State u) (us_Components u) (us_Flow u) v
    (us_TabletCellBundles u) (us_MasterMonitoringPaths u).
Definition set_us_TabletCellBundles (v : list TabletCellBundleInfo) (u : UpdateStatus) : UpdateStatus :=
  mkUpdateStatus (us_State u) (us_Components u) (us_Flow u) (us_Conditions u)
    v (us_MasterMonitoringPaths u).
Definition set_us_MasterMonitoringPaths (v : list string) (u : UpdateStatus) : UpdateStatus :=
  mkUpdateStatus (us_State u) (us_Components u) (us_Flow u) (us_Conditions u)
    (us_TabletCellBundles u) v.

Definition set_st_State (v : ClusterState) (s : YtsaurusStatus) : YtsaurusStatus :=
  mkYtsaurusStatus v (st_Conditions s) (st_UpdateStatus s).
Definition set_st_Conditions (v : list Condition) (s : YtsaurusStatus) : YtsaurusStatus :=
  mkYtsaurusStatus (st_State s) v (st_UpdateStatus s).
Definition set_st_UpdateStatus (v : UpdateStatus) (s : YtsaurusStatus) : YtsaurusStatus :=
  mkYtsaurusStatus (st_State s) (st_Conditions s) v.

Definition set_yt_Status (v : YtsaurusStatus) (y : Ytsaurus) : Ytsaurus :=
  mkYtsaurus (yt_Name y) (yt_Namespace y) (yt_Spec y) v.
Definition upd_yt_UpdateStatus (f : UpdateStatus -> UpdateStatus) (y : Ytsaurus) : Ytsaurus :=
  set_yt_Status (set_st_UpdateStatus (f (st_UpdateStatus (yt_Status y))) (yt_Status y)) y.

(** ** Lemmas on locations *)

Lemma FindFirstLocation_head locs t :
  FindFirstLocation locs t = head (FindAllLocations locs t).
Proof.
  induction locs as [|l locs IH]; [done|]. unfold FindAllLocations in *. simpl.
  rewrite filter_cons. by case_decide.
Qed.

Lemma FindFirstLocation_None locs t :
  FindFirstLocation locs t = None <-> Forall (fun l => loc_LocationType l <> t) locs.
Proof.
  induction locs as [|l locs IH]; simpl; [by split|].
  case_decide; rewrite Forall_cons; [|tauto]. split; [done|intros [? _]; done].
Qed.

(** ** Condition names: pkg/consts/conditions.go *)

Definition ConditionHasPossibility : string := "HasPossibility".
Definition ConditionNoPossibility : string := "NoPossibility".
Definition ConditionSafeModeEnabled : string := "SafeModeEnabled".
Definition ConditionTabletCellsSaved : string := "TabletCellsSaved".
Definition ConditionTabletCellsRemovingStarted : string := "TabletCellsRemovingStarted".
Definition ConditionTabletCellsRemoved : string := "TabletCellsRemoved".
Definition ConditionSnapshotsBuildingStarted : string := "SnapshotsBuildingStarted".
Definition ConditionSnapshotsMonitoringInfoSaved : string := "SnapshotsMonitoringInfoSaved".
Definition ConditionSnaphotsSaved : string := "SnaphotsSaved".
Definition ConditionTabletCellsRecovered : string := "TabletCellsRecovered".
Definition ConditionOpArchiveUpdated : string := "OpArchiveUpdated".
Definition ConditionOpArchivePreparedForUpdating : string := "OpArchivePreparedForUpdating".
Definition ConditionNotNecessaryToUpdateOpArchive : string := "NotNecessaryToUpdateOpArchive".
Definition ConditionQTStateUpdated : string := "QTStateUpdated".
Definition ConditionQTStatePreparedForUpdating : string := "QTStatePreparedForUpdating".
Definition ConditionMasterExitReadOnlyPrepared : string := "MasterExitReadOnlyPrepared".
Definition ConditionMasterExitedReadOnly : string := "MasterExitedReadOnly".
Definition ConditionSafeModeDisabled : string := "SafeModeDisabled".
