(* ===== verification/Kube.v ===== *)
(** * Kubernetes objects and the client: k8s.io/api, controller-runtime

    The objects the operator builds, with the fields it sets or reads, and the
    interface [Kube] of the client it talks to.  Neither is code of this
    repository: every operation of the client is a parameter over an abstract
    state [E] of the outside (the API server, YTsaurus, the event recorder).
    [KubeLaws] states what the reconciler relies on: an update of the status
    subresource stores the status exactly when it succeeds, and nothing else
    changes the stored status. *)

From S2P Require Import Prelude Api.

(** ** Objects *)

(** [metav1.ObjectMeta]; a nil annotation map is [None]. *)
Record ObjectMeta := mkObjectMeta {
  om_Name : string;
  om_Namespace : string;
  om_Labels : gmap string string;
  om_Annotations : option (gmap string string);
  om_ResourceVersion : string;
}.

Record ContainerPort := mkContainerPort {
  cp_Name : string;
  cp_ContainerPort : Z;
}.

(** [intstr.IntOrString]. *)
Inductive IntOrString := PortNumber (n : Z) | PortName (s : string).

(** [corev1.ProbeHandler]. *)
Inductive ProbeHandler := HTTPGet (port : IntOrString) (path : string) | TCPSocket (port : IntOrString).

(** [corev1.Probe]. *)
Record Probe := mkProbe {
  pr_ProbeHandler : ProbeHandler;
  pr_Params : HealthcheckProbeParams;
}.

Record Container := mkContainer {
  ct_Image : string;
  ct_Name : string;
  ct_Command : list string;
  ct_Args : list string;
  ct_Env : list EnvVar;
  (** Names of the secrets of [EnvFrom]. *)
  ct_EnvFrom : list string;
  ct_VolumeMounts : list VolumeMount;
  ct_Ports : list ContainerPort;
  ct_Resources : ResourceRequirements;
  ct_ReadinessProbe : option Probe;
  ct_Privileged : option bool;
}.

(** The zero value of [corev1.Container]. *)
Definition Container_zero : Container :=
  mkContainer "" "" [] [] [] [] [] [] (mkResourceRequirements None None) None None.

Record PodSpec := mkPodSpec {
  ps_RuntimeClassName : option string;
  ps_ImagePullSecrets : list LocalObjectReference;
  ps_SetHostnameAsFQDN : option bool;
  ps_EnableServiceLinks : option bool;
  ps_TerminationGracePeriodSeconds : option Z;
  ps_Containers : list Container;
  ps_InitContainers : list Container;
  ps_Volumes : list Volume;
  ps_Affinity : option Affinity;
  ps_NodeSelector : gmap string string;
  ps_Tolerations : list Toleration;
  ps_HostNetwork : bool;
  ps_DNSPolicy : string;
  ps_RestartPolicy : string;
}.

(** The zero value of [corev1.PodSpec]. *)
Definition PodSpec_zero : PodSpec :=
  mkPodSpec None [] None None None [] [] [] None ∅ [] false "" "".

Record PodTemplateSpec := mkPodTemplateSpec {
  pt_ObjectMeta : ObjectMeta;
  pt_Spec : PodSpec;
}.

(** The zero value of [metav1.ObjectMeta]. *)
Definition ObjectMeta_zero : ObjectMeta := mkObjectMeta "" "" ∅ None "".

Record StatefulSet := mkStatefulSet {
  ss_ObjectMeta : ObjectMeta;
  ss_PodManagementPolicy : string;
  ss_Selector : gmap string string;
  ss_Replicas : option Z;
  ss_ServiceName : string;
  ss_VolumeClaimTemplates : list EmbeddedPersistentVolumeClaim;
  ss_Template : PodTemplateSpec;
}.

Record Deployment := mkDeployment {
  dp_ObjectMeta : ObjectMeta;
  dp_Selector : gmap string string;
  dp_Replicas : option Z;
  dp_Template : PodTemplateSpec;
  dp_Status_Replicas : Z;
  dp_Status_AvailableReplicas : Z;
}.

Record ServicePort := mkServicePort {
  svp_Name : string;
  svp_Port : Z;
  svp_TargetPort : IntOrString;
  svp_NodePort : Z;
}.

Record Service := mkService {
  svc_ObjectMeta : ObjectMeta;
  svc_Type : string;
  svc_ClusterIP : string;
  svc_Selector : gmap string string;
  svc_Ports : list ServicePort;
}.

Record ConfigMap := mkConfigMap {
  cm_ObjectMeta : ObjectMeta;
  cm_Data : gmap string string;
}.

Record Secret := mkSecret {
  sec_ObjectMeta : ObjectMeta;
  sec_Type : string;
  sec_Data : gmap string string;
  sec_StringData : gmap string string;
}.

Record Job := mkJob {
  job_ObjectMeta : ObjectMeta;
  job_TTLSecondsAfterFinished : option Z;
  job_BackoffLimit : option Z;
  job_Template : PodTemplateSpec;
  job_Status_Succeeded : Z;
}.

(** [corev1.Pod]: its name and phase. *)
Record Pod := mkPod {
  pod_Name : string;
  pod_Phase : string;
}.

(** ** Kinds *)

Inductive Kind := KStatefulSet | KDeployment | KService | KConfigMap | KSecret | KJob.

Definition kind_type (k : Kind) : Type :=
  match k with
  | KStatefulSet => StatefulSet
  | KDeployment => Deployment
  | KService => Service
  | KConfigMap => ConfigMap
  | KSecret => Secret
  | KJob => Job
  end.

(** [obj.ObjectMeta], through Go's [client.Object] interface. *)
Definition obj_meta {k : Kind} : kind_type k -> ObjectMeta :=
  match k with
  | KStatefulSet => ss_ObjectMeta
  | KDeployment => dp_ObjectMeta
  | KService => svc_ObjectMeta
  | KConfigMap => cm_ObjectMeta
  | KSecret => sec_ObjectMeta
  | KJob => job_ObjectMeta
  end.

Definition set_obj_meta {k : Kind} (m : ObjectMeta) : kind_type k -> kind_type k :=
  match k with
  | KStatefulSet => fun s => mkStatefulSet m (ss_PodManagementPolicy s) (ss_Selector s)
      (ss_Replicas s) (ss_ServiceName s) (ss_VolumeClaimTemplates s) (ss_Template s)
  | KDeployment => fun d => mkDeployment m (dp_Selector d) (dp_Replicas d) (dp_Template d)
      (dp_Status_Replicas d) (dp_Status_AvailableReplicas d)
  | KService => fun s => mkService m (svc_Type s) (svc_ClusterIP s) (svc_Selector s) (svc_Ports s)
  | KConfigMap => fun c => mkConfigMap m (cm_Data c)
  | KSecret => fun s => mkSecret m (sec_Type s) (sec_Data s) (sec_StringData s)
  | KJob => fun j => mkJob m (job_TTLSecondsAfterFinished j) (job_BackoffLimit j)
      (job_Template j) (job_Status_Succeeded j)
  end.

(** Go's [%T] of a pointer to an object of the kind. *)
Definition kind_string (k : Kind) : string :=
  match k with
  | KStatefulSet => "*v1.StatefulSet"
  | KDeployment => "*v1.Deployment"
  | KService => "*v1.Service"
  | KConfigMap => "*v1.ConfigMap"
  | KSecret => "*v1.Secret"
  | KJob => "*v1.Job"
  end.

Definition GetName {k} (o : kind_type k) : string := om_Name (obj_meta o).
Definition GetResourceVersion {k} (o : kind_type k) : string := om_ResourceVersion (obj_meta o).

Definition SetResourceVersion {k} (v : string) (o : kind_type k) : kind_type k :=
  let m := obj_meta o in
  set_obj_meta (mkObjectMeta (om_Name m) (om_Namespace m) (om_Labels m) (om_Annotations m) v) o.

Lemma obj_meta_set {k} m (o : kind_type k) : obj_meta (set_obj_meta m o) = m.
Proof. by destruct k. Qed.

Lemma GetName_SetResourceVersion {k} v (o : kind_type k) : GetName (SetResourceVersion v o) = GetName o.
Proof. unfold GetName, SetResourceVersion. by rewrite obj_meta_set. Qed.

Lemma GetResourceVersion_Set {k} v (o : kind_type k) : GetResourceVersion (SetResourceVersion v o) = v.
Proof. unfold GetResourceVersion, SetResourceVersion. by rewrite obj_meta_set. Qed.

(** ** The client *)

Inductive GetResult (A : Type) := GetOk (a : A) | GetNotFound (e : string) | GetError (e : string).
Arguments GetOk {A} _. Arguments GetNotFound {A} _. Arguments GetError {A} _.

(** [client.Client], the status writer, the event recorder, the clock and
    [ctrl.SetControllerReference].  A successful write decodes the server's
    answer into the object, hence the object in the result of
    [client_Create] and [client_Update]. *)
Class Kube (E : Type) := {
  client_now : E -> Z;
  client_StatusUpdate : Ytsaurus -> E -> error * E;
  client_Get : forall k, string -> string -> E -> GetResult (kind_type k);
  client_ListPods : string -> gmap string string -> E -> string + list Pod;
  client_Create : forall k, kind_type k -> E -> error * kind_type k * E;
  client_Update : forall k, kind_type k -> E -> error * kind_type k * E;
  client_Delete : forall k, kind_type k -> option string -> E -> error * E;
  recorder_Event : string -> string -> string -> E -> E;
  ctrl_SetControllerReference : forall k, Ytsaurus -> kind_type k -> string + kind_type k;
}.

Class KubeLaws (E : Type) (K : Kube E) := {
  (** The status the API server holds, as it was last sent.  The server fills
      [Created] and [None] into a cluster or update state sent empty; the
      statuses the operator works on, [coherent] in Reach.v, name both. *)
  persisted : E -> YtsaurusStatus;
  status_update_ok : forall y e e', client_StatusUpdate y e = (None, e') -> persisted e' = yt_Status y;
  status_update_fail : forall y e err e',
    client_StatusUpdate y e = (Some err, e') -> persisted e' = persisted e;
  create_persisted : forall k o e, persisted (client_Create k o e).2 = persisted e;
  update_persisted : forall k o e, persisted (client_Update k o e).2 = persisted e;
  delete_persisted : forall k o p e, persisted (client_Delete k o p e).2 = persisted e;
  event_persisted : forall t r m e, persisted (recorder_Event t r m e) = persisted e;
}.

(** ** The world of one reconciliation

    The resource in memory, the heap of the operator's other variables (the
    objects fetched and built, the handles to clients) and the outside. *)

Record World (H E : Type) := mkWorld {
  resource : Ytsaurus;
  heap : H;
  ext : E;
}.
Arguments mkWorld {H E} _ _ _. Arguments resource {H E} _.
Arguments heap {H E} _. Arguments ext {H E} _.

(** ** A reference client

    Used only to instantiate the parameter: an API server that stores the
    status it is sent, knows no other object, and accepts every write. *)
Module RefKube.
#[export] Instance kube : Kube YtsaurusStatus := {|
  client_now := fun _ => 0%Z;
  client_StatusUpdate := fun y _ => (None, yt_Status y);
  client_Get := fun k _ _ _ => GetNotFound "not found";
  client_ListPods := fun _ _ _ => inr [];
  client_Create := fun k o e => (None, o, e);
  client_Update := fun k o e => (None, o, e);
  client_Delete := fun k _ _ e => (None, e);
  recorder_Event := fun _ _ _ e => e;
  ctrl_SetControllerReference := fun k _ o => inr o;
|}.

#[export] Instance kube_laws : KubeLaws YtsaurusStatus kube.
Proof. refine {| persisted := fun e => e |}; simpl; intros; by simplify_eq. Defined.
End RefKube.
