(* ===== verification/Conditions.v ===== *)
(** * Conditions: pkg/apiproxy/ytsaurus.go, [sortConditions] and its callers

    Condition lists are read and written through three functions of
    k8s.io/apimachinery/pkg/api/meta, a library outside the repository: they
    are the parameters of [ConditionMeta], and [ConditionMetaLaws] states the
    documented behaviour the operator relies on.  [sortConditions] is the
    operator's own: a stable sort (Go's [slices.SortStableFunc]) by status and
    transition time. *)

From S2P Require Import Prelude Api.
From Stdlib Require Import Sorting.

(** ** The library: [meta.SetStatusCondition] and the two queries *)

Class ConditionMeta := {
  (** The first argument is the current time. *)
  meta_SetStatusCondition : Z -> list Condition -> Condition -> list Condition;
  meta_IsStatusConditionTrue : list Condition -> string -> bool;
  meta_IsStatusConditionFalse : list Condition -> string -> bool;
}.

(** The list holds a condition of type [t] with status [s]. *)
Definition holds (l : list Condition) (t : string) (s : ConditionStatus) : Prop :=
  exists c, c ∈ l /\ cond_Type c = t /\ cond_Status c = s.

(** Conditions are a list map keyed by type (+listMapKey=type in the API). *)
Definition conditions_wf (l : list Condition) : Prop := NoDup (cond_Type <$> l).

Class ConditionMetaLaws (CM : ConditionMeta) := {
  set_wf : forall now l c, conditions_wf l -> conditions_wf (meta_SetStatusCondition now l c);
  set_holds : forall now l c t s, conditions_wf l ->
    holds (meta_SetStatusCondition now l c) t s <->
    if decide (t = cond_Type c) then s = cond_Status c else holds l t s;
  is_true_spec : forall l t, conditions_wf l ->
    meta_IsStatusConditionTrue l t = true <-> holds l t ConditionTrue;
  is_false_spec : forall l t, conditions_wf l ->
    meta_IsStatusConditionFalse l t = true <-> holds l t ConditionFalse;
}.

(** ** [sortConditions] *)

(** [slices.Index(statusOrder, status)]. *)
Definition status_index (s : ConditionStatus) : Z :=
  match s with ConditionTrue => 0 | ConditionFalse => 1 | ConditionUnknown => 2 end.

(** [cmp.Compare] on integers. *)
Definition cmp_Compare (a b : Z) : Z :=
  if (a <? b)%Z then -1 else if (b <? a)%Z then 1 else 0.

(** The comparison function passed to [slices.SortStableFunc]. *)
Definition compare_conditions (a b : Condition) : Z :=
  let diff := cmp_Compare (status_index (cond_Status a)) (status_index (cond_Status b)) in
  if negb (diff =? 0)%Z then diff
  else cmp_Compare (cond_LastTransitionTime a) (cond_LastTransitionTime b).

(** Go's [slices.SortStableFunc]: the stable sort of a list. *)
Fixpoint insert_stable {A} (cmp : A -> A -> Z) (x : A) (l : list A) : list A :=
  match l with
  | [] => [x]
  | y :: l' => if (cmp x y <=? 0)%Z then x :: y :: l' else y :: insert_stable cmp x l'
  end.

Definition SortStableFunc {A} (cmp : A -> A -> Z) (l : list A) : list A :=
  foldr (insert_stable cmp) [] l.

Definition sortConditions (conditions : list Condition) : list Condition :=
  SortStableFunc compare_conditions conditions.

(** ** The comparison is a total preorder *)

Definition cond_le (a b : Condition) : Prop := (compare_conditions a b <= 0)%Z.

Lemma compare_conditions_spec a b :
  cond_le a b <->
  (status_index (cond_Status a) < status_index (cond_Status b) \/
   status_index (cond_Status a) = status_index (cond_Status b) /\
   cond_LastTransitionTime a <= cond_LastTransitionTime b)%Z.
Proof.
  unfold cond_le, compare_conditions, cmp_Compare.
  repeat (case_match; try lia).
Qed.

(** The order the operator wants, without reference to the comparison: what is
    true comes before what is false, and both before the unknown; of two
    conditions with the same status, the older one. *)
Inductive status_before : ConditionStatus -> ConditionStatus -> Prop :=
| true_before_false : status_before ConditionTrue ConditionFalse
| true_before_unknown : status_before ConditionTrue ConditionUnknown
| false_before_unknown : status_before ConditionFalse ConditionUnknown.

Definition in_condition_order (a b : Condition) : Prop :=
  status_before (cond_Status a) (cond_Status b) \/
  cond_Status a = cond_Status b /\ (cond_LastTransitionTime a <= cond_LastTransitionTime b)%Z.

Lemma status_index_before s t : (status_index s < status_index t)%Z <-> status_before s t.
Proof. split; [|by intros []]. destruct s, t; simpl; try lia; constructor. Qed.

#[export] Instance status_index_inj : Inj (=) (=) status_index.
Proof. by intros [] []. Qed.

Lemma cond_le_order a b : cond_le a b <-> in_condition_order a b.
Proof.
  rewrite compare_conditions_spec, status_index_before. unfold in_condition_order.
  split; (intros [?|[Hs ?]]; [by left|right; split; [|done]]); [by apply (inj status_index)|by f_equal].
Qed.

#[export] Instance cond_le_trans : Transitive cond_le.
Proof. intros a b c. rewrite !compare_conditions_spec. lia. Qed.

Lemma cond_le_total a b : cond_le a b \/ cond_le b a.
Proof. rewrite !compare_conditions_spec. lia. Qed.

(** ** Sorting keeps the conditions, orders them and is stable *)

Lemma insert_stable_perm {A} (cmp : A -> A -> Z) x l : insert_stable cmp x l ≡ₚ x :: l.
Proof.
  induction l as [|y l IH]; [done|]. simpl. case_match; [done|].
  rewrite IH. apply perm_swap.
Qed.

Lemma SortStableFunc_perm {A} (cmp : A -> A -> Z) l : SortStableFunc cmp l ≡ₚ l.
Proof. induction l as [|x l IH]; [done|]. simpl. by rewrite insert_stable_perm, IH. Qed.

Lemma insert_stable_sorted x l :
  StronglySorted cond_le l -> StronglySorted cond_le (insert_stable compare_conditions x l).
Proof.
  induction 1 as [|y l Hs IH Hy]; [repeat constructor|]. simpl.
  destruct (compare_conditions x y <=? 0)%Z eqn:E.
  - apply Z.leb_le in E. repeat constructor; try done.
    rewrite Forall_forall in *. intros z Hz. transitivity y; [done|by apply Hy].
  - apply Z.leb_gt in E. constructor; [done|]. rewrite Forall_forall in *.
    intros z. rewrite (insert_stable_perm compare_conditions x l). rewrite elem_of_cons.
    intros [->|Hz]; [|by apply Hy]. destruct (cond_le_total y x); [done|unfold cond_le in *; lia].
Qed.

Lemma sortConditions_sorted l : StronglySorted cond_le (sortConditions l).
Proof. unfold sortConditions. induction l; simpl; [constructor|by apply insert_stable_sorted]. Qed.

Lemma sortConditions_ordered l : StronglySorted in_condition_order (sortConditions l).
Proof.
  induction (sortConditions_sorted l) as [|c l' _ IH Hc]; constructor; [done|].
  eapply Forall_impl; [exact Hc|]. by intros ? ?%cond_le_order.
Qed.

(** Equal keys: same status and same transition time. *)
Definition cond_key (c : Condition) : Z * Z :=
  (status_index (cond_Status c), cond_LastTransitionTime c).

Lemma insert_stable_filter k x l :
  List.filter (fun c => bool_decide (cond_key c = k)) (insert_stable compare_conditions x l) =
  List.filter (fun c => bool_decide (cond_key c = k)) (x :: l).
Proof.
  induction l as [|y l IH]; [done|]. simpl insert_stable.
  destruct (compare_conditions x y <=? 0)%Z eqn:E; [done|]. simpl in *. rewrite IH.
  destruct (bool_decide (cond_key x = k)) eqn:Hx; [|done].
  destruct (bool_decide (cond_key y = k)) eqn:Hy; [|done].
  apply bool_decide_eq_true in Hx, Hy. apply Z.leb_gt in E.
  assert (cond_le x y); [|unfold cond_le in *; lia].
  apply compare_conditions_spec. unfold cond_key in *. right. split; [|apply Z.eq_le_incl]; congruence.
Qed.

Lemma sortConditions_stable k l :
  List.filter (fun c => bool_decide (cond_key c = k)) (sortConditions l) =
  List.filter (fun c => bool_decide (cond_key c = k)) l.
Proof.
  unfold sortConditions. induction l as [|x l IH]; [done|].
  change (SortStableFunc compare_conditions (x :: l)) with
    (insert_stable compare_conditions x (SortStableFunc compare_conditions l)).
  rewrite insert_stable_filter. simpl. by rewrite IH.
Qed.

Lemma holds_perm l l' t s : l ≡ₚ l' -> holds l t s <-> holds l' t s.
Proof. intros Hp. unfold holds. by setoid_rewrite Hp. Qed.

#[export] Instance conditions_wf_proper : Proper ((≡ₚ) ==> iff) conditions_wf.
Proof. intros l l' Hp. unfold conditions_wf. by rewrite Hp. Qed.

Lemma sortConditions_wf l : conditions_wf (sortConditions l) <-> conditions_wf l.
Proof. unfold sortConditions. by rewrite SortStableFunc_perm. Qed.

Lemma sortConditions_holds l t s : holds (sortConditions l) t s <-> holds l t s.
Proof. apply holds_perm, SortStableFunc_perm. Qed.

(** A condition type holds at most one status. *)
Lemma holds_functional l t s s' :
  conditions_wf l -> holds l t s -> holds l t s' -> s = s'.
Proof.
  unfold conditions_wf. intros Hnd (c & Hc & <- & <-) (c' & Hc' & Ht & <-).
  apply list_elem_of_lookup in Hc as [i Hi], Hc' as [j Hj].
  assert (i = j) as ->; [|congruence].
  eapply NoDup_lookup; [done| |]; rewrite list_lookup_fmap; [by rewrite Hi|].
  rewrite Hj. simpl. by rewrite Ht.
Qed.

(** ** A reference implementation of the library

    Used only to instantiate the parameter: it updates the condition of the
    given type in place, moving the transition time when the status changes,
    or appends the condition. *)
Module RefMeta.
Fixpoint set_condition (now : Z) (l : list Condition) (c : Condition) : list Condition :=
  match l with
  | [] => [mkCondition (cond_Type c) (cond_Status c) now (cond_Reason c) (cond_Message c)]
  | x :: l' =>
      if decide (cond_Type x = cond_Type c) then
        mkCondition (cond_Type c) (cond_Status c)
          (if decide (cond_Status x = cond_Status c) then cond_LastTransitionTime x else now)
          (cond_Reason c) (cond_Message c) :: l'
      else x :: set_condition now l' c
  end.

Definition has_status (s : ConditionStatus) (l : list Condition) (t : string) : bool :=
  existsb (fun c => bool_decide (cond_Type c = t) && bool_decide (cond_Status c = s)) l.

#[export] Instance meta : ConditionMeta := {|
  meta_SetStatusCondition := set_condition;
  meta_IsStatusConditionTrue := has_status ConditionTrue;
  meta_IsStatusConditionFalse := has_status ConditionFalse;
|}.

Lemma set_condition_types now l c t :
  t ∈ cond_Type <$> set_condition now l c <-> t = cond_Type c \/ t ∈ cond_Type <$> l.
Proof.
  induction l as [|x l IH]; simpl; [set_solver|].
  case_decide as E; simpl; rewrite !elem_of_cons; [rewrite <- E|rewrite IH]; tauto.
Qed.

Lemma set_condition_wf now l c : conditions_wf l -> conditions_wf (set_condition now l c).
Proof.
  unfold conditions_wf. induction l as [|x l IH]; simpl; [intros _; apply NoDup_singleton|].
  rewrite NoDup_cons. intros [Hx Hl].
  case_decide as E; simpl; rewrite NoDup_cons; [by rewrite <- E|].
  split; [rewrite set_condition_types; intros [?|?]; auto|auto].
Qed.

Lemma holds_cons x l t s :
  holds (x :: l) t s <-> (cond_Type x = t /\ cond_Status x = s) \/ holds l t s.
Proof.
  unfold holds. setoid_rewrite elem_of_cons. split.
  - intros (c & [->|?] & ? & ?); [by left|right; eauto].
  - intros [[? ?]|(c & ? & ? & ?)]; eauto.
Qed.

Lemma holds_type l t s : holds l t s -> t ∈ cond_Type <$> l.
Proof. intros (c & ? & <- & _). by apply list_elem_of_fmap_2. Qed.

Lemma set_condition_holds now l c t s :
  conditions_wf l ->
  holds (set_condition now l c) t s <->
  if decide (t = cond_Type c) then s = cond_Status c else holds l t s.
Proof.
  unfold conditions_wf. induction l as [|x l IH]; simpl.
  - intros _. rewrite holds_cons; simpl. unfold holds. case_decide; split.
    + intros [[? ?]|(? & []%elem_of_nil & _)]; done.
    + intros ->. by left.
    + intros [[? ?]|(? & []%elem_of_nil & _)]; congruence.
    + intros (? & []%elem_of_nil & _).
  - rewrite NoDup_cons. intros [Hx Hl]. specialize (IH Hl).
    destruct (decide (cond_Type x = cond_Type c)) as [E|E]; rewrite holds_cons; simpl; [|rewrite IH];
      case_decide as E2; rewrite ?holds_cons; try subst t; try intuition congruence.
    rewrite E in Hx. split; [intros [[_ ?]|H%holds_type]; [done|by destruct Hx]|].
    intros ->. by left.
Qed.

Lemma has_status_spec s l t : has_status s l t = true <-> holds l t s.
Proof.
  unfold has_status, holds. rewrite existsb_exists. setoid_rewrite list_elem_of_In.
  setoid_rewrite andb_true_iff. setoid_rewrite bool_decide_eq_true. naive_solver.
Qed.

#[export] Instance meta_laws : ConditionMetaLaws meta.
Proof.
  split; simpl; auto using set_condition_wf, set_condition_holds, has_status_spec.
Qed.
End RefMeta.

(** ** Theorem *)

Lemma filter_key s t (l : list Condition) :
  List.filter (fun c => bool_decide (cond_key c = (status_index s, t))) l =
  filter (fun c => cond_Status c = s /\ cond_LastTransitionTime c = t) l.
Proof.
  induction l as [|c l IH]; [done|]. rewrite filter_cons. simpl. rewrite IH. unfold cond_key.
  case_bool_decide as Hk; case_decide as Hc; [done| | |done].
  - destruct Hc. injection Hk as Hs Ht. split; [by apply (inj status_index)|done].
  - destruct Hk. by destruct Hc as [-> ->].
Qed.

(** C3. [sortConditions] returns the same conditions, ordered by status (what
    is true before what is false, and the unknown last) and then by transition
    time, oldest first, and keeps the relative order of conditions with the same
    status and time (it is the stable sort); a lookup by type and status
    therefore answers the same before and after. *)
Theorem sortConditions_correct (l : list Condition) :
  sortConditions l ≡ₚ l /\
  StronglySorted in_condition_order (sortConditions l) /\
  (forall s t,
     filter (fun c => cond_Status c = s /\ cond_LastTransitionTime c = t) (sortConditions l) =
     filter (fun c => cond_Status c = s /\ cond_LastTransitionTime c = t) l) /\
  (forall t s, holds (sortConditions l) t s <-> holds l t s).
Proof.
  split; [apply SortStableFunc_perm|].
  split; [apply sortConditions_ordered|].
  split; [intros s t; rewrite <- !filter_key; apply sortConditions_stable|].
  intros t s. apply sortConditions_holds.
Qed.
