(* ===== verification/Samples.v ===== *)
(** * Concrete resources for the witnesses

    A small specification and its parts, used to instantiate the theorems. *)

From S2P Require Import Prelude Api.

Definition sample_InstanceSpec : InstanceSpec :=
  mkInstanceSpec None [] [] [] None (mkResourceRequirements None None) 1 None
    [mkLocationSpec LocationTypeChunkStore "/yt/data" "default" None None None] [] None None None
    (Some 10012%Z) [] [] None ∅ [] ∅ ∅ None None None.

Definition sample_CommonSpec : CommonSpec :=
  mkCommonSpec "ytsaurus:dev" None None None false true false None None true false false
    None None [].

Definition sample_Masters : MastersSpec :=
  mkMastersSpec sample_InstanceSpec (mkMasterConnectionSpec 1 []) "" None None [].

Definition sample_HTTPProxy : HTTPProxiesSpec :=
  mkHTTPProxiesSpec sample_InstanceSpec "NodePort" None None "default"
    (mkHTTPTransportSpec None false).

Definition sample_DataNodes : DataNodesSpec :=
  mkDataNodesSpec sample_InstanceSpec (mkClusterNodesSpec [] "") "".

Definition sample_TabletNodes : TabletNodesSpec :=
  mkTabletNodesSpec sample_InstanceSpec (mkClusterNodesSpec [] "") "".

Definition sample_Spec (full : bool) (selector : UpdateSelector) : YtsaurusSpec :=
  mkYtsaurusSpec sample_CommonSpec "ui:dev" None None true full selector None
    sample_InstanceSpec sample_Masters [] None [sample_HTTPProxy] [] [] [sample_DataNodes] []
    (Some sample_InstanceSpec) (Some sample_InstanceSpec) [sample_TabletNodes] None None None None
    None None None.

Definition sample_UpdateStatus : UpdateStatus :=
  mkUpdateStatus UpdateStateNone None UpdateFlowNone [] [] [].

Definition sample_Status (s : ClusterState) : YtsaurusStatus :=
  mkYtsaurusStatus s [] sample_UpdateStatus.

Definition sample_Ytsaurus (s : ClusterState) : Ytsaurus :=
  mkYtsaurus "minisaurus" "default" (sample_Spec true UpdateSelectorUnspecified) (sample_Status s).
