(* ===== verification/UpdateFlow.v ===== *)
(** * Choosing an update flow: controllers/sync.go

    [chooseUpdateFlow] classifies the components that need an update and
    decides, from the update selector of the spec, which flow runs and which
    components it touches.  The definitions follow the Go loop, with its
    accumulators; the theorems relate it to a reference written with filters
    and state what an accepted flow may and may not touch. *)

From S2P Require Import Prelude Api Samples.

(** [updateMeta]: the chosen flow and the names of the components to update. *)
Record updateMeta := mkUpdateMeta {
  flow : UpdateFlow;
  componentNames : slice string;
}.

(** The zero value [updateMeta{}]. *)
Definition updateMeta_zero : updateMeta := mkUpdateMeta UpdateFlowNone None.

(** The local variables of the loop of [chooseUpdateFlow]. *)
Record flowScan := mkFlowScan {
  masterNeedsUpdate : bool;
  tabletNodesNeedUpdate : bool;
  execNodesNeedUpdate : bool;
  statelessNeedUpdate : bool;
  masterNames : slice string;
  tabletNodeNames : slice string;
  execNodeNames : slice string;
  statelessNames : slice string;
}.

Definition flowScan_zero : flowScan :=
  mkFlowScan false false false false None None None None.

(** The string constants returned as [blockMsg]. *)
Definition msgFullUpdateNotAllowed : string :=
  "Full update is not allowed by enableFullUpdate field, ignoring it".
Definition msgNothing : string := "All updates are blocked by updateSelector field.".
Definition msgMasterOnly : string :=
  "Only Master update is allowed by updateSelector, but it doesn't need update".
Definition msgTabletNodesOnly : string :=
  "Only Tablet nodes update is allowed by updateSelector, but they don't need update".
Definition msgExecNodesOnly : string :=
  "Only Exec nodes update is allowed by updateSelector, but they don't need update".
Definition msgStatelessOnly : string :=
  "Only stateless components update is allowed by updateSelector, but they don't need update".

Section Choose.
(** The functions read two methods of Go's [Component] interface. *)
Context {C : Type} (GetType : C -> ComponentType) (GetName : C -> string).

Definition getComponentNames (components : slice C) : slice string :=
  match components with
  | None => None
  | Some cs => Some (fold_left (fun names cmp => names ++ [GetName cmp]) cs [])
  end.

(** One iteration of the loop over [needUpdate]. *)
Definition scan_component (a : flowScan) (comp : C) : flowScan :=
  if decide (GetType comp = MasterType) then
    mkFlowScan true (tabletNodesNeedUpdate a) (execNodesNeedUpdate a) (statelessNeedUpdate a)
      (go_append (masterNames a) (GetName comp)) (tabletNodeNames a) (execNodeNames a)
      (statelessNames a)
  else if decide (GetType comp = TabletNodeType) then
    mkFlowScan (masterNeedsUpdate a) true (execNodesNeedUpdate a) (statelessNeedUpdate a)
      (masterNames a) (go_append (tabletNodeNames a) (GetName comp)) (execNodeNames a)
      (statelessNames a)
  else
    let a :=
      if decide (GetType comp = ExecNodeType) then
        mkFlowScan (masterNeedsUpdate a) (tabletNodesNeedUpdate a) true (statelessNeedUpdate a)
          (masterNames a) (tabletNodeNames a) (go_append (execNodeNames a) (GetName comp))
          (statelessNames a)
      else a in
    mkFlowScan (masterNeedsUpdate a) (tabletNodesNeedUpdate a) (execNodesNeedUpdate a) true
      (masterNames a) (tabletNodeNames a) (execNodeNames a)
      (go_append (statelessNames a) (GetName comp)).

(** [chooseUpdateFlow(spec, needUpdate)]: the meta and the blocking message. *)
Definition chooseUpdateFlow (spec : YtsaurusSpec) (needUpdate : slice C) : updateMeta * string :=
  let isFullUpdateEnabled := sp_EnableFullUpdate spec in
  let configuredSelector := sp_UpdateSelector spec in
  let a := fold_left scan_component (elems needUpdate) flowScan_zero in
  let statefulNeedUpdate := masterNeedsUpdate a || tabletNodesNeedUpdate a in
  let allNamesNeedingUpdate := getComponentNames needUpdate in
  if decide (configuredSelector = UpdateSelectorUnspecified) then
    if statefulNeedUpdate then
      if isFullUpdateEnabled then (mkUpdateMeta UpdateFlowFull None, "")
      else (mkUpdateMeta UpdateFlowNone None, msgFullUpdateNotAllowed)
    else (mkUpdateMeta UpdateFlowStateless allNamesNeedingUpdate, "")
  else
    match configuredSelector with
    | UpdateSelectorNothing => (updateMeta_zero, msgNothing)
    | UpdateSelectorEverything =>
        if statefulNeedUpdate then (mkUpdateMeta UpdateFlowFull None, "")
        else (mkUpdateMeta UpdateFlowStateless allNamesNeedingUpdate, "")
    | UpdateSelectorMasterOnly =>
        if negb (masterNeedsUpdate a) then (updateMeta_zero, msgMasterOnly)
        else (mkUpdateMeta UpdateFlowMaster (masterNames a), "")
    | UpdateSelectorTabletNodesOnly =>
        if negb (tabletNodesNeedUpdate a) then (updateMeta_zero, msgTabletNodesOnly)
        else (mkUpdateMeta UpdateFlowTabletNodes (tabletNodeNames a), "")
    | UpdateSelectorExecNodesOnly =>
        if negb (execNodesNeedUpdate a) then (updateMeta_zero, msgExecNodesOnly)
        else (mkUpdateMeta UpdateFlowStateless (execNodeNames a), "")
    | UpdateSelectorStatelessOnly =>
        if negb (statelessNeedUpdate a) then (updateMeta_zero, msgStatelessOnly)
        else (mkUpdateMeta UpdateFlowStateless (statelessNames a), "")
    | UpdateSelectorUnspecified => (updateMeta_zero, "Unexpected update selector ")
    | UpdateSelectorOther s => (updateMeta_zero, ("Unexpected update selector " +:+ s)%string)
    end.

(** ** The reference: filters instead of accumulators *)

Definition is_stateful (t : ComponentType) : bool :=
  bool_decide (t = MasterType) || bool_decide (t = TabletNodeType).

Definition names_of (p : ComponentType -> bool) (cs : list C) : list string :=
  GetName <$> List.filter (fun c => p (GetType c)) cs.

(** The component types a selector lets the operator update. *)
Definition selector_allows (sel : UpdateSelector) (t : ComponentType) : bool :=
  match sel with
  | UpdateSelectorUnspecified | UpdateSelectorEverything => true
  | UpdateSelectorMasterOnly => bool_decide (t = MasterType)
  | UpdateSelectorTabletNodesOnly => bool_decide (t = TabletNodeType)
  | UpdateSelectorExecNodesOnly => bool_decide (t = ExecNodeType)
  | UpdateSelectorStatelessOnly => negb (is_stateful t)
  | UpdateSelectorNothing | UpdateSelectorOther _ => false
  end.

(** The promise of [chooseUpdateFlow]: the names allowed by the selector, or
    all components (a nil list) when a stateful component must be updated
    and nothing narrower was asked for. *)
Definition flow_spec (sel : UpdateSelector) (full : bool) (cs : list C)
    : option (UpdateFlow * slice string) :=
  let stateful := existsb (fun c => is_stateful (GetType c)) cs in
  let chosen := names_of (selector_allows sel) cs in
  match sel with
  | UpdateSelectorUnspecified =>
      if stateful then (if full then Some (UpdateFlowFull, None) else None)
      else Some (UpdateFlowStateless, Some chosen)
  | UpdateSelectorEverything =>
      if stateful then Some (UpdateFlowFull, None) else Some (UpdateFlowStateless, Some chosen)
  | UpdateSelectorNothing | UpdateSelectorOther _ => None
  | _ =>
      match chosen with
      | [] => None
      | _ =>
          Some (match sel with
                | UpdateSelectorMasterOnly => UpdateFlowMaster
                | UpdateSelectorTabletNodesOnly => UpdateFlowTabletNodes
                | _ => UpdateFlowStateless
                end, Some chosen)
      end
  end.

(** What the Go result says: [None] when the update is blocked. *)
Definition choice (r : updateMeta * string) : option (UpdateFlow * slice string) :=
  if decide (r.2 = "") then Some (flow r.1, componentNames r.1) else None.

(** ** The scan computes filters *)

Definition slice_of (l : list string) : slice string :=
  match l with [] => None | _ => Some l end.

Lemma go_append_slice_of l x : go_append (slice_of l) x = slice_of (l ++ [x]).
Proof. by destruct l. Qed.

Definition scan_of (cs : list C) : flowScan :=
  let m := names_of (fun t => bool_decide (t = MasterType)) cs in
  let t := names_of (fun t => bool_decide (t = TabletNodeType)) cs in
  let e := names_of (fun t => bool_decide (t = ExecNodeType)) cs in
  let s := names_of (fun t => negb (is_stateful t)) cs in
  mkFlowScan (bool_decide (m <> [])) (bool_decide (t <> [])) (bool_decide (e <> []))
    (bool_decide (s <> [])) (slice_of m) (slice_of t) (slice_of e) (slice_of s).

Lemma names_of_app p cs cs' : names_of p (cs ++ cs') = names_of p cs ++ names_of p cs'.
Proof. unfold names_of. by rewrite List.filter_app, fmap_app. Qed.

Lemma names_of_snoc p cs c :
  names_of p (cs ++ [c]) = names_of p cs ++ (if p (GetType c) then [GetName c] else []).
Proof. rewrite names_of_app. unfold names_of at 2. simpl. by destruct (p (GetType c)). Qed.

Lemma snoc_nonempty {A} (l : list A) x : bool_decide (l ++ [x] <> []) = true.
Proof. apply bool_decide_eq_true_2. by destruct l. Qed.

Lemma scan_of_snoc cs c : scan_of (cs ++ [c]) = scan_component (scan_of cs) c.
Proof.
  unfold scan_of, scan_component. cbv zeta. rewrite !names_of_snoc.
  destruct (GetType c) eqn:Hc; simpl; unfold is_stateful; simpl;
    rewrite ?app_nil_r, ?snoc_nonempty, ?go_append_slice_of; reflexivity.
Qed.

Lemma scan_spec cs : fold_left scan_component cs flowScan_zero = scan_of cs.
Proof.
  induction cs as [|c cs IH] using rev_ind; [done|].
  by rewrite fold_left_app, IH, scan_of_snoc.
Qed.

Lemma getComponentNames_spec (s : slice C) :
  getComponentNames s = match s with None => None | Some cs => Some (GetName <$> cs) end.
Proof.
  destruct s as [cs|]; [|done]. simpl. f_equal.
  induction cs as [|c cs IH] using rev_ind; [done|].
  by rewrite fold_left_app, IH, fmap_app.
Qed.

Lemma names_of_nil_iff p cs : names_of p cs = [] <-> existsb (fun c => p (GetType c)) cs = false.
Proof.
  unfold names_of. induction cs as [|c cs IH]; simpl; [done|].
  destruct (p (GetType c)); simpl; [done|]. by rewrite IH.
Qed.

Lemma names_of_nonempty p cs :
  bool_decide (names_of p cs <> []) = existsb (fun c => p (GetType c)) cs.
Proof.
  destruct (existsb _ cs) eqn:E.
  - apply bool_decide_eq_true_2. intros H%names_of_nil_iff. congruence.
  - apply bool_decide_eq_false_2. intros H. by apply H, names_of_nil_iff.
Qed.

Lemma existsb_orb (p q : C -> bool) cs :
  existsb (fun c => p c || q c) cs = existsb p cs || existsb q cs.
Proof. induction cs as [|c cs IH]; simpl; [done|]. rewrite IH. by destruct (p c), (q c), (existsb p cs). Qed.

Lemma names_of_true cs : names_of (fun _ => true) cs = GetName <$> cs.
Proof. unfold names_of. induction cs; simpl; [done|]. by f_equal. Qed.

(** The named result of a non-empty selection. *)
Lemma choice_selected p cs f msg :
  msg <> "" ->
  choice (if negb (existsb (fun c => p (GetType c)) cs) then (updateMeta_zero, msg)
          else (mkUpdateMeta f (slice_of (names_of p cs)), "")) =
  match names_of p cs with [] => None | _ => Some (f, Some (names_of p cs)) end.
Proof.
  intros Hmsg. destruct (names_of p cs) as [|x l] eqn:E.
  - apply names_of_nil_iff in E. rewrite E. unfold choice. simpl. by rewrite decide_False.
  - destruct (existsb _ cs) eqn:Ex; [done|]. apply names_of_nil_iff in Ex. congruence.
Qed.
End Choose.

(** ** Theorems *)

Section Theorems.
Context {C : Type} (GetType : C -> ComponentType) (GetName : C -> string).

Lemma chooseUpdateFlow_ok (spec : YtsaurusSpec) (cs : list C) :
  choice (chooseUpdateFlow GetType GetName spec (Some cs)) =
  flow_spec GetType GetName (sp_UpdateSelector spec) (sp_EnableFullUpdate spec) cs.
Proof.
  unfold chooseUpdateFlow. simpl elems. rewrite scan_spec, getComponentNames_spec.
  unfold scan_of; cbn [masterNeedsUpdate tabletNodesNeedUpdate execNodesNeedUpdate
    statelessNeedUpdate masterNames tabletNodeNames execNodeNames statelessNames].
  rewrite !names_of_nonempty, <- existsb_orb.
  change (fun c => bool_decide (GetType c = MasterType) || bool_decide (GetType c = TabletNodeType))
    with (fun c => is_stateful (GetType c)).
  set (full := sp_EnableFullUpdate spec).
  destruct (sp_UpdateSelector spec); cbv beta zeta.
  - destruct (existsb _ cs) eqn:E; unfold flow_spec; rewrite E; [by destruct full|].
    unfold selector_allows. by rewrite names_of_true.
  - reflexivity.
  - rewrite decide_False by done. by exact (choice_selected GetType GetName (fun t => negb (is_stateful t))
      cs UpdateFlowStateless msgStatelessOnly ltac:(done)).
  - rewrite decide_False by done. by exact (choice_selected GetType GetName (fun t => bool_decide (t = MasterType))
      cs UpdateFlowMaster msgMasterOnly ltac:(done)).
  - rewrite decide_False by done. by exact (choice_selected GetType GetName (fun t => bool_decide (t = TabletNodeType))
      cs UpdateFlowTabletNodes msgTabletNodesOnly ltac:(done)).
  - rewrite decide_False by done. by exact (choice_selected GetType GetName (fun t => bool_decide (t = ExecNodeType))
      cs UpdateFlowStateless msgExecNodesOnly ltac:(done)).
  - destruct (existsb _ cs) eqn:E; unfold flow_spec; rewrite E; [reflexivity|].
    unfold selector_allows. by rewrite names_of_true.
  - reflexivity.
Qed.

Lemma names_of_in p n (cs : list C) :
  n ∈ names_of GetType GetName p cs -> exists c, c ∈ cs /\ GetName c = n /\ p (GetType c) = true.
Proof.
  unfold names_of. intros (c & -> & [Hin Hp]%list_elem_of_In%filter_In)%list_elem_of_fmap.
  exists c. by rewrite list_elem_of_In.
Qed.

Lemma choice_accepted (r : updateMeta * string) meta :
  r = (meta, "") -> choice r = Some (flow meta, componentNames meta).
Proof. by intros ->. Qed.

Lemma flow_spec_safe sel full (cs : list C) f ns :
  flow_spec GetType GetName sel full cs = Some (f, ns) ->
  f <> UpdateFlowNone /\
  match ns with
  | None =>
      f = UpdateFlowFull /\
      (exists c, c ∈ cs /\ is_stateful (GetType c) = true) /\
      (sel = UpdateSelectorEverything \/ sel = UpdateSelectorUnspecified /\ full = true)
  | Some ns =>
      f <> UpdateFlowFull /\
      forall n, n ∈ ns -> exists c, c ∈ cs /\ GetName c = n /\
        selector_allows sel (GetType c) = true /\
        (f = UpdateFlowStateless -> is_stateful (GetType c) = false)
  end.
Proof.
  unfold flow_spec. intros H.
  destruct (existsb (fun c => is_stateful (GetType c)) cs) eqn:Est.
  - apply existsb_exists in Est as (c & Hin%list_elem_of_In & Hc).
    destruct sel, full; try (destruct (names_of _ _ _ _) eqn:En);
      simplify_eq; (split; [done|]); try (split; [done|]; split; [by exists c|by auto]).
    all: split; [done|]; rewrite <- En; intros n (c' & ? & ? & Hp)%names_of_in; exists c'.
    all: repeat split; try done; intros ?; revert Hp; simpl; by destruct (GetType c').
  - assert (Hno : forall c, c ∈ cs -> is_stateful (GetType c) = false).
    { intros c Hin%list_elem_of_In. destruct (is_stateful (GetType c)) eqn:E; [|done].
      assert (existsb (fun c => is_stateful (GetType c)) cs = true); [|congruence].
      apply existsb_exists. by exists c. }
    destruct sel; try (destruct (names_of _ _ _ _) eqn:En); simplify_eq; (split; [done|]).
    all: split; [done|]; try rewrite <- En; intros n (c' & ? & ? & Hp)%names_of_in; exists c'.
    all: repeat split; auto.
Qed.

(** C1. [chooseUpdateFlow] implements its specification: for every selector,
    the single pass with accumulators accepts exactly when the reference
    does, with the same flow and the same component names; in particular
    only components allowed by the selector are named, and all of them. *)
Theorem chooseUpdateFlow_refines (spec : YtsaurusSpec) (cs : list C) :
  choice (chooseUpdateFlow GetType GetName spec (Some cs)) =
  flow_spec GetType GetName (sp_UpdateSelector spec) (sp_EnableFullUpdate spec) cs.
Proof. apply chooseUpdateFlow_ok. Qed.

(** C2. Safety of an accepted update: a chosen flow is never the empty flow;
    the component list is nil exactly for the full flow, which is chosen
    only when a master or tablet node needs an update and the selector is
    [Everything], or unset with full updates enabled; every other flow names
    only components that need an update and that the selector allows, and
    the stateless flow never names a master or a tablet node. *)
Theorem chooseUpdateFlow_safe (spec : YtsaurusSpec) (cs : list C) (meta : updateMeta)
    (Hacc : chooseUpdateFlow GetType GetName spec (Some cs) = (meta, "")) :
  flow meta <> UpdateFlowNone /\
  match componentNames meta with
  | None =>
      flow meta = UpdateFlowFull /\
      (exists c, c ∈ cs /\ is_stateful (GetType c) = true) /\
      (sp_UpdateSelector spec = UpdateSelectorEverything \/
       sp_UpdateSelector spec = UpdateSelectorUnspecified /\ sp_EnableFullUpdate spec = true)
  | Some ns =>
      flow meta <> UpdateFlowFull /\
      forall n, n ∈ ns -> exists c, c ∈ cs /\ GetName c = n /\
        selector_allows (sp_UpdateSelector spec) (GetType c) = true /\
        (flow meta = UpdateFlowStateless -> is_stateful (GetType c) = false)
  end.
Proof. apply choice_accepted in Hacc. rewrite chooseUpdateFlow_ok in Hacc. by eapply flow_spec_safe. Qed.
End Theorems.

(** A master that needs an update, on a specification that allows full
    updates: the full flow is accepted. *)
Lemma chooseUpdateFlow_safe_witness :
  let GetType := fun t : ComponentType => t in
  let meta := mkUpdateMeta UpdateFlowFull None in
  chooseUpdateFlow GetType ComponentType_string (sample_Spec true UpdateSelectorUnspecified)
    (Some [MasterType; ExecNodeType]) = (meta, "") /\
  flow meta <> UpdateFlowNone.
Proof.
  intros GetType meta. split; [reflexivity|].
  exact (proj1 (chooseUpdateFlow_safe GetType ComponentType_string
    (sample_Spec true UpdateSelectorUnspecified) [MasterType; ExecNodeType] meta eq_refl)).
Defined.
