(* ===== verification/CellId.v ===== *)
(** * Cell identifiers and tokens: pkg/ytconfig/cell_id.go

    [generateCellID] packs a cell tag into a fixed UUID and prints it as a YT
    object identifier; [RandString] prints random bytes in unpadded URL-safe
    base64.  A byte is a [Z] between 0 and 255. *)

From S2P Require Import Prelude.

Definition is_byte (b : Z) : Prop := (0 <= b < 256)%Z.

(** ** Formatting *)

(** [fmt.Sprintf("%02x", b)]. *)
Definition hex_digit (d : Z) : Ascii.ascii :=
  Ascii.ascii_of_nat (Z.to_nat (if (d <? 10)%Z then 48 + d else 87 + d)).
Definition hex_byte (b : Z) : string :=
  String (hex_digit (b / 16)) (String (hex_digit (b mod 16)) EmptyString).

(** [strings.TrimLeft(s, "0")]. *)
Fixpoint trim_zeros (s : string) : string :=
  match s with
  | String c s' => if decide (c = Ascii.ascii_of_nat 48) then trim_zeros s' else s
  | EmptyString => EmptyString
  end.

Definition getGUIDPart (data : list Z) : string := trim_zeros (String.concat "" (hex_byte <$> data)).

(** ** [generateCellID]

    The UUID library is outside the repository: [uuid_NewRandomFromReader]
    reads sixteen bytes from the given string. *)
Class Uuid := uuid_NewRandomFromReader : string -> option (list Z).

(** The conversion [byte(x)] of Go. *)
Definition to_byte (x : Z) : Z := Z.land x 255.

Definition masterCellType : Z := 601.

(** The UUID with the cell tag and the type of a master cell. *)
Definition cell_bytes (cellTag : Z) (uuidBytes : list Z) : list Z :=
  <[7 := to_byte masterCellType]> (<[6 := to_byte (Z.shiftr masterCellType 8)]>
    (<[5 := to_byte cellTag]> (<[4 := to_byte (Z.shiftr cellTag 8)]> uuidBytes))).

Definition generateCellID `{Uuid} (cellTag : Z) : option string :=
  match uuid_NewRandomFromReader "ytsaurus-kubernetes-operator" with
  | None => None
  | Some cellID =>
      let uuidBytes := cell_bytes cellTag cellID in
      Some (getGUIDPart (drop 12 uuidBytes) +:+ "-" +:+
            getGUIDPart (take 4 (drop 8 uuidBytes)) +:+ "-" +:+
            getGUIDPart (take 4 (drop 4 uuidBytes)) +:+ "-" +:+
            getGUIDPart (take 4 uuidBytes))%string
  end.

(** ** [RandString] *)

(** [base64.RawURLEncoding]: the alphabet and the encoder. *)
Definition base64_alphabet : string :=
  "ABCDEFGHIJKLMNOPQRSTUVWXYZabcdefghijklmnopqrstuvwxyz0123456789-_".
Definition b64_char (n : Z) : Ascii.ascii :=
  match String.get (Z.to_nat n) base64_alphabet with Some c => c | None => Ascii.zero end.

Fixpoint b64_encode (l : list Z) : string :=
  match l with
  | a :: b :: c :: rest =>
      String (b64_char (a / 4)) (String (b64_char (a mod 4 * 16 + b / 16))
        (String (b64_char (b mod 16 * 4 + c / 64)) (String (b64_char (c mod 64)) (b64_encode rest))))
  | [a; b] =>
      String (b64_char (a / 4)) (String (b64_char (a mod 4 * 16 + b / 16))
        (String (b64_char (b mod 16 * 4)) EmptyString))
  | [a] => String (b64_char (a / 4)) (String (b64_char (a mod 4 * 16)) EmptyString)
  | [] => EmptyString
  end.

(** The entropy source: [n] bytes, or an error, on which [RandString] panics. *)
Class Entropy (E : Type) := rand_Read : nat -> E -> option (list Z) * E.

(** ** Reading identifiers and tokens back *)

Definition hex_value (c : Ascii.ascii) : Z :=
  let n := Z.of_nat (Ascii.nat_of_ascii c) in if (n <? 58)%Z then n - 48 else n - 87.
Fixpoint parse_hex (acc : Z) (s : string) : Z :=
  match s with
  | EmptyString => acc
  | String c s' => parse_hex (acc * 16 + hex_value c) s'
  end.

Fixpoint index_of (c : Ascii.ascii) (s : string) : Z :=
  match s with
  | EmptyString => 0
  | String c' s' => if decide (c = c') then 0 else 1 + index_of c s'
  end.
Definition b64_value (c : Ascii.ascii) : Z := index_of c base64_alphabet.

Fixpoint b64_decode (s : string) : list Z :=
  match s with
  | String c1 (String c2 (String c3 (String c4 rest))) =>
      let '(v1, v2, v3, v4) := (b64_value c1, b64_value c2, b64_value c3, b64_value c4) in
      (v1 * 4 + v2 / 16 :: v2 mod 16 * 16 + v3 / 4 :: v3 mod 4 * 64 + v4 :: b64_decode rest)%Z
  | String c1 (String c2 (String c3 EmptyString)) =>
      let '(v1, v2, v3) := (b64_value c1, b64_value c2, b64_value c3) in
      [v1 * 4 + v2 / 16; v2 mod 16 * 16 + v3 / 4]%Z
  | String c1 (String c2 EmptyString) => [b64_value c1 * 4 + b64_value c2 / 16]%Z
  | _ => []
  end.

Fixpoint string_Forall (P : Ascii.ascii -> Prop) (s : string) : Prop :=
  match s with EmptyString => True | String c s' => P c /\ string_Forall P s' end.

(** A character that neither a shell in single or double quotes nor a YSON or
    JSON string treats specially: a letter, a digit, a dash or an underscore. *)
Definition plain_char (c : Ascii.ascii) : Prop :=
  let n := Ascii.nat_of_ascii c in
  (65 <= n <= 90 \/ 97 <= n <= 122 \/ 48 <= n <= 57 \/ n = 45 \/ n = 95)%nat.

(** ** Digits *)

Lemma hex_value_digit d : (0 <= d < 16)%Z -> hex_value (hex_digit d) = d.
Proof.
  intros Hd.
  assert (forallb (fun n => (hex_value (hex_digit (Z.of_nat n)) =? Z.of_nat n)%Z) (seq 0 16) = true)
    as Hall by reflexivity.
  rewrite forallb_forall in Hall. rewrite <- (Z2Nat.id d) by lia. apply Z.eqb_eq, Hall, in_seq. lia.
Qed.

Definition plain_charb (c : Ascii.ascii) : bool :=
  let n := Ascii.nat_of_ascii c in
  ((65 <=? n) && (n <=? 90) || (97 <=? n) && (n <=? 122) || (48 <=? n) && (n <=? 57)
   || (n =? 45) || (n =? 95))%nat.

Lemma plain_charb_spec c : plain_charb c = true -> plain_char c.
Proof.
  unfold plain_charb, plain_char.
  rewrite !orb_true_iff, !andb_true_iff, !Nat.leb_le, !Nat.eqb_eq. lia.
Qed.

Lemma b64_char_spec n : (0 <= n < 64)%Z -> b64_value (b64_char n) = n /\ plain_char (b64_char n).
Proof.
  intros Hn.
  assert (forallb (fun n => (b64_value (b64_char (Z.of_nat n)) =? Z.of_nat n)%Z &&
    plain_charb (b64_char (Z.of_nat n))) (seq 0 64) = true) as Hall by (vm_compute; reflexivity).
  rewrite forallb_forall in Hall. rewrite <- (Z2Nat.id n) by lia.
  specialize (Hall (Z.to_nat n)). rewrite in_seq, andb_true_iff, Z.eqb_eq in Hall.
  destruct Hall as [? ?%plain_charb_spec]; [lia|done].
Qed.

Lemma b64_value_char n : (0 <= n < 64)%Z -> b64_value (b64_char n) = n.
Proof. apply b64_char_spec. Qed.
Lemma b64_char_plain n : (0 <= n < 64)%Z -> plain_char (b64_char n).
Proof. apply b64_char_spec. Qed.

(** ** Parts of an identifier *)

Lemma parse_hex_byte acc b s : is_byte b -> parse_hex acc (hex_byte b +:+ s) = parse_hex (acc * 256 + b) s.
Proof.
  intros Hb. unfold is_byte in Hb. simpl. rewrite !hex_value_digit.
  - f_equal. pose proof (Z.div_mod b 16). lia.
  - apply Z.mod_pos_bound. lia.
  - split; [apply Z.div_pos; lia|apply Z.div_lt_upper_bound; lia].
Qed.

Lemma parse_trim_zeros s : parse_hex 0 (trim_zeros s) = parse_hex 0 s.
Proof. induction s as [|c s IH]; simpl; [done|]. case_decide as Hc; [by subst|done]. Qed.

Lemma concat_cons (x : string) (l : list string) :
  String.concat "" (x :: l) = (x +:+ String.concat "" l)%string.
Proof.
  destruct l; simpl; [|done]. induction x as [|c x IH]; [done|]. change (String c x = String c (x +:+ "")). by rewrite <- IH.
Qed.

Lemma parse_part_go acc data :
  Forall is_byte data ->
  parse_hex acc (String.concat "" (hex_byte <$> data)) = fold_left (fun a b => a * 256 + b)%Z data acc.
Proof.
  intros Hd. revert acc. induction Hd as [|b data Hb _ IH]; intros acc; [done|].
  rewrite fmap_cons, concat_cons, parse_hex_byte by done. apply IH.
Qed.

Lemma parse_part data :
  Forall is_byte data -> parse_hex 0 (getGUIDPart data) = fold_left (fun a b => a * 256 + b)%Z data 0%Z.
Proof. intros. unfold getGUIDPart. rewrite parse_trim_zeros. by apply parse_part_go. Qed.

Lemma to_byte_mod x : to_byte x = (x mod 256)%Z.
Proof. unfold to_byte. change 255%Z with (Z.ones 8). by rewrite Z.land_ones by lia. Qed.

(** The cell tag of a 16-bit integer, as the identifier stores it. *)
Lemma cell_tag_part tag :
  (to_byte (Z.shiftr tag 8) * 16777216 + to_byte tag * 65536 + masterCellType =
   tag mod 65536 * 65536 + 601)%Z.
Proof.
  rewrite !to_byte_mod, Z.shiftr_div_pow2 by lia. change (2 ^ 8)%Z with 256%Z. unfold masterCellType.
  pose proof (Z.rem_mul_r tag 256 256) as Hr. change (256 * 256)%Z with 65536%Z in Hr. lia.
Qed.

(** The four parts of the identifier, for a UUID of sixteen bytes. *)
Lemma cell_bytes_parts tag u :
  length u = 16%nat ->
  take 4 (drop 4 (cell_bytes tag u)) = [to_byte (Z.shiftr tag 8); to_byte tag; 2; 89]%Z /\
  drop 8 (cell_bytes tag u) = drop 8 u /\ take 4 (cell_bytes tag u) = take 4 u.
Proof.
  intros Hlen. do 16 (destruct u as [|? u]; [discriminate|]). destruct u; [|discriminate].
  repeat split; reflexivity.
Qed.

(** ** Base64 *)

(** The sextets of three bytes. *)
Lemma sextets a b c :
  is_byte a -> is_byte b -> is_byte c ->
  (0 <= a / 4 < 64 /\ 0 <= a mod 4 * 16 + b / 16 < 64 /\ 0 <= b mod 16 * 4 + c / 64 < 64 /\
   0 <= c mod 64 < 64 /\ 0 <= a mod 4 * 16 < 64 /\ 0 <= b mod 16 * 4 < 64)%Z.
Proof. unfold is_byte. intros. Z.div_mod_to_equations. lia. Qed.

Lemma unsextets a b c :
  is_byte a -> is_byte b -> is_byte c ->
  (a / 4 * 4 + (a mod 4 * 16 + b / 16) / 16 = a /\
   (a mod 4 * 16 + b / 16) mod 16 * 16 + (b mod 16 * 4 + c / 64) / 4 = b /\
   (b mod 16 * 4 + c / 64) mod 4 * 64 + c mod 64 = c /\
   a / 4 * 4 + a mod 4 * 16 / 16 = a /\
   (a mod 4 * 16 + b / 16) mod 16 * 16 + b mod 16 * 4 / 4 = b)%Z.
Proof. unfold is_byte. intros. Z.div_mod_to_equations. lia. Qed.

Lemma is_byte_0 : is_byte 0.
Proof. unfold is_byte. lia. Qed.

(** Induction three bytes at a time. *)
Lemma three_ind (P : list Z -> Prop) :
  P [] -> (forall a, P [a]) -> (forall a b, P [a; b]) ->
  (forall a b c l, P l -> P (a :: b :: c :: l)) -> forall l, P l.
Proof.
  intros H0 H1 H2 H3. fix IH 1. intros [|a [|b [|c l]]]; [done|apply H1|apply H2|apply H3, IH].
Qed.

Lemma b64_decode_encode l : Forall is_byte l -> b64_decode (b64_encode l) = l.
Proof.
  induction l as [|a|a b|a b c l IH] using three_ind; intros Hl; [done| | |];
    rewrite ?Forall_cons in Hl.
  - destruct Hl as [Ha _]. pose proof (sextets a 0 0 Ha is_byte_0 is_byte_0).
    destruct (unsextets a 0 0 Ha is_byte_0 is_byte_0) as (_ & _ & _ & Hd & _).
    simpl. rewrite !b64_value_char by lia. by rewrite Hd.
  - destruct Hl as (Ha & Hb & _). pose proof (sextets a b 0 Ha Hb is_byte_0).
    destruct (unsextets a b 0 Ha Hb is_byte_0) as (Hd1 & _ & _ & _ & Hd2).
    simpl. rewrite !b64_value_char by lia. by rewrite Hd1, Hd2.
  - destruct Hl as (Ha & Hb & Hc & Hl). pose proof (sextets a b c Ha Hb Hc).
    destruct (unsextets a b c Ha Hb Hc) as (Hd1 & Hd2 & Hd3 & _).
    simpl. rewrite !b64_value_char by lia. rewrite Hd1, Hd2, Hd3. f_equal. f_equal. f_equal. auto.
Qed.

Lemma b64_encode_plain l : Forall is_byte l -> string_Forall plain_char (b64_encode l).
Proof.
  induction l as [|a|a b|a b c l IH] using three_ind; intros Hl; [done| | |];
    rewrite ?Forall_cons in Hl; simpl.
  - destruct Hl as [Ha _]. pose proof (sextets a 0 0 Ha is_byte_0 is_byte_0).
    repeat split; apply b64_char_plain; lia.
  - destruct Hl as (Ha & Hb & _). pose proof (sextets a b 0 Ha Hb is_byte_0).
    repeat split; apply b64_char_plain; lia.
  - destruct Hl as (Ha & Hb & Hc & Hl). pose proof (sextets a b c Ha Hb Hc).
    repeat split; try (apply b64_char_plain; lia). auto.
Qed.

Lemma b64_encode_length l : String.length (b64_encode l) = (8 * length l + 5) / 6.
Proof.
  induction l as [|a|a b|a b c l IH] using three_ind; [done|done|done|].
  simpl b64_encode. cbn [String.length length]. rewrite IH.
  replace (8 * S (S (S (length l))) + 5) with (8 * length l + 5 + 4 * 6) by lia.
  rewrite Nat.div_add by lia. lia.
Qed.

(** ** Theorems *)

(** C23. Cell identifiers carry their tag: whatever sixteen bytes the UUID
    library returns, the third part of [generateCellID cellTag] reads back as
    the tag followed by the type of master cells (601), so two different
    16-bit tags never get the same identifier. *)
Theorem generateCellID_roundtrip `{Uuid} (cellTag : Z) (u : list Z)
    (Hu : uuid_NewRandomFromReader "ytsaurus-kubernetes-operator" = Some u)
    (Hlen : length u = 16) (Htag : (- 32768 <= cellTag < 32768)%Z) :
  (exists p1 p2 p3 p4, generateCellID cellTag = Some (p1 +:+ "-" +:+ p2 +:+ "-" +:+ p3 +:+ "-" +:+ p4)%string /\
     parse_hex 0 p3 = (cellTag mod 65536 * 65536 + 601)%Z) /\
  (forall cellTag', (- 32768 <= cellTag' < 32768)%Z -> generateCellID cellTag' = generateCellID cellTag ->
     cellTag' = cellTag).
Proof.
  assert (forall t, parse_hex 0 (getGUIDPart [to_byte (Z.shiftr t 8); to_byte t; 2; 89]%Z) =
    (t mod 65536 * 65536 + 601)%Z) as Hp.
  { intros t. rewrite parse_part.
    - rewrite <- cell_tag_part. simpl. unfold masterCellType. lia.
    - repeat constructor; try (rewrite to_byte_mod; apply Z.mod_pos_bound; lia). all: lia. }
  assert (forall t, generateCellID t = Some (getGUIDPart (drop 4 (drop 8 u)) +:+ "-" +:+
    getGUIDPart (take 4 (drop 8 u)) +:+ "-" +:+
    getGUIDPart [to_byte (Z.shiftr t 8); to_byte t; 2; 89]%Z +:+ "-" +:+ getGUIDPart (take 4 u))%string)
    as Hg.
  { intros t. unfold generateCellID. rewrite Hu. cbv zeta.
    destruct (cell_bytes_parts t u Hlen) as (H4 & H8 & H0).
    change (drop 12 ?x) with (drop (4 + 8) x). rewrite <- (drop_drop _ 4 8), H4, H8, H0. done. }
  split.
  - rewrite Hg. eauto 6.
  - intros t Ht Heq. rewrite !Hg in Heq. injection Heq as Heq.
    repeat apply string_app_inj_l in Heq. apply string_app_inv_tail in Heq.
    apply (f_equal (parse_hex 0)) in Heq. rewrite !Hp in Heq.
    Z.div_mod_to_equations. lia.
Qed.

(** What a token promises: its length, that it needs no quoting in shell
    scripts, YSON attributes and JSON documents, and that it keeps all the
    entropy of the bytes it was made of. *)
Definition token_of (b : list Z) (token : string) : Prop :=
  String.length token = (8 * length b + 5) / 6 /\ string_Forall plain_char token /\ b64_decode token = b.

Lemma b64_encode_token b : Forall is_byte b -> token_of b (b64_encode b).
Proof.
  intros Hb. split; [apply b64_encode_length|]. split; [by apply b64_encode_plain|by apply b64_decode_encode].
Qed.

(** ** Witnesses *)

Definition sample_uuid : list Z :=
  [121; 116; 115; 97; 117; 114; 117; 115; 173; 107; 117; 98; 101; 114; 110; 101]%Z.

Definition sample_uuid_lib : Uuid := fun _ => Some sample_uuid.

(** The identifier of the cell with tag 1, as a cluster shows it. *)
Lemma generateCellID_roundtrip_witness :
  @generateCellID sample_uuid_lib 1%Z = Some "65726e65-ad6b7562-10259-79747361"%string /\
  forall t, (- 32768 <= t < 32768)%Z ->
    @generateCellID sample_uuid_lib t = @generateCellID sample_uuid_lib 1%Z -> t = 1%Z.
Proof.
  split; [vm_compute; reflexivity|].
  apply (@generateCellID_roundtrip sample_uuid_lib 1%Z sample_uuid eq_refl eq_refl). lia.
Defined.

Example sample_token : b64_encode [0; 16; 131; 255]%Z = "ABCD_w"%string.
Proof. vm_compute. reflexivity. Qed.
