(* ===== verification/Labeller.v ===== *)
(** * Names and labels: pkg/labeller/labeller.go, pkg/consts/labels.go

    The labeller of a component derives every Kubernetes name, label set and
    condition name from the component's label and name. *)

From S2P Require Import Prelude Api Kube.

Definition YTComponentLabelName : string := "yt_component".
Definition YTMetricsLabelName : string := "yt_metrics".

(** [Labeller], with the name and namespace of its [ObjectMeta]. *)
Record Labeller := mkLabeller {
  lb_ClusterName : string;
  lb_Namespace : string;
  lb_ComponentLabel : string;
  lb_ComponentName : string;
  lb_Annotations : option (gmap string string);
}.

(** [strings.ToLower] on ASCII. *)
Definition ascii_to_lower (c : Ascii.ascii) : Ascii.ascii :=
  let n := Ascii.nat_of_ascii c in
  if (Nat.leb 65 n && Nat.leb n 90)%bool then Ascii.ascii_of_nat (n + 32) else c.

Fixpoint ToLower (s : string) : string :=
  match s with
  | EmptyString => EmptyString
  | String c s' => String (ascii_to_lower c) (ToLower s')
  end.

Section Labeller.
Context (l : Labeller).
Local Open Scope string_scope.

Definition GetClusterName : string := lb_ClusterName l.
Definition GetSecretName : string := lb_ComponentLabel l +:+ "-secret".
Definition GetMainConfigMapName : string := lb_ComponentLabel l +:+ "-config".
Definition GetSidecarConfigMapName (name : string) : string :=
  lb_ComponentLabel l +:+ "-" +:+ name +:+ "-config".
Definition GetInitJobName (name : string) : string :=
  lb_ComponentLabel l +:+ "-init-job-" +:+ ToLower name.
Definition GetPodsRemovingStartedCondition : string :=
  lb_ComponentName l +:+ "PodsRemovingStarted".

Definition GetYTLabelValue (isInitJob : bool) : string :=
  let result := lb_ClusterName l +:+ "-" +:+ lb_ComponentLabel l in
  if isInitJob then result +:+ "-" +:+ "init-job" else result.

Definition GetSelectorLabelMap : gmap string string :=
  {[ YTComponentLabelName := GetYTLabelValue false ]}.

Definition GetMetaLabelMap (isInitJob : bool) : gmap string string :=
  list_to_map [
    ("app.kubernetes.io/name", "Ytsaurus");
    ("app.kubernetes.io/instance", lb_ClusterName l);
    ("app.kubernetes.io/component", lb_ComponentLabel l);
    ("app.kubernetes.io/managed-by", "Ytsaurus-k8s-operator");
    (YTComponentLabelName, GetYTLabelValue isInitJob)].

Definition GetMonitoringMetaLabelMap : gmap string string :=
  <[YTMetricsLabelName := "true"]> (GetMetaLabelMap false).

Definition GetObjectMeta (name : string) : ObjectMeta :=
  mkObjectMeta name (lb_Namespace l) (GetMetaLabelMap false) (lb_Annotations l) "".

Definition GetInitJobObjectMeta : ObjectMeta :=
  mkObjectMeta "ytsaurus-init" (lb_Namespace l) (GetMetaLabelMap true) (lb_Annotations l) "".

(** [GetListOptions]: the namespace and the labels a list is filtered by. *)
Definition GetListOptions : string * gmap string string := (lb_Namespace l, GetSelectorLabelMap).
End Labeller.

Definition GetPodsRemovedCondition (componentName : string) : string :=
  (componentName +:+ "PodsRemoved")%string.

(** ** The selector of a component selects its own pods *)

Lemma selector_in_meta (l : Labeller) : GetSelectorLabelMap l ⊆ GetMetaLabelMap l false.
Proof.
  unfold GetSelectorLabelMap. apply insert_subseteq_l; [|apply map_empty_subseteq].
  unfold GetMetaLabelMap. simpl. rewrite !lookup_insert_ne by done. apply lookup_insert_eq.
Qed.

(** The init job of a component is never selected as one of its pods. *)
Lemma init_job_not_selected (l : Labeller) :
  ~ GetSelectorLabelMap l ⊆ om_Labels (GetInitJobObjectMeta l).
Proof.
  intros Hsub.
  assert (om_Labels (GetInitJobObjectMeta l) !! YTComponentLabelName = Some (GetYTLabelValue l false)) as Hl.
  { eapply lookup_weaken; [|exact Hsub]. apply lookup_insert_eq. }
  unfold GetInitJobObjectMeta, GetMetaLabelMap in Hl. simpl in Hl.
  rewrite !lookup_insert_ne in Hl by done. rewrite lookup_insert_eq in Hl.
  injection Hl as Hl. unfold GetYTLabelValue in Hl.
  apply (f_equal String.length) in Hl. rewrite !string_length_app in Hl. simpl in Hl. lia.
Qed.
