(* ===== verification/Proxy.v ===== *)
(** * Access to the API server: pkg/apiproxy

    [Ytsaurus] of pkg/apiproxy/ytsaurus.go wraps the resource in memory and
    the client; [apiProxy] of pkg/apiproxy/proxy.go fetches, creates, updates
    and deletes the objects the operator owns.  Every method is a program of
    the monad over [World]. *)

From S2P Require Import Prelude Api Kube Conditions.

Section Proxy.
Context {H E : Type} `{K : Kube E} `{CM : ConditionMeta}.
Local Abbreviation W := (World H E).

(** ** pkg/apiproxy/proxy.go *)

(** A call of the client that has no effect on the operator's memory. *)
Definition outside {A} (f : E -> A * E) : M W A :=
  fun w => let '(a, e) := f (ext w) in Some (a, mkWorld (resource w) (heap w) e).

(** Reading and assigning a variable of the heap. *)
Definition read {A} (r : Ref H A) : M W A := gets (fun w => load r (heap w)).
Definition write {A} (r : Ref H A) (a : A) : M W unit :=
  modify (fun w => mkWorld (resource w) (store r a (heap w)) (ext w)).

Definition Event (eventtype reason message : string) : M W unit :=
  outside (fun e => (tt, recorder_Event eventtype reason message e)).

Definition RecordWarning (reason message : string) : M W unit := Event "Warning" reason message.
Definition RecordNormal (reason message : string) : M W unit := Event "Normal" reason message.

Definition UpdateStatus : M W error :=
  y ← gets resource;
  outside (client_StatusUpdate y).

(** [FetchObject]: [obj] points to the variable the object is decoded into;
    an absent object is not an error and leaves the variable alone. *)
Definition FetchObject (k : Kind) (name : string) (obj : Ref H (kind_type k)) : M W error :=
  ns ← gets (fun w => yt_Namespace (resource w));
  r ← gets (fun w => client_Get k ns name (ext w));
  match r with
  | GetOk o => _ ← write obj o; mret None
  | GetNotFound _ => mret None
  | GetError e => mret (Some e)
  end.

Definition ListPods (namespace : string) (labels : gmap string string) : M W (string + list Pod) :=
  gets (fun w => client_ListPods namespace labels (ext w)).

Definition createAndReferenceObject (k : Kind) (obj : Ref H (kind_type k)) : M W error :=
  o ← read obj;
  owner ← gets resource;
  match ctrl_SetControllerReference k owner o with
  | inl err => mret (Some err)
  | inr o =>
      _ ← write obj o;
      '(err, o') ← outside (client_Create k o);
      _ ← write obj o';
      match err with
      | Some msg =>
          _ ← RecordWarning "Reconciliation"
                ("Failed to create YT object " +:+ GetName o' +:+ ": " +:+ msg)%string;
          mret (Some msg)
      | None =>
          _ ← RecordNormal "Reconciliation"
                ("Created YT object " +:+ GetName o' +:+ " (" +:+ kind_string k +:+ ")")%string;
          mret None
      end
  end.

Definition updateObject (k : Kind) (obj : Ref H (kind_type k)) : M W error :=
  o ← read obj;
  owner ← gets resource;
  match ctrl_SetControllerReference k owner o with
  | inl err => mret (Some err)
  | inr o =>
      _ ← write obj o;
      '(err, o') ← outside (client_Update k o);
      _ ← write obj o';
      match err with
      | Some msg =>
          _ ← RecordWarning "Reconciliation"
                ("Failed to update YT object " +:+ GetName o' +:+ ": " +:+ msg)%string;
          mret (Some msg)
      | None =>
          _ ← RecordNormal "Reconciliation" ("Updated YT object " +:+ GetName o')%string;
          mret None
      end
  end.

Definition SyncObject (k : Kind) (oldObj newObj : Ref H (kind_type k)) : M W error :=
  old ← read oldObj;
  new ← read newObj;
  if decide (GetName new = "") then
    mret (Some ("cannot sync uninitialized object, object type " +:+ kind_string k)%string)
  else if decide (GetResourceVersion old = "") then createAndReferenceObject k newObj
  else
    _ ← write newObj (SetResourceVersion (GetResourceVersion old) new);
    updateObject k newObj.

Definition DeleteObject (k : Kind) (obj : Ref H (kind_type k)) (propagation : option string)
    : M W error :=
  o ← read obj;
  err ← outside (client_Delete k o propagation);
  match err with
  | Some msg =>
      _ ← RecordWarning "Reconciliation"
            ("Failed to delete YT object " +:+ GetName o +:+ ": " +:+ msg)%string;
      mret (Some msg)
  | None =>
      _ ← RecordNormal "Reconciliation" ("Deleted YT object " +:+ GetName o)%string;
      mret None
  end.

(** ** pkg/apiproxy/ytsaurus.go *)

Definition status (w : W) : YtsaurusStatus := yt_Status (resource w).
Definition updateStatus (w : W) : Api.UpdateStatus := st_UpdateStatus (status w).

(** Assignments to fields of [c.ytsaurus.Status] and of its update status. *)
Definition set_status (f : YtsaurusStatus -> YtsaurusStatus) (w : W) : W :=
  mkWorld (set_yt_Status (f (status w)) (resource w)) (heap w) (ext w).
Definition set_updateStatus (f : Api.UpdateStatus -> Api.UpdateStatus) (w : W) : W :=
  set_status (fun s => set_st_UpdateStatus (f (st_UpdateStatus s)) s) w.

Definition GetResource : M W Ytsaurus := gets resource.
Definition GetCommonSpec : M W CommonSpec := gets (fun w => sp_CommonSpec (yt_Spec (resource w))).
Definition GetClusterState : M W ClusterState := gets (fun w => st_State (status w)).
Definition IsUpdating : M W bool :=
  s ← GetClusterState; mret (bool_decide (s = ClusterStateUpdating)).
Definition GetUpdateState : M W UpdateState := gets (fun w => us_State (updateStatus w)).
Definition GetLocalUpdatingComponents : M W (slice string) :=
  gets (fun w => us_Components (updateStatus w)).
Definition GetUpdateFlow : M W UpdateFlow := gets (fun w => us_Flow (updateStatus w)).

Definition IsUpdateStatusConditionTrue (condition : string) : M W bool :=
  gets (fun w => meta_IsStatusConditionTrue (us_Conditions (updateStatus w)) condition).

Definition SetUpdateStatusCondition (condition : Condition) : M W unit :=
  modify (fun w => set_updateStatus (fun u => set_us_Conditions
    (sortConditions (meta_SetStatusCondition (client_now (ext w)) (us_Conditions u) condition)) u) w).

Definition ClearUpdateStatus : M W error :=
  _ ← modify (set_updateStatus (set_us_Conditions []));
  _ ← modify (set_updateStatus (set_us_TabletCellBundles []));
  _ ← modify (set_updateStatus (set_us_MasterMonitoringPaths []));
  _ ← modify (set_updateStatus (set_us_Components None));
  _ ← modify (set_updateStatus (set_us_Flow UpdateFlowNone));
  UpdateStatus.

Definition LogUpdate (message : string) : M W unit := RecordNormal "Update" message.

Definition SaveUpdatingClusterState (flow : UpdateFlow) (components : slice string) : M W error :=
  _ ← modify (set_status (set_st_State ClusterStateUpdating));
  _ ← modify (set_updateStatus (set_us_Flow flow));
  _ ← modify (set_updateStatus (set_us_Components components));
  UpdateStatus.

Definition SaveClusterState (clusterState : ClusterState) : M W error :=
  _ ← modify (set_status (set_st_State clusterState));
  UpdateStatus.

Definition SaveUpdateState (updateState : UpdateState) : M W error :=
  _ ← modify (set_updateStatus (set_us_State updateState));
  UpdateStatus.

Definition SetStatusCondition (condition : Condition) : M W unit :=
  modify (fun w => set_status (fun s => set_st_Conditions
    (sortConditions (meta_SetStatusCondition (client_now (ext w)) (st_Conditions s) condition)) s) w).

Definition IsStatusConditionTrue (conditionType : string) : M W bool :=
  gets (fun w => meta_IsStatusConditionTrue (st_Conditions (status w)) conditionType).
Definition IsStatusConditionFalse (conditionType : string) : M W bool :=
  gets (fun w => meta_IsStatusConditionFalse (st_Conditions (status w)) conditionType).
End Proxy.

(** ** What is recorded of an update *)

Section Keeps.
Context `{CM : ConditionMeta} `{CL : !ConditionMetaLaws CM}.

Lemma is_true_set now l c t :
  conditions_wf l ->
  meta_IsStatusConditionTrue (sortConditions (meta_SetStatusCondition now l c)) t =
  if decide (t = cond_Type c) then bool_decide (cond_Status c = ConditionTrue)
  else meta_IsStatusConditionTrue l t.
Proof.
  intros Hwf. pose proof (set_wf now l c Hwf) as Hwf2.
  pose proof (proj2 (sortConditions_wf _) Hwf2) as Hwf3.
  enough (meta_IsStatusConditionTrue (sortConditions (meta_SetStatusCondition now l c)) t = true <->
    (if decide (t = cond_Type c) then bool_decide (cond_Status c = ConditionTrue)
     else meta_IsStatusConditionTrue l t) = true) as Hiff.
  { destruct (meta_IsStatusConditionTrue (sortConditions _) t), (if decide _ then _ else _);
      naive_solver. }
  rewrite is_true_spec by done. rewrite sortConditions_holds, set_holds by done.
  case_decide; [rewrite bool_decide_eq_true; naive_solver|by rewrite is_true_spec].
Qed.

(** A condition of an update that is true stays true; only the preparation of
    the exit of the masters is reset. *)
Definition keeps (u u' : Api.UpdateStatus) : Prop :=
  conditions_wf (us_Conditions u) ->
  conditions_wf (us_Conditions u') /\
  forall t, t <> ConditionMasterExitReadOnlyPrepared ->
    meta_IsStatusConditionTrue (us_Conditions u) t = true ->
    meta_IsStatusConditionTrue (us_Conditions u') t = true.

#[export] Instance keeps_preorder : PreOrder keeps.
Proof.
  split; [by intros u|]. intros u1 u2 u3 H1 H2 Hwf.
  destruct (H1 Hwf) as [Hwf2 K1]. destruct (H2 Hwf2) as [Hwf3 K2]. split; [done|auto].
Qed.

Lemma keeps_set now u c :
  cond_Status c = ConditionTrue \/ cond_Type c = ConditionMasterExitReadOnlyPrepared ->
  keeps u (set_us_Conditions (sortConditions (meta_SetStatusCondition now (us_Conditions u) c)) u).
Proof.
  intros Hc Hwf. simpl. split; [by apply sortConditions_wf, set_wf|]. intros t Ht Htrue.
  rewrite is_true_set by done. case_decide as Heq; [|done]. destruct Hc as [->|Hc]; [done|].
  by destruct Ht; rewrite Heq.
Qed.
End Keeps.

(** ** The frame of a component

    What no component changes: the identity and the update policy of the
    resource, the cluster state, the update state with its flow and component
    list, and the status the API server holds; outside an update it leaves the
    whole update status alone, and inside it keeps what was acknowledged.
    [frame] is a preorder, so it is enough to prove it of every primitive. *)

Section Frame.
Context {H E : Type} `{K : Kube E} `{CM : ConditionMeta}.
Context `{KL : !KubeLaws E K} `{CL : !ConditionMetaLaws CM}.
Local Abbreviation W := (World H E).

Definition control (w : W) :=
  (yt_Name (resource w), yt_Namespace (resource w),
   (sp_IsManaged (yt_Spec (resource w)), sp_EnableFullUpdate (yt_Spec (resource w)),
    sp_UpdateSelector (yt_Spec (resource w))),
   st_State (status w),
   (us_State (updateStatus w), us_Components (updateStatus w), us_Flow (updateStatus w)),
   persisted (ext w)).

Definition frame (w w' : W) : Prop :=
  control w' = control w /\ keeps (updateStatus w) (updateStatus w') /\
  (st_State (status w) <> ClusterStateUpdating -> updateStatus w' = updateStatus w).

Lemma control_state w w' : control w' = control w -> st_State (status w') = st_State (status w).
Proof. unfold control. congruence. Qed.

#[export] Instance frame_preorder : PreOrder frame.
Proof.
  split; [by intros w|]. intros w1 w2 w3 (H1 & K1 & U1) (H2 & K2 & U2).
  split; [by rewrite H2|]. split; [by transitivity (updateStatus w2)|]. intros Hs.
  rewrite U2 by (by rewrite (control_state _ _ H1)). auto.
Qed.

(** [update_frame]: the frame of the code a component runs only during an
    update, which may also write to the update status. *)
Definition update_frame (w w' : W) : Prop :=
  st_State (status w) = ClusterStateUpdating -> frame w w'.

#[export] Instance update_frame_preorder : PreOrder update_frame.
Proof.
  split; [by intros w|]. intros w1 w2 w3 H1 H2 Hs. pose proof (H1 Hs) as F1.
  transitivity w2; [done|]. apply H2. by rewrite (control_state _ _ (proj1 F1)).
Qed.

Lemma preserves_update_frame {A} (m : M W A) : preserves frame m -> preserves update_frame m.
Proof. intros Hm w a w' Hrun _. eapply Hm, Hrun. Qed.

(** [if state == Updating]: the first branch runs in an update only. *)
Lemma preserves_while_updating {A} (m1 m2 : M W A) :
  preserves update_frame m1 -> preserves frame m2 ->
  preserves frame (state ← GetClusterState; if decide (state = ClusterStateUpdating) then m1 else m2).
Proof.
  intros H1 H2 w a w' Hrun. unfold GetClusterState in Hrun. rewrite run_gets in Hrun.
  case_decide as Hs; [by eapply H1|by eapply H2].
Qed.

(** [quiet]: the frame of the code below the components (objects, servers,
    jobs), which does not touch the status at all. *)
Definition quiet (w w' : W) : Prop := control w' = control w /\ status w' = status w.

#[export] Instance quiet_preorder : PreOrder quiet.
Proof. split; [by intros w|]. intros w1 w2 w3 [H1 H1'] [H2 H2']. split; congruence. Qed.

Lemma quiet_frame w w' : quiet w w' -> frame w w'.
Proof.
  intros [? Hs]. split; [done|]. unfold updateStatus. by rewrite Hs.
Qed.

Lemma preserves_quiet {A} (m : M W A) : preserves quiet m -> preserves frame m.
Proof. intros Hm w a w' Hrun. eapply quiet_frame, Hm, Hrun. Qed.

Lemma preserves_outside {A} (f : E -> A * E) :
  (forall e, persisted (f e).2 = persisted e) -> preserves quiet (outside f : M W A).
Proof.
  unfold outside. intros Hf w a w' Hrun. specialize (Hf (ext w)). destruct (f (ext w)) as [b e'].
  inversion Hrun; subst. split; [|done]. unfold control; simpl in *. by rewrite Hf.
Qed.

Lemma preserves_read {A} (r : Ref H A) : preserves quiet (read r : M W A).
Proof. apply preserves_gets, _. Qed.

Lemma preserves_write {A} (r : Ref H A) a : preserves quiet (write r a : M W unit).
Proof. apply preserves_modify. by intros w. Qed.

Lemma preserves_Event t r m : preserves quiet (Event t r m : M W unit).
Proof. apply preserves_outside. intros e. apply event_persisted. Qed.

Lemma preserves_RecordWarning r m : preserves quiet (RecordWarning r m : M W unit).
Proof. apply preserves_Event. Qed.
Lemma preserves_RecordNormal r m : preserves quiet (RecordNormal r m : M W unit).
Proof. apply preserves_Event. Qed.
Lemma preserves_LogUpdate m : preserves quiet (LogUpdate m : M W unit).
Proof. apply preserves_Event. Qed.

#[local] Hint Resolve preserves_read preserves_write preserves_RecordWarning
  preserves_RecordNormal : frame.

Lemma preserves_FetchObject k name obj : preserves quiet (FetchObject k name obj : M W error).
Proof. unfold FetchObject. solve_frame. Qed.

Lemma preserves_createAndReferenceObject k obj :
  preserves quiet (createAndReferenceObject k obj : M W error).
Proof.
  unfold createAndReferenceObject. solve_frame.
  apply preserves_outside. intros e. apply create_persisted.
Qed.

Lemma preserves_updateObject k obj : preserves quiet (updateObject k obj : M W error).
Proof.
  unfold updateObject. solve_frame.
  apply preserves_outside. intros e. apply update_persisted.
Qed.

#[local] Hint Resolve preserves_createAndReferenceObject preserves_updateObject : frame.

Lemma preserves_SyncObject k o n : preserves quiet (SyncObject k o n : M W error).
Proof. unfold SyncObject. solve_frame. Qed.

Lemma preserves_DeleteObject k o p : preserves quiet (DeleteObject k o p : M W error).
Proof.
  unfold DeleteObject. solve_frame. apply preserves_outside. intros e. apply delete_persisted.
Qed.

Lemma preserves_SetUpdateStatusCondition c :
  cond_Status c = ConditionTrue \/ cond_Type c = ConditionMasterExitReadOnlyPrepared ->
  preserves update_frame (SetUpdateStatusCondition c : M W unit).
Proof.
  intros Hc. apply preserves_modify. intros w Hs. split; [done|]. split; [by apply keeps_set|done].
Qed.

Lemma preserves_acknowledge t n r m :
  preserves update_frame (SetUpdateStatusCondition (mkCondition t ConditionTrue n r m) : M W unit).
Proof. apply preserves_SetUpdateStatusCondition. by left. Qed.

Lemma preserves_SetStatusCondition c : preserves frame (SetStatusCondition c : M W unit).
Proof. apply preserves_modify. by intros w. Qed.
End Frame.

#[export] Hint Resolve preserves_outside preserves_read preserves_write preserves_RecordWarning
  preserves_RecordNormal preserves_LogUpdate preserves_FetchObject preserves_SyncObject
  preserves_DeleteObject preserves_acknowledge preserves_SetStatusCondition
  preserves_quiet preserves_update_frame : frame.

(** The queries are reads of the world. *)
#[export] Hint Extern 1 (preserves _ (GetResource)) => eapply @preserves_gets; tc_solve : frame.
#[export] Hint Extern 1 (preserves _ (GetCommonSpec)) => eapply @preserves_gets; tc_solve : frame.
#[export] Hint Extern 1 (preserves _ (GetClusterState)) => eapply @preserves_gets; tc_solve : frame.
#[export] Hint Extern 1 (preserves _ (GetUpdateState)) => eapply @preserves_gets; tc_solve : frame.
#[export] Hint Extern 1 (preserves _ (GetLocalUpdatingComponents)) =>
  eapply @preserves_gets; tc_solve : frame.
#[export] Hint Extern 1 (preserves _ (GetUpdateFlow)) => eapply @preserves_gets; tc_solve : frame.
#[export] Hint Extern 1 (preserves _ (IsUpdateStatusConditionTrue _)) =>
  eapply @preserves_gets; tc_solve : frame.
#[export] Hint Extern 1 (preserves _ (IsStatusConditionTrue _)) =>
  eapply @preserves_gets; tc_solve : frame.
#[export] Hint Extern 1 (preserves _ (IsStatusConditionFalse _)) =>
  eapply @preserves_gets; tc_solve : frame.
#[export] Hint Extern 1 (preserves _ (ListPods _ _)) => eapply @preserves_gets; tc_solve : frame.
#[export] Hint Extern 1 (preserves _ IsUpdating) => unfold IsUpdating; solve_frame : frame.

(** ** Writing the status: what a successful or failed save leaves behind *)

Section Saving.
Context {H E : Type} `{K : Kube E} `{CM : ConditionMeta}.
Context `{KL : !KubeLaws E K} `{CL : !ConditionMetaLaws CM}.
Local Abbreviation W := (World H E).

(** [saved w err w']: [w'] is [w] after the status of [w] was sent: the
    memory is that of [w], and the server holds its status if there was no
    error, what it held before otherwise. *)
Definition saved (w : W) (err : error) (w' : W) : Prop :=
  resource w' = resource w /\ heap w' = heap w /\
  persisted (ext w') = match err with None => status w | Some _ => persisted (ext w) end.

Lemma UpdateStatus_saved (w : W) : exists err w', UpdateStatus w = Some (err, w') /\ saved w err w'.
Proof.
  destruct (client_StatusUpdate (resource w) (ext w)) as [err e'] eqn:Hup.
  exists err, (mkWorld (resource w) (heap w) e'). split.
  { unfold UpdateStatus, outside, gets, mbind, M_bind. by rewrite Hup. }
  repeat split; simpl.
  destruct err; [by eapply status_update_fail|by apply status_update_ok in Hup].
Qed.

Lemma modify_then {A} (f : W -> W) (m : M W A) w : (modify f ≫= (fun _ => m)) w = m (f w).
Proof. done. Qed.

Lemma SaveUpdateState_saved s (w : W) :
  exists err w', SaveUpdateState s w = Some (err, w') /\
    saved (set_updateStatus (set_us_State s) w) err w'.
Proof. unfold SaveUpdateState. rewrite modify_then. apply UpdateStatus_saved. Qed.

Lemma SaveClusterState_saved s (w : W) :
  exists err w', SaveClusterState s w = Some (err, w') /\
    saved (set_status (set_st_State s) w) err w'.
Proof. unfold SaveClusterState. rewrite modify_then. apply UpdateStatus_saved. Qed.

Lemma SaveUpdatingClusterState_saved f cs (w : W) :
  exists err w', SaveUpdatingClusterState f cs w = Some (err, w') /\
    saved (set_updateStatus (set_us_Components cs) (set_updateStatus (set_us_Flow f)
      (set_status (set_st_State ClusterStateUpdating) w))) err w'.
Proof. unfold SaveUpdatingClusterState. rewrite !modify_then. apply UpdateStatus_saved. Qed.

(** The update status after [ClearUpdateStatus]. *)
Definition cleared (u : Api.UpdateStatus) : Api.UpdateStatus :=
  mkUpdateStatus (us_State u) None UpdateFlowNone [] [] [].

Lemma ClearUpdateStatus_saved (w : W) :
  exists err w', ClearUpdateStatus w = Some (err, w') /\ saved (set_updateStatus cleared w) err w'.
Proof. unfold ClearUpdateStatus. rewrite !modify_then. apply UpdateStatus_saved. Qed.

(** ** Conditions seen through the resource *)

Definition update_condition_true (w : W) (t : string) : bool :=
  meta_IsStatusConditionTrue (us_Conditions (updateStatus w)) t.
Definition condition_true (w : W) (t : string) : bool :=
  meta_IsStatusConditionTrue (st_Conditions (status w)) t.
End Saving.
