(* ===== verification/Component.v ===== *)
(** * Components: pkg/components/component.go, helpers.go, pods_manager.go

    Go's [Component], [podsManager] and [server] interfaces are records of
    operations; [ComponentLaws] and [ServerLaws] state what an implementation
    promises to the code that drives it (it stays inside the frame of
    [Proxy.frame]), so the reconciler is verified against the interface. *)

From S2P Require Import Prelude Api Kube Conditions Samples Labeller Proxy.

(** ** Statuses *)

Inductive SyncStatus :=
| SyncStatusBlocked
| SyncStatusNeedLocalUpdate
| SyncStatusPending
| SyncStatusReady
| SyncStatusUpdating.

#[export] Instance SyncStatus_eq_dec : EqDecision SyncStatus.
Proof. solve_decision. Defined.

(** [string(status)]. *)
Definition SyncStatus_string (s : SyncStatus) : string :=
  match s with
  | SyncStatusBlocked => "Blocked"
  | SyncStatusNeedLocalUpdate => "NeedLocalUpdate"
  | SyncStatusPending => "Pending"
  | SyncStatusReady => "Ready"
  | SyncStatusUpdating => "Updating"
  end.

Definition IsRunningStatus (status : SyncStatus) : bool :=
  bool_decide (status = SyncStatusReady) || bool_decide (status = SyncStatusNeedLocalUpdate).

Record ComponentStatus := mkComponentStatus {
  cst_SyncStatus : SyncStatus;
  cst_Message : string;
}.

Definition NewComponentStatus (status : SyncStatus) (message : string) : ComponentStatus :=
  mkComponentStatus status message.
Definition WaitingStatus (status : SyncStatus) (event : string) : ComponentStatus :=
  mkComponentStatus status ("Wait for " +:+ event)%string.
Definition SimpleStatus (status : SyncStatus) : ComponentStatus :=
  mkComponentStatus status (SyncStatus_string status).

(** ** Interfaces *)

Record Component (W : Type) := mkComponent {
  cmp_Fetch : M W error;
  cmp_Sync : M W error;
  cmp_Status : M W (ComponentStatus * error);
  cmp_GetName : string;
  cmp_GetType : ComponentType;
  cmp_SetReadyCondition : ComponentStatus -> M W unit;
  cmp_IsUpdatable : bool;
}.
Arguments cmp_Fetch {W} _. Arguments cmp_Sync {W} _. Arguments cmp_Status {W} _.
Arguments cmp_GetName {W} _. Arguments cmp_GetType {W} _.
Arguments cmp_SetReadyCondition {W} _. Arguments cmp_IsUpdatable {W} _.

Record podsManager (W : Type) := mkPodsManager {
  pm_removePods : M W error;
  pm_arePodsRemoved : M W bool;
  pm_arePodsReady : M W bool;
  pm_podsImageCorrespondsToSpec : M W bool;
}.
Arguments pm_removePods {W} _. Arguments pm_arePodsRemoved {W} _.
Arguments pm_arePodsReady {W} _. Arguments pm_podsImageCorrespondsToSpec {W} _.

(** The stateful set a server builds is a pointer into the heap [H]. *)
Record server (W H : Type) := mkServer {
  sv_Fetch : M W error;
  sv_Sync : M W error;
  sv_pods : podsManager W;
  sv_needUpdate : M W bool;
  sv_configNeedsReload : M W bool;
  sv_needBuild : M W bool;
  sv_needSync : M W bool;
  sv_buildStatefulSet : M W (Ref H StatefulSet);
  sv_rebuildStatefulSet : M W (Ref H StatefulSet);
}.
Arguments sv_Fetch {W H} _. Arguments sv_Sync {W H} _. Arguments sv_pods {W H} _.
Arguments sv_needUpdate {W H} _. Arguments sv_configNeedsReload {W H} _.
Arguments sv_needBuild {W H} _. Arguments sv_needSync {W H} _.
Arguments sv_buildStatefulSet {W H} _. Arguments sv_rebuildStatefulSet {W H} _.

Section Component.
Context {H E : Type} `{K : Kube E} `{CM : ConditionMeta}.
Local Abbreviation W := (World H E).

(** [localComponent.SetReadyCondition]. *)
Definition SetReadyCondition (l : Labeller) (status : ComponentStatus) : M W unit :=
  let ready :=
    if decide (cst_SyncStatus status = SyncStatusReady) then ConditionTrue else ConditionFalse in
  SetStatusCondition (mkCondition (lb_ComponentName l +:+ "Ready")%string ready 0
    (SyncStatus_string (cst_SyncStatus status)) (cst_Message status)).

(** [LocalServerNeedSync]; the calls are in Go's order, with [&&] and [||]
    evaluated lazily. *)
Definition LocalServerNeedSync (srv : server W H) : M W bool :=
  reload ← sv_configNeedsReload srv;
  updating ← (if (reload : bool) then IsUpdating else mret false);
  if (updating : bool) then mret true else sv_needBuild srv.

(** ** pods_manager.go *)

Definition isPodsRemovingStarted (c : Labeller) : M W bool :=
  IsUpdateStatusConditionTrue (GetPodsRemovingStartedCondition c).

Definition setPodsRemovingStartedCondition (c : Labeller) : M W unit :=
  SetUpdateStatusCondition (mkCondition (GetPodsRemovingStartedCondition c) ConditionTrue 0
    "Update" "Pods removing was started").

Definition setPodsRemovedCondition (c : Labeller) : M W unit :=
  SetUpdateStatusCondition (mkCondition (GetPodsRemovedCondition (lb_ComponentName c))
    ConditionTrue 0 "Update" "Pods removed").

Definition removePods (manager : podsManager W) (c : Labeller) : M W error :=
  started ← isPodsRemovingStarted c;
  if negb started then
    err ← pm_removePods manager;
    match err with
    | Some _ => mret err
    | None => _ ← setPodsRemovingStartedCondition c; mret None
    end
  else
    removed ← pm_arePodsRemoved manager;
    if negb removed then mret None
    else _ ← setPodsRemovedCondition c; mret None.

(** ** helpers.go *)

(** Of a component [IsUpdatingComponent] reads [GetName()] and
    [IsUpdatable()]; a component that passes itself passes these two. *)
Definition IsUpdatingSelf (name : string) (updatable : bool) : M W bool :=
  componentNames ← GetLocalUpdatingComponents;
  mret ((is_nil componentNames && updatable) || bool_decide (name ∈ elems componentNames)).

Definition IsUpdatingComponent (component : Component W) : M W bool :=
  IsUpdatingSelf (cmp_GetName component) (cmp_IsUpdatable component).

Definition handleUpdatingClusterState (updatable : bool) (cmpBase : Labeller)
    (pods : podsManager W) (dry : bool) : M W (option ComponentStatus * error) :=
  updating ← IsUpdatingSelf (lb_ComponentName cmpBase) updatable;
  if (updating : bool) then
    state ← GetUpdateState;
    if decide (state = UpdateStateWaitingForPodsRemoval) then
      err ← (if dry then mret None else removePods pods cmpBase);
      mret (Some (WaitingStatus SyncStatusUpdating "pods removal"), err)
    else if decide (state <> UpdateStateWaitingForPodsCreation) then
      mret (Some (NewComponentStatus SyncStatusReady "Nothing to do now"), None)
    else mret (None, None)
  else mret (Some (NewComponentStatus SyncStatusReady "Not updating component"), None).
End Component.

(** ** Shell fragments and pod templates: helpers.go *)

Definition RunIfCondition (condition : string) (commands : list string) : string :=
  String.concat "
" (("if [ " +:+ condition +:+ " ]; then")%string :: commands ++ ["fi"]).

Definition RunIfNonexistent (path : string) (commands : list string) : string :=
  RunIfCondition ("$(/usr/bin/yt exists " +:+ path +:+ ") = 'false'")%string commands.

Definition RunIfExists (path : string) (commands : list string) : string :=
  RunIfCondition ("$(/usr/bin/yt exists " +:+ path +:+ ") = 'true'")%string commands.

Definition SetWithIgnoreExisting (path value : string) : string :=
  RunIfNonexistent path [("/usr/bin/yt set " +:+ path +:+ " " +:+ value)%string].

(** [AddAffinity], on the affinity of the pod template. *)
Definition AddAffinity (affinity : option Affinity) (key : string) (values : list string)
    : option Affinity :=
  let affinity := default (mkAffinity None None) affinity in
  let nodeAffinity := default (mkNodeAffinity None) (aff_NodeAffinity affinity) in
  let terms := default [] (na_Required nodeAffinity) in
  Some (mkAffinity
    (Some (mkNodeAffinity (Some (terms ++ [[mkNodeSelectorRequirement key "In" values]]))))
    (aff_PodAntiAffinity affinity)).

(** [yaml.UnmarshalStrict] into a container is a parameter. *)
Section Sidecars.
Context (UnmarshalStrict : string -> string + Container).

Definition set_ps_Containers (v : list Container) (p : PodSpec) : PodSpec :=
  mkPodSpec (ps_RuntimeClassName p) (ps_ImagePullSecrets p) (ps_SetHostnameAsFQDN p)
    (ps_EnableServiceLinks p) (ps_TerminationGracePeriodSeconds p) v
    (ps_InitContainers p) (ps_Volumes p) (ps_Affinity p) (ps_NodeSelector p)
    (ps_Tolerations p) (ps_HostNetwork p) (ps_DNSPolicy p) (ps_RestartPolicy p).

Definition set_ps_InitContainers (v : list Container) (p : PodSpec) : PodSpec :=
  mkPodSpec (ps_RuntimeClassName p) (ps_ImagePullSecrets p) (ps_SetHostnameAsFQDN p)
    (ps_EnableServiceLinks p) (ps_TerminationGracePeriodSeconds p) (ps_Containers p)
    v (ps_Volumes p) (ps_Affinity p) (ps_NodeSelector p)
    (ps_Tolerations p) (ps_HostNetwork p) (ps_DNSPolicy p) (ps_RestartPolicy p).

(** The pod specification after the call, and the error: containers parsed
    before the bad one stay appended. *)
Fixpoint AddSidecarsToPodSpec (sidecar : list string) (podSpec : PodSpec) : PodSpec * error :=
  match sidecar with
  | [] => (podSpec, None)
  | sidecarSpec :: rest =>
      match UnmarshalStrict sidecarSpec with
      | inl err => (podSpec, Some err)
      | inr c => AddSidecarsToPodSpec rest (set_ps_Containers (ps_Containers podSpec ++ [c]) podSpec)
      end
  end.

Fixpoint parse_containers (specs : list string) : string + list Container :=
  match specs with
  | [] => inr []
  | spec :: rest =>
      match UnmarshalStrict spec with
      | inl err => inl err
      | inr c => match parse_containers rest with inl err => inl err | inr cs => inr (c :: cs) end
      end
  end.

Definition AddInitContainersToPodSpec (initContainers : list string) (podSpec : PodSpec)
    : PodSpec * error :=
  match parse_containers initContainers with
  | inl err => (podSpec, Some err)
  | inr containers =>
      (set_ps_InitContainers (containers ++ ps_InitContainers podSpec) podSpec, None)
  end.
End Sidecars.

(** ** What implementations promise *)

Section Laws.
Context {H E : Type} `{K : Kube E} `{CM : ConditionMeta} `{KL : !KubeLaws E K}.
Local Abbreviation W := (World H E).

Class PodsLaws (p : podsManager W) := {
  pods_remove_quiet : preserves quiet (pm_removePods p);
  pods_removed_quiet : preserves quiet (pm_arePodsRemoved p);
  pods_ready_quiet : preserves quiet (pm_arePodsReady p);
  pods_image_quiet : preserves quiet (pm_podsImageCorrespondsToSpec p);
}.

Class ServerLaws (s : server W H) := {
  server_pods :: PodsLaws (sv_pods s);
  server_fetch_quiet : preserves quiet (sv_Fetch s);
  server_sync_quiet : preserves quiet (sv_Sync s);
  server_needUpdate_quiet : preserves quiet (sv_needUpdate s);
  server_reload_quiet : preserves quiet (sv_configNeedsReload s);
  server_needBuild_quiet : preserves quiet (sv_needBuild s);
  server_needSync_quiet : preserves quiet (sv_needSync s);
  server_build_quiet : preserves quiet (sv_buildStatefulSet s);
  server_rebuild_quiet : preserves quiet (sv_rebuildStatefulSet s);
}.

Class ComponentLaws (c : Component W) := {
  component_fetch_frame : preserves frame (cmp_Fetch c);
  component_sync_frame : preserves frame (cmp_Sync c);
  component_status_frame : preserves frame (cmp_Status c);
  component_ready_frame : forall s, preserves frame (cmp_SetReadyCondition c s);
}.
End Laws.

#[export] Hint Resolve pods_remove_quiet pods_removed_quiet pods_ready_quiet pods_image_quiet
  server_fetch_quiet server_sync_quiet server_needUpdate_quiet server_reload_quiet
  server_needBuild_quiet server_needSync_quiet server_build_quiet server_rebuild_quiet
  component_fetch_frame component_sync_frame component_status_frame component_ready_frame : frame.

Section Frames.
Context {H E : Type} `{K : Kube E} `{CM : ConditionMeta}.
Context `{KL : !KubeLaws E K} `{CL : !ConditionMetaLaws CM}.
Local Abbreviation W := (World H E).

Lemma SetReadyCondition_frame l s : preserves frame (SetReadyCondition l s : M W unit).
Proof. unfold SetReadyCondition. solve_frame. Qed.

Lemma LocalServerNeedSync_frame (s : server W H) :
  ServerLaws s -> preserves quiet (LocalServerNeedSync s).
Proof. intros. unfold LocalServerNeedSync. solve_frame. Qed.

Lemma IsUpdatingSelf_frame n u : preserves quiet (IsUpdatingSelf n u : M W bool).
Proof. unfold IsUpdatingSelf. solve_frame. Qed.

Lemma IsUpdatingComponent_frame (c : Component W) : preserves quiet (IsUpdatingComponent c).
Proof. unfold IsUpdatingComponent, IsUpdatingSelf. solve_frame. Qed.

Lemma removePods_frame (p : podsManager W) l : PodsLaws p -> preserves update_frame (removePods p l).
Proof.
  intros. unfold removePods, isPodsRemovingStarted, setPodsRemovingStartedCondition,
    setPodsRemovedCondition. solve_frame.
Qed.

#[local] Hint Resolve IsUpdatingSelf_frame IsUpdatingComponent_frame removePods_frame : frame.

Lemma handleUpdatingClusterState_frame u l (p : podsManager W) dry :
  PodsLaws p -> preserves update_frame (handleUpdatingClusterState u l p dry).
Proof. intros. unfold handleUpdatingClusterState. solve_frame. Qed.
End Frames.

#[export] Hint Resolve SetReadyCondition_frame LocalServerNeedSync_frame IsUpdatingSelf_frame IsUpdatingComponent_frame
  removePods_frame handleUpdatingClusterState_frame : frame.

(** ** The pods removal protocol *)

Section Removal.
Context {H E : Type} `{K : Kube E} `{CM : ConditionMeta}.
Context `{KL : !KubeLaws E K} `{CL : !ConditionMetaLaws CM}.
Local Abbreviation W := (World H E).

Definition removal_started (l : Labeller) (w : W) : bool :=
  update_condition_true w (GetPodsRemovingStartedCondition l).
Definition pods_reported_removed (l : Labeller) (w : W) : bool :=
  update_condition_true w (GetPodsRemovedCondition (lb_ComponentName l)).

Lemma removal_conditions_differ l :
  GetPodsRemovingStartedCondition l <> GetPodsRemovedCondition (lb_ComponentName l).
Proof.
  unfold GetPodsRemovingStartedCondition, GetPodsRemovedCondition. intros Heq.
  by apply string_app_inj_l in Heq.
Qed.

Lemma update_condition_status (w w' : W) t :
  status w' = status w -> update_condition_true w' t = update_condition_true w t.
Proof. intros Hs. unfold update_condition_true, updateStatus. by rewrite Hs. Qed.

Lemma SetUpdateStatusCondition_run (w : W) c :
  conditions_wf (us_Conditions (updateStatus w)) ->
  exists w', SetUpdateStatusCondition c w = Some (tt, w') /\ heap w' = heap w /\ ext w' = ext w /\
    conditions_wf (us_Conditions (updateStatus w')) /\
    forall t, update_condition_true w' t =
      if decide (t = cond_Type c) then bool_decide (cond_Status c = ConditionTrue)
      else update_condition_true w t.
Proof.
  intros Hwf. eexists. split; [reflexivity|]. split; [done|]. split; [done|]. split.
  - simpl. by apply sortConditions_wf, set_wf.
  - intros t. by apply is_true_set.
Qed.

(** C26. Pods are removed in two acknowledged steps: [removePods] first asks
    the manager to remove the pods, and only if that succeeds records that
    the removal started; once it started, it records that the pods are
    removed exactly when the manager says they are.  So the pods are never
    reported removed before their removal was started. *)
Theorem removePods_protocol (p : podsManager W) (l : Labeller) (w : W) (err : error) (w' : W)
    (Hp : PodsLaws p) (Hwf : conditions_wf (us_Conditions (updateStatus w)))
    (Hrun : removePods p l w = Some (err, w')) :
  if removal_started l w then
    exists removed w1, pm_arePodsRemoved p w = Some (removed, w1) /\ err = None /\
      removal_started l w' = true /\
      pods_reported_removed l w' = removed || pods_reported_removed l w
  else
    exists w1, pm_removePods p w = Some (err, w1) /\
      removal_started l w' = no_error err /\
      pods_reported_removed l w' = pods_reported_removed l w.
Proof.
  unfold removePods, isPodsRemovingStarted, IsUpdateStatusConditionTrue in Hrun.
  rewrite run_gets in Hrun. change (meta_IsStatusConditionTrue _ _) with (removal_started l w) in Hrun.
  pose proof (removal_conditions_differ l).
  destruct (removal_started l w) eqn:Hst; simpl in Hrun.
  - apply bind_inv in Hrun as (removed & w1 & Hr & Hrun).
    pose proof (proj2 (pods_removed_quiet _ _ _ Hr)) as Hs.
    pose proof (update_condition_status _ _ (GetPodsRemovingStartedCondition l) Hs) as Hk1.
    pose proof (update_condition_status _ _ (GetPodsRemovedCondition (lb_ComponentName l)) Hs) as Hk2.
    exists removed, w1. split; [done|]. unfold removal_started, pods_reported_removed in *.
    destruct removed; simpl in Hrun.
    + assert (conditions_wf (us_Conditions (updateStatus w1))) as Hwf1
        by (unfold updateStatus; by rewrite Hs).
      destruct (SetUpdateStatusCondition_run w1 (mkCondition (GetPodsRemovedCondition (lb_ComponentName l))
        ConditionTrue 0 "Update" "Pods removed") Hwf1) as (w2 & Hset & _ & _ & _ & Hk).
      unfold setPodsRemovedCondition in Hrun. rewrite (bind_step _ _ _ _ _ Hset) in Hrun.
      injection Hrun as <- <-. rewrite !Hk. simpl. rewrite decide_False, decide_True by done.
      split; [done|]. split; [congruence|done].
    + injection Hrun as <- <-. split; [done|]. simpl. split; congruence.
  - apply bind_inv in Hrun as (e & w1 & Hr & Hrun). exists w1.
    pose proof (proj2 (pods_remove_quiet _ _ _ Hr)) as Hs.
    pose proof (update_condition_status _ _ (GetPodsRemovingStartedCondition l) Hs) as Hk1.
    pose proof (update_condition_status _ _ (GetPodsRemovedCondition (lb_ComponentName l)) Hs) as Hk2.
    unfold removal_started, pods_reported_removed in *. destruct e as [msg|].
    + injection Hrun as <- <-. split; [done|]. simpl. split; congruence.
    + assert (conditions_wf (us_Conditions (updateStatus w1))) as Hwf1
        by (unfold updateStatus; by rewrite Hs).
      destruct (SetUpdateStatusCondition_run w1 (mkCondition (GetPodsRemovingStartedCondition l)
        ConditionTrue 0 "Update" "Pods removing was started") Hwf1) as (w2 & Hset & _ & _ & _ & Hk).
      unfold setPodsRemovingStartedCondition in Hrun. rewrite (bind_step _ _ _ _ _ Hset) in Hrun.
      injection Hrun as <- <-. split; [done|]. rewrite !Hk. simpl.
      rewrite decide_True, decide_False by done. split; [done|congruence].
Qed.
End Removal.

Module RemovalWitness.
Import RefKube RefMeta.
Definition labeller : Labeller := mkLabeller "minisaurus" "default" "yt-discovery" "Discovery" None.
Definition pods : podsManager (World unit YtsaurusStatus) :=
  mkPodsManager _ (mret None) (mret true) (mret true) (mret true).
Definition world : World unit YtsaurusStatus :=
  let st := mkYtsaurusStatus ClusterStateUpdating []
              (mkUpdateStatus UpdateStateWaitingForPodsRemoval None UpdateFlowFull
                 [mkCondition "DiscoveryPodsRemovingStarted" ConditionTrue 0 "Update" ""] [] []) in
  mkWorld (set_yt_Status st (sample_Ytsaurus ClusterStateUpdating)) tt st.
End RemovalWitness.

Import RefKube RefMeta.

Lemma removePods_protocol_witness :
  exists w', removePods RemovalWitness.pods RemovalWitness.labeller RemovalWitness.world = Some (None, w') /\
    pods_reported_removed RemovalWitness.labeller w' = true.
Proof.
  eexists. split; [reflexivity|].
  assert (PodsLaws RemovalWitness.pods) as Hp by (split; intros w a w' [= <- <-]; done).
  unshelve epose proof (removePods_protocol RemovalWitness.pods RemovalWitness.labeller RemovalWitness.world None
    _ Hp _ eq_refl) as Hproto; [repeat constructor; set_solver|].
  destruct Hproto as (removed & w1 & [= <- <-] & _ & _ & Hr). exact Hr.
Defined.
