(* ===== verification/Resources.v ===== *)
(** * Kubernetes resources of a component: pkg/resources

    Each Go resource owns two variables: [oldObject], the object last fetched,
    and [newObject], the object being built.  A [Handle] names the resource
    and points to both; the typed builders fill [newObject] in. *)

From S2P Require Import Prelude Api Kube Conditions Labeller Proxy.

(** ** Ports: pkg/consts/address.go *)

Definition YTMonitoringContainerPortName : string := "metrics".
Definition YTMonitoringServicePortName : string := "ytsaurus-metrics".
Definition YTMonitoringPort : Z := 10000.
Definition HTTPProxyHTTPPort : Z := 80.
Definition HTTPProxyHTTPSPort : Z := 443.
Definition RPCProxyRPCPort : Z := 9013.

(** ** Handles *)

Record Handle (H : Type) (k : Kind) := mkHandle {
  hd_name : string;
  oldObject : Ref H (kind_type k);
  newObject : Ref H (kind_type k);
}.
Arguments hd_name {H k} _. Arguments oldObject {H k} _. Arguments newObject {H k} _.

(** [StatefulSet] and [Deployment] also remember that they were built. *)
Record BuiltHandle (H : Type) (k : Kind) := mkBuiltHandle {
  bh_handle : Handle H k;
  bh_built : Ref H bool;
}.
Arguments bh_handle {H k} _. Arguments bh_built {H k} _.

Section Resources.
Context {H E : Type} `{K : Kube E} `{CM : ConditionMeta}.
Local Abbreviation W := (World H E).

(** ** pkg/resources/resource.go *)

Definition Exists {k} (r : Handle H k) : M W bool :=
  old ← read (oldObject r);
  mret (negb (bool_decide (GetResourceVersion old = ""))).

(** [Fetch(ctx, objects...)] and [Sync(ctx, objects...)]: in order, up to the
    first error. *)
Fixpoint in_order (objects : list (M W error)) : M W error :=
  match objects with
  | [] => mret None
  | obj :: rest =>
      err ← obj;
      match err with
      | Some _ => mret err
      | None => in_order rest
      end
  end.

(** The [Fetch] and [Sync] methods all resources have. *)
Definition Fetch {k} (r : Handle H k) : M W error := FetchObject k (hd_name r) (oldObject r).
Definition Sync {k} (r : Handle H k) : M W error := SyncObject k (oldObject r) (newObject r).

(** ** ConfigMap, HeadlessService, MonitoringService *)

Definition ConfigMap_Build (l : Labeller) (r : Handle H KConfigMap) : M W (Ref H ConfigMap) :=
  _ ← write (newObject r) (mkConfigMap (GetObjectMeta l (hd_name r)) ∅);
  mret (newObject r).

Definition HeadlessService_Build (l : Labeller) (r : Handle H KService) : M W (Ref H Service) :=
  _ ← write (newObject r)
        (mkService (GetObjectMeta l (hd_name r)) "" "None" (GetSelectorLabelMap l) []);
  mret (newObject r).

Definition GetServiceMeta (l : Labeller) (name : string) : ObjectMeta :=
  mkObjectMeta name (lb_Namespace l) (GetMonitoringMetaLabelMap l) None "".

Definition MonitoringService_Build (l : Labeller) (monitoringTargetPort : Z)
    (r : Handle H KService) : M W (Ref H Service) :=
  _ ← write (newObject r)
        (mkService (GetServiceMeta l (hd_name r)) "" "" (GetSelectorLabelMap l)
           [mkServicePort YTMonitoringServicePortName YTMonitoringPort
              (PortNumber monitoringTargetPort) 0]);
  mret (newObject r).

(** ** HTTPService, RPCService, TCPService *)

Definition HTTPService_ports (transport : HTTPTransportSpec) (httpNodePort httpsNodePort : option Z)
    : list ServicePort :=
  (if ht_DisableHTTP transport then []
   else [mkServicePort "http" HTTPProxyHTTPPort (PortNumber HTTPProxyHTTPPort)
           (default 0%Z httpNodePort)]) ++
  (match ht_HTTPSSecret transport with
   | None => []
   | Some _ => [mkServicePort "https" HTTPProxyHTTPSPort (PortNumber HTTPProxyHTTPSPort)
                  (default 0%Z httpsNodePort)]
   end).

Definition HTTPService_Build (l : Labeller) (transport : HTTPTransportSpec)
    (httpNodePort httpsNodePort : option Z) (r : Handle H KService) : M W (Ref H Service) :=
  _ ← write (newObject r)
        (mkService (GetObjectMeta l (hd_name r)) "" "" (GetSelectorLabelMap l)
           (HTTPService_ports transport httpNodePort httpsNodePort));
  mret (newObject r).

Definition RPCService_Build (l : Labeller) (nodePort : option Z) (r : Handle H KService)
    : M W (Ref H Service) :=
  _ ← write (newObject r)
        (mkService (GetObjectMeta l (hd_name r)) "" "" (GetSelectorLabelMap l)
           [mkServicePort "rpc" RPCProxyRPCPort (PortNumber RPCProxyRPCPort) (default 0%Z nodePort)]);
  mret (newObject r).

(** The loop [for port := minPort; port < minPort+portCount; port++] on
    [int32], whose sums wrap around; [portCount] iterations are enough fuel. *)
Definition TCPService_port (serviceType : string) (port : Z) : ServicePort :=
  mkServicePort ("tcp-" +:+ pretty port)%string port (PortNumber port)
    (if decide (serviceType = "NodePort") then port else 0%Z).

Fixpoint TCPService_ports (fuel : nat) (serviceType : string) (minPort portCount port : Z)
    : list ServicePort :=
  match fuel with
  | 0 => []
  | S fuel =>
      if (port <? int32 (minPort + portCount))%Z then
        TCPService_port serviceType port ::
        TCPService_ports fuel serviceType minPort portCount (int32 (port + 1))
      else []
  end.

Definition TCPService_Build (l : Labeller) (serviceType : string) (portCount minPort : Z)
    (r : Handle H KService) : M W (Ref H Service) :=
  _ ← write (newObject r)
        (mkService (GetObjectMeta l (hd_name r)) serviceType "" (GetSelectorLabelMap l)
           (TCPService_ports (Z.to_nat portCount) serviceType minPort portCount minPort));
  mret (newObject r).

(** ** StringSecret *)

Definition StringSecret_GetValue (r : Handle H KSecret) (key : string) : M W (string * bool) :=
  old ← read (oldObject r);
  match sec_Data old !! key with
  | None => mret ("", false)
  | Some v => mret (v, true)
  end.

Definition StringSecret_Build (l : Labeller) (r : Handle H KSecret) : M W (Ref H Secret) :=
  new ← read (newObject r);
  _ ← write (newObject r)
        (mkSecret (GetObjectMeta l (hd_name r)) "Opaque" (sec_Data new) (sec_StringData new));
  mret (newObject r).

Definition StringSecret_NeedSync (r : Handle H KSecret) (key value : string) : M W bool :=
  exists_ ← Exists r;
  if negb exists_ then mret true
  else
    '(v, ok) ← StringSecret_GetValue r key;
    if negb ok then mret true
    else if decide (value = "") then mret false
    else mret (negb (bool_decide (value = v))).

(** ** Job *)

Definition Job_Completed (r : Handle H KJob) : M W bool :=
  old ← read (oldObject r);
  mret (0 <? job_Status_Succeeded old)%Z.

Definition Job_Build (l : Labeller) (r : Handle H KJob) : M W (Ref H Job) :=
  new ← read (newObject r);
  _ ← write (newObject r)
        (mkJob (GetObjectMeta l (hd_name r)) (Some 600%Z) (Some 15%Z)
           (mkPodTemplateSpec ObjectMeta_zero PodSpec_zero) (job_Status_Succeeded new));
  mret (newObject r).

(** ** StatefulSet *)

(** The annotations of all pods, [commonSpec.ExtraPodAnnotations]: the map
    every pod template is built on, shared by reference. *)
Definition ExtraPodAnnotations : M W (option (gmap string string)) :=
  gets (fun w => cs_ExtraPodAnnotations (sp_CommonSpec (yt_Spec (resource w)))).

Definition StatefulSet_Build (l : Labeller) (r : BuiltHandle H KStatefulSet)
    : M W (Ref H StatefulSet) :=
  built ← read (bh_built r);
  _ ← (if (built : bool) then mret tt
       else
         annotations ← ExtraPodAnnotations;
         write (newObject (bh_handle r))
           (mkStatefulSet (GetObjectMeta l (hd_name (bh_handle r))) "Parallel"
              (GetSelectorLabelMap l) None "" []
              (mkPodTemplateSpec
                 (mkObjectMeta "" "" (GetMetaLabelMap l false) annotations "") PodSpec_zero)));
  _ ← write (bh_built r) true;
  mret (newObject (bh_handle r)).

(** [getPods]: nil when the list fails. *)
Definition getPods (l : Labeller) : M W (option (list Pod)) :=
  let '(ns, labels) := GetListOptions l in
  r ← ListPods ns labels;
  match r with inl _ => mret None | inr pods => mret (Some pods) end.

Definition StatefulSet_ArePodsRemoved (l : Labeller) : M W bool :=
  pods ← getPods l;
  match pods with
  | None => mret false
  | Some pods => if decide (length pods <> 0) then mret false else mret true
  end.

Definition is_running (p : Pod) : bool := bool_decide (pod_Phase p = "Running").

Definition StatefulSet_ArePodsReady (l : Labeller) (minReadyInstanceCount : option Z) : M W bool :=
  pods ← getPods l;
  match pods with
  | None => mret false
  | Some pods =>
      let total := Z.of_nat (length pods) in
      let effective :=
        match minReadyInstanceCount with
        | Some m => if (m <? total)%Z then m else total
        | None => total
        end in
      let ready := foldl (fun n p => if is_running p then n + 1 else n)%Z 0%Z pods in
      mret (negb (ready <? effective)%Z)
  end.

Definition StatefulSet_NeedSync (r : BuiltHandle H KStatefulSet) (replicas : Z) : M W bool :=
  old ← read (oldObject (bh_handle r));
  match ss_Replicas old with
  | None => mret true
  | Some n => mret (negb (bool_decide (n = replicas)))
  end.

(** ** Deployment *)

Definition Deployment_Build (l : Labeller) (r : BuiltHandle H KDeployment) : M W (Ref H Deployment) :=
  built ← read (bh_built r);
  _ ← (if (built : bool) then mret tt
       else
         annotations ← ExtraPodAnnotations;
         secrets ← gets (fun w => cs_ImagePullSecrets (sp_CommonSpec (yt_Spec (resource w))));
         new ← read (newObject (bh_handle r));
         write (newObject (bh_handle r))
           (mkDeployment (GetObjectMeta l (hd_name (bh_handle r))) (GetSelectorLabelMap l) None
              (mkPodTemplateSpec
                 (mkObjectMeta "" "" (GetMetaLabelMap l false) annotations "")
                 (mkPodSpec None secrets None None None [] [] [] None ∅ [] false "" ""))
              (dp_Status_Replicas new) (dp_Status_AvailableReplicas new)));
  _ ← write (bh_built r) true;
  mret (newObject (bh_handle r)).

Definition Deployment_NeedSync (r : BuiltHandle H KDeployment) (replicas : Z) : M W bool :=
  old ← read (oldObject (bh_handle r));
  match dp_Replicas old with
  | None => mret true
  | Some n =>
      mret (negb (bool_decide (n = replicas)) ||
            negb (bool_decide (length (ps_Containers (pt_Spec (dp_Template old))) = 1)))
  end.

Definition Deployment_ArePodsRemoved (r : BuiltHandle H KDeployment) : M W bool :=
  old ← read (oldObject (bh_handle r));
  mret (bool_decide (dp_Status_AvailableReplicas old = 0%Z) &&
        bool_decide (dp_Status_Replicas old = 0%Z)).

Definition Deployment_ArePodsReady (r : BuiltHandle H KDeployment) : M W bool :=
  old ← read (oldObject (bh_handle r));
  match dp_Replicas old with
  | None => mret false
  | Some n =>
      if negb (bool_decide (n = dp_Status_Replicas old)) then mret false
      else if negb (bool_decide (dp_Status_AvailableReplicas old = dp_Status_Replicas old))
      then mret false
      else mret true
  end.
End Resources.

(** ** Mounted configuration: ca_bundle.go, tls_secret.go *)

(** [CABundle] and [TLSSecret]: a volume and its mount. *)
Record MountedVolume := mkMountedVolume {
  mv_VolumeName : string;
  mv_MountPath : string;
  mv_Source : VolumeSource;
}.

Definition NewCABundle (configMapName volumeName mountPath : string) : MountedVolume :=
  mkMountedVolume volumeName mountPath (VolumeConfigMap configMapName None).
Definition NewTLSSecret (secretName volumeName mountPath : string) : MountedVolume :=
  mkMountedVolume volumeName mountPath (VolumeSecret secretName).

Definition set_ps_Volumes (v : list Volume) (p : PodSpec) : PodSpec :=
  mkPodSpec (ps_RuntimeClassName p) (ps_ImagePullSecrets p) (ps_SetHostnameAsFQDN p)
    (ps_EnableServiceLinks p) (ps_TerminationGracePeriodSeconds p) (ps_Containers p)
    (ps_InitContainers p) v (ps_Affinity p) (ps_NodeSelector p)
    (ps_Tolerations p) (ps_HostNetwork p) (ps_DNSPolicy p) (ps_RestartPolicy p).

Definition set_ct_VolumeMounts (v : list VolumeMount) (c : Container) : Container :=
  mkContainer (ct_Image c) (ct_Name c) (ct_Command c) (ct_Args c) (ct_Env c) (ct_EnvFrom c) v (ct_Ports c)
    (ct_Resources c) (ct_ReadinessProbe c) (ct_Privileged c).

Definition AddVolume (t : MountedVolume) (podSpec : PodSpec) : PodSpec :=
  set_ps_Volumes (ps_Volumes podSpec ++ [mkVolume (mv_VolumeName t) (mv_Source t)]) podSpec.

Definition AddVolumeMount (t : MountedVolume) (container : Container) : Container :=
  set_ct_VolumeMounts
    (ct_VolumeMounts container ++ [mkVolumeMount (mv_VolumeName t) (mv_MountPath t) true None ""])
    container.

(** ** The frame of the resources *)

Section ResourceFrames.
Context {H E : Type} `{K : Kube E} `{CM : ConditionMeta} `{KL : !KubeLaws E K}.
Local Abbreviation W := (World H E).

Lemma Exists_quiet {k} (r : Handle H k) : preserves quiet (Exists r : M W bool).
Proof. unfold Exists. solve_frame. Qed.

Lemma in_order_quiet (l : list (M W error)) :
  Forall (preserves quiet) l -> preserves quiet (in_order l).
Proof. induction 1; simpl; solve_frame. Qed.

Lemma in_order_frame (l : list (M W error)) :
  Forall (preserves frame) l -> preserves frame (in_order l).
Proof. induction 1; simpl; solve_frame. Qed.

Lemma Fetch_quiet {k} (r : Handle H k) : preserves quiet (Fetch r : M W error).
Proof. unfold Fetch. solve_frame. Qed.
Lemma Sync_quiet {k} (r : Handle H k) : preserves quiet (Sync r : M W error).
Proof. unfold Sync. solve_frame. Qed.

Lemma StringSecret_GetValue_quiet r key :
  preserves quiet (StringSecret_GetValue r key : M W (string * bool)).
Proof. unfold StringSecret_GetValue. solve_frame. Qed.

#[local] Hint Resolve Exists_quiet StringSecret_GetValue_quiet : frame.

Lemma StringSecret_NeedSync_quiet r key v : preserves quiet (StringSecret_NeedSync r key v : M W bool).
Proof. unfold StringSecret_NeedSync. solve_frame. Qed.

Lemma ConfigMap_Build_quiet l r : preserves quiet (ConfigMap_Build l r : M W (Ref H ConfigMap)).
Proof. unfold ConfigMap_Build. solve_frame. Qed.
Lemma HeadlessService_Build_quiet l r : preserves quiet (HeadlessService_Build l r : M W (Ref H Service)).
Proof. unfold HeadlessService_Build. solve_frame. Qed.
Lemma MonitoringService_Build_quiet l p r :
  preserves quiet (MonitoringService_Build l p r : M W (Ref H Service)).
Proof. unfold MonitoringService_Build. solve_frame. Qed.
Lemma HTTPService_Build_quiet l t a b r :
  preserves quiet (HTTPService_Build l t a b r : M W (Ref H Service)).
Proof. unfold HTTPService_Build. solve_frame. Qed.
Lemma RPCService_Build_quiet l p r : preserves quiet (RPCService_Build l p r : M W (Ref H Service)).
Proof. unfold RPCService_Build. solve_frame. Qed.
Lemma TCPService_Build_quiet l t a b r :
  preserves quiet (TCPService_Build l t a b r : M W (Ref H Service)).
Proof. unfold TCPService_Build. solve_frame. Qed.
Lemma StringSecret_Build_quiet l r : preserves quiet (StringSecret_Build l r : M W (Ref H Secret)).
Proof. unfold StringSecret_Build. solve_frame. Qed.
Lemma Job_Completed_quiet r : preserves quiet (Job_Completed r : M W bool).
Proof. unfold Job_Completed. solve_frame. Qed.
Lemma Job_Build_quiet l r : preserves quiet (Job_Build l r : M W (Ref H Job)).
Proof. unfold Job_Build. solve_frame. Qed.
Lemma StatefulSet_Build_quiet l r : preserves quiet (StatefulSet_Build l r : M W (Ref H StatefulSet)).
Proof. unfold StatefulSet_Build, ExtraPodAnnotations. solve_frame. Qed.
Lemma getPods_quiet l : preserves quiet (getPods l : M W (option (list Pod))).
Proof. unfold getPods. simpl. solve_frame. Qed.

#[local] Hint Resolve getPods_quiet : frame.

Lemma StatefulSet_ArePodsRemoved_quiet l : preserves quiet (StatefulSet_ArePodsRemoved l : M W bool).
Proof. unfold StatefulSet_ArePodsRemoved. solve_frame. Qed.
Lemma StatefulSet_ArePodsReady_quiet l m :
  preserves quiet (StatefulSet_ArePodsReady l m : M W bool).
Proof. unfold StatefulSet_ArePodsReady. solve_frame. Qed.
Lemma StatefulSet_NeedSync_quiet r n : preserves quiet (StatefulSet_NeedSync r n : M W bool).
Proof. unfold StatefulSet_NeedSync. solve_frame. Qed.
Lemma Deployment_Build_quiet l r : preserves quiet (Deployment_Build l r : M W (Ref H Deployment)).
Proof. unfold Deployment_Build, ExtraPodAnnotations. solve_frame. Qed.
Lemma Deployment_NeedSync_quiet r n : preserves quiet (Deployment_NeedSync r n : M W bool).
Proof. unfold Deployment_NeedSync. solve_frame. Qed.
Lemma Deployment_ArePodsRemoved_quiet r : preserves quiet (Deployment_ArePodsRemoved r : M W bool).
Proof. unfold Deployment_ArePodsRemoved. solve_frame. Qed.
Lemma Deployment_ArePodsReady_quiet r : preserves quiet (Deployment_ArePodsReady r : M W bool).
Proof. unfold Deployment_ArePodsReady. solve_frame. Qed.
End ResourceFrames.

#[export] Hint Resolve Exists_quiet in_order_quiet in_order_frame Fetch_quiet Sync_quiet
  StringSecret_GetValue_quiet StringSecret_NeedSync_quiet ConfigMap_Build_quiet
  HeadlessService_Build_quiet MonitoringService_Build_quiet HTTPService_Build_quiet
  RPCService_Build_quiet TCPService_Build_quiet StringSecret_Build_quiet Job_Completed_quiet
  Job_Build_quiet StatefulSet_Build_quiet StatefulSet_ArePodsRemoved_quiet
  StatefulSet_ArePodsReady_quiet StatefulSet_NeedSync_quiet Deployment_Build_quiet
  Deployment_NeedSync_quiet Deployment_ArePodsRemoved_quiet Deployment_ArePodsReady_quiet : frame.

#[export] Hint Extern 2 (preserves _ (in_order (_ :: _))) => cbn [in_order]; solve_frame : frame.

(** ** Counting pods and ports *)

Lemma ready_count (pods : list Pod) n :
  foldl (fun n p => if is_running p then n + 1 else n)%Z n pods =
  (n + Z.of_nat (length (List.filter is_running pods)))%Z.
Proof.
  revert n. induction pods as [|p pods IH]; intros n; simpl; [lia|].
  rewrite IH. destruct (is_running p); simpl; lia.
Qed.

Lemma TCPService_ports_seq n t minPort portCount port :
  (minPort + portCount < 2 ^ 31)%Z -> (0 <= minPort)%Z -> (minPort <= port)%Z ->
  (port + Z.of_nat n = minPort + portCount)%Z ->
  TCPService_ports n t minPort portCount port = TCPService_port t <$> seqZ port (Z.of_nat n).
Proof.
  intros Hb Hm. revert port. induction n as [|n IH]; intros port Hp Hn; [done|]. cbn [TCPService_ports].
  rewrite int32_small by lia. rewrite (proj2 (Z.ltb_lt _ _)) by lia.
  rewrite seqZ_cons by lia. rewrite fmap_cons. f_equal.
  rewrite int32_small by lia. rewrite IH by lia. do 2 f_equal; lia.
Qed.
