(* ===== verification/ConfigHelper.v ===== *)
(** * Configuration maps: pkg/components/config_helper.go

    A [ConfigHelper] renders the configuration files of a component, applies
    the user's overrides, and keeps the config map of the cluster in step.
    The YSON, JSON and TOML codecs are libraries: parameters of [Codec]. *)

From S2P Require Import Prelude Api Kube Conditions Samples Labeller Proxy Resources.

(** ** Configuration values

    Go's [interface{}] as the YSON decoder produces it: a map, or anything
    else.  A map is an association list; the code only looks keys up and
    assigns them. *)

Inductive value :=
| VMap (entries : list (string * value))
| VOther (s : string).

(** [dst[key]] with its [ok]. *)
Fixpoint assoc_get {A} (key : string) (m : list (string * A)) : option A :=
  match m with
  | [] => None
  | (k, v) :: m' => if decide (k = key) then Some v else assoc_get key m'
  end.

(** [dst[key] = v]. *)
Fixpoint assoc_set {A} (key : string) (v : A) (m : list (string * A)) : list (string * A) :=
  match m with
  | [] => [(key, v)]
  | (k, x) :: m' => if decide (k = key) then (key, v) :: m' else (k, x) :: assoc_set key v m'
  end.

(** [mapify]: the entries of a map, and whether the value is one. *)
Definition mapify (i : value) : option (list (string * value)) :=
  match i with VMap m => Some m | VOther _ => None end.

(** [mergeMapsRecursively(dst, src)], where [src] is the map [VMap src]; the
    recursion is on the value being merged in. *)
Fixpoint merge_value (dstVal : option value) (srcVal : value) : value :=
  match srcVal with
  | VOther s => VOther s
  | VMap src =>
      match dstVal with
      | Some (VMap dst) =>
          VMap ((fix merge (src : list (string * value)) (dst : list (string * value)) :=
             match src with
             | [] => dst
             | (key, srcVal) :: src' =>
                 merge src' (assoc_set key (merge_value (assoc_get key dst) srcVal) dst)
             end) src dst)
      | _ => VMap src
      end
  end.

Fixpoint mergeMapsRecursively (dst src : list (string * value)) : list (string * value) :=
  match src with
  | [] => dst
  | (key, srcVal) :: src' =>
      mergeMapsRecursively (assoc_set key (merge_value (assoc_get key dst) srcVal) dst) src'
  end.

(** ** The codecs and the generators *)

Class Codec := {
  yson_UnmarshalMap : string -> string + list (string * value);
  yson_Unmarshal : string -> string + value;
  yson_MarshalPretty : list (string * value) -> string + string;
  json_Marshal : value -> string + string;
  toml_Encode : value -> string + string;
}.

Inductive ConfigFormat :=
| ConfigFormatYson | ConfigFormatJson | ConfigFormatJsonWithJsPrologue | ConfigFormatToml.

(** [ytconfig.GeneratorDescriptor]: [F] renders the file from the resource. *)
Record GeneratorDescriptor := mkGeneratorDescriptor {
  gd_F : Ytsaurus -> string + string;
  gd_Fmt : ConfigFormat;
}.

Definition JsPrologue : string := "module.exports = ".

Record ConfigHelper (H : Type) := mkConfigHelper {
  ch_labeller : Labeller;
  ch_generators : list (string * GeneratorDescriptor);
  ch_configOverrides : option LocalObjectReference;
  ch_overridesMap : Ref H ConfigMap;
  ch_configMap : Handle H KConfigMap;
}.
Arguments ch_labeller {H} _. Arguments ch_generators {H} _. Arguments ch_configOverrides {H} _.
Arguments ch_overridesMap {H} _. Arguments ch_configMap {H} _.

Section ConfigHelper.
Context {H E : Type} `{K : Kube E} `{CM : ConditionMeta} `{CO : Codec}.
Local Abbreviation W := (World H E).
Implicit Types h : ConfigHelper H.

Definition overrideYsonConfigs (base overrides : string) : string + string :=
  match yson_UnmarshalMap base with
  | inl err => inl err
  | inr b =>
      match yson_UnmarshalMap overrides with
      | inl err => inl err
      | inr o => yson_MarshalPretty (mergeMapsRecursively b o)
      end
  end.

Definition GetFileNames h : list string := (ch_generators h).*1.
Definition GetConfigMapName h : string := hd_name (ch_configMap h).

(** The loop over [overrideNames]. *)
Fixpoint applyOverrides (data : gmap string string) (fileName : string) (names : list string)
    (config : string) : M W string :=
  match names with
  | [] => mret config
  | overrideName :: rest =>
      match data !! overrideName with
      | None => applyOverrides data fileName rest config
      | Some value =>
          match overrideYsonConfigs config value with
          | inr configWithOverrides => applyOverrides data fileName rest configWithOverrides
          | inl err =>
              _ ← RecordWarning "Reconciling"
                    ("Failed to apply config override " +:+ overrideName +:+ " for " +:+ fileName
                       +:+ ", skipping: " +:+ err)%string;
              applyOverrides data fileName rest config
          end
      end
  end.

(** The [switch] on the format. *)
Definition convertConfig (fmt : ConfigFormat) (config : string) : string + string :=
  match fmt with
  | ConfigFormatYson => inr config
  | ConfigFormatJson | ConfigFormatJsonWithJsPrologue =>
      match yson_Unmarshal config with
      | inl err => inl err
      | inr v =>
          match json_Marshal v with
          | inl err => inl err
          | inr s =>
              inr (match fmt with
                   | ConfigFormatJsonWithJsPrologue => (JsPrologue +:+ s)%string
                   | _ => s
                   end)
          end
      end
  | ConfigFormatToml =>
      match yson_Unmarshal config with
      | inl err => inl err
      | inr v => toml_Encode v
      end
  end.

(** [getConfig]: [inr None] is [nil, nil], an unknown file. *)
Definition getConfig h (fileName : string) : M W (string + option string) :=
  match assoc_get fileName (ch_generators h) with
  | None => mret (inr None)
  | Some descriptor =>
      y ← GetResource;
      match gd_F descriptor y with
      | inl err =>
          _ ← RecordWarning "Reconciling"
                ("Failed to build config " +:+ fileName +:+ ": " +:+ err)%string;
          mret (inl err)
      | inr serializedConfig =>
          overrides ← read (ch_overridesMap h);
          serializedConfig ←
            (if decide (om_ResourceVersion (cm_ObjectMeta overrides) = "") then mret serializedConfig
             else applyOverrides (cm_Data overrides) fileName
                    [fileName; (GetConfigMapName h +:+ "--" +:+ fileName)%string] serializedConfig);
          mret (match convertConfig (gd_Fmt descriptor) serializedConfig with
                | inl err => inl err
                | inr s => inr (Some s)
                end)
      end
  end.

(** [nil] when the config map or the file does not exist. *)
Definition getCurrentConfigValue h (fileName : string) : M W (option string) :=
  exists_ ← Exists (ch_configMap h);
  if negb exists_ then mret None
  else
    old ← read (oldObject (ch_configMap h));
    mret (cm_Data old !! fileName).

(** The loop of [NeedReload] over the generators. *)
Fixpoint needReload_loop h (files : list string) : M W (bool * error) :=
  match files with
  | [] => mret (false, None)
  | fileName :: rest =>
      newConfig ← getConfig h fileName;
      match newConfig with
      | inl err => mret (false, Some err)
      | inr newConfig =>
          curConfig ← getCurrentConfigValue h fileName;
          if bool_decide (curConfig = newConfig) then needReload_loop h rest
          else
            _ ← RecordNormal "Reconciliation"
                  ("Config " +:+ fileName +:+ " needs reload")%string;
            mret (true, None)
      end
  end.

Definition NeedReload h : M W (bool * error) := needReload_loop h (GetFileNames h).

Definition NeedInit h : M W bool :=
  e ← Exists (ch_configMap h);
  mret (negb e).

(** The loop of [Build]: [false] when a file could not be rendered. *)
Fixpoint build_loop h (cm : Ref H ConfigMap) (files : list string) : M W bool :=
  match files with
  | [] => mret true
  | fileName :: rest =>
      data ← getConfig h fileName;
      match data with
      | inl _ => mret false
      | inr None => build_loop h cm rest
      | inr (Some data) =>
          c ← read cm;
          _ ← write cm (mkConfigMap (cm_ObjectMeta c) (<[fileName := data]> (cm_Data c)));
          build_loop h cm rest
      end
  end.

(** [Build]: [None] is the nil pointer returned on an error. *)
Definition ConfigHelper_Build h : M W (option (Ref H ConfigMap)) :=
  cm ← ConfigMap_Build (ch_labeller h) (ch_configMap h);
  ok ← build_loop h cm (GetFileNames h);
  mret (if (ok : bool) then Some cm else None).

Definition ConfigHelper_Sync h : M W error :=
  '(needReload, err) ← NeedReload h;
  let needReload := match err with Some _ => false | None => needReload end in
  needInit ← NeedInit h;
  if negb needInit && negb needReload then mret None
  else Sync (ch_configMap h).

Definition ConfigHelper_Fetch h : M W error :=
  match ch_configOverrides h with
  | None => Fetch (ch_configMap h)
  | Some name =>
      err ← FetchObject KConfigMap name (ch_overridesMap h);
      match err with
      | Some _ => mret err
      | None => Fetch (ch_configMap h)
      end
  end.

Definition RemoveIfExists h : M W error :=
  e ← Exists (ch_configMap h);
  if negb e then mret None
  else DeleteObject KConfigMap (oldObject (ch_configMap h)) None.

Definition ConfigHelper_Exists h : M W bool := Exists (ch_configMap h).
End ConfigHelper.

(** ** Frames *)

Section Frames.
Context {H E : Type} `{K : Kube E} `{CM : ConditionMeta} `{CO : Codec} `{KL : !KubeLaws E K}.
Local Abbreviation W := (World H E).
Implicit Types h : ConfigHelper H.

Lemma applyOverrides_quiet data file names c :
  preserves quiet (applyOverrides data file names c : M W string).
Proof. revert c. induction names as [|n names IH]; intros c; simpl; solve_frame. Qed.

#[local] Hint Resolve applyOverrides_quiet : frame.

Lemma getConfig_quiet h file : preserves quiet (getConfig h file : M W _).
Proof. unfold getConfig. solve_frame. Qed.

Lemma getCurrentConfigValue_quiet h file : preserves quiet (getCurrentConfigValue h file : M W _).
Proof. unfold getCurrentConfigValue. solve_frame. Qed.

#[local] Hint Resolve getConfig_quiet getCurrentConfigValue_quiet : frame.

Lemma NeedReload_quiet h : preserves quiet (NeedReload h : M W _).
Proof. unfold NeedReload. induction (GetFileNames h); simpl; solve_frame. Qed.

Lemma NeedInit_quiet h : preserves quiet (NeedInit h : M W bool).
Proof. unfold NeedInit. solve_frame. Qed.

Lemma ConfigHelper_Build_quiet h : preserves quiet (ConfigHelper_Build h : M W _).
Proof.
  unfold ConfigHelper_Build. frame_step; [solve_frame|]. frame_step; [|solve_frame].
  induction (GetFileNames h); simpl; solve_frame.
Qed.

#[local] Hint Resolve NeedReload_quiet NeedInit_quiet ConfigHelper_Build_quiet : frame.

Lemma ConfigHelper_Sync_quiet h : preserves quiet (ConfigHelper_Sync h : M W error).
Proof. unfold ConfigHelper_Sync. solve_frame. Qed.
Lemma ConfigHelper_Fetch_quiet h : preserves quiet (ConfigHelper_Fetch h : M W error).
Proof. unfold ConfigHelper_Fetch. solve_frame. Qed.
Lemma RemoveIfExists_quiet h : preserves quiet (RemoveIfExists h : M W error).
Proof. unfold RemoveIfExists. solve_frame. Qed.
Lemma ConfigHelper_Exists_quiet h : preserves quiet (ConfigHelper_Exists h : M W bool).
Proof. unfold ConfigHelper_Exists. solve_frame. Qed.
End Frames.

#[export] Hint Resolve NeedReload_quiet NeedInit_quiet ConfigHelper_Build_quiet
  ConfigHelper_Sync_quiet ConfigHelper_Fetch_quiet RemoveIfExists_quiet
  ConfigHelper_Exists_quiet : frame.

(** ** Merging: overrides win, and nothing else changes *)

Fixpoint get_path (p : list string) (v : value) : option value :=
  match p with
  | [] => Some v
  | k :: p => match v with VMap m => assoc_get k m ≫= get_path p | VOther _ => None end
  end.

(** [untouched p v]: the overrides [v] say nothing at [p] or above it. *)
Fixpoint untouched (p : list string) (v : value) : Prop :=
  match p with
  | [] => False
  | k :: p =>
      match v with
      | VOther _ => False
      | VMap m => match assoc_get k m with None => True | Some v => untouched p v end
      end
  end.

(** Decoded maps have distinct keys, at every level. *)
Inductive wf_value : value -> Prop :=
| wf_VOther s : wf_value (VOther s)
| wf_VMap m :
    NoDup m.*1 -> (forall k v, assoc_get k m = Some v -> wf_value v) -> wf_value (VMap m).

Lemma assoc_get_set {A} k k' (v : A) m :
  assoc_get k (assoc_set k' v m) = if decide (k' = k) then Some v else assoc_get k m.
Proof.
  induction m as [|[k0 x] m IH]; simpl; [done|].
  destruct (decide (k0 = k')) as [->|Hne]; simpl; [by case_decide|].
  destruct (decide (k0 = k)) as [->|Hne2]; [by rewrite decide_False|done].
Qed.

Lemma assoc_get_None {A} k (m : list (string * A)) : k ∉ m.*1 -> assoc_get k m = None.
Proof.
  induction m as [|[k0 x] m IH]; simpl; [done|]. rewrite not_elem_of_cons. intros [Hk Hm].
  rewrite decide_False by done. auto.
Qed.

Lemma merge_value_VMap dst src :
  merge_value (Some (VMap dst)) (VMap src) = VMap (mergeMapsRecursively dst src).
Proof.
  simpl. f_equal. revert dst. induction src as [|[k v] src IH]; intros dst; simpl; [done|].
  by rewrite IH.
Qed.

Lemma merge_lookup src dst k :
  NoDup src.*1 ->
  assoc_get k (mergeMapsRecursively dst src) =
  match assoc_get k src with
  | None => assoc_get k dst
  | Some v => Some (merge_value (assoc_get k dst) v)
  end.
Proof.
  revert dst. induction src as [|[k0 v] src IH]; intros dst; simpl; [done|].
  rewrite NoDup_cons. intros [Hk Hnd]. rewrite IH by done. rewrite assoc_get_set.
  case_decide as Hkk; [|done]. subst k0. by rewrite assoc_get_None.
Qed.

Lemma merge_leaf p src dst x :
  wf_value (VMap src) -> get_path p (VMap src) = Some (VOther x) ->
  get_path p (VMap (mergeMapsRecursively dst src)) = Some (VOther x).
Proof.
  revert src dst. induction p as [|k p IH]; intros src dst Hwf; [done|].
  inversion Hwf as [|? Hnd Hsub]; subst. simpl. rewrite merge_lookup by done.
  destruct (assoc_get k src) as [v|] eqn:Hv; [|done]. simpl. intros Hp.
  specialize (Hsub _ _ Hv). destruct v as [src'|s]; [|done].
  destruct (assoc_get k dst) as [[dst'|s]|]; [|done|done].
  rewrite merge_value_VMap. by apply IH.
Qed.

Lemma merge_untouched p src dst :
  wf_value (VMap src) -> untouched p (VMap src) -> forall v, get_path p (VMap dst) = Some v ->
  get_path p (VMap (mergeMapsRecursively dst src)) = Some v.
Proof.
  revert src dst. induction p as [|k p IH]; intros src dst Hwf; [done|].
  inversion Hwf as [|? Hnd Hsub]; subst. simpl. rewrite merge_lookup by done.
  destruct (assoc_get k src) as [v|] eqn:Hv; [|done]. intros Hun v' Hp.
  specialize (Hsub _ _ Hv). destruct v as [src'|s]; [|by destruct p].
  destruct (assoc_get k dst) as [[dst'|s]|]; [|by destruct p|done].
  simpl in Hp. rewrite merge_value_VMap. by apply IH.
Qed.

(** ** Rendering is a function of the resource and the overrides *)

Section Render.
Context {H E : Type} `{K : Kube E} `{CM : ConditionMeta} `{CO : Codec} `{KL : !KubeLaws E K}.
Local Abbreviation W := (World H E).
Implicit Types (h : ConfigHelper H) (w : W).

Fixpoint apply_pure (data : gmap string string) (names : list string) (config : string) : string :=
  match names with
  | [] => config
  | n :: rest =>
      apply_pure data rest
        match data !! n with
        | None => config
        | Some v => match overrideYsonConfigs config v with inr c => c | inl _ => config end
        end
  end.

Definition render h (y : Ytsaurus) (overrides : ConfigMap) (fileName : string)
    : string + option string :=
  match assoc_get fileName (ch_generators h) with
  | None => inr None
  | Some d =>
      match gd_F d y with
      | inl err => inl err
      | inr config =>
          let config :=
            if decide (om_ResourceVersion (cm_ObjectMeta overrides) = "") then config
            else apply_pure (cm_Data overrides)
                   [fileName; (GetConfigMapName h +:+ "--" +:+ fileName)%string] config in
          match convertConfig (gd_Fmt d) config with inl err => inl err | inr s => inr (Some s) end
      end
  end.

(** [m] returns [a] and at most records events. *)
Definition reports {A} (m : M W A) w (a : A) : Prop :=
  exists w', m w = Some (a, w') /\ resource w' = resource w /\ heap w' = heap w.

Lemma reports_ret {A} (a : A) w : reports (mret a) w a.
Proof. by exists w. Qed.

Lemma reports_bind {A B} (m : M W A) (f : A -> M W B) w a b :
  reports m w a ->
  (forall w', resource w' = resource w -> heap w' = heap w -> reports (f a) w' b) ->
  reports (m ≫= f) w b.
Proof.
  intros (w1 & H1 & Hr & Hh) Hf. destruct (Hf w1 Hr Hh) as (w2 & H2 & Hr2 & Hh2).
  exists w2. rewrite (bind_step _ _ _ _ _ H1). split; [done|]. split; congruence.
Qed.

Lemma reports_Event t r m w : reports (Event t r m) w tt.
Proof. by eexists. Qed.

Lemma applyOverrides_reports data file names c w :
  reports (applyOverrides data file names c) w (apply_pure data names c).
Proof.
  revert c w. induction names as [|n names IH]; intros c w; [apply reports_ret|]. simpl.
  destruct (data !! n) as [v|]; [|apply IH].
  destruct (overrideYsonConfigs c v) as [err|c']; [|apply IH].
  eapply reports_bind; [apply reports_Event|]. intros w' _ _. apply IH.
Qed.

Lemma getConfig_reports h file w :
  reports (getConfig h file) w
    (render h (resource w) (load (ch_overridesMap h) (heap w)) file).
Proof.
  unfold getConfig, render. destruct (assoc_get file (ch_generators h)) as [d|]; [|apply reports_ret].
  eapply reports_bind; [by exists w|]. intros w1 Hr1 Hh1.
  destruct (gd_F d (resource w)) as [err|config].
  { eapply reports_bind; [apply reports_Event|]. intros. apply reports_ret. }
  eapply reports_bind; [by exists w1|]. intros w2 Hr2 Hh2. rewrite <- Hh1.
  eapply reports_bind; [|intros; apply reports_ret].
  case_decide; [apply reports_ret|apply applyOverrides_reports].
Qed.

(** The data of a successful build. *)
Definition rendered h (y : Ytsaurus) (ov : ConfigMap) (files : list string)
    (data : gmap string string) : Prop :=
  forall f, f ∈ files -> exists s, render h y ov f = inr (Some s) /\ data !! f = Some s.

Lemma build_loop_rendered h cm files w w' :
  separate (ch_overridesMap h) cm -> NoDup files -> Forall (fun f => f ∈ GetFileNames h) files ->
  build_loop h cm files w = Some (true, w') ->
  rendered h (resource w) (load (ch_overridesMap h) (heap w)) files (cm_Data (load cm (heap w'))) /\
  (forall f, f ∉ files -> cm_Data (load cm (heap w')) !! f = cm_Data (load cm (heap w)) !! f).
Proof.
  intros Hsep. revert w. induction files as [|f files IH]; intros w Hnd Hin; simpl.
  - intros [= <-]. split; [intros f Hf; by apply elem_of_nil in Hf|done].
  - apply NoDup_cons in Hnd as [Hf Hnd]. apply Forall_cons in Hin as [Hin Hins].
    destruct (getConfig_reports h f w) as (w1 & Hget & Hr1 & Hh1).
    rewrite (bind_step _ _ _ _ _ Hget).
    set (ov := load (ch_overridesMap h) (heap w)) in *.
    destruct (render h (resource w) ov f) as [err|[s|]] eqn:Hren; [done| |].
    + unfold read, write. rewrite run_gets, run_modify. intros Hrun.
      apply IH in Hrun as [Hall Hother]; [|done|done]. simpl in *.
      rewrite Hsep, Hr1, Hh1 in Hall. rewrite load_store in Hother. simpl in Hother. fold ov in Hall.
      split.
      * intros f' [->|Hf']%elem_of_cons; [|by apply Hall].
        exists s. split; [done|]. rewrite Hother by done. apply lookup_insert_eq.
      * intros f' [Hne Hf']%not_elem_of_cons. rewrite Hother by done.
        rewrite lookup_insert_ne by done. by rewrite Hh1.
    + exfalso. unfold render in Hren. unfold GetFileNames in Hin. clear -Hren Hin.
      destruct (assoc_get f (ch_generators h)) as [d|] eqn:Hd.
      { destruct (gd_F d _); [done|]. by destruct (convertConfig _ _). }
      clear -Hin Hd. induction (ch_generators h) as [|[k x] l IH]; simpl in *; [set_solver|].
      case_decide; [done|]. apply elem_of_cons in Hin as [->|Hin]; [done|auto].
Qed.
End Render.

(** ** Comparing with the cluster *)

Section Reload.
Context {H E : Type} `{K : Kube E} `{CM : ConditionMeta} `{CO : Codec} `{KL : !KubeLaws E K}.
Local Abbreviation W := (World H E).
Implicit Types (h : ConfigHelper H) (w : W).

(** The file as the cluster has it. *)
Definition current h w (file : string) : option string :=
  let old := load (oldObject (ch_configMap h)) (heap w) in
  if bool_decide (GetResourceVersion (k:=KConfigMap) old = "") then None else cm_Data old !! file.

Lemma getCurrentConfigValue_reports h file w :
  reports (getCurrentConfigValue h file) w (current h w file).
Proof.
  unfold getCurrentConfigValue, Exists, current, read.
  exists w. rewrite run_assoc, run_gets, run_ret.
  by destruct (bool_decide (GetResourceVersion (k:=KConfigMap) (load (oldObject (ch_configMap h)) (heap w)) = "")).
Qed.

Lemma needReload_loop_iff h files w :
  (exists w', needReload_loop h files w = Some ((false, None), w')) <->
  Forall (fun f => render h (resource w) (load (ch_overridesMap h) (heap w)) f =
                   inr (current h w f)) files.
Proof.
  revert w. induction files as [|f files IH]; intros w; simpl.
  { split; [constructor|by eexists]. }
  destruct (getConfig_reports h f w) as (w1 & Hget & Hr1 & Hh1).
  rewrite (bind_step _ _ _ _ _ Hget), Forall_cons.
  set (ov := load (ch_overridesMap h) (heap w)).
  destruct (render h (resource w) ov f) as [err|v].
  { split; [intros (w' & Hr); discriminate Hr|by intros [? _]]. }
  destruct (getCurrentConfigValue_reports h f w1) as (w2 & Hcur & Hr2 & Hh2).
  rewrite (bind_step _ _ _ _ _ Hcur).
  assert (forall f, current h w1 f = current h w f) as Hcc by (intros; unfold current; by rewrite Hh1).
  assert (forall f, current h w2 f = current h w f) as Hcc2
    by (intros; unfold current; by rewrite Hh2, Hh1).
  destruct (bool_decide (current h w1 f = v)) eqn:Hb.
  - apply bool_decide_eq_true in Hb. rewrite Hcc in Hb. rewrite IH.
    rewrite Hr2, Hh2, Hr1, Hh1. fold ov. setoid_rewrite Hcc2. split; [|tauto].
    intros. split; [by subst|done].
  - apply bool_decide_eq_false in Hb. split; [|intros [Heq _]; injection Heq as ->; by rewrite Hcc in Hb].
    intros (w' & Hrun). apply bind_inv in Hrun as (u & w3 & _ & Hret). by injection Hret.
Qed.

Lemma build_data h w cm w1 :
  separate (ch_overridesMap h) (newObject (ch_configMap h)) -> NoDup (GetFileNames h) ->
  ConfigHelper_Build h w = Some (Some cm, w1) ->
  cm = newObject (ch_configMap h) /\
  rendered h (resource w) (load (ch_overridesMap h) (heap w)) (GetFileNames h)
    (cm_Data (load cm (heap w1))) /\
  forall f, f ∉ GetFileNames h -> cm_Data (load cm (heap w1)) !! f = None.
Proof.
  intros Hsep Hnd. unfold ConfigHelper_Build, ConfigMap_Build, write.
  rewrite run_assoc, run_modify, run_ret.
  intros (ok & w2 & Hrun & Hret)%bind_inv. destruct ok; [|done]. injection Hret as <- <-.
  apply build_loop_rendered in Hrun as [Hall Hother]; [|done|done|by apply Forall_forall].
  simpl in *. rewrite Hsep in Hall. split; [done|]. split; [done|].
  intros f Hf. rewrite Hother, load_store by done. done.
Qed.
End Reload.

(** ** Theorems *)

Section Theorems.
Context {H E : Type} `{K : Kube E} `{CM : ConditionMeta} `{CO : Codec} `{KL : !KubeLaws E K}.
Local Abbreviation W := (World H E).

(** C13. Overrides win and nothing else changes: after a merge, every leaf of
    the overrides is found at its path, whatever the base holds there, and
    every value of the base at a path the overrides do not mention is still
    there. *)
Theorem merge_correct (base overrides : list (string * value)) (Hwf : wf_value (VMap overrides)) :
  (forall p x, get_path p (VMap overrides) = Some (VOther x) ->
     get_path p (VMap (mergeMapsRecursively base overrides)) = Some (VOther x)) /\
  (forall p v, untouched p (VMap overrides) -> get_path p (VMap base) = Some v ->
     get_path p (VMap (mergeMapsRecursively base overrides)) = Some v).
Proof. split; [by intros; apply merge_leaf|by intros; eapply merge_untouched]. Qed.

(** C14. A configuration needs no reload exactly when the config map of the
    cluster exists and holds, for every file the component generates, what
    the generator and the overrides render now. *)
Theorem NeedReload_correct (h : ConfigHelper H) (w : W) :
  (exists w', NeedReload h w = Some ((false, None), w')) <->
  Forall (fun f => render h (resource w) (load (ch_overridesMap h) (heap w)) f =
                   inr (current h w f)) (GetFileNames h).
Proof. apply needReload_loop_iff. Qed.

(** Configurations converge: once the config map built by
    [ConfigHelper_Build] is what the cluster holds, and the resource and the
    overrides did not change in between, no reload is needed. *)
Theorem config_converges (h : ConfigHelper H) (w : W) (cm : Ref H ConfigMap) (w1 w2 : W)
    (Hsep : separate (ch_overridesMap h) (newObject (ch_configMap h)))
    (Hnd : NoDup (GetFileNames h))
    (Hbuild : ConfigHelper_Build h w = Some (Some cm, w1))
    (Hsame : resource w2 = resource w /\
      load (ch_overridesMap h) (heap w2) = load (ch_overridesMap h) (heap w))
    (Hlive : om_ResourceVersion (cm_ObjectMeta (load (oldObject (ch_configMap h)) (heap w2))) <> "" /\
      cm_Data (load (oldObject (ch_configMap h)) (heap w2)) = cm_Data (load cm (heap w1))) :
  exists w3, NeedReload h w2 = Some ((false, None), w3).
Proof.
  apply build_data in Hbuild as (-> & Hren & _); [|done|done].
  apply needReload_loop_iff, Forall_forall. intros f Hf.
  destruct (Hren f Hf) as (s & Hr & Hd). destruct Hsame as [-> ->]. rewrite Hr. unfold current.
  rewrite bool_decide_eq_false_2 by apply Hlive. destruct Hlive as [_ ->]. by rewrite Hd.
Qed.
End Theorems.

(** ** Witnesses *)

Module RefCodec.
#[export] Instance codec : Codec := {|
  yson_UnmarshalMap := fun s => inr [("text", VOther s)];
  yson_Unmarshal := fun s => inr (VOther s);
  yson_MarshalPretty := fun m => inr "merged";
  json_Marshal := fun v => inr "json";
  toml_Encode := fun v => inr "toml";
|}.
End RefCodec.

Import RefKube RefMeta RefCodec.

Module Witness.
Definition heap_t : Type := ConfigMap * (ConfigMap * ConfigMap).
Definition handle : Handle heap_t KConfigMap :=
  mkHandle heap_t KConfigMap "yt-master-config" fst_ref (comp_ref snd_ref fst_ref).
Definition labeller : Labeller := mkLabeller "minisaurus" "default" "yt-master" "Master" None.
Definition helper : ConfigHelper heap_t :=
  mkConfigHelper heap_t labeller
    [("ytserver-master.yson", mkGeneratorDescriptor (fun y => inr (yt_Name y)) ConfigFormatYson)]
    None (comp_ref snd_ref snd_ref) handle.
Definition cm_zero : ConfigMap := mkConfigMap ObjectMeta_zero ∅.
Definition world (old : ConfigMap) : World heap_t YtsaurusStatus :=
  mkWorld (sample_Ytsaurus ClusterStateRunning) (old, (cm_zero, cm_zero))
    (sample_Status ClusterStateRunning).
(** The config map as the cluster holds it after the build. *)
Definition live : ConfigMap :=
  mkConfigMap (mkObjectMeta "yt-master-config" "default" ∅ None "1")
    {[ "ytserver-master.yson" := "minisaurus" ]}.
End Witness.

Lemma merge_correct_witness :
  get_path ["a"; "b"] (VMap (mergeMapsRecursively
    [("a", VMap [("b", VOther "1"); ("c", VOther "2")])] [("a", VMap [("b", VOther "3")])])) =
  Some (VOther "3").
Proof.
  refine (proj1 (merge_correct [("a", VMap [("b", VOther "1"); ("c", VOther "2")])]
    [("a", VMap [("b", VOther "3")])] _) ["a"; "b"] "3" eq_refl).
  constructor; [repeat constructor; set_solver|]. intros k v. simpl. case_decide; [|done].
  intros [= <-]. constructor; [repeat constructor; set_solver|]. intros k' v'. simpl.
  case_decide; [|done]. intros [= <-]. constructor.
Defined.

Lemma config_converges_witness :
  exists w3, NeedReload Witness.helper (Witness.world Witness.live) = Some ((false, None), w3).
Proof.
  eapply (config_converges Witness.helper (Witness.world Witness.cm_zero) _ _
    (Witness.world Witness.live)).
  - by intros b [? [? ?]].
  - repeat constructor. set_solver.
  - reflexivity.
  - split; reflexivity.
  - split; [done|reflexivity].
Defined.
