(* ===== verification/Server.v ===== *)
(** * Server components: pkg/components/server.go, volume.go, serveroptions.go

    [serverImpl] owns the stateful set, the services and the configuration of
    a server, and implements the [server] interface; [serverImpl_laws] proves
    what the interface promises. *)

From S2P Require Import Prelude GoPath Api Kube Conditions Samples Labeller Proxy Component Resources ConfigHelper.

(** ** pkg/consts/cmd.go *)

Definition ConfigMountPoint : string := "/config".
Definition ConfigTemplateMountPoint : string := "/config_template".
Definition BusSecretMountPoint : string := "/config/bus_secret".
Definition CABundleMountPoint : string := "/config/ca_bundle".
Definition YTServerContainerName : string := "ytserver".
Definition PostprocessConfigContainerName : string := "postprocess-config".
Definition PrepareLocationsContainerName : string := "prepare-locations".
Definition PostprocessConfigScriptFileName : string := "postprocess-config.sh".
Definition ConfigTemplateVolumeName : string := "config-template".
Definition ConfigVolumeName : string := "config".
Definition BusSecretVolumeName : string := "bus-secret".
Definition CABundleVolumeName : string := "ca-bundle".

(** ** pkg/components/volume.go *)

(** The claims are copied field by field. *)
Definition createVolumeClaims (templates : list EmbeddedPersistentVolumeClaim)
    : list EmbeddedPersistentVolumeClaim :=
  (fun c => mkEmbeddedPersistentVolumeClaim (evc_Name c) (evc_Labels c) (evc_Annotations c)
              (evc_Resources c)) <$> templates.

Definition createConfigTemplateVolumeMount : VolumeMount :=
  mkVolumeMount ConfigTemplateVolumeName ConfigTemplateMountPoint true None "".
Definition createConfigVolumeMount : VolumeMount :=
  mkVolumeMount ConfigVolumeName ConfigMountPoint false None "".
Definition createVolumeMounts (specVolumeMounts : list VolumeMount) : list VolumeMount :=
  specVolumeMounts ++ [createConfigTemplateVolumeMount; createConfigVolumeMount].

Definition createConfigVolume (volumeName configMapName : string) (mode : option Z) : Volume :=
  mkVolume volumeName (VolumeConfigMap configMapName mode).
Definition createConfigEmptyDir : Volume := mkVolume ConfigVolumeName (VolumeEmptyDir None).
Definition createServerVolumes (specVolumes : list Volume) (configMapName : string) : list Volume :=
  specVolumes ++ [createConfigVolume ConfigTemplateVolumeName configMapName None; createConfigEmptyDir].

Definition getLocationInitCommand (locations : list LocationSpec) : string :=
  fold_left (fun command location => command +:+ ("mkdir -p " +:+ loc_Path location +:+ "; "))%string
    locations "echo 'Init locations'; "%string.

Definition getConfigPostprocessEnv : list EnvVar :=
  [mkEnvVar "K8S_POD_NAME" "" (Some (EnvFieldRef "metadata.name"));
   mkEnvVar "K8S_POD_NAMESPACE" "" (Some (EnvFieldRef "metadata.namespace"));
   mkEnvVar "K8S_NODE_NAME" "" (Some (EnvFieldRef "spec.nodeName"))].

Section Postprocess.
Context (configPath : string).
Local Open Scope string_scope.

Definition substituteEnvCommand (envVar : string) : string :=
  "sed -i -s " +:+ DQ +:+ "s/{" +:+ envVar +:+ "}/${" +:+ envVar +:+ "}/g" +:+ DQ +:+ " "
    +:+ configPath +:+ "; ".

Definition substitutePlaceholderWithCommand (placeholder command : string) : string :=
  "sed -i -s " +:+ DQ +:+ "s/{" +:+ placeholder +:+ "}/$(" +:+ command +:+ ")/g" +:+ DQ +:+ " "
    +:+ configPath +:+ "; ".
End Postprocess.

Definition getConfigPostprocessingCommand (configFileName : string) : string :=
  let configTemplatePath := path_Join [ConfigTemplateMountPoint; configFileName] in
  let configPath := path_Join [ConfigMountPoint; configFileName] in
  let postprocessScriptPath := path_Join [ConfigMountPoint; PostprocessConfigScriptFileName] in
  let postprocessScript :=
    (fold_left (fun s envVar => s +:+ substituteEnvCommand configPath (env_Name envVar))
       getConfigPostprocessEnv ("cp " +:+ configTemplatePath +:+ " " +:+ configPath +:+ "; ")
     +:+ substitutePlaceholderWithCommand configPath "POD_FQDN" "hostname -f"
     +:+ substitutePlaceholderWithCommand configPath "POD_SHORT_HOSTNAME" "hostname -s")%string in
  ("echo 'Postprocess config " +:+ configFileName +:+ "';"
   +:+ "echo '" +:+ postprocessScript +:+ "' > " +:+ postprocessScriptPath +:+ "; "
   +:+ "chmod +x '" +:+ postprocessScriptPath +:+ "'; "
   +:+ "source " +:+ postprocessScriptPath +:+ "; "
   +:+ "cat " +:+ configPath +:+ "; ")%string.

(** ** serverImpl *)

(** The builders' target always is [&s.statefulSet.newObject], so the pointer
    [builtStatefulSet] is either nil or that: [si_built] says which. *)
Record serverImpl (H : Type) := mkServerImpl {
  si_image : string;
  si_labeller : Labeller;
  si_commonSpec : CommonSpec;
  si_binaryPath : string;
  si_instanceSpec : InstanceSpec;
  si_statefulSet : BuiltHandle H KStatefulSet;
  si_headlessService : Handle H KService;
  si_monitoringService : Handle H KService;
  si_monitoringPort : Z;
  si_caBundle : option MountedVolume;
  si_tlsSecret : option MountedVolume;
  si_configHelper : ConfigHelper H;
  si_built : Ref H bool;
  si_componentContainerPorts : list ContainerPort;
  si_readinessProbePort : IntOrString;
  si_readinessProbeHTTPPath : string;
}.
Arguments si_image {H} _. Arguments si_labeller {H} _. Arguments si_commonSpec {H} _.
Arguments si_binaryPath {H} _. Arguments si_instanceSpec {H} _. Arguments si_statefulSet {H} _.
Arguments si_headlessService {H} _. Arguments si_monitoringService {H} _.
Arguments si_monitoringPort {H} _. Arguments si_caBundle {H} _. Arguments si_tlsSecret {H} _.
Arguments si_configHelper {H} _. Arguments si_built {H} _.
Arguments si_componentContainerPorts {H} _. Arguments si_readinessProbePort {H} _.
Arguments si_readinessProbeHTTPPath {H} _.

(** [options] and the two constructors of [Option]. *)
Record options := mkOptions {
  containerPorts : list ContainerPort;
  readinessProbeEndpointPort : IntOrString;
  readinessProbeEndpointPath : string;
}.

Definition Option : Type := options -> options.

Definition WithCustomReadinessProbeEndpointPort (port : Z) : Option :=
  fun opts => mkOptions (containerPorts opts) (PortNumber port) (readinessProbeEndpointPath opts).
Definition WithCustomReadinessProbeEndpointPath (path : string) : Option :=
  fun opts => mkOptions (containerPorts opts) (readinessProbeEndpointPort opts) path.
Definition WithContainerPorts (ports : list ContainerPort) : Option :=
  fun opts => mkOptions (containerPorts opts ++ ports) (readinessProbeEndpointPort opts)
                (readinessProbeEndpointPath opts).

(** The variables a server allocates. *)
Record ServerVars (H : Type) := mkServerVars {
  sr_statefulSet_old : Ref H StatefulSet;
  sr_statefulSet_new : Ref H StatefulSet;
  sr_statefulSet_built : Ref H bool;
  sr_headless_old : Ref H Service;
  sr_headless_new : Ref H Service;
  sr_monitoring_old : Ref H Service;
  sr_monitoring_new : Ref H Service;
  sr_overrides : Ref H ConfigMap;
  sr_configMap_old : Ref H ConfigMap;
  sr_configMap_new : Ref H ConfigMap;
  sr_built : Ref H bool;
}.
Arguments sr_statefulSet_old {H} _. Arguments sr_statefulSet_new {H} _.
Arguments sr_statefulSet_built {H} _. Arguments sr_headless_old {H} _.
Arguments sr_headless_new {H} _. Arguments sr_monitoring_old {H} _.
Arguments sr_monitoring_new {H} _. Arguments sr_overrides {H} _.
Arguments sr_configMap_old {H} _. Arguments sr_configMap_new {H} _. Arguments sr_built {H} _.

(** [newServerConfigured]; a nil [MonitoringPort] is dereferenced: [None]. *)
Definition newServerConfigured {H} (vars : ServerVars H) (l : Labeller) (commonSpec : CommonSpec)
    (instanceSpec : InstanceSpec)
    (binaryPath configFileName statefulSetName serviceName : string)
    (generator : Ytsaurus -> string + string) (optFuncs : list Option) : option (serverImpl H) :=
  match is_MonitoringPort instanceSpec with
  | None => None
  | Some monitoringPort =>
      let image := default (cs_CoreImage commonSpec) (is_Image instanceSpec) in
      let caBundle :=
        match cs_CABundle commonSpec with
        | None => None
        | Some name => Some (NewCABundle name CABundleVolumeName CABundleMountPoint)
        end in
      let transportSpec :=
        match is_NativeTransport instanceSpec with
        | None => cs_NativeTransport commonSpec
        | Some t => Some t
        end in
      let tlsSecret :=
        match transportSpec with
        | None => None
        | Some t =>
            match rt_TLSSecret t with
            | None => None
            | Some name => Some (NewTLSSecret name BusSecretVolumeName BusSecretMountPoint)
            end
        end in
      let opts :=
        fold_left (fun opts fn => fn opts) optFuncs
          (mkOptions [mkContainerPort YTMonitoringContainerPortName monitoringPort]
             (PortName YTMonitoringContainerPortName) "/orchid/service") in
      Some (mkServerImpl H image l commonSpec binaryPath instanceSpec
        (mkBuiltHandle H KStatefulSet
           (mkHandle H KStatefulSet statefulSetName (sr_statefulSet_old vars) (sr_statefulSet_new vars))
           (sr_statefulSet_built vars))
        (mkHandle H KService serviceName (sr_headless_old vars) (sr_headless_new vars))
        (mkHandle H KService (lb_ComponentLabel l +:+ "-monitoring")%string
           (sr_monitoring_old vars) (sr_monitoring_new vars))
        monitoringPort caBundle tlsSecret
        (mkConfigHelper H l
           [(configFileName, mkGeneratorDescriptor generator ConfigFormatYson)]
           (cs_ConfigOverrides commonSpec) (sr_overrides vars)
           (mkHandle H KConfigMap (GetMainConfigMapName l)
              (sr_configMap_old vars) (sr_configMap_new vars)))
        (sr_built vars) (containerPorts opts) (readinessProbeEndpointPort opts)
        (readinessProbeEndpointPath opts))
  end.

Definition readinessProbe_zero : HealthcheckProbeParams := mkHealthcheckProbeParams 0 0 0 0 0.

(** The pod specification [rebuildStatefulSet] assigns, before the mounts of
    the CA bundle and of the bus secret. *)
Definition server_podSpec {H} (s : serverImpl H) (fileName : string) : PodSpec :=
  let spec := si_instanceSpec s in
  let volumeMounts := createVolumeMounts (is_VolumeMounts spec) in
  let hostNetwork := default (cs_HostNetwork (si_commonSpec s)) (is_HostNetwork spec) in
  mkPodSpec (is_RuntimeClassName spec) (cs_ImagePullSecrets (si_commonSpec s))
    (is_SetHostnameAsFQDN spec) (Some false) (is_TerminationGracePeriodSeconds spec)
    [mkContainer (si_image s) YTServerContainerName
       (is_EntrypointWrapper spec ++ [si_binaryPath s; "--config"; path_Join [ConfigMountPoint; fileName]])
       [] [] [] volumeMounts (si_componentContainerPorts s) (is_Resources spec)
       (Some (mkProbe (HTTPGet (si_readinessProbePort s) (si_readinessProbeHTTPPath s))
                (default readinessProbe_zero (is_ReadinessProbeParams spec))))
       None]
    [mkContainer (si_image s) PrepareLocationsContainerName
       ["bash"; "-xc"; getLocationInitCommand (is_Locations spec)] [] [] [] volumeMounts []
       (mkResourceRequirements None None) None None;
     mkContainer (si_image s) PostprocessConfigContainerName
       ["bash"; "-xc"; getConfigPostprocessingCommand fileName] [] getConfigPostprocessEnv [] volumeMounts []
       (mkResourceRequirements None None) None None]
    (createServerVolumes (is_Volumes spec) (GetMainConfigMapName (si_labeller s)))
    (is_Affinity spec) (is_NodeSelector spec) (is_Tolerations spec)
    hostNetwork (if hostNetwork then "ClusterFirstWithHostNet" else "") "".

(** The CA bundle goes to every container, the bus secret to the first one. *)
Definition mount_caBundle (caBundle : option MountedVolume) (p : PodSpec) : PodSpec :=
  match caBundle with
  | None => p
  | Some t =>
      let p := AddVolume t p in
      set_ps_InitContainers (AddVolumeMount t <$> ps_InitContainers p)
        (set_ps_Containers (AddVolumeMount t <$> ps_Containers p) p)
  end.

Definition mount_tlsSecret (tlsSecret : option MountedVolume) (p : PodSpec) : PodSpec :=
  match tlsSecret with
  | None => p
  | Some t =>
      let p := AddVolume t p in
      match ps_Containers p with
      | [] => p
      | c :: cs => set_ps_Containers (AddVolumeMount t c :: cs) p
      end
  end.

Section Server.
Context {H E : Type} `{K : Kube E} `{CM : ConditionMeta} `{CO : Codec}.
Local Abbreviation W := (World H E).
Implicit Types s : serverImpl H.

Definition serverImpl_Fetch s : M W error :=
  in_order [Fetch (bh_handle (si_statefulSet s)); ConfigHelper_Fetch (si_configHelper s);
            Fetch (si_headlessService s); Fetch (si_monitoringService s)].

(** Go's [&&] stops at the first resource that does not exist. *)
Definition serverImpl_exists s : M W bool :=
  e ← Exists (bh_handle (si_statefulSet s));
  if negb e then mret false
  else
    e ← Exists (si_headlessService s);
    if negb e then mret false else Exists (si_monitoringService s).

Definition configNeedsReload s : M W bool :=
  '(needReload, err) ← NeedReload (si_configHelper s);
  mret (match err with Some _ => false | None => needReload end).

Definition needBuild s : M W bool :=
  init ← NeedInit (si_configHelper s);
  if (init : bool) then mret true
  else
    e ← serverImpl_exists s;
    if negb e then mret true
    else StatefulSet_NeedSync (si_statefulSet s) (is_InstanceCount (si_instanceSpec s)).

Definition serverImpl_needSync s : M W bool :=
  reload ← configNeedsReload s;
  if (reload : bool) then mret true else needBuild s.

(** [metav1.SetMetaDataAnnotation] for every annotation of the instance: it
    writes into the annotation map of the template, which is
    [commonSpec.ExtraPodAnnotations] itself unless that is nil.  The loops
    over Go maps set distinct keys, so their order does not matter. *)
Definition set_ExtraPodAnnotations (m : gmap string string) (y : Ytsaurus) : Ytsaurus :=
  let sp := yt_Spec y in
  let cs := sp_CommonSpec sp in
  mkYtsaurus (yt_Name y) (yt_Namespace y)
    (mkYtsaurusSpec
       (mkCommonSpec (cs_CoreImage cs) (cs_JobImage cs) (cs_CABundle cs) (cs_NativeTransport cs)
          (cs_EphemeralCluster cs) (cs_UseIPv6 cs) (cs_UseIPv4 cs) (cs_KeepSocket cs) (cs_ForceTCP cs)
          (cs_UseShortNames cs) (cs_HostNetwork cs) (cs_UsePorto cs) (Some m) (cs_ConfigOverrides cs)
          (cs_ImagePullSecrets cs))
       (sp_UIImage sp) (sp_AdminCredentials sp) (sp_OauthService sp) (sp_IsManaged sp)
       (sp_EnableFullUpdate sp) (sp_UpdateSelector sp) (sp_Bootstrap sp) (sp_Discovery sp)
       (sp_PrimaryMasters sp) (sp_SecondaryMasters sp) (sp_MasterCaches sp) (sp_HTTPProxies sp)
       (sp_RPCProxies sp) (sp_TCPProxies sp) (sp_DataNodes sp) (sp_ExecNodes sp) (sp_Schedulers sp)
       (sp_ControllerAgents sp) (sp_TabletNodes sp) (sp_StrawberryController sp)
       (sp_DeprecatedChytController sp) (sp_QueryTrackers sp) (sp_Spyt sp) (sp_YQLAgents sp)
       (sp_QueueAgents sp) (sp_UI sp))
    (yt_Status y).

Definition annotate_template (annotations : option (gmap string string))
    (extra : gmap string string) : M W (option (gmap string string)) :=
  shared ← ExtraPodAnnotations;
  match shared with
  | Some current =>
      let m := extra ∪ current in
      _ ← modify (fun w => mkWorld (set_ExtraPodAnnotations m (resource w)) (heap w) (ext w));
      mret (Some m)
  | None =>
      mret (if decide (extra = ∅) then annotations else Some (extra ∪ default ∅ annotations))
  end.

Definition rebuildStatefulSet s : M W (Ref H StatefulSet) :=
  let spec := si_instanceSpec s in
  ss ← StatefulSet_Build (si_labeller s) (si_statefulSet s);
  built ← read ss;
  let meta := pt_ObjectMeta (ss_Template built) in
  annotations ← annotate_template (om_Annotations meta) (is_PodAnnotations spec);
  match GetFileNames (si_configHelper s) with
  | [fileName] =>
      let labels := is_PodLabels spec ∪ om_Labels meta in
      let podSpec :=
        mount_tlsSecret (si_tlsSecret s)
          (mount_caBundle (si_caBundle s) (server_podSpec s fileName)) in
      _ ← write ss
            (mkStatefulSet (ss_ObjectMeta built) (ss_PodManagementPolicy built) (ss_Selector built)
               (Some (is_InstanceCount spec)) (hd_name (si_headlessService s))
               (createVolumeClaims (is_VolumeClaimTemplates spec))
               (mkPodTemplateSpec
                  (mkObjectMeta (om_Name meta) (om_Namespace meta) labels annotations
                     (om_ResourceVersion meta)) podSpec));
      _ ← write (si_built s) true;
      mret ss
  | _ => panic
  end.

Definition buildStatefulSet s : M W (Ref H StatefulSet) :=
  built ← read (si_built s);
  if (built : bool) then mret (newObject (bh_handle (si_statefulSet s))) else rebuildStatefulSet s.

Definition serverImpl_Sync s : M W error :=
  _ ← ConfigHelper_Build (si_configHelper s);
  _ ← HeadlessService_Build (si_labeller s) (si_headlessService s);
  _ ← MonitoringService_Build (si_labeller s) (si_monitoringPort s) (si_monitoringService s);
  _ ← buildStatefulSet s;
  in_order [Sync (bh_handle (si_statefulSet s)); ConfigHelper_Sync (si_configHelper s);
            Sync (si_headlessService s); Sync (si_monitoringService s)].

Definition serverImpl_arePodsRemoved s : M W bool :=
  e ← Exists (bh_handle (si_statefulSet s));
  if negb e then mret true else StatefulSet_ArePodsRemoved (si_labeller s).

(** [Containers[0]] panics on a stateful set without containers. *)
Definition podsImageCorrespondsToSpec s : M W bool :=
  old ← read (oldObject (bh_handle (si_statefulSet s)));
  match ps_Containers (pt_Spec (ss_Template old)) with
  | [] => panic
  | c :: _ => mret (bool_decide (ct_Image c = si_image s))
  end.

Definition serverImpl_needUpdate s : M W bool :=
  e ← serverImpl_exists s;
  if negb e then mret false
  else
    ok ← podsImageCorrespondsToSpec s;
    if negb ok then mret true
    else
      '(needReload, err) ← NeedReload (si_configHelper s);
      match err with Some _ => mret false | None => mret needReload end.

Definition serverImpl_arePodsReady s : M W bool :=
  StatefulSet_ArePodsReady (si_labeller s) (is_MinReadyInstanceCount (si_instanceSpec s)).

Definition set_ss_Replicas (n : option Z) (ss : StatefulSet) : StatefulSet :=
  mkStatefulSet (ss_ObjectMeta ss) (ss_PodManagementPolicy ss) (ss_Selector ss) n
    (ss_ServiceName ss) (ss_VolumeClaimTemplates ss) (ss_Template ss).

Definition serverImpl_removePods s : M W error :=
  ss ← rebuildStatefulSet s;
  o ← read ss;
  _ ← write ss (set_ss_Replicas (Some 0%Z) o);
  serverImpl_Sync s.

(** The implementation of the interfaces. *)
Definition serverImpl_pods s : podsManager W :=
  mkPodsManager W (serverImpl_removePods s) (serverImpl_arePodsRemoved s) (serverImpl_arePodsReady s)
    (podsImageCorrespondsToSpec s).

Definition serverImpl_server s : server W H :=
  mkServer W H (serverImpl_Fetch s) (serverImpl_Sync s) (serverImpl_pods s)
    (serverImpl_needUpdate s) (configNeedsReload s) (needBuild s) (serverImpl_needSync s)
    (buildStatefulSet s) (rebuildStatefulSet s).
End Server.

(** ** The implementation keeps the promises of the interface *)

Section ServerLawsProof.
Context {H E : Type} `{K : Kube E} `{CM : ConditionMeta} `{CO : Codec} `{KL : !KubeLaws E K}.
Local Abbreviation W := (World H E).
Implicit Types s : serverImpl H.

Lemma serverImpl_exists_quiet s : preserves quiet (serverImpl_exists s : M W bool).
Proof. unfold serverImpl_exists. solve_frame. Qed.

Lemma annotate_template_quiet a x : preserves quiet (annotate_template a x : M W _).
Proof.
  unfold annotate_template, ExtraPodAnnotations. solve_frame.
  apply preserves_modify. by intros w.
Qed.

#[local] Hint Resolve serverImpl_exists_quiet annotate_template_quiet : frame.

Lemma configNeedsReload_quiet s : preserves quiet (configNeedsReload s : M W bool).
Proof. unfold configNeedsReload. solve_frame. Qed.
Lemma needBuild_quiet s : preserves quiet (needBuild s : M W bool).
Proof. unfold needBuild. solve_frame. Qed.
Lemma rebuildStatefulSet_quiet s : preserves quiet (rebuildStatefulSet s : M W _).
Proof. unfold rebuildStatefulSet. cbv zeta. solve_frame. Qed.

#[local] Hint Resolve configNeedsReload_quiet needBuild_quiet rebuildStatefulSet_quiet : frame.

Lemma buildStatefulSet_quiet s : preserves quiet (buildStatefulSet s : M W _).
Proof. unfold buildStatefulSet. solve_frame. Qed.
Lemma podsImageCorrespondsToSpec_quiet s : preserves quiet (podsImageCorrespondsToSpec s : M W bool).
Proof. unfold podsImageCorrespondsToSpec. solve_frame. Qed.

#[local] Hint Resolve buildStatefulSet_quiet podsImageCorrespondsToSpec_quiet : frame.

Lemma serverImpl_Sync_quiet s : preserves quiet (serverImpl_Sync s : M W error).
Proof. unfold serverImpl_Sync. solve_frame. Qed.

Lemma serverImpl_Fetch_quiet s : preserves quiet (serverImpl_Fetch s : M W error).
Proof. unfold serverImpl_Fetch. solve_frame. Qed.

#[local] Hint Resolve serverImpl_Sync_quiet serverImpl_Fetch_quiet : frame.

Lemma serverImpl_removePods_quiet s : preserves quiet (serverImpl_removePods s : M W error).
Proof. unfold serverImpl_removePods. solve_frame. Qed.
Lemma serverImpl_arePodsRemoved_quiet s : preserves quiet (serverImpl_arePodsRemoved s : M W bool).
Proof. unfold serverImpl_arePodsRemoved. solve_frame. Qed.
Lemma serverImpl_arePodsReady_quiet s : preserves quiet (serverImpl_arePodsReady s : M W bool).
Proof. unfold serverImpl_arePodsReady. solve_frame. Qed.
Lemma serverImpl_needUpdate_quiet s : preserves quiet (serverImpl_needUpdate s : M W bool).
Proof. unfold serverImpl_needUpdate. solve_frame. Qed.
Lemma serverImpl_needSync_quiet s : preserves quiet (serverImpl_needSync s : M W bool).
Proof. unfold serverImpl_needSync. solve_frame. Qed.

#[local] Hint Resolve serverImpl_removePods_quiet serverImpl_arePodsRemoved_quiet
  serverImpl_arePodsReady_quiet serverImpl_needUpdate_quiet serverImpl_needSync_quiet : frame.

#[export] Instance serverImpl_pods_laws s : PodsLaws (H:=H) (E:=E) (serverImpl_pods s).
Proof. split; simpl; eauto with frame. Qed.

#[export] Instance serverImpl_laws s : ServerLaws (H:=H) (E:=E) (serverImpl_server s).
Proof. split; simpl; eauto with frame typeclass_instances. Qed.
End ServerLawsProof.

(** ** Variables that a program leaves alone *)

Section Same.
Context {H E : Type} `{K : Kube E} `{CM : ConditionMeta} `{CO : Codec}.
Local Abbreviation W := (World H E).

Definition same {A} (r : Ref H A) (w w' : W) : Prop := load r (heap w') = load r (heap w).

#[export] Instance same_preorder {A} (r : Ref H A) : PreOrder (same r).
Proof. split; [by intros w|]. intros w1 w2 w3 H1 H2. unfold same in *. congruence. Qed.

Lemma same_write {A B} (r : Ref H A) (q : Ref H B) b :
  separate r q -> preserves (same r) (write q b : M W unit).
Proof. intros Hs. apply preserves_modify. intros w. apply Hs. Qed.

Lemma same_outside {A B} (r : Ref H A) (f : E -> B * E) : preserves (same r) (outside f : M W B).
Proof. unfold outside. intros w b w' Hr. destruct (f (ext w)). by inversion Hr. Qed.

Lemma same_reports {A B} (r : Ref H A) (m : M W B) (g : W -> B) :
  (forall w, reports m w (g w)) -> preserves (same r) m.
Proof.
  intros Hm w b w' Hr. destruct (Hm w) as (w1 & H1 & _ & Hh). rewrite Hr in H1.
  injection H1 as _ <-. unfold same. by rewrite Hh.
Qed.

Lemma same_getConfig {A} (r : Ref H A) h file : preserves (same r) (getConfig h file : M W _).
Proof. eapply same_reports. intros w. apply getConfig_reports. Qed.

(** Building the configuration assigns the new object only. *)
Lemma build_preserves (R : relation W) `{!PreOrder R} h :
  (forall b, preserves R (write (newObject (ch_configMap h)) b : M W unit)) ->
  (forall file, preserves R (getConfig h file : M W _)) ->
  preserves R (ConfigHelper_Build h : M W _).
Proof.
  intros Hw Hg. unfold ConfigHelper_Build, ConfigMap_Build.
  assert (preserves R (build_loop h (newObject (ch_configMap h)) (GetFileNames h) : M W bool)) as Hl.
  { induction (GetFileNames h) as [|f fs IH]; simpl; [apply preserves_ret, _|].
    apply preserves_bind; [tc_solve|apply Hg|]. intros [err|[d|]]; [apply preserves_ret, _| |done].
    apply preserves_bind; [tc_solve|apply preserves_gets, _|]. intros c.
    apply preserves_bind; [tc_solve|apply Hw|done]. }
  intros w a w' (cm & w1 & Hcm & Hrun)%bind_inv. apply bind_inv in Hcm as ([] & w0 & H0 & Hret).
  injection Hret as <- <-. apply bind_inv in Hrun as (ok & w2 & Hloop & Hret). injection Hret as _ <-.
  transitivity w0; [by eapply Hw|by eapply Hl].
Qed.

Lemma same_build {A} (r : Ref H A) h :
  separate r (newObject (ch_configMap h)) -> preserves (same r) (ConfigHelper_Build h : M W _).
Proof.
  intros Hs. apply build_preserves; [tc_solve|intros; by apply same_write|apply same_getConfig].
Qed.
End Same.

Section ServerTheorems.
Context {H E : Type} `{K : Kube E} `{CM : ConditionMeta} `{CO : Codec}.
Local Abbreviation W := (World H E).
Implicit Types (s : serverImpl H) (w : W).

(** The variables of a server do not overlap. *)
Record server_separate s : Prop := {
  sep_ss_cm : separate (newObject (bh_handle (si_statefulSet s))) (newObject (ch_configMap (si_configHelper s)));
  sep_ss_headless : separate (newObject (bh_handle (si_statefulSet s))) (newObject (si_headlessService s));
  sep_ss_monitoring : separate (newObject (bh_handle (si_statefulSet s))) (newObject (si_monitoringService s));
  sep_built_ss : separate (si_built s) (newObject (bh_handle (si_statefulSet s)));
  sep_ss_built : separate (newObject (bh_handle (si_statefulSet s))) (si_built s);
  sep_built_cm : separate (si_built s) (newObject (ch_configMap (si_configHelper s)));
  sep_built_headless : separate (si_built s) (newObject (si_headlessService s));
  sep_built_monitoring : separate (si_built s) (newObject (si_monitoringService s));
}.

(** What a rebuild leaves behind. *)
Lemma rebuildStatefulSet_result s w ss w' :
  server_separate s -> rebuildStatefulSet s w = Some (ss, w') ->
  ss = newObject (bh_handle (si_statefulSet s)) /\
  load (si_built s) (heap w') = true /\
  ss_Replicas (load ss (heap w')) = Some (is_InstanceCount (si_instanceSpec s)) /\
  exists file, ps_Containers (pt_Spec (ss_Template (load ss (heap w')))) =
    ps_Containers (mount_tlsSecret (si_tlsSecret s)
      (mount_caBundle (si_caBundle s) (server_podSpec s file))).
Proof.
  intros Hsep Hrun. unfold rebuildStatefulSet in Hrun. cbv zeta in Hrun.
  apply bind_inv in Hrun as (ss1 & w1 & Hb & Hrun).
  assert (ss1 = newObject (bh_handle (si_statefulSet s))) as ->.
  { unfold StatefulSet_Build in Hb. apply bind_inv in Hb as (? & ? & _ & Hb).
    apply bind_inv in Hb as (? & ? & _ & Hb). apply bind_inv in Hb as (? & ? & _ & Hb).
    by injection Hb. }
  apply bind_inv in Hrun as (built & w2 & _ & Hrun).
  apply bind_inv in Hrun as (ann & w3 & _ & Hrun).
  destruct (GetFileNames _) as [|file [|? ?]]; [done| |done].
  apply bind_inv in Hrun as ([] & w4 & Hw4 & Hrun). injection Hw4 as <-.
  apply bind_inv in Hrun as ([] & w5 & Hw5 & Hrun). injection Hw5 as <-.
  injection Hrun as <- <-. simpl.
  rewrite (sep_ss_built s Hsep), !load_store. do 3 (split; [done|]). exists file. by rewrite (sep_ss_built s Hsep), !load_store.
Qed.

Lemma serverImpl_Sync_built s w err w' :
  server_separate s -> load (si_built s) (heap w) = true -> serverImpl_Sync s w = Some (err, w') ->
  exists w1,
    load (newObject (bh_handle (si_statefulSet s))) (heap w1) =
    load (newObject (bh_handle (si_statefulSet s))) (heap w) /\
    in_order [Sync (bh_handle (si_statefulSet s)); ConfigHelper_Sync (si_configHelper s);
              Sync (si_headlessService s); Sync (si_monitoringService s)] w1 = Some (err, w').
Proof.
  intros Hsep Hb Hrun. unfold serverImpl_Sync in Hrun.
  apply bind_inv in Hrun as (c & w1 & H1 & Hrun).
  apply bind_inv in Hrun as (h & w2 & H2 & Hrun). apply bind_inv in Hrun as (m & w3 & H3 & Hrun).
  apply bind_inv in Hrun as (ss & w4 & H4 & Hrun).
  pose proof (same_build _ _ (sep_ss_cm s Hsep) _ _ _ H1) as Hs1.
  pose proof (same_build _ _ (sep_built_cm s Hsep) _ _ _ H1) as Hb1.
  apply bind_inv in H2 as (? & w2' & H2 & Hret). injection Hret as _ <-.
  pose proof (same_write _ _ _ (sep_ss_headless s Hsep) _ _ _ H2) as Hs2.
  pose proof (same_write _ _ _ (sep_built_headless s Hsep) _ _ _ H2) as Hb2.
  apply bind_inv in H3 as (? & w3' & H3 & Hret). injection Hret as _ <-.
  pose proof (same_write _ _ _ (sep_ss_monitoring s Hsep) _ _ _ H3) as Hs3.
  pose proof (same_write _ _ _ (sep_built_monitoring s Hsep) _ _ _ H3) as Hb3.
  unfold same in *. unfold buildStatefulSet, read in H4. rewrite run_gets in H4.
  rewrite Hb3, Hb2, Hb1, Hb in H4. injection H4 as _ <-.
  exists w3'. split; [congruence|exact Hrun].
Qed.

(** Removing the pods of a server asks for zero replicas: although
    [Sync] builds the resources again, the stateful set it submits is the
    cached one, scaled down to zero, and never the one with the replicas of
    the specification. *)
Theorem removePods_scales_to_zero s (w : W) (err : error) (w' : W)
    (Hsep : server_separate s) (Hrun : serverImpl_removePods s w = Some (err, w')) :
  exists w1,
    ss_Replicas (load (newObject (bh_handle (si_statefulSet s))) (heap w1)) = Some 0%Z /\
    in_order [Sync (bh_handle (si_statefulSet s)); ConfigHelper_Sync (si_configHelper s);
              Sync (si_headlessService s); Sync (si_monitoringService s)] w1 = Some (err, w').
Proof.
  apply bind_inv in Hrun as (ss & w1 & Hb & Hrun).
  apply rebuildStatefulSet_result in Hb as (-> & Hbuilt & _); [|done].
  unfold read, write in Hrun. rewrite run_gets, run_modify in Hrun.
  apply serverImpl_Sync_built in Hrun as (w2 & Hl & Hrun); [|done|simpl; by rewrite (sep_built_ss s Hsep)].
  exists w2. split; [|exact Hrun]. rewrite Hl. simpl. by rewrite load_store.
Qed.

(** C17. Servers converge: once the cluster holds the stateful set that
    [rebuildStatefulSet] produced, the set itself asks for nothing more.  The
    server then needs a sync exactly if the configuration has to be reloaded or
    the config map or one of the services is missing, and an update exactly if
    both services are there and the configuration has to be reloaded; a
    configuration that cannot be rendered counts as up to date.  In particular
    it needs neither when everything is there and nothing has changed. *)
Theorem server_converges s (w : W) (ss : Ref H StatefulSet) (w1 w2 : W)
    (headless monitoring config reload : bool) (err : error)
    (Hsep : server_separate s) (Hbuild : rebuildStatefulSet s w = Some (ss, w1))
    (Hlive : ss_Replicas (load (oldObject (bh_handle (si_statefulSet s))) (heap w2)) =
               ss_Replicas (load ss (heap w1)) /\
             ss_Template (load (oldObject (bh_handle (si_statefulSet s))) (heap w2)) =
               ss_Template (load ss (heap w1)))
    (Hss : Exists (bh_handle (si_statefulSet s)) w2 = Some (true, w2))
    (Hsvc : Exists (si_headlessService s) w2 = Some (headless, w2))
    (Hmon : Exists (si_monitoringService s) w2 = Some (monitoring, w2))
    (Hcm : Exists (ch_configMap (si_configHelper s)) w2 = Some (config, w2))
    (Hconf : NeedReload (si_configHelper s) w2 = Some ((reload, err), w2)) :
  let changed := no_error err && reload in
  serverImpl_needSync s w2 = Some (changed || negb (config && headless && monitoring), w2) /\
  serverImpl_needUpdate s w2 = Some (headless && monitoring && changed, w2).
Proof.
  intros changed. apply rebuildStatefulSet_result in Hbuild as (-> & _ & Hrep & file & Hcont); [|done].
  destruct Hlive as [Hrep2 Htmpl2]. rewrite Hrep in Hrep2.
  assert (serverImpl_exists s w2 = Some (headless && monitoring, w2)) as Hex.
  { unfold serverImpl_exists. rewrite (bind_step _ _ _ _ _ Hss). cbn [negb].
    rewrite (bind_step _ _ _ _ _ Hsvc). by destruct headless. }
  split.
  - unfold serverImpl_needSync, configNeedsReload. rewrite run_assoc, (bind_step _ _ _ _ _ Hconf), run_ret.
    assert ((match err with Some _ => false | None => reload end) = changed) as -> by by destruct err.
    destruct changed; [done|].
    unfold needBuild, NeedInit. rewrite run_assoc, (bind_step _ _ _ _ _ Hcm), run_ret.
    destruct config; [|done]. simpl. rewrite (bind_step _ _ _ _ _ Hex).
    destruct (headless && monitoring); [|done]. simpl. unfold StatefulSet_NeedSync, read. rewrite run_gets.
    rewrite Hrep2. by rewrite bool_decide_eq_true_2.
  - unfold serverImpl_needUpdate. rewrite (bind_step _ _ _ _ _ Hex). destruct (headless && monitoring); [|done].
    simpl. unfold podsImageCorrespondsToSpec, read. rewrite run_assoc, run_gets, Htmpl2, Hcont.
    assert (exists c cs, ps_Containers (mount_tlsSecret (si_tlsSecret s)
      (mount_caBundle (si_caBundle s) (server_podSpec s file))) = c :: cs /\ ct_Image c = si_image s)
      as (c & cs & -> & Himg).
    { destruct (si_tlsSecret s), (si_caBundle s); simpl; by eauto. }
    rewrite run_ret, Himg, bool_decide_eq_true_2 by done. simpl.
    rewrite (bind_step _ _ _ _ _ Hconf). by destruct err.
Qed.

(** What [rebuildStatefulSet] does with a specification that has
    [extraPodAnnotations]: the map of the specification takes the annotations
    of the instance, and the template holds that very map. *)
Lemma rebuildStatefulSet_annotations s w m ss w' :
  server_separate s ->
  cs_ExtraPodAnnotations (sp_CommonSpec (yt_Spec (resource w))) = Some m ->
  rebuildStatefulSet s w = Some (ss, w') ->
  let shared := Some (is_PodAnnotations (si_instanceSpec s) ∪ m) in
  cs_ExtraPodAnnotations (sp_CommonSpec (yt_Spec (resource w'))) = shared /\
  om_Annotations (pt_ObjectMeta (ss_Template (load ss (heap w')))) = shared.
Proof.
  intros Hsep Hshared Hrun. unfold rebuildStatefulSet in Hrun. cbv zeta in Hrun.
  apply bind_inv in Hrun as (ss1 & w1 & Hb & Hrun).
  assert (ss1 = newObject (bh_handle (si_statefulSet s)) /\ resource w1 = resource w) as [-> Hres].
  { unfold StatefulSet_Build in Hb. apply bind_inv in Hb as (b & w2 & Hr & Hb). injection Hr as _ <-.
    apply bind_inv in Hb as (u & w3 & Hw & Hb). apply bind_inv in Hb as ([] & w4 & H4 & Hb).
    injection Hb as <- <-. injection H4 as <-. split; [done|]. cbn.
    destruct b; [by injection Hw as _ <-|]. by injection Hw as _ <-. }
  apply bind_inv in Hrun as (built & w2 & Hr & Hrun). injection Hr as _ <-.
  apply bind_inv in Hrun as (ann & w3 & Ha & Hrun).
  unfold annotate_template, ExtraPodAnnotations in Ha. rewrite run_gets in Ha.
  rewrite Hres, Hshared in Ha. cbn in Ha. injection Ha as <- <-.
  destruct (GetFileNames _) as [|file [|? ?]]; [done| |done].
  apply bind_inv in Hrun as ([] & w4 & Hw4 & Hrun). injection Hw4 as <-.
  apply bind_inv in Hrun as ([] & w5 & Hw5 & Hrun). injection Hw5 as <-.
  injection Hrun as <- <-. cbn. by rewrite (sep_ss_built s Hsep), !load_store.
Qed.

(** C18. Pod annotations leak between components: the annotations of an
    instance are written into the map of [extraPodAnnotations] itself, so of
    two servers built one after the other the pods of the second hold the
    annotations of the first, wherever they have none of their own under the
    same key. *)
Theorem rebuildStatefulSet_leaks_annotations (s1 s2 : serverImpl H) (w : W) (m : gmap string string)
    (ss1 ss2 : Ref H StatefulSet) (w1 w2 : W)
    (Hsep1 : server_separate s1) (Hsep2 : server_separate s2)
    (Hshared : cs_ExtraPodAnnotations (sp_CommonSpec (yt_Spec (resource w))) = Some m)
    (Hrun1 : rebuildStatefulSet s1 w = Some (ss1, w1))
    (Hrun2 : rebuildStatefulSet s2 w1 = Some (ss2, w2)) :
  om_Annotations (pt_ObjectMeta (ss_Template (load ss2 (heap w2)))) =
  Some (is_PodAnnotations (si_instanceSpec s2) ∪ (is_PodAnnotations (si_instanceSpec s1) ∪ m)).
Proof.
  apply rebuildStatefulSet_annotations with (m := m) in Hrun1 as [Hm _]; [|done..].
  by eapply rebuildStatefulSet_annotations in Hrun2 as [_ Ha].
Qed.
End ServerTheorems.

(** ** Witnesses *)

Import RefKube RefMeta RefCodec.

Module Witness.
(** The heap of one server: its eleven variables. *)
Definition heap_t : Type :=
  StatefulSet * (StatefulSet * (bool * (Service * (Service * (Service * (Service *
    (ConfigMap * (ConfigMap * (ConfigMap * bool))))))))).

Definition at1 {A B C} (r : Ref B C) : Ref (A * B) C := comp_ref snd_ref r.

Definition vars : ServerVars heap_t :=
  mkServerVars heap_t fst_ref (at1 fst_ref) (at1 (at1 fst_ref)) (at1 (at1 (at1 fst_ref)))
    (at1 (at1 (at1 (at1 fst_ref)))) (at1 (at1 (at1 (at1 (at1 fst_ref)))))
    (at1 (at1 (at1 (at1 (at1 (at1 fst_ref)))))) (at1 (at1 (at1 (at1 (at1 (at1 (at1 fst_ref)))))))
    (at1 (at1 (at1 (at1 (at1 (at1 (at1 (at1 fst_ref))))))))
    (at1 (at1 (at1 (at1 (at1 (at1 (at1 (at1 (at1 fst_ref)))))))))
    (at1 (at1 (at1 (at1 (at1 (at1 (at1 (at1 (at1 snd_ref))))))))).

Definition labeller : Labeller := mkLabeller "minisaurus" "default" "yt-discovery" "Discovery" None.

(** An instance with one annotation of its own. *)
Definition annotated : InstanceSpec :=
  mkInstanceSpec None [] [] [] None (mkResourceRequirements None None) 3 None [] [] None None None
    (Some 10020%Z) [] [] None ∅ [] ∅ {[ "team" := "discovery" ]} None None None.

Definition make (spec : InstanceSpec) : option (serverImpl heap_t) :=
  newServerConfigured vars labeller sample_CommonSpec spec "/usr/bin/ytserver-discovery"
    "ytserver-discovery.yson" "ds" "discovery" (fun y => inr (yt_Name y)) [].

Definition server_of (spec : InstanceSpec) (s : serverImpl heap_t) : serverImpl heap_t :=
  default s (make spec).

Definition ss_zero : StatefulSet :=
  mkStatefulSet ObjectMeta_zero "" ∅ None "" [] (mkPodTemplateSpec ObjectMeta_zero PodSpec_zero).
Definition svc_zero : Service := mkService ObjectMeta_zero "" "" ∅ [].
Definition cm_zero : ConfigMap := mkConfigMap ObjectMeta_zero ∅.

Definition heap0 : heap_t :=
  (ss_zero, (ss_zero, (false, (svc_zero, (svc_zero, (svc_zero, (svc_zero,
    (cm_zero, (cm_zero, (cm_zero, false)))))))))).

(** The sample resource with a non-nil [extraPodAnnotations]. *)
Definition resource0 : Ytsaurus :=
  set_ExtraPodAnnotations {[ "owner" := "yt" ]} (sample_Ytsaurus ClusterStateUpdating).

Definition world0 : World heap_t YtsaurusStatus :=
  mkWorld resource0 heap0 (sample_Status ClusterStateUpdating).

Definition server0 : serverImpl heap_t :=
  mkServerImpl heap_t "ytsaurus:dev" labeller sample_CommonSpec "/usr/bin/ytserver-discovery"
    annotated
    (mkBuiltHandle heap_t KStatefulSet
       (mkHandle heap_t KStatefulSet "ds" (sr_statefulSet_old vars) (sr_statefulSet_new vars))
       (sr_statefulSet_built vars))
    (mkHandle heap_t KService "discovery" (sr_headless_old vars) (sr_headless_new vars))
    (mkHandle heap_t KService "yt-discovery-monitoring" (sr_monitoring_old vars) (sr_monitoring_new vars))
    10020 None None
    (mkConfigHelper heap_t labeller
       [("ytserver-discovery.yson", mkGeneratorDescriptor (fun y => inr (yt_Name y)) ConfigFormatYson)]
       None (sr_overrides vars)
       (mkHandle heap_t KConfigMap "yt-discovery-config" (sr_configMap_old vars) (sr_configMap_new vars)))
    (sr_built vars) [] (PortName "metrics") "/orchid/service".

Lemma server0_separate : server_separate server0.
Proof.
  split; intros b h; repeat match goal with x : _ * _ |- _ => destruct x end; reflexivity.
Qed.

(** The world after the first build. *)
Definition built : World heap_t YtsaurusStatus :=
  match rebuildStatefulSet server0 world0 with Some (_, w) => w | None => world0 end.

(** Another instance of the server, with another annotation. *)
Definition annotated1 : InstanceSpec :=
  mkInstanceSpec None [] [] [] None (mkResourceRequirements None None) 1 None [] [] None None None
    (Some 10020%Z) [] [] None ∅ [] ∅ {[ "zone" := "b" ]} None None None.
Definition server1 : serverImpl heap_t :=
  mkServerImpl heap_t (si_image server0) (si_labeller server0) (si_commonSpec server0)
    (si_binaryPath server0) annotated1 (si_statefulSet server0) (si_headlessService server0)
    (si_monitoringService server0) (si_monitoringPort server0) (si_caBundle server0)
    (si_tlsSecret server0) (si_configHelper server0) (si_built server0)
    (si_componentContainerPorts server0) (si_readinessProbePort server0)
    (si_readinessProbeHTTPPath server0).

Lemma server1_separate : server_separate server1.
Proof.
  split; intros b h; repeat match goal with x : _ * _ |- _ => destruct x end; reflexivity.
Qed.

Definition built2 : World heap_t YtsaurusStatus :=
  match rebuildStatefulSet server1 built with Some (_, w) => w | None => built end.

(** The cluster holding what was built. *)
Definition live_meta : ObjectMeta := mkObjectMeta "ds" "default" ∅ None "1".
Definition live : World heap_t YtsaurusStatus :=
  let ss := load (sr_statefulSet_new vars) (heap built) in
  mkWorld (resource built)
    (mkStatefulSet live_meta (ss_PodManagementPolicy ss) (ss_Selector ss) (ss_Replicas ss)
       (ss_ServiceName ss) (ss_VolumeClaimTemplates ss) (ss_Template ss),
     (ss_zero, (false, (mkService live_meta "" "" ∅ [], (svc_zero,
       (mkService live_meta "" "" ∅ [], (svc_zero, (cm_zero,
         (mkConfigMap live_meta {[ "ytserver-discovery.yson" := "minisaurus" ]},
           (cm_zero, false))))))))))
    (ext built).
End Witness.

Lemma removePods_scales_to_zero_witness :
  exists w1 : World Witness.heap_t YtsaurusStatus,
    ss_Replicas (load (sr_statefulSet_new Witness.vars) (heap w1)) = Some 0%Z.
Proof.
  destruct (serverImpl_removePods Witness.server0 Witness.world0) as [[err w']|] eqn:Hrun;
    [|exfalso; revert Hrun; vm_compute; discriminate].
  destruct (removePods_scales_to_zero Witness.server0 Witness.world0 err w'
    Witness.server0_separate Hrun) as (w1 & H1 & _).
  exists w1. exact H1.
Defined.

Lemma server_converges_witness :
  serverImpl_needUpdate Witness.server0 Witness.live = Some (false, Witness.live).
Proof.
  destruct (rebuildStatefulSet Witness.server0 Witness.world0) as [[ss w1]|] eqn:Hrun;
    [|exfalso; revert Hrun; vm_compute; discriminate].
  pose proof (rebuildStatefulSet_result _ _ _ _ Witness.server0_separate Hrun) as (Hss & _).
  apply (server_converges Witness.server0 Witness.world0 ss w1 Witness.live true true true false None
    Witness.server0_separate Hrun); try (vm_compute; reflexivity).
  assert (w1 = Witness.built) as -> by (unfold Witness.built; by rewrite Hrun).
  subst ss. split; vm_compute; reflexivity.
Defined.

Lemma rebuildStatefulSet_leaks_annotations_witness :
  om_Annotations (pt_ObjectMeta (ss_Template
    (load (sr_statefulSet_new Witness.vars) (heap Witness.built2)))) =
  Some ({[ "zone" := "b" ]} ∪ ({[ "team" := "discovery" ]} ∪ {[ "owner" := "yt" ]})).
Proof.
  destruct (rebuildStatefulSet Witness.server0 Witness.world0) as [[ss w1]|] eqn:Hrun;
    [|exfalso; revert Hrun; vm_compute; discriminate].
  assert (w1 = Witness.built) as -> by (unfold Witness.built; by rewrite Hrun).
  destruct (rebuildStatefulSet Witness.server1 Witness.built) as [[ss2 w2]|] eqn:Hrun2;
    [|exfalso; revert Hrun2; vm_compute; discriminate].
  pose proof (rebuildStatefulSet_result _ _ _ _ Witness.server1_separate Hrun2) as (-> & _).
  assert (w2 = Witness.built2) as <- by (unfold Witness.built2; by rewrite Hrun2).
  exact (rebuildStatefulSet_leaks_annotations Witness.server0 Witness.server1 Witness.world0
    {[ "owner" := "yt" ]} ss _ Witness.built w2 Witness.server0_separate Witness.server1_separate
    eq_refl Hrun Hrun2).
Defined.
