(* ===== verification/InitJob.v ===== *)
(** * One-shot jobs: pkg/components/init_job.go

    An [InitJob] runs a script in a Kubernetes job and records its completion
    in a status condition.  The condition is kept by a [ConditionManager]
    (pkg/apiproxy/proxy.go), an interface the wrapper of the Ytsaurus resource
    implements. *)

From S2P Require Import Prelude GoPath Api Kube Conditions Samples Labeller Proxy Component Resources ConfigHelper Server.

(** ** The interface [ConditionManager] *)

Record ConditionManager (W : Type) := mkConditionManager {
  cmg_SetStatusCondition : Condition -> M W unit;
  cmg_IsStatusConditionTrue : string -> M W bool;
  cmg_IsStatusConditionFalse : string -> M W bool;
}.
Arguments cmg_SetStatusCondition {W} _ _. Arguments cmg_IsStatusConditionTrue {W} _ _.
Arguments cmg_IsStatusConditionFalse {W} _ _.

Section ConditionManager.
Context {H E : Type} `{K : Kube E} `{CM : ConditionMeta}.
Local Abbreviation W := (World H E).

(** [apiproxy.Ytsaurus] as a condition manager. *)
Definition Ytsaurus_conditions : ConditionManager W :=
  mkConditionManager W SetStatusCondition IsStatusConditionTrue IsStatusConditionFalse.
End ConditionManager.

(** What a condition manager promises: it keeps one status per condition type
    ([manages] is what must hold of the world for that, [kept] the status),
    setting a condition changes that status only and nothing outside the
    program. *)
Class ConditionManagerLaws {H E} (cm : ConditionManager (World H E)) := {
  manages : World H E -> Prop;
  kept : World H E -> string -> option ConditionStatus;
  manager_true : forall w t, manages w ->
    cmg_IsStatusConditionTrue cm t w = Some (bool_decide (kept w t = Some ConditionTrue), w);
  manager_false : forall w t, manages w ->
    cmg_IsStatusConditionFalse cm t w = Some (bool_decide (kept w t = Some ConditionFalse), w);
  manager_set : forall w c, manages w ->
    exists w', cmg_SetStatusCondition cm c w = Some (tt, w') /\ manages w' /\ ext w' = ext w /\
      forall t, kept w' t = if decide (t = cond_Type c) then Some (cond_Status c) else kept w t;
  (** The conditions live in a part of the world: what leaves it alone keeps
      them. *)
  undisturbed : World H E -> World H E -> Prop;
  undisturbed_manages : forall w w', undisturbed w w' -> manages w -> manages w';
  undisturbed_kept : forall w w' t, undisturbed w w' -> kept w' t = kept w t;
}.

(** ** Scripts *)

Definition NL : string := String (Ascii.ascii_of_nat 10) EmptyString.

Definition initJobPrologue : string := (NL +:+ "set -e" +:+ NL +:+ "set -x" +:+ NL)%string.

Definition ClientConfigFileName : string := "client.yson".
Definition InitClusterScriptFileName : string := "init-cluster.sh".

Definition initJobWithNativeDriverPrologue : string :=
  String.concat NL
    [initJobPrologue;
     ("export YT_DRIVER_CONFIG_PATH=" +:+ path_Join [ConfigMountPoint; ClientConfigFileName])%string;
     ("export YTSAURUS_VERSION=" +:+ DQ +:+ "$(/usr/bin/ytserver-all --version | head -c4)" +:+ DQ)%string].

(** ** The job *)

Record InitJob (H E : Type) := mkInitJob {
  ij_labeller : Labeller;
  ij_conditionsManager : ConditionManager (World H E);
  ij_imagePullSecrets : list LocalObjectReference;
  ij_initJob : Handle H KJob;
  ij_configHelper : ConfigHelper H;
  ij_initCompletedCondition : string;
  ij_image : string;
  (** [builtJob <> nil]. *)
  ij_built : Ref H bool;
}.
Arguments ij_labeller {H E} _. Arguments ij_conditionsManager {H E} _.
Arguments ij_imagePullSecrets {H E} _. Arguments ij_initJob {H E} _.
Arguments ij_configHelper {H E} _. Arguments ij_initCompletedCondition {H E} _.
Arguments ij_image {H E} _. Arguments ij_built {H E} _.

(** The variables an init job allocates. *)
Record InitJobVars (H : Type) := mkInitJobVars {
  jv_job_old : Ref H Job;
  jv_job_new : Ref H Job;
  jv_overrides : Ref H ConfigMap;
  jv_configMap_old : Ref H ConfigMap;
  jv_configMap_new : Ref H ConfigMap;
  jv_built : Ref H bool;
}.
Arguments jv_job_old {H} _. Arguments jv_job_new {H} _. Arguments jv_overrides {H} _.
Arguments jv_configMap_old {H} _. Arguments jv_configMap_new {H} _. Arguments jv_built {H} _.

Definition NewInitJob {H E} (vars : InitJobVars H) (l : Labeller)
    (conditionsManager : ConditionManager (World H E)) (imagePullSecrets : list LocalObjectReference)
    (name configFileName image : string) (generator : Ytsaurus -> string + string) : InitJob H E :=
  mkInitJob H E l conditionsManager imagePullSecrets
    (mkHandle H KJob (GetInitJobName l name) (jv_job_old vars) (jv_job_new vars))
    (mkConfigHelper H l [(configFileName, mkGeneratorDescriptor generator ConfigFormatYson)] None
       (jv_overrides vars)
       (mkHandle H KConfigMap
          (ToLower name +:+ "-" +:+ lb_ComponentLabel l +:+ "-init-job-config")%string
          (jv_configMap_old vars) (jv_configMap_new vars)))
    (name +:+ lb_ComponentName l +:+ "InitJobCompleted")%string image (jv_built vars).

Section InitJob.
Context {H E : Type} `{K : Kube E} `{CM : ConditionMeta} `{CO : Codec}.
Local Abbreviation W := (World H E).
Implicit Types j : InitJob H E.

Definition IsCompleted j : M W bool :=
  cmg_IsStatusConditionTrue (ij_conditionsManager j) (ij_initCompletedCondition j).

(** [Build] returns nil when the client configuration cannot be rendered, and
    [cm.Data] then dereferences it. *)
Definition SetInitScript j (script : string) : M W unit :=
  cm ← ConfigHelper_Build (ij_configHelper j);
  match cm with
  | None => panic
  | Some cm =>
      c ← read cm;
      write cm (mkConfigMap (cm_ObjectMeta c) (<[InitClusterScriptFileName := script]> (cm_Data c)))
  end.

Definition init_podSpec j : PodSpec :=
  mkPodSpec None (ij_imagePullSecrets j) None None None
    [mkContainer (ij_image j) "ytsaurus-init"
       ["bash"; "-c"; path_Join [ConfigMountPoint; InitClusterScriptFileName]] [] [] []
       [createConfigVolumeMount] [] (mkResourceRequirements None None) None None]
    [] [createConfigVolume ConfigVolumeName (GetConfigMapName (ij_configHelper j)) (Some 320%Z)]
    None ∅ [] false "" "OnFailure".

Definition InitJob_Build j : M W (Ref H Job) :=
  built ← read (ij_built j);
  if (built : bool) then mret (newObject (ij_initJob j))
  else
    job ← Job_Build (ij_labeller j) (ij_initJob j);
    o ← read job;
    _ ← write job (mkJob (job_ObjectMeta o) (job_TTLSecondsAfterFinished o) (job_BackoffLimit o)
                     (mkPodTemplateSpec (GetInitJobObjectMeta (ij_labeller j)) (init_podSpec j))
                     (job_Status_Succeeded o));
    _ ← write (ij_built j) true;
    mret job.

Definition InitJob_Fetch j : M W error :=
  in_order [Fetch (ij_initJob j); ConfigHelper_Fetch (ij_configHelper j)].

Definition completed_condition j : Condition :=
  mkCondition (ij_initCompletedCondition j) ConditionTrue 0 "InitJobCompleted"
    "Init job successfully completed".
Definition restart_condition j : Condition :=
  mkCondition (ij_initCompletedCondition j) ConditionFalse 0 "InitJobNeedRestart"
    "Init job needs restart".

Definition InitJob_Sync j (dry : bool) : M W (ComponentStatus * error) :=
  let name := hd_name (ij_initJob j) in
  completed ← cmg_IsStatusConditionTrue (ij_conditionsManager j) (ij_initCompletedCondition j);
  if (completed : bool) then
    mret (mkComponentStatus SyncStatusReady (name +:+ " completed")%string, None)
  else
    jobExists ← Exists (ij_initJob j);
    if negb jobExists then
      err ← (if dry then mret None
             else
               _ ← InitJob_Build j;
               in_order [ConfigHelper_Sync (ij_configHelper j); Sync (ij_initJob j)]);
      mret (WaitingStatus SyncStatusPending (name +:+ " creation")%string, err)
    else
      succeeded ← Job_Completed (ij_initJob j);
      if negb succeeded then
        mret (WaitingStatus SyncStatusBlocked (name +:+ " completion")%string, None)
      else
        _ ← (if dry then mret tt
             else cmg_SetStatusCondition (ij_conditionsManager j) (completed_condition j));
        mret (WaitingStatus SyncStatusPending
                ("setting " +:+ ij_initCompletedCondition j +:+ " condition")%string, None).

Definition InitJob_removeIfExists j : M W error :=
  e ← Exists (ij_initJob j);
  if negb e then mret None
  else DeleteObject KJob (oldObject (ij_initJob j)) (Some "Foreground").

Definition prepareRestart j (dry : bool) : M W error :=
  if dry then mret None
  else
    err ← RemoveIfExists (ij_configHelper j);
    match err with
    | Some _ => mret err
    | None =>
        err ← InitJob_removeIfExists j;
        match err with
        | Some _ => mret err
        | None =>
            _ ← cmg_SetStatusCondition (ij_conditionsManager j) (restart_condition j);
            mret None
        end
    end.

Definition isRestartPrepared j : M W bool :=
  jobExists ← Exists (ij_initJob j);
  configExists ← ConfigHelper_Exists (ij_configHelper j);
  conditionIsFalse ←
    cmg_IsStatusConditionFalse (ij_conditionsManager j) (ij_initCompletedCondition j);
  mret (negb jobExists && negb configExists && conditionIsFalse).

Definition isRestartCompleted j : M W bool :=
  cmg_IsStatusConditionTrue (ij_conditionsManager j) (ij_initCompletedCondition j).
End InitJob.

(** ** The wrapper of the Ytsaurus resource is a condition manager *)

Section YtsaurusConditions.
Context {H E : Type} `{K : Kube E} `{CM : ConditionMeta} `{CL : !ConditionMetaLaws CM}.
Local Abbreviation W := (World H E).

Definition kept_in (l : list Condition) (t : string) : option ConditionStatus :=
  cond_Status <$> List.find (fun c => bool_decide (cond_Type c = t)) l.

Lemma kept_in_holds l t s : conditions_wf l -> kept_in l t = Some s <-> holds l t s.
Proof.
  intros Hwf. unfold kept_in. split.
  - intros (c & Hf & ->)%fmap_Some. apply find_some in Hf as [Hin Hb].
    apply bool_decide_eq_true in Hb. exists c. by rewrite list_elem_of_In.
  - intros Hh. destruct (List.find _ l) as [c|] eqn:Hf.
    + apply find_some in Hf as [Hin Hb]. apply bool_decide_eq_true in Hb. simpl. f_equal.
      eapply (holds_functional l t); [done| |exact Hh]. exists c. by rewrite list_elem_of_In.
    + destruct Hh as (c & Hin & Ht & _). apply list_elem_of_In in Hin.
      apply (find_none _ _ Hf) in Hin. simpl in Hin. by apply bool_decide_eq_false in Hin.
Qed.

Lemma option_ext_iff {A} (o o' : option A) : (forall a, o = Some a <-> o' = Some a) -> o = o'.
Proof. intros Ho. apply option_eq, Ho. Qed.

Lemma query_kept (q : bool) l t s :
  conditions_wf l -> (q = true <-> holds l t s) -> q = bool_decide (kept_in l t = Some s).
Proof.
  intros Hwf Hq. apply eq_true_iff_eq. by rewrite bool_decide_eq_true, Hq, kept_in_holds.
Qed.

#[export] Instance Ytsaurus_conditions_laws :
  ConditionManagerLaws (H:=H) (E:=E) Ytsaurus_conditions.
Proof.
  refine {| manages := fun w => conditions_wf (st_Conditions (status w));
            kept := fun w => kept_in (st_Conditions (status w));
            undisturbed := fun w w' => status w' = status w |}.
  - intros w t Hwf. simpl. unfold IsStatusConditionTrue, gets. do 2 f_equal.
    by apply query_kept, is_true_spec.
  - intros w t Hwf. simpl. unfold IsStatusConditionFalse, gets. do 2 f_equal.
    by apply query_kept, is_false_spec.
  - intros w c Hwf. eexists. split; [reflexivity|]. simpl.
    pose proof (set_wf (client_now (ext w)) _ c Hwf) as Hwf2.
    repeat split; [by apply sortConditions_wf|]. intros t. apply option_ext_iff. intros s.
    rewrite kept_in_holds by by apply sortConditions_wf.
    rewrite sortConditions_holds, set_holds by done.
    case_decide; [split; congruence|by rewrite kept_in_holds].
  - by intros w w' ->.
  - by intros w w' t ->.
Defined.
End YtsaurusConditions.

(** ** Frames *)

Class ConditionManagerFrame {H E} `{K : Kube E} `{CM : ConditionMeta} `{KL : !KubeLaws E K}
    (cm : ConditionManager (World H E)) := {
  manager_set_frame : forall c, preserves frame (cmg_SetStatusCondition cm c);
  manager_true_quiet : forall t, preserves quiet (cmg_IsStatusConditionTrue cm t);
  manager_false_quiet : forall t, preserves quiet (cmg_IsStatusConditionFalse cm t);
}.

#[export] Hint Resolve manager_set_frame manager_true_quiet manager_false_quiet : frame.

Section InitJobFrames.
Context {H E : Type} `{K : Kube E} `{CM : ConditionMeta} `{CO : Codec}.
Context `{KL : !KubeLaws E K} `{CL : !ConditionMetaLaws CM}.
Local Abbreviation W := (World H E).
Implicit Types j : InitJob H E.

#[export] Instance Ytsaurus_conditions_frame :
  ConditionManagerFrame (Ytsaurus_conditions : ConditionManager W).
Proof. split; intros; simpl; solve_frame. Qed.

Lemma SetInitScript_quiet j script : preserves quiet (SetInitScript j script : M W unit).
Proof. unfold SetInitScript. solve_frame. Qed.

Lemma InitJob_Build_quiet j : preserves quiet (InitJob_Build j : M W (Ref H Job)).
Proof. unfold InitJob_Build. solve_frame. Qed.

Lemma InitJob_Fetch_quiet j : preserves quiet (InitJob_Fetch j : M W error).
Proof. unfold InitJob_Fetch. solve_frame. Qed.

Lemma InitJob_removeIfExists_quiet j : preserves quiet (InitJob_removeIfExists j : M W error).
Proof. unfold InitJob_removeIfExists. solve_frame. Qed.

#[local] Hint Resolve SetInitScript_quiet InitJob_Build_quiet InitJob_Fetch_quiet
  InitJob_removeIfExists_quiet : frame.

Context (j : InitJob H E) `{CF : !ConditionManagerFrame (ij_conditionsManager j)}.

Lemma InitJob_Sync_frame dry : preserves frame (InitJob_Sync j dry : M W _).
Proof. unfold InitJob_Sync. solve_frame. Qed.

Lemma prepareRestart_frame dry : preserves frame (prepareRestart j dry : M W error).
Proof. unfold prepareRestart. solve_frame. Qed.

Lemma isRestartPrepared_quiet : preserves quiet (isRestartPrepared j : M W bool).
Proof. unfold isRestartPrepared. solve_frame. Qed.

Lemma isRestartCompleted_quiet : preserves quiet (isRestartCompleted j : M W bool).
Proof. unfold isRestartCompleted. solve_frame. Qed.
End InitJobFrames.

#[export] Hint Resolve SetInitScript_quiet InitJob_Build_quiet InitJob_Fetch_quiet
  InitJob_Sync_frame prepareRestart_frame isRestartPrepared_quiet isRestartCompleted_quiet : frame.

(** ** The life of a job *)

Section InitJobRuns.
Context {H E : Type} `{K : Kube E} `{CM : ConditionMeta} `{CO : Codec} `{KL : !KubeLaws E K}.
Local Abbreviation W := (World H E).
Context (j : InitJob H E) `{CML : !ConditionManagerLaws (ij_conditionsManager j)}.

(** The job as last fetched, and its condition. *)
Definition job_exists (w : W) : bool :=
  negb (bool_decide (GetResourceVersion (k:=KJob) (load (oldObject (ij_initJob j)) (heap w)) = "")).
Definition job_succeeded (w : W) : bool :=
  (0 <? job_Status_Succeeded (load (oldObject (ij_initJob j)) (heap w)))%Z.
Definition init_completed (w : W) : bool :=
  bool_decide (kept w (ij_initCompletedCondition j) = Some ConditionTrue).

Lemma IsCompleted_run w : manages w -> IsCompleted j w = Some (init_completed w, w).
Proof. apply manager_true. Qed.

Lemma Exists_run {k} (r : Handle H k) (w : W) :
  Exists r w = Some (negb (bool_decide (GetResourceVersion (load (oldObject r) (heap w)) = "")), w).
Proof. done. Qed.

Lemma Job_Completed_run (r : Handle H KJob) (w : W) :
  Job_Completed r w = Some ((0 <? job_Status_Succeeded (load (oldObject r) (heap w)))%Z, w).
Proof. done. Qed.

(** One step of the job, case by case. *)
Lemma InitJob_Sync_run dry w :
  manages w ->
  InitJob_Sync j dry w =
  if init_completed w then
    Some ((mkComponentStatus SyncStatusReady (hd_name (ij_initJob j) +:+ " completed")%string, None), w)
  else if negb (job_exists w) then
    (err ← (if dry then mret None
            else _ ← InitJob_Build j;
                 in_order [ConfigHelper_Sync (ij_configHelper j); Sync (ij_initJob j)]);
     mret (WaitingStatus SyncStatusPending (hd_name (ij_initJob j) +:+ " creation")%string, err)) w
  else if negb (job_succeeded w) then
    Some ((WaitingStatus SyncStatusBlocked (hd_name (ij_initJob j) +:+ " completion")%string, None), w)
  else
    (_ ← (if dry then mret tt
          else cmg_SetStatusCondition (ij_conditionsManager j) (completed_condition j));
     mret (WaitingStatus SyncStatusPending
             ("setting " +:+ ij_initCompletedCondition j +:+ " condition")%string, None)) w.
Proof.
  intros Hm. unfold InitJob_Sync. cbv zeta.
  rewrite (bind_step _ _ _ _ _ (manager_true w (ij_initCompletedCondition j) Hm)).
  unfold init_completed. destruct (bool_decide (kept _ _ = _)); [done|].
  rewrite (bind_step _ _ _ _ _ (Exists_run _ w)). fold (job_exists w).
  destruct (job_exists w); [|done]. cbv beta iota delta [negb].
  rewrite (bind_step _ _ _ _ _ (Job_Completed_run _ w)). fold (job_succeeded w).
  by destruct (job_succeeded w).
Qed.

(** Submitting the job leaves the conditions alone: true of the conditions in
    the status of the Ytsaurus resource, and of those of another resource as
    long as the job does not share its variable. *)
Definition apart_from_conditions : Prop := forall w err w',
  (_ ← InitJob_Build j;
   in_order [ConfigHelper_Sync (ij_configHelper j); Sync (ij_initJob j)]) w = Some (err, w') ->
  undisturbed w w'.

Lemma create_job_status w err w' :
  (_ ← InitJob_Build j;
   in_order [ConfigHelper_Sync (ij_configHelper j); Sync (ij_initJob j)]) w = Some (err, w') ->
  status w' = status w.
Proof.
  intros Hrun.
  assert (preserves quiet (_ ← InitJob_Build j;
    in_order [ConfigHelper_Sync (ij_configHelper j); Sync (ij_initJob j)] : M W error)) as Hq
    by solve_frame.
  by destruct (Hq _ _ _ Hrun).
Qed.

Lemma isRestartPrepared_run w :
  manages w ->
  isRestartPrepared j w =
  Some (negb (job_exists w) &&
        bool_decide (GetResourceVersion (k:=KConfigMap)
          (load (oldObject (ch_configMap (ij_configHelper j))) (heap w)) = "") &&
        bool_decide (kept w (ij_initCompletedCondition j) = Some ConditionFalse), w).
Proof.
  intros Hm. unfold isRestartPrepared, ConfigHelper_Exists.
  rewrite (bind_step _ _ _ _ _ (Exists_run _ w)), (bind_step _ _ _ _ _ (Exists_run _ w)).
  rewrite (bind_step _ _ _ _ _ (manager_false w _ Hm)). by rewrite (negb_involutive (bool_decide (GetResourceVersion (k:=KConfigMap) _ = _))).
Qed.

(** C19. An init job is completed only by its own success: [InitJob_Sync]
    reports [Ready] exactly when the completed condition is set, sets the
    condition exactly when the job it fetched exists and succeeded, and a dry
    run, or one after completion, leaves the world untouched. *)
Theorem InitJob_Sync_correct (dry : bool) (w : W) (st : ComponentStatus) (err : error) (w' : W)
    (Hapart : apart_from_conditions) (Hm : manages w)
    (Hrun : InitJob_Sync j dry w = Some ((st, err), w')) :
  (cst_SyncStatus st = SyncStatusReady <-> init_completed w = true) /\
  (init_completed w' = true <->
     init_completed w = true \/ dry = false /\ job_exists w = true /\ job_succeeded w = true) /\
  (dry = true \/ init_completed w = true -> w' = w /\ err = None).
Proof.
  rewrite InitJob_Sync_run in Hrun by done.
  destruct (init_completed w) eqn:Hc; [injection Hrun as <- <- <-; rewrite Hc; naive_solver|].
  destruct (job_exists w) eqn:He; simpl negb in Hrun; cbv iota in Hrun.
  - destruct (job_succeeded w) eqn:Hs; simpl negb in Hrun; cbv iota in Hrun.
    + destruct dry; [injection Hrun as <- <- <-; rewrite Hc; simpl; naive_solver|].
      destruct (manager_set w (completed_condition j) Hm) as (w1 & Hset & _ & _ & Hk).
      rewrite (bind_step _ _ _ _ _ Hset) in Hrun. injection Hrun as <- <- <-.
      assert (init_completed w1 = true) as ->; [|simpl; naive_solver].
      unfold init_completed. rewrite Hk, decide_True by done. by apply bool_decide_eq_true.
    + injection Hrun as <- <- <-. rewrite Hc. simpl. naive_solver.
  - apply bind_inv in Hrun as (e & w1 & Hrun & Hret). injection Hret as <- <- <-.
    assert (init_completed w1 = init_completed w) as Heq.
    { unfold init_completed. destruct dry; [by injection Hrun as _ <-|].
      by rewrite (undisturbed_kept w w1) by by eapply Hapart. }
    rewrite Heq, Hc. destruct dry; [injection Hrun as <- <-|]; simpl; naive_solver.
Qed.

(** A prepared restart runs the job again: when [isRestartPrepared]
    answers true, the job is not completed, neither the job nor its
    configuration exists, and the next [InitJob_Sync] submits the job and
    cannot complete it: the completed condition stays false. *)
Theorem restart_prepared_runs_again (w w1 w2 : W) (st : ComponentStatus) (err : error)
    (Hapart : apart_from_conditions) (Hm : manages w) (Hprep : isRestartPrepared j w = Some (true, w1))
    (Hrun : InitJob_Sync j false w1 = Some ((st, err), w2)) :
  st = WaitingStatus SyncStatusPending (hd_name (ij_initJob j) +:+ " creation")%string /\
  kept w2 (ij_initCompletedCondition j) = Some ConditionFalse /\
  exists w3, (_ ← InitJob_Build j;
    in_order [ConfigHelper_Sync (ij_configHelper j); Sync (ij_initJob j)]) w = Some (err, w3) /\
    w3 = w2.
Proof.
  rewrite isRestartPrepared_run in Hprep by done. injection Hprep as Hb <-.
  apply andb_true_iff in Hb as [[He _]%andb_true_iff Hf]. apply bool_decide_eq_true in Hf.
  rewrite InitJob_Sync_run in Hrun by done.
  assert (init_completed w = false) as Hc by (unfold init_completed; by rewrite Hf).
  rewrite Hc, He in Hrun. apply bind_inv in Hrun as (e & w3 & Hrun & Hret).
  injection Hret as <- <- <-. split; [done|]. split; [|by eauto].
  rewrite <- Hf. apply undisturbed_kept. by eapply Hapart.
Qed.
End InitJobRuns.

(** ** Witnesses *)

Import RefKube RefMeta RefCodec.

Module JobWitness.
(** The heap of one job: its six variables. *)
Definition heap_t : Type := Job * (Job * (ConfigMap * (ConfigMap * (ConfigMap * bool)))).
Definition at1 {A B C} (r : Ref B C) : Ref (A * B) C := comp_ref snd_ref r.

Definition vars : InitJobVars heap_t :=
  mkInitJobVars heap_t fst_ref (at1 fst_ref) (at1 (at1 fst_ref)) (at1 (at1 (at1 fst_ref)))
    (at1 (at1 (at1 (at1 fst_ref)))) (at1 (at1 (at1 (at1 snd_ref)))).

Definition labeller : Labeller := mkLabeller "minisaurus" "default" "yt-master" "Master" None.

Definition job : InitJob heap_t YtsaurusStatus :=
  NewInitJob vars labeller Ytsaurus_conditions [] "default" ClientConfigFileName "ytsaurus:dev"
    (fun y => inr (yt_Name y)).

Definition cm_zero : ConfigMap := mkConfigMap ObjectMeta_zero ∅.
Definition job_zero : Job :=
  mkJob ObjectMeta_zero None None (mkPodTemplateSpec ObjectMeta_zero PodSpec_zero) 0.
Definition job_done : Job :=
  mkJob (mkObjectMeta "yt-master-init-job-default" "default" ∅ None "1") None None
    (mkPodTemplateSpec ObjectMeta_zero PodSpec_zero) 1.

(** A world with the given job in the cluster and conditions in the status. *)
Definition world (live : Job) (conditions : list Condition) : World heap_t YtsaurusStatus :=
  let y := sample_Ytsaurus ClusterStateRunning in
  mkWorld (set_yt_Status (mkYtsaurusStatus ClusterStateRunning conditions sample_UpdateStatus) y)
    (live, (job_zero, (cm_zero, (cm_zero, (cm_zero, false)))))
    (sample_Status ClusterStateRunning).

Definition restarted : World heap_t YtsaurusStatus := world job_zero [restart_condition job].
End JobWitness.

Lemma InitJob_Sync_correct_witness :
  exists w', InitJob_Sync JobWitness.job false (JobWitness.world JobWitness.job_done []) =
    Some ((WaitingStatus SyncStatusPending "setting defaultMasterInitJobCompleted condition", None), w') /\
  init_completed JobWitness.job w' = true.
Proof.
  eexists. split; [reflexivity|].
  eapply (InitJob_Sync_correct JobWitness.job false (JobWitness.world JobWitness.job_done []));
    [exact (create_job_status JobWitness.job)|constructor|reflexivity|]. right. split; [done|]. split; vm_compute; reflexivity.
Defined.

Lemma restart_prepared_runs_again_witness :
  exists st err w2, InitJob_Sync JobWitness.job false JobWitness.restarted = Some ((st, err), w2) /\
    kept w2 (ij_initCompletedCondition JobWitness.job) = Some ConditionFalse.
Proof.
  destruct (InitJob_Sync JobWitness.job false JobWitness.restarted) as [[[st err] w2]|] eqn:Hrun;
    [|exfalso; revert Hrun; vm_compute; discriminate].
  exists st, err, w2. split; [done|].
  apply (restart_prepared_runs_again JobWitness.job JobWitness.restarted JobWitness.restarted w2
    st err); [exact (create_job_status JobWitness.job)| |vm_compute; reflexivity|exact Hrun].
  repeat constructor. set_solver.
Defined.
