(* ===== verification/Observe.v ===== *)
(** * Code that only looks

    [observes]: the relation between the worlds before and after a program
    that reads but does not act: the resource and the heap are the same, and
    outside only events were recorded.  The readiness and staleness queries of
    resources, configuration files, servers and jobs all stay inside it, which
    is what lets the components promise that asking for their status changes
    nothing ([ComponentReads]). *)

From S2P Require Import Prelude Api Kube Conditions Labeller Proxy Component Resources ConfigHelper Server InitJob.

Section Observes.
Context {H E : Type} `{K : Kube E}.
Local Abbreviation W := (World H E).

Definition event_step (e e' : E) : Prop := exists t r m, e' = recorder_Event t r m e.

Definition observes (w w' : W) : Prop :=
  resource w' = resource w /\ heap w' = heap w /\ rtc event_step (ext w) (ext w').

#[export] Instance observes_preorder : PreOrder observes.
Proof.
  split; [by intros w|]. intros w1 w2 w3 (H1 & H2 & H3) (H4 & H5 & H6).
  split; [congruence|]. split; [congruence|]. by transitivity (ext w2).
Qed.

Lemma observes_read {A} (r : Ref H A) : preserves observes (read r : M W A).
Proof. apply preserves_gets, _. Qed.

Lemma observes_Event t r m : preserves observes (Event t r m : M W unit).
Proof.
  intros w u w' [= <- <-]. repeat split. apply rtc_once. by exists t, r, m.
Qed.

Lemma observes_RecordWarning r m : preserves observes (RecordWarning r m : M W unit).
Proof. apply observes_Event. Qed.
Lemma observes_RecordNormal r m : preserves observes (RecordNormal r m : M W unit).
Proof. apply observes_Event. Qed.
End Observes.

#[export] Hint Resolve observes_read observes_RecordWarning observes_RecordNormal : frame.

(** ** Resources and configuration files *)

Section ObserveResources.
Context {H E : Type} `{K : Kube E} `{CM : ConditionMeta} `{CO : Codec}.
Local Abbreviation W := (World H E).

Lemma Exists_observes {k} (r : Handle H k) : preserves observes (Exists r : M W bool).
Proof. unfold Exists. solve_frame. Qed.
Lemma StringSecret_GetValue_observes r key :
  preserves observes (StringSecret_GetValue r key : M W (string * bool)).
Proof. unfold StringSecret_GetValue. solve_frame. Qed.

#[local] Hint Resolve Exists_observes StringSecret_GetValue_observes : frame.

Lemma StringSecret_NeedSync_observes r key v :
  preserves observes (StringSecret_NeedSync r key v : M W bool).
Proof. unfold StringSecret_NeedSync. solve_frame. Qed.
Lemma Job_Completed_observes r : preserves observes (Job_Completed r : M W bool).
Proof. unfold Job_Completed. solve_frame. Qed.
Lemma getPods_observes l : preserves observes (getPods l : M W (option (list Pod))).
Proof. unfold getPods. destruct (GetListOptions l). solve_frame. Qed.

#[local] Hint Resolve getPods_observes : frame.

Lemma StatefulSet_ArePodsRemoved_observes l :
  preserves observes (StatefulSet_ArePodsRemoved l : M W bool).
Proof. unfold StatefulSet_ArePodsRemoved. solve_frame. Qed.
Lemma StatefulSet_ArePodsReady_observes l m :
  preserves observes (StatefulSet_ArePodsReady l m : M W bool).
Proof. unfold StatefulSet_ArePodsReady. solve_frame. Qed.
Lemma StatefulSet_NeedSync_observes r n : preserves observes (StatefulSet_NeedSync r n : M W bool).
Proof. unfold StatefulSet_NeedSync. solve_frame. Qed.
Lemma Deployment_NeedSync_observes r n : preserves observes (Deployment_NeedSync r n : M W bool).
Proof. unfold Deployment_NeedSync. solve_frame. Qed.
Lemma Deployment_ArePodsRemoved_observes r :
  preserves observes (Deployment_ArePodsRemoved r : M W bool).
Proof. unfold Deployment_ArePodsRemoved. solve_frame. Qed.
Lemma Deployment_ArePodsReady_observes r : preserves observes (Deployment_ArePodsReady r : M W bool).
Proof. unfold Deployment_ArePodsReady. solve_frame. Qed.

Lemma applyOverrides_observes data file names c :
  preserves observes (applyOverrides data file names c : M W string).
Proof. revert c. induction names; intros; simpl; solve_frame. Qed.

#[local] Hint Resolve applyOverrides_observes : frame.

Lemma getConfig_observes h file : preserves observes (getConfig h file : M W _).
Proof. unfold getConfig. solve_frame. Qed.
Lemma getCurrentConfigValue_observes h file : preserves observes (getCurrentConfigValue h file : M W _).
Proof. unfold getCurrentConfigValue. solve_frame. Qed.

#[local] Hint Resolve getConfig_observes getCurrentConfigValue_observes : frame.

Lemma needReload_loop_observes h files : preserves observes (needReload_loop h files : M W _).
Proof. induction files; simpl; solve_frame. Qed.
Lemma NeedReload_observes h : preserves observes (NeedReload h : M W _).
Proof. apply needReload_loop_observes. Qed.
Lemma NeedInit_observes h : preserves observes (NeedInit h : M W bool).
Proof. unfold NeedInit. solve_frame. Qed.
Lemma ConfigHelper_Exists_observes h : preserves observes (ConfigHelper_Exists h : M W bool).
Proof. unfold ConfigHelper_Exists. solve_frame. Qed.
End ObserveResources.

#[export] Hint Resolve Exists_observes StringSecret_GetValue_observes StringSecret_NeedSync_observes
  Job_Completed_observes StatefulSet_ArePodsRemoved_observes StatefulSet_ArePodsReady_observes
  StatefulSet_NeedSync_observes Deployment_NeedSync_observes Deployment_ArePodsRemoved_observes
  Deployment_ArePodsReady_observes NeedReload_observes NeedInit_observes
  ConfigHelper_Exists_observes : frame.

(** ** The queries of the interfaces *)

Class ServerReads {H E} `{K : Kube E} (s : server (World H E) H) := {
  reads_needUpdate : preserves observes (sv_needUpdate s);
  reads_configNeedsReload : preserves observes (sv_configNeedsReload s);
  reads_needBuild : preserves observes (sv_needBuild s);
  reads_needSync : preserves observes (sv_needSync s);
  reads_arePodsReady : preserves observes (pm_arePodsReady (sv_pods s));
}.

Class ComponentReads {H E} `{K : Kube E} (c : Component (World H E)) :=
  reads_status : preserves observes (cmp_Status c).

Class ConditionManagerReads {H E} `{K : Kube E} (cm : ConditionManager (World H E)) := {
  reads_true : forall t, preserves observes (cmg_IsStatusConditionTrue cm t);
  reads_false : forall t, preserves observes (cmg_IsStatusConditionFalse cm t);
}.

#[export] Hint Resolve reads_needUpdate reads_configNeedsReload reads_needBuild reads_needSync
  reads_arePodsReady reads_status reads_true reads_false : frame.

Section ObserveServer.
Context {H E : Type} `{K : Kube E} `{CM : ConditionMeta} `{CO : Codec}.
Local Abbreviation W := (World H E).

#[export] Instance serverImpl_reads (s : serverImpl H) :
  ServerReads (H:=H) (E:=E) (serverImpl_server s).
Proof.
  split; simpl; unfold serverImpl_needUpdate, serverImpl_needSync, serverImpl_arePodsReady,
    needBuild, configNeedsReload, serverImpl_exists, podsImageCorrespondsToSpec; solve_frame.
Qed.

#[export] Instance Ytsaurus_conditions_reads :
  ConditionManagerReads (Ytsaurus_conditions : ConditionManager W).
Proof. split; intros; simpl; solve_frame. Qed.

Lemma IsUpdatingSelf_observes n u : preserves observes (IsUpdatingSelf n u : M W bool).
Proof. unfold IsUpdatingSelf. solve_frame. Qed.

#[local] Hint Resolve IsUpdatingSelf_observes : frame.

Lemma handleUpdatingClusterState_observes u l (p : podsManager W) :
  preserves observes (handleUpdatingClusterState u l p true).
Proof. unfold handleUpdatingClusterState. solve_frame. Qed.

Lemma LocalServerNeedSync_observes (s : server W H) :
  ServerReads s -> preserves observes (LocalServerNeedSync s).
Proof. intros. unfold LocalServerNeedSync. solve_frame. Qed.

Section Job.
Context (j : InitJob H E) `{CR : !ConditionManagerReads (ij_conditionsManager j)}.

Lemma InitJob_Sync_observes : preserves observes (InitJob_Sync j true : M W _).
Proof. unfold InitJob_Sync. cbv beta iota. solve_frame. Qed.
Lemma prepareRestart_observes : preserves observes (prepareRestart j true : M W error).
Proof. unfold prepareRestart. solve_frame. Qed.
Lemma isRestartPrepared_observes : preserves observes (isRestartPrepared j : M W bool).
Proof. unfold isRestartPrepared. solve_frame. Qed.
Lemma isRestartCompleted_observes : preserves observes (isRestartCompleted j : M W bool).
Proof. unfold isRestartCompleted. solve_frame. Qed.
Lemma IsCompleted_observes : preserves observes (IsCompleted j : M W bool).
Proof. unfold IsCompleted. solve_frame. Qed.
End Job.
End ObserveServer.

#[export] Hint Resolve IsUpdatingSelf_observes handleUpdatingClusterState_observes
  LocalServerNeedSync_observes InitJob_Sync_observes prepareRestart_observes
  isRestartPrepared_observes isRestartCompleted_observes IsCompleted_observes : frame.
