(* ===== verification/ServerComponent.v ===== *)
(** * The skeleton of the server components: pkg/components/component.go

    The [doSync] methods of the components share their steps: look for a
    pending local update, obey the update in progress, wait for the component
    they depend on, synchronise the server, wait for the pods.  Each step is a
    combinator that takes the rest of the method, so the methods themselves
    (Nodes.v, Proxies.v, Masters.v, ...) read like the code.

    [agrees] compares the dry run ([Status]) with the wet one ([Sync]) of a
    method: the dry run only observes, reports the status a wet run
    without error reports, and when that status asks for no action the wet run
    does nothing either. *)

From S2P Require Import Prelude Api Kube Conditions Labeller Proxy Component Resources ConfigHelper Server InitJob Observe.

(** [localComponent] with a server: [localServerComponent]. *)
Record localServerComponent (W H : Type) := mkLocalServerComponent {
  lsc_labeller : Labeller;
  lsc_server : server W H;
}.
Arguments lsc_labeller {W H} _. Arguments lsc_server {W H} _.

(** The result of a [doSync] method. *)
Abbreviation SyncResult := (ComponentStatus * error)%type.

Section Steps.
Context {H E : Type} `{K : Kube E} `{CM : ConditionMeta}.
Local Abbreviation W := (World H E).

(** [if !dry { err = m }]. *)
Definition act (dry : bool) (m : M W error) : M W error := if dry then mret None else m.

(** [if IsReadyToUpdateClusterState(state) && needUpdate() { return NeedLocalUpdate }]. *)
Definition local_update_guard (needUpdate : M W bool) (rest : M W SyncResult) : M W SyncResult :=
  state ← GetClusterState;
  need ← (if IsReadyToUpdateClusterState state then needUpdate else mret false);
  if (need : bool) then mret (SimpleStatus SyncStatusNeedLocalUpdate, None) else rest.

(** [if state == ClusterStateUpdating { if status, err := handle; status != nil
    { return *status, err } }]. *)
Definition updating_guard (handle : M W (option ComponentStatus * error)) (rest : M W SyncResult)
    : M W SyncResult :=
  state ← GetClusterState;
  r ← (if decide (state = ClusterStateUpdating) then handle else mret (None, None));
  match r.1 with
  | Some status => mret (status, r.2)
  | None => rest
  end.

(** The two together, as all server components but the scheduler, the query
    tracker and the master have them. *)
Definition server_guards (c : localServerComponent W H) (dry : bool) (rest : M W SyncResult)
    : M W SyncResult :=
  local_update_guard (sv_needUpdate (lsc_server c))
    (updating_guard (handleUpdatingClusterState true (lsc_labeller c) (sv_pods (lsc_server c)) dry)
       rest).

(** Waiting for another component to run. *)
Definition await_running (c : Component W) (rest : M W SyncResult) : M W SyncResult :=
  '(status, err) ← cmp_Status c;
  match err with
  | Some _ => mret (status, err)
  | None =>
      if negb (IsRunningStatus (cst_SyncStatus status)) then
        mret (WaitingStatus SyncStatusBlocked (cmp_GetName c), None)
      else rest
  end.

(** [for _, c := range cs]: the same for a list. *)
Fixpoint await_all (cs : list (Component W)) (rest : M W SyncResult) : M W SyncResult :=
  match cs with
  | [] => rest
  | c :: cs' => await_running c (await_all cs' rest)
  end.

(** Waiting for a component to be ready. *)
Definition await_ready (c : Component W) (rest : M W SyncResult) : M W SyncResult :=
  '(status, err) ← cmp_Status c;
  match err with
  | Some _ => mret (status, err)
  | None =>
      if decide (cst_SyncStatus status <> SyncStatusReady) then
        mret (WaitingStatus SyncStatusBlocked (cmp_GetName c), None)
      else rest
  end.

(** [if need { if !dry { err = sync }; return WaitingStatus(Pending, event), err }]. *)
Definition pending (need : M W bool) (event : string) (dry : bool) (sync : M W error)
    (rest : M W SyncResult) : M W SyncResult :=
  need ← need;
  if (need : bool) then
    err ← act dry sync;
    mret (WaitingStatus SyncStatusPending event, err)
  else rest.

(** The server: out of date, then not ready. *)
Definition sync_server (srv : server W H) (dry : bool) (sync : M W error) (rest : M W SyncResult)
    : M W SyncResult :=
  pending (LocalServerNeedSync srv) "components" dry sync rest.

Definition await_pods (arePodsReady : M W bool) (rest : M W SyncResult) : M W SyncResult :=
  ready ← arePodsReady;
  if negb ready then mret (WaitingStatus SyncStatusBlocked "pods", None) else rest.

Definition ready : M W SyncResult := mret (SimpleStatus SyncStatusReady, None).

(** [!resources.Exists(r)]. *)
Definition need_exists {k} (r : Handle H k) : M W bool := e ← Exists r; mret (negb e).

(** [Status] and [Sync] of a method [doSync]. *)
Definition component_of (name : string) (type : ComponentType) (updatable : bool) (l : Labeller)
    (fetch : M W error) (doSync : bool -> M W SyncResult) : Component W :=
  mkComponent W fetch
    ('(_, err) ← doSync false; mret err)
    (doSync true) name type (SetReadyCondition l) updatable.
End Steps.

(** ** Every step keeps the frame and only observes when dry *)

Section StepLemmas.
Context {H E : Type} `{K : Kube E} `{CM : ConditionMeta}.
Local Abbreviation W := (World H E).
Context (R : relation W) `{!PreOrder R}.

Lemma local_update_guard_preserves n (r : M W SyncResult) :
  preserves R n -> preserves R r -> preserves R (local_update_guard n r).
Proof. intros. unfold local_update_guard. solve_frame. Qed.

Lemma updating_guard_preserves h (r : M W SyncResult) :
  preserves R h -> preserves R r -> preserves R (updating_guard h r).
Proof. intros. unfold updating_guard. solve_frame. Qed.

Lemma await_running_preserves c (r : M W SyncResult) :
  preserves R (cmp_Status c) -> preserves R r -> preserves R (await_running c r).
Proof. intros. unfold await_running. solve_frame. Qed.

Lemma await_all_preserves cs (r : M W SyncResult) :
  Forall (fun c => preserves R (cmp_Status c)) cs -> preserves R r -> preserves R (await_all cs r).
Proof. induction 1; intros; simpl; [done|]. apply await_running_preserves; auto. Qed.

Lemma await_ready_preserves c (r : M W SyncResult) :
  preserves R (cmp_Status c) -> preserves R r -> preserves R (await_ready c r).
Proof. intros. unfold await_ready. solve_frame. Qed.

Lemma pending_preserves n ev dry s (r : M W SyncResult) :
  preserves R n -> preserves R (act dry s) -> preserves R r -> preserves R (pending n ev dry s r).
Proof. intros. unfold pending. solve_frame. Qed.

Lemma await_pods_preserves n (r : M W SyncResult) :
  preserves R n -> preserves R r -> preserves R (await_pods n r).
Proof. intros. unfold await_pods. solve_frame. Qed.

Lemma ready_preserves : preserves R ready.
Proof. unfold ready. solve_frame. Qed.

Lemma act_preserves dry s : (dry = false -> preserves R s) -> preserves R (act dry s).
Proof. intros. unfold act. destruct dry; [solve_frame|auto]. Qed.
End StepLemmas.

(** What runs in the guard runs during an update. *)
Lemma updating_guard_frame {H E} `{K : Kube E} `{CM : ConditionMeta} `{KL : !KubeLaws E K} h
    (r : M (World H E) SyncResult) :
  preserves update_frame h -> preserves frame r -> preserves frame (updating_guard h r).
Proof.
  intros Hh Hr w a w' Hrun. unfold updating_guard in Hrun. rewrite <- run_assoc in Hrun.
  apply bind_inv in Hrun as (o & w1 & Hg & Hrun). transitivity w1.
  - eapply preserves_while_updating; [exact Hh| |exact Hg]. solve_frame.
  - destruct (o.1); [by injection Hrun as _ <-|by eapply Hr].
Qed.

(** [solve_component] adds the steps to [solve_frame]. *)
Ltac component_step :=
  match goal with
  | |- preserves _ (server_guards _ _ _) => unfold server_guards
  | |- preserves _ (sync_server _ _ _ _) => unfold sync_server
  | |- preserves _ (local_update_guard _ _) => eapply @local_update_guard_preserves; [tc_solve| |]
  | |- preserves frame (updating_guard _ _) => eapply updating_guard_frame
  | |- preserves frame (GetClusterState ≫= _) => apply preserves_while_updating
  | |- preserves _ (updating_guard _ _) => eapply @updating_guard_preserves; [tc_solve| |]
  | |- preserves _ (await_running _ _) => eapply @await_running_preserves; [tc_solve| |]
  | |- preserves _ (await_all _ _) => eapply @await_all_preserves; [tc_solve| |]
  | |- preserves _ (await_ready _ _) => eapply @await_ready_preserves; [tc_solve| |]
  | |- preserves _ (pending _ _ _ _ _) => eapply @pending_preserves; [tc_solve| | |]
  | |- preserves _ (await_pods _ _) => eapply @await_pods_preserves; [tc_solve| |]
  | |- preserves _ ready => eapply @ready_preserves; tc_solve
  | |- preserves _ (act _ _) =>
      eapply @act_preserves; [tc_solve|first [discriminate|intros _]]
  | |- preserves _ (need_exists _) => unfold need_exists
  end.

Ltac solve_component :=
  repeat first [ component_step | frame_step | assumption
               | solve [ eauto with frame typeclass_instances ] ].

(** ** Dry and wet runs *)

Definition idle (s : SyncStatus) : Prop := s <> SyncStatusPending /\ s <> SyncStatusUpdating.

Section Agrees.
Context {H E : Type} `{K : Kube E} `{CM : ConditionMeta}.
Local Abbreviation W := (World H E).
Implicit Types dry wet rest : M W SyncResult.

Definition agrees dry wet : Prop :=
  forall w r w1, dry w = Some (r, w1) ->
    observes w w1 /\
    (idle (cst_SyncStatus r.1) -> wet w = Some (r, w1)) /\
    (forall r' w2, wet w = Some (r', w2) -> r'.2 = None -> cst_SyncStatus r'.1 = cst_SyncStatus r.1).

Lemma agrees_same m : preserves observes m -> agrees m m.
Proof.
  intros Hm w r w1 Hrun. split; [by eapply Hm|]. split; [done|]. intros r' w2 Hrun' _.
  rewrite Hrun in Hrun'. by injection Hrun' as -> ->.
Qed.

Lemma agrees_ret r : agrees (mret r) (mret r).
Proof. apply agrees_same, preserves_ret, _. Qed.

Lemma agrees_bind {A} (m : M W A) f g :
  preserves observes m -> (forall a, agrees (f a) (g a)) -> agrees (m ≫= f) (m ≫= g).
Proof.
  intros Hm Hfg w r w1 (a & wa & Ha & Hrun)%bind_inv.
  rewrite (bind_step _ _ _ _ _ Ha). destruct (Hfg a wa r w1 Hrun) as (Ho & Hi & Hs).
  split; [transitivity wa; [by eapply Hm|done]|]. split; [done|].
  intros r' w2. by apply Hs.
Qed.

Lemma agrees_assoc {A B} (m m' : M W A) (f f' : A -> M W B) g g' :
  agrees (m ≫= (fun a => f a ≫= g)) (m' ≫= (fun a => f' a ≫= g')) ->
  agrees ((m ≫= f) ≫= g) ((m' ≫= f') ≫= g').
Proof. intros Ha w r w1. rewrite !run_assoc. apply Ha. Qed.

(** An action, reported by a status that is not idle. *)
Lemma agrees_act st (s : M W error) :
  ~ idle (cst_SyncStatus st) ->
  agrees (err ← act true s; mret (st, err)) (err ← act false s; mret (st, err)).
Proof.
  intros Hni w r w1 Hrun. injection Hrun as <- <-. split; [reflexivity|]. split; [done|].
  intros r' w2 (e & we & _ & Hret)%bind_inv _. by injection Hret as <- <-.
Qed.

Lemma not_idle_pending ev : ~ idle (cst_SyncStatus (WaitingStatus SyncStatusPending ev)).
Proof. by intros [? _]. Qed.
Lemma not_idle_updating ev : ~ idle (cst_SyncStatus (WaitingStatus SyncStatusUpdating ev)).
Proof. by intros [_ ?]. Qed.

Lemma agrees_local_update_guard n dry wet :
  preserves observes n -> agrees dry wet ->
  agrees (local_update_guard n dry) (local_update_guard n wet).
Proof.
  intros Hn Ha. apply agrees_bind; [solve_frame|]. intros s.
  apply agrees_bind; [solve_frame|]. intros []; [apply agrees_ret|done].
Qed.

Lemma agrees_updating_guard u l (p : podsManager W) dry wet :
  agrees dry wet ->
  agrees (updating_guard (handleUpdatingClusterState u l p true) dry)
         (updating_guard (handleUpdatingClusterState u l p false) wet).
Proof.
  intros Ha. apply agrees_bind; [solve_frame|]. intros s. case_decide.
  - unfold handleUpdatingClusterState. apply agrees_assoc, agrees_bind; [solve_frame|].
    intros []; [|apply agrees_ret]. apply agrees_assoc, agrees_bind; [solve_frame|].
    intros us. case_decide; [|case_decide; [apply agrees_ret|done]].
    apply agrees_assoc. simpl. apply (agrees_act _ (removePods p l)), not_idle_updating.
  - done.
Qed.

Lemma agrees_server_guards c dry wet :
  ServerReads (lsc_server c) -> agrees dry wet ->
  agrees (server_guards c true dry) (server_guards c false wet).
Proof.
  intros Hs Ha. apply agrees_local_update_guard; [apply Hs|]. by apply agrees_updating_guard.
Qed.

Lemma agrees_await_running c dry wet :
  ComponentReads c -> agrees dry wet -> agrees (await_running c dry) (await_running c wet).
Proof.
  intros Hc Ha. apply agrees_bind; [apply Hc|]. intros [st []]; [apply agrees_ret|].
  destruct (IsRunningStatus _); [done|apply agrees_ret].
Qed.

Lemma agrees_await_ready c dry wet :
  ComponentReads c -> agrees dry wet -> agrees (await_ready c dry) (await_ready c wet).
Proof.
  intros Hc Ha. apply agrees_bind; [apply Hc|]. intros [st []]; [apply agrees_ret|].
  case_decide; [apply agrees_ret|done].
Qed.

Lemma agrees_pending n ev s dry wet :
  preserves observes n -> agrees dry wet ->
  agrees (pending n ev true s dry) (pending n ev false s wet).
Proof.
  intros Hn Ha. apply agrees_bind; [done|]. intros []; [|done].
  apply agrees_act, not_idle_pending.
Qed.

Lemma agrees_sync_server (srv : server W H) s dry wet :
  ServerReads srv -> agrees dry wet ->
  agrees (sync_server srv true s dry) (sync_server srv false s wet).
Proof. intros Hs Ha. apply agrees_pending; [solve_frame|done]. Qed.

Lemma agrees_await_pods n dry wet :
  preserves observes n -> agrees dry wet -> agrees (await_pods n dry) (await_pods n wet).
Proof. intros Hn Ha. apply agrees_bind; [done|]. intros []; [done|apply agrees_ret]. Qed.

(** Two ways of building the component agree with its [Status]. *)
Lemma agrees_reads dry wet : agrees dry wet -> preserves observes dry.
Proof. intros Ha w r w1 Hrun. by destruct (Ha w r w1 Hrun). Qed.
End Agrees.

Ltac solve_agrees :=
  repeat lazymatch goal with
  | |- agrees (server_guards _ _ _) _ => apply agrees_server_guards; [tc_solve|]
  | |- agrees (await_running _ _) _ => apply agrees_await_running; [tc_solve|]
  | |- agrees (await_ready _ _) _ => apply agrees_await_ready; [tc_solve|]
  | |- agrees (sync_server _ _ _ _) _ => apply agrees_sync_server; [tc_solve|]
  | |- agrees (pending _ _ _ _ _) _ => apply agrees_pending; [solve_component|]
  | |- agrees (await_pods _ _) _ => apply agrees_await_pods; [solve_component|]
  | |- agrees ready _ => apply agrees_ret
  | |- agrees (mret _) _ => apply agrees_ret
  end.

(** ** The interface of a component made of a [doSync] method *)

Section ComponentOf.
Context {H E : Type} `{K : Kube E} `{CM : ConditionMeta}.
Context `{KL : !KubeLaws E K} `{CL : !ConditionMetaLaws CM}.
Local Abbreviation W := (World H E).

Lemma component_of_laws name ty u l fetch (doSync : bool -> M W SyncResult) :
  preserves frame fetch -> (forall dry, preserves frame (doSync dry)) ->
  ComponentLaws (component_of name ty u l fetch doSync).
Proof. intros Hf Hs. split; simpl; [done| |done|]; intros; solve_frame. Qed.

Lemma server_guards_frame c dry (rest : M W SyncResult) :
  ServerLaws (lsc_server c) -> preserves frame rest -> preserves frame (server_guards c dry rest).
Proof. intros. solve_component. Qed.

Lemma sync_server_frame (srv : server W H) dry s (rest : M W SyncResult) :
  ServerLaws srv -> preserves frame s -> preserves frame rest ->
  preserves frame (sync_server srv dry s rest).
Proof. intros. solve_component. Qed.

Lemma component_of_reads name ty u l fetch (doSync : bool -> M W SyncResult) :
  preserves observes (doSync true) -> ComponentReads (component_of name ty u l fetch doSync).
Proof. done. Qed.
End ComponentOf.

#[export] Hint Resolve server_guards_frame sync_server_frame : frame.
