(* ===== verification/Nodes.v ===== *)
(** * The server components: discovery.go, data_node.go, master_caches.go,
    controller_agent.go, exec_node.go, exec_node_base.go

    The [doSync] methods of the components that are a server and at most wait
    for the master, with what they change in the stateful set they build. *)

From S2P Require Import Prelude GoPath Api Kube Conditions Labeller Proxy Component Resources ConfigHelper Server InitJob Observe ServerComponent.

(** ** Changing the pod template of a stateful set *)

Definition set_ss_podSpec (p : PodSpec) (ss : StatefulSet) : StatefulSet :=
  mkStatefulSet (ss_ObjectMeta ss) (ss_PodManagementPolicy ss) (ss_Selector ss) (ss_Replicas ss)
    (ss_ServiceName ss) (ss_VolumeClaimTemplates ss)
    (mkPodTemplateSpec (pt_ObjectMeta (ss_Template ss)) p).

Definition ss_podSpec (ss : StatefulSet) : PodSpec := pt_Spec (ss_Template ss).

Definition set_ps_Affinity (a : option Affinity) (p : PodSpec) : PodSpec :=
  mkPodSpec (ps_RuntimeClassName p) (ps_ImagePullSecrets p) (ps_SetHostnameAsFQDN p)
    (ps_EnableServiceLinks p) (ps_TerminationGracePeriodSeconds p) (ps_Containers p)
    (ps_InitContainers p) (ps_Volumes p) a (ps_NodeSelector p)
    (ps_Tolerations p) (ps_HostNetwork p) (ps_DNSPolicy p) (ps_RestartPolicy p).

Definition defaultHostAddressLabel : string := "kubernetes.io/hostname".

Section Nodes.
Context {H E : Type} `{K : Kube E} `{CM : ConditionMeta}.
Local Abbreviation W := (World H E).

(** Assigning to the pod specification of a stateful set in the heap. *)
Definition update_podSpec (ss : Ref H StatefulSet) (f : PodSpec -> PodSpec) : M W unit :=
  o ← read ss;
  write ss (set_ss_podSpec (f (ss_podSpec o)) o).

(** [AddAffinity] on a stateful set.  (The affinity of the template is the
    pointer of the instance specification; both are dropped with the
    reconciliation, in which nothing reads it again.) *)
Definition AddAffinity_to (ss : Ref H StatefulSet) (key : string) (values : list string) : M W unit :=
  update_podSpec ss (fun p => set_ps_Affinity (AddAffinity (ps_Affinity p) key values) p).

(** ** discovery.go *)

Definition Discovery_doSync (d : localServerComponent W H) (dry : bool) : M W SyncResult :=
  server_guards d dry
  (sync_server (lsc_server d) dry (sv_Sync (lsc_server d))
  (await_pods (pm_arePodsReady (sv_pods (lsc_server d)))
   ready)).

Definition Discovery (d : localServerComponent W H) : Component W :=
  component_of (lb_ComponentName (lsc_labeller d)) DiscoveryType true (lsc_labeller d)
    (in_order [sv_Fetch (lsc_server d)]) (Discovery_doSync d).

(** ** data_node.go and controller_agent.go: a server that waits for a master *)

Record serverWithMaster := mkServerWithMaster {
  swm_base : localServerComponent W H;
  swm_master : Component W;
}.

Definition DataNode_doSync (n : serverWithMaster) (dry : bool) : M W SyncResult :=
  server_guards (swm_base n) dry
  (await_running (swm_master n)
  (sync_server (lsc_server (swm_base n)) dry (sv_Sync (lsc_server (swm_base n)))
  (await_pods (pm_arePodsReady (sv_pods (lsc_server (swm_base n))))
   ready))).

Definition DataNode (n : serverWithMaster) : Component W :=
  component_of (lb_ComponentName (lsc_labeller (swm_base n))) DataNodeType true
    (lsc_labeller (swm_base n)) (in_order [sv_Fetch (lsc_server (swm_base n))]) (DataNode_doSync n).

Definition ControllerAgent_doSync (ca : serverWithMaster) (dry : bool) : M W SyncResult :=
  server_guards (swm_base ca) dry
  (await_running (swm_master ca)
  (sync_server (lsc_server (swm_base ca)) dry (sv_Sync (lsc_server (swm_base ca)))
  (await_pods (pm_arePodsReady (sv_pods (lsc_server (swm_base ca))))
   ready))).

Definition ControllerAgent (ca : serverWithMaster) : Component W :=
  component_of (lb_ComponentName (lsc_labeller (swm_base ca))) ControllerAgentType true
    (lsc_labeller (swm_base ca)) (in_order [sv_Fetch (lsc_server (swm_base ca))])
    (ControllerAgent_doSync ca).

(** ** master_caches.go *)

(** The specification is a pointer, nil when there are no master caches. *)
Definition MasterCaches : M W (option MasterCachesSpec) :=
  gets (fun w => sp_MasterCaches (yt_Spec (resource w))).

Definition MasterCache_getHostAddressLabel : M W string :=
  spec ← MasterCaches;
  match spec with
  | None => panic
  | Some masterCachesSpec =>
      mret (if decide (mc_HostAddressLabel masterCachesSpec <> "")
            then mc_HostAddressLabel masterCachesSpec else defaultHostAddressLabel)
  end.

Definition MasterCache_doServerSync (mc : localServerComponent W H) : M W error :=
  statefulSet ← sv_buildStatefulSet (lsc_server mc);
  spec ← MasterCaches;
  match spec with
  | None => panic
  | Some masterCachesSpec =>
      _ ← (if decide (length (mc_HostAddresses masterCachesSpec) <> 0) then
             label ← MasterCache_getHostAddressLabel;
             AddAffinity_to statefulSet label (mc_HostAddresses masterCachesSpec)
           else mret tt);
      sv_Sync (lsc_server mc)
  end.

Definition MasterCache_doSync (mc : localServerComponent W H) (dry : bool) : M W SyncResult :=
  server_guards mc dry
  (sync_server (lsc_server mc) dry (MasterCache_doServerSync mc)
  (await_pods (pm_arePodsReady (sv_pods (lsc_server mc)))
   ready)).

Definition MasterCache (mc : localServerComponent W H) : Component W :=
  component_of (lb_ComponentName (lsc_labeller mc)) MasterCacheType true (lsc_labeller mc)
    (in_order [sv_Fetch (lsc_server mc)]) (MasterCache_doSync mc).
End Nodes.

(** ** exec_node_base.go *)

Definition JobsContainerName : string := "jobs".
Definition ContainerdConfigVolumeName : string := "config-containerd".
Definition ContainerdConfigMountPoint : string := "/config/containerd".
Definition ContainerdSocketName : string := "containerd.sock".
Definition ContainerdConfigFileName : string := "containerd.toml".

(** [IsJobEnvironmentIsolated]. *)
Definition IsJobEnvironmentIsolated (spec : ExecNodesSpec) : bool :=
  match en_JobEnvironment spec with
  | None => false
  | Some envSpec =>
      match je_Isolated envSpec with
      | Some isolated => isolated
      | None => match je_CRI envSpec with Some _ => true | None => false end
      end
  end.

(** [ytconfig.GetContainerdSocketPath]. *)
Definition GetContainerdSocketPath (spec : ExecNodesSpec) : string :=
  match FindFirstLocation (is_Locations (en_InstanceSpec spec)) LocationTypeImageCache with
  | Some location => path_Join [loc_Path location; ContainerdSocketName]
  | None => path_Join [ConfigMountPoint; ContainerdSocketName]
  end.

Definition set_ct_Env (v : list EnvVar) (c : Container) : Container :=
  mkContainer (ct_Image c) (ct_Name c) (ct_Command c) (ct_Args c) v (ct_EnvFrom c)
    (ct_VolumeMounts c) (ct_Ports c) (ct_Resources c) (ct_ReadinessProbe c) (ct_Privileged c).
Definition set_ct_Resources (v : ResourceRequirements) (c : Container) : Container :=
  mkContainer (ct_Image c) (ct_Name c) (ct_Command c) (ct_Args c) (ct_Env c) (ct_EnvFrom c)
    (ct_VolumeMounts c) (ct_Ports c) v (ct_ReadinessProbe c) (ct_Privileged c).
Definition set_ct_Privileged (v : option bool) (c : Container) : Container :=
  mkContainer (ct_Image c) (ct_Name c) (ct_Command c) (ct_Args c) (ct_Env c) (ct_EnvFrom c)
    (ct_VolumeMounts c) (ct_Ports c) (ct_Resources c) (ct_ReadinessProbe c) v.

Definition setContainerPrivileged (spec : ExecNodesSpec) (ct : Container) : Container :=
  match ct_Privileged ct with
  | None => set_ct_Privileged (Some (en_Privileged spec)) ct
  | Some _ => ct
  end.

Definition addEnvironmentForCRITools (spec : ExecNodesSpec) (container : Container) : Container :=
  let socketPath := GetContainerdSocketPath spec in
  set_ct_Env
    (ct_Env container ++
       [mkEnvVar "CONTAINERD_ADDRESS" socketPath None;
        mkEnvVar "CONTAINERD_NAMESPACE" "k8s.io" None;
        mkEnvVar "CONTAINER_RUNTIME_ENDPOINT" ("unix://" +:+ socketPath)%string None])
    container.

(** [addResourceList(list, newList)]: quantities are added; writing into a nil
    map panics ([None]). *)
Definition addResourceList (list_ newList : option (gmap string Quantity))
    : option (option (gmap string Quantity)) :=
  let new := default ∅ newList in
  if decide (new = ∅) then Some list_
  else match list_ with
       | None => None
       | Some l => Some (Some (union_with (fun a b => Some (a + b)%Z) l new))
       end.

(** Pouring the job resources into the node container. *)
Definition addJobResources (job node : ResourceRequirements) : option ResourceRequirements :=
  requests ← addResourceList (rr_Requests node) (rr_Requests job);
  limits ← addResourceList (rr_Limits node) (rr_Limits job);
  Some (mkResourceRequirements requests limits).

Definition containerd_mount : VolumeMount :=
  mkVolumeMount ContainerdConfigVolumeName ContainerdConfigMountPoint true None "".

(** The sidecar container of [doBuildCRISidecar]; [image] is that of the node
    container. *)
Definition CRISidecar (spec : ExecNodesSpec) (cri : CRIJobEnvironmentSpec) (image : string) : Container :=
  let configPath := path_Join [ContainerdConfigMountPoint; ContainerdConfigFileName] in
  let wrapper := match cri_EntrypointWrapper cri with [] => ["tini"; "--"] | w => w end in
  let mounts := createVolumeMounts (is_VolumeMounts (en_InstanceSpec spec)) ++ [containerd_mount] in
  let propagate m :=
    match vm_MountPropagation m with
    | Some prop =>
        if decide (prop = "Bidirectional") then
          mkVolumeMount (vm_Name m) (vm_MountPath m) (vm_ReadOnly m) (Some "HostToContainer") (vm_SubPath m)
        else m
    | None => m
    end in
  let resources :=
    match en_JobResources spec with
    | Some r => r
    | None => mkResourceRequirements None (rr_Limits (is_Resources (en_InstanceSpec spec)))
    end in
  addEnvironmentForCRITools spec
    (mkContainer image JobsContainerName (wrapper ++ ["containerd"]) ["--config"; configPath] [] []
       (propagate <$> mounts) [] resources None (Some true)).

(** What [doBuildBase] does to the pod specification once the containers of
    the specification are added; [sidecar] tells whether the node has a
    sidecar configuration, under the given config map name. *)
Definition job_environment (spec : ExecNodesSpec) (sidecar : option string) (p : PodSpec)
    : option PodSpec :=
  let cri := match en_JobEnvironment spec with Some e => je_CRI e | None => None end in
  let tools c := match cri with Some _ => addEnvironmentForCRITools spec c | None => c end in
  let inits := setContainerPrivileged spec <$> ps_InitContainers p in
  let containers := (fun c => tools (setContainerPrivileged spec c)) <$> ps_Containers p in
  match containers with
  | [] => None
  | node :: others =>
      node ← (match en_JobResources spec with
              | Some r =>
                  if IsJobEnvironmentIsolated spec then Some node
                  else resources ← addJobResources r (ct_Resources node);
                       Some (set_ct_Resources resources node)
              | None => Some node
              end);
      let containers :=
        if IsJobEnvironmentIsolated spec then
          match cri with
          | Some cri => node :: others ++ [CRISidecar spec cri (ct_Image node)]
          | None => node :: others
          end
        else match sidecar with
             | Some _ => set_ct_VolumeMounts (ct_VolumeMounts node ++ [containerd_mount]) node :: others
             | None => node :: others
             end in
      let volumes :=
        match sidecar with
        | Some name => ps_Volumes p ++ [createConfigVolume ContainerdConfigVolumeName name None]
        | None => ps_Volumes p
        end in
      Some (set_ps_Volumes volumes (set_ps_InitContainers inits (set_ps_Containers containers p)))
  end.

(** [yaml.UnmarshalStrict] into a container. *)
Class ContainerYaml := container_UnmarshalStrict : string -> string + Container.

Record baseExecNode (W H : Type) := mkBaseExecNode {
  ben_server : server W H;
  ben_spec : ExecNodesSpec;
  ben_sidecarConfig : option (ConfigHelper H);
}.
Arguments ben_server {W H} _. Arguments ben_spec {W H} _. Arguments ben_sidecarConfig {W H} _.

Section ExecNode.
Context {H E : Type} `{K : Kube E} `{CM : ConditionMeta} `{CO : Codec} `{CY : ContainerYaml}.
Local Abbreviation W := (World H E).
Implicit Types n : baseExecNode W H.

(** A method of the sidecar configuration, skipped when it is nil. *)
Definition with_sidecar (h : option (ConfigHelper H)) (m : ConfigHelper H -> M W error)
    : list (M W error) :=
  match h with None => [] | Some h => [m h] end.

Definition baseExecNode_Fetch n : M W error :=
  in_order (sv_Fetch (ben_server n) :: with_sidecar (ben_sidecarConfig n) ConfigHelper_Fetch).

Definition doBuildBase n : M W error :=
  statefulSet ← sv_buildStatefulSet (ben_server n);
  o ← read statefulSet;
  let spec := ben_spec n in
  let podSpec := ss_podSpec o in
  if decide (length (ps_Containers podSpec) <> 1) then panic
  else
    let '(podSpec, err) :=
      AddInitContainersToPodSpec container_UnmarshalStrict (en_InitContainers spec) podSpec in
    match err with
    | Some _ => mret err
    | None =>
        let '(podSpec, err) :=
          AddSidecarsToPodSpec container_UnmarshalStrict (en_Sidecars spec) podSpec in
        _ ← update_podSpec statefulSet (fun _ => podSpec);
        match err with
        | Some _ => mret err
        | None =>
            let sidecar :=
              (fun h => GetSidecarConfigMapName (ch_labeller h) JobsContainerName)
                <$> ben_sidecarConfig n in
            match job_environment spec sidecar podSpec with
            | None => panic
            | Some podSpec =>
                _ ← update_podSpec statefulSet (fun _ => podSpec);
                match ben_sidecarConfig n with
                | None => mret None
                | Some h => _ ← ConfigHelper_Build h; mret None
                end
            end
        end
    end.

Definition doSyncBase n (dry : bool) : M W SyncResult :=
  if dry then mret (WaitingStatus SyncStatusPending "components", None)
  else
    err ← doBuildBase n;
    match err with
    | Some _ => mret (WaitingStatus SyncStatusBlocked "cannot build exec node spec", err)
    | None =>
        err ← in_order (sv_Sync (ben_server n) :: with_sidecar (ben_sidecarConfig n) ConfigHelper_Sync);
        mret (WaitingStatus SyncStatusPending "components", err)
    end.

(** ** exec_node.go *)

Record ExecNode := mkExecNode {
  exn_base : baseExecNode W H;
  exn_labeller : Labeller;
  exn_master : Component W;
}.

Definition ExecNode_doSync (n : ExecNode) (dry : bool) : M W SyncResult :=
  let srv := ben_server (exn_base n) in
  server_guards (mkLocalServerComponent W H (exn_labeller n) srv) dry
  (await_running (exn_master n)
  (need ← LocalServerNeedSync srv;
   if (need : bool) then doSyncBase (exn_base n) dry
   else await_pods (pm_arePodsReady (sv_pods srv)) ready)).

Definition ExecNode_component (n : ExecNode) : Component W :=
  component_of (lb_ComponentName (exn_labeller n)) ExecNodeType true (exn_labeller n)
    (baseExecNode_Fetch (exn_base n)) (ExecNode_doSync n).
End ExecNode.

(** ** The components keep the promises of the interface *)

Section NodeLaws.
Context {H E : Type} `{K : Kube E} `{CM : ConditionMeta} `{CO : Codec} `{CY : ContainerYaml}.
Context `{KL : !KubeLaws E K} `{CL : !ConditionMetaLaws CM}.
Local Abbreviation W := (World H E).

Lemma update_podSpec_quiet ss f : preserves quiet (update_podSpec ss f : M W unit).
Proof. unfold update_podSpec. solve_frame. Qed.

#[local] Hint Resolve update_podSpec_quiet : frame.

Lemma AddAffinity_to_quiet ss key values : preserves quiet (AddAffinity_to ss key values : M W unit).
Proof. unfold AddAffinity_to. solve_frame. Qed.

#[local] Hint Resolve AddAffinity_to_quiet : frame.

#[export] Instance Discovery_laws (d : localServerComponent W H) :
  ServerLaws (lsc_server d) -> ComponentLaws (Discovery d).
Proof. intros. apply component_of_laws; [solve_frame|]. intros. unfold Discovery_doSync. solve_component. Qed.

#[export] Instance DataNode_laws (n : serverWithMaster) :
  ServerLaws (lsc_server (swm_base n)) -> ComponentLaws (swm_master n) ->
  ComponentLaws (DataNode n : Component W).
Proof. intros. apply component_of_laws; [solve_frame|]. intros. unfold DataNode_doSync. solve_component. Qed.

#[export] Instance ControllerAgent_laws (n : serverWithMaster) :
  ServerLaws (lsc_server (swm_base n)) -> ComponentLaws (swm_master n) ->
  ComponentLaws (ControllerAgent n : Component W).
Proof. intros. apply component_of_laws; [solve_frame|]. intros. unfold ControllerAgent_doSync. solve_component. Qed.

#[export] Instance MasterCache_laws (mc : localServerComponent W H) :
  ServerLaws (lsc_server mc) -> ComponentLaws (MasterCache mc).
Proof.
  intros. apply component_of_laws; [solve_frame|]. intros. unfold MasterCache_doSync.
  solve_component. unfold MasterCache_doServerSync, MasterCache_getHostAddressLabel, MasterCaches.
  solve_component.
Qed.

Lemma doBuildBase_quiet (n : baseExecNode W H) :
  ServerLaws (ben_server n) -> preserves quiet (doBuildBase n).
Proof. intros. unfold doBuildBase. solve_frame. Qed.

#[local] Hint Resolve doBuildBase_quiet : frame.

#[export] Instance ExecNode_laws (n : ExecNode) :
  ServerLaws (ben_server (exn_base n)) -> ComponentLaws (exn_master n) ->
  ComponentLaws (ExecNode_component n : Component W).
Proof.
  intros. apply component_of_laws.
  - unfold baseExecNode_Fetch, with_sidecar. destruct (ben_sidecarConfig _); solve_frame.
  - intros dry. unfold ExecNode_doSync, doSyncBase, with_sidecar.
    destruct (ben_sidecarConfig _); solve_component.
Qed.
End NodeLaws.
