(* ===== verification/Proxies.v ===== *)
(** * The proxies: httpproxy.go, rpcproxy.go, tcpproxy.go

    Servers that wait for the master and own a balancing service. *)

From S2P Require Import Prelude Api Kube Conditions Labeller Proxy Component Resources ConfigHelper Server InitJob Observe ServerComponent Nodes Samples.

Section Proxies.
Context {H E : Type} `{K : Kube E} `{CM : ConditionMeta}.
Local Abbreviation W := (World H E).

(** [secret.AddVolume(&podSpec); secret.AddVolumeMount(&podSpec.Containers[0])];
    a stateful set without containers panics. *)
Definition mount_secret (ss : Ref H StatefulSet) (secret : option MountedVolume) : M W unit :=
  match secret with
  | None => mret tt
  | Some t =>
      o ← read ss;
      let p := ss_podSpec o in
      match ps_Containers p with
      | [] => panic
      | c :: cs =>
          update_podSpec ss (fun p => set_ps_Containers (AddVolumeMount t c :: cs) (AddVolume t p))
      end
  end.

(** [s := service.Build(); s.Spec.Type = type_]. *)
Definition set_service_type (svc : Ref H Service) (type_ : string) : M W unit :=
  s ← read svc;
  write svc (mkService (svc_ObjectMeta s) type_ (svc_ClusterIP s) (svc_Selector s) (svc_Ports s)).

(** ** httpproxy.go *)

(** [resources.HTTPService]. *)
Record HTTPService := mkHTTPService {
  hs_transport : HTTPTransportSpec;
  hs_httpNodePort : option Z;
  hs_httpsNodePort : option Z;
  hs_handle : Handle H KService;
}.

Record HttpProxy := mkHttpProxy {
  hpx_base : localServerComponent W H;
  hpx_serviceType : string;
  hpx_master : Component W;
  hpx_balancingService : HTTPService;
  hpx_httpsSecret : option MountedVolume;
}.

Definition HttpProxy_syncServer (hp : HttpProxy) : M W error :=
  let srv := lsc_server (hpx_base hp) in
  statefulSet ← sv_buildStatefulSet srv;
  _ ← mount_secret statefulSet (hpx_httpsSecret hp);
  sv_Sync srv.

Definition HttpProxy_syncService (hp : HttpProxy) : M W error :=
  let b := hpx_balancingService hp in
  s ← HTTPService_Build (lsc_labeller (hpx_base hp)) (hs_transport b) (hs_httpNodePort b)
        (hs_httpsNodePort b) (hs_handle b);
  _ ← set_service_type s (hpx_serviceType hp);
  Sync (hs_handle b).

Definition HttpProxy_doSync (hp : HttpProxy) (dry : bool) : M W SyncResult :=
  let srv := lsc_server (hpx_base hp) in
  let service := hs_handle (hpx_balancingService hp) in
  server_guards (hpx_base hp) dry
  (await_running (hpx_master hp)
  (sync_server srv dry (HttpProxy_syncServer hp)
  (pending (need_exists service) (hd_name service) dry (HttpProxy_syncService hp)
  (await_pods (pm_arePodsReady (sv_pods srv))
   ready)))).

Definition HttpProxy_component (hp : HttpProxy) : Component W :=
  component_of (lb_ComponentName (lsc_labeller (hpx_base hp))) HttpProxyType true
    (lsc_labeller (hpx_base hp))
    (in_order [sv_Fetch (lsc_server (hpx_base hp)); Fetch (hs_handle (hpx_balancingService hp))])
    (HttpProxy_doSync hp).

(** ** rpcproxy.go *)

Record RpcProxy := mkRpcProxy {
  rpx_base : localServerComponent W H;
  rpx_master : Component W;
  rpx_serviceType : option string;
  (** [resources.RPCService] with its node port; nil without a service type. *)
  rpx_balancingService : option (Handle H KService);
  rpx_nodePort : option Z;
  rpx_tlsSecret : option MountedVolume;
}.

Definition optional_fetch (s : option (Handle H KService)) : list (M W error) :=
  match s with None => [] | Some h => [Fetch h] end.

(** [if service != nil && !Exists(service) { ... }]. *)
Definition pending_service (service : option (Handle H KService)) (dry : bool)
    (sync : Handle H KService -> M W error) (rest : M W SyncResult) : M W SyncResult :=
  match service with
  | None => rest
  | Some h => pending (need_exists h) (hd_name h) dry (sync h) rest
  end.

Definition RpcProxy_syncServer (rp : RpcProxy) : M W error :=
  let srv := lsc_server (rpx_base rp) in
  statefulSet ← sv_buildStatefulSet srv;
  _ ← mount_secret statefulSet (rpx_tlsSecret rp);
  sv_Sync srv.

Definition RpcProxy_syncService (rp : RpcProxy) (service : Handle H KService) : M W error :=
  s ← RPCService_Build (lsc_labeller (rpx_base rp)) (rpx_nodePort rp) service;
  match rpx_serviceType rp with
  | None => panic
  | Some serviceType => _ ← set_service_type s serviceType; Sync service
  end.

Definition RpcProxy_doSync (rp : RpcProxy) (dry : bool) : M W SyncResult :=
  let srv := lsc_server (rpx_base rp) in
  server_guards (rpx_base rp) dry
  (await_running (rpx_master rp)
  (sync_server srv dry (RpcProxy_syncServer rp)
  (pending_service (rpx_balancingService rp) dry (RpcProxy_syncService rp)
  (await_pods (pm_arePodsReady (sv_pods srv))
   ready)))).

Definition RpcProxy_component (rp : RpcProxy) : Component W :=
  component_of (lb_ComponentName (lsc_labeller (rpx_base rp))) RpcProxyType true
    (lsc_labeller (rpx_base rp))
    (in_order (sv_Fetch (lsc_server (rpx_base rp)) :: optional_fetch (rpx_balancingService rp)))
    (RpcProxy_doSync rp).

(** ** tcpproxy.go *)

Record TcpProxy := mkTcpProxy {
  tpx_base : localServerComponent W H;
  tpx_master : Component W;
  (** [resources.TCPService] with its type and ports. *)
  tpx_balancingService : option (Handle H KService);
  tpx_serviceType : string;
  tpx_portCount : Z;
  tpx_minPort : Z;
}.

Definition TcpProxy_syncService (tp : TcpProxy) (service : Handle H KService) : M W error :=
  _ ← TCPService_Build (lsc_labeller (tpx_base tp)) (tpx_serviceType tp) (tpx_portCount tp)
        (tpx_minPort tp) service;
  Sync service.

Definition TcpProxy_doSync (tp : TcpProxy) (dry : bool) : M W SyncResult :=
  let srv := lsc_server (tpx_base tp) in
  server_guards (tpx_base tp) dry
  (await_running (tpx_master tp)
  (sync_server srv dry (sv_Sync srv)
  (pending_service (tpx_balancingService tp) dry (TcpProxy_syncService tp)
  (await_pods (pm_arePodsReady (sv_pods srv))
   ready)))).

Definition TcpProxy_component (tp : TcpProxy) : Component W :=
  component_of (lb_ComponentName (lsc_labeller (tpx_base tp))) TcpProxyType true
    (lsc_labeller (tpx_base tp))
    (in_order (sv_Fetch (lsc_server (tpx_base tp)) :: optional_fetch (tpx_balancingService tp)))
    (TcpProxy_doSync tp).
End Proxies.

(** ** The promises of the interface *)

Section ProxyLaws.
Context {H E : Type} `{K : Kube E} `{CM : ConditionMeta}.
Context `{KL : !KubeLaws E K} `{CL : !ConditionMetaLaws CM}.
Local Abbreviation W := (World H E).

Lemma mount_secret_quiet ss secret : preserves quiet (mount_secret ss secret : M W unit).
Proof. unfold mount_secret, update_podSpec. solve_frame. Qed.

Lemma set_service_type_quiet s t : preserves quiet (set_service_type s t : M W unit).
Proof. unfold set_service_type. solve_frame. Qed.

#[local] Hint Resolve mount_secret_quiet set_service_type_quiet : frame.

Lemma pending_service_frame s dry sync (rest : M W SyncResult) :
  (forall h, preserves frame (sync h)) -> preserves frame rest ->
  preserves frame (pending_service s dry sync rest).
Proof. intros. unfold pending_service. destruct s; solve_component. Qed.

#[export] Instance HttpProxy_laws (hp : HttpProxy) :
  ServerLaws (lsc_server (hpx_base hp)) -> ComponentLaws (hpx_master hp) ->
  ComponentLaws (HttpProxy_component hp : Component W).
Proof.
  intros. apply component_of_laws; [solve_frame|]. intros.
  unfold HttpProxy_doSync, HttpProxy_syncServer, HttpProxy_syncService. solve_component.
Qed.

#[export] Instance RpcProxy_laws (rp : RpcProxy) :
  ServerLaws (lsc_server (rpx_base rp)) -> ComponentLaws (rpx_master rp) ->
  ComponentLaws (RpcProxy_component rp : Component W).
Proof.
  intros. apply component_of_laws.
  - unfold optional_fetch. destruct (rpx_balancingService rp); solve_frame.
  - intros. unfold RpcProxy_doSync, RpcProxy_syncServer. solve_component.
    apply pending_service_frame; [|solve_component]. intros. unfold RpcProxy_syncService. solve_frame.
Qed.

#[export] Instance TcpProxy_laws (tp : TcpProxy) :
  ServerLaws (lsc_server (tpx_base tp)) -> ComponentLaws (tpx_master tp) ->
  ComponentLaws (TcpProxy_component tp : Component W).
Proof.
  intros. apply component_of_laws.
  - unfold optional_fetch. destruct (tpx_balancingService tp); solve_frame.
  - intros. unfold TcpProxy_doSync. solve_component.
    apply pending_service_frame; [|solve_component]. intros. unfold TcpProxy_syncService. solve_frame.
Qed.
End ProxyLaws.

(** ** Asking for the status is safe *)

Section Plain.
Context {H E : Type} `{K : Kube E} `{CM : ConditionMeta} `{CO : Codec} `{CY : ContainerYaml}.
Local Abbreviation W := (World H E).

(** The components that are a server with at most a master and a service;
    the server and the master are only known by their interfaces. *)
Inductive plain : (bool -> M W SyncResult) -> Prop :=
| plain_Discovery d : ServerReads (lsc_server d) -> plain (Discovery_doSync d)
| plain_DataNode n :
    ServerReads (lsc_server (swm_base n)) -> ComponentReads (swm_master n) -> plain (DataNode_doSync n)
| plain_ControllerAgent n :
    ServerReads (lsc_server (swm_base n)) -> ComponentReads (swm_master n) ->
    plain (ControllerAgent_doSync n)
| plain_MasterCache mc : ServerReads (lsc_server mc) -> plain (MasterCache_doSync mc)
| plain_ExecNode n :
    ServerReads (ben_server (exn_base n)) -> ComponentReads (exn_master n) -> plain (ExecNode_doSync n)
| plain_HttpProxy hp :
    ServerReads (lsc_server (hpx_base hp)) -> ComponentReads (hpx_master hp) ->
    plain (HttpProxy_doSync hp)
| plain_RpcProxy rp :
    ServerReads (lsc_server (rpx_base rp)) -> ComponentReads (rpx_master rp) ->
    plain (RpcProxy_doSync rp)
| plain_TcpProxy tp :
    ServerReads (lsc_server (tpx_base tp)) -> ComponentReads (tpx_master tp) ->
    plain (TcpProxy_doSync tp).

Lemma agrees_pending_service s sync (dry wet : M W SyncResult) :
  agrees dry wet -> agrees (pending_service s true sync dry) (pending_service s false sync wet).
Proof. intros. destruct s; simpl; [|done]. apply agrees_pending; [solve_component|done]. Qed.

Lemma agrees_doSyncBase n : agrees (doSyncBase n true) (doSyncBase n false : M W SyncResult).
Proof.
  intros w r w1 Hrun. injection Hrun as <- <-. split; [reflexivity|].
  split; [intros Hi; by apply not_idle_pending in Hi|].
  intros r' w2 (err & wa & _ & Hrun)%bind_inv Hok. destruct err as [msg|].
  - injection Hrun as <- <-. discriminate Hok.
  - apply bind_inv in Hrun as (err & wb & _ & Hret). by injection Hret as <- <-.
Qed.

Lemma plain_agrees doSync : plain doSync -> agrees (doSync true) (doSync false).
Proof.
  destruct 1; unfold Discovery_doSync, DataNode_doSync, ControllerAgent_doSync, MasterCache_doSync,
    ExecNode_doSync, HttpProxy_doSync, RpcProxy_doSync, TcpProxy_doSync; solve_agrees.
  - apply agrees_bind; [solve_frame|]. intros []; [apply agrees_doSyncBase|solve_agrees].
  - apply agrees_pending_service. solve_agrees.
  - apply agrees_pending_service. solve_agrees.
Qed.

(** C21. Asking a plain server component (discovery, data nodes, exec nodes,
    controller agents, master caches, and the HTTP, RPC and TCP proxies, whose
    work is done by their servers alone) for its status is safe and tells what
    [Sync] would do: the dry run leaves the resource and the memory alone and
    at most records events; if the status it reports is neither [Pending] nor
    [Updating], a wet run does exactly the same, so the manager misses nothing
    by not calling [Sync]; and a wet run without error reports that status. *)
Theorem status_faithful (doSync : bool -> M W SyncResult) (w : W) (st : ComponentStatus)
    (err : error) (w1 : W) (Hplain : plain doSync) (Hdry : doSync true w = Some ((st, err), w1)) :
  (resource w1 = resource w /\ heap w1 = heap w /\ rtc event_step (ext w) (ext w1)) /\
  (idle (cst_SyncStatus st) -> doSync false w = Some ((st, err), w1)) /\
  (forall st' w2, doSync false w = Some ((st', None), w2) -> cst_SyncStatus st' = cst_SyncStatus st).
Proof.
  destruct (plain_agrees _ Hplain w _ _ Hdry) as (Ho & Hi & Hs).
  split; [exact Ho|]. split; [exact Hi|]. intros st' w2 Hwet. by apply (Hs _ _ Hwet).
Qed.
End Plain.

Import RefKube RefMeta RefCodec.

Module PlainWitness.
Definition container_yaml : ContainerYaml := fun s => inl "not a container"%string.
Definition discovery : localServerComponent (World Server.Witness.heap_t YtsaurusStatus) Server.Witness.heap_t :=
  mkLocalServerComponent _ _ Server.Witness.labeller (serverImpl_server Server.Witness.server0).
(** The cluster of the server witness, running. *)
Definition running : World Server.Witness.heap_t YtsaurusStatus :=
  mkWorld (set_yt_Status (Samples.sample_Status ClusterStateRunning) (resource Server.Witness.live))
    (heap Server.Witness.live) (ext Server.Witness.live).
End PlainWitness.

Lemma status_faithful_witness :
  Discovery_doSync PlainWitness.discovery false PlainWitness.running =
  Some ((SimpleStatus SyncStatusReady, None), PlainWitness.running).
Proof.
  refine (proj1 (proj2 (@status_faithful _ _ _ _ _ PlainWitness.container_yaml
    (Discovery_doSync PlainWitness.discovery)
    PlainWitness.running (SimpleStatus SyncStatusReady) None PlainWitness.running _ _)) _).
  - apply plain_Discovery. apply serverImpl_reads.
  - vm_compute. reflexivity.
  - split; discriminate.
Defined.
