(* ===== verification/Names.v ===== *)
(** * Names and addresses: pkg/ytconfig/names.go, base_generator.go and the
    addresses of generator.go

    The names of the stateful sets, services and pods of a cluster are built
    from a short name, the role or name of the component, and the name of the
    cluster. *)

From S2P Require Import Prelude Api.

Local Open Scope string_scope.

Definition DefaultName : string := "default".
Definition DefaultHTTPProxyRole : string := "default".
Definition MasterRPCPort : Z := 9010.
Definition DiscoveryRPCPort : Z := 9020.
Definition YQLAgentRPCPort : Z := 9019.
Definition QueryTrackerRPCPort : Z := 9028.
Definition QueueAgentRPCPort : Z := 9030.

Record BaseGenerator := mkBaseGenerator {
  bg_Name : string;
  bg_Namespace : string;
  bg_clusterDomain : string;
  bg_commonSpec : CommonSpec;
  bg_masterConnectionSpec : MasterConnectionSpec;
  bg_masterInstanceCount : Z;
  bg_discoveryInstanceCount : Z;
  bg_dataNodesInstanceCount : Z;
  bg_masterCachesSpec : option MasterCachesSpec;
}.

Definition NewRemoteBaseGenerator (name namespace clusterDomain : string) (commonSpec : CommonSpec)
    (masterConnectionSpec : MasterConnectionSpec) (masterCachesSpec : option MasterCachesSpec)
    : BaseGenerator :=
  mkBaseGenerator name namespace clusterDomain commonSpec masterConnectionSpec 0 0 0 masterCachesSpec.

(** The sum of the instance counts of the data nodes is an [int32]. *)
Definition NewLocalBaseGenerator (ytsaurus : Ytsaurus) (clusterDomain : string) : BaseGenerator :=
  let spec := yt_Spec ytsaurus in
  mkBaseGenerator (yt_Name ytsaurus) (yt_Namespace ytsaurus) clusterDomain (sp_CommonSpec spec)
    (ms_MasterConnectionSpec (sp_PrimaryMasters spec))
    (is_InstanceCount (ms_InstanceSpec (sp_PrimaryMasters spec)))
    (is_InstanceCount (sp_Discovery spec))
    (fold_left (fun n dn => int32 (n + is_InstanceCount (dn_InstanceSpec dn))) (sp_DataNodes spec) 0%Z)
    (sp_MasterCaches spec).

(** [Generator]: the base generator and the resource. *)
Record Generator := mkGenerator {
  gen_base : BaseGenerator;
  gen_ytsaurus : Ytsaurus;
}.

Definition NewGenerator (ytsaurus : Ytsaurus) (clusterDomain : string) : Generator :=
  mkGenerator (NewLocalBaseGenerator ytsaurus clusterDomain) ytsaurus.

Section BaseNames.
Context (g : BaseGenerator).

Definition GetMaxReplicationFactor : Z := bg_dataNodesInstanceCount g.

Definition getName (shortName : string) : string :=
  if cs_UseShortNames (bg_commonSpec g) then shortName else shortName +:+ "-" +:+ bg_Name g.

Definition FormatComponentStringWithDefault (base name : string) : string :=
  if decide (name <> DefaultName) then base +:+ "-" +:+ name else base.

(** The loop [for i := 0; i < count; i++] over pod names. *)
Definition pod_names (statefulSet : string) (count : Z) : list string :=
  (fun i : nat => statefulSet +:+ "-" +:+ pretty (Z.of_nat i)) <$> seq 0 (Z.to_nat count).

Definition GetMastersStatefulSetName : string := getName "ms".
Definition GetDiscoveryStatefulSetName : string := getName "ds".
Definition GetMastersServiceName : string := getName "masters".
Definition GetDiscoveryServiceName : string := getName "discovery".
Definition GetMasterPodNames : list string :=
  pod_names GetMastersStatefulSetName (bg_masterInstanceCount g).
Definition GetDiscoveryPodNames : list string :=
  pod_names GetDiscoveryStatefulSetName (bg_discoveryInstanceCount g).

Definition GetDataNodesStatefulSetName (name : string) : string :=
  getName (FormatComponentStringWithDefault "dnd" name).
Definition GetDataNodesServiceName (name : string) : string :=
  getName (FormatComponentStringWithDefault "data-nodes" name).
Definition GetExecNodesStatefulSetName (name : string) : string :=
  getName (FormatComponentStringWithDefault "end" name).
Definition GetExecNodesServiceName (name : string) : string :=
  getName (FormatComponentStringWithDefault "exec-nodes" name).
Definition GetTabletNodesStatefulSetName (name : string) : string :=
  getName (FormatComponentStringWithDefault "tnd" name).
Definition GetTabletNodesServiceName (name : string) : string :=
  getName (FormatComponentStringWithDefault "tablet-nodes" name).

Definition GetMasterCachesStatefulSetName : string := getName "msc".
Definition GetMasterCachesServiceName : string := getName "master-caches".

(** A nil specification is dereferenced: [None]. *)
Definition GetMasterCachesPodNames : option (list string) :=
  match bg_masterCachesSpec g with
  | None => None
  | Some spec =>
      Some (pod_names GetMasterCachesStatefulSetName (is_InstanceCount (mc_InstanceSpec spec)))
  end.

(** ** Addresses: generator.go *)

Definition getMasterPodFqdnSuffix : string :=
  GetMastersServiceName +:+ "." +:+ bg_Namespace g +:+ ".svc." +:+ bg_clusterDomain g.

Definition getMasterAddresses : list string :=
  let hosts :=
    match mcs_HostAddresses (bg_masterConnectionSpec g) with
    | [] => (fun podName => podName +:+ "." +:+ getMasterPodFqdnSuffix) <$> GetMasterPodNames
    | hosts => hosts
    end in
  (fun host => host +:+ ":" +:+ pretty MasterRPCPort) <$> hosts.

(** [podName.service.namespace.svc.domain:port]. *)
Definition pod_address (service namespace : string) (port : Z) (podName : string) : string :=
  podName +:+ "." +:+ service +:+ "." +:+ namespace +:+ ".svc." +:+ bg_clusterDomain g +:+ ":" +:+ pretty port.

Definition getDiscoveryAddresses : list string :=
  pod_address GetDiscoveryServiceName (bg_Namespace g) DiscoveryRPCPort <$> GetDiscoveryPodNames.
End BaseNames.

Section Names.
Context (g : Generator).
Let b := gen_base g.
Let spec := yt_Spec (gen_ytsaurus g).
Let namespace := yt_Namespace (gen_ytsaurus g).

Definition GetYQLAgentStatefulSetName : string := getName b "yqla".
Definition GetYQLAgentServiceName : string := getName b "yql-agents".
Definition GetQueryTrackerStatefulSetName : string := getName b "qt".
Definition GetQueryTrackerServiceName : string := getName b "query-trackers".
Definition GetQueueAgentStatefulSetName : string := getName b "qa".
Definition GetQueueAgentServiceName : string := getName b "queue-agents".
Definition GetSchedulerStatefulSetName : string := getName b "sch".
Definition GetSchedulerServiceName : string := getName b "schedulers".
Definition GetStrawberryControllerHeadlessServiceName : string := getName b "strawberry".

Definition GetHTTPProxiesServiceName (role : string) : string :=
  getName b (FormatComponentStringWithDefault "http-proxies" role +:+ "-lb").
Definition GetHTTPProxiesHeadlessServiceName (role : string) : string :=
  getName b (FormatComponentStringWithDefault "http-proxies" role).
Definition GetHTTPProxiesStatefulSetName (role : string) : string :=
  getName b (FormatComponentStringWithDefault "hp" role).
Definition GetRPCProxiesStatefulSetName (role : string) : string :=
  getName b (FormatComponentStringWithDefault "rp" role).
Definition GetRPCProxiesServiceName (role : string) : string :=
  getName b (FormatComponentStringWithDefault "rpc-proxies" role +:+ "-lb").
Definition GetRPCProxiesHeadlessServiceName (role : string) : string :=
  getName b (FormatComponentStringWithDefault "rpc-proxies" role).
Definition GetTCPProxiesStatefulSetName (role : string) : string :=
  getName b (FormatComponentStringWithDefault "tp" role).
Definition GetTCPProxiesServiceName (role : string) : string :=
  getName b (FormatComponentStringWithDefault "tcp-proxies" role +:+ "-lb").
Definition GetTCPProxiesHeadlessServiceName (role : string) : string :=
  getName b (FormatComponentStringWithDefault "tcp-proxies" role).

(** [service.namespace.svc.domain]. *)
Definition service_address (service : string) : string :=
  service +:+ "." +:+ namespace +:+ ".svc." +:+ bg_clusterDomain b.

Definition GetHTTPProxiesServiceAddress (role : string) : string :=
  service_address (GetHTTPProxiesHeadlessServiceName role).
Definition GetStrawberryControllerServiceAddress : string :=
  service_address GetStrawberryControllerHeadlessServiceName.
Definition GetHTTPProxiesAddress (role : string) : string :=
  service_address (GetHTTPProxiesServiceName role).

(** The specifications are pointers; nil panics ([None]). *)
Definition GetQueryTrackerPodNames : option (list string) :=
  (fun s => pod_names GetQueryTrackerStatefulSetName (is_InstanceCount s)) <$> sp_QueryTrackers spec.
Definition GetYQLAgentPodNames : option (list string) :=
  (fun s => pod_names GetYQLAgentStatefulSetName (is_InstanceCount s)) <$> sp_YQLAgents spec.
Definition GetQueueAgentPodNames : option (list string) :=
  (fun s => pod_names GetQueueAgentStatefulSetName (is_InstanceCount s)) <$> sp_QueueAgents spec.

Definition GetYQLAgentAddresses : option (list string) :=
  (fun l : list string => pod_address b GetYQLAgentServiceName namespace YQLAgentRPCPort <$> l)
    <$> GetYQLAgentPodNames.
Definition GetQueryTrackerAddresses : option (list string) :=
  (fun l : list string => pod_address b GetQueryTrackerServiceName namespace QueryTrackerRPCPort <$> l)
    <$> GetQueryTrackerPodNames.
Definition GetQueueAgentAddresses : option (list string) :=
  (fun l : list string => pod_address b GetQueueAgentServiceName namespace QueueAgentRPCPort <$> l)
    <$> GetQueueAgentPodNames.
End Names.

(** ** The names of the stateful sets *)

(** NewControllerAgent (pkg/components/controller_agent.go) names its stateful
    set itself, without the name of the cluster. *)
Definition ControllerAgentsStatefulSetName : string := "ca".

(** The stateful sets of a cluster, one constructor for each call of
    [newServer]. *)
Inductive StatefulSetId :=
| SMasters | SDiscovery | SMasterCaches | SYQLAgents | SQueryTrackers | SQueueAgents | SSchedulers
| SControllerAgents
| SHTTPProxies (role : string) | SRPCProxies (role : string) | STCPProxies (role : string)
| SDataNodes (name : string) | SExecNodes (name : string) | STabletNodes (name : string).

#[export] Instance StatefulSetId_eq_dec : EqDecision StatefulSetId.
Proof. solve_decision. Defined.

Definition statefulSetName (g : Generator) (s : StatefulSetId) : string :=
  let b := gen_base g in
  match s with
  | SMasters => GetMastersStatefulSetName b
  | SDiscovery => GetDiscoveryStatefulSetName b
  | SMasterCaches => GetMasterCachesStatefulSetName b
  | SYQLAgents => GetYQLAgentStatefulSetName g
  | SQueryTrackers => GetQueryTrackerStatefulSetName g
  | SQueueAgents => GetQueueAgentStatefulSetName g
  | SSchedulers => GetSchedulerStatefulSetName g
  | SControllerAgents => ControllerAgentsStatefulSetName
  | SHTTPProxies role => GetHTTPProxiesStatefulSetName g role
  | SRPCProxies role => GetRPCProxiesStatefulSetName g role
  | STCPProxies role => GetTCPProxiesStatefulSetName g role
  | SDataNodes name => GetDataNodesStatefulSetName b name
  | SExecNodes name => GetExecNodesStatefulSetName b name
  | STabletNodes name => GetTabletNodesStatefulSetName b name
  end.

(** The short name and the suffix of a stateful set. *)
Definition id_base (s : StatefulSetId) : string :=
  match s with
  | SMasters => "ms" | SDiscovery => "ds" | SMasterCaches => "msc" | SYQLAgents => "yqla"
  | SQueryTrackers => "qt" | SQueueAgents => "qa" | SSchedulers => "sch" | SControllerAgents => "ca"
  | SHTTPProxies _ => "hp" | SRPCProxies _ => "rp" | STCPProxies _ => "tp"
  | SDataNodes _ => "dnd" | SExecNodes _ => "end" | STabletNodes _ => "tnd"
  end.
Definition id_suffix (s : StatefulSetId) : string :=
  match s with
  | SHTTPProxies r | SRPCProxies r | STCPProxies r | SDataNodes r | SExecNodes r | STabletNodes r => r
  | _ => DefaultName
  end.

Fixpoint dash_free (s : string) : bool :=
  match s with
  | EmptyString => true
  | String c s' => negb (bool_decide (c = Ascii.ascii_of_nat 45)) && dash_free s'
  end.

Lemma statefulSetName_format g s :
  s <> SControllerAgents ->
  statefulSetName g s =
  getName (gen_base g) (FormatComponentStringWithDefault (id_base s) (id_suffix s)).
Proof. by destruct s. Qed.

Lemma id_base_dash_free s : dash_free (id_base s) = true.
Proof. by destruct s. Qed.

Lemma id_ext s t : id_base s = id_base t -> id_suffix s = id_suffix t -> s = t.
Proof. destruct s, t; simpl; intros; congruence. Qed.

(** A dash-free prefix is determined by what follows it. *)
Lemma dash_split a b r s :
  dash_free a = true -> dash_free b = true -> a +:+ "-" +:+ r = b +:+ "-" +:+ s -> a = b /\ r = s.
Proof.
  revert b. induction a as [|c a IH]; intros [|d b]; simpl; intros Ha Hb Heq.
  - by injection Heq.
  - injection Heq as <- _. done.
  - injection Heq as -> _. done.
  - injection Heq as -> Heq. apply andb_true_iff in Ha as [_ Ha], Hb as [_ Hb].
    destruct (IH b Ha Hb Heq) as [-> ->]. done.
Qed.

Lemma dash_free_no_dash a b r : dash_free a = true -> a <> b +:+ "-" +:+ r.
Proof.
  revert b. induction a as [|c a IH]; intros [|d b]; simpl; try done.
  - intros Ha Heq. injection Heq as -> _. done.
  - intros [_ Ha]%andb_true_iff Heq. injection Heq as _ Heq. by apply (IH b).
Qed.

Lemma Format_inj a b r s :
  dash_free a = true -> dash_free b = true ->
  FormatComponentStringWithDefault a r = FormatComponentStringWithDefault b s -> a = b /\ r = s.
Proof.
  intros Ha Hb. unfold FormatComponentStringWithDefault. repeat case_decide; intros Heq.
  - by apply dash_split.
  - by destruct (dash_free_no_dash b a r Hb).
  - by destruct (dash_free_no_dash a b s Ha).
  - split; [done|]. destruct (decide (r = DefaultName)), (decide (s = DefaultName)); congruence.
Qed.

Lemma getName_inj g s t : getName g s = getName g t -> s = t.
Proof. unfold getName. destruct (cs_UseShortNames _); [done|]. apply string_app_inv_tail. Qed.

(** The set of the controller agents, which does not go through [getName]:
    a long name has a dash, a short one is the formatted one. *)
Lemma controller_agents_apart g s :
  s <> SControllerAgents -> statefulSetName g s <> ControllerAgentsStatefulSetName.
Proof.
  intros Hs Heq. rewrite statefulSetName_format in Heq by done. unfold getName in Heq.
  destruct (cs_UseShortNames _).
  - apply Hs, id_ext; change ControllerAgentsStatefulSetName with (FormatComponentStringWithDefault "ca" DefaultName) in Heq;
      by destruct (Format_inj _ _ _ _ (id_base_dash_free s) (eq_refl : dash_free "ca" = true) Heq).
  - by eapply (dash_free_no_dash ControllerAgentsStatefulSetName); [|symmetry; exact Heq].
Qed.

(** C25. No two stateful sets of a cluster share a name: whatever the roles
    and names of its proxies and nodes, with short names or with long ones;
    the set of the controller agents, called "ca" in every cluster, included. *)
Theorem statefulSetName_inj (g : Generator) : Inj (=) (=) (statefulSetName g).
Proof.
  intros s t Heq.
  destruct (decide (s = SControllerAgents)) as [->|Hs], (decide (t = SControllerAgents)) as [->|Ht]; [done|..].
  - by destruct (controller_agents_apart g t).
  - by destruct (controller_agents_apart g s).
  - rewrite !statefulSetName_format in Heq by done. apply getName_inj in Heq.
    destruct (Format_inj _ _ _ _ (id_base_dash_free s) (id_base_dash_free t) Heq). by apply id_ext.
Qed.

(** The services of the proxies, in contrast, can collide: for every role
    there is another role whose headless service has the name of the balancing
    service of the first ("lb" for the default role), for HTTP, RPC and TCP proxies. *)
Theorem proxy_services_collide (g : Generator) (role : string) :
  exists role', role' <> role /\
    GetHTTPProxiesServiceName g role = GetHTTPProxiesHeadlessServiceName g role' /\
    GetRPCProxiesServiceName g role = GetRPCProxiesHeadlessServiceName g role' /\
    GetTCPProxiesServiceName g role = GetTCPProxiesHeadlessServiceName g role'.
Proof.
  assert (forall r base, r <> DefaultName ->
    (base +:+ "-" +:+ r) +:+ "-lb" = base +:+ "-" +:+ (r +:+ "-lb")) as Hassoc.
  { intros r base _. induction base as [|c base IH]; [done|]. exact (f_equal (String c) IH). }
  destruct (decide (role = DefaultName)) as [->|Hr].
  { exists "lb". split; [discriminate|]. repeat split; reflexivity. }
  exists (role +:+ "-lb"). split.
  { intros Heq. apply (f_equal String.length) in Heq. rewrite string_length_app in Heq. simpl in Heq. lia. }
  assert (role +:+ "-lb" <> DefaultName) as Hlb.
  { intros Heq. do 8 (destruct role as [|? role]; [discriminate Heq|]). discriminate Heq. }
  unfold GetHTTPProxiesServiceName, GetHTTPProxiesHeadlessServiceName, GetRPCProxiesServiceName,
    GetRPCProxiesHeadlessServiceName, GetTCPProxiesServiceName, GetTCPProxiesHeadlessServiceName,
    FormatComponentStringWithDefault.
  rewrite !(decide_True (P:=role <> DefaultName)), !(decide_True (P:=role +:+ "-lb" <> DefaultName)) by done.
  by rewrite !Hassoc.
Qed.
