(* ===== verification/YtApi.v ===== *)
(** * The YT client and the helpers built on it: pkg/components/helpers.go,
    user.go

    go.ytsaurus.tech/yt/go is a library outside the repository: its client is
    the class [Yt], whose operations read and change the outside [E].  Reads
    are typed by the Go variable they are decoded into. *)

From S2P Require Import Prelude Float Api Kube Conditions Labeller Proxy Component Resources ConfigHelper Server InitJob CellId.

(** ** Values *)

(** The attributes, documents and configurations the operator writes. *)
Inductive YtValue :=
| YBool (b : bool)
| YInt (n : Z)
| YString (s : string)
| YList (l : list YtValue)
| YMap (m : list (string * YtValue))
| YFloat (f : float)
| YEntity
(** [yson.RawValue]: text that is already YSON. *)
| YRaw (s : string).

(** ytsaurus_client.go: what is read from the masters and the bundles. *)
Record TabletCellBundleHealth := mkTabletCellBundleHealth {
  tch_Name : string;
  tch_Health : string;
}.

Record MasterInfo := mkMasterInfo {
  mi_CellID : string;
  mi_Addresses : list string;
}.

(** [MasterState]: a string with two known values. *)
Abbreviation MasterState := string (only parsing).
Definition MasterStateLeading : MasterState := "leading"%string.
Definition MasterStateFollowing : MasterState := "following"%string.

Record MasterHydra := mkMasterHydra {
  mh_ReadOnly : bool;
  mh_LastSnapshotReadOnly : bool;
  mh_Active : bool;
  mh_State : MasterState;
}.

Inductive NodeType :=
| TInt | TString | TMaster | TMasters | THydra | TBundleHealth | TBundleInfo | TAttributes.

Definition node_type (t : NodeType) : Type :=
  match t with
  | TInt => Z
  | TString => string
  | TMaster => MasterInfo
  | TMasters => list MasterInfo
  | THydra => MasterHydra
  | TBundleHealth => TabletCellBundleHealth
  | TBundleInfo => TabletCellBundleInfo
  | TAttributes => list (string * YtValue)
  end.

(** ** The client *)

Class Yt (E : Type) := {
  (** [GetNode] into a variable of the type; the flag is
      [getReadOnlyGetOptions], which skips the synchronisation of the cell. *)
  yt_GetNode : forall t, string -> bool -> E -> string + node_type t;
  yt_ListNode : forall t, string -> list string -> E -> string + list (node_type t);
  yt_NodeExists : string -> E -> string + bool;
  yt_SetNode : string -> YtValue -> E -> error * E;
  yt_RemoveNode : string -> E -> error * E;
  (** type, attributes, IgnoreExisting *)
  yt_CreateObject : string -> list (string * YtValue) -> bool -> E -> error * E;
  (** path, type, attributes, Recursive, IgnoreExisting *)
  yt_CreateNode : string -> string -> list (string * YtValue) -> bool -> bool -> E -> error * E;
  yt_AddMember : string -> string -> E -> error * E;
  (** WaitForSnapshotCompletion, SetReadOnly *)
  yt_BuildMasterSnapshots : bool -> bool -> E -> error * E;
  (** [ythttp.NewClient]: proxy, token, DisableProxyDiscovery *)
  ythttp_NewClient : string -> string -> bool -> E -> error;
  os_LookupEnv : string -> E -> option string;
  (** [sha256.New(); Write; Sum], printed with [%x]. *)
  sha256_hex : string -> string;
}.

(** The YT client knows nothing of the Kubernetes resource. *)
Class YtLaws (E : Type) (K : Kube E) (KL : KubeLaws E K) (Y : Yt E) := {
  yt_set_persisted : forall p v e, persisted (yt_SetNode p v e).2 = persisted e;
  yt_remove_persisted : forall p e, persisted (yt_RemoveNode p e).2 = persisted e;
  yt_object_persisted : forall t a i e, persisted (yt_CreateObject t a i e).2 = persisted e;
  yt_node_persisted : forall p t a r i e, persisted (yt_CreateNode p t a r i e).2 = persisted e;
  yt_member_persisted : forall g m e, persisted (yt_AddMember g m e).2 = persisted e;
  yt_snapshots_persisted : forall a b e, persisted (yt_BuildMasterSnapshots a b e).2 = persisted e;
}.

(** ** helpers.go *)

Section Helpers.
Context {H E : Type} `{K : Kube E} `{Y : Yt E}.
Local Abbreviation W := (World H E).

Definition GetNode (t : NodeType) (path : string) (readOnly : bool) : M W (string + node_type t) :=
  gets (fun w => yt_GetNode t path readOnly (ext w)).
Definition ListNode (t : NodeType) (path : string) (attributes : list string)
    : M W (string + list (node_type t)) :=
  gets (fun w => yt_ListNode t path attributes (ext w)).

(** The loop [for i := init; i < count; i++] over [n = count - init] cells. *)
Fixpoint create_cells (bundle : string) (n : nat) : M W error :=
  match n with
  | 0 => mret None
  | S n =>
      err ← outside (yt_CreateObject "tablet_cell" [("tablet_cell_bundle", YString bundle)] false);
      match err with
      | Some _ => mret err
      | None => create_cells bundle n
      end
  end.

Definition tablet_cell_count_path (bundle : string) : string :=
  ("//sys/tablet_cell_bundles/" +:+ bundle +:+ "/@tablet_cell_count")%string.

Definition CreateTabletCells (bundle : string) (tabletCellCount : Z) : M W error :=
  r ← GetNode TInt (tablet_cell_count_path bundle) false;
  match r with
  | inl err => mret (Some err)
  | inr initTabletCellCount => create_cells bundle (Z.to_nat (tabletCellCount - initTabletCellCount))
  end.

Definition GetNotGoodTabletCellBundles : M W (string + list string) :=
  r ← ListNode TBundleHealth "//sys/tablet_cell_bundles" ["health"];
  match r with
  | inl err => mret (inl err)
  | inr bundles =>
      mret (inr (tch_Name <$> filter (fun b => tch_Health b <> "good"%string) bundles))
  end.

(** The error of [AddMember] is ignored. *)
Definition CreateUser (userName token : string) (isSuperuser : bool) : M W error :=
  err ← outside (yt_CreateObject "user" [("name", YString userName)] true);
  match err with
  | Some _ => mret err
  | None =>
      err ← (if decide (token <> "") then
               let tokenPath := ("//sys/cypress_tokens/" +:+ sha256_hex token)%string in
               err ← outside (yt_CreateNode tokenPath "map_node" [] false true);
               match err with
               | Some _ => mret err
               | None => outside (yt_SetNode (tokenPath +:+ "/@user")%string (YString userName))
               end
             else mret None);
      match err with
      | Some _ => mret err
      | None =>
          _ ← (if isSuperuser then outside (yt_AddMember "superusers" userName) else mret None);
          mret None
      end
  end.

(** ** user.go *)

Definition createUserCommand (userName password token : string) (isSuperuser : bool) : list string :=
  [("/usr/bin/yt create user --attributes '{name=" +:+ DQ +:+ userName +:+ DQ +:+
      "}' --ignore-existing")%string] ++
  (if decide (password <> "") then
     [("/usr/bin/yt execute set_user_password '{user=" +:+ userName +:+ ";new_password_sha256=" +:+
         DQ +:+ sha256_hex password +:+ DQ +:+ "}'")%string]
   else []) ++
  (if decide (token <> "") then
     [("/usr/bin/yt create map_node '//sys/cypress_tokens/" +:+ sha256_hex token +:+
         "' --ignore-existing")%string;
      ("/usr/bin/yt set '//sys/cypress_tokens/" +:+ sha256_hex token +:+ "/@user' '" +:+ userName +:+
         "'")%string]
   else []) ++
  (if isSuperuser then ["/usr/bin/yt add-member " +:+ userName +:+ " superusers || true"]%string else []).
End Helpers.
