(* ===== verification/Yson.v ===== *)
(** * Results of the configuration generators and their YSON

    A generator may panic, return an error, or return a value.  The
    configurations are Go structs, which go.ytsaurus.tech/yt/go/yson marshals
    by their field tags: the functions [yson_...] give the document of a
    struct, field by field, and the library's writer of documents is the class
    [YsonPretty]. *)

From S2P Require Import Prelude Float Api YtApi.

(** ** Panics and errors *)

(** [None] is a panic, [inl] an error. *)
Definition Res (A : Type) : Type := option (string + A).

Definition ok {A} (a : A) : Res A := Some (inr a).
Definition fail {A} (err : string) : Res A := Some (inl err).
Definition res_bind {A B} (m : Res A) (f : A -> Res B) : Res B :=
  match m with
  | None => None
  | Some (inl err) => Some (inl err)
  | Some (inr a) => f a
  end.
(** Dereferencing a pointer, or a call that may only panic. *)
Definition deref {A} (o : option A) : Res A := match o with None => None | Some a => ok a end.

Declare Scope res_scope.
Delimit Scope res_scope with res.
Notation "'let*' x := m 'in' k" := (res_bind m (fun x => k))
  (at level 10, x binder, m at level 100, k at level 200) : res_scope.
Local Open Scope res_scope.

(** [m] returns a value that satisfies [P]. *)
Definition returns {A} (m : Res A) (P : A -> Prop) : Prop := exists a, m = ok a /\ P a.

Lemma returns_ok {A} (a : A) (P : A -> Prop) : P a -> returns (ok a) P.
Proof. by exists a. Qed.

Lemma returns_bind {A B} (m : Res A) (f : A -> Res B) (P : A -> Prop) Q :
  returns m P -> (forall a, P a -> returns (f a) Q) -> returns (res_bind m f) Q.
Proof. intros (a & -> & Ha) Hf. exact (Hf a Ha). Qed.

Lemma returns_mono {A} (m : Res A) (P Q : A -> Prop) :
  returns m P -> (forall a, P a -> Q a) -> returns m Q.
Proof. intros (a & -> & Ha) Hi. exists a. auto. Qed.

(** ** Documents *)

(** [yson.MarshalFormat(v, yson.FormatPretty)]. *)
Class YsonPretty := yson_MarshalFormat : YtValue -> string + string.

Definition marshallYsonConfig `{YsonPretty} (c : YtValue) : Res string := Some (yson_MarshalFormat c).

(** A field of a struct, and the fields tagged [omitempty]. *)
Definition fields : Type := list (string * YtValue).

Definition field (tag : string) (v : YtValue) : fields := [(tag, v)].
Definition opt {A} (tag : string) (f : A -> YtValue) (o : option A) : fields :=
  match o with None => [] | Some a => [(tag, f a)] end.
Definition opt_string (tag s : string) : fields :=
  if decide (s = ""%string) then [] else [(tag, YString s)].
Definition opt_int (tag : string) (n : Z) : fields :=
  if decide (n = 0%Z) then [] else [(tag, YInt n)].
Definition opt_bool (tag : string) (b : bool) : fields := if b then [(tag, YBool b)] else [].
Definition opt_list {A} (tag : string) (f : A -> YtValue) (l : list A) : fields :=
  match l with [] => [] | _ => [(tag, YList (f <$> l))] end.

(** A slice, a nil pointer without [omitempty], a duration in milliseconds. *)
Definition yson_list {A} (f : A -> YtValue) (l : list A) : YtValue := YList (f <$> l).
Definition yson_pointer {A} (f : A -> YtValue) (o : option A) : YtValue :=
  match o with None => YEntity | Some a => f a end.
Definition yson_strings (l : list string) : YtValue := yson_list YString l.

(** Looking up a path of keys in a document. *)
Fixpoint document_at (path : list string) (v : YtValue) : option YtValue :=
  match path with
  | [] => Some v
  | k :: path =>
      match v with
      | YMap m => list_find (fun p => p.1 = k) m ≫= fun p => document_at path p.2.2
      | _ => None
      end
  end.
