(* ===== verification/Logging.v ===== *)
(** * Loggers: pkg/ytconfig/logging.go and [createLogging] of common.go

    Every logger of a specification adds a rule and the writer the rule names;
    the writers are a map from names, written in the order of the names. *)

From S2P Require Import Prelude GoPath Float Api YtApi Yson.

Local Open Scope string_scope.
Local Open Scope list_scope.

(** ** Defaults *)

Definition defaultLoggerSpec (name : string) (level : LogLevel) (type_ : LogWriterType) : TextLoggerSpec :=
  mkTextLoggerSpec (mkBaseLoggerSpec name LogFormatPlainText level LogCompressionNone false None) type_ None.

Definition defaultStderrLoggerSpec : TextLoggerSpec := defaultLoggerSpec "stderr" LogLevelError LogWriterTypeStderr.
Definition defaultDebugLoggerSpec : TextLoggerSpec := defaultLoggerSpec "debug" LogLevelDebug LogWriterTypeFile.
Definition defaultInfoLoggerSpec : TextLoggerSpec := defaultLoggerSpec "info" LogLevelInfo LogWriterTypeFile.

Definition LogLevel_string (l : LogLevel) : string :=
  match l with
  | LogLevelTrace => "trace" | LogLevelDebug => "debug" | LogLevelInfo => "info"
  | LogLevelWarning => "warning" | LogLevelError => "error" | LogLevelOther s => s
  end.
Definition LogWriterType_string (t : LogWriterType) : string :=
  match t with LogWriterTypeFile => "file" | LogWriterTypeStderr => "stderr" | LogWriterTypeOther s => s end.
Definition LogFormat_string (f : LogFormat) : string :=
  match f with
  | LogFormatPlainText => "plain_text" | LogFormatYson => "yson" | LogFormatJson => "json"
  | LogFormatOther s => s
  end.
Definition LogCompression_string (c : LogCompression) : string :=
  match c with
  | LogCompressionNone => "none" | LogCompressionGzip => "gzip" | LogCompressionZstd => "zstd"
  | LogCompressionOther s => s
  end.

Inductive LogFamily := LogFamilyPlainText | LogFamilyStructured.
Definition LogFamily_string (f : LogFamily) : string :=
  match f with LogFamilyPlainText => "plain_text" | LogFamilyStructured => "structured" end.

(** ** The logging configuration *)

Record LoggingRule := mkLoggingRule {
  lr_ExcludeCategories : list string;
  lr_IncludeCategories : list string;
  lr_MinLevel : LogLevel;
  lr_Writers : list string;
  lr_Family : option LogFamily;
}.

(** ytconfig's [LogRotationPolicy]: numbers of bytes instead of quantities. *)
Record WriterRotationPolicy := mkWriterRotationPolicy {
  rp_RotationPeriodMilliseconds : option Z;
  rp_MaxSegmentSize : option Z;
  rp_MaxTotalSizeToKeep : option Z;
  rp_MaxSegmentCountToKeep : option Z;
}.

Record LoggingWriter := mkLoggingWriter {
  lw_WriterType : LogWriterType;
  lw_FileName : string;
  lw_Format : LogFormat;
  lw_CompressionMethod : string;
  lw_EnableCompression : bool;
  lw_UseTimestampSuffix : bool;
  lw_EnableSystemMessages : bool;
  lw_RotationPolicy : option WriterRotationPolicy;
}.

(** The writers are a Go map. *)
Record Logging := mkLogging {
  lg_Writers : gmap string LoggingWriter;
  lg_Rules : list LoggingRule;
  lg_FlushPeriod : Z;
}.

Record loggingBuilder := mkLoggingBuilder {
  lgb_loggingDirectory : string;
  lgb_componentName : string;
  lgb_logging : Logging;
}.

Definition newLoggingBuilder (location : option LocationSpec) (componentName : string) : loggingBuilder :=
  mkLoggingBuilder (match location with Some l => loc_Path l | None => "/var/log" end) componentName
    (mkLogging ∅ [] 0).

Definition newJobProxyLoggingBuilder : loggingBuilder :=
  mkLoggingBuilder "" "job-proxy" (mkLogging ∅ [] 0).

Definition createBaseLoggingRule (spec : BaseLoggerSpec) : LoggingRule :=
  mkLoggingRule [] [] (bl_MinLogLevel spec) [bl_Name spec] None.

Definition createLoggingRule (spec : TextLoggerSpec) : LoggingRule :=
  let rule := createBaseLoggingRule (tl_BaseLoggerSpec spec) in
  let '(exclude, include) :=
    match tl_CategoriesFilter spec with
    | None => (lr_ExcludeCategories rule, lr_IncludeCategories rule)
    | Some filter =>
        match cf_Type filter with
        | CategoriesFilterTypeExclude => (lr_ExcludeCategories rule ++ cf_Values filter, lr_IncludeCategories rule)
        | CategoriesFilterTypeInclude => (lr_ExcludeCategories rule, lr_IncludeCategories rule ++ cf_Values filter)
        | CategoriesFilterTypeOther _ => (lr_ExcludeCategories rule, lr_IncludeCategories rule)
        end
    end in
  mkLoggingRule exclude include (lr_MinLevel rule) (lr_Writers rule) (Some LogFamilyPlainText).

Definition createStructuredLoggingRule (spec : StructuredLoggerSpec) : LoggingRule :=
  let rule := createBaseLoggingRule (sl_BaseLoggerSpec spec) in
  mkLoggingRule (lr_ExcludeCategories rule) [sl_Category spec] (lr_MinLevel rule) (lr_Writers rule)
    (Some LogFamilyStructured).

(** [Value] and [AsApproximateFloat64] of [resource.Quantity], a type of
    k8s.io/apimachinery: a quantity rounded up to a whole number, and as a
    float. *)
Class Quantities := {
  Quantity_Value : Quantity -> Z;
  AsApproximateFloat64 : Quantity -> float;
}.

Section Loggers.
Context `{QF : Quantities}.

Definition createBaseLoggingWriter (componentName loggingDirectory : string) (writerType : LogWriterType)
    (loggerSpec : BaseLoggerSpec) : LoggingWriter :=
  let format := bl_Format loggerSpec in
  let compressed := bool_decide (bl_Compression loggerSpec <> LogCompressionNone) in
  let method := if compressed then LogCompression_string (bl_Compression loggerSpec) else "" in
  let fileName :=
    (if decide (writerType = LogWriterTypeFile)
     then path_Join [loggingDirectory; componentName +:+ "." +:+ bl_Name loggerSpec +:+ ".log"] else "") in
  let fileName :=
    if decide (format <> LogFormatPlainText) then fileName +:+ "." +:+ LogFormat_string format else fileName in
  let fileName := if compressed then fileName +:+ "." +:+ method else fileName in
  mkLoggingWriter writerType fileName format method compressed (bl_UseTimestampSuffix loggerSpec) false
    ((fun p : LogRotationPolicy =>
        mkWriterRotationPolicy (lrp_RotationPeriodMilliseconds p) (Quantity_Value <$> lrp_MaxSegmentSize p)
          (Quantity_Value <$> lrp_MaxTotalSizeToKeep p) (lrp_MaxSegmentCountToKeep p))
       <$> bl_RotationPolicy loggerSpec).

Definition set_EnableSystemMessages (b : bool) (w : LoggingWriter) : LoggingWriter :=
  mkLoggingWriter (lw_WriterType w) (lw_FileName w) (lw_Format w) (lw_CompressionMethod w)
    (lw_EnableCompression w) (lw_UseTimestampSuffix w) b (lw_RotationPolicy w).

Definition createLoggingWriter (componentName loggingDirectory : string) (loggerSpec : TextLoggerSpec)
    : LoggingWriter :=
  set_EnableSystemMessages true
    (createBaseLoggingWriter componentName loggingDirectory (tl_WriterType loggerSpec)
       (tl_BaseLoggerSpec loggerSpec)).

Definition createStructuredLoggingWriter (componentName loggingDirectory : string)
    (loggerSpec : StructuredLoggerSpec) : LoggingWriter :=
  set_EnableSystemMessages false
    (createBaseLoggingWriter componentName loggingDirectory LogWriterTypeFile (sl_BaseLoggerSpec loggerSpec)).

(** A rule and the writer it names; a writer of the same name is replaced. *)
Definition add_rule (b : loggingBuilder) (rule : LoggingRule) (name : string) (writer : LoggingWriter)
    : loggingBuilder :=
  let l := lgb_logging b in
  mkLoggingBuilder (lgb_loggingDirectory b) (lgb_componentName b)
    (mkLogging (<[name := writer]> (lg_Writers l)) (lg_Rules l ++ [rule]) (lg_FlushPeriod l)).

Definition addLogger (b : loggingBuilder) (loggerSpec : TextLoggerSpec) : loggingBuilder :=
  add_rule b (createLoggingRule loggerSpec) (bl_Name (tl_BaseLoggerSpec loggerSpec))
    (createLoggingWriter (lgb_componentName b) (lgb_loggingDirectory b) loggerSpec).

Definition addStructuredLogger (b : loggingBuilder) (loggerSpec : StructuredLoggerSpec) : loggingBuilder :=
  add_rule b (createStructuredLoggingRule loggerSpec) (bl_Name (sl_BaseLoggerSpec loggerSpec))
    (createStructuredLoggingWriter (lgb_componentName b) (lgb_loggingDirectory b) loggerSpec).

Definition flushed (b : loggingBuilder) : Logging :=
  mkLogging (lg_Writers (lgb_logging b)) (lg_Rules (lgb_logging b)) 3000.

(** The given loggers, or the default ones when there are none. *)
Definition loggers_or (loggers defaults : list TextLoggerSpec) : list TextLoggerSpec :=
  match loggers with [] => defaults | _ => loggers end.

(** [createLogging] of common.go. *)
Definition createLogging (spec : InstanceSpec) (componentName : string)
    (defaultLoggerSpecs : list TextLoggerSpec) : Logging :=
  let b := newLoggingBuilder (FindFirstLocation (is_Locations spec) LocationTypeLogs) componentName in
  let b := fold_left addLogger (loggers_or (is_Loggers spec) defaultLoggerSpecs) b in
  flushed (fold_left addStructuredLogger (is_StructuredLoggers spec) b).
End Loggers.

(** ** Its document *)

(** A Go map is written in the order of its keys. *)
Fixpoint insert_sorted {A} (p : string * A) (l : list (string * A)) : list (string * A) :=
  match l with
  | [] => [p]
  | q :: l' => if String.leb p.1 q.1 then p :: l else q :: insert_sorted p l'
  end.
Definition sorted_items {A} (m : gmap string A) : list (string * A) :=
  foldr insert_sorted [] (map_to_list m).
Definition yson_map {A} (f : A -> YtValue) (m : gmap string A) : YtValue :=
  YMap ((fun p => (p.1, f p.2)) <$> sorted_items m).

Definition yson_WriterRotationPolicy (p : WriterRotationPolicy) : YtValue :=
  YMap (opt "rotation_period" YInt (rp_RotationPeriodMilliseconds p)
    ++ opt "max_segment_size" YInt (rp_MaxSegmentSize p)
    ++ opt "max_total_size_to_keep" YInt (rp_MaxTotalSizeToKeep p)
    ++ opt "max_segment_count_to_keep" YInt (rp_MaxSegmentCountToKeep p)).

Definition yson_LoggingWriter (w : LoggingWriter) : YtValue :=
  YMap (opt_string "type" (LogWriterType_string (lw_WriterType w))
    ++ opt_string "file_name" (lw_FileName w)
    ++ opt_string "format" (LogFormat_string (lw_Format w))
    ++ opt_string "compression_method" (lw_CompressionMethod w)
    ++ opt_bool "enable_compression" (lw_EnableCompression w)
    ++ opt_bool "use_timestamp_suffix" (lw_UseTimestampSuffix w)
    ++ opt_bool "enable_system_messages" (lw_EnableSystemMessages w)
    ++ opt "rotation_policy" yson_WriterRotationPolicy (lw_RotationPolicy w)).

Definition yson_LoggingRule (r : LoggingRule) : YtValue :=
  YMap (opt_list "exclude_categories" YString (lr_ExcludeCategories r)
    ++ opt_list "include_categories" YString (lr_IncludeCategories r)
    ++ opt_string "min_level" (LogLevel_string (lr_MinLevel r))
    ++ opt_list "writers" YString (lr_Writers r)
    ++ opt "family" (fun f => YString (LogFamily_string f)) (lr_Family r)).

Definition yson_Logging (l : Logging) : YtValue :=
  YMap (field "writers" (yson_map yson_LoggingWriter (lg_Writers l))
    ++ field "rules" (yson_list yson_LoggingRule (lg_Rules l))
    ++ field "flush_period" (YInt (lg_FlushPeriod l))).
