(* ===== verification/CommonConfig.v ===== *)
(** * The common part of the configurations: pkg/ytconfig/common.go and the
    [fill...] functions of generator.go

    The address resolver, the connection to the masters, the encryption of the
    bus and the other sections that every server of a cluster shares. *)

From S2P Require Import Prelude GoPath Float Api Resources Server CellId Names YtApi Yson Logging.

Local Open Scope string_scope.
Local Open Scope list_scope.
Local Open Scope res_scope.

Definition MasterCachesRPCPort : Z := 9018.
Definition RPCSecretMountPoint : string := "/config/rpc_secret".
Definition CABundleFileName : string := "ca.crt".
Definition DefaultCABundlePath : string := "/etc/ssl/certs/ca-certificates.crt".
(** [corev1.TLSCertKey] and [corev1.TLSPrivateKeyKey]. *)
Definition TLSCertKey : string := "tls.crt".
Definition TLSPrivateKeyKey : string := "tls.key".

(** ** Structs *)

Record HydraPeer := mkHydraPeer { hyp_Address : string; hyp_Voting : bool }.

Record MasterCell := mkMasterCell {
  mcl_Addresses : list string;
  mcl_Peers : list HydraPeer;
  mcl_CellID : string;
}.

(** [MasterCache] of common.go. *)
Record MasterCacheConnection := mkMasterCacheConnection {
  mcc_Addresses : list string;
  mcc_CellID : string;
  mcc_EnableMasterCacheDiscover : bool;
}.

Record Driver := mkDriver {
  dr_TimestampProviders : list string;
  dr_PrimaryMaster : MasterCell;
  dr_APIVersion : Z;
}.

Record PemBlob := mkPemBlob { pb_FileName : string; pb_Value : string }.

Inductive EncryptionMode := EncryptionModeDisabled | EncryptionModeOptional | EncryptionModeRequired.
Inductive VerificationMode := VerificationModeNone | VerificationModeCa | VerificationModeFull.

(** The modes are strings, empty when they are not set: [None]. *)
Record Bus := mkBus {
  bus_EncryptionMode : option EncryptionMode;
  bus_CertChain : option PemBlob;
  bus_PrivateKey : option PemBlob;
  bus_CipherList : list string;
  bus_CA : option PemBlob;
  bus_VerificationMode : option VerificationMode;
  bus_PeerAlternativeHostName : string;
}.

Record ClusterConnection := mkClusterConnection {
  cc_ClusterName : string;
  cc_PrimaryMaster : MasterCell;
  cc_DiscoveryConnection : list string;
  cc_BusClient : option Bus;
  cc_MasterCache : MasterCacheConnection;
}.

Record AddressResolver := mkAddressResolver {
  ar_EnableIPv4 : bool;
  ar_EnableIPv6 : bool;
  ar_KeepSocket : option bool;
  ar_ForceTCP : option bool;
  ar_Retries : option Z;
  ar_LocalhostNameOverride : option string;
}.

Record SolomonExporter := mkSolomonExporter {
  se_Host : option string;
  se_InstanceTags : list (string * string);
}.

Record BasicServer := mkBasicServer {
  bs_AddressResolver : AddressResolver;
  bs_SolomonExporter : SolomonExporter;
  bs_Logging : Logging;
  bs_MonitoringPort : Z;
  bs_RPCPort : Z;
  bs_BusServer : option Bus;
}.

Record CommonServer := mkCommonServer {
  csv_BasicServer : BasicServer;
  csv_TimestampProviders : list string;
  csv_ClusterConnection : ClusterConnection;
  csv_CypressAnnotations : list (string * YtValue);
}.

Record BindMount := mkBindMount {
  bm_ExternalPath : string;
  bm_InternalPath : string;
  bm_ReadOnly : bool;
}.

(** Durations are counted in milliseconds. *)
Record RetryingChannel := mkRetryingChannel {
  rc_RetryBackoffTime : Z;
  rc_RetryAttempts : Z;
  rc_RetryTimeout : Z;
}.

Record IOEngine := mkIOEngine { ioe_EnableSync : option bool }.

(** Zero values. *)
Definition Logging_zero : Logging := mkLogging ∅ [] 0.
Definition MasterCell_zero : MasterCell := mkMasterCell [] [] "".
Definition Driver_zero : Driver := mkDriver [] MasterCell_zero 0.
Definition Bus_zero : Bus := mkBus None None None [] None None "".
Definition AddressResolver_zero : AddressResolver := mkAddressResolver false false None None None None.
Definition ClusterConnection_zero : ClusterConnection :=
  mkClusterConnection "" MasterCell_zero [] None (mkMasterCacheConnection [] "" false).

(** A server of which the carcass only sets the ports and the loggers. *)
Definition CommonServer_with (logging : Logging) (monitoringPort rpcPort : Z) : CommonServer :=
  mkCommonServer
    (mkBasicServer AddressResolver_zero (mkSolomonExporter None []) logging monitoringPort rpcPort None)
    [] ClusterConnection_zero [].

Definition set_BusServer (b : option Bus) (c : CommonServer) : CommonServer :=
  let s := csv_BasicServer c in
  mkCommonServer
    (mkBasicServer (bs_AddressResolver s) (bs_SolomonExporter s) (bs_Logging s) (bs_MonitoringPort s)
       (bs_RPCPort s) b)
    (csv_TimestampProviders c) (csv_ClusterConnection c) (csv_CypressAnnotations c).

Definition set_LocalhostNameOverride (name : string) (c : CommonServer) : CommonServer :=
  let s := csv_BasicServer c in
  let r := bs_AddressResolver s in
  mkCommonServer
    (mkBasicServer
       (mkAddressResolver (ar_EnableIPv4 r) (ar_EnableIPv6 r) (ar_KeepSocket r) (ar_ForceTCP r)
          (ar_Retries r) (Some name))
       (bs_SolomonExporter s) (bs_Logging s) (bs_MonitoringPort s) (bs_RPCPort s) (bs_BusServer s))
    (csv_TimestampProviders c) (csv_ClusterConnection c) (csv_CypressAnnotations c).

(** ** The sections *)

Section Fill.
Context `{U : Uuid}.
Context (g : BaseGenerator).

Definition getMasterHydraPeers : list HydraPeer :=
  (fun address => mkHydraPeer address true) <$> getMasterAddresses g.

Definition getMasterCachesPodFqdnSuffix : string :=
  (GetMasterCachesServiceName g +:+ "." +:+ bg_Namespace g +:+ ".svc." +:+ bg_clusterDomain g)%string.

Definition getMasterCachesAddresses : list string :=
  match bg_masterCachesSpec g with
  | None => []
  | Some spec =>
      let hosts :=
        match mc_HostAddresses spec with
        | [] => (fun podName => podName +:+ "." +:+ getMasterCachesPodFqdnSuffix)
                  <$> default [] (GetMasterCachesPodNames g)
        | hosts => hosts
        end in
      (fun host => host +:+ ":" +:+ pretty MasterCachesRPCPort) <$> hosts
  end.

Definition fillIOEngine (ioEngine : option IOEngine) : option IOEngine :=
  if cs_EphemeralCluster (bg_commonSpec g) then Some (mkIOEngine (Some false)) else ioEngine.

Definition fillAddressResolver (c : AddressResolver) : AddressResolver :=
  let s := bg_commonSpec g in
  mkAddressResolver
    (cs_UseIPv4 s || (negb (cs_UseIPv6 s) && negb (cs_UseIPv4 s)))
    (cs_UseIPv6 s) (cs_KeepSocket s) (cs_ForceTCP s) (Some 1000%Z) (ar_LocalhostNameOverride c).

Definition fillSolomonExporter : SolomonExporter :=
  mkSolomonExporter (Some "{POD_SHORT_HOSTNAME}") [("pod", "{K8S_POD_NAME}")].

Definition fillPrimaryMaster : Res MasterCell :=
  let* cellID := deref (generateCellID (mcs_CellTag (bg_masterConnectionSpec g))) in
  ok (mkMasterCell (getMasterAddresses g) getMasterHydraPeers cellID).

Definition fillClusterConnectionEncryption (c : ClusterConnection) (s : option RPCTransportSpec)
    : ClusterConnection :=
  let s := match s with None => cs_NativeTransport (bg_commonSpec g) | Some _ => s end in
  match s with
  | None => c
  | Some s =>
      match rt_TLSSecret s with
      | None => c
      | Some _ =>
          let b := default Bus_zero (cc_BusClient c) in
          let ca :=
            mkPemBlob (match cs_CABundle (bg_commonSpec g) with
                       | Some _ => path_Join [CABundleMountPoint; CABundleFileName]
                       | None => DefaultCABundlePath
                       end) "" in
          mkClusterConnection (cc_ClusterName c) (cc_PrimaryMaster c) (cc_DiscoveryConnection c)
            (Some (mkBus
               (Some (if rt_TLSRequired s then EncryptionModeRequired else EncryptionModeOptional))
               (bus_CertChain b) (bus_PrivateKey b) (bus_CipherList b) (Some ca)
               (Some (if rt_TLSInsecure s then VerificationModeNone else VerificationModeFull))
               (if decide (rt_TLSPeerAlternativeHostName s <> "")
                then rt_TLSPeerAlternativeHostName s else bus_PeerAlternativeHostName b)))
            (cc_MasterCache c)
      end
  end.

Definition fillClusterConnection (c : ClusterConnection) (s : option RPCTransportSpec)
    : Res ClusterConnection :=
  let* primaryMaster := fillPrimaryMaster in
  let c := fillClusterConnectionEncryption
             (mkClusterConnection (bg_Name g) primaryMaster (getDiscoveryAddresses g) (cc_BusClient c)
                (cc_MasterCache c)) s in
  let addresses :=
    match getMasterCachesAddresses with
    | [] => getMasterAddresses g
    | addresses => addresses
    end in
  let* cellID := deref (generateCellID (mcs_CellTag (bg_masterConnectionSpec g))) in
  ok (mkClusterConnection (cc_ClusterName c) (cc_PrimaryMaster c) (cc_DiscoveryConnection c)
        (cc_BusClient c)
        (mkMasterCacheConnection addresses cellID (mcc_EnableMasterCacheDiscover (cc_MasterCache c)))).

Definition fillCypressAnnotations : list (string * YtValue) :=
  [("k8s_node_name", YString "{K8S_NODE_NAME}"); ("k8s_pod_name", YString "{K8S_POD_NAME}");
   ("k8s_pod_namespace", YString "{K8S_POD_NAMESPACE}"); ("physical_host", YString "{K8S_NODE_NAME}")].

Definition fillCommonService (c : CommonServer) (s : InstanceSpec) : Res CommonServer :=
  let b := csv_BasicServer c in
  let* connection := fillClusterConnection (csv_ClusterConnection c) (is_NativeTransport s) in
  ok (mkCommonServer
        (mkBasicServer (fillAddressResolver (bs_AddressResolver b)) fillSolomonExporter (bs_Logging b)
           (bs_MonitoringPort b) (bs_RPCPort b) (bs_BusServer b))
        (getMasterAddresses g) connection fillCypressAnnotations).

(** [fillBusServer]; the transport of the instance is never the same pointer
    as the common one. *)
Definition fillBusServer (c : CommonServer) (s : option RPCTransportSpec) : CommonServer :=
  let own := match s with None => false | Some _ => true end in
  let s := match s with None => cs_NativeTransport (bg_commonSpec g) | Some _ => s end in
  match s with
  | None => c
  | Some s =>
      match rt_TLSSecret s with
      | None => c
      | Some _ =>
          let b := default Bus_zero (bs_BusServer (csv_BasicServer c)) in
          set_BusServer
            (Some (mkBus
               (Some (if rt_TLSRequired s && own then EncryptionModeRequired else EncryptionModeOptional))
               (Some (mkPemBlob (path_Join [BusSecretMountPoint; TLSCertKey]) ""))
               (Some (mkPemBlob (path_Join [BusSecretMountPoint; TLSPrivateKeyKey]) ""))
               (bus_CipherList b) (bus_CA b) (bus_VerificationMode b) (bus_PeerAlternativeHostName b))) c
      end
  end.
End Fill.

Section FillGenerator.
Context `{U : Uuid}.
Context (g : Generator).

(** The primary master is filled twice; the second time is the one that
    stays. *)
Definition fillDriver (c : Driver) : Res Driver :=
  let* _ := deref (generateCellID
              (mcs_CellTag (ms_MasterConnectionSpec (sp_PrimaryMasters (yt_Spec (gen_ytsaurus g)))))) in
  let* primaryMaster := fillPrimaryMaster (gen_base g) in
  ok (mkDriver (getMasterAddresses (gen_base g)) primaryMaster (dr_APIVersion c)).

Definition fillBusEncryption (b : Bus) (s : RPCTransportSpec) : Bus :=
  mkBus (Some (if rt_TLSRequired s then EncryptionModeRequired else EncryptionModeOptional))
    (Some (mkPemBlob (path_Join [RPCSecretMountPoint; TLSCertKey]) ""))
    (Some (mkPemBlob (path_Join [RPCSecretMountPoint; TLSPrivateKeyKey]) ""))
    (bus_CipherList b) (bus_CA b) (bus_VerificationMode b) (bus_PeerAlternativeHostName b).
End FillGenerator.

(** ** Documents *)

Definition yson_addresses (l : list string) : YtValue := YMap (field "addresses" (yson_strings l)).

Definition yson_HydraPeer (p : HydraPeer) : YtValue :=
  YMap (field "address" (YString (hyp_Address p)) ++ field "voting" (YBool (hyp_Voting p))).

Definition yson_MasterCell (c : MasterCell) : YtValue :=
  YMap (field "addresses" (yson_strings (mcl_Addresses c))
    ++ field "peers" (yson_list yson_HydraPeer (mcl_Peers c))
    ++ field "cell_id" (YString (mcl_CellID c))).

Definition yson_MasterCacheConnection (c : MasterCacheConnection) : YtValue :=
  YMap (field "addresses" (yson_strings (mcc_Addresses c))
    ++ field "cell_id" (YString (mcc_CellID c))
    ++ field "enable_master_cache_discovery" (YBool (mcc_EnableMasterCacheDiscover c))).

Definition yson_Driver (d : Driver) : YtValue :=
  YMap (field "timestamp_provider" (yson_addresses (dr_TimestampProviders d))
    ++ field "primary_master" (yson_MasterCell (dr_PrimaryMaster d))
    ++ opt_int "api_version" (dr_APIVersion d)).

Definition yson_PemBlob (p : PemBlob) : YtValue :=
  YMap (opt_string "file_name" (pb_FileName p) ++ opt_string "value" (pb_Value p)).

Definition yson_EncryptionMode (m : EncryptionMode) : YtValue :=
  YString match m with
          | EncryptionModeDisabled => "disabled"
          | EncryptionModeOptional => "optional"
          | EncryptionModeRequired => "required"
          end.
Definition yson_VerificationMode (m : VerificationMode) : YtValue :=
  YString match m with
          | VerificationModeNone => "none" | VerificationModeCa => "ca" | VerificationModeFull => "full"
          end.

Definition yson_Bus (b : Bus) : YtValue :=
  YMap (opt "encryption_mode" yson_EncryptionMode (bus_EncryptionMode b)
    ++ opt "cert_chain" yson_PemBlob (bus_CertChain b)
    ++ opt "private_key" yson_PemBlob (bus_PrivateKey b)
    ++ opt_list "cipher_list" YString (bus_CipherList b)
    ++ opt "ca" yson_PemBlob (bus_CA b)
    ++ opt "verification_mode" yson_VerificationMode (bus_VerificationMode b)
    ++ opt_string "peer_alternative_host_name" (bus_PeerAlternativeHostName b)).

Definition yson_ClusterConnection (c : ClusterConnection) : YtValue :=
  YMap (field "cluster_name" (YString (cc_ClusterName c))
    ++ field "primary_master" (yson_MasterCell (cc_PrimaryMaster c))
    ++ field "discovery_connection" (yson_addresses (cc_DiscoveryConnection c))
    ++ opt "bus_client" yson_Bus (cc_BusClient c)
    ++ field "master_cache" (yson_MasterCacheConnection (cc_MasterCache c))).

Definition yson_AddressResolver (r : AddressResolver) : YtValue :=
  YMap (field "enable_ipv4" (YBool (ar_EnableIPv4 r))
    ++ field "enable_ipv6" (YBool (ar_EnableIPv6 r))
    ++ opt "keep_socket" YBool (ar_KeepSocket r)
    ++ opt "force_tcp" YBool (ar_ForceTCP r)
    ++ opt "retries" YInt (ar_Retries r)
    ++ opt "localhost_name_override" YString (ar_LocalhostNameOverride r)).

Definition yson_SolomonExporter (e : SolomonExporter) : YtValue :=
  YMap (opt "host" YString (se_Host e)
    ++ match se_InstanceTags e with
       | [] => []
       | tags => [("instance_tags", YMap ((fun p => (p.1, YString p.2)) <$> tags))]
       end).

(** The fields of an embedded struct are those of the struct around it. *)
Definition fields_BasicServer (b : BasicServer) : fields :=
  field "address_resolver" (yson_AddressResolver (bs_AddressResolver b))
  ++ field "solomon_exporter" (yson_SolomonExporter (bs_SolomonExporter b))
  ++ field "logging" (yson_Logging (bs_Logging b))
  ++ field "monitoring_port" (YInt (bs_MonitoringPort b))
  ++ field "rpc_port" (YInt (bs_RPCPort b))
  ++ opt "bus_server" yson_Bus (bs_BusServer b).

Definition fields_CommonServer (c : CommonServer) : fields :=
  fields_BasicServer (csv_BasicServer c)
  ++ field "timestamp_provider" (yson_addresses (csv_TimestampProviders c))
  ++ field "cluster_connection" (yson_ClusterConnection (csv_ClusterConnection c))
  ++ match csv_CypressAnnotations c with [] => [] | m => field "cypress_annotations" (YMap m) end.

Definition yson_BindMount (b : BindMount) : YtValue :=
  YMap (field "external_path" (YString (bm_ExternalPath b))
    ++ field "internal_path" (YString (bm_InternalPath b))
    ++ field "read_only" (YBool (bm_ReadOnly b))).

Definition fields_RetryingChannel (c : RetryingChannel) : fields :=
  opt_int "retry_backoff_time" (rc_RetryBackoffTime c)
  ++ opt_int "retry_attempts" (rc_RetryAttempts c)
  ++ opt_int "retry_timeout" (rc_RetryTimeout c).

Definition yson_IOEngine (e : IOEngine) : YtValue := YMap (opt "enable_sync" YBool (ioe_EnableSync e)).

(** ** Authentication: proxy.go *)

Record OauthService := mkOauthService {
  os_Host : string;
  os_Port : Z;
  os_Secure : bool;
  os_UserInfoEndpoint : string;
  os_UserInfoLoginField : string;
  os_UserInfoErrorField : option string;
}.

(** The structs without fields are written as empty maps: a flag says whether
    the pointer to one is set. *)
Record Auth := mkAuth {
  au_CypressTokenAuthenticator_Secure : bool;
  au_OauthService : option OauthService;
  au_OauthCookieAuthenticator : bool;
  au_OauthTokenAuthenticator : bool;
  au_RequireAuthentication : bool;
}.

Definition Auth_zero : Auth := mkAuth false None false false false.

(** The section of the OAuth service of the cluster. *)
Definition oauth_of (s : OauthServiceSpec) : OauthService :=
  mkOauthService (oa_Host s) (oa_Port s) (oa_Secure s) (oui_Endpoint (oa_UserInfo s))
    (oui_LoginField (oa_UserInfo s)) (oui_ErrorField (oa_UserInfo s)).

Definition yson_OauthService (s : OauthService) : YtValue :=
  YMap (field "host" (YString (os_Host s)) ++ field "port" (YInt (os_Port s))
    ++ field "secure" (YBool (os_Secure s))
    ++ field "user_info_endpoint" (YString (os_UserInfoEndpoint s))
    ++ field "user_info_login_field" (YString (os_UserInfoLoginField s))
    ++ opt "user_info_error_field" YString (os_UserInfoErrorField s)).

Definition opt_empty (tag : string) (b : bool) : fields := if b then [(tag, YMap [])] else [].

Definition yson_token_authenticator (secure : bool) : YtValue := YMap (field "secure" (YBool secure)).

Definition yson_Auth (a : Auth) : YtValue :=
  YMap (field "cypress_cookie_manager" (YMap []) ++ field "cypress_user_manager" (YMap [])
    ++ field "cypress_token_authenticator" (yson_token_authenticator (au_CypressTokenAuthenticator_Secure a))
    ++ opt "oauth_service" yson_OauthService (au_OauthService a)
    ++ opt_empty "oauth_cookie_authenticator" (au_OauthCookieAuthenticator a)
    ++ opt_empty "oauth_token_authenticator" (au_OauthTokenAuthenticator a)
    ++ field "require_authentication" (YBool (au_RequireAuthentication a))).
