(* ===== verification/NodeConfig.v ===== *)
(** * The configurations of the nodes: pkg/ytconfig/node.go, cri.go and the node
    generators of generator.go

    Locations with their quotas and watermarks, resource limits, the
    environment of the jobs, and the errors for missing locations. *)

From S2P Require Import Prelude GoPath Float Api Resources Server Nodes CellId Names YtApi Yson Logging CommonConfig.

Local Open Scope string_scope.
Local Open Scope list_scope.
Local Open Scope res_scope.

(** ** Constants: pkg/consts *)

Definition DataNodeRPCPort : Z := 9012.
Definition DataNodeSkynetPort : Z := 11012.
Definition TabletNodeRPCPort : Z := 9022.
Definition TabletNodeSkynetPort : Z := 11022.
Definition ExecNodeRPCPort : Z := 9029.
Definition ExecNodeSkynetPort : Z := 11029.
Definition CRINamespace : string := "yt".
Definition CRIBaseCgroup : string := "/yt".
Definition StartUID : Z := 19500.
Definition MaxSlotLocationReserve : Z := Z.shiftl 10 30.

(** ** Structs *)

Inductive NodeFlavor := NodeFlavorData | NodeFlavorExec | NodeFlavorTablet.

Record StoreLocation := mkStoreLocation {
  stl_Path : string;
  stl_IOEngine : option IOEngine;
  stl_MediumName : string;
  stl_Quota : Z;
  stl_HighWatermark : Z;
  stl_LowWatermark : Z;
  stl_DisableWritesWatermark : Z;
  stl_TrashCleanupWatermark : Z;
  stl_MaxTrashTtl : option Z;
}.

Record ResourceLimits := mkResourceLimits {
  rl_TotalMemory : Z;
  rl_TotalCpu : option float;
  rl_NodeDedicatedCpu : option float;
}.

Record CacheLocation := mkCacheLocation { cal_Path : string; cal_IOEngine : option IOEngine }.

Record SlotLocation := mkSlotLocation {
  sll_Path : string;
  sll_MediumName : string;
  sll_DiskQuota : option Z;
  sll_DiskUsageWatermark : option Z;
  sll_EnableDiskQuota : option bool;
}.

Record BlockCache := mkBlockCache { bc_Compressed : Z; bc_Uncompressed : Z }.

(** The section [data_node]; a [Cache] is its capacity. *)
Record DataNodeSection := mkDataNodeSection {
  dns_StoreLocations : list StoreLocation;
  dns_CacheLocations : list CacheLocation;
  dns_BlockCache : BlockCache;
  dns_BlocksExtCache : Z;
  dns_ChunkMetaCache : Z;
  dns_BlockMetaCache : Z;
}.

Definition DataNodeSection_with (stores : list StoreLocation) (caches : list CacheLocation)
    : DataNodeSection :=
  mkDataNodeSection stores caches (mkBlockCache 0 0) 0 0 0.

Inductive JobEnvironmentType := JobEnvironmentTypeSimple | JobEnvironmentTypePorto | JobEnvironmentTypeCRI.
Inductive GpuInfoSourceType := GpuInfoSourceTypeNvGpuManager | GpuInfoSourceTypeNvidiaSmi.

Record CriExecutor := mkCriExecutor {
  cre_RetryingChannel : RetryingChannel;
  cre_RuntimeEndpoint : string;
  cre_ImageEndpoint : string;
  cre_Namespace : string;
  cre_BaseCgroup : string;
  cre_RuntimeHandler : string;
  cre_CpuPeriod : Z;
}.

Record CriImageCache := mkCriImageCache {
  cic_Capacity : option Z;
  cic_ManagedPrefixes : list string;
  cic_UnmanagedPrefixes : list string;
  cic_PinnedImages : list string;
  cic_AlwaysPullLatest : option bool;
  cic_PullPeriod : Z;
  cic_ImageSizeEstimation : option Z;
  cic_ImageCompressionRatioEstimation : option float;
  cic_YoungerSizeFraction : option float;
}.

(** [JobEnvironment] with the fields of the embedded [CriJobEnvironment]. *)
Record JobEnvironment := mkJobEnvironment {
  jen_Type : JobEnvironmentType;
  jen_StartUID : Z;
  jen_CriExecutor : option CriExecutor;
  jen_CriImageCache : option CriImageCache;
  jen_JobProxyImage : string;
  jen_JobProxyBindMounts : list BindMount;
  jen_UseJobProxyFromImage : option bool;
}.

Record SlotManager := mkSlotManager {
  slm_Locations : list SlotLocation;
  slm_JobEnvironment : JobEnvironment;
  slm_DoNotSetUserId : option bool;
  slm_EnableTmpfs : option bool;
  slm_DetachedTmpfsUmount : option bool;
}.

Record JobProxy := mkJobProxy {
  jp_JobProxyAuthenticationManager : Auth;
  jp_JobProxyLogging : Logging;
  jp_ForwardAllEnvironmentVariables : option bool;
}.

(** The section [exec_node].  The legacy fields are pointers to the fields
    they repeat: only [use_artifact_binds] has a value of its own. *)
Record ExecNodeSection := mkExecNodeSection {
  ens_SlotManager : SlotManager;
  ens_GpuInfoSourceType : GpuInfoSourceType;
  ens_JobProxy : JobProxy;
  ens_UseArtifactBindsLegacy : option bool;
}.

Record NodeServer := mkNodeServer {
  ns_CommonServer : CommonServer;
  ns_Flavors : list NodeFlavor;
  ns_ResourceLimits : ResourceLimits;
  ns_Tags : list string;
  ns_Rack : string;
  ns_SkynetHttpPort : Z;
}.

Record DataNodeServer := mkDataNodeServer {
  dnsv_NodeServer : NodeServer;
  dnsv_DataNode : DataNodeSection;
}.

Record ExecNodeServer := mkExecNodeServer {
  ensv_NodeServer : NodeServer;
  ensv_UserSlots : option Z;
  ensv_ExecNode : ExecNodeSection;
  ensv_DataNode : DataNodeSection;
}.

Record TabletNodeServer := mkTabletNodeServer { tnsv_NodeServer : NodeServer }.

Definition set_ns_CommonServer (c : CommonServer) (n : NodeServer) : NodeServer :=
  mkNodeServer c (ns_Flavors n) (ns_ResourceLimits n) (ns_Tags n) (ns_Rack n) (ns_SkynetHttpPort n).

(** ** Quotas *)

(** The first mount of which the path is a prefix of the location's. *)
Definition findVolumeMountForPath (locationPath : string) (spec : InstanceSpec) : option VolumeMount :=
  snd <$> list_find (fun mount => String.prefix (vm_MountPath mount) locationPath = true) (is_VolumeMounts spec).

Definition findVolumeClaimTemplate (volumeName : string) (spec : InstanceSpec)
    : option EmbeddedPersistentVolumeClaim :=
  snd <$> list_find (fun claim => evc_Name claim = volumeName) (is_VolumeClaimTemplates spec).

Definition findVolume (volumeName : string) (spec : InstanceSpec) : option Volume :=
  snd <$> list_find (fun volume => vol_Name volume = volumeName) (is_Volumes spec).

(** [resources[name]], zero when it is missing ([ResourceList.Memory] and
    [ResourceList.Storage]). *)
Definition ResourceList_get (l : option (gmap string Quantity)) (name : string) : Quantity :=
  default 0%Z (l ≫= fun m => m !! name).

Section Carcasses.
Context `{QF : Quantities}.

Definition findQuotaForLocation (location : LocationSpec) (spec : InstanceSpec) : option Z :=
  match loc_Quota location with
  | Some quota => Some (Quantity_Value quota)
  | None =>
      mount ← findVolumeMountForPath (loc_Path location) spec;
      match findVolumeClaimTemplate (vm_Name mount) spec with
      | Some claim =>
          let storage := ResourceList_get (rr_Requests (evc_Resources claim)) "storage" in
          if decide (storage <> 0%Z) then Some (Quantity_Value storage) else None
      | None =>
          match findVolume (vm_Name mount) spec with
          | Some volume =>
              match vol_Source volume with
              | VolumeEmptyDir (Some limit) => Some (Quantity_Value limit)
              | _ => None
              end
          | None => None
          end
      end
  end.

(** ** Carcasses *)

Definition fillClusterNodeServerCarcass (flavor : NodeFlavor) (spec : ClusterNodesSpec) (ispec : InstanceSpec)
    (limits : ResourceLimits) (logging : Logging) : Res NodeServer :=
  let '(rpc, skynet) :=
    match flavor with
    | NodeFlavorData => (DataNodeRPCPort, DataNodeSkynetPort)
    | NodeFlavorExec => (ExecNodeRPCPort, ExecNodeSkynetPort)
    | NodeFlavorTablet => (TabletNodeRPCPort, TabletNodeSkynetPort)
    end in
  let* monitoringPort := deref (is_MonitoringPort ispec) in
  ok (mkNodeServer (CommonServer_with logging monitoringPort rpc) [flavor] limits (cn_Tags spec)
        (cn_Rack spec) skynet).

(** The memory of a data or tablet node: the request, or else the limit. *)
Definition node_memory (r : ResourceRequirements) : Z :=
  let request := ResourceList_get (rr_Requests r) "memory" in
  let limit := ResourceList_get (rr_Limits r) "memory" in
  if decide (request <> 0%Z) then Quantity_Value request
  else if decide (limit <> 0%Z) then Quantity_Value limit else 0%Z.

Definition getDataNodeResourceLimits (spec : DataNodesSpec) : ResourceLimits :=
  mkResourceLimits (node_memory (is_Resources (dn_InstanceSpec spec))) (Some float_zero) (Some float_zero).

Definition default_loggers : list TextLoggerSpec := [defaultInfoLoggerSpec; defaultStderrLoggerSpec].

Definition getDataNodeLogging (spec : DataNodesSpec) : Logging :=
  createLogging (dn_InstanceSpec spec) "data-node" default_loggers.

(** 25 gigabytes, as a [float64]. *)
Definition max_low_watermark : float := mul64 (float64_of_int 25) (float64_of_int (1024 * 1024 * 1024)).

Definition store_location (spec : InstanceSpec) (location : LocationSpec) : StoreLocation :=
  match findQuotaForLocation location spec with
  | None => mkStoreLocation (loc_Path location) None (loc_Medium location) 0 0 0 0 0 None
  | Some quota =>
      let low :=
        match loc_LowWatermark location with
        | Some low => Quantity_Value low
        | None => truncate (float_min (mul64 one_tenth (float64_of_int quota)) max_low_watermark)
        end in
      let high := Z.quot low 2 in
      mkStoreLocation (loc_Path location) None (loc_Medium location) quota high low (Z.quot high 2) low
        (loc_MaxTrashMilliseconds location)
  end.

Definition getDataNodeServerCarcass (spec : DataNodesSpec) : Res DataNodeServer :=
  let ispec := dn_InstanceSpec spec in
  let* n := fillClusterNodeServerCarcass NodeFlavorData (dn_ClusterNodesSpec spec) ispec
              (getDataNodeResourceLimits spec) (getDataNodeLogging spec) in
  match store_location ispec <$> FindAllLocations (is_Locations ispec) LocationTypeChunkStore with
  | [] => fail "error creating data node config: no storage locations provided"
  | stores => ok (mkDataNodeServer n (DataNodeSection_with stores []))
  end.

Definition getResourceQuantity (resources : ResourceRequirements) (name : string) : Quantity :=
  let request := ResourceList_get (rr_Requests resources) name in
  if decide (request <> 0%Z) then request else ResourceList_get (rr_Limits resources) name.

Definition getExecNodeResourceLimits (spec : ExecNodesSpec) : ResourceLimits :=
  let resources := is_Resources (en_InstanceSpec spec) in
  let nodeMemory := getResourceQuantity resources "memory" in
  let nodeCpu := getResourceQuantity resources "cpu" in
  let '(totalMemory, totalCpu, dedicated) :=
    match en_JobResources spec with
    | Some jobs => ((nodeMemory + getResourceQuantity jobs "memory")%Z, (nodeCpu + getResourceQuantity jobs "cpu")%Z,
                    float32 (AsApproximateFloat64 nodeCpu))
    | None => (nodeMemory, nodeCpu, float_zero)
    end in
  mkResourceLimits (Quantity_Value totalMemory)
    (if decide (totalCpu <> 0%Z) then Some (float32 (AsApproximateFloat64 totalCpu)) else None)
    (Some dedicated).

Definition getExecNodeLogging (spec : ExecNodesSpec) : Logging :=
  createLogging (en_InstanceSpec spec) "exec-node" default_loggers.

(** Can the node mount a tmpfs and propagate it into the containers of jobs? *)
Definition enable_tmpfs (spec : ExecNodesSpec) (envSpec : JobEnvironmentSpec) : bool :=
  if negb (en_Privileged spec) then false
  else if negb (default true (je_Isolated envSpec)) then true
  else
    forallb (fun location =>
      match findVolumeMountForPath (loc_Path location) (en_InstanceSpec spec) with
      | None => false
      | Some mount => bool_decide (vm_MountPropagation mount = Some "Bidirectional")
      end) (FindAllLocations (is_Locations (en_InstanceSpec spec)) LocationTypeSlots).

Definition cri_executor (spec : ExecNodesSpec) (cri : CRIJobEnvironmentSpec) : CriExecutor :=
  let endpoint := ("unix://" +:+ GetContainerdSocketPath spec)%string in
  mkCriExecutor
    (match cri_APIRetryTimeoutSeconds cri with
     | None => mkRetryingChannel 0 0 0
     | Some timeout => mkRetryingChannel 1000 timeout (timeout * 1000)
     end)
    endpoint endpoint (default CRINamespace (cri_CRINamespace cri))
    (default CRIBaseCgroup (cri_BaseCgroup cri)) "" 0.

Definition cri_image_cache (spec : ExecNodesSpec) (cri : CRIJobEnvironmentSpec) : option CriImageCache :=
  (fun location =>
     mkCriImageCache (findQuotaForLocation location (en_InstanceSpec spec)) [] [] []
       (cri_AlwaysPullLatestImage cri)
       (match cri_ImagePullPeriodSeconds cri with None => 0 | Some period => period * 1000 end)%Z
       (cri_ImageSizeEstimation cri)
       ((fun ratio => float32 (mkFloat ratio 0)) <$> cri_ImageCompressionRatioEstimation cri) None)
  <$> FindFirstLocation (is_Locations (en_InstanceSpec spec)) LocationTypeImageCache.

Definition bind_mounts (spec : ExecNodesSpec) : list BindMount :=
  (fun location => mkBindMount (loc_Path location) (loc_Path location) true)
  <$> FindAllLocations (is_Locations (en_InstanceSpec spec)) LocationTypeChunkCache.

(** The parts of [exec_node] that [fillJobEnvironment] sets: the slot manager
    without its locations, the forwarding of environment variables and the
    legacy use of artifact binds. *)
Definition fillJobEnvironment (spec : ExecNodesSpec) (commonSpec : CommonSpec)
    (locations : list SlotLocation) : SlotManager * option bool * option bool :=
  let plain t tmpfs :=
    (mkSlotManager locations (mkJobEnvironment t StartUID None None "" [] None) None (Some tmpfs) None,
     None, None) in
  match en_JobEnvironment spec with
  | Some envSpec =>
      match je_CRI envSpec with
      | Some cri =>
          let image :=
            match cs_JobImage commonSpec with
            | Some jobImage => jobImage
            | None => default (cs_CoreImage commonSpec) (is_Image (en_InstanceSpec spec))
            end in
          let binds := default true (je_UseArtifactBinds envSpec) in
          (mkSlotManager locations
             (mkJobEnvironment JobEnvironmentTypeCRI StartUID (Some (cri_executor spec cri))
                (cri_image_cache spec cri) image (if binds then [] else bind_mounts spec) (Some false))
             (Some (default true (je_DoNotSetUserId envSpec))) (Some (enable_tmpfs spec envSpec)) None,
           Some true, Some binds)
      | None =>
          if cs_UsePorto commonSpec then plain JobEnvironmentTypePorto true
          else plain JobEnvironmentTypeSimple (en_Privileged spec)
      end
  | None =>
      if cs_UsePorto commonSpec then plain JobEnvironmentTypePorto true
      else plain JobEnvironmentTypeSimple (en_Privileged spec)
  end.

Definition slot_location (spec : InstanceSpec) (location : LocationSpec) : SlotLocation :=
  let quota := findQuotaForLocation location spec in
  mkSlotLocation (loc_Path location) (loc_Medium location) quota
    (Some match quota with
          | Some quota => Z.min (Z.quot quota 10) MaxSlotLocationReserve
          | None => 0%Z
          end)
    (Some false).

(** Five slots for every CPU of the jobs, unless the number is given. *)
Definition user_slots (spec : ExecNodesSpec) (limits : ResourceLimits) : option Z :=
  match en_JobEnvironment spec ≫= je_UserSlots with
  | Some slots => Some slots
  | None =>
      let jobCpu := sub32 (default float_zero (rl_TotalCpu limits))
                      (default float_zero (rl_NodeDedicatedCpu limits)) in
      if float_ltb float_zero jobCpu then Some (truncate (mul32 (mkFloat 5 0) jobCpu)) else None
  end.

Definition job_proxy_logging (spec : ExecNodesSpec) : Logging :=
  flushed (fold_left addLogger (loggers_or (en_JobProxyLoggers spec) default_loggers)
             newJobProxyLoggingBuilder).

Definition getExecNodeServerCarcass (spec : ExecNodesSpec) (commonSpec : CommonSpec) : Res ExecNodeServer :=
  let ispec := en_InstanceSpec spec in
  let limits := getExecNodeResourceLimits spec in
  let* n := fillClusterNodeServerCarcass NodeFlavorExec (en_ClusterNodesSpec spec) ispec limits
              (getExecNodeLogging spec) in
  match FindAllLocations (is_Locations ispec) LocationTypeChunkCache with
  | [] => fail "error creating exec node config: no cache locations provided"
  | caches =>
      match slot_location ispec <$> FindAllLocations (is_Locations ispec) LocationTypeSlots with
      | [] => fail "error creating exec node config: no slot locations provided"
      | slots =>
          let '(slotManager, forward, binds) := fillJobEnvironment spec commonSpec slots in
          ok (mkExecNodeServer n (user_slots spec limits)
                (mkExecNodeSection slotManager GpuInfoSourceTypeNvidiaSmi
                   (mkJobProxy (mkAuth true None false false true) (job_proxy_logging spec) forward) binds)
                (DataNodeSection_with [] ((fun l => mkCacheLocation (loc_Path l) None) <$> caches)))
      end
  end.
Definition getTabletNodeLogging (spec : TabletNodesSpec) : Logging :=
  createLogging (tn_InstanceSpec spec) "tablet-node" default_loggers.

Definition getTabletNodeServerCarcass (spec : TabletNodesSpec) : Res TabletNodeServer :=
  let ispec := tn_InstanceSpec spec in
  let* n := fillClusterNodeServerCarcass NodeFlavorTablet (tn_ClusterNodesSpec spec) ispec
              (mkResourceLimits (node_memory (is_Resources ispec)) (Some float_zero) (Some float_zero))
              (getTabletNodeLogging spec) in
  ok (mkTabletNodeServer n).
End Carcasses.

(** ** Documents *)

Definition yson_NodeFlavor (f : NodeFlavor) : YtValue :=
  YString match f with
          | NodeFlavorData => "data" | NodeFlavorExec => "exec" | NodeFlavorTablet => "tablet"
          end.

Definition yson_StoreLocation (l : StoreLocation) : YtValue :=
  YMap (field "path" (YString (stl_Path l))
    ++ opt "io_config" yson_IOEngine (stl_IOEngine l)
    ++ field "medium_name" (YString (stl_MediumName l))
    ++ opt_int "quota" (stl_Quota l)
    ++ opt_int "high_watermark" (stl_HighWatermark l)
    ++ opt_int "low_watermark" (stl_LowWatermark l)
    ++ opt_int "disable_writes_watermark" (stl_DisableWritesWatermark l)
    ++ field "trash_cleanup_watermark" (YInt (stl_TrashCleanupWatermark l))
    ++ opt "max_trash_ttl" YInt (stl_MaxTrashTtl l)).

Definition yson_ResourceLimits (l : ResourceLimits) : YtValue :=
  YMap (opt_int "total_memory" (rl_TotalMemory l)
    ++ opt "total_cpu" YFloat (rl_TotalCpu l)
    ++ opt "node_dedicated_cpu" YFloat (rl_NodeDedicatedCpu l)).

Definition yson_CacheLocation (l : CacheLocation) : YtValue :=
  YMap (field "path" (YString (cal_Path l)) ++ opt "io_config" yson_IOEngine (cal_IOEngine l)).

Definition yson_SlotLocation (l : SlotLocation) : YtValue :=
  YMap (field "path" (YString (sll_Path l)) ++ field "medium_name" (YString (sll_MediumName l))
    ++ opt "disk_quota" YInt (sll_DiskQuota l)
    ++ opt "disk_usage_watermark" YInt (sll_DiskUsageWatermark l)
    ++ opt "enable_disk_quota" YBool (sll_EnableDiskQuota l)).

Definition yson_Cache (capacity : Z) : YtValue := YMap (field "capacity" (YInt capacity)).

Definition yson_DataNodeSection (d : DataNodeSection) : YtValue :=
  YMap (field "store_locations" (yson_list yson_StoreLocation (dns_StoreLocations d))
    ++ field "cache_locations" (yson_list yson_CacheLocation (dns_CacheLocations d))
    ++ field "block_cache"
         (YMap (field "compressed_data" (yson_Cache (bc_Compressed (dns_BlockCache d)))
            ++ field "uncompressed_data" (yson_Cache (bc_Uncompressed (dns_BlockCache d)))))
    ++ field "blocks_ext_cache" (yson_Cache (dns_BlocksExtCache d))
    ++ field "chunk_meta_cache" (yson_Cache (dns_ChunkMetaCache d))
    ++ field "block_meta_cache" (yson_Cache (dns_BlockMetaCache d))).

Definition yson_JobEnvironmentType (t : JobEnvironmentType) : YtValue :=
  YString match t with
          | JobEnvironmentTypeSimple => "simple" | JobEnvironmentTypePorto => "porto"
          | JobEnvironmentTypeCRI => "cri"
          end.

Definition yson_CriExecutor (e : CriExecutor) : YtValue :=
  YMap (fields_RetryingChannel (cre_RetryingChannel e)
    ++ opt_string "runtime_endpoint" (cre_RuntimeEndpoint e)
    ++ opt_string "image_endpoint" (cre_ImageEndpoint e)
    ++ field "namespace" (YString (cre_Namespace e))
    ++ field "base_cgroup" (YString (cre_BaseCgroup e))
    ++ opt_string "runtime_handler" (cre_RuntimeHandler e)
    ++ opt_int "cpu_period" (cre_CpuPeriod e)).

(** The tags are those of the source: two fields have the tag
    [managed_prefixes], and one is not in snake case. *)
Definition yson_CriImageCache (c : CriImageCache) : YtValue :=
  YMap (opt "capacity" YInt (cic_Capacity c)
    ++ opt_list "managed_prefixes" YString (cic_ManagedPrefixes c)
    ++ opt_list "managed_prefixes" YString (cic_UnmanagedPrefixes c)
    ++ opt_list "pinned_image" YString (cic_PinnedImages c)
    ++ opt "always_pull_latest" YBool (cic_AlwaysPullLatest c)
    ++ opt_int "pullPeriod" (cic_PullPeriod c)
    ++ opt "image_size_estimation" YInt (cic_ImageSizeEstimation c)
    ++ opt "image_compression_ratio_estimation" YFloat (cic_ImageCompressionRatioEstimation c)
    ++ opt "younger_size_fraction" YFloat (cic_YoungerSizeFraction c)).

Definition yson_JobEnvironment (e : JobEnvironment) : YtValue :=
  YMap (field "type" (yson_JobEnvironmentType (jen_Type e))
    ++ opt_int "start_uid" (jen_StartUID e)
    ++ opt "cri_executor" yson_CriExecutor (jen_CriExecutor e)
    ++ opt "cri_image_cache" yson_CriImageCache (jen_CriImageCache e)
    ++ opt_string "job_proxy_image" (jen_JobProxyImage e)
    ++ opt_list "job_proxy_bind_mounts" yson_BindMount (jen_JobProxyBindMounts e)
    ++ opt "use_job_proxy_from_image" YBool (jen_UseJobProxyFromImage e)).

Definition yson_SlotManager (m : SlotManager) : YtValue :=
  YMap (field "locations" (yson_list yson_SlotLocation (slm_Locations m))
    ++ field "job_environment" (yson_JobEnvironment (slm_JobEnvironment m))
    ++ opt "do_not_set_user_id" YBool (slm_DoNotSetUserId m)
    ++ opt "enable_tmpfs" YBool (slm_EnableTmpfs m)
    ++ opt "detached_tmpfs_umount" YBool (slm_DetachedTmpfsUmount m)).

Definition yson_GpuManager (t : GpuInfoSourceType) : YtValue :=
  YMap (field "gpu_info_source"
    (YMap (field "type"
      (YString match t with
               | GpuInfoSourceTypeNvGpuManager => "nv_gpu_manager"
               | GpuInfoSourceTypeNvidiaSmi => "nvidia_smi"
               end)))).

Definition yson_JobResourceLimits (slots : option Z) : YtValue := YMap (opt "user_slots" YInt slots).

Definition yson_JobProxy (p : JobProxy) : YtValue :=
  YMap (field "job_proxy_authentication_manager" (yson_Auth (jp_JobProxyAuthenticationManager p))
    ++ field "job_proxy_logging" (yson_Logging (jp_JobProxyLogging p))
    ++ opt "forward_all_environment_variables" YBool (jp_ForwardAllEnvironmentVariables p)).

(** The legacy fields repeat the others. *)
Definition yson_ExecNodeSection (slots : option Z) (n : ExecNodeSection) : YtValue :=
  YMap (field "slot_manager" (yson_SlotManager (ens_SlotManager n))
    ++ field "gpu_manager" (yson_GpuManager (ens_GpuInfoSourceType n))
    ++ field "job_controller"
         (YMap (field "resource_limits" (yson_JobResourceLimits slots)
            ++ field "gpu_manager" (yson_GpuManager (ens_GpuInfoSourceType n))))
    ++ field "job_proxy" (yson_JobProxy (ens_JobProxy n))
    ++ field "job_proxy_authentication_manager" (yson_Auth (jp_JobProxyAuthenticationManager (ens_JobProxy n)))
    ++ field "job_proxy_logging" (yson_Logging (jp_JobProxyLogging (ens_JobProxy n)))
    ++ opt "do_not_set_user_id" YBool (slm_DoNotSetUserId (ens_SlotManager n))
    ++ opt "forward_all_environment_variables" YBool (jp_ForwardAllEnvironmentVariables (ens_JobProxy n))
    ++ opt "use_artifact_binds" YBool (ens_UseArtifactBindsLegacy n)).

Definition fields_NodeServer (n : NodeServer) : fields :=
  fields_CommonServer (ns_CommonServer n)
  ++ field "flavors" (yson_list yson_NodeFlavor (ns_Flavors n))
  ++ field "resource_limits" (yson_ResourceLimits (ns_ResourceLimits n))
  ++ opt_list "tags" YString (ns_Tags n)
  ++ opt_string "rack" (ns_Rack n)
  ++ field "skynet_http_port" (YInt (ns_SkynetHttpPort n)).

Definition yson_DataNodeServer (c : DataNodeServer) : YtValue :=
  YMap (fields_NodeServer (dnsv_NodeServer c)
    ++ field "data_node" (yson_DataNodeSection (dnsv_DataNode c))).

Definition yson_ExecNodeServer (c : ExecNodeServer) : YtValue :=
  YMap (fields_NodeServer (ensv_NodeServer c)
    ++ field "job_resource_manager"
         (YMap (field "resource_limits" (yson_JobResourceLimits (ensv_UserSlots c))))
    ++ field "exec_node" (yson_ExecNodeSection (ensv_UserSlots c) (ensv_ExecNode c))
    ++ field "data_node" (yson_DataNodeSection (ensv_DataNode c))
    ++ field "tablet_node" (YMap (field "versioned_chunk_meta_cache" (yson_Cache 0)))
    ++ field "caching_object_service" (yson_Cache 0)).

Definition yson_TabletNodeServer (c : TabletNodeServer) : YtValue :=
  YMap (fields_NodeServer (tnsv_NodeServer c) ++ field "caching_object_service" (yson_Cache 0)).

(** ** The node generators of generator.go and cri.go *)

Section NodeGenerators.
Context `{U : Uuid} `{QF : Quantities} `{YP : YsonPretty}.
Context (g : BaseGenerator).

(** The common part of a server: the service and the bus. *)
Definition fillServer (c : CommonServer) (spec : InstanceSpec) : Res CommonServer :=
  let* c := fillCommonService g c spec in
  ok (fillBusServer g c (is_NativeTransport spec)).

Definition fillNode (n : NodeServer) (spec : InstanceSpec) : Res NodeServer :=
  let* c := fillServer (ns_CommonServer n) spec in
  ok (set_ns_CommonServer c n).

Definition fill_store (l : StoreLocation) : StoreLocation :=
  mkStoreLocation (stl_Path l) (fillIOEngine g (stl_IOEngine l)) (stl_MediumName l) (stl_Quota l)
    (stl_HighWatermark l) (stl_LowWatermark l) (stl_DisableWritesWatermark l)
    (stl_TrashCleanupWatermark l) (stl_MaxTrashTtl l).
Definition fill_cache (l : CacheLocation) : CacheLocation :=
  mkCacheLocation (cal_Path l) (fillIOEngine g (cal_IOEngine l)).

Definition getDataNodeConfigImpl (spec : DataNodesSpec) : Res DataNodeServer :=
  let* c := getDataNodeServerCarcass spec in
  let d := dnsv_DataNode c in
  let* n := fillNode (dnsv_NodeServer c) (dn_InstanceSpec spec) in
  ok (mkDataNodeServer n
    (mkDataNodeSection (fill_store <$> dns_StoreLocations d) (dns_CacheLocations d) (dns_BlockCache d)
       (dns_BlocksExtCache d) (dns_ChunkMetaCache d) (dns_BlockMetaCache d))).

Definition GetDataNodeConfig (spec : DataNodesSpec) : Res string :=
  let* c := getDataNodeConfigImpl spec in marshallYsonConfig (yson_DataNodeServer c).

Definition getExecNodeConfigImpl (spec : ExecNodesSpec) : Res ExecNodeServer :=
  let* c := getExecNodeServerCarcass spec (bg_commonSpec g) in
  let d := ensv_DataNode c in
  let* n := fillNode (ensv_NodeServer c) (en_InstanceSpec spec) in
  ok (mkExecNodeServer n (ensv_UserSlots c) (ensv_ExecNode c)
    (mkDataNodeSection (dns_StoreLocations d) (fill_cache <$> dns_CacheLocations d) (dns_BlockCache d)
       (dns_BlocksExtCache d) (dns_ChunkMetaCache d) (dns_BlockMetaCache d))).

Definition GetExecNodeConfig (spec : ExecNodesSpec) : Res string :=
  let* c := getExecNodeConfigImpl spec in marshallYsonConfig (yson_ExecNodeServer c).

Definition getTabletNodeConfigImpl (spec : TabletNodesSpec) : Res TabletNodeServer :=
  let* c := getTabletNodeServerCarcass spec in
  let* n := fillNode (tnsv_NodeServer c) (tn_InstanceSpec spec) in
  ok (mkTabletNodeServer n).

Definition GetTabletNodeConfig (spec : TabletNodesSpec) : Res string :=
  let* c := getTabletNodeConfigImpl spec in marshallYsonConfig (yson_TabletNodeServer c).

(** The configuration of containerd is a map of maps, written in the order of
    their keys. *)
Definition containerd_config (spec : ExecNodesSpec) (criSpec : CRIJobEnvironmentSpec) : YtValue :=
  let rootPath :=
    loc_Path <$> FindFirstLocation (is_Locations (en_InstanceSpec spec)) LocationTypeImageCache in
  YMap
    [("grpc", YMap [("address", YString (GetContainerdSocketPath spec)); ("gid", YInt 0); ("uid", YInt 0)]);
     ("plugins", YMap
       [("io.containerd.grpc.v1.cri", YMap
          [("cni", YMap [("bin_dir", YString "/usr/local/lib/cni"); ("conf_dir", YString "/etc/cni/net.d")]);
           ("containerd", YMap
             [("default_runtime_name", YString "runc");
              ("runtimes", YMap
                [("runc", YMap
                   [("options", YMap [("SystemdCgroup", YBool false)]);
                    ("runtime_type", YString "io.containerd.runc.v2");
                    ("sandbox_mode", YString "podsandbox")])])]);
           ("image_pull_progress_timeout", YString "5m0s");
           ("registry", YMap [("config_path", yson_pointer YString (cri_RegistryConfigPath criSpec))]);
           ("restrict_oom_score_adj", YBool true);
           ("sandbox_image", yson_pointer YString (cri_SandboxImage criSpec))])]);
     ("root", yson_pointer YString rootPath); ("version", YInt 2)].

Definition GetContainerdConfig (spec : ExecNodesSpec) : Res string :=
  let* environment := deref (en_JobEnvironment spec) in
  let* criSpec := deref (je_CRI environment) in
  marshallYsonConfig (containerd_config spec criSpec).
End NodeGenerators.
