(* ===== verification/YtsaurusClient.v ===== *)
(** * The YT client component: pkg/components/ytsaurus_client.go

    [YtsaurusClient] talks to the cluster during an update: it checks that the
    update is possible, enables and disables the safe mode, saves, removes and
    recovers the tablet cells, and builds the snapshots of the masters, each
    time recording the condition the reconciler waits for.  The tokens the
    components keep in their secrets ([pending_secret]) are made here, too. *)

From S2P Require Import Prelude GoPath Api Kube Conditions Samples CellId Labeller Names Proxy Component Resources ConfigHelper Server InitJob Observe ServerComponent YtApi.

Definition TokenSecretKey : string := "YT_TOKEN".
Definition YtsaurusOperatorUserName : string := "robot-ytsaurus-k8s-operator".

(** ** Queries and actions of the cluster *)

Section ClientActions.
Context {H E : Type} `{K : Kube E} `{CM : ConditionMeta} `{Y : Yt E}.
Local Abbreviation W := (World H E).

(** The loop over the primary masters: an early answer, or the number of
    leading and of following masters. *)
Fixpoint check_masters (all addresses : list string) (leading following : Z)
    : M W ((bool * string * error) + (Z * Z)) :=
  match addresses with
  | [] => mret (inr (leading, following))
  | primaryMasterAddress :: rest =>
      r ← GetNode THydra
            ("//sys/primary_masters/" +:+ primaryMasterAddress +:+ "/orchid/monitoring/hydra")%string false;
      match r with
      | inl err => mret (inl (false, ""%string, Some err))
      | inr hydra =>
          if negb (mh_Active hydra) then
            mret (inl (false, ("There is a non-active master: " +:+ sprint_strings all)%string, None))
          else
            if decide (mh_State hydra = MasterStateLeading) then
              check_masters all rest (leading + 1) following
            else if decide (mh_State hydra = MasterStateFollowing) then
              check_masters all rest leading (following + 1)
            else check_masters all rest leading following
      end
  end.

Definition HandlePossibilityCheck : M W (bool * string * error) :=
  notGoodBundles ← GetNotGoodTabletCellBundles;
  match notGoodBundles with
  | inl err => mret (false, ""%string, Some err)
  | inr notGoodBundles =>
      if decide (0 < length notGoodBundles) then
        mret (false, ("Tablet cell bundles (" +:+ sprint_strings notGoodBundles +:+
                        ") aren't in 'good' health")%string, None)
      else
        lvc ← GetNode TInt "//sys/lost_vital_chunks/@count" false;
        match lvc with
        | inl err => mret (false, ""%string, Some err)
        | inr lvcCount =>
            if (0 <? lvcCount)%Z then
              mret (false, ("There are lost vital chunks: " +:+ pretty (lvcCount : Z))%string, None)
            else
              qmc ← GetNode TInt "//sys/quorum_missing_chunks/@count" false;
              match qmc with
              | inl err => mret (false, ""%string, Some err)
              | inr qmcCount =>
                  if (0 <? qmcCount)%Z then
                    mret (false, ("There are quorum missing chunks: " +:+ pretty (qmcCount : Z))%string, None)
                  else
                    addresses ← ListNode TString "//sys/primary_masters" [];
                    match addresses with
                    | inl err => mret (false, ""%string, Some err)
                    | inr primaryMasterAddresses =>
                        r ← check_masters primaryMasterAddresses primaryMasterAddresses 0 0;
                        match r with
                        | inl answer => mret answer
                        | inr (leadingPrimaryMasterCount, followingPrimaryMasterCount) =>
                            if negb ((leadingPrimaryMasterCount =? 1) &&
                                     (followingPrimaryMasterCount + 1 =?
                                        Z.of_nat (length primaryMasterAddresses)))%Z
                            then mret (false, "There is no leader or some peer is not active"%string, None)
                            else mret (true, "Update is possible"%string, None)
                        end
                    end
              end
        end
  end.

Definition EnableSafeMode : M W error := outside (yt_SetNode "//sys/@enable_safe_mode" (YBool true)).
Definition DisableSafeMode : M W error := outside (yt_SetNode "//sys/@enable_safe_mode" (YBool false)).

Definition GetTabletCells : M W (string + list TabletCellBundleInfo) :=
  ListNode TBundleInfo "//sys/tablet_cell_bundles" ["tablet_cell_count"].

Fixpoint remove_cells (tabletCells : list string) : M W error :=
  match tabletCells with
  | [] => mret None
  | tabletCell :: rest =>
      err ← outside (yt_RemoveNode ("//sys/tablet_cells/" +:+ tabletCell)%string);
      match err with
      | Some _ => mret err
      | None => remove_cells rest
      end
  end.

Definition RemoveTabletCells : M W error :=
  tabletCells ← ListNode TString "//sys/tablet_cells" [];
  match tabletCells with
  | inl err => mret (Some err)
  | inr tabletCells => remove_cells tabletCells
  end.

Definition AreTabletCellsRemoved : M W (bool * error) :=
  tabletCells ← ListNode TString "//sys/tablet_cells" [];
  match tabletCells with
  | inl err => mret (false, Some err)
  | inr tabletCells => mret (bool_decide (length tabletCells = 0), None)
  end.

Fixpoint RecoverTableCells (bundles : list TabletCellBundleInfo) : M W error :=
  match bundles with
  | [] => mret None
  | bundle :: rest =>
      err ← CreateTabletCells (tcb_Name bundle) (tcb_TabletCellCount bundle);
      match err with
      | Some _ => mret err
      | None => RecoverTableCells rest
      end
  end.

(** [getAllMasters]: the secondary masters before the primary one. *)
Definition getAllMasters : M W (string + list MasterInfo) :=
  primary ← GetNode TMaster "//sys/@cluster_connection/primary_master" true;
  match primary with
  | inl err => mret (inl err)
  | inr primaryMaster =>
      spec ← gets (fun w => sp_SecondaryMasters (yt_Spec (resource w)));
      if decide (0 < length spec) then
        secondary ← GetNode TMasters "//sys/@cluster_connection/secondary_masters" true;
        match secondary with
        | inl err => mret (inl err)
        | inr secondaryMasters => mret (inr (secondaryMasters ++ [primaryMaster]))
        end
      else mret (inr [primaryMaster])
  end.

Definition monitoring_path (address : string) : string :=
  ("//sys/cluster_masters/" +:+ address +:+ "/orchid/monitoring/hydra")%string.

Definition GetMasterMonitoringPaths : M W (string + list string) :=
  mastersInfo ← getAllMasters;
  match mastersInfo with
  | inl err => mret (inl err)
  | inr mastersInfo =>
      mret (inr (mastersInfo ≫= (fun masterInfo => monitoring_path <$> mi_Addresses masterInfo)))
  end.

Definition getMasterHydra (path : string) : M W (string + MasterHydra) := GetNode THydra path true.

(** The loop of [StartBuildMasterSnapshots]: whether all masters are read only. *)
Fixpoint all_read_only (monitoringPaths : list string) : M W (string + bool) :=
  match monitoringPaths with
  | [] => mret (inr true)
  | monitoringPath :: rest =>
      r ← getMasterHydra monitoringPath;
      match r with
      | inl err => mret (inl err)
      | inr masterHydra =>
          if negb (mh_ReadOnly masterHydra) then mret (inr false) else all_read_only rest
      end
  end.

Definition StartBuildMasterSnapshots (monitoringPaths : list string) : M W error :=
  r ← all_read_only monitoringPaths;
  match r with
  | inl err => mret (Some err)
  | inr allMastersReadOnly =>
      if (allMastersReadOnly : bool) then mret None
      else outside (yt_BuildMasterSnapshots false true)
  end.

Fixpoint AreMasterSnapshotsBuilt (monitoringPaths : list string) : M W (bool * error) :=
  match monitoringPaths with
  | [] => mret (true, None)
  | monitoringPath :: rest =>
      r ← GetNode THydra monitoringPath true;
      match r with
      | inl err => mret (false, Some err)
      | inr masterHydra =>
          if negb (mh_LastSnapshotReadOnly masterHydra) then mret (false, None)
          else AreMasterSnapshotsBuilt rest
      end
  end.
End ClientActions.

(** ** The component *)

Record YtsaurusClient (H E : Type) := mkYtsaurusClient {
  ycl_labeller : Labeller;
  ycl_cfgen : Generator;
  ycl_httpProxy : Component (World H E);
  ycl_initUserJob : InitJob H E;
  ycl_secret : Handle H KSecret;
  (** [ytClient <> nil]. *)
  ycl_ytClient : Ref H bool;
}.
Arguments ycl_labeller {H E} _. Arguments ycl_cfgen {H E} _. Arguments ycl_httpProxy {H E} _.
Arguments ycl_initUserJob {H E} _. Arguments ycl_secret {H E} _. Arguments ycl_ytClient {H E} _.

(** The configuration generator of pkg/ytconfig is a parameter of the job. *)
Definition NewYtsaurusClient {H E} `{K : Kube E} `{CM : ConditionMeta} (vars : InitJobVars H)
    (secret_old secret_new : Ref H Secret) (client : Ref H bool) (cfgen : Generator)
    (GetNativeClientConfig : Ytsaurus -> string + string) (httpProxy : Component (World H E))
    (resource : Ytsaurus) : YtsaurusClient H E :=
  let l := mkLabeller (yt_Name resource) (yt_Namespace resource) "yt-client" "YtsaurusClient"
             (cs_ExtraPodAnnotations (sp_CommonSpec (yt_Spec resource))) in
  mkYtsaurusClient H E l cfgen httpProxy
    (NewInitJob vars l Ytsaurus_conditions (cs_ImagePullSecrets (sp_CommonSpec (yt_Spec resource))) "user"
       ClientConfigFileName (cs_CoreImage (sp_CommonSpec (yt_Spec resource))) GetNativeClientConfig)
    (mkHandle H KSecret (GetSecretName l) secret_old secret_new) client.

Section Client.
Context {H E : Type} `{K : Kube E} `{CM : ConditionMeta} `{CO : Codec} `{Y : Yt E} `{EN : Entropy E}.
Local Abbreviation W := (World H E).
Implicit Types yc : YtsaurusClient H E.

Definition updating : ComponentStatus := SimpleStatus SyncStatusUpdating.

(** Setting a condition of the update and reporting [Updating]. *)
Definition acknowledge (type_ msg : string) : M W SyncResult :=
  _ ← SetUpdateStatusCondition (mkCondition type_ ConditionTrue 0 "Update" msg);
  mret (updating, None).

(** [if !IsUpdateStatusConditionTrue(t) { ... }]; an acknowledged state falls
    to the end of the method. *)
Definition unless_acknowledged (t : string) (body : M W SyncResult) : M W SyncResult :=
  done ← IsUpdateStatusConditionTrue t;
  if (done : bool) then mret (updating, None) else body.

(** [err := action(ctx); if err != nil { return Updating, err }]. *)
Definition acting (action : M W error) (rest : M W SyncResult) : M W SyncResult :=
  err ← action;
  match err with
  | Some _ => mret (updating, err)
  | None => rest
  end.

Definition check_possibility : M W SyncResult :=
  '(ok, msg, err) ← HandlePossibilityCheck;
  match err with
  | Some _ => mret (updating, err)
  | None => acknowledge (if (ok : bool) then ConditionHasPossibility else ConditionNoPossibility) msg
  end.

Definition save_tablet_cells : M W SyncResult :=
  r ← GetTabletCells;
  match r with
  | inl err => mret (updating, Some err)
  | inr tabletCellBundles =>
      _ ← modify (set_updateStatus (set_us_TabletCellBundles tabletCellBundles));
      acknowledge ConditionTabletCellsSaved "Tablet cells were saved"
  end.

Definition await_cells_removed : M W SyncResult :=
  '(removed, err) ← AreTabletCellsRemoved;
  match err with
  | Some _ => mret (updating, err)
  | None =>
      if negb removed then mret (updating, None)
      else acknowledge ConditionTabletCellsRemoved "Tablet cells were removed"
  end.

(** The three steps of [UpdateStateWaitingForSnapshots]. *)
Definition save_monitoring_paths (rest : M W SyncResult) : M W SyncResult :=
  saved ← IsUpdateStatusConditionTrue ConditionSnapshotsMonitoringInfoSaved;
  if negb saved then
    r ← GetMasterMonitoringPaths;
    match r with
    | inl err => mret (updating, Some err)
    | inr monitoringPaths =>
        _ ← modify (set_updateStatus (set_us_MasterMonitoringPaths monitoringPaths));
        _ ← SetUpdateStatusCondition (mkCondition ConditionSnapshotsMonitoringInfoSaved ConditionTrue 0
              "Update" "Snapshots monitoring info saved");
        rest
    end
  else rest.

Definition start_snapshots (rest : M W SyncResult) : M W SyncResult :=
  started ← IsUpdateStatusConditionTrue ConditionSnapshotsBuildingStarted;
  if negb started then
    paths ← gets (fun w => us_MasterMonitoringPaths (updateStatus w));
    acting (StartBuildMasterSnapshots paths)
      (_ ← SetUpdateStatusCondition (mkCondition ConditionSnapshotsBuildingStarted ConditionTrue 0
             "Update" "Snapshots building started");
       rest)
  else rest.

Definition await_snapshots : M W SyncResult :=
  paths ← gets (fun w => us_MasterMonitoringPaths (updateStatus w));
  '(built, err) ← AreMasterSnapshotsBuilt paths;
  match err with
  | Some _ => mret (updating, err)
  | None =>
      if negb built then mret (updating, None)
      else acknowledge ConditionSnaphotsSaved "Master snapshots were built"
  end.

Definition handleUpdatingState : M W SyncResult :=
  state ← GetUpdateState;
  match state with
  | UpdateStatePossibilityCheck =>
      unless_acknowledged ConditionHasPossibility
        (unless_acknowledged ConditionNoPossibility check_possibility)
  | UpdateStateWaitingForSafeModeEnabled =>
      unless_acknowledged ConditionSafeModeEnabled
        (acting EnableSafeMode (acknowledge ConditionSafeModeEnabled "Safe mode was enabled"))
  | UpdateStateWaitingForTabletCellsSaving =>
      unless_acknowledged ConditionTabletCellsSaved save_tablet_cells
  | UpdateStateWaitingForTabletCellsRemovingStart =>
      unless_acknowledged ConditionTabletCellsRemovingStarted
        (acting RemoveTabletCells
           (acknowledge ConditionTabletCellsRemovingStarted "Tablet cells removing was started"))
  | UpdateStateWaitingForTabletCellsRemoved =>
      unless_acknowledged ConditionTabletCellsRemoved await_cells_removed
  | UpdateStateWaitingForSnapshots =>
      unless_acknowledged ConditionSnaphotsSaved
        (save_monitoring_paths (start_snapshots await_snapshots))
  | UpdateStateWaitingForTabletCellsRecovery =>
      unless_acknowledged ConditionTabletCellsRecovered
        (bundles ← gets (fun w => us_TabletCellBundles (updateStatus w));
         acting (RecoverTableCells bundles)
           (acknowledge ConditionTabletCellsRecovered "Tablet cells recovered"))
  | UpdateStateWaitingForSafeModeDisabled =>
      unless_acknowledged ConditionSafeModeDisabled
        (acting DisableSafeMode (acknowledge ConditionSafeModeDisabled "Safe mode disabled"))
  | _ => mret (updating, None)
  end.

(** [ytconfig.RandString]. *)
Definition RandString (n : nat) : M W string :=
  b ← outside (rand_Read n);
  match b with
  | None => panic
  | Some b => mret (b64_encode b)
  end.

(** The first build of the token: [StringData] is sent, [Data] comes back
    with the next fetch. *)
Definition sync_secret (l : Labeller) (secret : Handle H KSecret) : M W error :=
  s ← StringSecret_Build l secret;
  token ← RandString 30;
  o ← read s;
  _ ← write s (mkSecret (sec_ObjectMeta o) (sec_Type o) (sec_Data o) {[ TokenSecretKey := token ]});
  Resources.Sync secret.

(** [if secret.NeedSync(TokenSecretKey, "") { ... }]. *)
Definition pending_secret (l : Labeller) (secret : Handle H KSecret) (dry : bool)
    (rest : M W SyncResult) : M W SyncResult :=
  pending (StringSecret_NeedSync secret TokenSecretKey "") (hd_name secret) dry (sync_secret l secret) rest.

Definition createInitUserScript yc : M W string :=
  '(token, _) ← StringSecret_GetValue (ycl_secret yc) TokenSecretKey;
  mret (initJobWithNativeDriverPrologue +:+ NL +:+
          String.concat NL (createUserCommand YtsaurusOperatorUserName "" token true))%string.

(** The creation of [yc.ytClient]; [LookupEnv] overrides the proxy. *)
Definition init_ytClient yc : M W error :=
  '(token, _) ← StringSecret_GetValue (ycl_secret yc) TokenSecretKey;
  env ← gets (fun w => os_LookupEnv "YTOP_PROXY" (ext w));
  let proxy := default (GetHTTPProxiesAddress (ycl_cfgen yc) DefaultHTTPProxyRole) env in
  let disableProxyDiscovery := match env with Some _ => true | None => false end in
  err ← gets (fun w => ythttp_NewClient proxy token disableProxyDiscovery (ext w));
  _ ← write (ycl_ytClient yc) (no_error err);
  mret err.

Definition YtsaurusClient_doSync yc (dry : bool) : M W SyncResult :=
  await_running (ycl_httpProxy yc)
  (pending_secret (ycl_labeller yc) (ycl_secret yc) dry
  (_ ← (if dry then mret tt
        else script ← createInitUserScript yc; SetInitScript (ycl_initUserJob yc) script);
   '(status, err) ← InitJob_Sync (ycl_initUserJob yc) dry;
   if negb (no_error err) || negb (bool_decide (cst_SyncStatus status = SyncStatusReady)) then
     mret (status, err)
   else
     client ← read (ycl_ytClient yc);
     err ← (if (client : bool) then mret None else init_ytClient yc);
     match err with
     | Some _ => mret (WaitingStatus SyncStatusPending "ytClient init", err)
     | None =>
         state ← GetClusterState;
         if decide (state = ClusterStateUpdating) then
           us ← GetUpdateState;
           if decide (us = UpdateStateImpossibleToStart) then ready
           else if dry then mret (updating, None)
           else handleUpdatingState
         else ready
     end)).

Definition YtsaurusClient_Fetch yc : M W error :=
  in_order [Fetch (ycl_secret yc); InitJob_Fetch (ycl_initUserJob yc); cmp_Fetch (ycl_httpProxy yc)].

Definition YtsaurusClient_component yc : Component W :=
  component_of (lb_ComponentName (ycl_labeller yc)) YtsaurusClientType false (ycl_labeller yc)
    (YtsaurusClient_Fetch yc) (YtsaurusClient_doSync yc).
End Client.

(** Drawing random bytes does not touch the Kubernetes resource. *)
Class EntropyLaws (E : Type) (K : Kube E) (KL : KubeLaws E K) (EN : Entropy E) :=
  rand_persisted : forall n e, persisted (rand_Read n e).2 = persisted e.

(** ** Frames *)

Section ClientFrames.
Context {H E : Type} `{K : Kube E} `{CM : ConditionMeta} `{CO : Codec} `{Y : Yt E} `{EN : Entropy E}.
Context `{KL : !KubeLaws E K} `{CL : !ConditionMetaLaws CM} `{YL : !YtLaws E K KL Y}.
Context `{EL : !EntropyLaws E K KL EN}.
Local Abbreviation W := (World H E).

Lemma set_node_quiet p v : preserves quiet (outside (yt_SetNode p v) : M W error).
Proof. apply preserves_outside, yt_set_persisted. Qed.
Lemma remove_node_quiet p : preserves quiet (outside (yt_RemoveNode p) : M W error).
Proof. apply preserves_outside, yt_remove_persisted. Qed.
Lemma create_object_quiet t a i : preserves quiet (outside (yt_CreateObject t a i) : M W error).
Proof. apply preserves_outside, yt_object_persisted. Qed.
Lemma snapshots_quiet a b : preserves quiet (outside (yt_BuildMasterSnapshots a b) : M W error).
Proof. apply preserves_outside, yt_snapshots_persisted. Qed.
Lemma GetNode_quiet t p b : preserves quiet (GetNode t p b : M W _).
Proof. apply preserves_gets, _. Qed.
Lemma ListNode_quiet t p a : preserves quiet (ListNode t p a : M W _).
Proof. apply preserves_gets, _. Qed.
Lemma random_quiet n : preserves quiet (RandString n : M W string).
Proof.
  unfold RandString. eapply preserves_bind; [tc_solve| |intros []; solve_frame].
  apply preserves_outside, rand_persisted.
Qed.

#[local] Hint Resolve set_node_quiet remove_node_quiet create_object_quiet snapshots_quiet
  GetNode_quiet ListNode_quiet random_quiet : frame.

Lemma create_cells_quiet b n : preserves quiet (create_cells b n : M W error).
Proof. induction n; simpl; solve_frame. Qed.
#[local] Hint Resolve create_cells_quiet : frame.

Lemma CreateTabletCells_quiet b n : preserves quiet (CreateTabletCells b n : M W error).
Proof. unfold CreateTabletCells. solve_frame. Qed.
#[local] Hint Resolve CreateTabletCells_quiet : frame.

Lemma RecoverTableCells_quiet l : preserves quiet (RecoverTableCells l : M W error).
Proof. induction l; simpl; solve_frame. Qed.
Lemma remove_cells_quiet l : preserves quiet (remove_cells l : M W error).
Proof. induction l; simpl; solve_frame. Qed.
Lemma all_read_only_quiet l : preserves quiet (all_read_only l : M W _).
Proof. induction l; simpl; unfold getMasterHydra; solve_frame. Qed.
Lemma AreMasterSnapshotsBuilt_quiet l : preserves quiet (AreMasterSnapshotsBuilt l : M W _).
Proof. induction l; simpl; solve_frame. Qed.
Lemma check_masters_quiet a l x y : preserves quiet (check_masters a l x y : M W _).
Proof. revert x y. induction l; intros; simpl; solve_frame. Qed.
#[local] Hint Resolve RecoverTableCells_quiet remove_cells_quiet all_read_only_quiet
  AreMasterSnapshotsBuilt_quiet check_masters_quiet : frame.

Lemma HandlePossibilityCheck_quiet : preserves quiet (HandlePossibilityCheck : M W _).
Proof. unfold HandlePossibilityCheck, GetNotGoodTabletCellBundles. solve_frame. Qed.
Lemma RemoveTabletCells_quiet : preserves quiet (RemoveTabletCells : M W error).
Proof. unfold RemoveTabletCells. solve_frame. Qed.
Lemma AreTabletCellsRemoved_quiet : preserves quiet (AreTabletCellsRemoved : M W _).
Proof. unfold AreTabletCellsRemoved. solve_frame. Qed.
Lemma GetTabletCells_quiet : preserves quiet (GetTabletCells : M W _).
Proof. apply (ListNode_quiet TBundleInfo). Qed.
Lemma GetMasterMonitoringPaths_quiet : preserves quiet (GetMasterMonitoringPaths : M W _).
Proof. unfold GetMasterMonitoringPaths, getAllMasters. solve_frame. Qed.
Lemma StartBuildMasterSnapshots_quiet l : preserves quiet (StartBuildMasterSnapshots l : M W error).
Proof. unfold StartBuildMasterSnapshots. solve_frame. Qed.
Lemma EnableSafeMode_quiet : preserves quiet (EnableSafeMode : M W error).
Proof. unfold EnableSafeMode. solve_frame. Qed.
Lemma DisableSafeMode_quiet : preserves quiet (DisableSafeMode : M W error).
Proof. unfold DisableSafeMode. solve_frame. Qed.
End ClientFrames.

#[export] Hint Resolve set_node_quiet remove_node_quiet create_object_quiet snapshots_quiet
  GetNode_quiet ListNode_quiet random_quiet CreateTabletCells_quiet RecoverTableCells_quiet
  AreMasterSnapshotsBuilt_quiet HandlePossibilityCheck_quiet RemoveTabletCells_quiet
  AreTabletCellsRemoved_quiet GetTabletCells_quiet GetMasterMonitoringPaths_quiet
  StartBuildMasterSnapshots_quiet EnableSafeMode_quiet DisableSafeMode_quiet : frame.

Section ClientLaws.
Context {H E : Type} `{K : Kube E} `{CM : ConditionMeta} `{CO : Codec} `{Y : Yt E} `{EN : Entropy E}.
Context `{KL : !KubeLaws E K} `{CL : !ConditionMetaLaws CM} `{YL : !YtLaws E K KL Y}.
Context `{EL : !EntropyLaws E K KL EN}.
Local Abbreviation W := (World H E).

(** The saved cells and paths are not part of the control state. *)
Lemma save_bundles_frame v :
  preserves update_frame (modify (set_updateStatus (set_us_TabletCellBundles v)) : M W unit).
Proof. apply preserves_modify. by intros w Hs. Qed.
Lemma save_paths_frame v :
  preserves update_frame (modify (set_updateStatus (set_us_MasterMonitoringPaths v)) : M W unit).
Proof. apply preserves_modify. by intros w Hs. Qed.
#[local] Hint Resolve save_bundles_frame save_paths_frame : frame.

Lemma handleUpdatingState_frame : preserves update_frame (handleUpdatingState : M W SyncResult).
Proof.
  unfold handleUpdatingState, save_monitoring_paths, start_snapshots, await_snapshots,
    check_possibility, save_tablet_cells, await_cells_removed, unless_acknowledged, acting, acknowledge.
  solve_frame.
Qed.

Lemma pending_secret_frame l secret dry (rest : M W SyncResult) :
  preserves frame rest -> preserves frame (pending_secret l secret dry rest).
Proof. intros. unfold pending_secret, sync_secret. solve_component. Qed.
#[local] Hint Resolve pending_secret_frame : frame.

#[export] Instance YtsaurusClient_laws (yc : YtsaurusClient H E) :
  ComponentLaws (ycl_httpProxy yc) -> ConditionManagerFrame (ij_conditionsManager (ycl_initUserJob yc)) ->
  ComponentLaws (YtsaurusClient_component yc : Component W).
Proof.
  intros Hp Hc. apply component_of_laws; [unfold YtsaurusClient_Fetch; solve_frame|]. intros dry.
  pose proof handleUpdatingState_frame.
  unfold YtsaurusClient_doSync, createInitUserScript, init_ytClient. solve_component.
  apply pending_secret_frame. solve_component.
Qed.
End ClientLaws.

#[export] Hint Resolve pending_secret_frame : frame.

(** [internalYtsaurusClient]: the component and its YT client, of which the
    callers only need to know whether it is nil. *)
Record internalYtsaurusClient (H E : Type) := mkInternalYtsaurusClient {
  iyc_component : Component (World H E);
  iyc_ytClient : Ref H bool;
}.
Arguments iyc_component {H E} _. Arguments iyc_ytClient {H E} _.

(** ** Tokens *)

(** What the entropy source promises: as many bytes as were asked for. *)
Class RandomBytes (E : Type) (EN : Entropy E) :=
  random_bytes : forall n e b e', rand_Read n e = (Some b, e') -> length b = n /\ Forall is_byte b.

Section Tokens.
Context {H E : Type} `{K : Kube E} `{CM : ConditionMeta} `{CO : Codec} `{EN : Entropy E} `{RB : !RandomBytes E EN}.
Local Abbreviation W := (World H E).

(** The secret, as fetched, is there and holds a token. *)
Definition has_token (secret : Handle H KSecret) (w : W) : bool :=
  let live := load (oldObject secret) (heap w) in
  negb (bool_decide (GetResourceVersion (k:=KSecret) live = "")) &&
  bool_decide (is_Some (sec_Data live !! TokenSecretKey)).

Lemma StringSecret_NeedSync_run (secret : Handle H KSecret) (w : W) :
  StringSecret_NeedSync secret TokenSecretKey "" w = Some (negb (has_token secret w), w).
Proof.
  unfold StringSecret_NeedSync, StringSecret_GetValue, has_token, read.
  rewrite (bind_step _ _ _ _ _ (Exists_run _ w)). destruct (bool_decide _); [done|]. cbn [negb andb].
  rewrite run_assoc, run_gets. by destruct (sec_Data _ !! TokenSecretKey).
Qed.

Lemma pending_secret_run l secret dry rest (w : W) :
  pending_secret l secret dry rest w =
  if has_token secret w then rest w
  else (err ← act dry (sync_secret l secret);
        mret (WaitingStatus SyncStatusPending (hd_name secret), err)) w.
Proof.
  unfold pending_secret, pending. rewrite (bind_step _ _ _ _ _ (StringSecret_NeedSync_run secret w)).
  by destruct (has_token secret w).
Qed.

(** The token that is submitted. *)
Lemma sync_secret_run l secret (w : W) :
  sync_secret l secret w =
  match rand_Read 30 (ext w) with
  | (None, _) => None
  | (Some b, e) =>
      Resources.Sync secret
        (mkWorld (resource w)
           (store (newObject secret)
              (mkSecret (GetObjectMeta l (hd_name secret)) "Opaque" (sec_Data (load (newObject secret) (heap w)))
                 {[ TokenSecretKey := b64_encode b ]})
              (store (newObject secret)
                 (mkSecret (GetObjectMeta l (hd_name secret)) "Opaque" (sec_Data (load (newObject secret) (heap w)))
                    (sec_StringData (load (newObject secret) (heap w)))) (heap w))) e)
  end.
Proof.
  unfold sync_secret, StringSecret_Build, RandString, read, write.
  rewrite !run_assoc, run_gets, !run_assoc, run_modify, run_ret, run_assoc.
  unfold outside. unfold mbind at 1, M_bind at 1. simpl ext.
  destruct (rand_Read 30 (ext w)) as [[b|] e]; [|done].
  rewrite run_ret, run_gets, run_modify. simpl. by rewrite load_store.
Qed.

(** C24. A component (the YT client, the scheduler, the query tracker, the queue
    and YQL agents and the strawberry controller run this code; the UI and the
    releases have code of their own) makes its token once, and makes it strong: a
    token that the secret holds is never replaced, and the component goes on; without one,
    a dry run only says so, and a wet run draws thirty random bytes and submits
    a secret whose only value is their encoding, forty letters, digits, dashes
    or underscores from which the bytes can be read back (so it needs no quoting
    where it is pasted, and keeps all the entropy).  Without random bytes the
    operator panics rather than submit a weak token. *)
Theorem token_made_once (l : Labeller) (secret : Handle H KSecret) (rest : M W SyncResult) (w : W) :
  (has_token secret w = true -> forall dry, pending_secret l secret dry rest w = rest w) /\
  (has_token secret w = false ->
     pending_secret l secret true rest w = Some ((WaitingStatus SyncStatusPending (hd_name secret), None), w) /\
     ((rand_Read 30 (ext w)).1 = None -> pending_secret l secret false rest w = None) /\
     forall st err w', pending_secret l secret false rest w = Some ((st, err), w') ->
       st = WaitingStatus SyncStatusPending (hd_name secret) /\
       exists b e token w1, rand_Read 30 (ext w) = (Some b, e) /\
         ext w1 = e /\ resource w1 = resource w /\
         sec_StringData (load (newObject secret) (heap w1)) = {[ TokenSecretKey := token ]} /\
         String.length token = 40 /\ string_Forall plain_char token /\ b64_decode token = b /\
         Resources.Sync secret w1 = Some (err, w')).
Proof.
  setoid_rewrite pending_secret_run. split; intros ->; [done|]. split; [done|].
  unfold act. unfold mbind, M_bind. rewrite sync_secret_run. split.
  - destruct (rand_Read 30 (ext w)) as [b e]. simpl. by intros ->.
  - intros st err w' Hrun. destruct (rand_Read 30 (ext w)) as [[b|] e] eqn:Hr; [|done].
    destruct (random_bytes _ _ _ _ Hr) as [Hlen Hb]. apply b64_encode_token in Hb as (Hl & Hp & Hd).
    rewrite Hlen in Hl.
    destruct (Resources.Sync secret _) as [[err1 w1]|] eqn:Hs; [|done].
    injection Hrun as <- <- <-. split; [done|].
    match type of Hs with _ ?w2 = _ => exists b, e, (b64_encode b), w2 end.
    split_and!; try done. simpl. by rewrite load_store.
Qed.
End Tokens.

(** A secret to be made, and an entropy source. *)
Module TokenWitness.
Definition E : Type := YtsaurusStatus.
#[export] Instance entropy : Entropy E := fun n e => (Some (repeat 131%Z n), e).
#[export] Instance random : RandomBytes E entropy.
Proof.
  intros n e b e' [= <- _]. split; [apply repeat_length|]. apply Forall_forall.
  intros x Hx%list_elem_of_In%repeat_spec. subst x. by split.
Qed.

Definition heap_t : Type := Secret * Secret.
Definition labeller : Labeller := mkLabeller "minisaurus" "default" "yt-scheduler" "Scheduler" None.
Definition secret : Handle heap_t KSecret := mkHandle heap_t KSecret "yt-scheduler-secret" fst_ref snd_ref.
Definition none : Secret := mkSecret ObjectMeta_zero "" ∅ ∅.
Definition start : World heap_t E :=
  mkWorld (sample_Ytsaurus ClusterStateRunning) (none, none) (sample_Status ClusterStateRunning).
End TokenWitness.

Import RefKube RefMeta TokenWitness.

Lemma token_made_once_witness :
  exists w' token, pending_secret TokenWitness.labeller TokenWitness.secret false ready TokenWitness.start =
      Some ((WaitingStatus SyncStatusPending "yt-scheduler-secret", None), w') /\
    String.length token = 40 /\ b64_decode token = repeat 131%Z 30.
Proof.
  destruct (pending_secret TokenWitness.labeller TokenWitness.secret false ready TokenWitness.start)
    as [[[st err] w']|] eqn:Hrun; [|exfalso; revert Hrun; vm_compute; discriminate].
  destruct (proj2 (token_made_once TokenWitness.labeller TokenWitness.secret ready TokenWitness.start) eq_refl)
    as (_ & _ & Hmade).
  destruct (Hmade _ _ _ Hrun) as (-> & b & e & token & w1 & Hb & _ & _ & _ & Hl & _ & Hd & _).
  exists w', token. vm_compute in Hb. injection Hb as <- _. split; [|by split].
  replace err with (None : error); [done|]. revert Hrun. vm_compute. by intros [= <- _].
Defined.
