(* ===== verification/ClientFacts.v ===== *)
(** * What the YT client component does to the cluster

    The possibility check accepts exactly the healthy clusters, the recovery of
    the tablet cells restores the saved counts and can be repeated, and the
    steps of an update are acknowledged exactly when their action succeeded. *)

From S2P Require Import Prelude GoPath Api Kube Conditions Samples CellId Labeller Names Proxy Component Resources ConfigHelper Server InitJob Observe ServerComponent YtApi YtsaurusClient.

(** ** The possibility check *)

Section Possibility.
Context {H E : Type} `{K : Kube E} `{CM : ConditionMeta} `{Y : Yt E}.
Local Abbreviation W := (World H E).

Definition hydra_path (master : string) : string :=
  ("//sys/primary_masters/" +:+ master +:+ "/orchid/monitoring/hydra")%string.

(** The state of a master as its monitoring reports it. *)
Definition master_active (e : E) (master : string) (h : MasterHydra) : Prop :=
  yt_GetNode THydra (hydra_path master) false e = inr h /\ mh_Active h = true.

(** One master leads and all the others follow. *)
Definition quorum (hs : list MasterHydra) : Prop :=
  exists before leader after, hs = before ++ leader :: after /\
    mh_State leader = MasterStateLeading /\
    Forall (fun h => mh_State h = MasterStateFollowing) (before ++ after).

(** A cluster that can be updated. *)
Record healthy (e : E) : Prop := {
  healthy_bundles : exists bundles,
    yt_ListNode TBundleHealth "//sys/tablet_cell_bundles" ["health"] e = inr bundles /\
    Forall (fun b => tch_Health b = "good"%string) bundles;
  healthy_lost : exists n,
    yt_GetNode TInt "//sys/lost_vital_chunks/@count" false e = inr n /\ (n <= 0)%Z;
  healthy_quorum_missing : exists n,
    yt_GetNode TInt "//sys/quorum_missing_chunks/@count" false e = inr n /\ (n <= 0)%Z;
  healthy_masters : exists masters hs,
    yt_ListNode TString "//sys/primary_masters" [] e = inr masters /\
    Forall2 (master_active e) masters hs /\ quorum hs;
}.

Definition leading (h : MasterHydra) : bool := bool_decide (mh_State h = MasterStateLeading).
Definition following (h : MasterHydra) : bool := bool_decide (mh_State h = MasterStateFollowing).
Definition count (p : MasterHydra -> bool) (hs : list MasterHydra) : Z :=
  Z.of_nat (length (List.filter p hs)).

Ltac unfold_state h :=
  change (leading h) with (bool_decide (mh_State h = MasterStateLeading)) in *;
  change (following h) with (bool_decide (mh_State h = MasterStateFollowing)) in *.

Lemma count_cons p h hs : count p (h :: hs) = ((if p h then 1 else 0) + count p hs)%Z.
Proof. unfold count. simpl. destruct (p h); simpl; lia. Qed.

Lemma states_differ : MasterStateLeading <> MasterStateFollowing.
Proof. discriminate. Qed.

Lemma check_masters_total all ms l f (w : W) : exists r, check_masters all ms l f w = Some (r, w).
Proof.
  revert l f. induction ms as [|m ms IH]; intros l f; simpl; [eauto|].
  unfold GetNode. rewrite run_gets. destruct (yt_GetNode THydra _ _ _) as [err|h]; [eauto|].
  destruct (mh_Active h); simpl; [|eauto]. repeat case_decide; auto.
Qed.

Lemma check_masters_refuses all ms l f answer (w w' : W) :
  check_masters all ms l f w = Some (inl answer, w') -> answer.1.1 = false.
Proof.
  revert l f. induction ms as [|m ms IH]; intros l f; simpl; [done|].
  unfold GetNode. rewrite run_gets. destruct (yt_GetNode THydra _ _ _) as [err|h]; [by intros [= <- _]|].
  destruct (mh_Active h); simpl; [|by intros [= <- _]]. repeat case_decide; apply IH.
Qed.

Lemma check_masters_counts all ms l f l' f' (w : W) :
  check_masters all ms l f w = Some (inr (l', f'), w) <->
  exists hs, Forall2 (master_active (ext w)) ms hs /\
    l' = (l + count leading hs)%Z /\ f' = (f + count following hs)%Z.
Proof.
  revert l f. induction ms as [|m ms IH]; intros l f; simpl.
  { split.
    - intros [= -> ->]. exists []. rewrite !Z.add_0_r. split; [constructor|done].
    - intros (hs & Hhs & -> & ->). apply Forall2_nil_inv_l in Hhs as ->.
      unfold count. simpl. by rewrite !Z.add_0_r. }
  unfold GetNode. rewrite run_gets. fold (hydra_path m).
  destruct (yt_GetNode THydra (hydra_path m) false (ext w)) as [err|h] eqn:Hh.
  { split; [done|]. intros (hs & Hhs & _). apply Forall2_cons_inv_l in Hhs as (h & hs' & [Hr _] & _).
    congruence. }
  destruct (mh_Active h) eqn:Ha; simpl.
  2:{ split; [done|]. intros (hs & Hhs & _). apply Forall2_cons_inv_l in Hhs as (h' & hs' & [Hr Ha'] & _).
      congruence. }
  assert (forall l2 f2,
    (check_masters all ms l2 f2 w = Some (inr (l', f'), w)) ->
    l2 = (l + if leading h then 1 else 0)%Z -> f2 = (f + if following h then 1 else 0)%Z ->
    exists hs, Forall2 (master_active (ext w)) (m :: ms) hs /\
      l' = (l + count leading hs)%Z /\ f' = (f + count following hs)%Z) as Hto.
  { intros l2 f2 Hrun -> ->. apply IH in Hrun as (hs & Hhs & -> & ->).
    exists (h :: hs). rewrite !count_cons. split; [by constructor|]. split; lia. }
  assert (forall l2 f2,
    l2 = (l + if leading h then 1 else 0)%Z -> f2 = (f + if following h then 1 else 0)%Z ->
    (exists hs, Forall2 (master_active (ext w)) (m :: ms) hs /\
      l' = (l + count leading hs)%Z /\ f' = (f + count following hs)%Z) ->
    check_masters all ms l2 f2 w = Some (inr (l', f'), w)) as Hfrom.
  { intros l2 f2 -> -> (hs & Hhs & -> & ->). apply Forall2_cons_inv_l in Hhs as (h' & hs' & [Hr _] & Hhs & ->).
    rewrite Hh in Hr. injection Hr as <-. apply IH. exists hs'. rewrite !count_cons.
    split; [done|]. split; lia. }
  unfold_state h.
  case_decide as Hl; [|case_decide as Hf];
    (split; [intros Hrun; eapply Hto; [exact Hrun|..]|apply Hfrom]);
    pose proof states_differ; repeat case_bool_decide; (lia || congruence).
Qed.

(** No master both leads and follows. *)
Lemma count_bounds hs :
  (0 <= count leading hs /\ 0 <= count following hs /\
   count leading hs + count following hs <= Z.of_nat (length hs))%Z.
Proof.
  induction hs as [|h hs IH]; [by unfold count|]. rewrite !count_cons. simpl length.
  pose proof states_differ. unfold_state h.
  repeat case_bool_decide; (lia || congruence).
Qed.

Lemma all_following l :
  Forall (fun h => mh_State h = MasterStateFollowing) l <-> count following l = Z.of_nat (length l).
Proof.
  induction l as [|h l IH]; [split; [done|constructor]|]. rewrite count_cons, Forall_cons, IH.
  pose proof (count_bounds l). simpl length. unfold_state h.
  case_bool_decide; [|split; [naive_solver|lia]]. split; [|intros; split; [done|]]; lia.
Qed.

Lemma count_app p l1 l2 : count p (l1 ++ l2) = (count p l1 + count p l2)%Z.
Proof. induction l1 as [|h l1 IH]; [done|]. simpl. rewrite !count_cons, IH. lia. Qed.

(** The code counts: one leads, and with it everyone is accounted for. *)
Lemma quorum_counts hs :
  quorum hs <-> count leading hs = 1%Z /\ (count following hs + 1 = Z.of_nat (length hs))%Z.
Proof.
  pose proof states_differ. split.
  - intros (before & leader & after & -> & Hl & Hf). apply Forall_app in Hf as [Hb Ha].
    apply all_following in Hb, Ha. pose proof (count_bounds before). pose proof (count_bounds after).
    rewrite !count_app, !count_cons, length_app. simpl length. unfold_state leader.
    rewrite bool_decide_eq_true_2, bool_decide_eq_false_2 by congruence. lia.
  - induction hs as [|h hs IH]; [by intros [? _]|]. pose proof (count_bounds hs).
    rewrite !count_cons. simpl length. unfold_state h.
    destruct (decide (mh_State h = MasterStateLeading)) as [Hh|Hh].
    + rewrite bool_decide_eq_true_2, bool_decide_eq_false_2 by congruence. intros [Hl Hf].
      exists [], h, hs. split; [done|]. split; [done|]. simpl. apply all_following. lia.
    + rewrite bool_decide_eq_false_2 by done. case_bool_decide as Hfo; [|lia]. intros [Hl Hf].
      destruct IH as (before & leader & after & -> & Hld & Hfw); [lia|].
      exists (h :: before), leader, after. split; [done|]. split; [done|]. by constructor.
Qed.

(** The check reads the cluster and nothing else. *)
Lemma HandlePossibilityCheck_total (w : W) : exists r, HandlePossibilityCheck w = Some (r, w).
Proof.
  unfold HandlePossibilityCheck, GetNotGoodTabletCellBundles, GetNode, ListNode.
  rewrite run_assoc, run_gets. destruct (yt_ListNode TBundleHealth _ _ _) as [err|bs]; [eauto|].
  rewrite run_ret. case_decide; [eauto|]. rewrite run_gets.
  destruct (yt_GetNode TInt _ _ _) as [err|lvc]; [eauto|]. destruct (0 <? lvc)%Z; [eauto|].
  rewrite run_gets. destruct (yt_GetNode TInt _ _ _) as [err|qmc]; [eauto|].
  destruct (0 <? qmc)%Z; [eauto|]. rewrite run_gets.
  destruct (yt_ListNode TString _ _ _) as [err|ms]; [eauto|].
  destruct (check_masters_total ms ms 0 0 w) as [r Hr]. rewrite (bind_step _ _ _ _ _ Hr).
  destruct r as [a|[l f]]; [eauto|]. destruct (negb _); eauto.
Qed.

Lemma no_bad_bundles (bs : list TabletCellBundleHealth) :
  ~ 0 < length (tch_Name <$> filter (fun b => tch_Health b <> "good"%string) bs) <->
  Forall (fun b => tch_Health b = "good"%string) bs.
Proof.
  rewrite length_fmap. induction bs as [|b bs IH]; [split; [constructor|simpl; lia]|].
  rewrite filter_cons, Forall_cons. case_decide as Hb; simpl; [split; [lia|naive_solver]|].
  rewrite IH. naive_solver.
Qed.

(** An answer without error is positive for a healthy cluster and for no other. *)
Lemma possible_healthy msg (w w' : W) :
  HandlePossibilityCheck w = Some ((true, msg, None), w') -> healthy (ext w).
Proof.
  unfold HandlePossibilityCheck, GetNotGoodTabletCellBundles, GetNode, ListNode.
  rewrite run_assoc, run_gets. intros Hrun.
  destruct (yt_ListNode TBundleHealth _ _ _) as [err|bs] eqn:Hbs; [done|].
  rewrite run_ret in Hrun. case_decide as Hgood; [done|]. rewrite run_gets in Hrun.
  destruct (yt_GetNode TInt "//sys/lost_vital_chunks/@count" _ _) as [err|lvc] eqn:Hlvc; [done|].
  destruct (Z.ltb_spec 0 lvc); [done|]. rewrite run_gets in Hrun.
  destruct (yt_GetNode TInt "//sys/quorum_missing_chunks/@count" _ _) as [err|qmc] eqn:Hqmc; [done|].
  destruct (Z.ltb_spec 0 qmc); [done|]. rewrite run_gets in Hrun.
  destruct (yt_ListNode TString _ _ _) as [err|ms] eqn:Hms; [done|].
  destruct (check_masters_total ms ms 0 0 w) as [r Hr]. rewrite (bind_step _ _ _ _ _ Hr) in Hrun.
  destruct r as [a|[l f]].
  { apply check_masters_refuses in Hr. injection Hrun as -> _. discriminate Hr. }
  destruct (negb _) eqn:Hq in Hrun; [done|]. apply negb_false_iff, andb_true_iff in Hq as [Hl Hf].
  apply check_masters_counts in Hr as (hs & Hhs & -> & ->).
  apply Z.eqb_eq in Hl, Hf. rewrite (Forall2_length _ _ _ Hhs) in Hf.
  apply no_bad_bundles in Hgood. split; [by exists bs|by exists lvc|by exists qmc|].
  exists ms, hs. split; [done|]. split; [done|]. apply quorum_counts. lia.
Qed.

Lemma healthy_possible (w : W) :
  healthy (ext w) -> HandlePossibilityCheck w = Some ((true, "Update is possible"%string, None), w).
Proof.
  intros [(bs & Hbs & Hgood) (lvc & Hlvc & Hl0) (qmc & Hqmc & Hq0) (ms & hs & Hms & Hhs & Hq)].
  unfold HandlePossibilityCheck, GetNotGoodTabletCellBundles, GetNode, ListNode.
  rewrite run_assoc, run_gets, Hbs, run_ret, decide_False by by apply no_bad_bundles.
  rewrite run_gets, Hlvc, (proj2 (Z.ltb_ge 0 lvc)) by done.
  rewrite run_gets, Hqmc, (proj2 (Z.ltb_ge 0 qmc)) by done.
  rewrite run_gets, Hms. apply quorum_counts in Hq as [Hl Hf].
  assert (check_masters ms ms 0 0 w = Some (inr (1, count following hs)%Z, w)) as Hr
    by (apply check_masters_counts; exists hs; split; [done|split; lia]).
  by rewrite (bind_step _ _ _ _ _ Hr), (Forall2_length _ _ _ Hhs), Hf, !Z.eqb_refl.
Qed.

Lemma possibility_answer ok msg (w w' : W) :
  HandlePossibilityCheck w = Some ((ok, msg, None), w') -> w' = w /\ (ok = true <-> healthy (ext w)).
Proof.
  intros Hrun. destruct (HandlePossibilityCheck_total w) as [r Hr]. split; [congruence|].
  split; [intros ->; by eapply possible_healthy|]. intros Hh%healthy_possible. congruence.
Qed.

(** C27. The possibility check accepts exactly the healthy clusters: it
    answers "possible" without error if and only if every tablet cell bundle
    is in good health, no vital chunk is lost, no chunk misses its quorum and,
    of the primary masters, all of them active, exactly one leads and all
    others follow.  It always answers, and only reads. *)
Theorem possibility_check_correct (w : W) :
  (exists r, HandlePossibilityCheck w = Some (r, w)) /\
  (HandlePossibilityCheck w = Some ((true, "Update is possible"%string, None), w) <-> healthy (ext w)).
Proof.
  split; [apply HandlePossibilityCheck_total|]. split; [apply possible_healthy|apply healthy_possible].
Qed.
End Possibility.

(** ** Tablet cells *)

(** What the cluster promises of the cells of a bundle: the count it reports
    is the number of cells, a cell is created in the bundle it is asked for,
    and a failed creation creates nothing. *)
Class CellLaws (E : Type) (Y : Yt E) := {
  tablet_cells : E -> string -> Z;
  cell_count_reported : forall e b n,
    yt_GetNode TInt (tablet_cell_count_path b) false e = inr n -> n = tablet_cells e b;
  cell_created : forall e b b',
    tablet_cells (yt_CreateObject "tablet_cell" [("tablet_cell_bundle"%string, YString b)] false e).2 b' =
    (tablet_cells e b' +
       if no_error (yt_CreateObject "tablet_cell" [("tablet_cell_bundle"%string, YString b)] false e).1 then
         if decide (b' = b) then 1 else 0
       else 0)%Z;
}.

Section Recovery.
Context {H E : Type} `{K : Kube E} `{CM : ConditionMeta} `{Y : Yt E} `{CL : !CellLaws E Y}.
Local Abbreviation W := (World H E).

(** The cells of bundle [b] in the outside of a world. *)
Definition cells (w : W) (b : string) : Z := tablet_cells (ext w) b.

Lemma create_cells_count b n (w w' : W) err :
  create_cells b n w = Some (err, w') ->
  (cells w b <= cells w' b <= cells w b + Z.of_nat n)%Z /\
  (err = None -> cells w' b = (cells w b + Z.of_nat n)%Z) /\
  (forall b', b' <> b -> cells w' b' = cells w b').
Proof.
  revert w. induction n as [|n IH]; intros w Hrun; simpl in Hrun.
  { injection Hrun as <- <-. split; [lia|]. split; [lia|done]. }
  apply bind_inv in Hrun as (err1 & w1 & Hcreate & Hrun).
  unfold outside in Hcreate.
  assert (forall b', cells w1 b' = (cells w b' +
    if no_error err1 then if decide (b' = b) then 1 else 0 else 0)%Z) as Hc.
  { intros b'. unfold cells. pose proof (cell_created (ext w) b b') as Hl.
    destruct (yt_CreateObject _ _ _ _) as [err2 e2]. by injection Hcreate as <- <-. }
  destruct err1 as [msg|].
  - injection Hrun as <- <-. split; [rewrite Hc; simpl; lia|]. split; [done|].
    intros b' Hb'. rewrite Hc. simpl. lia.
  - apply IH in Hrun as (Hb1 & Hb2 & Hb3). rewrite Hc in Hb1, Hb2. simpl in Hb1, Hb2.
    rewrite decide_True in Hb1, Hb2 by done. split; [lia|]. split; [intros Hn; rewrite Hb2 by done; lia|].
    intros b' Hb'. rewrite Hb3, Hc by done. simpl. rewrite decide_False by done. lia.
Qed.

Lemma CreateTabletCells_count b n (w w' : W) err :
  CreateTabletCells b n w = Some (err, w') ->
  (cells w b <= cells w' b <= cells w b `max` n)%Z /\
  (err = None -> cells w' b = (cells w b `max` n)%Z) /\
  (forall b', b' <> b -> cells w' b' = cells w b').
Proof.
  unfold CreateTabletCells, GetNode. rewrite run_gets.
  destruct (yt_GetNode TInt _ _ _) as [msg|init] eqn:Hget; intros Hrun.
  - injection Hrun as <- <-. split; [lia|]. done.
  - apply cell_count_reported in Hget. apply create_cells_count in Hrun as (Hb1 & Hb2 & Hb3).
    change (tablet_cells (ext w) b) with (cells w b) in Hget. simpl in init. subst init.
    split; [lia|]. split; [|done]. intros Hn. rewrite Hb2 by done. lia.
Qed.

(** The count saved for a bundle. *)
Definition saved_count (bundles : list TabletCellBundleInfo) (b : string) : option Z :=
  tcb_TabletCellCount <$> List.find (fun i => bool_decide (tcb_Name i = b)) bundles.

(** C28. Recovering the tablet cells converges and can be retried: from any
    number of cells, a recovery without error leaves every saved bundle with
    at least, and if it had fewer exactly, the saved number of cells, and the
    other bundles alone; a recovery that fails half way never creates a cell
    too many, so running it again has the same result as one run without
    error, and a run after success creates nothing. *)
Theorem RecoverTableCells_converges (bundles : list TabletCellBundleInfo) (w w' : W) (err : error)
    (Hnodup : NoDup (tcb_Name <$> bundles)) (Hrun : RecoverTableCells bundles w = Some (err, w')) :
  forall b,
    (err = None -> cells w' b = (cells w b `max` default (cells w b) (saved_count bundles b))%Z) /\
    (cells w b <= cells w' b <= cells w b `max` default (cells w b) (saved_count bundles b))%Z /\
    (forall err2 w2, RecoverTableCells bundles w' = Some (err2, w2) -> err2 = None ->
       cells w2 b = (cells w b `max` default (cells w b) (saved_count bundles b))%Z).
Proof.
  assert (forall bundles (w w' : W) err, NoDup (tcb_Name <$> bundles) ->
    RecoverTableCells bundles w = Some (err, w') -> forall b,
    (cells w b <= cells w' b <= cells w b `max` default (cells w b) (saved_count bundles b))%Z /\
    (err = None -> cells w' b = (cells w b `max` default (cells w b) (saved_count bundles b))%Z)) as Hone.
  { clear. induction bundles as [|i bundles IH]; intros w w' err Hnodup Hrun b; simpl in Hrun.
    { injection Hrun as <- <-. simpl. split; [lia|]. lia. }
    apply bind_inv in Hrun as (err1 & w1 & Hcreate & Hrun).
    apply CreateTabletCells_count in Hcreate as (Hb1 & Hb2 & Hb3).
    rewrite fmap_cons in Hnodup. apply NoDup_cons in Hnodup as [Hnin Hnodup].
    unfold saved_count. simpl. destruct err1 as [msg|].
    - injection Hrun as <- <-. split; [|done].
      case_bool_decide as Hb; simpl; [subst b; lia|]. rewrite Hb3 by done. lia.
    - specialize (IH w1 w' err Hnodup Hrun b). case_bool_decide as Hb; simpl.
      + subst b. rewrite Hb2 in IH by done.
        assert (saved_count bundles (tcb_Name i) = None) as Hnone.
        { unfold saved_count. destruct (List.find _ bundles) as [i'|] eqn:Hf; [|done].
          apply find_some in Hf as [Hin Hn]. apply bool_decide_eq_true in Hn. destruct Hnin.
          rewrite <- Hn. apply list_elem_of_fmap. exists i'. by rewrite list_elem_of_In. }
        rewrite Hnone in IH. simpl in IH. destruct IH as [IH1 IH2]. split; [lia|]. intros Hn.
        specialize (IH2 Hn). lia.
      + rewrite Hb3 in IH by done. exact IH. }
  intros b. destruct (Hone _ _ _ _ Hnodup Hrun b) as [Hb1 Hb2]. split; [exact Hb2|]. split; [exact Hb1|].
  intros err2 w2 Hrun2 Hn. destruct (Hone _ _ _ _ Hnodup Hrun2 b) as [_ Hb3]. rewrite (Hb3 Hn).
  destruct (saved_count bundles b); simpl in *; lia.
Qed.
End Recovery.

(** ** The steps of an update *)

Section UpdateSteps.
Context {H E : Type} `{K : Kube E} `{CM : ConditionMeta} `{CO : Codec} `{Y : Yt E}.
Context `{KL : !KubeLaws E K} `{CL : !ConditionMetaLaws CM} `{YL : !YtLaws E K KL Y}.
Local Abbreviation W := (World H E).

(** The conditions the client sets on its way, and the one (or, for the
    check, the two) the reconciler waits for, in each state of the update. *)
Definition client_progress (s : UpdateState) : list string :=
  match s with
  | UpdateStateWaitingForSnapshots =>
      [ConditionSnapshotsMonitoringInfoSaved; ConditionSnapshotsBuildingStarted]
  | _ => []
  end.

Definition client_outcome (s : UpdateState) : list string :=
  match s with
  | UpdateStatePossibilityCheck => [ConditionHasPossibility; ConditionNoPossibility]
  | UpdateStateWaitingForSafeModeEnabled => [ConditionSafeModeEnabled]
  | UpdateStateWaitingForTabletCellsSaving => [ConditionTabletCellsSaved]
  | UpdateStateWaitingForTabletCellsRemovingStart => [ConditionTabletCellsRemovingStarted]
  | UpdateStateWaitingForTabletCellsRemoved => [ConditionTabletCellsRemoved]
  | UpdateStateWaitingForSnapshots => [ConditionSnaphotsSaved]
  | UpdateStateWaitingForTabletCellsRecovery => [ConditionTabletCellsRecovered]
  | UpdateStateWaitingForSafeModeDisabled => [ConditionSafeModeDisabled]
  | _ => []
  end.

Lemma outcome_not_progress s t : t ∈ client_outcome s -> t ∉ client_progress s.
Proof. destruct s; simpl; set_unfold; naive_solver. Qed.

Definition update_conditions_wf (w : W) : Prop := conditions_wf (us_Conditions (updateStatus w)).

(** Only the conditions of [l] may change. *)
Definition only (l : list string) (w w' : W) : Prop :=
  update_conditions_wf w ->
  update_conditions_wf w' /\ forall t, t ∉ l -> update_condition_true w' t = update_condition_true w t.

#[export] Instance only_preorder l : PreOrder (only l).
Proof.
  split; [by intros w|]. intros w1 w2 w3 H1 H2 Hwf. destruct (H1 Hwf) as [Hwf2 H1'].
  destruct (H2 Hwf2) as [Hwf3 H2']. split; [done|]. intros t Ht. by rewrite H2', H1'.
Qed.

Lemma only_weaken l l' w w' : l ⊆ l' -> only l w w' -> only l' w w'.
Proof. intros Hl Ho Hwf. destruct (Ho Hwf) as [Hwf' Hk]. split; [done|]. set_solver. Qed.

Lemma status_only l w w' : status w' = status w -> only l w w'.
Proof.
  intros Hs Hwf. split; [|intros t _; by apply update_condition_status].
  unfold update_conditions_wf, updateStatus in *. by rewrite Hs.
Qed.

Lemma quiet_only {A} l (m : M W A) : preserves quiet m -> preserves (only l) m.
Proof. intros Hm w a w' Hrun. apply status_only. by destruct (Hm w a w' Hrun). Qed.

Lemma set_only l c : cond_Type c ∈ l -> preserves (only l) (SetUpdateStatusCondition c : M W unit).
Proof.
  intros Hc w u w' Hrun Hwf. destruct (SetUpdateStatusCondition_run w c Hwf) as (w2 & Hrun2 & _ & _ & Hwf2 & Hk).
  rewrite Hrun in Hrun2. injection Hrun2 as _ <-. split; [done|]. intros t Ht. rewrite Hk.
  by rewrite decide_False by congruence.
Qed.

Lemma save_bundles_only l v :
  preserves (only l) (modify (set_updateStatus (set_us_TabletCellBundles v)) : M W unit).
Proof. apply preserves_modify. by intros w. Qed.
Lemma save_paths_only l v :
  preserves (only l) (modify (set_updateStatus (set_us_MasterMonitoringPaths v)) : M W unit).
Proof. apply preserves_modify. by intros w. Qed.

(** A step: it reports [Updating], changes the conditions of [pre] and [fin],
    and those of [fin] only without error. *)
Definition steps (pre fin : list string) (m : M W SyncResult) : Prop :=
  forall w r w', m w = Some (r, w') ->
    r.1 = updating /\ only (pre ++ fin) w w' /\ (r.2 <> None -> only pre w w').

Lemma steps_ret pre fin err : steps pre fin (mret (updating, err)).
Proof. intros w r w' [= <- <-]. split; [done|]. split; [|intros _]; reflexivity. Qed.

Lemma steps_bind {A} pre fin (m : M W A) f :
  preserves (only pre) m -> (forall a, steps pre fin (f a)) -> steps pre fin (m ≫= f).
Proof.
  intros Hm Hf w r w' (a & w1 & Ha & Hrun)%bind_inv. apply Hm in Ha.
  apply Hf in Hrun as (Hst & Hall & Herr). split; [done|]. split.
  - transitivity w1; [|done]. eapply only_weaken; [|exact Ha]. set_solver.
  - intros He. transitivity w1; auto.
Qed.

Lemma steps_acknowledge pre fin t msg : t ∈ fin -> steps pre fin (acknowledge t msg).
Proof.
  intros Ht w r w' (u & w1 & Hset & Hret)%bind_inv. injection Hret as <- <-.
  split; [done|]. split; [|done]. eapply set_only; [|exact Hset]. set_solver.
Qed.

(** [solve_steps] follows the structure of a step. *)
Ltac steps_step :=
  match goal with
  | |- steps _ _ (mret (updating, _)) => apply steps_ret
  | |- steps _ _ (acknowledge (if ?b then _ else _) _) => destruct b
  | |- steps _ _ (acknowledge _ _) => apply steps_acknowledge; set_solver
  | |- steps _ _ (_ ≫= _) => apply steps_bind; [|intros ?]
  | |- steps _ _ (match ?x with _ => _ end) => destruct x
  | |- preserves _ (SetUpdateStatusCondition _) => apply set_only; set_solver
  | |- preserves _ (modify (set_updateStatus (set_us_TabletCellBundles _))) => apply save_bundles_only
  | |- preserves _ (modify (set_updateStatus (set_us_MasterMonitoringPaths _))) => apply save_paths_only
  | |- preserves _ (gets _) => apply preserves_gets, _
  | |- preserves (only _) _ => apply quiet_only; solve [eauto with frame]
  end.

(** In each state of an update the client reports [Updating] and changes no
    other update condition than the ones of that state; an error leaves the
    condition the reconciler waits for as it was. *)
Lemma handleUpdatingState_local (w w' : W) (st : ComponentStatus) (err : error) :
  update_conditions_wf w -> handleUpdatingState w = Some ((st, err), w') ->
  let s := us_State (updateStatus w) in
  st = updating /\
  (forall t, t ∉ client_progress s ++ client_outcome s ->
     update_condition_true w' t = update_condition_true w t) /\
  (err <> None -> forall t, t ∈ client_outcome s ->
     update_condition_true w' t = update_condition_true w t).
Proof.
  intros Hwf Hrun s. unfold handleUpdatingState, GetUpdateState in Hrun. rewrite run_gets in Hrun. fold s in Hrun.
  match type of Hrun with ?m w = _ => assert (steps (client_progress s) (client_outcome s) m) as Hsteps end.
  { destruct s; unfold check_possibility, save_tablet_cells, await_cells_removed,
      save_monitoring_paths, start_snapshots, await_snapshots, unless_acknowledged, acting; simpl;
      repeat steps_step. }
  apply Hsteps in Hrun as (Hst & Hall & Herr). destruct (Hall Hwf) as [_ Hk].
  split; [done|]. split; [exact Hk|]. intros He t Ht. apply (Herr He Hwf).
  by apply (outcome_not_progress s).
Qed.

(** *** The snapshots *)

Definition snapshot_built (e : E) (path : string) : Prop :=
  exists h, yt_GetNode THydra path true e = inr h /\ mh_LastSnapshotReadOnly h = true.

Lemma AreMasterSnapshotsBuilt_run ps (w : W) :
  exists b err, AreMasterSnapshotsBuilt ps w = Some ((b, err), w) /\
    (err = None -> b = true <-> Forall (snapshot_built (ext w)) ps).
Proof.
  induction ps as [|p ps IH]; simpl; [by exists true, None|].
  unfold GetNode. rewrite run_gets. destruct (yt_GetNode THydra p true (ext w)) as [e|h] eqn:Hg.
  { by exists false, (Some e). }
  destruct (mh_LastSnapshotReadOnly h) eqn:Hh; simpl.
  - destruct IH as (b & err & Hrun & Hb). exists b, err. split; [done|]. intros He.
    rewrite (Hb He), Forall_cons. split; [intros Hf; split; [by exists h|done]|naive_solver].
  - exists false, None. split; [done|]. intros _. split; [done|].
    intros Hf. apply Forall_cons in Hf as [(h' & Hg' & Hh') _]. congruence.
Qed.

Lemma all_read_only_run ps (w : W) :
  exists r, all_read_only ps w = Some (r, w) /\
    forall b, r = inr b -> b = true <->
      Forall (fun p => exists h, yt_GetNode THydra p true (ext w) = inr h /\ mh_ReadOnly h = true) ps.
Proof.
  induction ps as [|p ps IH]; simpl.
  { exists (inr true). split; [done|]. by intros b [= <-]. }
  unfold getMasterHydra, GetNode. rewrite run_gets.
  destruct (yt_GetNode THydra p true (ext w)) as [e|h] eqn:Hg; [by exists (inl e)|].
  destruct (mh_ReadOnly h) eqn:Hh; simpl.
  - destruct IH as (r & Hrun & Hb). exists r. split; [done|]. intros b Hr.
    rewrite (Hb b Hr), Forall_cons. split; [intros Hf; split; [by exists h|done]|naive_solver].
  - exists (inr false). split; [done|]. intros b [= <-]. split; [done|].
    intros Hf. apply Forall_cons in Hf as [(h' & Hg' & Hh') _]. congruence.
Qed.

(** The paths of the masters whose snapshots are awaited. *)
Definition monitoring (w : W) : list string := us_MasterMonitoringPaths (updateStatus w).

(** Setting a condition, run forwards: nothing else of the update changes. *)
Lemma set_true_run (w : W) t msg :
  update_conditions_wf w ->
  exists w1, SetUpdateStatusCondition (mkCondition t ConditionTrue 0 "Update" msg) w = Some (tt, w1) /\
    ext w1 = ext w /\ update_conditions_wf w1 /\ monitoring w1 = monitoring w /\
    us_TabletCellBundles (updateStatus w1) = us_TabletCellBundles (updateStatus w) /\
    forall t', update_condition_true w1 t' = if decide (t' = t) then true else update_condition_true w t'.
Proof.
  intros Hwf. destruct (SetUpdateStatusCondition_run w (mkCondition t ConditionTrue 0 "Update" msg) Hwf)
    as (w1 & Hset & _ & He & Hwf1 & Hk).
  exists w1. split; [done|]. split; [done|]. split; [done|]. split; [by injection Hset as <-|].
  split; [by injection Hset as <-|]. intros t'. by rewrite Hk.
Qed.

Lemma acknowledge_run t msg (w w' : W) st err :
  update_conditions_wf w -> acknowledge t msg w = Some ((st, err), w') ->
  err = None /\ ext w' = ext w /\ monitoring w' = monitoring w /\
  us_TabletCellBundles (updateStatus w') = us_TabletCellBundles (updateStatus w) /\
  forall t', update_condition_true w' t' = if decide (t' = t) then true else update_condition_true w t'.
Proof.
  intros Hwf Hrun. unfold acknowledge in Hrun.
  destruct (set_true_run w t msg Hwf) as (w1 & Hset & He & _ & Hm & Hb & Hk).
  rewrite (bind_step _ _ _ _ _ Hset) in Hrun. injection Hrun as _ <- <-. by split_and!.
Qed.

(** The masters of the cluster, the secondary ones first, and the paths of
    their monitoring. *)
Definition master_paths (w : W) (paths : list string) : Prop :=
  exists primary secondary,
    yt_GetNode TMaster "//sys/@cluster_connection/primary_master" true (ext w) = inr primary /\
    (if decide (sp_SecondaryMasters (yt_Spec (resource w)) = []) then secondary = []
     else yt_GetNode TMasters "//sys/@cluster_connection/secondary_masters" true (ext w) = inr secondary) /\
    paths = monitoring_path <$> ((secondary ++ [primary]) ≫= mi_Addresses).

Lemma GetMasterMonitoringPaths_run (w : W) :
  exists r, GetMasterMonitoringPaths w = Some (r, w) /\ forall ps, r = inr ps -> master_paths w ps.
Proof.
  assert (forall ms : list MasterInfo,
    ms ≫= (fun m => monitoring_path <$> mi_Addresses m) = monitoring_path <$> (ms ≫= mi_Addresses)) as Hps.
  { induction ms as [|m ms IH]; [done|]. by rewrite !bind_cons, fmap_app, IH. }
  unfold GetMasterMonitoringPaths, getAllMasters, GetNode, master_paths. rewrite run_assoc, run_gets.
  destruct (yt_GetNode TMaster _ _ _) as [e|p] eqn:Hp; [by eexists|].
  rewrite run_assoc, run_gets. destruct (sp_SecondaryMasters _) as [|m ms]; simpl length.
  - rewrite decide_False by lia. eexists. split; [reflexivity|]. intros ps [= <-]. exists p, [].
    rewrite decide_True by done. split; [done|]. split; [done|]. exact (Hps [p]).
  - rewrite decide_True by lia. rewrite run_assoc, run_gets.
    destruct (yt_GetNode TMasters _ _ _) as [e|l]; [by eexists|].
    eexists. split; [reflexivity|]. intros ps [= <-]. exists p, l. by rewrite decide_False.
Qed.

(** The first stage: the paths are recorded, or it ends in an error. *)
Lemma save_monitoring_paths_run rest (w w' : W) r :
  update_conditions_wf w -> save_monitoring_paths rest w = Some (r, w') ->
  (r.2 <> None /\ w' = w /\ update_condition_true w ConditionSnapshotsMonitoringInfoSaved = false) \/
  exists w1, rest w1 = Some (r, w') /\ update_conditions_wf w1 /\ ext w1 = ext w /\
    update_condition_true w1 ConditionSnapshotsMonitoringInfoSaved = true /\
    (forall t, t <> ConditionSnapshotsMonitoringInfoSaved ->
      update_condition_true w1 t = update_condition_true w t) /\
    if update_condition_true w ConditionSnapshotsMonitoringInfoSaved then monitoring w1 = monitoring w
    else master_paths w (monitoring w1).
Proof.
  intros Hwf Hrun. unfold save_monitoring_paths, IsUpdateStatusConditionTrue in Hrun.
  rewrite run_gets in Hrun.
  change (meta_IsStatusConditionTrue _ ?t) with (update_condition_true w t) in Hrun.
  destruct (update_condition_true w ConditionSnapshotsMonitoringInfoSaved) eqn:Hs; simpl in Hrun.
  { right. by exists w. }
  destruct (GetMasterMonitoringPaths_run w) as (ps & Hr & Hps). rewrite (bind_step _ _ _ _ _ Hr) in Hrun.
  destruct ps as [e|ps]; [left; by injection Hrun as <- <-|]. right. rewrite run_modify in Hrun.
  destruct (set_true_run (set_updateStatus (set_us_MasterMonitoringPaths ps) w)
    ConditionSnapshotsMonitoringInfoSaved "Snapshots monitoring info saved" Hwf)
    as (w1 & Hset & He & Hwf1 & Hm & _ & Hk).
  rewrite (bind_step _ _ _ _ _ Hset) in Hrun. exists w1. split; [done|]. split; [done|].
  split; [done|]. split; [by rewrite Hk, decide_True|].
  split; [intros t Ht; by rewrite Hk, decide_False|]. rewrite Hm. by apply Hps.
Qed.

(** What [StartBuildMasterSnapshots] leaves of the cluster: unchanged when
    the masters are already read only, else with the snapshots requested. *)
Definition all_masters_read_only (e : E) (paths : list string) : Prop :=
  Forall (fun p => exists h, yt_GetNode THydra p true e = inr h /\ mh_ReadOnly h = true) paths.

Definition requested (e : E) (paths : list string) (e' : E) : Prop :=
  (all_masters_read_only e paths /\ e' = e) \/
  (~ all_masters_read_only e paths /\ yt_BuildMasterSnapshots false true e = (None, e')).

(** The second stage: the snapshots are requested, unless they were before,
    and the request is recorded, or it fails. *)
Lemma start_snapshots_run rest (w w' : W) r :
  update_conditions_wf w -> start_snapshots rest w = Some (r, w') ->
  (r.2 <> None /\ status w' = status w /\ update_condition_true w ConditionSnapshotsBuildingStarted = false /\
   (ext w' = ext w \/ exists msg, yt_BuildMasterSnapshots false true (ext w) = (Some msg, ext w'))) \/
  exists w1, rest w1 = Some (r, w') /\ update_conditions_wf w1 /\ monitoring w1 = monitoring w /\
    update_condition_true w1 ConditionSnapshotsBuildingStarted = true /\
    (forall t, t <> ConditionSnapshotsBuildingStarted ->
      update_condition_true w1 t = update_condition_true w t) /\
    if update_condition_true w ConditionSnapshotsBuildingStarted then ext w1 = ext w
    else requested (ext w) (monitoring w) (ext w1).
Proof.
  intros Hwf Hrun. unfold start_snapshots, IsUpdateStatusConditionTrue in Hrun.
  rewrite run_gets in Hrun.
  change (meta_IsStatusConditionTrue _ ?t) with (update_condition_true w t) in Hrun.
  destruct (update_condition_true w ConditionSnapshotsBuildingStarted) eqn:Hs; simpl in Hrun.
  { right. by exists w. }
  rewrite run_gets in Hrun. fold (monitoring w) in Hrun. unfold acting, StartBuildMasterSnapshots in Hrun.
  rewrite run_assoc in Hrun. destruct (all_read_only_run (monitoring w) w) as (ro & Hr & Hb).
  rewrite (bind_step _ _ _ _ _ Hr) in Hrun.
  destruct ro as [e|b]; [left; injection Hrun as <- <-; split_and!; [done..|by left]|]. specialize (Hb b eq_refl).
  apply bind_inv in Hrun as (err & w1 & Hbuild & Hrun).
  assert (status w1 = status w /\
    (err = None -> requested (ext w) (monitoring w) (ext w1)) /\
    (forall msg, err = Some msg -> yt_BuildMasterSnapshots false true (ext w) = (Some msg, ext w1)))
    as (Hst & Hreq & Hfail).
  { destruct b.
    - injection Hbuild as <- <-. split_and!; [done| |done]. intros _. left. unfold all_masters_read_only. naive_solver.
    - unfold outside in Hbuild. destruct (yt_BuildMasterSnapshots false true (ext w)) as [e e1] eqn:Hy.
      injection Hbuild as <- <-. split_and!; [done| |by intros msg ->]. intros ->. right. split; [|exact Hy].
      unfold all_masters_read_only. intros Hf. naive_solver. }
  destruct err as [e|].
  { left. injection Hrun as <- <-. split_and!; [done..|]. right. exists e. by apply Hfail. }
  right. specialize (Hreq eq_refl).
  assert (update_conditions_wf w1) as Hwf1
    by (unfold update_conditions_wf, updateStatus in *; by rewrite Hst).
  destruct (set_true_run w1 ConditionSnapshotsBuildingStarted "Snapshots building started" Hwf1)
    as (w2 & Hset & He & Hwf2 & Hm & _ & Hk).
  rewrite (bind_step _ _ _ _ _ Hset) in Hrun. exists w2. split; [done|]. split; [done|].
  split; [rewrite Hm; unfold monitoring, updateStatus; by rewrite Hst|].
  split; [by rewrite Hk, decide_True|].
  split; [intros t Ht; rewrite Hk, decide_False by done; by apply update_condition_status|].
  by rewrite He.
Qed.

(** The third stage looks, and acknowledges what it sees. *)
Lemma await_snapshots_run (w w' : W) r :
  update_conditions_wf w -> update_condition_true w ConditionSnaphotsSaved = false ->
  await_snapshots w = Some (r, w') ->
  ext w' = ext w /\ monitoring w' = monitoring w /\
  (forall t, t <> ConditionSnaphotsSaved -> update_condition_true w' t = update_condition_true w t) /\
  (update_condition_true w' ConditionSnaphotsSaved = true -> r.2 = None) /\
  (r.2 = None -> update_condition_true w' ConditionSnaphotsSaved = true <->
     Forall (snapshot_built (ext w)) (monitoring w)).
Proof.
  intros Hwf Hsaved Hrun. unfold await_snapshots in Hrun. rewrite run_gets in Hrun. fold (monitoring w) in Hrun.
  destruct (AreMasterSnapshotsBuilt_run (monitoring w) w) as (b & err & Hb & Hbuilt).
  rewrite (bind_step _ _ _ _ _ Hb) in Hrun.
  destruct err as [e|]; [injection Hrun as <- <-; split_and!; [done..|congruence|done]|].
  specialize (Hbuilt eq_refl). destruct b; simpl in Hrun.
  - destruct r as [st err]. apply acknowledge_run in Hrun as (-> & He & Hm & _ & Hk); [|done].
    split_and!; [done|done| |done|]; [intros t Ht; by rewrite Hk, decide_False|].
    intros _. rewrite Hk, decide_True by done. naive_solver.
  - injection Hrun as <- <-. split_and!; [done..| |]; [congruence|]. intros _. rewrite Hsaved. naive_solver.
Qed.

(** *** What the reconciler waits for *)

(** The client gave its answer for the state. *)
Definition answered (s : UpdateState) (w : W) : Prop :=
  exists t, t ∈ client_outcome s /\ update_condition_true w t = true.

(** Tablet cells removed one after the other, none of them in error. *)
Inductive removes : list string -> E -> E -> Prop :=
| removes_none e : removes [] e e
| removes_cell cell rest e e1 e' :
    yt_RemoveNode ("//sys/tablet_cells/" +:+ cell)%string e = (None, e1) -> removes rest e1 e' ->
    removes (cell :: rest) e e'.

(** [n] cells of a bundle created, and the missing cells of all bundles. *)
Inductive creates (bundle : string) : nat -> E -> E -> Prop :=
| creates_none e : creates bundle 0 e e
| creates_cell n e e1 e' :
    yt_CreateObject "tablet_cell" [("tablet_cell_bundle"%string, YString bundle)] false e = (None, e1) ->
    creates bundle n e1 e' -> creates bundle (S n) e e'.

Inductive recovers : list TabletCellBundleInfo -> E -> E -> Prop :=
| recovers_none e : recovers [] e e
| recovers_bundle i rest n e e1 e' :
    yt_GetNode TInt (tablet_cell_count_path (tcb_Name i)) false e = inr n ->
    creates (tcb_Name i) (Z.to_nat (tcb_TabletCellCount i - n)) e e1 -> recovers rest e1 e' ->
    recovers (i :: rest) e e'.

(** What it takes to set condition [t] in state [s], on the cluster [e] the
    step finds: what the cluster shows, or what was done to it. *)
Definition step_done (s : UpdateState) (t : string) (e : E) (w' : W) : Prop :=
  match s with
  | UpdateStatePossibilityCheck =>
      ext w' = e /\ if decide (t = ConditionHasPossibility) then healthy e else ~ healthy e
  | UpdateStateWaitingForSafeModeEnabled =>
      yt_SetNode "//sys/@enable_safe_mode" (YBool true) e = (None, ext w')
  | UpdateStateWaitingForTabletCellsSaving =>
      ext w' = e /\
      yt_ListNode TBundleInfo "//sys/tablet_cell_bundles" ["tablet_cell_count"%string] e =
        inr (us_TabletCellBundles (updateStatus w'))
  | UpdateStateWaitingForTabletCellsRemovingStart =>
      exists cells, yt_ListNode TString "//sys/tablet_cells" [] e = inr cells /\ removes cells e (ext w')
  | UpdateStateWaitingForTabletCellsRemoved =>
      ext w' = e /\ yt_ListNode TString "//sys/tablet_cells" [] e = inr []
  | UpdateStateWaitingForSnapshots => Forall (snapshot_built (ext w')) (monitoring w')
  | UpdateStateWaitingForTabletCellsRecovery =>
      recovers (us_TabletCellBundles (updateStatus w')) e (ext w')
  | UpdateStateWaitingForSafeModeDisabled =>
      yt_SetNode "//sys/@enable_safe_mode" (YBool false) e = (None, ext w')
  | _ => False
  end.

(** [leads_to s m]: a run of [m] without error in an unanswered world sets a
    condition of the state exactly if what it takes is there. *)
Definition leads_to (s : UpdateState) (m : M W SyncResult) : Prop :=
  forall w st w', update_conditions_wf w -> ~ answered s w -> m w = Some ((st, None), w') ->
    forall t, t ∈ client_outcome s -> update_condition_true w' t = true <-> step_done s t (ext w) w'.

(** A state with one condition, acknowledged by the step. *)
Lemma leads_acknowledge s t msg (w w1 w' : W) st :
  client_outcome s = [t] -> update_conditions_wf w1 ->
  acknowledge t msg w1 = Some ((st, None), w') ->
  (ext w' = ext w1 -> us_TabletCellBundles (updateStatus w') = us_TabletCellBundles (updateStatus w1) ->
   step_done s t (ext w) w') ->
  forall t', t' ∈ client_outcome s -> update_condition_true w' t' = true <-> step_done s t' (ext w) w'.
Proof.
  intros -> Hwf1 (_ & He & _ & Hb & Hk)%acknowledge_run Hd t' ->%list_elem_of_singleton; [|done].
  rewrite Hk, decide_True by done. split; [|done]. intros _. by apply Hd.
Qed.

Lemma leads_possibility : leads_to UpdateStatePossibilityCheck check_possibility.
Proof.
  intros w st w' Hwf Hno Hrun t Ht. unfold check_possibility in Hrun.
  apply bind_inv in Hrun as ([[ok msg] err] & w1 & Hc & Hrun). destruct err as [e|]; [done|].
  apply possibility_answer in Hc as [-> Hok].
  apply acknowledge_run in Hrun as (_ & He & _ & _ & Hk); [|done].
  assert (forall t', t' ∈ client_outcome UpdateStatePossibilityCheck -> update_condition_true w t' = false) as Hf.
  { intros t' Ht'. apply not_true_is_false. intros Htrue. apply Hno. by exists t'. }
  rewrite Hk, Hf by done. simpl. rewrite He. clear Hk Hf Hno.
  simpl in Ht. apply elem_of_cons in Ht as [->|Ht%list_elem_of_singleton]; [|subst t].
  - rewrite (decide_True (P:=ConditionHasPossibility = ConditionHasPossibility)) by done.
    rewrite <- Hok. destruct ok; case_decide; naive_solver.
  - rewrite (decide_False (P:=ConditionNoPossibility = ConditionHasPossibility)) by done.
    rewrite <- Hok. destruct ok; case_decide; naive_solver.
Qed.

(** A single action. *)
Lemma leads_action s t msg (f : E -> error * E) :
  client_outcome s = [t] -> (forall e, persisted (f e).2 = persisted e) ->
  (forall e w', f e = (None, ext w') -> step_done s t e w') ->
  leads_to s (acting (outside f) (acknowledge t msg)).
Proof.
  intros Hs _ Hd w st w' Hwf _ (err & w1 & Hf & Hrun)%bind_inv. destruct err; [done|].
  unfold outside in Hf. destruct (f (ext w)) as [e e1] eqn:Hx. injection Hf as -> <-.
  eapply leads_acknowledge; [done| |exact Hrun|]; [done|]. intros He _. apply Hd. by rewrite He.
Qed.

Lemma leads_saving : leads_to UpdateStateWaitingForTabletCellsSaving save_tablet_cells.
Proof.
  intros w st w' Hwf _ Hrun. unfold save_tablet_cells, GetTabletCells, ListNode in Hrun.
  rewrite run_gets in Hrun. destruct (yt_ListNode TBundleInfo _ _ _) as [e|bs] eqn:Hl; [done|].
  rewrite run_modify in Hrun. eapply leads_acknowledge; [done| |exact Hrun|]; [done|].
  intros He Hb. simpl. rewrite He, Hb. split; [done|exact Hl].
Qed.

Lemma remove_cells_run cs (w w' : W) :
  remove_cells cs w = Some (None, w') -> removes cs (ext w) (ext w') /\ resource w' = resource w.
Proof.
  revert w. induction cs as [|c cs IH]; intros w Hrun; simpl in Hrun; [injection Hrun as <-; split; [constructor|done]|].
  apply bind_inv in Hrun as (e & w1 & Ho & Hrun). unfold outside in Ho.
  destruct (yt_RemoveNode _ (ext w)) as [e1 x] eqn:Hx. injection Ho as <- <-. destruct e1; [done|].
  apply IH in Hrun as [Hr Hres]. split; [by econstructor|by rewrite Hres].
Qed.

Lemma leads_removing t msg :
  t = ConditionTabletCellsRemovingStarted ->
  leads_to UpdateStateWaitingForTabletCellsRemovingStart (acting RemoveTabletCells (acknowledge t msg)).
Proof.
  intros -> w st w' Hwf _ (err & w1 & Hf & Hrun)%bind_inv. destruct err; [done|].
  unfold RemoveTabletCells, ListNode in Hf. rewrite run_gets in Hf.
  destruct (yt_ListNode TString _ _ _) as [e|cs] eqn:Hl; [done|]. apply remove_cells_run in Hf as [Hr Hres].
  eapply leads_acknowledge; [done| |exact Hrun|];
    [by unfold update_conditions_wf, updateStatus, status in *; rewrite Hres|].
  intros He _. simpl. exists cs. by rewrite He.
Qed.

Lemma leads_cells_removed : leads_to UpdateStateWaitingForTabletCellsRemoved await_cells_removed.
Proof.
  intros w st w' Hwf Hno Hrun. unfold await_cells_removed, AreTabletCellsRemoved, ListNode in Hrun.
  rewrite run_assoc, run_gets in Hrun.
  destruct (yt_ListNode TString "//sys/tablet_cells" [] (ext w)) as [e|l] eqn:Hl; [done|].
  rewrite run_ret in Hrun. destruct l as [|c l]; simpl in Hrun.
  - eapply leads_acknowledge; [done| |exact Hrun|]; [done|]. intros He _. simpl. by rewrite He, Hl.
  - injection Hrun as _ <-. intros t Ht. simpl. rewrite Hl. split; [|naive_solver].
    intros Htrue. destruct Hno. by exists t.
Qed.

(** The three stages in a row, as long as the snapshots are not declared. *)
Lemma leads_snapshots :
  leads_to UpdateStateWaitingForSnapshots (save_monitoring_paths (start_snapshots await_snapshots)).
Proof.
  intros w st w' Hwf Hno Hrun t ->%list_elem_of_singleton. simpl.
  assert (update_condition_true w ConditionSnaphotsSaved = false) as Hsaved.
  { apply not_true_is_false. intros Ht. apply Hno. exists ConditionSnaphotsSaved. split; [set_solver|done]. }
  apply save_monitoring_paths_run in Hrun as [(? & _)|(w1 & Hrun & Hwf1 & _ & _ & Hk1 & _)]; [done| |done].
  apply start_snapshots_run in Hrun as [(? & _)|(w2 & Hrun & Hwf2 & _ & _ & Hk2 & _)]; [done| |done].
  apply await_snapshots_run in Hrun as (He & Hm & _ & _ & Hb); [|done|by rewrite Hk2, Hk1].
  rewrite He, Hm. by apply Hb.
Qed.

Lemma create_cells_run b n (w w' : W) :
  create_cells b n w = Some (None, w') -> creates b n (ext w) (ext w') /\ resource w' = resource w.
Proof.
  revert w. induction n as [|n IH]; intros w Hrun; simpl in Hrun; [injection Hrun as <-; split; [constructor|done]|].
  apply bind_inv in Hrun as (e & w1 & Ho & Hrun). unfold outside in Ho.
  destruct (yt_CreateObject _ _ _ (ext w)) as [e1 x] eqn:Hx. injection Ho as <- <-. destruct e1; [done|].
  apply IH in Hrun as [Hr Hres]. split; [by econstructor|by rewrite Hres].
Qed.

Lemma RecoverTableCells_run bs (w w' : W) :
  RecoverTableCells bs w = Some (None, w') -> recovers bs (ext w) (ext w') /\ resource w' = resource w.
Proof.
  revert w. induction bs as [|i bs IH]; intros w Hrun; simpl in Hrun; [injection Hrun as <-; split; [constructor|done]|].
  apply bind_inv in Hrun as (e & w1 & Hc & Hrun). destruct e; [done|].
  unfold CreateTabletCells, GetNode in Hc. rewrite run_gets in Hc.
  destruct (yt_GetNode TInt _ _ _) as [e|n] eqn:Hn; [done|]. apply create_cells_run in Hc as [Hc Hres].
  apply IH in Hrun as [Hr Hres2]. split; [by econstructor|by rewrite Hres2].
Qed.

Lemma leads_recovery t msg :
  t = ConditionTabletCellsRecovered ->
  leads_to UpdateStateWaitingForTabletCellsRecovery
    (bundles ← gets (fun w => us_TabletCellBundles (updateStatus w));
     acting (RecoverTableCells bundles) (acknowledge t msg)).
Proof.
  intros -> w st w' Hwf _ Hrun. rewrite run_gets in Hrun. apply bind_inv in Hrun as (err & w1 & Hf & Hrun).
  destruct err; [done|]. apply RecoverTableCells_run in Hf as [Hr Hres].
  assert (updateStatus w1 = updateStatus w) as Hus by (unfold updateStatus, status; by rewrite Hres).
  eapply leads_acknowledge; [done| |exact Hrun|]; [unfold update_conditions_wf in *; by rewrite Hus|].
  intros He Hb. simpl. by rewrite He, Hb, Hus.
Qed.

(** An answered state is left alone. *)
Lemma unless_run t body (w : W) :
  unless_acknowledged t body w =
  if update_condition_true w t then Some ((updating, None), w) else body w.
Proof.
  unfold unless_acknowledged, IsUpdateStatusConditionTrue. rewrite run_gets.
  change (meta_IsStatusConditionTrue _ ?c) with (update_condition_true w c).
  by destruct (update_condition_true w t).
Qed.

Lemma answered_idle (w : W) :
  answered (us_State (updateStatus w)) w -> handleUpdatingState w = Some ((updating, None), w).
Proof.
  intros (t & Ht & Htrue). unfold handleUpdatingState, GetUpdateState. rewrite run_gets.
  destruct (us_State (updateStatus w)); simpl in Ht; try (by apply not_elem_of_nil in Ht); rewrite unless_run;
    try (apply list_elem_of_singleton in Ht as ->; by rewrite Htrue).
  destruct (update_condition_true w ConditionHasPossibility) eqn:Hh; [done|]. rewrite unless_run.
  apply elem_of_cons in Ht as [->|Ht]; [congruence|]. apply list_elem_of_singleton in Ht as ->. by rewrite Htrue.
Qed.

Lemma leads_unless s t body :
  t ∈ client_outcome s -> leads_to s body -> leads_to s (unless_acknowledged t body).
Proof.
  intros Ht Hb w st w' Hwf Hno Hrun. rewrite unless_run in Hrun.
  destruct (update_condition_true w t) eqn:Hk; [destruct Hno; by exists t|]. by eapply Hb.
Qed.

(** A run without error in an unanswered state sets a condition exactly if
    what it takes is there. *)
Lemma handleUpdatingState_answers (w w' : W) (st : ComponentStatus) :
  update_conditions_wf w -> ~ answered (us_State (updateStatus w)) w ->
  handleUpdatingState w = Some ((st, None), w') ->
  forall t, t ∈ client_outcome (us_State (updateStatus w)) ->
    update_condition_true w' t = true <-> step_done (us_State (updateStatus w)) t (ext w) w'.
Proof.
  intros Hwf Hno Hrun. unfold handleUpdatingState, GetUpdateState in Hrun. rewrite run_gets in Hrun.
  set (s := us_State (updateStatus w)) in *.
  match type of Hrun with ?m w = _ => enough (leads_to s m) as Hl by by eapply Hl end.
  clear Hrun Hno. destruct s; try (intros ? ? ? ? ? ? t Ht; by apply not_elem_of_nil in Ht);
    repeat (apply leads_unless; [set_solver|]).
  - apply leads_possibility.
  - apply leads_action; [done|apply yt_set_persisted|done].
  - apply leads_saving.
  - by apply leads_removing.
  - apply leads_cells_removed.
  - apply leads_snapshots.
  - by apply leads_recovery.
  - apply leads_action; [done|apply yt_set_persisted|done].
Qed.

(** *** The whole component *)

(** What leaves the update alone. *)
Definition update_aside (w w' : W) : Prop :=
  st_State (status w') = st_State (status w) /\ updateStatus w' = updateStatus w.

#[export] Instance update_aside_preorder : PreOrder update_aside.
Proof.
  split; [by intros w|]. intros w1 w2 w3 [H1 H2] [H3 H4]. split; congruence.
Qed.

Lemma quiet_aside {A} (m : M W A) : preserves quiet m -> preserves update_aside m.
Proof. intros Hm w a w' Hrun. destruct (Hm w a w' Hrun) as [_ Hs]. unfold update_aside, updateStatus. by rewrite Hs. Qed.

Lemma observes_aside {A} (m : M W A) : preserves observes m -> preserves update_aside m.
Proof.
  intros Hm w a w' Hrun. destruct (Hm w a w' Hrun) as [Hr _]. unfold update_aside, updateStatus, status.
  by rewrite Hr.
Qed.

Lemma SetStatusCondition_aside c : preserves update_aside (SetStatusCondition c : M W unit).
Proof. apply preserves_modify. by intros w. Qed.

(** The job of the client reports no update, and is no part of one. *)
Lemma InitJob_Sync_aside (j : InitJob H E) :
  ij_conditionsManager j = Ytsaurus_conditions -> preserves update_aside (InitJob_Sync j false : M W _).
Proof.
  intros Hj. unfold InitJob_Sync. rewrite Hj. simpl.
  repeat first [ apply SetStatusCondition_aside | apply quiet_aside; solve [solve_frame] | frame_step ].
Qed.

Lemma InitJob_Sync_not_updating (j : InitJob H E) (w w' : W) st err :
  InitJob_Sync j false w = Some ((st, err), w') -> cst_SyncStatus st <> SyncStatusUpdating.
Proof.
  intros (c & w1 & _ & Hrun)%bind_inv. destruct c; [by injection Hrun as <- _ _|].
  apply bind_inv in Hrun as (b & w2 & _ & Hrun). destruct (negb b).
  { apply bind_inv in Hrun as (? & ? & _ & Hret). by injection Hret as <- _ _. }
  apply bind_inv in Hrun as (b2 & w3 & _ & Hrun). destruct (negb b2); [by injection Hrun as <- _ _|].
  apply bind_inv in Hrun as (? & ? & _ & Hret). by injection Hret as <- _ _.
Qed.

(** C30. The snapshots of the masters are requested, recorded and awaited.
    Whatever becomes of a run in the snapshot state: if the building was recorded
    as started, the cluster is not touched again; if the run records it, it
    requested the snapshots with success, or found all masters read only already;
    and if it records nothing, it failed before the request or with it.  So a
    request that succeeded is recorded even when a later check of the same run
    fails.  The monitoring paths are recorded before, once, and are those of all
    masters of the cluster.  The state is acknowledged only without error, and
    then if and only if every recorded master reports a read-only snapshot. *)
Theorem snapshots_requested_once (w w' : W) (st : ComponentStatus) (err : error)
    (Hwf : update_conditions_wf w) (Hstate : us_State (updateStatus w) = UpdateStateWaitingForSnapshots)
    (Hsaved : update_condition_true w ConditionSnaphotsSaved = false)
    (Hrun : handleUpdatingState w = Some ((st, err), w')) :
  (if update_condition_true w ConditionSnapshotsBuildingStarted
   then ext w' = ext w /\ update_condition_true w' ConditionSnapshotsBuildingStarted = true
   else if update_condition_true w' ConditionSnapshotsBuildingStarted
   then requested (ext w) (monitoring w') (ext w')
   else err <> None /\
     (ext w' = ext w \/ exists msg, yt_BuildMasterSnapshots false true (ext w) = (Some msg, ext w'))) /\
  (if update_condition_true w ConditionSnapshotsMonitoringInfoSaved then monitoring w' = monitoring w
   else if update_condition_true w' ConditionSnapshotsMonitoringInfoSaved then master_paths w (monitoring w')
   else err <> None /\ ext w' = ext w) /\
  (err = None ->
     update_condition_true w' ConditionSnapshotsMonitoringInfoSaved = true /\
     update_condition_true w' ConditionSnapshotsBuildingStarted = true /\
     (update_condition_true w' ConditionSnaphotsSaved = true <->
        Forall (snapshot_built (ext w')) (monitoring w'))) /\
  (err <> None -> update_condition_true w' ConditionSnaphotsSaved = false).
Proof.
  unfold handleUpdatingState, GetUpdateState in Hrun. rewrite run_gets, Hstate, unless_run, Hsaved in Hrun.
  apply save_monitoring_paths_run in Hrun as [(Herr & -> & Hm)|(w1 & Hrun & Hwf1 & He1 & Hi1 & Hk1 & Hm1)]; [|  |done].
  { rewrite Hm, Hsaved. destruct (update_condition_true w ConditionSnapshotsBuildingStarted); naive_solver. }
  rewrite <- (Hk1 ConditionSnapshotsBuildingStarted), <- He1 by done.
  assert (forall w2, update_condition_true w2 ConditionSnapshotsMonitoringInfoSaved = true ->
    monitoring w2 = monitoring w1 ->
    if update_condition_true w ConditionSnapshotsMonitoringInfoSaved then monitoring w2 = monitoring w
    else if update_condition_true w2 ConditionSnapshotsMonitoringInfoSaved then master_paths w (monitoring w2)
    else err <> None /\ ext w2 = ext w1) as Hpaths
    by (intros w2 Hi -> ; rewrite Hi; exact Hm1).
  apply start_snapshots_run in Hrun
    as [(Herr & Hst & Hs & Hfail)|(w2 & Hrun & Hwf2 & Hps & Hs2 & Hk2 & He2)]; [| |done].
  { assert (forall t, update_condition_true w' t = update_condition_true w1 t) as Hk
      by (intros t; by apply update_condition_status).
    rewrite Hs, !Hk, Hs. split; [done|]. split; [|split; [done|intros _; rewrite Hk1; done]].
    rewrite <- Hk. apply Hpaths; [by rewrite Hk|]. unfold monitoring, updateStatus. by rewrite Hst. }
  apply await_snapshots_run in Hrun as (He & Hm & Hk & Hack & Hb); [|done|by rewrite Hk2, Hk1].
  assert (update_condition_true w' ConditionSnapshotsMonitoringInfoSaved = true) as Hi
    by (rewrite Hk, Hk2; done).
  assert (update_condition_true w' ConditionSnapshotsBuildingStarted = true) as Hs
    by (rewrite Hk; done).
  split; [|split; [apply Hpaths; congruence|split]].
  - rewrite Hs, He, Hm, Hps. by destruct (update_condition_true w1 ConditionSnapshotsBuildingStarted).
  - intros ->. split; [done|]. split; [done|]. rewrite He, Hm. by apply Hb.
  - intros Herr. apply not_true_is_false. intros ?%Hack. done.
Qed.
End UpdateSteps.

(** ** The component in an update *)

Section ClientInUpdate.
Context {H E : Type} `{K : Kube E} `{CM : ConditionMeta} `{CO : Codec} `{Y : Yt E} `{EN : Entropy E}.
Context `{KL : !KubeLaws E K} `{CL : !ConditionMetaLaws CM} `{YL : !YtLaws E K KL Y}.
Context `{EL : !EntropyLaws E K KL EN}.
Local Abbreviation W := (World H E).

(** At most events are sent outside. *)
Definition only_events (w w' : W) : Prop := rtc event_step (ext w) (ext w').

#[export] Instance only_events_preorder : PreOrder only_events.
Proof. split; [intros w; apply rtc_refl|]. intros w1 w2 w3 H1 H2. unfold only_events in *. by transitivity (ext w2). Qed.

Lemma observes_only_events {A} (m : M W A) : preserves observes m -> preserves only_events m.
Proof. intros Hm w a w' Hrun. by destruct (Hm w a w' Hrun) as (_ & _ & ?). Qed.

Lemma write_only_events {A} (r : Ref H A) a : preserves only_events (write r a : M W unit).
Proof. apply preserves_modify. intros w. apply rtc_refl. Qed.

Lemma SetInitScript_only_events (j : InitJob H E) script :
  preserves only_events (SetInitScript j script : M W unit).
Proof.
  unfold SetInitScript. apply preserves_bind; [tc_solve| |].
  - apply build_preserves; [tc_solve|intros; apply write_only_events|].
    intros file. apply observes_only_events, getConfig_observes.
  - intros [cm|]; [|done]. apply preserves_bind; [tc_solve|apply preserves_gets, _|].
    intros c. apply write_only_events.
Qed.

(** A job that is completed is left alone. *)
Lemma InitJob_Sync_ready (j : InitJob H E) (w w' : W) st err :
  ij_conditionsManager j = Ytsaurus_conditions ->
  InitJob_Sync j false w = Some ((st, err), w') -> cst_SyncStatus st = SyncStatusReady -> w' = w.
Proof.
  intros Hj (c & w1 & Hc & Hrun)%bind_inv Hst. rewrite Hj in Hc. injection Hc as <- <-.
  destruct (meta_IsStatusConditionTrue _ _); [by injection Hrun|].
  apply bind_inv in Hrun as (b & w2 & _ & Hrun). destruct (negb b).
  { apply bind_inv in Hrun as (? & ? & _ & Hret). by injection Hret as <- _ _. }
  apply bind_inv in Hrun as (b2 & w3 & _ & Hrun). destruct (negb b2); [by injection Hrun as <- _ _|].
  apply bind_inv in Hrun as (? & ? & _ & Hret). by injection Hret as <- _ _.
Qed.

(** A wet run in an update stops before its step, and leaves the update
    alone, or comes to the step, having sent at most events. *)
Lemma client_reaches (yc : YtsaurusClient H E) `{!ComponentReads (ycl_httpProxy yc)} (w w' : W) st err :
  ij_conditionsManager (ycl_initUserJob yc) = Ytsaurus_conditions ->
  st_State (status w) = ClusterStateUpdating ->
  YtsaurusClient_doSync yc false w = Some ((st, err), w') ->
  (update_aside w w' /\ (cst_SyncStatus st = SyncStatusUpdating -> err <> None)) \/
  exists w1, update_aside w w1 /\ only_events w w1 /\ handleUpdatingState w1 = Some ((st, err), w').
Proof.
  intros Hj Hup ([st1 err1] & w1 & Hp & Hrun)%bind_inv.
  pose proof (observes_only_events _ (reads_status (c:=ycl_httpProxy yc)) _ _ _ Hp) as He1.
  apply (observes_aside _ (reads_status (c:=ycl_httpProxy yc))) in Hp.
  destruct err1; [left; injection Hrun as <- <- <-; by split|].
  destruct (negb _); [left; injection Hrun as <- <- <-; by split|].
  apply bind_inv in Hrun as (need & w2 & Hn & Hrun).
  assert (update_aside w w2) as H2.
  { transitivity w1; [done|]. by eapply quiet_aside; [apply StringSecret_NeedSync_quiet|]. }
  assert (only_events w w2) as He2.
  { transitivity w1; [done|]. by eapply observes_only_events; [apply StringSecret_NeedSync_observes|]. }
  destruct need.
  { left. apply bind_inv in Hrun as (e & w3 & Hsync & Hret). injection Hret as <- <- <-. split; [|done].
    transitivity w2; [done|]. eapply quiet_aside; [|exact Hsync]. unfold act, sync_secret. solve_frame. }
  apply bind_inv in Hrun as (u & w3 & Hscript & Hrun).
  assert (update_aside w w3) as H3.
  { transitivity w2; [done|]. eapply quiet_aside; [|exact Hscript]. unfold createInitUserScript. solve_frame. }
  assert (only_events w w3) as He3.
  { transitivity w2; [done|]. apply bind_inv in Hscript as (script & w2' & Hc & Hset).
    transitivity w2'; [|by eapply SetInitScript_only_events]. eapply observes_only_events; [|exact Hc].
    unfold createInitUserScript. solve_frame. }
  apply bind_inv in Hrun as ([st2 err2] & w4 & Hjob & Hrun).
  pose proof (InitJob_Sync_not_updating _ _ _ _ _ Hjob) as Hnot.
  assert (update_aside w w4) as H4 by (transitivity w3; [done|by eapply InitJob_Sync_aside]).
  destruct (_ || _) eqn:Hready; [left; by injection Hrun as <- <- <-|].
  apply orb_false_iff in Hready as [_ Hready]. apply negb_false_iff, bool_decide_eq_true in Hready.
  assert (w4 = w3) as -> by by eapply InitJob_Sync_ready.
  apply bind_inv in Hrun as (client & w5 & Hread & Hrun). injection Hread as <- <-.
  apply bind_inv in Hrun as (err3 & w6 & Hinit & Hrun).
  assert (update_aside w w6) as H6.
  { transitivity w3; [done|]. eapply quiet_aside; [|exact Hinit]. unfold init_ytClient. solve_frame. }
  assert (only_events w w6) as He6.
  { transitivity w3; [done|]. destruct (load _ _); [by injection Hinit as _ <-|].
    unfold init_ytClient in Hinit. apply bind_inv in Hinit as ([tok ok] & w7 & Hg & Hinit).
    transitivity w7; [by eapply observes_only_events; [apply StringSecret_GetValue_observes|]|].
    rewrite !run_gets in Hinit. cbv zeta in Hinit. apply bind_inv in Hinit as (? & w8 & Hw & Hret).
    injection Hret as _ <-. by eapply write_only_events. }
  destruct err3; [left; injection Hrun as <- <- <-; by split|].
  apply bind_inv in Hrun as (state & w7 & Hs & Hrun). injection Hs as <- <-.
  rewrite decide_True in Hrun by (by rewrite (proj1 H6)).
  apply bind_inv in Hrun as (us & w7 & Hs & Hrun). injection Hs as <- <-.
  case_decide; [left; injection Hrun as <- <- <-; by split|]. right. by exists w6.
Qed.

(** C29. The YT client answers for the current step of an update, and for no
    other.  A run of the component changes no other update condition than the
    ones of the step; an error, or a run that stops before the step, leaves the
    conditions the reconciler waits for as they were.  A run without error that
    comes to the step (it reports [Updating]) leaves an answered step, and the
    cluster, alone; otherwise it sets a condition exactly if what the condition
    stands for is true ([step_done]): the cluster is healthy, or is not; safe mode
    was switched on, or off, without error; the bundles saved are those of the
    cluster; every tablet cell listed was removed; no tablet cell is listed;
    every recorded master has its read-only snapshot; the missing cells of every
    saved bundle were created.  So the update never waits for the client once the
    cluster is there. *)
Theorem client_answers (yc : YtsaurusClient H E) `{!ComponentReads (ycl_httpProxy yc)}
    (w w' : W) (st : ComponentStatus) (err : error)
    (Hj : ij_conditionsManager (ycl_initUserJob yc) = Ytsaurus_conditions)
    (Hup : st_State (status w) = ClusterStateUpdating) (Hwf : update_conditions_wf w)
    (Hrun : YtsaurusClient_doSync yc false w = Some ((st, err), w')) :
  let s := us_State (updateStatus w) in
  (forall t, t ∉ client_progress s ++ client_outcome s ->
     update_condition_true w' t = update_condition_true w t) /\
  (err <> None \/ cst_SyncStatus st <> SyncStatusUpdating -> forall t, t ∈ client_outcome s ->
     update_condition_true w' t = update_condition_true w t) /\
  (err = None -> cst_SyncStatus st = SyncStatusUpdating ->
     exists e, rtc event_step (ext w) e /\
       (answered s w -> ext w' = e /\ updateStatus w' = updateStatus w) /\
       (~ answered s w -> forall t, t ∈ client_outcome s ->
          update_condition_true w' t = true <-> step_done s t e w')).
Proof.
  intros s. apply client_reaches in Hrun as [[[_ Hs] Hst]|(w1 & [_ Hs] & Hev & Hrun)]; [| |done..].
  - unfold update_condition_true. rewrite Hs. split; [done|]. split; [done|]. intros -> Hu. by destruct Hst.
  - assert (update_conditions_wf w1) as Hwf1 by (unfold update_conditions_wf; by rewrite Hs).
    assert (forall t, update_condition_true w1 t = update_condition_true w t) as Hk
      by (intros t; unfold update_condition_true; by rewrite Hs).
    pose proof (handleUpdatingState_local _ _ _ _ Hwf1 Hrun) as (-> & Hloc & Herr). rewrite Hs in Hloc, Herr.
    split; [intros t Ht; rewrite <- Hk; by apply Hloc|].
    split; [intros [He|He] t Ht; [rewrite <- Hk; by apply Herr|done]|]. intros -> _.
    assert (answered s w <-> answered s w1) as Ha by (unfold answered; by setoid_rewrite Hk).
    exists (ext w1). split; [exact Hev|]. rewrite Ha. unfold s. rewrite <- Hs. split.
    + intros Hyes. rewrite answered_idle in Hrun by done. by injection Hrun as <-.
    + intros Hno. by eapply handleUpdatingState_answers.
Qed.
End ClientInUpdate.

(** ** A small cluster, for the witnesses *)

Import RefKube RefMeta RefCodec.

Module RefYt.
(** The bundle of each tablet cell, whether the masters are read only, and the
    bundles there are. *)
Record Cluster := mkClusterOf { cl_cells : list string; cl_read_only : bool; cl_bundles : list string }.
Definition mkCluster (cells : list string) (read_only : bool) : Cluster :=
  mkClusterOf cells read_only ["default"%string].
Definition bundle_at (path : string) (c : Cluster) : Prop :=
  path ∈ ((fun b => "//sys/tablet_cell_bundles/" +:+ b)%string <$> cl_bundles c).
#[export] Instance bundle_at_dec path c : Decision (bundle_at path c).
Proof. unfold bundle_at. apply _. Defined.

Definition E : Type := YtsaurusStatus * Cluster.

#[export] Instance kube : Kube E := {|
  client_now := fun _ => 0%Z;
  client_StatusUpdate := fun y e => (None, (yt_Status y, e.2));
  client_Get := fun k _ _ _ => GetNotFound "not found";
  client_ListPods := fun _ _ _ => inr [];
  client_Create := fun k o e => (None, o, e);
  client_Update := fun k o e => (None, o, e);
  client_Delete := fun k _ _ e => (None, e);
  recorder_Event := fun _ _ _ e => e;
  ctrl_SetControllerReference := fun k _ o => inr o;
|}.

#[export] Instance kube_laws : KubeLaws E kube.
Proof. refine {| persisted := fst |}; simpl; intros; by simplify_eq. Defined.

Definition count_at (path : string) (c : Cluster) : Z :=
  Z.of_nat (length (filter (fun b => tablet_cell_count_path b = path) (cl_cells c))).

#[export] Instance yt : Yt E := {|
  yt_GetNode := fun t path _ e =>
    match t return string + node_type t with
    | TInt => inr (count_at path e.2)
    | THydra => inr (mkMasterHydra (cl_read_only e.2) (cl_read_only e.2) true MasterStateLeading)
    | TMaster => inr (mkMasterInfo "cell" ["ms-0:9010"%string])
    | TAttributes => inr []
    | _ => inl "no such node"%string
    end;
  yt_ListNode := fun t _ _ _ => inr [];
  yt_NodeExists := fun path e => inr (bool_decide (bundle_at path e.2));
  yt_SetNode := fun _ _ e => (None, e);
  yt_RemoveNode := fun _ e => (None, e);
  yt_CreateObject := fun type_ attributes _ e =>
    if decide (type_ = "tablet_cell"%string) then
      match attributes with
      | (_, YString b) :: _ => (None, (e.1, mkClusterOf (b :: cl_cells e.2) (cl_read_only e.2) (cl_bundles e.2)))
      | _ => (Some "bad attributes"%string, e)
      end
    else if decide (type_ = "tablet_cell_bundle"%string) then
      match attributes with
      | (_, YString b) :: _ => (None, (e.1, mkClusterOf (cl_cells e.2) (cl_read_only e.2) (b :: cl_bundles e.2)))
      | _ => (Some "bad attributes"%string, e)
      end
    else (None, e);
  yt_CreateNode := fun _ _ _ _ _ e => (None, e);
  yt_AddMember := fun _ _ e => (None, e);
  yt_BuildMasterSnapshots := fun _ readOnly e => (None, (e.1, mkClusterOf (cl_cells e.2) readOnly (cl_bundles e.2)));
  ythttp_NewClient := fun _ _ _ _ => None;
  os_LookupEnv := fun _ _ => None;
  sha256_hex := fun s => s;
|}.

#[export] Instance yt_laws : YtLaws E kube kube_laws yt.
Proof. split; try done. intros t [|[? []] ?] i e; simpl; repeat case_decide; done. Qed.

Lemma path_inj : Inj (=) (=) tablet_cell_count_path.
Proof. intros b b' Heq. unfold tablet_cell_count_path in Heq. apply (inj _) in Heq. by apply string_app_inv_tail in Heq. Qed.

Lemma count_at_cons b b' l ro bs :
  count_at (tablet_cell_count_path b') (mkClusterOf (b :: l) ro bs) =
  (count_at (tablet_cell_count_path b') (mkClusterOf l ro bs) + if decide (b' = b) then 1 else 0)%Z.
Proof.
  unfold count_at, cl_cells. rewrite filter_cons. destruct (decide (b' = b)) as [->|Hb].
  - rewrite decide_True by done. rewrite length_cons. lia.
  - rewrite decide_False by (intros Heq; apply Hb; by apply path_inj in Heq). lia.
Qed.

#[export] Instance cell_laws : CellLaws E yt.
Proof.
  refine {| tablet_cells := fun e b => count_at (tablet_cell_count_path b) e.2 |}.
  - simpl. intros e b n Heq. by injection Heq.
  - intros e b b'. exact (count_at_cons b b' (cl_cells e.2) (cl_read_only e.2) (cl_bundles e.2)).
Defined.

(** An update in progress, in state [s]. *)
Definition world (s : UpdateState) (conditions : list Condition) (c : Cluster) : World unit E :=
  let st := mkYtsaurusStatus ClusterStateUpdating []
              (mkUpdateStatus s None UpdateFlowFull conditions [] []) in
  mkWorld (set_yt_Status st (sample_Ytsaurus ClusterStateUpdating)) tt (st, c).
End RefYt.

Import RefYt.

Lemma RecoverTableCells_converges_witness :
  exists w', RecoverTableCells [mkTabletCellBundleInfo "sys" 3; mkTabletCellBundleInfo "default" 1]
      (world UpdateStateWaitingForTabletCellsRecovery [] (mkCluster ["sys"; "default"; "default"]%string false)) =
    Some (None, w') /\ cells w' "sys" = 3%Z /\ cells w' "default" = 2%Z.
Proof.
  eexists. split; [vm_compute; reflexivity|].
  split.
  - refine (proj1 (RecoverTableCells_converges [mkTabletCellBundleInfo "sys" 3; mkTabletCellBundleInfo "default" 1]
      (world UpdateStateWaitingForTabletCellsRecovery [] (mkCluster ["sys"; "default"; "default"]%string false))
      _ None _ _ "sys"%string) eq_refl).
    + simpl. repeat constructor; set_solver.
    + vm_compute. reflexivity.
  - vm_compute. reflexivity.
Defined.

(** The component of that cluster, with its user and its token in place. *)
Module ClientWitness.
#[export] Instance entropy : Entropy E := fun n e => (Some (repeat 0%Z n), e).
#[export] Instance entropy_laws : EntropyLaws E kube kube_laws entropy.
Proof. intros n e. reflexivity. Qed.

Definition heap_t : Type := JobWitness.heap_t * (Secret * (Secret * bool)).
Definition in_job {A} (r : Ref JobWitness.heap_t A) : Ref heap_t A := comp_ref fst_ref r.
Definition vars : InitJobVars heap_t :=
  let v := JobWitness.vars in
  mkInitJobVars heap_t (in_job (jv_job_old v)) (in_job (jv_job_new v)) (in_job (jv_overrides v))
    (in_job (jv_configMap_old v)) (in_job (jv_configMap_new v)) (in_job (jv_built v)).
Definition labeller : Labeller := mkLabeller "minisaurus" "default" "yt-client" "YtsaurusClient" None.
Definition job : InitJob heap_t E :=
  NewInitJob vars labeller Ytsaurus_conditions [] "user" ClientConfigFileName "ytsaurus:dev"
    (fun y => inr (yt_Name y)).
Definition proxy : Component (World heap_t E) :=
  component_of "HttpProxy" HttpProxyType true labeller (mret None) (fun _ => ready).
Definition client : YtsaurusClient heap_t E :=
  mkYtsaurusClient heap_t E labeller (NewGenerator (sample_Ytsaurus ClusterStateUpdating) "cluster.local")
    proxy job
    (mkHandle heap_t KSecret "yt-client-secret" (comp_ref snd_ref fst_ref)
       (comp_ref snd_ref (comp_ref snd_ref fst_ref)))
    (comp_ref snd_ref (comp_ref snd_ref snd_ref)).

Definition token : Secret := mkSecret (mkObjectMeta "yt-client-secret" "default" ∅ None "1") "" {[ TokenSecretKey := "t" ]} ∅.
Definition start : World heap_t E :=
  let st := mkYtsaurusStatus ClusterStateUpdating
              [mkCondition "userYtsaurusClientInitJobCompleted" ConditionTrue 0 "" ""]
              (mkUpdateStatus UpdateStateWaitingForTabletCellsRemoved None UpdateFlowFull [] [] []) in
  mkWorld (set_yt_Status st (sample_Ytsaurus ClusterStateUpdating))
    (heap (JobWitness.world JobWitness.job_zero []), (token, (token, true))) (st, mkCluster [] false).

#[export] Instance proxy_reads : ComponentReads (ycl_httpProxy client).
Proof. apply preserves_ret, _. Qed.
End ClientWitness.

Import ClientWitness.

Lemma client_answers_witness :
  exists w', YtsaurusClient_doSync ClientWitness.client false ClientWitness.start = Some ((updating, None), w') /\
    update_condition_true w' ConditionTabletCellsRemoved = true /\
    yt_ListNode TString "//sys/tablet_cells" [] (ext w') = inr [].
Proof.
  destruct (YtsaurusClient_doSync ClientWitness.client false ClientWitness.start) as [[[st err] w']|] eqn:Hrun;
    [|exfalso; revert Hrun; vm_compute; discriminate].
  assert (st = updating /\ err = None /\ update_condition_true w' ConditionTabletCellsRemoved = true)
    as (-> & -> & Ht) by (revert Hrun; vm_compute; by intros [= <- <- <-]).
  assert (~ answered UpdateStateWaitingForTabletCellsRemoved ClientWitness.start) as Hno
    by (intros (t & ->%list_elem_of_singleton & Hno); discriminate Hno).
  exists w'. split; [done|]. split; [done|].
  destruct (client_answers ClientWitness.client ClientWitness.start w' updating None eq_refl eq_refl
    (NoDup_nil_2 : update_conditions_wf ClientWitness.start) Hrun) as (_ & _ & Hd).
  destruct (Hd eq_refl eq_refl) as (e & _ & _ & Hdone).
  destruct (proj1 (Hdone Hno ConditionTabletCellsRemoved (list_elem_of_here _ _)) Ht) as [He Hl].
  by rewrite <- He in Hl.
Defined.

Lemma snapshots_requested_once_witness :
  exists w', handleUpdatingState (world UpdateStateWaitingForSnapshots [] (mkCluster [] false)) =
      Some ((updating, None), w') /\
    update_condition_true w' ConditionSnapshotsBuildingStarted = true /\
    update_condition_true w' ConditionSnaphotsSaved = true.
Proof.
  eexists. split; [vm_compute; reflexivity|].
  unshelve epose proof (snapshots_requested_once
    (world UpdateStateWaitingForSnapshots [] (mkCluster [] false)) _ updating None _ eq_refl eq_refl _)
    as (_ & _ & Hok & _); [|constructor|vm_compute; reflexivity|].
  destruct (Hok eq_refl) as (_ & Hs & Hb).
  split; [exact Hs|]. apply Hb. vm_compute. constructor; [|constructor]. eexists. split; reflexivity.
Defined.
