(* ===== verification/Masters.v ===== *)
(** * The master: pkg/components/master.go

    The server of the primary masters, its initialisation job, and the job
    that lets the masters leave the read-only state after an update. *)

From S2P Require Import Prelude GoPath Api Kube Conditions Samples Labeller Names Proxy Component Resources ConfigHelper Server InitJob Observe ServerComponent Nodes YtApi.

Definition DefaultMedium : string := "default".
Definition DefaultAdminLogin : string := "admin".
Definition DefaultAdminPassword : string := "password".
Definition AdminLoginSecret : string := "login".
Definition AdminPasswordSecret : string := "password".
Definition AdminTokenSecret : string := "token".

(** ** What the master takes from libraries *)

(** [yt.ACE]. *)
Record ACE := mkACE {
  ace_Action : string;
  ace_Subjects : list string;
  ace_Permissions : list string;
}.

(** [yson.MarshalFormat(v, FormatText)] of an access control list and of a
    medium; an error makes the caller panic. *)
Class YsonText := {
  yson_acl : list ACE -> option string;
  yson_medium : string -> option string;
}.

(** The order in which Go ranges over the keys of a map: any, and not the
    same from one time to the next. *)
Class MapOrder (E : Type) := {
  range_keys : E -> gset string -> list string;
  range_keys_perm : forall e s, range_keys e s ≡ₚ elements s;
}.

(** ** helpers.go *)

Definition SetPathAcl `{YsonText} (path : string) (acl : list ACE) : option string :=
  (fun formattedAcl => "/usr/bin/yt set " +:+ path +:+ "/@acl '" +:+ formattedAcl +:+ "'")%string <$>
  yson_acl acl.

(** ** The component *)

Record Master (H E : Type) := mkMaster {
  ma_base : localServerComponent (World H E) H;
  ma_initJob : InitJob H E;
  ma_exitReadOnlyJob : InitJob H E;
  ma_adminCredentials : Ref H Secret;
  (** [cfgen.GetClusterConnection], of pkg/ytconfig. *)
  ma_GetClusterConnection : Ytsaurus -> string + string;
}.
Arguments ma_base {H E} _. Arguments ma_initJob {H E} _. Arguments ma_exitReadOnlyJob {H E} _.
Arguments ma_adminCredentials {H E} _. Arguments ma_GetClusterConnection {H E} _.

Section Master.
Context {H E : Type} `{K : Kube E} `{CM : ConditionMeta} `{CO : Codec} `{CY : ContainerYaml}.
Context `{Y : Yt E} `{YT : YsonText} `{MO : MapOrder E}.
Local Abbreviation W := (World H E).
Implicit Types m : Master H E.

(** [if err != nil { panic(err) }]. *)
Definition or_panic {A} (o : option A) : M W A :=
  match o with Some a => mret a | None => panic end.

Definition PrimaryMasters : M W MastersSpec := gets (fun w => sp_PrimaryMasters (yt_Spec (resource w))).

Definition Master_Fetch m : M W error :=
  credentials ← gets (fun w => sp_AdminCredentials (yt_Spec (resource w)));
  err ← (match credentials with
         | None => mret None
         | Some name => FetchObject KSecret name (ma_adminCredentials m)
         end);
  match err with
  | Some _ => mret err
  | None =>
      in_order [sv_Fetch (lsc_server (ma_base m)); InitJob_Fetch (ma_initJob m);
                InitJob_Fetch (ma_exitReadOnlyJob m)]
  end.

(** *** The initialisation script *)

Definition initAdminUser (adminCredentials : Secret) : string :=
  let get key default_ :=
    if decide (GetName (k:=KSecret) adminCredentials <> "") then
      default default_ (sec_Data adminCredentials !! key)
    else default_ in
  let adminLogin := get AdminLoginSecret DefaultAdminLogin in
  let adminPassword := get AdminPasswordSecret DefaultAdminPassword in
  let adminToken := get AdminTokenSecret DefaultAdminPassword in
  RunIfNonexistent ("//sys/users/" +:+ adminLogin)%string
    (createUserCommand adminLogin adminPassword adminToken true).

(** The keys of [mediaMap]. *)
Definition extra_media (spec : YtsaurusSpec) : gset string :=
  list_to_set (filter (fun medium => medium <> DefaultMedium)
    (sp_DataNodes spec ≫= (fun d => loc_Medium <$> is_Locations (dn_InstanceSpec d)))).

Definition getExtraMedia : M W (list string) :=
  gets (fun w => range_keys (ext w) (extra_media (yt_Spec (resource w)))).

Definition medium_command (name attr : string) : string :=
  ("/usr/bin/yt get //sys/media/" +:+ name +:+
     "/@name || /usr/bin/yt create domestic_medium --attr '" +:+ attr +:+
     "' || /usr/bin/yt create medium --attr '" +:+ attr +:+ "'")%string.

Definition initMedia : M W string :=
  media ← getExtraMedia;
  commands ← or_panic (mapM (fun medium => medium_command medium <$> yson_medium medium) media);
  mret (String.concat NL commands).

Definition initGroups : string :=
  String.concat NL ["/usr/bin/yt create group --attr '{name=admins}' --ignore-existing"%string].

Definition userReadACE : ACE := mkACE "allow" ["users"%string] ["read"%string].
Definition userReadCreateACE : ACE := mkACE "allow" ["users"%string] ["read"%string; "create"%string].
Definition userReadWriteCreateACE : ACE :=
  mkACE "allow" ["users"%string] ["read"%string; "write"%string; "create"%string].
Definition adminACE : ACE :=
  mkACE "allow" ["admins"%string]
    ["read"%string; "write"%string; "administer"%string; "create"%string; "remove"%string].

Definition schema (objectType : string) : string := ("//sys/schemas/" +:+ objectType)%string.

Definition initSchemaACLs : option string :=
  readOnly ← mapM (fun t => SetPathAcl (schema t) [userReadACE; adminACE])
    ["tablet_cell"; "tablet_action"; "tablet_cell_bundle"; "user"; "group"; "rack"; "data_center";
     "cluster_node"; "access_control_object_namespace"; "access_control_object_namespace_map"]%string;
  medium ← SetPathAcl (schema "medium") [userReadACE; adminACE];
  domestic ← SetPathAcl (schema "domestic_medium") [userReadCreateACE; adminACE];
  readCreate ← mapM (fun t => SetPathAcl (schema t) [userReadCreateACE; adminACE])
    ["account"; "scheduler_pool"; "scheduler_pool_tree"; "access_control_object"]%string;
  lease ← SetPathAcl (schema "account_resource_usage_lease") [userReadWriteCreateACE; adminACE];
  Some (String.concat NL (readOnly ++ [(medium +:+ " || " +:+ domestic)%string] ++ readCreate ++ [lease])).

Definition createInitScript m : M W string :=
  y ← GetResource;
  match ma_GetClusterConnection m y with
  | inl _ => panic
  | inr clusterConnection =>
      acls ← or_panic initSchemaACLs;
      adminCredentials ← read (ma_adminCredentials m);
      media ← initMedia;
      mret (String.concat NL
        [initJobWithNativeDriverPrologue;
         initGroups;
         RunIfExists "//sys/@provision_lock" [acls];
         ("/usr/bin/yt create scheduler_pool_tree --attributes '{name=default; config={nodes_filter=" +:+
            DQ +:+ DQ +:+ "}}' --ignore-existing")%string;
         SetWithIgnoreExisting "//sys/pool_trees/@default_tree" "default";
         RunIfNonexistent "//sys/pools" ["/usr/bin/yt link //sys/pool_trees/default //sys/pools"%string];
         "/usr/bin/yt create scheduler_pool --attributes '{name=research; pool_tree=default}' --ignore-existing"%string;
         "/usr/bin/yt create map_node //home --ignore-existing"%string;
         RunIfExists "//sys/@provision_lock"
           [("/usr/bin/yt set //sys/@cluster_connection '" +:+ clusterConnection +:+ "'")%string];
         SetWithIgnoreExisting "//sys/controller_agents/config/operation_options/spec_template"
           "'{enable_partitioned_data_balancing=%false}' -r";
         initAdminUser adminCredentials;
         media;
         "/usr/bin/yt remove //sys/@provision_lock -f"%string])
  end.

Definition createExitReadOnlyScript : string :=
  String.concat NL
    [initJobWithNativeDriverPrologue;
     "export YT_LOG_LEVEL=DEBUG"%string;
     ("[[ " +:+ DQ +:+ "$YTSAURUS_VERSION" +:+ DQ +:+ " < " +:+ DQ +:+ "23.2" +:+ DQ +:+
        " ]] && echo " +:+ DQ +:+ "master_exit_read_only is supported since 23.2, nothing to do" +:+ DQ +:+
        " && exit 0")%string;
     "/usr/bin/yt execute master_exit_read_only '{}'"%string].

(** *** The server *)

Definition Master_getHostAddressLabel : M W string :=
  primaryMastersSpec ← PrimaryMasters;
  mret (if decide (ms_HostAddressLabel primaryMastersSpec <> "") then ms_HostAddressLabel primaryMastersSpec
        else defaultHostAddressLabel).

(** Containers parsed before the bad one stay in the template. *)
Definition Master_doServerSync m : M W error :=
  let srv := lsc_server (ma_base m) in
  statefulSet ← sv_buildStatefulSet srv;
  primaryMastersSpec ← PrimaryMasters;
  o ← read statefulSet;
  let '(podSpec, err) :=
    AddSidecarsToPodSpec container_UnmarshalStrict (ms_Sidecars primaryMastersSpec) (ss_podSpec o) in
  _ ← update_podSpec statefulSet (fun _ => podSpec);
  match err with
  | Some _ => mret err
  | None =>
      let hosts := mcs_HostAddresses (ms_MasterConnectionSpec primaryMastersSpec) in
      _ ← (if decide (length hosts <> 0) then
             label ← Master_getHostAddressLabel; AddAffinity_to statefulSet label hosts
           else mret tt);
      sv_Sync srv
  end.

(** *** Leaving the read-only state *)

Definition setMasterReadOnlyExitPrepared (status : ConditionStatus) : M W unit :=
  SetUpdateStatusCondition (mkCondition ConditionMasterExitReadOnlyPrepared status 0
    "MasterExitReadOnlyPrepared" "Masters are ready to exit read-only state").

Definition exitReadOnly m (dry : bool) : M W SyncResult :=
  let job := ma_exitReadOnlyJob m in
  prepared ← IsUpdateStatusConditionTrue ConditionMasterExitReadOnlyPrepared;
  if negb prepared then
    restart ← isRestartPrepared job;
    err ← (if negb restart then prepareRestart job dry else mret None);
    match err with
    | Some _ => mret (SimpleStatus SyncStatusUpdating, err)
    | None =>
        _ ← (if dry then mret tt else setMasterReadOnlyExitPrepared ConditionTrue);
        mret (SimpleStatus SyncStatusUpdating, None)
    end
  else
    completed ← IsCompleted job;
    if negb completed then
      _ ← (if dry then mret tt else SetInitScript job createExitReadOnlyScript);
      InitJob_Sync job dry
    else
      _ ← (if dry then mret tt
           else
             _ ← SetUpdateStatusCondition (mkCondition ConditionMasterExitedReadOnly ConditionTrue 0
                   "MasterExitedReadOnly" "Masters exited read-only state");
             setMasterReadOnlyExitPrepared ConditionFalse);
      mret (SimpleStatus SyncStatusUpdating, None).

(** The guard of the update: leaving the read-only state, or the common
    steps.  A nil status falls through. *)
Definition Master_updating m (dry : bool) : M W (option ComponentStatus * error) :=
  state ← GetUpdateState;
  if decide (state = UpdateStateWaitingForMasterExitReadOnly) then
    '(st, err) ← exitReadOnly m dry;
    mret (Some st, err)
  else
    handleUpdatingClusterState true (lsc_labeller (ma_base m)) (sv_pods (lsc_server (ma_base m))) dry.

Definition Master_doSync m (dry : bool) : M W SyncResult :=
  let srv := lsc_server (ma_base m) in
  local_update_guard (sv_needUpdate srv)
  (updating_guard (Master_updating m dry)
  (sync_server srv dry (Master_doServerSync m)
  (await_pods (pm_arePodsReady (sv_pods srv))
  (_ ← (if dry then mret tt
        else script ← createInitScript m; SetInitScript (ma_initJob m) script);
   InitJob_Sync (ma_initJob m) dry)))).

Definition Master_component m : Component W :=
  component_of (lb_ComponentName (lsc_labeller (ma_base m))) MasterType true
    (lsc_labeller (ma_base m)) (Master_Fetch m) (Master_doSync m).
End Master.

(** ** Frames *)

Section MasterFrames.
Context {H E : Type} `{K : Kube E} `{CM : ConditionMeta} `{CO : Codec} `{CY : ContainerYaml}.
Context `{Y : Yt E} `{YT : YsonText} `{MO : MapOrder E}.
Context `{KL : !KubeLaws E K} `{CL : !ConditionMetaLaws CM}.
Local Abbreviation W := (World H E).
Implicit Types m : Master H E.

Lemma or_panic_frame {A} (R : relation W) `{!PreOrder R} (o : option A) : preserves R (or_panic o : M W A).
Proof. destruct o; simpl; solve_frame. Qed.
#[local] Hint Resolve or_panic_frame : frame.

Lemma createInitScript_quiet m : preserves quiet (createInitScript m : M W string).
Proof. unfold createInitScript, GetResource, initMedia, getExtraMedia. solve_frame. Qed.

Lemma Master_doServerSync_quiet m :
  ServerLaws (lsc_server (ma_base m)) -> preserves quiet (Master_doServerSync m).
Proof.
  intros. unfold Master_doServerSync, Master_getHostAddressLabel, PrimaryMasters, AddAffinity_to,
    update_podSpec. solve_frame.
Qed.
#[local] Hint Resolve createInitScript_quiet Master_doServerSync_quiet : frame.

Lemma setMasterReadOnlyExitPrepared_frame s :
  preserves update_frame (setMasterReadOnlyExitPrepared s : M W unit).
Proof. apply preserves_SetUpdateStatusCondition. by right. Qed.
#[local] Hint Resolve setMasterReadOnlyExitPrepared_frame : frame.

Lemma exitReadOnly_frame m dry :
  ConditionManagerFrame (ij_conditionsManager (ma_exitReadOnlyJob m)) ->
  preserves update_frame (exitReadOnly m dry : M W SyncResult).
Proof.
  intros. unfold exitReadOnly, IsCompleted. cbv zeta. solve_frame.
Qed.
#[local] Hint Resolve exitReadOnly_frame : frame.

#[export] Instance Master_laws m :
  ServerLaws (lsc_server (ma_base m)) ->
  ConditionManagerFrame (ij_conditionsManager (ma_initJob m)) ->
  ConditionManagerFrame (ij_conditionsManager (ma_exitReadOnlyJob m)) ->
  ComponentLaws (Master_component m : Component W).
Proof.
  intros. apply component_of_laws; [unfold Master_Fetch; solve_frame|]. intros dry.
  unfold Master_doSync, Master_updating. solve_component.
Qed.
End MasterFrames.

#[export] Hint Resolve exitReadOnly_frame : frame.

(** ** Leaving the read-only state *)

Section ExitReadOnly.
Context {H E : Type} `{K : Kube E} `{CM : ConditionMeta} `{CO : Codec}.
Context `{KL : !KubeLaws E K} `{CL : !ConditionMetaLaws CM}.
Local Abbreviation W := (World H E).
Context (m : Master H E) (Hmanager : ij_conditionsManager (ma_exitReadOnlyJob m) = Ytsaurus_conditions).
Let job := ma_exitReadOnlyJob m.

Definition exited (w : W) : bool := update_condition_true w ConditionMasterExitedReadOnly.
Definition exit_prepared (w : W) : bool := update_condition_true w ConditionMasterExitReadOnlyPrepared.
(** The completed condition of the job, in the status of the resource. *)
Definition exit_completed (w : W) : bool := condition_true w (ij_initCompletedCondition job).

(** The job and its configuration leave the update status alone. *)
Definition same_update (w w' : W) : Prop := updateStatus w' = updateStatus w.
#[local] Instance same_update_preorder : PreOrder same_update.
Proof. split; [by intros w|]. intros w1 w2 w3 H1 H2. exact (eq_trans H2 H1). Qed.

Lemma quiet_same_update {A} (p : M W A) : preserves quiet p -> preserves same_update p.
Proof. intros Hp w a w' Hrun. destruct (Hp w a w' Hrun) as [_ Hs]. unfold same_update, updateStatus. by rewrite Hs. Qed.

Lemma set_status_same_update c : preserves same_update (cmg_SetStatusCondition (ij_conditionsManager job) c).
Proof. unfold job. rewrite Hmanager. intros w u w' Hrun. injection Hrun as _ <-. done. Qed.

(** Follows the code; what is left only reads, keeps quiet, or sets a
    condition of the resource. *)
Ltac update_frame :=
  solve_frame;
  first [ apply set_status_same_update
        | apply quiet_same_update; solve [solve_frame]
        | unfold job; rewrite Hmanager; simpl; solve [solve_frame] ].

Lemma prepareRestart_same_update dry : preserves same_update (prepareRestart job dry).
Proof. unfold prepareRestart. update_frame. Qed.

Lemma InitJob_Sync_same_update dry : preserves same_update (InitJob_Sync job dry).
Proof. unfold InitJob_Sync. cbv zeta. update_frame. Qed.

Lemma SetInitScript_same_update script : preserves same_update (SetInitScript job script).
Proof. apply quiet_same_update. solve_frame. Qed.

Lemma isRestartPrepared_reads (w w' : W) b : isRestartPrepared job w = Some (b, w') -> w' = w.
Proof.
  unfold isRestartPrepared, ConfigHelper_Exists, Exists, read, job. rewrite Hmanager.
  rewrite !run_assoc. autorewrite with run. by intros [= _ <-].
Qed.

Lemma IsCompleted_reads (w : W) : IsCompleted job w = Some (exit_completed w, w).
Proof. unfold IsCompleted, exit_completed, job. by rewrite Hmanager. Qed.

Lemma same_update_condition t (w w' : W) :
  same_update w w' -> update_condition_true w' t = update_condition_true w t.
Proof. unfold same_update, update_condition_true. by intros ->. Qed.

(** The last step, without the job. *)
Lemma exit_acknowledged (w w' : W) st err :
  conditions_wf (us_Conditions (updateStatus w)) ->
  (_ ← (_ ← SetUpdateStatusCondition (mkCondition ConditionMasterExitedReadOnly ConditionTrue 0
              "MasterExitedReadOnly" "Masters exited read-only state");
        setMasterReadOnlyExitPrepared ConditionFalse);
   mret (SimpleStatus SyncStatusUpdating, None : error)) w = Some ((st, err), w') ->
  exited w' = true /\ exit_prepared w' = false.
Proof.
  intros Hwf Hrun. rewrite run_assoc in Hrun. unfold setMasterReadOnlyExitPrepared in Hrun.
  destruct (SetUpdateStatusCondition_run w (mkCondition ConditionMasterExitedReadOnly ConditionTrue 0
    "MasterExitedReadOnly" "Masters exited read-only state") Hwf) as (w1 & Hset & _ & _ & Hwf1 & Hk).
  rewrite (bind_step _ _ _ _ _ Hset) in Hrun.
  destruct (SetUpdateStatusCondition_run w1 (mkCondition ConditionMasterExitReadOnlyPrepared ConditionFalse 0
    "MasterExitReadOnlyPrepared" "Masters are ready to exit read-only state") Hwf1)
    as (w2 & Hset2 & _ & _ & _ & Hk2).
  rewrite (bind_step _ _ _ _ _ Hset2) in Hrun. injection Hrun as <- <- <-.
  unfold exited, exit_prepared. rewrite !Hk2. simpl cond_Type. rewrite decide_False, decide_True by done.
  rewrite Hk. simpl cond_Type. by rewrite decide_True.
Qed.

(** The conditions of the update and of the cluster, each at most once. *)
Definition exit_wf (w : W) : Prop :=
  conditions_wf (us_Conditions (updateStatus w)) /\ conditions_wf (st_Conditions (status w)).

Lemma update_condition_cluster c (w w' : W) u :
  SetUpdateStatusCondition c w = Some (u, w') -> st_Conditions (status w') = st_Conditions (status w).
Proof. by intros [= _ <-]. Qed.

Lemma quiet_status {A} (p : M W A) (w w' : W) a : preserves quiet p -> p w = Some (a, w') -> status w' = status w.
Proof. intros Hp Hrun. by destruct (Hp _ _ _ Hrun). Qed.

Lemma set_job_condition c (w w' : W) u :
  cmg_SetStatusCondition (ij_conditionsManager job) c w = Some (u, w') ->
  conditions_wf (st_Conditions (status w)) ->
  conditions_wf (st_Conditions (status w')) /\
  condition_true w' (cond_Type c) = bool_decide (cond_Status c = ConditionTrue).
Proof.
  unfold job. rewrite Hmanager. simpl. intros [= _ <-] Hwf. unfold condition_true. simpl. split.
  - by apply sortConditions_wf, set_wf.
  - rewrite is_true_set by done. by rewrite decide_True.
Qed.

(** Preparing a restart without error: what was there is deleted, and the job
    counts as not completed. *)
Definition nothing_left (w : W) : Prop :=
  isRestartPrepared job w = Some (true, w) \/
  exists w1 w2, RemoveIfExists (ij_configHelper job) w = Some (None, w1) /\
    InitJob_removeIfExists job w1 = Some (None, w2).

Lemma isRestartPrepared_false (w : W) :
  conditions_wf (st_Conditions (status w)) -> isRestartPrepared job w = Some (true, w) -> exit_completed w = false.
Proof.
  intros Hwf Hrun. unfold isRestartPrepared, ConfigHelper_Exists in Hrun.
  rewrite (bind_step _ _ _ _ _ (Exists_run _ w)), (bind_step _ _ _ _ _ (Exists_run _ w)) in Hrun.
  apply bind_inv in Hrun as (f & w1 & Hf & Hrun).
  unfold job in Hf. rewrite Hmanager in Hf. injection Hf as <- <-. injection Hrun as Hb.
  apply andb_true_iff in Hb as [_ Hb]. apply is_false_spec in Hb; [|done].
  unfold exit_completed, condition_true. apply not_true_is_false. intros Ht%is_true_spec; [|done].
  by pose proof (holds_functional _ _ _ _ Hwf Hb Ht).
Qed.

Lemma prepareRestart_run (w w' : W) err :
  exit_wf w -> prepareRestart job false w = Some (err, w') ->
  updateStatus w' = updateStatus w /\ conditions_wf (st_Conditions (status w')) /\
  (err <> None -> status w' = status w) /\
  (err = None -> nothing_left w /\ exit_completed w' = false).
Proof.
  intros [_ Hwf] Hrun. split; [by apply prepareRestart_same_update in Hrun|].
  apply bind_inv in Hrun as (e1 & w1 & H1 & Hrun).
  pose proof (quiet_status _ _ _ _ (RemoveIfExists_quiet _) H1) as Hs1.
  destruct e1 as [msg|]; [injection Hrun as <- <-; rewrite Hs1; by split_and!|].
  apply bind_inv in Hrun as (e2 & w2 & H2 & Hrun).
  pose proof (quiet_status _ _ _ _ (InitJob_removeIfExists_quiet job) H2) as Hs2. rewrite Hs1 in Hs2.
  destruct e2 as [msg|]; [injection Hrun as <- <-; rewrite Hs2; by split_and!|].
  apply bind_inv in Hrun as (u & w3 & H3 & Hret). injection Hret as <- <-.
  apply set_job_condition in H3 as [Hwf3 Hk]; [|by rewrite Hs2].
  split; [done|]. split; [done|]. intros _. split; [right; by exists w1, w2|exact Hk].
Qed.

(** The job is completed by a run that finds it succeeded. *)
Lemma InitJob_Sync_exit dry (w w' : W) r :
  exit_wf w -> exit_completed w = false -> InitJob_Sync job dry w = Some (r, w') ->
  conditions_wf (st_Conditions (status w')) /\
  exit_completed w' = negb dry && job_exists job w && job_succeeded job w.
Proof.
  intros [_ Hwf] Hc Hrun. unfold InitJob_Sync in Hrun. cbv zeta in Hrun.
  apply bind_inv in Hrun as (c & w1 & H1 & Hrun). pose proof (IsCompleted_reads w) as Hr.
  unfold IsCompleted in Hr. rewrite Hr, Hc in H1. injection H1 as <- <-.
  rewrite (bind_step _ _ _ _ _ (Exists_run _ w)) in Hrun. fold (job_exists job w) in Hrun.
  destruct (job_exists job w); cbn [negb] in Hrun.
  - rewrite (bind_step _ _ _ _ _ (Job_Completed_run _ w)) in Hrun. fold (job_succeeded job w) in Hrun.
    destruct (job_succeeded job w); cbn [negb] in Hrun.
    + apply bind_inv in Hrun as (u & w2 & H2 & Hret). injection Hret as _ <-.
      destruct dry; [by injection H2 as _ <-|]. apply set_job_condition in H2 as [Hwf2 Hk]; [|done].
      split; [done|exact Hk].
    + injection Hrun as _ <-. by rewrite andb_false_r.
  - apply bind_inv in Hrun as (e & w2 & H2 & Hret). injection Hret as _ <-.
    assert (status w2 = status w) as Hs.
    { destruct dry; [by injection H2 as _ <-|]. eapply create_job_status; exact H2. }
    unfold exit_completed, condition_true in *. rewrite Hs, andb_false_r. by split.
Qed.

(** The variables of the exit job: the job fetched is not part of the config
    map being built. *)
Context (Hapart : separate (oldObject (ij_initJob job)) (newObject (ch_configMap (ij_configHelper job)))).

Lemma ConfigHelper_Build_new h (w w' : W) r :
  ConfigHelper_Build h w = Some (r, w') -> forall cm, r = Some cm -> cm = newObject (ch_configMap h).
Proof.
  intros (cm & w1 & Hb & Hrun)%bind_inv. apply bind_inv in Hb as (? & ? & _ & Hret). injection Hret as <- _.
  apply bind_inv in Hrun as (ok & w2 & _ & Hret). injection Hret as <- _. by destruct ok; intros cm [= <-].
Qed.

Lemma SetInitScript_same script :
  preserves (same (oldObject (ij_initJob job))) (SetInitScript job script : M W unit).
Proof.
  intros w u w' (cm & w1 & Hb & Hrun)%bind_inv.
  pose proof (same_build _ _ Hapart _ _ _ Hb) as Hs1. pose proof (ConfigHelper_Build_new _ _ _ _ Hb) as Hn.
  destruct cm as [cm|]; [|done]. rewrite (Hn cm eq_refl) in Hrun.
  apply bind_inv in Hrun as (c & w2 & Hc & Hw). injection Hc as <- <-.
  apply (same_write _ _ _ Hapart) in Hw. unfold same in *. congruence.
Qed.

(** One run, branch by branch. *)
Lemma exitReadOnly_run (dry : bool) (w w' : W) (st : ComponentStatus) (err : error) :
  exit_wf w -> exitReadOnly m dry w = Some ((st, err), w') ->
  exit_wf w' /\
  exited w' = exited w || (negb dry && exit_prepared w && exit_completed w) /\
  exit_prepared w' =
    (if exit_prepared w then dry || negb (exit_completed w) else negb dry && no_error err) /\
  exit_completed w' =
    (if exit_prepared w then exit_completed w || (negb dry && job_exists job w && job_succeeded job w)
     else exit_completed w && negb (negb dry && no_error err)) /\
  (exit_prepared w = false -> dry = false -> err = None -> nothing_left w).
Proof.
  intros Hwf Hrun. pose proof Hwf as [Hwfu Hwfs].
  unfold exitReadOnly, IsUpdateStatusConditionTrue in Hrun. cbv zeta in Hrun. fold job in Hrun.
  rewrite run_gets in Hrun. change (meta_IsStatusConditionTrue _ _) with (exit_prepared w) in Hrun.
  assert (forall w1, same_update w w1 -> exited w1 = exited w /\ exit_prepared w1 = exit_prepared w) as Hsame
    by (intros w1 Hs; split; by apply same_update_condition).
  destruct (exit_prepared w) eqn:Hp; cbv beta iota delta [negb] in Hrun.
  - rewrite (bind_step _ _ _ _ _ (IsCompleted_reads w)) in Hrun.
    destruct (exit_completed w) eqn:Hc; cbv beta iota delta [negb] in Hrun.
    + destruct dry; [injection Hrun as <- <- <-; rewrite Hp, Hc, orb_false_r; by split_and!|].
      rewrite andb_true_r, orb_true_r. pose proof Hrun as Hack. apply exit_acknowledged in Hack as [He Hp']; [|done].
      apply bind_inv in Hrun as (u & w1 & H1 & Hret). injection Hret as _ _ <-.
      apply bind_inv in H1 as (u1 & w2 & H1 & H2).
      pose proof (update_condition_cluster _ _ _ _ H1) as Hs1. pose proof (update_condition_cluster _ _ _ _ H2) as Hs2.
      rewrite Hs1 in Hs2. split_and!; [split| | | |done]; [|by rewrite Hs2|done..|].
      { injection H2 as _ <-. injection H1 as _ <-. simpl. by repeat (apply sortConditions_wf, set_wf). }
      unfold exit_completed, condition_true in *. by rewrite Hs2, Hc.
    + apply bind_inv in Hrun as (u & w1 & H1 & Hrun).
      assert (status w1 = status w /\ same (oldObject (ij_initJob job)) w w1) as [Hs1 Hsj].
      { destruct dry; [by injection H1 as _ <-|]. split; [|by eapply SetInitScript_same].
        eapply quiet_status; [|exact H1]. eauto with frame. }
      pose proof (InitJob_Sync_same_update _ _ _ _ Hrun) as Hs2.
      assert (same_update w w') as Hs by (unfold same_update, updateStatus in *; congruence).
      apply InitJob_Sync_exit in Hrun as [Hwf' Hk];
        [|by unfold exit_wf, updateStatus; rewrite Hs1|by unfold exit_completed, condition_true in *; rewrite Hs1].
      destruct (Hsame _ Hs) as [-> ->]. unfold job_exists, job_succeeded in Hk. rewrite Hsj in Hk.
      rewrite andb_false_r, !orb_false_r, orb_true_r, Hk. split_and!; [split; [by rewrite Hs|done]|done..].
  - rewrite andb_false_r, orb_false_r. apply bind_inv in Hrun as (restart & w1 & Hr & Hrun).
    pose proof (isRestartPrepared_reads _ _ _ Hr) as ->. apply bind_inv in Hrun as (err1 & w2 & Hprep & Hrun).
    assert (same_update w w2 /\ conditions_wf (st_Conditions (status w2)) /\
      (dry = true \/ err1 <> None -> status w2 = status w) /\
      (dry = false -> err1 = None -> nothing_left w /\ exit_completed w2 = false)) as (Hs2 & Hwf2 & Hst & Hdone).
    { destruct restart; simpl in Hprep.
      { injection Hprep as <- <-. split_and!; [done..|]. intros _ _. split; [by left|by apply isRestartPrepared_false]. }
      destruct dry; [by injection Hprep as <- <-|]. apply prepareRestart_run in Hprep as (H1 & H2 & H3 & H4); [|done].
      split_and!; [done..| |done]. intros [?|?]; [done|by apply H3]. }
    destruct (Hsame _ Hs2) as [He2 Hp2]. destruct err1 as [msg|].
    + injection Hrun as <- <- <-. rewrite He2, Hp2.
      assert (dry = false) as -> by (destruct dry; [|done]; destruct restart; discriminate Hprep).
      simpl. rewrite andb_true_r. split_and!; [split; [by rewrite Hs2|done]|done|congruence| |done].
      unfold exit_completed, condition_true. by rewrite Hst by by right.
    + destruct dry; simpl.
      { injection Hrun as <- <- <-. rewrite He2, Hp2, andb_true_r.
        split_and!; [split; [by rewrite Hs2|done]|done|congruence| |done].
        unfold exit_completed, condition_true. by rewrite Hst by by left. }
      destruct (Hdone eq_refl eq_refl) as [Hleft Hc2].
      destruct (SetUpdateStatusCondition_run w2 (mkCondition ConditionMasterExitReadOnlyPrepared ConditionTrue 0
        "MasterExitReadOnlyPrepared" "Masters are ready to exit read-only state"))
        as (w3 & Hset & _ & _ & Hwf3 & Hk); [by rewrite Hs2|].
      pose proof (update_condition_cluster _ _ _ _ Hset) as Hs3.
      unfold setMasterReadOnlyExitPrepared in Hrun. rewrite (bind_step _ _ _ _ _ Hset) in Hrun.
      injection Hrun as <- <- <-. simpl. rewrite andb_false_r. split_and!; [by split; [|rewrite Hs3]| | | |done].
      * unfold exited in *. rewrite Hk. simpl cond_Type. by rewrite decide_False.
      * unfold exit_prepared. rewrite Hk. simpl cond_Type. by rewrite decide_True.
      * unfold exit_completed, condition_true in *. by rewrite Hs3.
Qed.

(** A run in the state that waits for the exit: its fetched objects and the
    cluster are whatever they are; the status is the one the API server holds. *)
Record ExitRun := mkExitRun {
  er_dry : bool; er_before : W; er_status : ComponentStatus; er_error : error; er_after : W;
}.
Definition is_run (r : ExitRun) : Prop :=
  exitReadOnly m (er_dry r) (er_before r) = Some ((er_status r, er_error r), er_after r).

(** The runs of an update, the last one last: its status is saved, or lost. *)
Inductive exit_history (w0 : W) : list ExitRun -> W -> Prop :=
| history_start : exit_history w0 [] w0
| history_saved l w r :
    exit_history w0 l w -> status (er_before r) = status w -> is_run r ->
    exit_history w0 (l ++ [r]) (er_after r)
| history_lost l w r :
    exit_history w0 l w -> status (er_before r) = status w -> is_run r -> exit_history w0 (l ++ [r]) w.

(** The run that prepared the exit, one that found the exit job succeeded, and
    the run that declares the masters out. *)
Definition prepares (r : ExitRun) : Prop :=
  er_dry r = false /\ er_error r = None /\ nothing_left (er_before r) /\ exit_completed (er_after r) = false.
Definition finds_success (r : ExitRun) : Prop :=
  er_dry r = false /\ job_exists job (er_before r) = true /\ job_succeeded job (er_before r) = true.
Definition declares (r : ExitRun) : Prop :=
  er_dry r = false /\ exited (er_after r) = true /\ exit_prepared (er_after r) = false.

Lemma exit_history_order (w0 w : W) l :
  exit_wf w0 -> exited w0 = false -> exit_prepared w0 = false -> exit_history w0 l w ->
  exit_wf w /\
  (exited w = true -> exists a b c, [a; b; c] `sublist_of` l /\ prepares a /\ finds_success b /\ declares c) /\
  (exit_prepared w = true -> exists a, [a] `sublist_of` l /\ prepares a) /\
  (exit_prepared w = true -> exit_completed w = true ->
     exists a b, [a; b] `sublist_of` l /\ prepares a /\ finds_success b).
Proof.
  intros Hwf0 He0 Hp0 Hh. induction Hh as [|l w r _ IH Hst Hrun|l w r _ IH Hst _].
  - split_and!; [done|by rewrite He0|by rewrite Hp0..].
  - destruct IH as (Hwf & IHe & IHp & IHc). unfold is_run in Hrun.
    assert (exited w = exited (er_before r) /\ exit_prepared w = exit_prepared (er_before r) /\
            exit_completed w = exit_completed (er_before r)) as (He & Hp & Hc)
      by (unfold exited, exit_prepared, exit_completed, condition_true, update_condition_true, updateStatus; by rewrite Hst).
    rewrite He in IHe. rewrite Hp in IHp, IHc. rewrite Hc in IHc. pose proof Hrun as Hstep.
    apply exitReadOnly_run in Hstep as (Hwf' & He' & Hp' & Hc' & Hleft);
      [|by unfold exit_wf, updateStatus in *; rewrite Hst].
    split; [done|]. rewrite He', Hp', Hc'. split_and!.
    + intros [Ht|((Hd & Hpt)%andb_true_iff & Hct)%andb_true_iff]%orb_true_iff.
      * destruct (IHe Ht) as (a & b & c & Hl & Habc). exists a, b, c. split; [|done]. by apply sublist_inserts_r.
      * destruct (IHc Hpt Hct) as (a & b & Hl & Ha & Hb). exists a, b, r.
        split; [by apply (sublist_app [a; b] l [r] [r])|]. split; [done|]. split; [done|].
        apply negb_true_iff in Hd. split; [done|]. rewrite He', Hp', Hd, Hpt, Hct. simpl. by rewrite orb_true_r.
    + destruct (exit_prepared (er_before r)) eqn:Hpb.
      * intros _. destruct (IHp eq_refl) as (a & Hl & Ha). exists a. split; [|done]. by apply sublist_inserts_r.
      * intros [Hd Hn]%andb_true_iff. apply negb_true_iff in Hd. exists r. split; [by apply sublist_inserts_l|].
        destruct (er_error r) eqn:Herr; [done|]. split; [done|]. split; [done|]. split; [by apply Hleft|].
        rewrite Hc', Hd. simpl. apply andb_false_r.
    + destruct (exit_prepared (er_before r)) eqn:Hpb.
      * intros _ [Ht|((Hd & Hj)%andb_true_iff & Hs)%andb_true_iff]%orb_true_iff.
        { destruct (IHc eq_refl Ht) as (a & b & Hl & Hab). exists a, b. split; [|done]. by apply sublist_inserts_r. }
        destruct (IHp eq_refl) as (a & Hl & Ha). apply negb_true_iff in Hd. exists a, r.
        split; [by apply (sublist_app [a] l [r] [r])|]. by split.
      * intros Hpn [_ Hn]%andb_true_iff. by rewrite Hpn in Hn.
  - destruct IH as (Hwf & IHe & IHp & IHc). split; [done|]. split_and!.
    + intros Ht. destruct (IHe Ht) as (a & b & c & Hl & Habc). exists a, b, c. split; [|done]. by apply sublist_inserts_r.
    + intros Ht. destruct (IHp Ht) as (a & Hl & Ha). exists a. split; [|done]. by apply sublist_inserts_r.
    + intros Ht Hct. destruct (IHc Ht Hct) as (a & b & Hl & Hab). exists a, b. split; [|done]. by apply sublist_inserts_r.
Qed.

(** C31. The masters are declared out of the read-only state only after the
    exit job.  Over any sequence of runs of an update that starts neither
    prepared nor declared, whatever each run finds fetched and whether its
    status is saved or lost: if the masters are declared out, there were, in
    this order, a wet run that found nothing left of an earlier job or deleted
    its configuration and the job without error, and made it count as not
    completed; a wet run that found the exit job there and succeeded; and a wet
    run that declared them out and reset the preparation, so that the next update
    starts over.  And at the end of any such sequence, one more run declares them
    out exactly if it is wet, the exit is prepared and the job completed, becomes
    prepared exactly as said, and changes nothing of this when it is dry. *)
Theorem exitReadOnly_protocol (w0 w : W) (l : list ExitRun)
    (Hwf : exit_wf w0) (Hexited : exited w0 = false) (Hprepared : exit_prepared w0 = false)
    (Hruns : exit_history w0 l w) :
  (exited w = true ->
     exists a b c, [a; b; c] `sublist_of` l /\ prepares a /\ finds_success b /\ declares c) /\
  (forall (dry : bool) (w' : W) st err, exitReadOnly m dry w = Some ((st, err), w') ->
     exited w' = exited w || (negb dry && exit_prepared w && exit_completed w) /\
     exit_prepared w' =
       (if exit_prepared w then dry || negb (exit_completed w) else negb dry && no_error err) /\
     exit_completed w' =
       (if exit_prepared w then exit_completed w || (negb dry && job_exists job w && job_succeeded job w)
        else exit_completed w && negb (negb dry && no_error err))).
Proof.
  destruct (exit_history_order w0 w l Hwf Hexited Hprepared Hruns) as (Hwfw & Horder & _).
  split; [exact Horder|]. intros dry w' st err Hrun.
  destruct (exitReadOnly_run dry w w' st err Hwfw Hrun) as (_ & H1 & H2 & H3 & _). by split_and!.
Qed.
End ExitReadOnly.

(** ** A job that outlives its deletion *)

Import RefMeta RefCodec.

Module StaleJob.
Definition job_done : Job :=
  mkJob (mkObjectMeta "yt-master-init-job-exit-read-only" "default" ∅ None "1") None None
    (mkPodTemplateSpec ObjectMeta_zero PodSpec_zero) 1.

(** Outside: the status, and the writes the API server accepted.  The cluster
    still holds the succeeded job of an earlier update: a deletion in the
    foreground only marks it, until its pods are gone. *)
Inductive Write := Created (name : string) | Updated (name : string) | Deleted (name : string).
Definition E : Type := YtsaurusStatus * list Write.

#[export] Instance kube : Kube E := {|
  client_now := fun _ => 0%Z;
  client_StatusUpdate := fun y e => (None, (yt_Status y, e.2));
  client_Get := fun k _ _ _ =>
    match k with KJob => GetOk job_done | _ => GetNotFound "not found" end;
  client_ListPods := fun _ _ _ => inr [];
  client_Create := fun k o e => (None, o, (e.1, e.2 ++ [Created (GetName o)]));
  client_Update := fun k o e => (None, o, (e.1, e.2 ++ [Updated (GetName o)]));
  client_Delete := fun k o _ e => (None, (e.1, e.2 ++ [Deleted (GetName o)]));
  recorder_Event := fun _ _ _ e => e;
  ctrl_SetControllerReference := fun k _ o => inr o;
|}.

#[export] Instance kube_laws : KubeLaws E kube.
Proof. refine {| persisted := fst |}; simpl; intros; by simplify_eq. Defined.

(** A master with the exit job, and a server that is never asked. *)
Definition heap_t : Type := JobWitness.heap_t * Secret.
Definition in_job {A} (r : Ref JobWitness.heap_t A) : Ref heap_t A := comp_ref fst_ref r.

Definition vars : InitJobVars heap_t :=
  let v := JobWitness.vars in
  mkInitJobVars heap_t (in_job (jv_job_old v)) (in_job (jv_job_new v)) (in_job (jv_overrides v))
    (in_job (jv_configMap_old v)) (in_job (jv_configMap_new v)) (in_job (jv_built v)).

Definition job : InitJob heap_t E :=
  NewInitJob vars JobWitness.labeller Ytsaurus_conditions [] "exit-read-only" ClientConfigFileName
    "ytsaurus:dev" (fun y => inr (yt_Name y)).

Definition srv : server (World heap_t E) heap_t :=
  mkServer _ _ (mret None) (mret None) (mkPodsManager _ (mret None) (mret true) (mret true) (mret true))
    (mret false) (mret false) (mret false) (mret false) panic panic.

Definition master : Master heap_t E :=
  mkMaster _ _ (mkLocalServerComponent _ _ JobWitness.labeller srv) job job snd_ref
    (fun _ => inl "no connection"%string).

(** Between two reconciliations everything fetched is forgotten. *)
Definition forgotten : heap_t :=
  ((JobWitness.job_zero, (JobWitness.job_zero, (JobWitness.cm_zero, (JobWitness.cm_zero,
    (JobWitness.cm_zero, false))))), mkSecret ObjectMeta_zero "" ∅ ∅).

(** The job of an earlier update completed; a new update waits for the
    masters to leave the read-only state. *)
Definition world0 : World heap_t E :=
  let st := mkYtsaurusStatus ClusterStateUpdating [completed_condition job]
              (mkUpdateStatus UpdateStateWaitingForMasterExitReadOnly None UpdateFlowFull [] [] []) in
  mkWorld (set_yt_Status st (sample_Ytsaurus ClusterStateUpdating)) forgotten (st, []).

(** What a reconciliation does in this state. *)
Definition reconcile (w : World heap_t E) : option (SyncResult * World heap_t E) :=
  (_ ← InitJob_Fetch (ma_exitReadOnlyJob master); exitReadOnly master false)
    (mkWorld (resource w) forgotten (ext w)).
End StaleJob.

Import StaleJob.

(** Preparing the exit job does not wait for the old one to be gone, as
    the scheduler and the query tracker do: with the succeeded job of an
    earlier update still in the cluster, marked for deletion, three
    reconciliations declare the masters out of the read-only state although
    no job was created; the restart was not prepared in between. *)
Theorem stale_exit_job_counts :
  exists st1 w1 st2 w2 st3 w3,
    reconcile world0 = Some ((st1, None), w1) /\
    isRestartPrepared (ma_exitReadOnlyJob master) w1 = Some (false, w1) /\
    reconcile w1 = Some ((st2, None), w2) /\
    reconcile w2 = Some ((st3, None), w3) /\
    exited world0 = false /\ exited w3 = true /\
    (ext w3).2 = [Deleted "yt-master-init-job-exit-read-only"].
Proof. do 6 eexists. do 6 (split; [vm_compute; reflexivity|]). vm_compute. reflexivity. Qed.

(** The three runs of those reconciliations. *)
Module ExitWitness.
Definition run_from (w : World heap_t E) : ExitRun (H:=heap_t) (E:=E) :=
  match InitJob_Fetch (ma_exitReadOnlyJob master) (mkWorld (resource w) forgotten (ext w)) with
  | None => mkExitRun false w (SimpleStatus SyncStatusUpdating) None w
  | Some (_, before) =>
      match exitReadOnly master false before with
      | None => mkExitRun false w (SimpleStatus SyncStatusUpdating) None w
      | Some ((st, err), after) => mkExitRun false before st err after
      end
  end.
Definition run1 : ExitRun (H:=heap_t) (E:=E) := run_from world0.
Definition run2 : ExitRun (H:=heap_t) (E:=E) := run_from (er_after run1).
Definition run3 : ExitRun (H:=heap_t) (E:=E) := run_from (er_after run2).

Lemma separated :
  separate (oldObject (ij_initJob (ma_exitReadOnlyJob master)))
    (newObject (ch_configMap (ij_configHelper (ma_exitReadOnlyJob master)))).
Proof. intros b h. repeat match goal with x : _ * _ |- _ => destruct x end. reflexivity. Qed.

Lemma runs : exit_history master world0 [run1; run2; run3] (er_after run3).
Proof.
  apply (history_saved master world0 [run1; run2] (er_after run2)); [|vm_compute; reflexivity..].
  apply (history_saved master world0 [run1] (er_after run1)); [|vm_compute; reflexivity..].
  apply (history_saved master world0 [] world0); [constructor|vm_compute; reflexivity..].
Qed.
End ExitWitness.

Lemma exitReadOnly_protocol_witness :
  exited (er_after ExitWitness.run3) = true /\
  exists a b c, [a; b; c] `sublist_of` [ExitWitness.run1; ExitWitness.run2; ExitWitness.run3] /\
    prepares master a /\ finds_success master b /\ declares c.
Proof.
  split; [vm_compute; reflexivity|].
  refine (proj1 (exitReadOnly_protocol master eq_refl ExitWitness.separated world0 (er_after ExitWitness.run3)
    [ExitWitness.run1; ExitWitness.run2; ExitWitness.run3] _ eq_refl eq_refl ExitWitness.runs) _).
  - split; repeat constructor; set_solver.
  - vm_compute. reflexivity.
Defined.
