(* ===== verification/StateJobs.v ===== *)
(** * Components with a state job: scheduler.go, query_tracker.go

    These servers own a job that prepares their state in the cluster (the
    operations archive, the query tracker tables, ...) and a secret with their
    token.  During an update the scheduler and the query tracker run the job
    again: they prepare its restart, wait for it, and acknowledge both. *)

From S2P Require Import Prelude GoPath Api Kube Conditions Samples CellId Labeller Names Proxy Component Resources ConfigHelper Server InitJob Observe ServerComponent Nodes YtApi YtsaurusClient.

Definition YqlUserName : string := "yql_agent".
Definition DefaultYqlTokenPath : string := "/usr/yql_agent_token".

(** ** Containers *)

Definition set_ct_EnvFrom (v : list string) (c : Container) : Container :=
  mkContainer (ct_Image c) (ct_Name c) (ct_Command c) (ct_Args c) (ct_Env c) v (ct_VolumeMounts c)
    (ct_Ports c) (ct_Resources c) (ct_ReadinessProbe c) (ct_Privileged c).
Definition set_ct_Command (v : list string) (c : Container) : Container :=
  mkContainer (ct_Image c) (ct_Name c) v (ct_Args c) (ct_Env c) (ct_EnvFrom c) (ct_VolumeMounts c)
    (ct_Ports c) (ct_Resources c) (ct_ReadinessProbe c) (ct_Privileged c).

Section Jobs.
Context {H E : Type} `{K : Kube E} `{CM : ConditionMeta} `{CO : Codec} `{Y : Yt E} `{EN : Entropy E}.
Local Abbreviation W := (World H E).

(** ** The shared steps *)

(** The job's first container gets the environment of the secret. *)
Definition job_env_from (job : Ref H Job) (secret : Handle H KSecret) : M W unit :=
  o ← read job;
  let p := pt_Spec (job_Template o) in
  match ps_Containers p with
  | [] => panic
  | c :: cs =>
      write job (mkJob (job_ObjectMeta o) (job_TTLSecondsAfterFinished o) (job_BackoffLimit o)
        (mkPodTemplateSpec (pt_ObjectMeta (job_Template o))
           (set_ps_Containers (set_ct_EnvFrom [hd_name secret] c :: cs) p))
        (job_Status_Succeeded o))
  end.

(** [prepareInit...State]: the script, then the environment of the job. *)
Definition prepare_state_job (j : InitJob H E) (secret : Handle H KSecret) (script : string) : M W unit :=
  _ ← SetInitScript j script;
  job ← InitJob_Build j;
  job_env_from job secret.

Definition set_update_condition (type_ reason msg : string) : M W unit :=
  SetUpdateStatusCondition (mkCondition type_ ConditionTrue 0 reason msg).

(** [updateOpArchive] and [updateQTState]: in the state [prepare] the restart
    of the job is prepared and acknowledged, in the state [run] its
    completion is; a nil status lets the caller go on, to run the job. *)
Definition restart_job (j : InitJob H E) (dry : bool) (prepare run : UpdateState)
    (set_prepared set_done : M W unit) : M W (option ComponentStatus * error) :=
  state ← GetUpdateState;
  if decide (state = prepare) then
    prepared ← isRestartPrepared j;
    if negb prepared then
      err ← prepareRestart j dry; mret (Some (SimpleStatus SyncStatusUpdating), err)
    else
      _ ← (if dry then mret tt else set_prepared);
      mret (Some (SimpleStatus SyncStatusUpdating), None)
  else if decide (state = run) then
    completed ← isRestartCompleted j;
    if negb completed then mret (None, None)
    else
      _ ← (if dry then mret tt else set_done);
      mret (Some (SimpleStatus SyncStatusUpdating), None)
  else mret (None, None).

(** What the two do while the cluster is updating. *)
Definition updating_with_job (l : Labeller) (pods : podsManager W) (dry : bool)
    (update : M W (option ComponentStatus * error)) (run : UpdateState)
    : M W (option ComponentStatus * error) :=
  updating ← IsUpdatingSelf (lb_ComponentName l) true;
  if (updating : bool) then
    state ← GetUpdateState;
    if decide (state = UpdateStateWaitingForPodsRemoval) then
      err ← act dry (removePods pods l);
      mret (Some (WaitingStatus SyncStatusUpdating "pods removal"), err)
    else
      '(st, err) ← update;
      match st with
      | Some st => mret (Some st, err)
      | None =>
          state ← GetUpdateState;
          if decide (state <> UpdateStateWaitingForPodsCreation /\ state <> run) then
            mret (Some (NewComponentStatus SyncStatusReady "Nothing to do now"), None)
          else mret (None, None)
      end
  else mret (Some (NewComponentStatus SyncStatusReady "Not updating component"), None).

(** ** scheduler.go *)

Record Scheduler := mkScheduler {
  sch_base : localServerComponent W H;
  sch_cfgen : Generator;
  sch_master : Component W;
  sch_execNodes : slice (Component W);
  sch_tabletNodes : slice (Component W);
  sch_initUser : InitJob H E;
  sch_initOpArchive : InitJob H E;
  sch_secret : Handle H KSecret;
}.

Definition needOpArchiveInit (s : Scheduler) : bool :=
  negb (is_nil (sch_tabletNodes s)) && (0 <? go_len (sch_tabletNodes s))%Z.

Definition updateOpArchive (s : Scheduler) (dry : bool) : M W (option ComponentStatus * error) :=
  state ← GetUpdateState;
  if decide (state = UpdateStateWaitingForOpArchiveUpdatingPrepare /\ needOpArchiveInit s = false) then
    _ ← set_update_condition ConditionNotNecessaryToUpdateOpArchive "NotNecessaryToUpdateOpArchive"
          "Operations archive does not need to be updated";
    mret (Some (SimpleStatus SyncStatusUpdating), None)
  else
    restart_job (sch_initOpArchive s) dry UpdateStateWaitingForOpArchiveUpdatingPrepare
      UpdateStateWaitingForOpArchiveUpdate
      (set_update_condition ConditionOpArchivePreparedForUpdating "OpArchivePreparedForUpdating"
         "Operations archive prepared for updating")
      (set_update_condition ConditionOpArchiveUpdated "OpArchiveUpdated" "Operations archive updated").

Definition Scheduler_createInitUserScript (s : Scheduler) : M W string :=
  '(token, _) ← StringSecret_GetValue (sch_secret s) TokenSecretKey;
  mret (String.concat NL
    (initJobWithNativeDriverPrologue :: createUserCommand "operation_archivarius" "" token true)).

Definition setInitOpArchivePath : string :=
  (NL +:+ "export INIT_OP_ARCHIVE=/usr/bin/init_operations_archive" +:+
   NL +:+ "if [ ! -f $INIT_OP_ARCHIVE ]; then" +:+
   NL +:+ "export INIT_OP_ARCHIVE=/usr/bin/init_operation_archive" +:+
   NL +:+ "fi" +:+ NL)%string.

Definition prepareInitOperationsArchive (s : Scheduler) : M W unit :=
  prepare_state_job (sch_initOpArchive s) (sch_secret s)
    (String.concat NL
       [initJobWithNativeDriverPrologue;
        setInitOpArchivePath;
        ("$INIT_OP_ARCHIVE --force --latest --proxy " +:+
           GetHTTPProxiesServiceAddress (sch_cfgen s) DefaultHTTPProxyRole)%string;
        SetWithIgnoreExisting "//sys/cluster_nodes/@config"
          ("'{" +:+ DQ +:+ "%true" +:+ DQ +:+ " = {job_agent={enable_job_reporter=%true}}}'")%string]).

Definition initOpAchieve (s : Scheduler) (dry : bool) : M W SyncResult :=
  _ ← (if dry then mret tt
       else script ← Scheduler_createInitUserScript s; SetInitScript (sch_initUser s) script);
  '(status, err) ← InitJob_Sync (sch_initUser s) dry;
  if decide (cst_SyncStatus status <> SyncStatusReady) then mret (status, err)
  else
    await_all (elems (sch_tabletNodes s))
      (_ ← (if dry then mret tt else prepareInitOperationsArchive s);
       InitJob_Sync (sch_initOpArchive s) dry).

Definition Scheduler_doSync (s : Scheduler) (dry : bool) : M W SyncResult :=
  let srv := lsc_server (sch_base s) in
  let l := lsc_labeller (sch_base s) in
  local_update_guard (sv_needUpdate srv)
  (updating_guard (updating_with_job l (sv_pods srv) dry (updateOpArchive s dry)
                     UpdateStateWaitingForOpArchiveUpdate)
  (await_running (sch_master s)
  (await_all (elems (sch_execNodes s))
  (pending_secret l (sch_secret s) dry
  (sync_server srv dry (sv_Sync srv)
  (await_pods (pm_arePodsReady (sv_pods srv))
   (if negb (needOpArchiveInit s) then ready else initOpAchieve s dry))))))).

Definition Scheduler_component (s : Scheduler) : Component W :=
  component_of (lb_ComponentName (lsc_labeller (sch_base s))) SchedulerType true
    (lsc_labeller (sch_base s))
    (in_order [sv_Fetch (lsc_server (sch_base s)); InitJob_Fetch (sch_initOpArchive s);
               InitJob_Fetch (sch_initUser s); Fetch (sch_secret s)])
    (Scheduler_doSync s).

(** ** query_tracker.go *)

Record QueryTracker := mkQueryTracker {
  qt_base : localServerComponent W H;
  qt_cfgen : Generator;
  qt_ytsaurusClient : internalYtsaurusClient H E;
  qt_tabletNodes : slice (Component W);
  qt_initCondition : string;
  qt_initQTState : InitJob H E;
  qt_secret : Handle H KSecret;
}.

Definition updateQTState (qt : QueryTracker) (dry : bool) : M W (option ComponentStatus * error) :=
  restart_job (qt_initQTState qt) dry UpdateStateWaitingForQTStateUpdatingPrepare
    UpdateStateWaitingForQTStateUpdate
    (set_update_condition ConditionQTStatePreparedForUpdating "QTStatePreparedForUpdating"
       "Query Tracker state prepared for updating")
    (set_update_condition ConditionQTStateUpdated "QTStateUpdated" "Query tracker state updated").

(** The loop over the tablet nodes, whose status is reported as theirs. *)
Fixpoint await_tablet_nodes (nodes : list (Component W)) (rest : M W SyncResult) : M W SyncResult :=
  match nodes with
  | [] => rest
  | tnd :: nodes' =>
      '(tndStatus, err) ← cmp_Status tnd;
      match err with
      | Some _ => mret (tndStatus, err)
      | None =>
          if negb (IsRunningStatus (cst_SyncStatus tndStatus)) then
            mret (WaitingStatus SyncStatusBlocked "tablet nodes", None)
          else await_tablet_nodes nodes' rest
      end
  end.

(** A call on the YT client: on a nil client it panics. *)
Definition on_client (client : bool) (call : M W error) : M W error :=
  if client then call else panic.

(** [createUser] of the component, with the token of its secret. *)
Definition createUser (secret : Handle H KSecret) (client : bool) (user : string) : M W error :=
  '(token, _) ← StringSecret_GetValue secret TokenSecretKey;
  on_client client (CreateUser user token true).

Definition addresses_value (addresses : list string) : YtValue :=
  YMap [("addresses", YList (YString <$> addresses))]%string.
Definition strings_value (l : list string) : YtValue := YList (YString <$> l).

(** The cluster connection is copied to the directory of clusters. *)
Definition copy_cluster_connection (clusterName : string) : M W error :=
  r ← GetNode TAttributes "//sys/@cluster_connection" false;
  match r with
  | inl err => mret (Some err)
  | inr attr => outside (yt_SetNode ("//sys/clusters/" +:+ clusterName)%string (YMap attr))
  end.

(** [if x == nil { panic }] for an address list of a nil specification. *)
Definition set_addresses (path : string) (addresses : option (list string))
    (value : list string -> YtValue) : M W error :=
  match addresses with
  | None => panic
  | Some l => outside (yt_SetNode path (value l))
  end.

Definition everyone_acl (permissions : list string) : YtValue :=
  YList [YMap [("action", YString "allow"); ("subjects", strings_value ["everyone"]);
               ("permissions", strings_value permissions)]]%string.

Definition access_control_object (name : string) (acl : option (list string)) : M W error :=
  outside (yt_CreateObject "access_control_object"
    ([("name", YString name); ("namespace", YString "queries")]%string ++
     match acl with None => [] | Some p => [("principal_acl"%string, everyone_acl p)] end) true).

Definition queries_namespace : M W error :=
  outside (yt_CreateObject "access_control_object_namespace"
    [("name", YString "queries");
     ("acl", YList [
        YMap [("action", YString "allow"); ("subjects", strings_value ["owner"]);
              ("permissions", strings_value ["read"; "write"; "administer"; "remove"]);
              ("inheritance_mode", YString "immediate_descendants_only")];
        YMap [("action", YString "allow"); ("subjects", strings_value ["users"]);
              ("permissions", strings_value ["modify_children"]);
              ("inheritance_mode", YString "object_only")]])]%string true).

Definition qt_config (clusterName : string) : YtValue :=
  let engine := YMap [("default_cluster"%string, YString clusterName)] in
  YMap [("query_tracker", YMap [("ql_engine", engine); ("chyt_engine", engine);
                                ("spyt_engine", engine)])]%string.

(** [QueryTracker.init]: up to the first error. *)
Definition QueryTracker_init (qt : QueryTracker) : M W error :=
  let clusterName := GetClusterName (lsc_labeller (qt_base qt)) in
  in_order
    [outside (yt_CreateNode "//sys/query_tracker/config" "document"
       [("value"%string, qt_config clusterName)] true true);
     set_addresses "//sys/@cluster_connection/query_tracker" (GetQueryTrackerAddresses (qt_cfgen qt))
       (fun addresses => YMap [("stages", YMap [("production",
          YMap [("root", YString "//sys/query_tracker"); ("user", YString "query_tracker");
                ("channel", addresses_value addresses)])])]%string);
     copy_cluster_connection clusterName;
     queries_namespace;
     access_control_object "nobody" None;
     access_control_object "everyone" (Some ["read"; "use"]%string);
     access_control_object "everyone-use" (Some ["use"]%string);
     access_control_object "everyone-share" (Some ["read"; "use"]%string)].

Definition prepareInitQueryTrackerState (qt : QueryTracker) : M W unit :=
  let path := "/usr/bin/init_query_tracker_state"%string in
  prepare_state_job (qt_initQTState qt) (qt_secret qt)
    (String.concat NL
       [initJobWithNativeDriverPrologue;
        ("if [[ -f " +:+ DQ +:+ path +:+ DQ +:+ " ]]; then " +:+ path +:+ " --force --latest --proxy " +:+
           GetHTTPProxiesServiceAddress (qt_cfgen qt) DefaultHTTPProxyRole +:+ "; fi")%string]).

Definition set_condition_completed (type_ reason msg : string) : M W unit :=
  SetStatusCondition (mkCondition type_ ConditionTrue 0 reason msg).

(** The end of [doSync]: the state job, then the condition. *)
Definition qt_run_job (qt : QueryTracker) (dry : bool) : M W SyncResult :=
  _ ← (if dry then mret tt else prepareInitQueryTrackerState qt);
  '(status, err) ← InitJob_Sync (qt_initQTState qt) dry;
  if negb (no_error err) || negb (bool_decide (cst_SyncStatus status = SyncStatusReady)) then
    mret (status, err)
  else
    initialised ← IsStatusConditionTrue (qt_initCondition qt);
    if (initialised : bool) then ready
    else mret (WaitingStatus SyncStatusPending
                 ("setting " +:+ qt_initCondition qt +:+ " condition")%string, None).

(** The part that needs the YT client. *)
Definition qt_initialize (qt : QueryTracker) : M W SyncResult :=
  ytClient ← read (iyc_ytClient (qt_ytsaurusClient qt));
  if negb ytClient then mret (WaitingStatus SyncStatusPending "getting yt client", None)
  else
    state ← GetClusterState;
    err ← (if decide (state <> ClusterStateUpdating) then
             createUser (qt_secret qt) ytClient "query_tracker"
           else mret None);
    match err with
    | Some _ => mret (WaitingStatus SyncStatusPending "create qt user", err)
    | None =>
        err ← QueryTracker_init qt;
        match err with
        | Some _ =>
            mret (WaitingStatus SyncStatusPending
                    (lb_ComponentName (lsc_labeller (qt_base qt)) +:+ " initialization")%string, err)
        | None =>
            _ ← set_condition_completed (qt_initCondition qt) "InitQueryTrackerCompleted"
                  "Init query tracker successfully completed";
            qt_run_job qt false
        end
    end.

Definition QueryTracker_doSync (qt : QueryTracker) (dry : bool) : M W SyncResult :=
  let srv := lsc_server (qt_base qt) in
  let l := lsc_labeller (qt_base qt) in
  local_update_guard (sv_needUpdate srv)
  (updating_guard (updating_with_job l (sv_pods srv) dry (updateQTState qt dry)
                     UpdateStateWaitingForQTStateUpdate)
  (pending_secret l (qt_secret qt) dry
  (sync_server srv dry (sv_Sync srv)
  (await_pods (pm_arePodsReady (sv_pods srv))
  (if is_nil (qt_tabletNodes qt) || (go_len (qt_tabletNodes qt) =? 0)%Z then
     mret (WaitingStatus SyncStatusBlocked "tablet nodes",
           Some "cannot initialize query tracker without tablet nodes"%string)
   else
     await_tablet_nodes (elems (qt_tabletNodes qt))
       (if dry then qt_run_job qt true else qt_initialize qt)))))).

Definition QueryTracker_component (qt : QueryTracker) : Component W :=
  component_of (lb_ComponentName (lsc_labeller (qt_base qt))) QueryTrackerType true
    (lsc_labeller (qt_base qt))
    (in_order [sv_Fetch (lsc_server (qt_base qt)); InitJob_Fetch (qt_initQTState qt);
               Fetch (qt_secret qt)])
    (QueryTracker_doSync qt).
End Jobs.

(** ** Frames *)

Section StateJobFrames.
Context {H E : Type} `{K : Kube E} `{CM : ConditionMeta} `{CO : Codec} `{Y : Yt E} `{EN : Entropy E}.
Context `{KL : !KubeLaws E K} `{CL : !ConditionMetaLaws CM} `{YL : !YtLaws E K KL Y}.
Context `{EL : !EntropyLaws E K KL EN}.
Local Abbreviation W := (World H E).

Lemma create_node_quiet p t a r i : preserves quiet (outside (yt_CreateNode p t a r i) : M W error).
Proof. apply preserves_outside, yt_node_persisted. Qed.
Lemma add_member_quiet g u : preserves quiet (outside (yt_AddMember g u) : M W error).
Proof. apply preserves_outside, yt_member_persisted. Qed.
#[local] Hint Resolve create_node_quiet add_member_quiet : frame.

Lemma prepare_state_job_quiet (j : InitJob H E) s script :
  preserves quiet (prepare_state_job j s script : M W unit).
Proof. unfold prepare_state_job, job_env_from. solve_frame. Qed.

Lemma CreateUser_quiet u t b : preserves quiet (CreateUser u t b : M W error).
Proof. unfold CreateUser. solve_frame. Qed.
#[local] Hint Resolve CreateUser_quiet : frame.

Lemma createUser_quiet s c u : preserves quiet (createUser s c u : M W error).
Proof. unfold createUser, on_client. solve_frame. Qed.

Lemma copy_cluster_connection_quiet n : preserves quiet (copy_cluster_connection n : M W error).
Proof. unfold copy_cluster_connection. solve_frame. Qed.

Lemma set_addresses_quiet p a v : preserves quiet (set_addresses p a v : M W error).
Proof. unfold set_addresses. solve_frame. Qed.
#[local] Hint Resolve prepare_state_job_quiet createUser_quiet copy_cluster_connection_quiet
  set_addresses_quiet : frame.

Lemma restart_job_frame (j : InitJob H E) dry p r (m1 m2 : M W unit) :
  ConditionManagerFrame (ij_conditionsManager j) -> preserves update_frame m1 ->
  preserves update_frame m2 -> preserves update_frame (restart_job j dry p r m1 m2).
Proof. intros. unfold restart_job. solve_frame. Qed.

Lemma set_update_condition_frame t r m : preserves update_frame (set_update_condition t r m : M W unit).
Proof. apply preserves_acknowledge. Qed.
Lemma set_condition_completed_frame t r m : preserves frame (set_condition_completed t r m : M W unit).
Proof. apply preserves_SetStatusCondition. Qed.
#[local] Hint Resolve restart_job_frame set_update_condition_frame set_condition_completed_frame : frame.

Lemma updating_with_job_frame l (p : podsManager W) dry u r :
  PodsLaws p -> preserves update_frame u -> preserves update_frame (updating_with_job l p dry u r).
Proof. intros. unfold updating_with_job. solve_component. Qed.
#[local] Hint Resolve updating_with_job_frame : frame.

Lemma statuses_frame (cs : list (Component W)) :
  Forall ComponentLaws cs -> Forall (fun c => preserves frame (cmp_Status c)) cs.
Proof. intros Hcs. eapply Forall_impl; [exact Hcs|]. intros c Hc. apply Hc. Qed.

Lemma await_components_frame (cs : list (Component W)) rest :
  Forall ComponentLaws cs -> preserves frame rest -> preserves frame (await_all cs rest).
Proof.
  intros Hcs Hr. apply await_all_preserves; [tc_solve|by apply statuses_frame|done].
Qed.

Lemma await_tablet_nodes_frame (cs : list (Component W)) rest :
  Forall ComponentLaws cs -> preserves frame rest -> preserves frame (await_tablet_nodes cs rest).
Proof. induction 1 as [|c cs Hc Hcs IH]; intros Hr; simpl; [done|]. specialize (IH Hr). solve_frame. Qed.
#[local] Hint Resolve await_components_frame await_tablet_nodes_frame : frame.

#[export] Instance Scheduler_laws (s : Scheduler) :
  ServerLaws (lsc_server (sch_base s)) -> ComponentLaws (sch_master s) ->
  Forall ComponentLaws (elems (sch_execNodes s)) -> Forall ComponentLaws (elems (sch_tabletNodes s)) ->
  ConditionManagerFrame (ij_conditionsManager (sch_initUser s)) ->
  ConditionManagerFrame (ij_conditionsManager (sch_initOpArchive s)) ->
  ComponentLaws (Scheduler_component s : Component W).
Proof.
  intros. apply component_of_laws; [solve_frame|]. intros dry. unfold Scheduler_doSync.
  assert (preserves update_frame (updateOpArchive s dry)) by (unfold updateOpArchive; solve_frame).
  assert (preserves frame (initOpAchieve s dry)).
  { unfold initOpAchieve, Scheduler_createInitUserScript, prepareInitOperationsArchive. solve_frame.
    apply await_components_frame; [done|solve_frame]. }
  solve_component; [by apply statuses_frame|]. apply pending_secret_frame. solve_component.
Qed.

Lemma QueryTracker_init_quiet (qt : QueryTracker) : preserves quiet (QueryTracker_init qt : M W error).
Proof. unfold QueryTracker_init, queries_namespace, access_control_object. solve_frame. Qed.
#[local] Hint Resolve QueryTracker_init_quiet : frame.

#[export] Instance QueryTracker_laws (qt : QueryTracker) :
  ServerLaws (lsc_server (qt_base qt)) -> Forall ComponentLaws (elems (qt_tabletNodes qt)) ->
  ConditionManagerFrame (ij_conditionsManager (qt_initQTState qt)) ->
  ComponentLaws (QueryTracker_component qt : Component W).
Proof.
  intros. apply component_of_laws; [solve_frame|]. intros dry. unfold QueryTracker_doSync.
  assert (preserves update_frame (updateQTState qt dry)) by (unfold updateQTState; solve_frame).
  assert (forall dry, preserves frame (qt_run_job qt dry)).
  { intros. unfold qt_run_job, prepareInitQueryTrackerState. solve_component. }
  assert (preserves frame (qt_initialize qt)) by (unfold qt_initialize; solve_frame).
  solve_component. apply pending_secret_frame. solve_component.
Qed.
End StateJobFrames.

#[export] Hint Resolve create_node_quiet add_member_quiet prepare_state_job_quiet createUser_quiet
  copy_cluster_connection_quiet set_addresses_quiet restart_job_frame set_condition_completed_frame
  set_update_condition_frame updating_with_job_frame await_components_frame : frame.

(** ** Running the job of an update *)

Section Protocol.
Context {H E : Type} `{K : Kube E} `{CM : ConditionMeta} `{CO : Codec} `{Y : Yt E} `{EN : Entropy E}.
Context `{KL : !KubeLaws E K} `{CL : !ConditionMetaLaws CM}.
Local Abbreviation W := (World H E).

(** What [isRestartPrepared] and [isRestartCompleted] answer, when the job
    keeps its condition in the status of the resource. *)
Definition restart_prepared (j : InitJob H E) (w : W) : bool :=
  negb (job_exists j w) &&
  bool_decide (GetResourceVersion (k:=KConfigMap)
    (load (oldObject (ch_configMap (ij_configHelper j))) (heap w)) = "") &&
  meta_IsStatusConditionFalse (st_Conditions (status w)) (ij_initCompletedCondition j).
Definition restart_completed (j : InitJob H E) (w : W) : bool :=
  condition_true w (ij_initCompletedCondition j).

Lemma restart_prepared_run (j : InitJob H E) (w : W) :
  ij_conditionsManager j = Ytsaurus_conditions ->
  isRestartPrepared j w = Some (restart_prepared j w, w).
Proof.
  intros Hj. unfold isRestartPrepared, ConfigHelper_Exists, Exists, read, restart_prepared, job_exists.
  rewrite Hj, !run_assoc. autorewrite with run. simpl. unfold mret, M_ret, IsStatusConditionFalse, gets.
  by rewrite (negb_involutive (bool_decide (GetResourceVersion (k:=KConfigMap) _ = _))).
Qed.

(** Removing the old job only writes the conditions of the resource. *)
Lemma prepareRestart_conditions (j : InitJob H E) dry (w w' : W) err t :
  ij_conditionsManager j = Ytsaurus_conditions -> prepareRestart j dry w = Some (err, w') ->
  update_condition_true w' t = update_condition_true w t.
Proof.
  intros Hj Hrun.
  assert (preserves (fun w w' => updateStatus w' = updateStatus w) (prepareRestart j dry)) as Hp.
  2:{ apply Hp in Hrun. unfold update_condition_true. by rewrite Hrun. }
  assert (PreOrder (fun w w' : W => updateStatus w' = updateStatus w)).
  { split; [by intros ?|]. intros w1 w2 w3 H1 H2. exact (eq_trans H2 H1). }
  assert (forall A (m : M W A), preserves quiet m ->
    preserves (fun w w' => updateStatus w' = updateStatus w) m) as Hq.
  { intros A m Hm w1 a w2 Hr. unfold updateStatus. by rewrite (proj2 (Hm _ _ _ Hr)). }
  unfold prepareRestart. destruct dry; [solve_frame|].
  apply preserves_bind; [tc_solve|apply Hq; solve_frame|]. intros []; [solve_frame|].
  apply preserves_bind; [tc_solve|apply Hq; solve_frame|]. intros []; [solve_frame|].
  apply preserves_bind; [tc_solve| |intros; solve_frame]. rewrite Hj. intros w1 u w2 Hr.
  injection Hr as _ <-. done.
Qed.

Lemma restart_job_run (j : InitJob H E) dry prepare run tp rp mp td rd md (w w' : W) r :
  ij_conditionsManager j = Ytsaurus_conditions -> prepare <> run -> tp <> td ->
  conditions_wf (us_Conditions (updateStatus w)) ->
  restart_job j dry prepare run (set_update_condition tp rp mp) (set_update_condition td rd md) w =
    Some (r, w') ->
  let s := us_State (updateStatus w) in
  forall t, update_condition_true w' t = update_condition_true w t ||
    (negb dry && (bool_decide (s = prepare /\ t = tp) && restart_prepared j w ||
                  bool_decide (s = run /\ t = td) && restart_completed j w)).
Proof.
  intros Hj Hpr Htd Hwf Hrun s t. unfold restart_job, GetUpdateState in Hrun. rewrite run_gets in Hrun.
  fold s in Hrun.
  assert (forall t' reason msg (w1 : W) r, (_ ← (if dry then mret tt else set_update_condition t' reason msg);
      mret (Some (SimpleStatus SyncStatusUpdating), None : error)) w = Some (r, w1) ->
    update_condition_true w1 t = update_condition_true w t || (negb dry && bool_decide (t = t'))) as Hset.
  { intros t' reason msg w1 r1 Hr. destruct dry; [injection Hr as _ <-; by rewrite orb_false_r|].
    destruct (SetUpdateStatusCondition_run w (mkCondition t' ConditionTrue 0 reason msg) Hwf)
      as (w2 & Hs & _ & _ & _ & Hk).
    unfold set_update_condition in Hr. rewrite (bind_step _ _ _ _ _ Hs) in Hr. injection Hr as _ <-.
    rewrite Hk. simpl. destruct (decide (t = t')) as [Ht|Ht].
    { rewrite (bool_decide_eq_true_2 (t = t')) by done. by rewrite orb_true_r. }
    rewrite (bool_decide_eq_false_2 (t = t')) by done. by rewrite orb_false_r. }
  destruct (decide (s = prepare)) as [Hs|Hs]; [|destruct (decide (s = run)) as [Hr|Hr]].
  - rewrite (bind_step _ _ _ _ _ (restart_prepared_run j w Hj)) in Hrun.
    rewrite (bool_decide_ext (s = prepare /\ t = tp) (t = tp)), (bool_decide_eq_false_2 (s = run /\ t = td))
      by naive_solver. simpl. rewrite orb_false_r.
    destruct (restart_prepared j w) eqn:Hp; cbv beta iota delta [negb] in Hrun.
    + apply Hset in Hrun. by rewrite Hrun, andb_true_r.
    + apply bind_inv in Hrun as (err & w1 & Hprep & Hret). injection Hret as _ <-.
      rewrite andb_false_r, andb_false_r, orb_false_r. by eapply prepareRestart_conditions.
  - rewrite (bool_decide_eq_false_2 (s = prepare /\ t = tp)), (bool_decide_ext (s = run /\ t = td) (t = td))
      by naive_solver. simpl.
    assert (isRestartCompleted j w = Some (restart_completed j w, w)) as Hc
      by (unfold isRestartCompleted; by rewrite Hj).
    rewrite (bind_step _ _ _ _ _ Hc) in Hrun.
    destruct (restart_completed j w) eqn:Hp; cbv beta iota delta [negb] in Hrun.
    + apply Hset in Hrun. by rewrite Hrun, andb_true_r.
    + injection Hrun as _ <-. by rewrite !andb_false_r, orb_false_r.
  - injection Hrun as _ <-.
    rewrite (bool_decide_eq_false_2 (s = prepare /\ t = tp)), (bool_decide_eq_false_2 (s = run /\ t = td))
      by naive_solver. simpl. by rewrite andb_false_r, orb_false_r.
Qed.

(** C33. The archive and the query tracker state are rebuilt by a fresh job,
    and acknowledged in order.  In an update the scheduler acknowledges the
    preparation only when the old job and its configuration are gone and the
    job is marked for a restart, and the update of the archive only when the
    job completed, each only in its state and in a wet run; without tablet
    nodes it declares the update unnecessary instead, even in a dry run.  The
    query tracker does the same with its own conditions.  No other condition
    of the update changes. *)
Theorem state_job_protocol (sch : Scheduler (H:=H) (E:=E)) (qt : QueryTracker (H:=H) (E:=E)) (dry : bool)
    (w ws wq : W) (rs rq : option ComponentStatus * error)
    (Hsch : ij_conditionsManager (sch_initOpArchive sch) = Ytsaurus_conditions)
    (Hqt : ij_conditionsManager (qt_initQTState qt) = Ytsaurus_conditions)
    (Hwf : conditions_wf (us_Conditions (updateStatus w)))
    (Hruns : updateOpArchive sch dry w = Some (rs, ws)) (Hrunq : updateQTState qt dry w = Some (rq, wq)) :
  let s := us_State (updateStatus w) in
  let archive := sch_initOpArchive sch in
  let state := qt_initQTState qt in
  forall t,
    update_condition_true ws t =
      (update_condition_true w t ||
       (if needOpArchiveInit sch then
          negb dry &&
          (bool_decide (s = UpdateStateWaitingForOpArchiveUpdatingPrepare /\
                        t = ConditionOpArchivePreparedForUpdating) && restart_prepared archive w ||
           bool_decide (s = UpdateStateWaitingForOpArchiveUpdate /\ t = ConditionOpArchiveUpdated) &&
             restart_completed archive w)
        else
          bool_decide (s = UpdateStateWaitingForOpArchiveUpdatingPrepare /\
                       t = ConditionNotNecessaryToUpdateOpArchive) ||
          negb dry &&
          (bool_decide (s = UpdateStateWaitingForOpArchiveUpdate /\ t = ConditionOpArchiveUpdated) &&
             restart_completed archive w))) /\
    update_condition_true wq t =
      (update_condition_true w t ||
       negb dry &&
       (bool_decide (s = UpdateStateWaitingForQTStateUpdatingPrepare /\
                     t = ConditionQTStatePreparedForUpdating) && restart_prepared state w ||
        bool_decide (s = UpdateStateWaitingForQTStateUpdate /\ t = ConditionQTStateUpdated) &&
          restart_completed state w)).
Proof.
  intros s archive state t. split.
  2:{ unfold updateQTState in Hrunq. eapply restart_job_run in Hrunq; done. }
  unfold updateOpArchive, GetUpdateState in Hruns. rewrite run_gets in Hruns. fold s in Hruns.
  destruct (decide (s = UpdateStateWaitingForOpArchiveUpdatingPrepare /\ needOpArchiveInit sch = false))
    as [[Hs Hn]|Hno].
  - rewrite Hn, Hs. destruct (SetUpdateStatusCondition_run w (mkCondition ConditionNotNecessaryToUpdateOpArchive
      ConditionTrue 0 "NotNecessaryToUpdateOpArchive" "Operations archive does not need to be updated") Hwf)
      as (w2 & Hset & _ & _ & _ & Hk).
    unfold set_update_condition in Hruns. rewrite (bind_step _ _ _ _ _ Hset) in Hruns.
    injection Hruns as _ <-. rewrite Hk. simpl cond_Type.
    rewrite (bool_decide_ext (_ /\ t = ConditionNotNecessaryToUpdateOpArchive)
      (t = ConditionNotNecessaryToUpdateOpArchive)) by naive_solver.
    rewrite (bool_decide_eq_false_2 (_ = UpdateStateWaitingForOpArchiveUpdate /\ _)) by naive_solver.
    simpl. rewrite andb_false_r, orb_false_r.
    destruct (decide (t = ConditionNotNecessaryToUpdateOpArchive)) as [Ht|Ht].
    + rewrite (bool_decide_eq_true_2 (t = _)) by done. by rewrite orb_true_r.
    + rewrite (bool_decide_eq_false_2 (t = _)) by done. by rewrite orb_false_r.
  - eapply restart_job_run in Hruns; [|done..]. rewrite Hruns. f_equal. fold s.
    destruct (needOpArchiveInit sch); [done|].
    rewrite !(bool_decide_eq_false_2 (s = UpdateStateWaitingForOpArchiveUpdatingPrepare /\ _)) by naive_solver.
    done.
Qed.
End Protocol.

Import RefKube RefMeta RefCodec.

(** A scheduler and a query tracker over one job, for the witnesses. *)
Module StateJobWitness.
Definition heap_t : Type := JobWitness.heap_t * (Secret * (Secret * bool)).
Definition W : Type := World heap_t YtsaurusStatus.
Definition in_job {A} (r : Ref JobWitness.heap_t A) : Ref heap_t A := comp_ref fst_ref r.
Definition secret : Handle heap_t KSecret :=
  mkHandle heap_t KSecret "yt-scheduler-secret" (comp_ref snd_ref fst_ref)
    (comp_ref snd_ref (comp_ref snd_ref fst_ref)).
Definition client : Ref heap_t bool := comp_ref snd_ref (comp_ref snd_ref snd_ref).

Definition vars : InitJobVars heap_t :=
  let v := JobWitness.vars in
  mkInitJobVars heap_t (in_job (jv_job_old v)) (in_job (jv_job_new v)) (in_job (jv_overrides v))
    (in_job (jv_configMap_old v)) (in_job (jv_configMap_new v)) (in_job (jv_built v)).
Definition job : InitJob heap_t YtsaurusStatus :=
  NewInitJob vars JobWitness.labeller Ytsaurus_conditions [] "default" ClientConfigFileName
    "ytsaurus:dev" (fun y => inr (yt_Name y)).

Definition pods : podsManager W := mkPodsManager _ (mret None) (mret true) (mret true) (mret true).
Definition srv : server W heap_t :=
  mkServer _ _ (mret None) (mret None) pods (mret false) (mret false) (mret false) (mret false) panic panic.
Definition base : localServerComponent W heap_t := mkLocalServerComponent _ _ JobWitness.labeller srv.
Definition component : Component W :=
  component_of "TabletNode" TabletNodeType true JobWitness.labeller (mret None) (fun _ => ready).
Definition gen : Generator := NewGenerator (sample_Ytsaurus ClusterStateUpdating) "cluster.local".

Definition scheduler : Scheduler (H:=heap_t) (E:=YtsaurusStatus) :=
  mkScheduler base gen component None (Some [component]) job job secret.
Definition query_tracker : QueryTracker (H:=heap_t) (E:=YtsaurusStatus) :=
  mkQueryTracker base gen (mkInternalYtsaurusClient _ _ component client) (Some [component])
    "queryTrackerInitCompleted" job secret.

(** A world with the given job, conditions of the resource and cluster
    state. *)
Definition secret_zero : Secret := mkSecret ObjectMeta_zero "" ∅ ∅.
Definition world (c : ClusterState) (s : UpdateState) (live : Job) (conditions : list Condition) : W :=
  let st := mkYtsaurusStatus c conditions (mkUpdateStatus s None UpdateFlowFull [] [] []) in
  mkWorld (set_yt_Status st (sample_Ytsaurus c))
    (heap (JobWitness.world live []), (secret_zero, (secret_zero, false))) st.
End StateJobWitness.

Lemma state_job_protocol_witness :
  exists ws wq,
    updateOpArchive StateJobWitness.scheduler false
      (StateJobWitness.world ClusterStateUpdating UpdateStateWaitingForOpArchiveUpdatingPrepare
         JobWitness.job_zero [restart_condition StateJobWitness.job]) =
      Some ((Some (SimpleStatus SyncStatusUpdating), None), ws) /\
    updateQTState StateJobWitness.query_tracker false
      (StateJobWitness.world ClusterStateUpdating UpdateStateWaitingForOpArchiveUpdatingPrepare
         JobWitness.job_zero [restart_condition StateJobWitness.job]) = Some ((None, None), wq) /\
    update_condition_true ws ConditionOpArchivePreparedForUpdating = true.
Proof.
  do 2 eexists. split; [vm_compute; reflexivity|]. split; [vm_compute; reflexivity|].
  refine (eq_trans (proj1 (state_job_protocol StateJobWitness.scheduler StateJobWitness.query_tracker false
    (StateJobWitness.world ClusterStateUpdating UpdateStateWaitingForOpArchiveUpdatingPrepare
       JobWitness.job_zero [restart_condition StateJobWitness.job])
    _ _ (Some (SimpleStatus SyncStatusUpdating), None) (None, None) eq_refl eq_refl _ _ _
    ConditionOpArchivePreparedForUpdating)) _).
  - constructor.
  - vm_compute. reflexivity.
  - vm_compute. reflexivity.
  - vm_compute. reflexivity.
Defined.
