(* ===== verification/Agents.v ===== *)
(** * Queue agents and YQL agents: queue_agent.go, yql_agent.go

    Servers that are initialised through the YT client or a job, but need no
    step of their own in an update. *)

From S2P Require Import Prelude GoPath Api Kube Conditions Samples CellId Labeller Names Proxy Component Resources ConfigHelper Server InitJob Observe ServerComponent Nodes YtApi YtsaurusClient StateJobs.

Section AgentComponents.
Context {H E : Type} `{K : Kube E} `{CM : ConditionMeta} `{CO : Codec} `{Y : Yt E} `{EN : Entropy E}.
Local Abbreviation W := (World H E).

(** ** queue_agent.go *)

Record QueueAgent := mkQueueAgent {
  qa_base : localServerComponent W H;
  qa_cfgen : Generator;
  qa_ytsaurusClient : internalYtsaurusClient H E;
  qa_master : Component W;
  qa_tabletNodes : slice (Component W);
  qa_initCondition : string;
  qa_initQAState : InitJob H E;
  qa_secret : Handle H KSecret;
}.

Definition qa_config (clusterName : string) : YtValue :=
  YMap [("queue_agent", YMap [("controller", YMap [("enable_automatic_trimming", YBool true)])]);
        ("cypress_synchronizer", YMap [("policy", YString "watching");
                                       ("clusters", strings_value [clusterName])])]%string.

(** [QueueAgent.init]; a nil client panics at its first call. *)
Definition QueueAgent_init (qa : QueueAgent) (ytClient : bool) : M W error :=
  let clusterName := GetClusterName (lsc_labeller (qa_base qa)) in
  on_client ytClient (in_order
    [outside (yt_CreateNode "//sys/queue_agents/config" "document"
       [("value"%string, qa_config clusterName)] true true);
     set_addresses "//sys/@cluster_connection/queue_agent" (GetQueueAgentAddresses (qa_cfgen qa))
       (fun addresses =>
          YMap [("stages", YMap [("production", addresses_value addresses)]);
                ("queue_consumer_registration_manager",
                 YMap [("resolve_symlinks", YBool true); ("resolve_replicas", YBool true)])]%string);
     copy_cluster_connection clusterName]).

Definition prepareInitQueueAgentState (qa : QueueAgent) : M W unit :=
  let path := "/usr/bin/init_queue_agent_state"%string in
  prepare_state_job (qa_initQAState qa) (qa_secret qa)
    (String.concat NL
       [initJobWithNativeDriverPrologue;
        ("if [[ -f " +:+ DQ +:+ path +:+ DQ +:+ " ]]; then " +:+ path +:+
           " --create-registration-table --create-replicated-table-mapping-table --recursive --ignore-existing --proxy " +:+
           GetHTTPProxiesServiceAddress (qa_cfgen qa) DefaultHTTPProxyRole +:+ "; fi")%string]).

(** The end of [doSync], with the client that was obtained on the way. *)
Definition qa_run_job (qa : QueueAgent) (dry ytClient : bool) : M W SyncResult :=
  _ ← (if dry then mret tt else prepareInitQueueAgentState qa);
  '(status, err) ← InitJob_Sync (qa_initQAState qa) dry;
  if negb (no_error err) || negb (bool_decide (cst_SyncStatus status = SyncStatusReady)) then
    mret (status, err)
  else
    initialised ← IsStatusConditionTrue (qa_initCondition qa);
    if (initialised : bool) then ready
    else
      let setting := WaitingStatus SyncStatusPending
                       ("setting " +:+ qa_initCondition qa +:+ " condition")%string in
      if dry then mret (setting, None)
      else
        err ← QueueAgent_init qa ytClient;
        match err with
        | Some _ =>
            mret (WaitingStatus SyncStatusPending
                    (lb_ComponentName (lsc_labeller (qa_base qa)) +:+ " initialization")%string, err)
        | None =>
            _ ← set_condition_completed (qa_initCondition qa) "InitQueueAgentCompleted"
                  "Init queue agent successfully completed";
            mret (setting, None)
        end.

(** The YT client is only obtained outside an update. *)
Definition qa_initialize (qa : QueueAgent) (dry : bool) : M W SyncResult :=
  state ← GetClusterState;
  if decide (state <> ClusterStateUpdating) then
    await_ready (iyc_component (qa_ytsaurusClient qa))
      (if dry then qa_run_job qa true false
       else
         ytClient ← read (iyc_ytClient (qa_ytsaurusClient qa));
         err ← createUser (qa_secret qa) ytClient "queue_agent";
         match err with
         | Some _ => mret (WaitingStatus SyncStatusPending "create qa user", err)
         | None => qa_run_job qa false ytClient
         end)
  else qa_run_job qa dry false.

Definition QueueAgent_doSync (qa : QueueAgent) (dry : bool) : M W SyncResult :=
  let srv := lsc_server (qa_base qa) in
  server_guards (qa_base qa) dry
  (await_running (qa_master qa)
  (if is_nil (qa_tabletNodes qa) || (go_len (qa_tabletNodes qa) =? 0)%Z then
     mret (WaitingStatus SyncStatusBlocked "tablet nodes",
           Some "cannot initialize queue agent without tablet nodes"%string)
   else
     await_all (elems (qa_tabletNodes qa))
     (pending_secret (lsc_labeller (qa_base qa)) (qa_secret qa) dry
     (sync_server srv dry (sv_Sync srv)
     (await_pods (pm_arePodsReady (sv_pods srv))
      (qa_initialize qa dry)))))).

Definition QueueAgent_component (qa : QueueAgent) : Component W :=
  component_of (lb_ComponentName (lsc_labeller (qa_base qa))) QueueAgentType true
    (lsc_labeller (qa_base qa))
    (in_order [sv_Fetch (lsc_server (qa_base qa)); InitJob_Fetch (qa_initQAState qa);
               Fetch (qa_secret qa)])
    (QueueAgent_doSync qa).

(** ** yql_agent.go *)

Record YqlAgent := mkYqlAgent {
  yq_base : localServerComponent W H;
  yq_cfgen : Generator;
  yq_master : Component W;
  yq_initEnvironment : InitJob H E;
  yq_secret : Handle H KSecret;
}.

Definition initUsers (yq : YqlAgent) : M W string :=
  '(token, _) ← StringSecret_GetValue (yq_secret yq) TokenSecretKey;
  mret (String.concat NL
    (createUserCommand YqlUserName "" token true ++ createUserCommand "yql_agent" "" "" true)).

Definition yql_addresses (addresses : list string) : string :=
  ("[" +:+ String.concat "" ((fun addr => DQ +:+ addr +:+ DQ +:+ ";")%string <$> addresses) +:+ "]")%string.

Definition YqlAgent_createInitScript (yq : YqlAgent) : M W string :=
  match GetYQLAgentAddresses (yq_cfgen yq) with
  | None => panic
  | Some addresses =>
      users ← initUsers yq;
      mret (String.concat NL
        [initJobWithNativeDriverPrologue;
         users;
         "/usr/bin/yt add-member --member yql_agent --group superusers || true"%string;
         "/usr/bin/yt create document //sys/yql_agent/config --attributes '{}' --recursive --ignore-existing"%string;
         ("/usr/bin/yt set //sys/@cluster_connection/yql_agent '{stages={production={channel={addresses=" +:+
            yql_addresses addresses +:+ "}}}}'")%string;
         ("/usr/bin/yt get //sys/@cluster_connection | /usr/bin/yt set //sys/clusters/" +:+
            GetClusterName (lsc_labeller (yq_base yq)))%string])
  end.

(** [UseIPv6] and [UseIPv4] as the environment of the agent. *)
Definition yql_ip_env (useIPv6 useIPv4 : bool) : list EnvVar :=
  let flag (b : bool) : string := if b then "1"%string else "0"%string in
  [mkEnvVar "YT_FORCE_IPV4" (flag (negb useIPv6 && useIPv4)) None;
   mkEnvVar "YT_FORCE_IPV6" (flag (useIPv6 && negb useIPv4)) None].

Definition YqlAgent_syncServer (yq : YqlAgent) : M W error :=
  let srv := lsc_server (yq_base yq) in
  ss ← sv_buildStatefulSet srv;
  o ← read ss;
  common ← GetCommonSpec;
  match ps_Containers (ss_podSpec o) with
  | [] => panic
  | c :: cs =>
      let command := ["sh"; "-c";
        ("echo -n $YT_TOKEN > " +:+ DefaultYqlTokenPath +:+ "; " +:+
           String.concat " " (ct_Command c))%string]%string in
      let c := set_ct_Env (yql_ip_env (cs_UseIPv6 common) (cs_UseIPv4 common))
                 (set_ct_EnvFrom [hd_name (yq_secret yq)] (set_ct_Command command c)) in
      _ ← update_podSpec ss (set_ps_Containers (c :: cs));
      sv_Sync srv
  end.

Definition YqlAgent_doSync (yq : YqlAgent) (dry : bool) : M W SyncResult :=
  let srv := lsc_server (yq_base yq) in
  server_guards (yq_base yq) dry
  (await_running (yq_master yq)
  (pending_secret (lsc_labeller (yq_base yq)) (yq_secret yq) dry
  (sync_server srv dry (YqlAgent_syncServer yq)
  (await_pods (pm_arePodsReady (sv_pods srv))
  (_ ← (if dry then mret tt
        else script ← YqlAgent_createInitScript yq; SetInitScript (yq_initEnvironment yq) script);
   InitJob_Sync (yq_initEnvironment yq) dry))))).

Definition YqlAgent_component (yq : YqlAgent) : Component W :=
  component_of (lb_ComponentName (lsc_labeller (yq_base yq))) YqlAgentType true
    (lsc_labeller (yq_base yq))
    (in_order [sv_Fetch (lsc_server (yq_base yq)); InitJob_Fetch (yq_initEnvironment yq);
               Fetch (yq_secret yq)])
    (YqlAgent_doSync yq).
End AgentComponents.

(** ** Frames *)

Section AgentFrames.
Context {H E : Type} `{K : Kube E} `{CM : ConditionMeta} `{CO : Codec} `{Y : Yt E} `{EN : Entropy E}.
Context `{KL : !KubeLaws E K} `{CL : !ConditionMetaLaws CM} `{YL : !YtLaws E K KL Y}.
Context `{EL : !EntropyLaws E K KL EN}.
Local Abbreviation W := (World H E).

Lemma QueueAgent_init_quiet (qa : QueueAgent) b : preserves quiet (QueueAgent_init qa b : M W error).
Proof. unfold QueueAgent_init, on_client. solve_frame. Qed.
#[local] Hint Resolve QueueAgent_init_quiet : frame.

#[export] Instance QueueAgent_laws (qa : QueueAgent) :
  ServerLaws (lsc_server (qa_base qa)) -> ComponentLaws (qa_master qa) ->
  ComponentLaws (iyc_component (qa_ytsaurusClient qa)) ->
  Forall ComponentLaws (elems (qa_tabletNodes qa)) ->
  ConditionManagerFrame (ij_conditionsManager (qa_initQAState qa)) ->
  ComponentLaws (QueueAgent_component qa : Component W).
Proof.
  intros. apply component_of_laws; [solve_frame|]. intros dry. unfold QueueAgent_doSync.
  assert (forall dry b, preserves frame (qa_run_job qa dry b)).
  { intros. unfold qa_run_job, prepareInitQueueAgentState. solve_component. }
  assert (preserves frame (qa_initialize qa dry)) by (unfold qa_initialize; solve_component).
  solve_component; [by apply statuses_frame|]. apply pending_secret_frame. solve_component.
Qed.

Lemma YqlAgent_createInitScript_quiet (yq : YqlAgent) :
  preserves quiet (YqlAgent_createInitScript yq : M W string).
Proof. unfold YqlAgent_createInitScript, initUsers. solve_frame. Qed.
#[local] Hint Resolve YqlAgent_createInitScript_quiet : frame.

#[export] Instance YqlAgent_laws (yq : YqlAgent) :
  ServerLaws (lsc_server (yq_base yq)) -> ComponentLaws (yq_master yq) ->
  ConditionManagerFrame (ij_conditionsManager (yq_initEnvironment yq)) ->
  ComponentLaws (YqlAgent_component yq : Component W).
Proof.
  intros. apply component_of_laws; [solve_frame|]. intros dry. unfold YqlAgent_doSync.
  assert (preserves frame (YqlAgent_syncServer yq))
    by (unfold YqlAgent_syncServer, update_podSpec; solve_frame).
  solve_component. apply pending_secret_frame. solve_component.
Qed.
End AgentFrames.

(** ** A nil client *)

Section NilClient.
Context {H E : Type} `{K : Kube E} `{CM : ConditionMeta} `{CO : Codec} `{Y : Yt E} `{EN : Entropy E}.
Local Abbreviation W := (World H E).

(** C36. During an update the queue agents are initialised with a nil client:
    when the cluster is updating, the state job is completed and the queue
    agents' own condition is not yet set, the dry run asks to be
    synchronised, and the wet run, once its script is prepared, panics. *)
Theorem QueueAgent_init_without_client (qa : QueueAgent (H:=H) (E:=E)) (w w1 : W)
    (Hj : ij_conditionsManager (qa_initQAState qa) = Ytsaurus_conditions)
    (Hup : st_State (status w) = ClusterStateUpdating)
    (Hprep : prepareInitQueueAgentState qa w = Some (tt, w1))
    (Hjob : condition_true w (ij_initCompletedCondition (qa_initQAState qa)) = true)
    (Hinit : condition_true w (qa_initCondition qa) = false) (Hstatus : status w1 = status w) :
  qa_initialize qa true w =
    Some ((WaitingStatus SyncStatusPending
             ("setting " +:+ qa_initCondition qa +:+ " condition")%string, None), w) /\
  qa_initialize qa false w = None.
Proof.
  assert (forall dry (w2 : W), status w2 = status w ->
    InitJob_Sync (qa_initQAState qa) dry w2 =
      Some ((mkComponentStatus SyncStatusReady (hd_name (ij_initJob (qa_initQAState qa)) +:+ " completed")%string,
             None), w2)) as Hsync.
  { intros dry w2 Hs. unfold InitJob_Sync. rewrite Hj. cbv zeta. simpl. unfold IsStatusConditionTrue.
    rewrite run_gets, Hs. unfold condition_true in Hjob. by rewrite Hjob. }
  unfold qa_initialize, GetClusterState. rewrite !run_gets, Hup, decide_False by by intros [].
  unfold condition_true in Hinit. split; unfold qa_run_job, IsStatusConditionTrue.
  - rewrite run_ret, (bind_step _ _ _ _ _ (Hsync true w eq_refl)). simpl. rewrite run_gets. by rewrite Hinit.
  - refine (eq_trans (bind_step _ _ _ _ _ Hprep) _). rewrite (bind_step _ _ _ _ _ (Hsync false w1 Hstatus)). simpl.
    rewrite run_gets, Hstatus, Hinit. done.
Qed.
End NilClient.

Import RefKube RefMeta RefCodec.

(** A client and an entropy source, for the witnesses: no YT cluster answers,
    writes are lost. *)
Module NoCluster.
#[export] Instance yt : Yt YtsaurusStatus := {|
  yt_GetNode := fun _ _ _ _ => inl "no cluster"%string;
  yt_ListNode := fun _ _ _ _ => inl "no cluster"%string;
  yt_NodeExists := fun _ _ => inl "no cluster"%string;
  yt_SetNode := fun _ _ e => (None, e);
  yt_RemoveNode := fun _ e => (None, e);
  yt_CreateObject := fun _ _ _ e => (None, e);
  yt_CreateNode := fun _ _ _ _ _ e => (None, e);
  yt_AddMember := fun _ _ e => (None, e);
  yt_BuildMasterSnapshots := fun _ _ e => (None, e);
  ythttp_NewClient := fun _ _ _ _ => None;
  os_LookupEnv := fun _ _ => None;
  sha256_hex := fun s => s;
|}.
#[export] Instance entropy : Entropy YtsaurusStatus := fun n e => (Some (repeat 0%Z n), e).
(** The stored token of the component's user. *)
Definition token : Secret :=
  mkSecret (mkObjectMeta "yt-scheduler-secret" "default" ∅ None "1") "Opaque"
    {[ TokenSecretKey := "token"%string ]} ∅.
End NoCluster.

Import NoCluster.

(** Queue agents over the job of the other witnesses. *)
Module QueueAgentWitness.
Definition queue_agent : QueueAgent (H:=StateJobWitness.heap_t) (E:=YtsaurusStatus) :=
  mkQueueAgent StateJobWitness.base StateJobWitness.gen
    (mkInternalYtsaurusClient _ _ StateJobWitness.component StateJobWitness.client)
    StateJobWitness.component (Some [StateJobWitness.component]) "queueAgentInitCompleted"
    StateJobWitness.job StateJobWitness.secret.
Definition world : StateJobWitness.W :=
  let w := StateJobWitness.world ClusterStateUpdating UpdateStateNone JobWitness.job_done
    [completed_condition StateJobWitness.job] in
  mkWorld (resource w) ((heap w).1, (token, (heap w).2.2)) (ext w).
End QueueAgentWitness.

Lemma QueueAgent_init_without_client_witness :
  qa_initialize QueueAgentWitness.queue_agent false QueueAgentWitness.world = None.
Proof.
  destruct (prepareInitQueueAgentState QueueAgentWitness.queue_agent QueueAgentWitness.world)
    as [[[] w1]|] eqn:Hprep; [|exfalso; revert Hprep; vm_compute; discriminate].
  refine (proj2 (QueueAgent_init_without_client QueueAgentWitness.queue_agent QueueAgentWitness.world w1
    eq_refl _ Hprep _ _ _)); [vm_compute; reflexivity..|].
  revert Hprep. vm_compute. by intros [= <-].
Defined.
