(* ===== verification/TabletNodes.v ===== *)
(** * Tablet nodes: pkg/components/tablet_node.go

    The servers of the tablet nodes; the first of them also creates the
    tablet cell bundles of the cluster and their cells. *)

From S2P Require Import Prelude GoPath Api Kube Conditions Samples CellId Labeller Names Proxy Component Resources ConfigHelper Server InitJob Observe ServerComponent Nodes YtApi YtsaurusClient ClientFacts.

Definition SysBundle : string := "sys".
Definition DefaultBundle : string := "default".

Record TabletNode (H E : Type) := mkTabletNode {
  tn_base : localServerComponent (World H E) H;
  tn_cfgen : BaseGenerator;
  tn_ytsaurusClient : internalYtsaurusClient H E;
  tn_initBundlesCondition : string;
  tn_spec : TabletNodesSpec;
  tn_doInitialization : bool;
}.
Arguments tn_base {H E} _. Arguments tn_cfgen {H E} _. Arguments tn_ytsaurusClient {H E} _.
Arguments tn_initBundlesCondition {H E} _. Arguments tn_spec {H E} _.
Arguments tn_doInitialization {H E} _.

(** ** Bundles *)

Definition getBundleBootstrap (spec : YtsaurusSpec) (bundle : string) : option BundleBootstrapSpec :=
  match sp_Bootstrap spec with
  | None => None
  | Some bootstrap =>
      match bs_TabletCellBundles bootstrap with
      | None => None
      | Some bundles =>
          if decide (bundle = SysBundle) then bbs_Sys bundles
          else if decide (bundle = DefaultBundle) then bbs_Default bundles
          else None
      end
  end.

(** The options, as the entries of the map. *)
Definition getBundleOptions (cfgen : BaseGenerator) (spec : YtsaurusSpec) (bundle : string)
    : list (string * YtValue) :=
  (if decide (bundle = SysBundle) then
     [("changelog_account", YString "sys"); ("snapshot_account", YString "sys")]
   else [])%string ++
  match getBundleBootstrap spec bundle with
  | None => []
  | Some bootstrap =>
      match bb_ChangelogPrimaryMedium bootstrap with
      | None => []
      | Some medium => [("changelog_primary_medium"%string, YString medium)]
      end ++
      match bb_SnapshotPrimaryMedium bootstrap with
      | None => []
      | Some medium => [("snapshot_primary_medium"%string, YString medium)]
      end
  end ++
  (if (GetMaxReplicationFactor cfgen <? 3)%Z then
     [("changelog_replication_factor", YInt 1); ("changelog_read_quorum", YInt 1);
      ("changelog_write_quorum", YInt 1); ("snapshot_replication_factor", YInt 1)]
   else [])%string.

Definition bundle_path (bundle : string) : string := ("//sys/tablet_cell_bundles/" +:+ bundle)%string.

(** [for option, value := range options { bundleOptions[option] = value }]. *)
Definition put_all {A} (options bundleOptions : list (string * A)) : list (string * A) :=
  foldl (fun m '(option, value) => assoc_set option value m) bundleOptions options.

(** The cells asked for in a bundle. *)
Definition tablet_cell_count (spec : YtsaurusSpec) (bundle : string) : Z :=
  match getBundleBootstrap spec bundle with
  | None => 1
  | Some bootstrap => bb_TabletCellCount bootstrap
  end.

Section TabletNode.
Context {H E : Type} `{K : Kube E} `{CM : ConditionMeta} `{Y : Yt E}.
Local Abbreviation W := (World H E).
Implicit Types tn : TabletNode H E.

Definition create_sys_bundle tn : M W error :=
  r ← gets (fun w => yt_NodeExists (bundle_path SysBundle) (ext w));
  match r with
  | inl err => mret (Some err)
  | inr sysBundleExists =>
      if negb sysBundleExists then
        options ← gets (fun w => getBundleOptions (tn_cfgen tn) (yt_Spec (resource w)) SysBundle);
        outside (yt_CreateObject "tablet_cell_bundle"
          [("name", YString SysBundle); ("options", YMap options)]%string false)
      else mret None
  end.

(** The event of a failure, and the error. *)
Definition set_default_options tn : M W (option (string * string)) :=
  options ← gets (fun w => getBundleOptions (tn_cfgen tn) (yt_Spec (resource w)) DefaultBundle);
  if decide (length options <> 0) then
    let path := (bundle_path DefaultBundle +:+ "/@options")%string in
    r ← GetNode TAttributes path false;
    match r with
    | inl err => mret (Some ("getting default bundle options"%string, err))
    | inr bundleOptions =>
        err ← outside (yt_SetNode path (YMap (put_all options bundleOptions)));
        mret ((fun e => ("setting default bundle options"%string, e)) <$> err)
    end
  else mret None.

Fixpoint create_bundle_cells (bundles : list string) : M W error :=
  match bundles with
  | [] => mret None
  | bundle :: rest =>
      tabletCellCount ← gets (fun w => tablet_cell_count (yt_Spec (resource w)) bundle);
      err ← CreateTabletCells bundle tabletCellCount;
      match err with
      | Some _ => mret err
      | None => create_bundle_cells rest
      end
  end.

(** A nil client panics. *)
Definition initBundles tn : M W SyncResult :=
  client ← read (iyc_ytClient (tn_ytsaurusClient tn));
  if negb client then panic
  else
    err ← create_sys_bundle tn;
    match err with
    | Some _ => mret (WaitingStatus SyncStatusPending "tablet_cell_bundle creation", err)
    | None =>
        failure ← set_default_options tn;
        match failure with
        | Some (event, err) => mret (WaitingStatus SyncStatusPending event, Some err)
        | None =>
            err ← create_bundle_cells [DefaultBundle; SysBundle];
            match err with
            | Some _ => mret (WaitingStatus SyncStatusPending "tablet cells creation", err)
            | None =>
                _ ← SetStatusCondition (mkCondition (tn_initBundlesCondition tn) ConditionTrue 0
                      "InitBundlesCompleted" "Init bundles successfully completed");
                mret (SimpleStatus SyncStatusReady, None)
            end
        end
    end.

(** ** The component *)

Definition tn_initialize tn (dry : bool) : M W SyncResult :=
  initialised ← IsStatusConditionTrue (tn_initBundlesCondition tn);
  if negb (tn_doInitialization tn) || (initialised : bool) then ready
  else
    await_ready (iyc_component (tn_ytsaurusClient tn))
      ('(status, err) ← (if dry then mret (SimpleStatus SyncStatusReady, None) else initBundles tn);
       match err with
       | Some _ => mret (status, err)
       | None =>
           mret (WaitingStatus SyncStatusPending
                   ("setting " +:+ tn_initBundlesCondition tn +:+ " condition")%string, None)
       end).

Definition TabletNode_doSync tn (dry : bool) : M W SyncResult :=
  let srv := lsc_server (tn_base tn) in
  server_guards (tn_base tn) dry
  (sync_server srv dry (sv_Sync srv)
  (await_pods (pm_arePodsReady (sv_pods srv))
   (tn_initialize tn dry))).

Definition TabletNode_component tn : Component W :=
  component_of (lb_ComponentName (lsc_labeller (tn_base tn))) TabletNodeType true
    (lsc_labeller (tn_base tn)) (in_order [sv_Fetch (lsc_server (tn_base tn))])
    (TabletNode_doSync tn).
End TabletNode.

(** ** Frames *)

Section TabletNodeFrames.
Context {H E : Type} `{K : Kube E} `{CM : ConditionMeta} `{Y : Yt E}.
Context `{KL : !KubeLaws E K} `{CL : !ConditionMetaLaws CM} `{YL : !YtLaws E K KL Y}.
Local Abbreviation W := (World H E).
Implicit Types tn : TabletNode H E.

Lemma create_sys_bundle_quiet tn : preserves quiet (create_sys_bundle tn : M W error).
Proof. unfold create_sys_bundle. solve_frame. Qed.
Lemma set_default_options_quiet tn : preserves quiet (set_default_options tn : M W _).
Proof. unfold set_default_options. cbv zeta. solve_frame. Qed.
Lemma create_bundle_cells_quiet bs : preserves quiet (create_bundle_cells bs : M W error).
Proof. induction bs; simpl; solve_frame. Qed.
#[local] Hint Resolve create_sys_bundle_quiet set_default_options_quiet create_bundle_cells_quiet : frame.

#[export] Instance TabletNode_laws tn :
  ServerLaws (lsc_server (tn_base tn)) -> ComponentLaws (iyc_component (tn_ytsaurusClient tn)) ->
  ComponentLaws (TabletNode_component tn : Component W).
Proof.
  intros. apply component_of_laws; [solve_frame|]. intros dry. unfold TabletNode_doSync.
  assert (preserves frame (tn_initialize tn dry)) by (unfold tn_initialize, initBundles; solve_component).
  solve_component.
Qed.
End TabletNodeFrames.

(** ** The bundles of the cluster *)

(** Creating a bundle and setting its options keep the cells there are; a
    bundle exists when its path does, or once it was created without error,
    and does not disappear when attributes are set or cells created. *)
Class BundleLaws (E : Type) (Y : Yt E) (CE : CellLaws E Y) := {
  bundle_exists : E -> string -> Prop;
  bundle_reported : forall e b there,
    yt_NodeExists (bundle_path b) e = inr there -> there = true <-> bundle_exists e b;
  bundle_created : forall b options e e',
    yt_CreateObject "tablet_cell_bundle" [("name", YString b); ("options", YMap options)]%string false e = (None, e') ->
    bundle_exists e' b;
  bundle_set_node : forall p v e b, bundle_exists e b -> bundle_exists (yt_SetNode p v e).2 b;
  bundle_create_object : forall t a i e b, bundle_exists e b -> bundle_exists (yt_CreateObject t a i e).2 b;
  cells_set_node : forall p v e b, tablet_cells (yt_SetNode p v e).2 b = tablet_cells e b;
  cells_create_bundle : forall a e b,
    tablet_cells (yt_CreateObject "tablet_cell_bundle" a false e).2 b = tablet_cells e b;
}.

Section InitBundles.
Context {H E : Type} `{K : Kube E} `{CM : ConditionMeta} `{Y : Yt E}.
Context `{KL : !KubeLaws E K} `{CL : !ConditionMetaLaws CM} `{YL : !YtLaws E K KL Y}.
Context `{CE : !CellLaws E Y} `{BL : !BundleLaws E Y CE}.
Local Abbreviation W := (World H E).
Implicit Types tn : TabletNode H E.

(** Nothing but the YT cluster changes, and no cell is lost. *)
Definition grows (w w' : W) : Prop :=
  resource w' = resource w /\ heap w' = heap w /\ forall b, (cells w b <= cells w' b)%Z.

#[local] Instance grows_preorder : PreOrder grows.
Proof.
  split; [by intros w|]. intros w1 w2 w3 (H1 & H2 & H3) (H4 & H5 & H6).
  split; [congruence|]. split; [congruence|]. intros b. specialize (H3 b). specialize (H6 b). lia.
Qed.

Lemma outside_grows {A} (f : E -> A * E) :
  (forall e b, tablet_cells (f e).2 b = tablet_cells e b) -> preserves grows (outside f : M W A).
Proof.
  intros Hf w a w' Hrun. unfold outside in Hrun. specialize (Hf (ext w)).
  destruct (f (ext w)) as [a' e']. injection Hrun as <- <-. split; [done|]. split; [done|].
  intros b. unfold cells. simpl. rewrite <- (Hf b). simpl. lia.
Qed.

Lemma create_sys_bundle_grows tn : preserves grows (create_sys_bundle tn).
Proof.
  unfold create_sys_bundle. solve_frame. apply outside_grows. intros. apply cells_create_bundle.
Qed.

Lemma set_default_options_grows tn : preserves grows (set_default_options tn).
Proof.
  unfold set_default_options, GetNode. cbv zeta. solve_frame. apply outside_grows. intros.
  apply cells_set_node.
Qed.

(** A bundle that is there stays there. *)
Definition keeps_bundle (b : string) (w w' : W) : Prop := bundle_exists (ext w) b -> bundle_exists (ext w') b.

#[local] Instance keeps_bundle_preorder b : PreOrder (keeps_bundle b).
Proof. unfold keeps_bundle. split; [intros w ?; done|]. intros w1 w2 w3 H1 H2. unfold keeps_bundle in *. auto. Qed.

Lemma outside_keeps {A} b (f : E -> A * E) :
  (forall e, bundle_exists e b -> bundle_exists (f e).2 b) -> preserves (keeps_bundle b) (outside f : M W A).
Proof.
  intros Hf w a w' Hrun Hb. unfold outside in Hrun. apply Hf in Hb. destruct (f (ext w)) as [a' e'].
  by injection Hrun as _ <-.
Qed.

Lemma set_default_options_keeps b tn : preserves (keeps_bundle b) (set_default_options tn).
Proof.
  unfold set_default_options, GetNode. cbv zeta. solve_frame. apply outside_keeps. intros.
  by apply bundle_set_node.
Qed.

Lemma create_cells_keeps b bundle n : preserves (keeps_bundle b) (create_cells bundle n : M W error).
Proof.
  induction n as [|n IH]; simpl; solve_frame. apply outside_keeps. intros. by apply bundle_create_object.
Qed.

Lemma create_bundle_cells_keeps b bundles : preserves (keeps_bundle b) (create_bundle_cells bundles : M W error).
Proof.
  induction bundles as [|bundle bundles IH]; simpl; unfold CreateTabletCells, GetNode; solve_frame.
  apply create_cells_keeps.
Qed.

(** The system bundle is there, or is made. *)
Lemma create_sys_bundle_makes tn (w w' : W) :
  create_sys_bundle tn w = Some (None, w') -> bundle_exists (ext w') SysBundle.
Proof.
  unfold create_sys_bundle. rewrite run_gets. destruct (yt_NodeExists _ _) as [e|there] eqn:Hn; [done|].
  apply bundle_reported in Hn. destruct there; cbn [negb].
  - intros [= <-]. by apply Hn.
  - rewrite run_gets. unfold outside. destruct (yt_CreateObject _ _ _ _) as [err e'] eqn:Hc. intros [= -> <-].
    by eapply bundle_created.
Qed.

Lemma outside_resource {A} (f : E -> A * E) (w w' : W) a :
  outside f w = Some (a, w') -> resource w' = resource w /\ heap w' = heap w.
Proof. unfold outside. destruct (f (ext w)). by intros [= <- <-]. Qed.

Lemma create_cells_resource b n (w w' : W) err :
  create_cells b n w = Some (err, w') -> resource w' = resource w /\ heap w' = heap w.
Proof.
  revert w. induction n as [|n IH]; intros w Hrun; simpl in Hrun; [by injection Hrun as _ <-|].
  apply bind_inv in Hrun as (e & w1 & Ho & Hrun). apply outside_resource in Ho as [Hr Hh].
  destruct e; [by injection Hrun as _ <-|]. apply IH in Hrun as [? ?]. split; congruence.
Qed.

Lemma CreateTabletCells_resource b n (w w' : W) err :
  CreateTabletCells b n w = Some (err, w') -> resource w' = resource w /\ heap w' = heap w.
Proof.
  unfold CreateTabletCells, GetNode. rewrite run_gets.
  destruct (yt_GetNode _ _ _ _); intros Hrun; [by injection Hrun as _ <-|].
  by apply create_cells_resource in Hrun.
Qed.

Lemma create_bundle_cells_grows bundles (w w' : W) err :
  create_bundle_cells bundles w = Some (err, w') ->
  grows w w' /\
  (err = None -> forall b, b ∈ bundles -> (tablet_cell_count (yt_Spec (resource w)) b <= cells w' b)%Z).
Proof.
  revert w. induction bundles as [|b bundles IH]; intros w Hrun; simpl in Hrun.
  { injection Hrun as <- <-. split; [reflexivity|]. intros _ b Hb. by apply elem_of_nil in Hb. }
  rewrite run_gets in Hrun. apply bind_inv in Hrun as (e & w1 & Hc & Hrun).
  pose proof (CreateTabletCells_resource _ _ _ _ _ Hc) as [Hr Hh].
  apply CreateTabletCells_count in Hc as (Hle & Heq & Hother).
  assert (grows w w1) as Hg.
  { split; [done|]. split; [done|]. intros b'. destruct (decide (b' = b)) as [->|Hb]; [lia|].
    rewrite Hother by done. lia. }
  destruct e as [msg|]; [by injection Hrun as <- <-|].
  apply IH in Hrun as [Hg2 Hall]. split; [by transitivity w1|]. intros He b' Hb'.
  rewrite Hr in Hall. apply elem_of_cons in Hb' as [->|Hb']; [|by apply Hall].
  destruct Hg2 as (_ & _ & Hle2). specialize (Hle2 b). specialize (Heq eq_refl). lia.
Qed.

(** C35. The bundles are declared initialised only when they are: a run of
    [initBundles] that returns no error sets the condition, and then the system
    bundle exists, and both it and the default bundle have at least the number
    of tablet cells the specification asks for (one by default), whatever
    bundles and cells there were; a run that returns an error leaves the
    conditions of the resource as they were.  It never removes a cell, and panics only without a client. *)
Theorem initBundles_correct tn (w w' : W) (st : ComponentStatus) (err : error)
    (Hwf : conditions_wf (st_Conditions (status w)))
    (Hrun : initBundles tn w = Some ((st, err), w')) :
  load (iyc_ytClient (tn_ytsaurusClient tn)) (heap w) = true /\
  (forall b, (cells w b <= cells w' b)%Z) /\
  match err with
  | None =>
      st = SimpleStatus SyncStatusReady /\ condition_true w' (tn_initBundlesCondition tn) = true /\
      bundle_exists (ext w') SysBundle /\
      forall b, b ∈ [DefaultBundle; SysBundle] ->
        (tablet_cell_count (yt_Spec (resource w)) b <= cells w' b)%Z
  | Some _ => cst_SyncStatus st = SyncStatusPending /\ status w' = status w
  end.
Proof.
  unfold initBundles, read in Hrun. rewrite run_gets in Hrun.
  destruct (load _ (heap w)) eqn:Hc; cbv beta iota delta [negb] in Hrun; [split; [done|]|discriminate Hrun].
  apply bind_inv in Hrun as (e1 & w1 & Hs & Hrun). pose proof (create_sys_bundle_makes tn w w1) as Hmade.
  rewrite Hs in Hmade. apply create_sys_bundle_grows in Hs as (Hr1 & Hh1 & Hg1).
  destruct e1 as [m1|]; [injection Hrun as <- <- <-; split; [done|]; unfold status; by rewrite Hr1|].
  specialize (Hmade eq_refl).
  apply bind_inv in Hrun as (e2 & w2 & Ho & Hrun). apply (set_default_options_keeps SysBundle _ _ _ _ Ho) in Hmade.
  apply set_default_options_grows in Ho as (Hr2 & Hh2 & Hg2).
  assert (forall b, (cells w b <= cells w2 b)%Z) as Hg12
    by (intros b; specialize (Hg1 b); specialize (Hg2 b); lia).
  destruct e2 as [[ev m2]|].
  { injection Hrun as <- <- <-. split; [done|]. unfold status. by rewrite Hr2, Hr1. }
  apply bind_inv in Hrun as (e3 & w3 & Hcells & Hrun).
  apply (create_bundle_cells_keeps SysBundle _ _ _ _ Hcells) in Hmade.
  apply create_bundle_cells_grows in Hcells as [(Hr3 & Hh3 & Hg3) Hall].
  assert (forall b, (cells w b <= cells w3 b)%Z) as Hg123
    by (intros b; specialize (Hg12 b); specialize (Hg3 b); lia).
  assert (status w3 = status w) as Hst by (unfold status; by rewrite Hr3, Hr2, Hr1).
  destruct e3 as [m3|]; [by injection Hrun as <- <- <-|].
  unfold SetStatusCondition in Hrun. rewrite run_modify in Hrun. injection Hrun as <- <- <-.
  split; [exact Hg123|]. split; [done|]. split.
  - unfold condition_true. simpl. rewrite is_true_set by by rewrite Hst.
    rewrite decide_True by done. by apply bool_decide_eq_true.
  - split; [exact Hmade|]. intros b Hb. specialize (Hall eq_refl b Hb). by rewrite Hr2, Hr1 in Hall.
Qed.
End InitBundles.

Import RefMeta RefYt.

Module TabletNodeWitness.
#[export] Instance bundle_laws : BundleLaws E yt cell_laws.
Proof.
  refine {| bundle_exists := fun (e : E) b => bundle_at (bundle_path b) e.2 |}; try done.
  - intros e b there [= <-]. apply bool_decide_eq_true.
  - intros b options e e' [= <-]. unfold bundle_at. simpl. apply elem_of_cons. by left.
  - intros t a i e b Hb. simpl. repeat case_decide; repeat case_match; simplify_eq/=; try done.
    unfold bundle_at in *. simpl. by apply elem_of_cons; right.
  - by intros [|[? []] ?] e1 b1.
Defined.

(** A tablet node whose client is there, and a cluster with two cells of the
    default bundle. *)
Definition srv : server (World bool E) bool :=
  mkServer _ _ (mret None) (mret None) (mkPodsManager _ (mret None) (mret true) (mret true) (mret true))
    (mret false) (mret false) (mret false) (mret false) panic panic.
#[program] Definition client : Ref bool bool := {| load := fun b => b; store := fun b _ => b |}.
Solve All Obligations with done.
Definition labeller : Labeller := mkLabeller "minisaurus" "default" "yt-tablet-node" "TabletNode" None.
Definition component : Component (World bool E) :=
  component_of "YtsaurusClient" YtsaurusClientType false labeller (mret None) (fun _ => ready).
Definition node : TabletNode bool E :=
  mkTabletNode _ _ (mkLocalServerComponent _ _ labeller srv)
    (NewLocalBaseGenerator (sample_Ytsaurus ClusterStateRunning) "cluster.local")
    (mkInternalYtsaurusClient _ _ component client) "bundlesTabletNodeInitCompleted"
    sample_TabletNodes true.
Definition world : World bool E :=
  let w := RefYt.world UpdateStateNone [] (mkCluster ["default"; "default"]%string false) in
  mkWorld (resource w) true (ext w).
End TabletNodeWitness.

Import TabletNodeWitness.

Lemma initBundles_correct_witness :
  exists w', initBundles node world = Some ((SimpleStatus SyncStatusReady, None), w') /\
    condition_true w' "bundlesTabletNodeInitCompleted" = true /\ bundle_exists (ext w') SysBundle /\
    (1 <= cells w' SysBundle)%Z.
Proof.
  eexists. split; [vm_compute; reflexivity|].
  unshelve epose proof (initBundles_correct node world _ (SimpleStatus SyncStatusReady) None _ _)
    as (_ & _ & _ & Hc & Hb & Hn); [|constructor|vm_compute; reflexivity|].
  split; [exact Hc|]. split; [exact Hb|]. apply (Hn SysBundle). set_solver.
Defined.
