(* ===== verification/Initialised.v ===== *)
(** * Ready means initialised

    The components that prepare their state in the cluster with a job (the
    master, the scheduler, the query tracker, the queue agents, the YQL agents)
    report [Ready] outside an update only after that job completed. *)

From S2P Require Import Prelude GoPath Api Kube Conditions Samples CellId Labeller Names Proxy Component Resources ConfigHelper Server InitJob Observe ServerComponent Nodes YtApi YtsaurusClient Masters StateJobs Agents.

(** [ready_only P m]: when [m] reports [Ready] without error outside an
    update, [P] holds of the world it leaves. *)
Section ReadyOnly.
Context {H E : Type} `{K : Kube E} `{CM : ConditionMeta}.
Context `{KL : !KubeLaws E K} `{CL : !ConditionMetaLaws CM}.
Local Abbreviation W := (World H E).
Implicit Types P : W -> Prop.

Definition ready_only P (m : M W SyncResult) : Prop :=
  forall w st w', m w = Some ((st, None), w') -> cst_SyncStatus st = SyncStatusReady ->
    st_State (status w') <> ClusterStateUpdating -> P w'.

Lemma ready_only_bind {A} P (m : M W A) f : (forall a, ready_only P (f a)) -> ready_only P (m ≫= f).
Proof. intros Hf w st w' (a & w1 & _ & Hrun)%bind_inv. by apply (Hf a w1). Qed.

Lemma ready_only_error P st err : ready_only P (mret (st, Some err)).
Proof. by intros w st' w' [=]. Qed.

Lemma ready_only_other P st err : cst_SyncStatus st <> SyncStatusReady -> ready_only P (mret (st, err)).
Proof. by intros Hst w st' w' [= <- _ _] ?. Qed.

Lemma ready_only_panic P : ready_only P panic.
Proof. by intros w st w'. Qed.

(** The guard of an update answers [Ready] only while updating. *)
Lemma ready_only_updating_guard P h rest :
  preserves update_frame h -> ready_only P rest -> ready_only P (updating_guard h rest).
Proof.
  intros Hh Hr w st w' Hrun Hst Hup. unfold updating_guard, GetClusterState in Hrun.
  rewrite run_gets in Hrun. apply bind_inv in Hrun as ([o err] & w1 & Hg & Hrun). simpl in Hrun.
  destruct o as [st1|]; [|by apply (Hr w1 st w')].
  case_decide as Hs; [|discriminate Hg]. injection Hrun as _ _ <-. destruct Hup. rewrite <- Hs.
  destruct (Hh _ _ _ Hg Hs) as [Hc _]. by apply control_state in Hc.
Qed.

(** A job answers [Ready] only when its condition is set, and then changes
    nothing. *)
Lemma InitJob_ready `{CO : Codec} (j : InitJob H E) dry (w w' : W) st err :
  ij_conditionsManager j = Ytsaurus_conditions ->
  InitJob_Sync j dry w = Some ((st, err), w') -> cst_SyncStatus st = SyncStatusReady ->
  w' = w /\ condition_true w (ij_initCompletedCondition j) = true.
Proof.
  intros Hj Hrun Hst. unfold InitJob_Sync in Hrun. rewrite Hj in Hrun. simpl in Hrun.
  unfold IsStatusConditionTrue in Hrun. rewrite run_gets in Hrun. unfold condition_true.
  destruct (meta_IsStatusConditionTrue _ _); [by injection Hrun as _ _ <-|]. exfalso.
  apply bind_inv in Hrun as (e & w1 & _ & Hrun). destruct e; cbv beta iota delta [negb] in Hrun.
  - apply bind_inv in Hrun as (b & w2 & _ & Hrun). destruct b; cbv beta iota delta [negb] in Hrun.
    + apply bind_inv in Hrun as (u & w3 & _ & Hrun). by injection Hrun as <- _ _.
    + by injection Hrun as <- _ _.
  - apply bind_inv in Hrun as (u & w3 & _ & Hrun). by injection Hrun as <- _ _.
Qed.

Lemma ready_only_job `{CO : Codec} P (j : InitJob H E) dry :
  ij_conditionsManager j = Ytsaurus_conditions ->
  (forall w, condition_true w (ij_initCompletedCondition j) = true -> P w) ->
  ready_only P (InitJob_Sync j dry).
Proof. intros Hj HP w st w' Hrun Hst _. destruct (InitJob_ready _ _ _ _ _ _ Hj Hrun Hst) as [-> Hc]. auto. Qed.

Lemma ready_only_await_all P (cs : list (Component W)) rest :
  ready_only P rest -> ready_only P (await_all cs rest).
Proof.
  intros Hr. induction cs as [|c cs IH]; simpl; [done|]. apply ready_only_bind. intros [st []];
    [apply ready_only_error|]. destruct (negb _); [by apply ready_only_other|done].
Qed.

Lemma ready_only_await_nodes P (cs : list (Component W)) rest :
  ready_only P rest -> ready_only P (await_tablet_nodes cs rest).
Proof.
  intros Hr. induction cs as [|c cs IH]; simpl; [done|]. apply ready_only_bind. intros [st []];
    [apply ready_only_error|]. destruct (negb _); [by apply ready_only_other|done].
Qed.
End ReadyOnly.

(** Follows a [doSync] method down to its job. *)
Ltac ready_step :=
  match goal with
  | |- ready_only _ (mret (_, Some _)) => apply ready_only_error
  | |- ready_only _ (mret (_, _)) => apply ready_only_other; discriminate
  | |- ready_only _ panic => apply ready_only_panic
  | |- ready_only _ (updating_guard _ _) => apply ready_only_updating_guard; [solve [eauto with frame]|]
  | |- ready_only _ (await_all _ _) => apply ready_only_await_all
  | |- ready_only _ (await_tablet_nodes _ _) => apply ready_only_await_nodes
  | |- ready_only _ (_ ≫= _) => apply ready_only_bind; intros ?
  | |- ready_only _ (if ?b then _ else _) => destruct b eqn:?
  | |- ready_only _ (match ?x with _ => _ end) => destruct x eqn:?
  | |- ready_only _ (let _ := _ in _) => cbv zeta
  | |- ready_only _ (server_guards _ _ _) => unfold server_guards
  | |- ready_only _ (local_update_guard _ _) => unfold local_update_guard
  | |- ready_only _ (await_running _ _) => unfold await_running
  | |- ready_only _ (await_ready _ _) => unfold await_ready
  | |- ready_only _ (sync_server _ _ _ _) => unfold sync_server
  | |- ready_only _ (pending_secret _ _ _ _) => unfold pending_secret
  | |- ready_only _ (pending _ _ _ _ _) => unfold pending
  | |- ready_only _ (await_pods _ _) => unfold await_pods
  end.
Ltac solve_ready := repeat ready_step.

(** ** The components *)

Section Components.
Context {H E : Type} `{K : Kube E} `{CM : ConditionMeta} `{CO : Codec} `{CY : ContainerYaml}.
Context `{Y : Yt E} `{EN : Entropy E} `{YT : YsonText} `{MO : MapOrder E}.
Context `{KL : !KubeLaws E K} `{CL : !ConditionMetaLaws CM}.
Local Abbreviation W := (World H E).

Definition job_completed (j : InitJob H E) (w : W) : Prop :=
  condition_true w (ij_initCompletedCondition j) = true.

(** The components and what their being ready tells.  Of their server and of
    the components they wait for only the interfaces are known. *)
Inductive initialised_by : (bool -> M W SyncResult) -> (W -> Prop) -> Prop :=
| by_Master m :
    PodsLaws (sv_pods (lsc_server (ma_base m))) ->
    ij_conditionsManager (ma_initJob m) = Ytsaurus_conditions ->
    ij_conditionsManager (ma_exitReadOnlyJob m) = Ytsaurus_conditions ->
    initialised_by (Master_doSync m) (job_completed (ma_initJob m))
| by_Scheduler s :
    PodsLaws (sv_pods (lsc_server (sch_base s))) ->
    ij_conditionsManager (sch_initUser s) = Ytsaurus_conditions ->
    ij_conditionsManager (sch_initOpArchive s) = Ytsaurus_conditions ->
    initialised_by (Scheduler_doSync s)
      (fun w => needOpArchiveInit s = true -> job_completed (sch_initOpArchive s) w)
| by_QueryTracker qt :
    PodsLaws (sv_pods (lsc_server (qt_base qt))) ->
    ij_conditionsManager (qt_initQTState qt) = Ytsaurus_conditions ->
    initialised_by (QueryTracker_doSync qt)
      (fun w => job_completed (qt_initQTState qt) w /\ condition_true w (qt_initCondition qt) = true)
| by_QueueAgent qa :
    PodsLaws (sv_pods (lsc_server (qa_base qa))) ->
    ij_conditionsManager (qa_initQAState qa) = Ytsaurus_conditions ->
    initialised_by (QueueAgent_doSync qa)
      (fun w => job_completed (qa_initQAState qa) w /\ condition_true w (qa_initCondition qa) = true)
| by_YqlAgent yq :
    PodsLaws (sv_pods (lsc_server (yq_base yq))) ->
    ij_conditionsManager (yq_initEnvironment yq) = Ytsaurus_conditions ->
    initialised_by (YqlAgent_doSync yq) (job_completed (yq_initEnvironment yq)).

Lemma ready_handle u l (p : podsManager W) dry P rest :
  PodsLaws p -> ready_only P rest ->
  ready_only P (updating_guard (handleUpdatingClusterState u l p dry) rest).
Proof. intros. apply ready_only_updating_guard; [solve_frame|done]. Qed.

Lemma conditions_frame (j : InitJob H E) :
  ij_conditionsManager j = Ytsaurus_conditions -> ConditionManagerFrame (ij_conditionsManager j).
Proof. intros ->. apply _. Qed.

(** The last steps of the query tracker and of the queue agents: the job,
    then the condition of their own. *)
Lemma after_job dry prepare (j : InitJob H E) (t : string) (otherwise : M W SyncResult) P :
  ij_conditionsManager j = Ytsaurus_conditions ->
  (forall w, job_completed j w -> condition_true w t = true -> P w) -> ready_only P otherwise ->
  ready_only P (_ ← (prepare : M W unit);
    '(status, err) ← InitJob_Sync j dry;
    if negb (no_error err) || negb (bool_decide (cst_SyncStatus status = SyncStatusReady)) then
      mret (status, err)
    else
      initialised ← IsStatusConditionTrue t;
      if (initialised : bool) then ready else otherwise).
Proof.
  intros Hj HP Ho. apply ready_only_bind. intros _ w st w' Hrun Hst Hup.
  apply bind_inv in Hrun as ([st1 err] & w1 & Hjob & Hrun).
  destruct err as [e|]; simpl in Hrun; [by injection Hrun|].
  case_bool_decide as Hst1; simpl in Hrun; [|by injection Hrun as <- <-].
  destruct (InitJob_ready _ _ _ _ _ _ Hj Hjob Hst1) as [-> Hc].
  unfold IsStatusConditionTrue in Hrun. rewrite run_gets in Hrun.
  destruct (meta_IsStatusConditionTrue _ _) eqn:Ht; [|by apply (Ho w st w')].
  injection Hrun as _ <-. by apply HP.
Qed.

Lemma initialised_ready doSync P dry : initialised_by doSync P -> ready_only P (doSync dry).
Proof.
  destruct 1 as [m Hp Hi He|s Hp Hu Ha|qt Hp Hj|qa Hp Hj|yq Hp Hj].
  - unfold Master_doSync. pose proof (conditions_frame _ He).
    assert (preserves update_frame (Master_updating m dry)) by (unfold Master_updating; solve_frame).
    solve_ready; by apply ready_only_job.
  - unfold Scheduler_doSync. pose proof (conditions_frame _ Ha).
    assert (preserves update_frame (updateOpArchive s dry)) by (unfold updateOpArchive; solve_frame).
    solve_ready.
    + intros w st w' Hrun Hst _ Hn.
      match goal with He : negb (needOpArchiveInit s) = true |- _ => by rewrite Hn in He end.
    + unfold initOpAchieve. solve_ready; [by apply ready_only_other|by apply ready_only_job].
  - unfold QueryTracker_doSync. pose proof (conditions_frame _ Hj).
    assert (preserves update_frame (updateQTState qt dry)) by (unfold updateQTState; solve_frame).
    assert (forall dry, ready_only (fun w => job_completed (qt_initQTState qt) w /\
      condition_true w (qt_initCondition qt) = true) (qt_run_job qt dry)).
    { intros. unfold qt_run_job. apply after_job; [done|done|by apply ready_only_other]. }
    solve_ready; [done|]. unfold qt_initialize. solve_ready. done.
  - unfold QueueAgent_doSync.
    assert (forall dry client, ready_only (fun w => job_completed (qa_initQAState qa) w /\
      condition_true w (qa_initCondition qa) = true) (qa_run_job qa dry client)).
    { intros. unfold qa_run_job. apply after_job; [done|done|]. solve_ready. }
    solve_ready. unfold qa_initialize. solve_ready; done.
  - unfold YqlAgent_doSync. solve_ready; by apply ready_only_job.
Qed.

(** C34. A component is ready only when it is initialised: outside an update,
    if a master, a query tracker, a queue agent or a YQL agent reports
    [Ready] without error, in a dry run or a wet one, the job that prepares
    its state is completed (and for the two in the middle, the YT client has
    finished its part, too); so does a scheduler whose cluster has tablet
    nodes to keep the operations archive. *)
Theorem ready_means_initialised (doSync : bool -> M W SyncResult) (P : W -> Prop) (dry : bool)
    (w w' : W) (st : ComponentStatus) (Hby : initialised_by doSync P)
    (Hrun : doSync dry w = Some ((st, None), w')) (Hready : cst_SyncStatus st = SyncStatusReady)
    (Hup : st_State (status w') <> ClusterStateUpdating) : P w'.
Proof. by apply (initialised_ready _ _ dry Hby w st w'). Qed.
End Components.

Import RefKube RefMeta RefCodec.

Import NoCluster.

Module InitialisedWitness.
#[export] Instance yson_text : YsonText := {| yson_acl := fun _ => None; yson_medium := fun _ => None |}.
#[export] Program Instance order : MapOrder YtsaurusStatus := {| range_keys := fun _ s => elements s |}.
Solve All Obligations with done.
#[export] Instance container_yaml : ContainerYaml := fun _ => inl "not a container"%string.

Definition done (t : string) : Condition := mkCondition t ConditionTrue 0 "Done" "".
(** The job and the query tracker's part are done. *)
Definition world : World StateJobWitness.heap_t YtsaurusStatus :=
  let w := StateJobWitness.world ClusterStateRunning UpdateStateNone JobWitness.job_done
    [completed_condition StateJobWitness.job; done "queryTrackerInitCompleted"] in
  mkWorld (resource w) ((heap w).1, (token, (heap w).2.2)) (ext w).
End InitialisedWitness.

Import InitialisedWitness.

Lemma ready_means_initialised_witness :
  QueryTracker_doSync StateJobWitness.query_tracker true world =
    Some ((SimpleStatus SyncStatusReady, None), world) /\
  job_completed StateJobWitness.job world.
Proof.
  split; [vm_compute; reflexivity|].
  refine (proj1 (ready_means_initialised (QueryTracker_doSync StateJobWitness.query_tracker)
    (fun w => job_completed StateJobWitness.job w /\ condition_true w "queryTrackerInitCompleted" = true)
    true world world (SimpleStatus SyncStatusReady) _ _ eq_refl _)).
  - refine (by_QueryTracker StateJobWitness.query_tracker _ eq_refl). split; intros w a w' [= <- <-]; done.
  - vm_compute. reflexivity.
  - discriminate.
Defined.
