(* ===== verification/Manager.v ===== *)
(** * The component manager: controllers/component_manager.go

    [NewComponentManager] builds the components from the specification,
    fetches each one and summarises their statuses in four flags;
    [ComponentManager.Sync] drives the pending and updating components.  The
    constructors of the components are the fields of [Factory]. *)

From S2P Require Import Prelude Api Kube Conditions Samples Labeller Proxy Component.

(** [ctrl.Result]; the delay is in seconds. *)
Record Result := mkResult {
  Requeue : bool;
  RequeueAfter : Z;
}.
Definition Result_zero : Result := mkResult false 0.
Definition requeue : Result := mkResult true 0.

(** The constructors of pkg/components called by the manager.  The arguments
    are those of the Go functions, less the configuration generator and the
    Ytsaurus proxy, which all components share. *)
Record Factory (W : Type) := mkFactory {
  NewDiscovery : Component W;
  NewMaster : Component W;
  NewHTTPProxy : Component W -> HTTPProxiesSpec -> Component W;
  NewYtsaurusClient : Component W -> Component W;
  NewDataNode : Component W -> DataNodesSpec -> Component W;
  NewUI : Component W -> Component W;
  NewRPCProxy : Component W -> RPCProxiesSpec -> Component W;
  NewTCPProxy : Component W -> TCPProxiesSpec -> Component W;
  NewExecNode : Component W -> ExecNodesSpec -> Component W;
  NewTabletNode : Component W -> TabletNodesSpec -> bool -> Component W;
  NewScheduler : Component W -> list (Component W) -> list (Component W) -> Component W;
  NewControllerAgent : Component W -> Component W;
  NewQueryTracker : Component W -> list (Component W) -> Component W;
  NewQueueAgent : Component W -> Component W -> list (Component W) -> Component W;
  NewYQLAgent : Component W -> Component W;
  NewStrawberryController : Component W -> Component W -> list (Component W) -> Component W;
  NewMasterCache : Component W;
}.
Arguments NewDiscovery {W} _. Arguments NewMaster {W} _. Arguments NewHTTPProxy {W} _ _ _.
Arguments NewYtsaurusClient {W} _ _. Arguments NewDataNode {W} _ _ _. Arguments NewUI {W} _ _.
Arguments NewRPCProxy {W} _ _ _. Arguments NewTCPProxy {W} _ _ _. Arguments NewExecNode {W} _ _ _.
Arguments NewTabletNode {W} _ _ _ _. Arguments NewScheduler {W} _ _ _ _.
Arguments NewControllerAgent {W} _ _. Arguments NewQueryTracker {W} _ _ _.
Arguments NewQueueAgent {W} _ _ _ _. Arguments NewYQLAgent {W} _ _.
Arguments NewStrawberryController {W} _ _ _ _. Arguments NewMasterCache {W} _.

Record ComponentManagerStatus (W : Type) := mkComponentManagerStatus {
  cms_needSync : bool;
  cms_needInit : bool;
  cms_needUpdate : slice (Component W);
  cms_allReadyOrUpdating : bool;
}.
Arguments mkComponentManagerStatus {W} _ _ _ _.
Arguments cms_needSync {W} _. Arguments cms_needInit {W} _.
Arguments cms_needUpdate {W} _. Arguments cms_allReadyOrUpdating {W} _.

Record ComponentManager (W : Type) := mkComponentManager {
  allComponents : list (Component W);
  queryTrackerComponent : option (Component W);
  schedulerComponent : option (Component W);
  cm_status : ComponentManagerStatus W;
}.
Arguments mkComponentManager {W} _ _ _ _.
Arguments allComponents {W} _. Arguments queryTrackerComponent {W} _.
Arguments schedulerComponent {W} _. Arguments cm_status {W} _.

(** Lists indexed from [0], for [for idx, x := range xs]. *)
Definition imap_first {A B} (f : A -> bool -> B) (xs : list A) : list B :=
  imap (fun idx x => f x (bool_decide (idx = 0))) xs.

Definition is_some {A} (o : option A) : bool := match o with Some _ => true | None => false end.

(** The first half of [NewComponentManager]: the components of a
    specification, the query tracker and the scheduler; [hps[0]] panics when
    there is no HTTP proxy. *)
Definition buildComponents {W} (f : Factory W) (spec : YtsaurusSpec)
    : option (list (Component W) * option (Component W) * option (Component W)) :=
  let d := NewDiscovery f in
  let m := NewMaster f in
  let hps := NewHTTPProxy f m <$> sp_HTTPProxies spec in
  match hps with
  | [] => None
  | hp0 :: _ =>
      let yc := NewYtsaurusClient f hp0 in
      let dnds := NewDataNode f m <$> sp_DataNodes spec in
      let uis := match sp_UI spec with Some _ => [NewUI f m] | None => [] end in
      let rps := NewRPCProxy f m <$> sp_RPCProxies spec in
      let tps := NewTCPProxy f m <$> sp_TCPProxies spec in
      let ends := NewExecNode f m <$> sp_ExecNodes spec in
      let tnds := imap_first (NewTabletNode f yc) (sp_TabletNodes spec) in
      let s := match sp_Schedulers spec with
               | Some _ => Some (NewScheduler f m ends tnds) | None => None end in
      let cas := match sp_ControllerAgents spec with
                 | Some _ => [NewControllerAgent f m] | None => [] end in
      let has_tablets := match sp_TabletNodes spec with [] => false | _ => true end in
      let q :=
        if is_some (sp_QueryTrackers spec) && is_some (sp_Schedulers spec) && has_tablets
        then Some (NewQueryTracker f yc tnds) else None in
      let qas :=
        if is_some (sp_QueueAgents spec) && has_tablets then [NewQueueAgent f yc m tnds] else [] in
      let yqlas := match sp_YQLAgents spec with Some _ => [NewYQLAgent f m] | None => [] end in
      let strawberries :=
        match s with
        | Some s =>
            if is_some (sp_DeprecatedChytController spec) || is_some (sp_StrawberryController spec)
            then [NewStrawberryController f m s dnds] else []
        | None => []
        end in
      let mcs := match sp_MasterCaches spec with Some _ => [NewMasterCache f] | None => [] end in
      Some ([d; m; yc] ++ dnds ++ hps ++ uis ++ rps ++ tps ++ ends ++ tnds ++ option_list s ++ cas
              ++ option_list q ++ qas ++ yqlas ++ strawberries ++ mcs, q, s)
  end.

Section Manager.
Context {H E : Type} `{K : Kube E} `{CM : ConditionMeta}.
Local Abbreviation W := (World H E).

(** The flags after one component reported [syncStatus]. *)
Definition add_status (status : ComponentManagerStatus W) (c : Component W)
    (syncStatus : SyncStatus) : ComponentManagerStatus W :=
  mkComponentManagerStatus
    (cms_needSync status || negb (bool_decide (syncStatus = SyncStatusReady)))
    (cms_needInit status || negb (IsRunningStatus syncStatus))
    (if decide (syncStatus = SyncStatusNeedLocalUpdate)
     then go_append (cms_needUpdate status) c else cms_needUpdate status)
    (cms_allReadyOrUpdating status &&
     negb (negb (bool_decide (syncStatus = SyncStatusReady)) &&
           negb (bool_decide (syncStatus = SyncStatusUpdating)))).

(** The loop "Fetch component status". *)
Fixpoint fetchStatuses (cs : list (Component W)) (status : ComponentManagerStatus W)
    : M W (string + ComponentManagerStatus W) :=
  match cs with
  | [] => mret (inr status)
  | c :: cs' =>
      err ← cmp_Fetch c;
      match err with
      | Some err => mret (inl err)
      | None =>
          '(componentStatus, err) ← cmp_Status c;
          match err with
          | Some err =>
              mret (inl ("failed to get component " +:+ cmp_GetName c +:+ " status: " +:+ err)%string)
          | None =>
              _ ← cmp_SetReadyCondition c componentStatus;
              fetchStatuses cs' (add_status status c (cst_SyncStatus componentStatus))
          end
      end
  end.

Definition status_zero : ComponentManagerStatus W :=
  mkComponentManagerStatus false false None true.

Definition NewComponentManager (f : Factory W) : M W (string + ComponentManager W) :=
  spec ← gets (fun w => yt_Spec (resource w));
  match buildComponents f spec with
  | None => panic
  | Some (cs, q, s) =>
      r ← fetchStatuses cs status_zero;
      match r with
      | inl err => mret (inl err)
      | inr status => mret (inr (mkComponentManager cs q s status))
      end
  end.

(** The loop of [Sync]: [inl] is an early return, [inr] is [hasPending]. *)
Fixpoint syncComponents (cs : list (Component W)) (hasPending : bool)
    : M W ((Result * error) + bool) :=
  match cs with
  | [] => mret (inr hasPending)
  | c :: cs' =>
      '(status, err) ← cmp_Status c;
      match err with
      | Some err =>
          mret (inl (requeue, Some ("failed to get status for " +:+ cmp_GetName c +:+ ": " +:+ err)%string))
      | None =>
          if bool_decide (cst_SyncStatus status = SyncStatusPending)
             || bool_decide (cst_SyncStatus status = SyncStatusUpdating) then
            err ← cmp_Sync c;
            match err with
            | Some _ => mret (inl (requeue, err))
            | None => syncComponents cs' true
            end
          else syncComponents cs' hasPending
      end
  end.

Definition Manager_Sync (cm : ComponentManager W) : M W (Result * error) :=
  r ← syncComponents (allComponents cm) false;
  match r with
  | inl early => mret early
  | inr hasPending =>
      err ← UpdateStatus;
      match err with
      | Some _ => mret (requeue, err)
      | None =>
          if negb hasPending then mret (mkResult false 5, None) else mret (mkResult false 1, None)
      end
  end.

Definition needSync (cm : ComponentManager W) : bool := cms_needSync (cm_status cm).
Definition needInit (cm : ComponentManager W) : bool := cms_needInit (cm_status cm).
Definition needUpdate (cm : ComponentManager W) : slice (Component W) :=
  cms_needUpdate (cm_status cm).
Definition allReadyOrUpdating (cm : ComponentManager W) : bool :=
  cms_allReadyOrUpdating (cm_status cm).

Definition needQueryTrackerUpdate (cm : ComponentManager W) : M W bool :=
  match queryTrackerComponent cm with
  | None => mret false
  | Some q => IsUpdatingComponent q
  end.

Definition needSchedulerUpdate (cm : ComponentManager W) : M W bool :=
  match schedulerComponent cm with
  | None => mret false
  | Some s => IsUpdatingComponent s
  end.

Definition areComponentPodsRemoved (component : Component W) : M W bool :=
  IsUpdateStatusConditionTrue (GetPodsRemovedCondition (cmp_GetName component)).

Fixpoint arePodsRemoved_loop (cs : list (Component W)) : M W bool :=
  match cs with
  | [] => mret true
  | cmp :: cs' =>
      updating ← IsUpdatingComponent cmp;
      if (updating : bool) then
        removed ← areComponentPodsRemoved cmp;
        if negb removed then mret false else arePodsRemoved_loop cs'
      else arePodsRemoved_loop cs'
  end.

Definition arePodsRemoved (cm : ComponentManager W) : M W bool :=
  arePodsRemoved_loop (allComponents cm).
End Manager.

(** ** What a run of the status loop observes *)

Section Observed.
Context {H E : Type} `{K : Kube E} `{CM : ConditionMeta}.
Local Abbreviation W := (World H E).

(** [observed cs w ss w']: from [w], the components [cs] in order were
    fetched and reported the statuses [ss] without error, leaving [w']. *)
Inductive observed : list (Component W) -> W -> list SyncStatus -> W -> Prop :=
| observed_nil w : observed [] w [] w
| observed_cons c cs w w1 st w2 w3 ss w' :
    cmp_Fetch c w = Some (None, w1) ->
    cmp_Status c w1 = Some ((st, None), w2) ->
    cmp_SetReadyCondition c st w2 = Some (tt, w3) ->
    observed cs w3 ss w' ->
    observed (c :: cs) w (cst_SyncStatus st :: ss) w'.

(** The flags, as functions of the observed statuses. *)
Definition needing_update (cs : list (Component W)) (ss : list SyncStatus) : list (Component W) :=
  (List.filter (fun p => bool_decide (p.2 = SyncStatusNeedLocalUpdate)) (zip cs ss)).*1.

Definition summary (cs : list (Component W)) (ss : list SyncStatus) : ComponentManagerStatus W :=
  mkComponentManagerStatus
    (existsb (fun s => negb (bool_decide (s = SyncStatusReady))) ss)
    (existsb (fun s => negb (IsRunningStatus s)) ss)
    (match needing_update cs ss with [] => None | l => Some l end)
    (forallb (fun s => bool_decide (s = SyncStatusReady) || bool_decide (s = SyncStatusUpdating)) ss).

(** Flags accumulated on top of earlier ones. *)
Definition merge (a b : ComponentManagerStatus W) : ComponentManagerStatus W :=
  mkComponentManagerStatus (cms_needSync a || cms_needSync b) (cms_needInit a || cms_needInit b)
    (match cms_needUpdate b with
     | None => cms_needUpdate a
     | Some l => Some (elems (cms_needUpdate a) ++ l)
     end)
    (cms_allReadyOrUpdating a && cms_allReadyOrUpdating b).

Lemma merge_nil a : merge a (summary [] []) = a.
Proof. destruct a. unfold merge; simpl. by rewrite !orb_false_r, andb_true_r. Qed.

Lemma merge_zero a : merge status_zero a = a.
Proof. destruct a as [? ? [l|] ?]; reflexivity. Qed.

Lemma merge_add a c s cs ss :
  merge (add_status a c s) (summary cs ss) = merge a (summary (c :: cs) (s :: ss)).
Proof.
  unfold merge, summary, add_status, needing_update; simpl. f_equal.
  - by rewrite orb_assoc.
  - by rewrite orb_assoc.
  - destruct s; simpl; try reflexivity.
    destruct (List.filter _ _); simpl; unfold go_append; f_equal.
    rewrite <- (assoc_L (++)). reflexivity.
  - rewrite <- andb_assoc. by destruct s.
Qed.

Lemma fetchStatuses_iff cs a w st w' :
  fetchStatuses cs a w = Some (inr st, w') <->
  exists ss, observed cs w ss w' /\ st = merge a (summary cs ss).
Proof.
  revert a w. induction cs as [|c cs IH]; intros a w; simpl.
  - split.
    + intros [= <- <-]. exists []. split; [constructor|by rewrite merge_nil].
    + intros (ss & Ho & ->). inversion Ho; subst. by rewrite merge_nil.
  - split.
    + intros (err & w1 & Hf & Hrun)%bind_inv. destruct err; [done|].
      apply bind_inv in Hrun as ([cst err] & w2 & Hs & Hrun). destruct err; [done|].
      apply bind_inv in Hrun as ([] & w3 & Hr & Hrun). apply IH in Hrun as (ss & Ho & ->).
      exists (cst_SyncStatus cst :: ss). split; [by econstructor|]. by rewrite <- merge_add.
    + intros (ss & Ho & ->). inversion Ho as [|? ? ? w1 st w2 w3 ss' ? Hf Hs Hr Ho']; subst.
      rewrite (bind_step _ _ _ _ _ Hf), (bind_step _ _ _ _ _ Hs), (bind_step _ _ _ _ _ Hr).
      apply IH. exists ss'. split; [done|]. by rewrite <- merge_add.
Qed.

Lemma observed_length cs w ss w' : observed cs w ss w' -> length cs = length ss.
Proof. induction 1; simpl; congruence. Qed.

Lemma NewComponentManager_iff f w cm w' :
  NewComponentManager f w = Some (inr cm, w') <->
  exists cs q s ss, buildComponents f (yt_Spec (resource w)) = Some (cs, q, s) /\
    observed cs w ss w' /\ cm = mkComponentManager cs q s (summary cs ss).
Proof.
  unfold NewComponentManager. rewrite run_gets.
  destruct (buildComponents f _) as [[[cs q] s]|]; [|by split; [|intros (? & ? & ? & ? & ? & _)]].
  split.
  - intros (r & w1 & Hrun & Hret)%bind_inv. destruct r as [err|st]; [done|].
    injection Hret as <- <-. apply fetchStatuses_iff in Hrun as (ss & Ho & ->).
    exists cs, q, s, ss. by rewrite merge_zero.
  - intros (cs' & q' & s' & ss & [= <- <- <-] & Ho & ->).
    assert (fetchStatuses cs status_zero w = Some (inr (summary cs ss), w')) as Hrun.
    { apply fetchStatuses_iff. exists ss. by rewrite merge_zero. }
    by rewrite (bind_step _ _ _ _ _ Hrun).
Qed.

(** All running, one not ready: one needs an update. *)
Lemma existsb_negb {A} (p : A -> bool) l : existsb (fun x => negb (p x)) l = negb (forallb p l).
Proof. induction l as [|x l IH]; simpl; [done|]. by rewrite IH, negb_andb. Qed.

Lemma summary_needUpdate cs ss :
  length cs = length ss ->
  cms_needSync (summary cs ss) = true -> cms_needInit (summary cs ss) = false ->
  exists l, cms_needUpdate (summary cs ss) = Some l /\ l <> [].
Proof.
  intros Hlen. unfold summary; simpl. intros Hs Hi.
  enough (needing_update cs ss <> []) as Hne by (destruct (needing_update cs ss); eauto; done).
  unfold needing_update. revert cs Hlen.
  induction ss as [|s ss IH]; intros [|c cs]; simpl in *; try done.
  intros [= Hlen]. apply orb_false_iff in Hi as [Hi1 Hi2].
  destruct s; simpl in *; try done; eauto.
Qed.
End Observed.

(** ** The manager stays in the frame of its components *)

Section ManagerFrame.
Context {H E : Type} `{K : Kube E} `{CM : ConditionMeta} `{KL : !KubeLaws E K}.
Local Abbreviation W := (World H E).

Lemma fetchStatuses_frame cs (a : ComponentManagerStatus W) :
  Forall ComponentLaws cs -> preserves frame (fetchStatuses cs a).
Proof.
  intros Hcs. revert a. induction Hcs as [|c cs Hc Hcs IH]; intros a; simpl; solve_frame.
Qed.

Lemma syncComponents_frame cs (b : bool) :
  Forall (ComponentLaws (H:=H)) cs -> preserves frame (syncComponents cs b).
Proof.
  intros Hcs. revert b. induction Hcs as [|c cs Hc Hcs IH]; intros b; simpl; solve_frame.
Qed.

(** Every component the factory builds keeps its promise. *)
Definition FactoryLaws (f : Factory W) : Prop :=
  forall spec cs q s, buildComponents f spec = Some (cs, q, s) -> Forall ComponentLaws cs.

Lemma NewComponentManager_frame (f : Factory W) :
  FactoryLaws f -> preserves frame (NewComponentManager f).
Proof.
  intros Hf w r w' Hrun. unfold NewComponentManager in Hrun.
  apply bind_inv in Hrun as (spec & w1 & Hg & Hrun). injection Hg as <- <-.
  destruct (buildComponents f _) as [[[cs q] s]|] eqn:Hb; [|done].
  apply bind_inv in Hrun as (r1 & w2 & Hrun & Hret).
  assert (w2 = w') as -> by (destruct r1; by inversion Hret).
  eapply fetchStatuses_frame, Hrun. by eapply Hf.
Qed.
End ManagerFrame.

(** ** What holds of every constructor holds of every component *)

Record FactoryForall {W} (P : Component W -> Prop) (f : Factory W) : Prop := mkFactoryForall {
  ff_Discovery : P (NewDiscovery f);
  ff_Master : P (NewMaster f);
  ff_HTTPProxy : forall m s, P m -> P (NewHTTPProxy f m s);
  ff_YtsaurusClient : forall h, P h -> P (NewYtsaurusClient f h);
  ff_DataNode : forall m s, P m -> P (NewDataNode f m s);
  ff_UI : forall m, P m -> P (NewUI f m);
  ff_RPCProxy : forall m s, P m -> P (NewRPCProxy f m s);
  ff_TCPProxy : forall m s, P m -> P (NewTCPProxy f m s);
  ff_ExecNode : forall m s, P m -> P (NewExecNode f m s);
  ff_TabletNode : forall y s b, P y -> P (NewTabletNode f y s b);
  ff_Scheduler : forall m e t, P m -> Forall P e -> Forall P t -> P (NewScheduler f m e t);
  ff_ControllerAgent : forall m, P m -> P (NewControllerAgent f m);
  ff_QueryTracker : forall y t, P y -> Forall P t -> P (NewQueryTracker f y t);
  ff_QueueAgent : forall y m t, P y -> P m -> Forall P t -> P (NewQueueAgent f y m t);
  ff_YQLAgent : forall m, P m -> P (NewYQLAgent f m);
  ff_Strawberry : forall m s d, P m -> P s -> Forall P d -> P (NewStrawberryController f m s d);
  ff_MasterCache : P (NewMasterCache f);
}.

Lemma Forall_imap_first {A B} (P : B -> Prop) (g : A -> bool -> B) xs :
  (forall a b, P (g a b)) -> Forall P (imap_first g xs).
Proof.
  intros Hg. unfold imap_first. apply Forall_forall. intros x Hx.
  apply elem_of_lookup_imap in Hx as (i & a & -> & _). apply Hg.
Qed.

Lemma Forall_map_all {A B} (P : B -> Prop) (g : A -> B) xs : (forall a, P (g a)) -> Forall P (g <$> xs).
Proof. intros Hg. induction xs; constructor; auto. Qed.

Lemma buildComponents_Forall {W} (P : Component W -> Prop) f spec cs q s :
  FactoryForall P f -> buildComponents f spec = Some (cs, q, s) -> Forall P cs.
Proof.
  intros [] Hb. unfold buildComponents in Hb.
  destruct (sp_HTTPProxies spec) as [|hp hps]; [done|]. simpl in Hb. injection Hb as <- _ _.
  assert (Forall P (imap_first (NewTabletNode f (NewYtsaurusClient f (NewHTTPProxy f (NewMaster f) hp)))
    (sp_TabletNodes spec))) by (apply Forall_imap_first; auto).
  assert (Forall P (NewExecNode f (NewMaster f) <$> sp_ExecNodes spec)) by (apply Forall_map_all; auto).
  assert (Forall P (NewDataNode f (NewMaster f) <$> sp_DataNodes spec)) by (apply Forall_map_all; auto).
  assert (forall m, P m -> P (NewScheduler f m (NewExecNode f (NewMaster f) <$> sp_ExecNodes spec)
    (imap_first (NewTabletNode f (NewYtsaurusClient f (NewHTTPProxy f (NewMaster f) hp)))
      (sp_TabletNodes spec)))) by auto.
  change (list_fmap _ _ ?g ?l) with (g <$> l).
  repeat first [rewrite Forall_cons | rewrite Forall_app]. split_and!; auto using Forall_map_all.
  all: destruct (sp_Schedulers spec); repeat case_match; simplify_eq; simpl; repeat constructor; auto 8.
Qed.

(** ** A sample factory

    Used only to instantiate the parameter: every component is ready, except
    those of one type, which report the given status. *)
Module SampleFactory.
Import RefKube.
Section SampleFactory.
Context (t0 : ComponentType) (st0 : SyncStatus).
Local Abbreviation W := (World unit YtsaurusStatus).

Definition component (t : ComponentType) : Component W :=
  mkComponent _ (mret None) (mret None)
    (mret (SimpleStatus (if decide (t = t0) then st0 else SyncStatusReady), None))
    (ComponentType_string t) t (fun _ => mret tt) true.

Definition factory : Factory W :=
  mkFactory _ (component DiscoveryType) (component MasterType)
    (fun _ _ => component HttpProxyType) (fun _ => component YtsaurusClientType)
    (fun _ _ => component DataNodeType) (fun _ => component UIType)
    (fun _ _ => component RpcProxyType) (fun _ _ => component TcpProxyType)
    (fun _ _ => component ExecNodeType) (fun _ _ _ => component TabletNodeType)
    (fun _ _ _ => component SchedulerType) (fun _ => component ControllerAgentType)
    (fun _ _ => component QueryTrackerType) (fun _ _ _ => component QueueAgentType)
    (fun _ => component YqlAgentType) (fun _ _ _ => component StrawberryControllerType)
    (component MasterCacheType).

Lemma component_laws `{CM : ConditionMeta} t : ComponentLaws (component t).
Proof. split; intros; apply preserves_ret, _. Qed.

Lemma factory_laws `{CM : ConditionMeta} : FactoryLaws factory.
Proof.
  intros spec cs q s Hb. eapply buildComponents_Forall; [|exact Hb].
  split; intros; apply component_laws.
Qed.
End SampleFactory.
End SampleFactory.

(** ** One pass of [Sync] over the components *)

Section Synced.
Context {H E : Type} `{K : Kube E} `{CM : ConditionMeta}.
Local Abbreviation W := (World H E).

(** A component is driven exactly when it reports to be pending or updating. *)
Definition needs_driving (s : SyncStatus) : bool :=
  bool_decide (s = SyncStatusPending) || bool_decide (s = SyncStatusUpdating).

(** [synced cs w b w']: the components [cs] reported their statuses and those
    that need it were synchronised, all without error; [b] says whether there
    was one. *)
Inductive synced : list (Component W) -> W -> bool -> W -> Prop :=
| synced_nil w : synced [] w false w
| synced_skip c cs w st w1 b w' :
    cmp_Status c w = Some ((st, None), w1) -> needs_driving (cst_SyncStatus st) = false ->
    synced cs w1 b w' -> synced (c :: cs) w b w'
| synced_drive c cs w st w1 w2 b w' :
    cmp_Status c w = Some ((st, None), w1) -> needs_driving (cst_SyncStatus st) = true ->
    cmp_Sync c w1 = Some (None, w2) ->
    synced cs w2 b w' -> synced (c :: cs) w true w'.

Lemma syncComponents_iff cs p w b w' :
  syncComponents cs p w = Some (inr b, w') <-> exists b', synced cs w b' w' /\ b = p || b'.
Proof.
  revert p w. induction cs as [|c cs IH]; intros p w; simpl.
  - split.
    + intros [= <- <-]. exists false. by rewrite orb_false_r; split; [constructor|].
    + intros (b' & Hs & ->). inversion Hs; subst. by rewrite orb_false_r.
  - split.
    + intros ([st err] & w1 & Hst & Hrun)%bind_inv. destruct err; [done|].
      change (_ || _) with (needs_driving (cst_SyncStatus st)) in Hrun.
      destruct (needs_driving (cst_SyncStatus st)) eqn:Hn.
      * apply bind_inv in Hrun as (err & w2 & Hsy & Hrun). destruct err; [done|].
        apply IH in Hrun as (b' & Hs & ->). exists true. rewrite orb_true_r.
        split; [by econstructor|done].
      * apply IH in Hrun as (b' & Hs & ->). exists b'. split; [by econstructor|done].
    + intros (b' & Hs & ->).
      inversion Hs as [|? ? ? st w1 ? ? Hst Hn Hs'|? ? ? st w1 w2 ? ? Hst Hn Hsy Hs']; subst;
        rewrite (bind_step _ _ _ _ _ Hst);
        change (bool_decide _ || bool_decide _) with (needs_driving (cst_SyncStatus st)); rewrite Hn.
      * apply IH. eauto.
      * rewrite (bind_step _ _ _ _ _ Hsy). apply IH. exists b. by rewrite orb_true_r.
Qed.
End Synced.

(** ** Theorems *)

Section Theorems.
Context {H E : Type} `{K : Kube E} `{CM : ConditionMeta}.
Local Abbreviation W := (World H E).

(** C10. [NewComponentManager] succeeds exactly when every component of the
    specification is fetched and reports a status, in order, and then its
    flags say what they are named after: [needSync] that some component is
    not ready, [needInit] that some component is not running, [needUpdate]
    lists the components that need a local update (nil when there is none),
    and [allReadyOrUpdating] that all are ready or updating. *)
Theorem NewComponentManager_correct (f : Factory W) (w : W) (cm : ComponentManager W) (w' : W) :
  NewComponentManager f w = Some (inr cm, w') <->
  exists ss,
    buildComponents f (yt_Spec (resource w)) =
      Some (allComponents cm, queryTrackerComponent cm, schedulerComponent cm) /\
    observed (allComponents cm) w ss w' /\
    needSync cm = existsb (fun s => negb (bool_decide (s = SyncStatusReady))) ss /\
    needInit cm = existsb (fun s => negb (IsRunningStatus s)) ss /\
    needUpdate cm = match needing_update (allComponents cm) ss with [] => None | l => Some l end /\
    allReadyOrUpdating cm =
      forallb (fun s => bool_decide (s = SyncStatusReady) || bool_decide (s = SyncStatusUpdating)) ss.
Proof.
  rewrite NewComponentManager_iff. split.
  - intros (cs & q & s & ss & Hb & Ho & ->). by exists ss.
  - intros (ss & Hb & Ho & H1 & H2 & H3 & H4). destruct cm as [cs q s [b1 b2 u b3]].
    exists cs, q, s, ss. split; [done|]. split; [done|].
    unfold needSync, needInit, needUpdate, allReadyOrUpdating in *; simpl in *. by subst.
Qed.

(** The switch of a running cluster is exhaustive: when some component is not
    ready and all are running, some need an update, and they belong to the
    cluster. *)
Lemma running_switch_exhaustive (cs : list (Component W)) (w : W) (ss : list SyncStatus) (w' : W) :
  observed cs w ss w' ->
  forallb (fun s => bool_decide (s = SyncStatusReady)) ss = false -> forallb IsRunningStatus ss = true ->
  needing_update cs ss <> [] /\ forall c, c ∈ needing_update cs ss -> c ∈ cs.
Proof.
  intros Ho Hs Hi. split.
  - destruct (summary_needUpdate cs ss) as (l & Hl & Hne); [by eapply observed_length| | |].
    + simpl. by rewrite existsb_negb, Hs.
    + simpl. by rewrite existsb_negb, Hi.
    + simpl in Hl. by destruct (needing_update cs ss).
  - intros c Hc. unfold needing_update in Hc. apply list_elem_of_fmap in Hc as ([c' s'] & -> & Hin).
    apply list_elem_of_In, filter_In in Hin as [Hin _]. by apply list_elem_of_In, elem_of_zip_l in Hin.
Qed.

(** C12. One pass of the manager: [Manager_Sync] succeeds exactly when every
    component reports a status, those that are pending or updating, and only
    those, are synchronised, and the status is then saved; it asks to be
    called again after one second if some component was driven and after five
    if all are blocked. *)
Theorem Manager_Sync_correct (cm : ComponentManager W) (w : W) (r : Result) (w' : W) :
  Manager_Sync cm w = Some ((r, None), w') <->
  exists b w1, synced (allComponents cm) w b w1 /\ UpdateStatus w1 = Some (None, w') /\
    r = mkResult false (if b then 1 else 5).
Proof.
  unfold Manager_Sync. split.
  - intros (res & w1 & Hrun & Hret)%bind_inv. destruct res as [[early e]|b].
    { injection Hret as -> -> ->. exfalso. revert Hrun. generalize false.
      generalize (allComponents cm) w. clear.
      induction l as [|c cs IH]; intros w b; simpl; [done|].
      intros ([st err] & w1 & Hst & Hrun)%bind_inv. destruct err; [done|].
      case_match; [|by eapply IH]. apply bind_inv in Hrun as (err & w2 & Hsy & Hrun).
      destruct err; [done|by eapply IH]. }
    apply syncComponents_iff in Hrun as (b' & Hs & ->). simpl in Hret.
    apply bind_inv in Hret as (err & w2 & Hup & Hret). destruct err; [by destruct b'|].
    exists b', w1. destruct b'; simpl in Hret; injection Hret as <- <-; done.
  - intros (b & w1 & Hs & Hup & ->).
    assert (syncComponents (allComponents cm) false w = Some (inr b, w1)) as Hrun.
    { apply syncComponents_iff. by exists b. }
    rewrite (bind_step _ _ _ _ _ Hrun), (bind_step _ _ _ _ _ Hup). by destruct b.
Qed.
End Theorems.
