(* ===== verification/Sync.v ===== *)
(** * The reconciler: controllers/sync.go

    One handler per update flow, each a switch on the update state, and
    [Sync], the switch on the cluster state that one reconciliation runs. *)

From S2P Require Import Prelude Api Kube Conditions Samples UpdateFlow Labeller Proxy Component Manager.

Section Sync.
Context {H E : Type} `{K : Kube E} `{CM : ConditionMeta}.
Local Abbreviation W := (World H E).
Implicit Types cm componentManager : ComponentManager W.

(** "ytsaurus.LogUpdate(message); err := ytsaurus.SaveUpdateState(state);
    return &result, err". *)
Definition save_update (message : string) (state : UpdateState) (result : Result)
    : M W (option Result * error) :=
  _ ← LogUpdate message;
  err ← SaveUpdateState state;
  mret (Some result, err).

(** The same with [SaveClusterState]. *)
Definition save_cluster (message : string) (state : ClusterState)
    : M W (option Result * error) :=
  _ ← LogUpdate message;
  err ← SaveClusterState state;
  mret (Some requeue, err).

(** "return nil, nil": wait. *)
Definition wait : M W (option Result * error) := mret (None, None).

(** [if ytsaurus.IsUpdateStatusConditionTrue(condition) { then }]. *)
Definition when_condition (condition : string) (th : M W (option Result * error))
    : M W (option Result * error) :=
  c ← IsUpdateStatusConditionTrue condition;
  if (c : bool) then th else wait.

(** The case of [UpdateStatePossibilityCheck], shared by three handlers:
    [next] is the state after a successful check. *)
Definition possibility_check (next : UpdateState) : M W (option Result * error) :=
  has ← IsUpdateStatusConditionTrue ConditionHasPossibility;
  if (has : bool) then save_update "Waiting for safe mode enabled" next requeue
  else when_condition ConditionNoPossibility
         (save_update "Update is impossible, need to apply previous images"
            UpdateStateImpossibleToStart requeue).

(** The case of [UpdateStateImpossibleToStart]. *)
Definition impossible_to_start cm : M W (option Result * error) :=
  y ← GetResource;
  if negb (needSync cm) || negb (sp_EnableFullUpdate (yt_Spec y)) then
    save_cluster "Spec changed back or full update isn't enabled, update is canceling"
      ClusterStateCancelUpdate
  else wait.

Definition pods_removal cm : M W (option Result * error) :=
  removed ← arePodsRemoved cm;
  if (removed : bool) then
    save_update "Waiting for pods creation" UpdateStateWaitingForPodsCreation requeue
  else wait.

(** [time.Second * 7] after the pods were recreated. *)
Definition pods_creation cm (next : UpdateState) : M W (option Result * error) :=
  if allReadyOrUpdating cm then
    save_update "All components were recreated" next (mkResult false 7)
  else wait.

(** The case of [UpdateStateWaitingForOpArchiveUpdatingPrepare]; Go's [||]
    reads the condition only when a scheduler update is needed. *)
Definition op_archive_prepare cm : M W (option Result * error) :=
  need ← needSchedulerUpdate cm;
  skip ← (if (need : bool) then IsUpdateStatusConditionTrue ConditionNotNecessaryToUpdateOpArchive
          else mret true);
  if (skip : bool) then
    _ ← LogUpdate "Operations archive update was skipped";
    save_update "Waiting for query tracker state prepare for updating"
      UpdateStateWaitingForQTStateUpdatingPrepare requeue
  else
    when_condition ConditionOpArchivePreparedForUpdating
      (save_update "Waiting for operations archive updating to finish"
         UpdateStateWaitingForOpArchiveUpdate requeue).

Definition op_archive_update : M W (option Result * error) :=
  when_condition ConditionOpArchiveUpdated
    (save_update "Waiting for query tracker state prepare for updating"
       UpdateStateWaitingForQTStateUpdatingPrepare requeue).

Definition handleEverything cm : M W (option Result * error) :=
  state ← GetUpdateState;
  match state with
  | UpdateStateNone =>
      save_update "Checking the possibility of updating" UpdateStatePossibilityCheck requeue
  | UpdateStatePossibilityCheck => possibility_check UpdateStateWaitingForSafeModeEnabled
  | UpdateStateImpossibleToStart => impossible_to_start cm
  | UpdateStateWaitingForSafeModeEnabled =>
      when_condition ConditionSafeModeEnabled
        (save_update "Waiting for tablet cells saving"
           UpdateStateWaitingForTabletCellsSaving requeue)
  | UpdateStateWaitingForTabletCellsSaving =>
      when_condition ConditionTabletCellsSaved
        (save_update "Waiting for tablet cells removing to start"
           UpdateStateWaitingForTabletCellsRemovingStart requeue)
  | UpdateStateWaitingForTabletCellsRemovingStart =>
      when_condition ConditionTabletCellsRemovingStarted
        (save_update "Waiting for tablet cells removing to finish"
           UpdateStateWaitingForTabletCellsRemoved requeue)
  | UpdateStateWaitingForTabletCellsRemoved =>
      when_condition ConditionTabletCellsRemoved
        (save_update "Waiting for snapshots" UpdateStateWaitingForSnapshots requeue)
  | UpdateStateWaitingForSnapshots =>
      when_condition ConditionSnaphotsSaved
        (save_update "Waiting for pods removal" UpdateStateWaitingForPodsRemoval requeue)
  | UpdateStateWaitingForPodsRemoval => pods_removal cm
  | UpdateStateWaitingForPodsCreation =>
      pods_creation cm UpdateStateWaitingForMasterExitReadOnly
  | UpdateStateWaitingForMasterExitReadOnly =>
      when_condition ConditionMasterExitedReadOnly
        (save_update "Masters exited read-only state"
           UpdateStateWaitingForTabletCellsRecovery requeue)
  | UpdateStateWaitingForTabletCellsRecovery =>
      when_condition ConditionTabletCellsRecovered
        (save_update "Waiting for operations archive prepare for updating"
           UpdateStateWaitingForOpArchiveUpdatingPrepare requeue)
  | UpdateStateWaitingForOpArchiveUpdatingPrepare => op_archive_prepare cm
  | UpdateStateWaitingForOpArchiveUpdate => op_archive_update
  | UpdateStateWaitingForQTStateUpdatingPrepare =>
      need ← needQueryTrackerUpdate cm;
      if negb need then
        _ ← LogUpdate "Query tracker state update was skipped";
        save_update "Waiting for safe mode disabled" UpdateStateWaitingForSafeModeDisabled requeue
      else
        when_condition ConditionQTStatePreparedForUpdating
          (save_update "Waiting for query tracker state updating to finish"
             UpdateStateWaitingForQTStateUpdate requeue)
  | UpdateStateWaitingForQTStateUpdate =>
      when_condition ConditionQTStateUpdated
        (save_update "Waiting for safe mode disabled" UpdateStateWaitingForSafeModeDisabled requeue)
  | UpdateStateWaitingForSafeModeDisabled =>
      when_condition ConditionSafeModeDisabled
        (save_cluster "Finishing" ClusterStateUpdateFinishing)
  | UpdateStateOther _ => wait
  end.

(** The case of [UpdateStateWaitingForPodsCreation] of [handleStateless]. *)
Definition stateless_pods_creation cm : M W (option Result * error) :=
  if allReadyOrUpdating cm then
    _ ← LogUpdate "All components were recreated";
    save_update "Waiting for operations archive prepare for updating"
      UpdateStateWaitingForOpArchiveUpdatingPrepare requeue
  else wait.

Definition handleStateless cm : M W (option Result * error) :=
  state ← GetUpdateState;
  match state with
  | UpdateStateNone =>
      save_update "Waiting for pods removal" UpdateStateWaitingForPodsRemoval requeue
  | UpdateStateWaitingForPodsRemoval => pods_removal cm
  | UpdateStateWaitingForPodsCreation => stateless_pods_creation cm
  | UpdateStateWaitingForOpArchiveUpdatingPrepare => op_archive_prepare cm
  | UpdateStateWaitingForOpArchiveUpdate => op_archive_update
  | UpdateStateWaitingForQTStateUpdatingPrepare =>
      need ← needQueryTrackerUpdate cm;
      if negb need then
        _ ← LogUpdate "Query tracker state update was skipped";
        save_cluster "Finishing" ClusterStateUpdateFinishing
      else
        when_condition ConditionQTStatePreparedForUpdating
          (save_update "Waiting for query tracker state updating to finish"
             UpdateStateWaitingForQTStateUpdate requeue)
  | UpdateStateWaitingForQTStateUpdate =>
      when_condition ConditionQTStateUpdated
        (save_cluster "Finishing" ClusterStateUpdateFinishing)
  | _ => wait
  end.

Definition handleMasterOnly cm : M W (option Result * error) :=
  state ← GetUpdateState;
  match state with
  | UpdateStateNone =>
      save_update "Checking the possibility of updating" UpdateStatePossibilityCheck requeue
  | UpdateStatePossibilityCheck => possibility_check UpdateStateWaitingForSafeModeEnabled
  | UpdateStateImpossibleToStart => impossible_to_start cm
  | UpdateStateWaitingForSafeModeEnabled =>
      when_condition ConditionSafeModeEnabled
        (save_update "Waiting for tablet cells saving" UpdateStateWaitingForSnapshots requeue)
  | UpdateStateWaitingForSnapshots =>
      when_condition ConditionSnaphotsSaved
        (save_update "Waiting for pods removal" UpdateStateWaitingForPodsRemoval requeue)
  | UpdateStateWaitingForPodsRemoval => pods_removal cm
  | UpdateStateWaitingForPodsCreation =>
      pods_creation cm UpdateStateWaitingForMasterExitReadOnly
  | UpdateStateWaitingForMasterExitReadOnly =>
      when_condition ConditionMasterExitedReadOnly
        (save_update "Masters exited read-only state"
           UpdateStateWaitingForSafeModeDisabled requeue)
  | UpdateStateWaitingForSafeModeDisabled =>
      when_condition ConditionSafeModeDisabled
        (save_cluster "Finishing" ClusterStateUpdateFinishing)
  | _ => wait
  end.

Definition handleTabletNodesOnly cm : M W (option Result * error) :=
  state ← GetUpdateState;
  match state with
  | UpdateStateNone =>
      save_update "Checking the possibility of updating" UpdateStatePossibilityCheck requeue
  | UpdateStatePossibilityCheck => possibility_check UpdateStateWaitingForTabletCellsSaving
  | UpdateStateImpossibleToStart => impossible_to_start cm
  | UpdateStateWaitingForTabletCellsSaving =>
      when_condition ConditionTabletCellsSaved
        (save_update "Waiting for tablet cells removing to start"
           UpdateStateWaitingForTabletCellsRemovingStart requeue)
  | UpdateStateWaitingForTabletCellsRemovingStart =>
      when_condition ConditionTabletCellsRemovingStarted
        (save_update "Waiting for tablet cells removing to finish"
           UpdateStateWaitingForTabletCellsRemoved requeue)
  | UpdateStateWaitingForTabletCellsRemoved =>
      when_condition ConditionTabletCellsRemoved
        (save_update "Waiting for snapshots" UpdateStateWaitingForPodsRemoval requeue)
  | UpdateStateWaitingForPodsRemoval => pods_removal cm
  | UpdateStateWaitingForPodsCreation =>
      pods_creation cm UpdateStateWaitingForTabletCellsRecovery
  | UpdateStateWaitingForTabletCellsRecovery =>
      when_condition ConditionTabletCellsRecovered
        (save_cluster "Finishing" ClusterStateUpdateFinishing)
  | _ => wait
  end.

(** [ClusterStateCancelUpdate] and [ClusterStateUpdateFinishing]: reset the
    update status, then run again; every step is saved on its own. *)
Definition finish_update : M W (Result * error) :=
  err ← SaveUpdateState UpdateStateNone;
  match err with
  | Some _ => mret (requeue, err)
  | None =>
      err ← ClearUpdateStatus;
      match err with
      | Some _ => mret (requeue, err)
      | None => err ← SaveClusterState ClusterStateRunning; mret (Result_zero, err)
      end
  end.

(** The inner switch of [Sync] on the update flow; an unknown flow leaves
    the result nil. *)
Definition handle_flow cm : M W (option Result * error) :=
  f ← GetUpdateFlow;
  match f with
  | UpdateFlowFull => handleEverything cm
  | UpdateFlowStateless => handleStateless cm
  | UpdateFlowMaster => handleMasterOnly cm
  | UpdateFlowTabletNodes => handleTabletNodesOnly cm
  | UpdateFlowNone | UpdateFlowOther _ => wait
  end.

(** The case of [ClusterStateRunning]; [None] falls through to the
    component manager. *)
Definition sync_running cm : M W (option (Result * error)) :=
  if negb (needSync cm) then mret (Some (Result_zero, None))
  else if needInit cm then
    err ← SaveClusterState ClusterStateReconfiguration; mret (Some (requeue, err))
  else if negb (is_nil (needUpdate cm)) then
    y ← GetResource;
    let '(meta, blockMsg) :=
      chooseUpdateFlow cmp_GetType cmp_GetName (yt_Spec y) (needUpdate cm) in
    if negb (bool_decide (blockMsg = "")) then mret (Some (requeue, None))
    else
      err ← SaveUpdatingClusterState (flow meta) (componentNames meta);
      match err with
      | Some _ => mret (Some (Result_zero, err))
      | None => mret (Some (requeue, None))
      end
  else mret None.

(** The switch of [Sync] on the cluster state. *)
Definition sync_state cm : M W (option (Result * error)) :=
  state ← GetClusterState;
  match state with
  | ClusterStateCreated =>
      err ← SaveClusterState ClusterStateInitializing; mret (Some (requeue, err))
  | ClusterStateInitializing =>
      if negb (needSync cm) then
        err ← SaveClusterState ClusterStateRunning; mret (Some (requeue, err))
      else mret None
  | ClusterStateRunning => sync_running cm
  | ClusterStateUpdating =>
      '(result, err) ← handle_flow cm;
      match result with
      | Some result => mret (Some (result, err))
      | None => mret None
      end
  | ClusterStateCancelUpdate | ClusterStateUpdateFinishing =>
      r ← finish_update; mret (Some r)
  | ClusterStateReconfiguration =>
      if negb (needInit cm) then
        err ← SaveClusterState ClusterStateRunning; mret (Some (Result_zero, err))
      else mret None
  | ClusterStateOther _ => mret None
  end.

(** [YtsaurusReconciler.Sync]. *)
Definition Sync (f : Factory W) : M W (Result * error) :=
  y ← GetResource;
  if negb (sp_IsManaged (yt_Spec y)) then mret (mkResult false 60, None)
  else
    r ← NewComponentManager f;
    match r with
    | inl err => mret (requeue, Some err)
    | inr componentManager =>
        r ← sync_state componentManager;
        match r with
        | Some r => mret r
        | None => Manager_Sync componentManager
        end
    end.
End Sync.

(** ** What a reconciliation decides outside an update *)

Section Decisions.
Context {H E : Type} `{K : Kube E} `{CM : ConditionMeta}.
Context `{KL : !KubeLaws E K} `{CL : !ConditionMetaLaws CM}.
Local Abbreviation W := (World H E).

(** [m] sends the status of [w], and answers with an error if that failed. *)
Definition sends (m : option ((Result * error) * W)) (w : W) (res res_err : Result) : Prop :=
  exists err w', m = Some ((match err with None => res | Some _ => res_err end, err), w') /\ saved w err w'.

Definition all_ready (ss : list SyncStatus) : bool := forallb (fun s => bool_decide (s = SyncStatusReady)) ss.

(** A case of the switch that saves a cluster state. *)
Lemma save_assoc s res (w : W) (k : M W (Result * error)) :
  sends ((r ← (err ← SaveClusterState s; mret (Some (res, err)));
          match r with Some r => mret r | None => k end) w)
    (set_status (set_st_State s) w) res res.
Proof.
  destruct (SaveClusterState_saved s w) as (err & w' & Hrun & Hs). exists err, w'.
  rewrite run_assoc, (bind_step _ _ _ _ _ Hrun). by destruct err.
Qed.

(** [Sync] of a managed cluster whose components were observed. *)
Lemma Sync_observed f (w w1 : W) cs q s ss :
  sp_IsManaged (yt_Spec (resource w)) = true ->
  buildComponents f (yt_Spec (resource w)) = Some (cs, q, s) -> observed cs w ss w1 ->
  let cm := mkComponentManager cs q s (summary cs ss) in
  Sync f w = (r ← sync_state cm; match r with Some r => mret r | None => Manager_Sync cm end) w1.
Proof.
  intros Hm Hb Ho cm. unfold Sync, GetResource. rewrite run_gets, Hm. cbn [negb].
  assert (NewComponentManager f w = Some (inr cm, w1)) as Hnew.
  { apply NewComponentManager_iff. by exists cs, q, s, ss. }
  by rewrite (bind_step _ _ _ _ _ Hnew).
Qed.

(** The case of a running cluster, with the specification of the choice. *)
Lemma sync_running_decides cs q s ss (w w1 : W) :
  observed cs w ss w1 ->
  let cm := mkComponentManager cs q s (summary cs ss) in
  let spec := yt_Spec (resource w1) in
  let rest := (r ← sync_running cm; match r with Some r => mret r | None => Manager_Sync cm end) w1 in
  let chosen := needing_update cs ss in
  if all_ready ss then rest = Some ((Result_zero, None), w1)
  else if negb (forallb IsRunningStatus ss) then
    sends rest (set_status (set_st_State ClusterStateReconfiguration) w1) requeue requeue
  else
    chosen <> [] /\ (forall c, c ∈ chosen -> c ∈ cs) /\
    match flow_spec cmp_GetType cmp_GetName (sp_UpdateSelector spec) (sp_EnableFullUpdate spec) chosen with
    | None => rest = Some ((requeue, None), w1)
    | Some (fl, names) =>
        sends rest
          (set_updateStatus (set_us_Components names) (set_updateStatus (set_us_Flow fl)
             (set_status (set_st_State ClusterStateUpdating) w1))) requeue Result_zero
    end.
Proof.
  intros Ho cm spec rest chosen. subst rest. unfold sync_running.
  assert (needSync cm = negb (all_ready ss)) as -> by apply existsb_negb.
  assert (needInit cm = negb (forallb IsRunningStatus ss)) as -> by apply existsb_negb.
  destruct (all_ready ss) eqn:Hs; [reflexivity|]. cbn [negb].
  destruct (forallb IsRunningStatus ss) eqn:Hi; cbn [negb].
  2: { apply save_assoc. }
  destruct (running_switch_exhaustive _ _ _ _ Ho Hs Hi) as [Hne Hin]. split; [done|]. split; [done|].
  assert (needUpdate cm = Some chosen) as ->.
  { unfold needUpdate, cm, chosen in *; simpl. by destruct (needing_update cs ss). }
  cbn [is_nil negb]. rewrite run_assoc. unfold GetResource. rewrite run_gets.
  rewrite <- chooseUpdateFlow_ok. fold spec.
  destruct (chooseUpdateFlow _ _ spec _) as [meta msg]. unfold choice; cbn [fst snd].
  destruct (decide (msg = "")) as [->|Hmsg].
  - destruct (SaveUpdatingClusterState_saved (flow meta) (componentNames meta) w1) as (err & w' & Hrun & Hsv).
    exists err, w'. rewrite bool_decide_eq_true_2 by done. cbn [negb]. rewrite run_assoc, (bind_step _ _ _ _ _ Hrun). by destruct err.
  - by rewrite bool_decide_eq_false_2.
Qed.

(** C11. A reconciliation outside an update decides from what the components
    report, and does nothing else.  A created cluster starts to initialise.  An
    initialising one is running once every component is ready; until then, like
    a reconfigured one while some component is not running, its components are
    synchronised.  A running cluster whose components are all ready is left
    alone; one with a component that is not running is reconfigured; otherwise
    some components need an update, and either the selector admits one, and the
    update starts with the flow and the components the specification of the
    choice names, or the cluster waits.  Each change of the cluster state is
    saved. *)
Theorem cluster_decisions (f : Factory W) (w w1 : W) (cs : list (Component W))
    (q s : option (Component W)) (ss : list SyncStatus)
    (Hf : FactoryLaws f) (Hmanaged : sp_IsManaged (yt_Spec (resource w)) = true)
    (Hb : buildComponents f (yt_Spec (resource w)) = Some (cs, q, s)) (Ho : observed cs w ss w1) :
  let spec := yt_Spec (resource w) in
  let goes state := sends (Sync f w) (set_status (set_st_State state) w1) in
  let synchronises := Sync f w = Manager_Sync (mkComponentManager cs q s (summary cs ss)) w1 in
  let chosen := needing_update cs ss in
  match st_State (status w) with
  | ClusterStateCreated => goes ClusterStateInitializing requeue requeue
  | ClusterStateInitializing =>
      if all_ready ss then goes ClusterStateRunning requeue requeue else synchronises
  | ClusterStateReconfiguration =>
      if forallb IsRunningStatus ss then goes ClusterStateRunning Result_zero Result_zero else synchronises
  | ClusterStateRunning =>
      if all_ready ss then Sync f w = Some ((Result_zero, None), w1)
      else if negb (forallb IsRunningStatus ss) then goes ClusterStateReconfiguration requeue requeue
      else
        chosen <> [] /\ (forall c, c ∈ chosen -> c ∈ cs) /\
        match flow_spec cmp_GetType cmp_GetName (sp_UpdateSelector spec) (sp_EnableFullUpdate spec) chosen with
        | None => Sync f w = Some ((requeue, None), w1)
        | Some (fl, names) =>
            sends (Sync f w)
              (set_updateStatus (set_us_Components names) (set_updateStatus (set_us_Flow fl)
                 (set_status (set_st_State ClusterStateUpdating) w1))) requeue Result_zero
        end
  | _ => True
  end.
Proof.
  intros spec goes synchronises chosen. unfold goes, synchronises, spec, chosen.
  assert (control w1 = control w) as Hc.
  { eapply (NewComponentManager_frame f Hf w). apply NewComponentManager_iff. by exists cs, q, s, ss. }
  unfold control in Hc. injection Hc as _ _ _ Hfull Hsel Hst _ _ _ _.
  rewrite <- Hst, <- Hfull, <- Hsel.
  rewrite (Sync_observed f w w1 cs q s ss) by done. unfold sync_state, GetClusterState. rewrite run_assoc, run_gets.
  destruct (st_State (status w1)) eqn:Hs1; try exact I.
  - apply save_assoc.
  - change (needSync _) with (existsb (fun s => negb (bool_decide (s = SyncStatusReady))) ss).
    rewrite existsb_negb, negb_involutive. fold (all_ready ss). destruct (all_ready ss); [apply save_assoc|done].
  - by apply sync_running_decides with w.
  - change (needInit _) with (existsb (fun s => negb (IsRunningStatus s)) ss).
    rewrite existsb_negb, negb_involutive. destruct (forallb IsRunningStatus ss); [apply save_assoc|done].
Qed.
End Decisions.

(** ** Witness: a running cluster whose masters need an update *)

Import RefKube RefMeta.

Module DecisionWitness.
Definition factory : Factory (World unit YtsaurusStatus) :=
  SampleFactory.factory MasterType SyncStatusNeedLocalUpdate.
Definition world : World unit YtsaurusStatus :=
  mkWorld (sample_Ytsaurus ClusterStateRunning) tt (sample_Status ClusterStateRunning).
Definition types : list ComponentType :=
  [DiscoveryType; MasterType; YtsaurusClientType; DataNodeType; HttpProxyType; TabletNodeType; SchedulerType;
   ControllerAgentType].
Definition component : ComponentType -> Component (World unit YtsaurusStatus) :=
  SampleFactory.component MasterType SyncStatusNeedLocalUpdate.
Definition status_of (t : ComponentType) : SyncStatus :=
  if decide (t = MasterType) then SyncStatusNeedLocalUpdate else SyncStatusReady.

Lemma observed_sample ts : observed (map component ts) world (map status_of ts) world.
Proof.
  induction ts as [|t ts IH]; [constructor|].
  exact (observed_cons (component t) _ _ _ (SimpleStatus (status_of t)) _ _ _ _ eq_refl eq_refl eq_refl IH).
Qed.
End DecisionWitness.

Lemma cluster_decisions_witness :
  sends (Sync DecisionWitness.factory DecisionWitness.world)
    (set_updateStatus (set_us_Components None)
       (set_updateStatus (set_us_Flow UpdateFlowFull)
          (set_status (set_st_State ClusterStateUpdating) DecisionWitness.world))) requeue Result_zero.
Proof.
  exact (proj2 (proj2 (cluster_decisions DecisionWitness.factory DecisionWitness.world
    DecisionWitness.world (map DecisionWitness.component DecisionWitness.types)
    None (Some (DecisionWitness.component SchedulerType))
    (map DecisionWitness.status_of DecisionWitness.types) (SampleFactory.factory_laws _ _) eq_refl eq_refl
    (DecisionWitness.observed_sample _)))).
Defined.
