(* ===== verification/Flows.v ===== *)
(** * The update flows as lists of phases

    The specification the handlers of [Sync] implement: a flow is a list of
    phases, each with the condition that completes it; the update moves to
    the next phase when the current one is completed, and finishes after the
    last.  [handle_flow_refines] shows that the four handlers are this
    machine, with every move saved to the API server. *)

From S2P Require Import Prelude Api Kube Conditions UpdateFlow Labeller Proxy Component Manager Sync.

(** What a handler can see: the update conditions, the flags of the component
    manager and the specification. *)
Record facts := mkFacts {
  fact_condition : string -> bool;
  fact_needSync : bool;
  fact_fullUpdate : bool;
  fact_podsRemoved : bool;
  fact_allReadyOrUpdating : bool;
  fact_schedulerUpdating : bool;
  fact_queryTrackerUpdating : bool;
}.

(** A phase is completed when [ph_done] holds; when [ph_skip] holds, the next
    phase is skipped as well. *)
Record phase := mkPhase {
  ph_state : UpdateState;
  ph_done : facts -> bool;
  ph_skip : facts -> bool;
}.

Definition never (_ : facts) : bool := false.
Definition always (_ : facts) : bool := true.
Definition on (c : string) (x : facts) : bool := fact_condition x c.

Definition simple (s : UpdateState) (c : string) : phase := mkPhase s (on c) never.

Definition ph_start := mkPhase UpdateStateNone always never.
Definition ph_check := simple UpdateStatePossibilityCheck ConditionHasPossibility.
Definition ph_safe_mode := simple UpdateStateWaitingForSafeModeEnabled ConditionSafeModeEnabled.
Definition ph_cells_saving := simple UpdateStateWaitingForTabletCellsSaving ConditionTabletCellsSaved.
Definition ph_cells_removing :=
  simple UpdateStateWaitingForTabletCellsRemovingStart ConditionTabletCellsRemovingStarted.
Definition ph_cells_removed :=
  simple UpdateStateWaitingForTabletCellsRemoved ConditionTabletCellsRemoved.
Definition ph_snapshots := simple UpdateStateWaitingForSnapshots ConditionSnaphotsSaved.
Definition ph_pods_removal := mkPhase UpdateStateWaitingForPodsRemoval fact_podsRemoved never.
Definition ph_pods_creation :=
  mkPhase UpdateStateWaitingForPodsCreation fact_allReadyOrUpdating never.
Definition ph_exit_read_only :=
  simple UpdateStateWaitingForMasterExitReadOnly ConditionMasterExitedReadOnly.
Definition ph_cells_recovery :=
  simple UpdateStateWaitingForTabletCellsRecovery ConditionTabletCellsRecovered.
Definition ph_op_prepare :=
  mkPhase UpdateStateWaitingForOpArchiveUpdatingPrepare (on ConditionOpArchivePreparedForUpdating)
    (fun x => negb (fact_schedulerUpdating x) ||
              fact_condition x ConditionNotNecessaryToUpdateOpArchive).
Definition ph_op_update := simple UpdateStateWaitingForOpArchiveUpdate ConditionOpArchiveUpdated.
Definition ph_qt_prepare :=
  mkPhase UpdateStateWaitingForQTStateUpdatingPrepare (on ConditionQTStatePreparedForUpdating)
    (fun x => negb (fact_queryTrackerUpdating x)).
Definition ph_qt_update := simple UpdateStateWaitingForQTStateUpdate ConditionQTStateUpdated.
Definition ph_safe_mode_off :=
  simple UpdateStateWaitingForSafeModeDisabled ConditionSafeModeDisabled.

(** The phases of the flows. *)
Definition phases (f : UpdateFlow) : list phase :=
  match f with
  | UpdateFlowFull =>
      [ph_start; ph_check; ph_safe_mode; ph_cells_saving; ph_cells_removing; ph_cells_removed;
       ph_snapshots; ph_pods_removal; ph_pods_creation; ph_exit_read_only; ph_cells_recovery;
       ph_op_prepare; ph_op_update; ph_qt_prepare; ph_qt_update; ph_safe_mode_off]
  | UpdateFlowStateless =>
      [ph_start; ph_pods_removal; ph_pods_creation; ph_op_prepare; ph_op_update; ph_qt_prepare;
       ph_qt_update]
  | UpdateFlowMaster =>
      [ph_start; ph_check; ph_safe_mode; ph_snapshots; ph_pods_removal; ph_pods_creation;
       ph_exit_read_only; ph_safe_mode_off]
  | UpdateFlowTabletNodes =>
      [ph_start; ph_check; ph_cells_saving; ph_cells_removing; ph_cells_removed; ph_pods_removal;
       ph_pods_creation; ph_cells_recovery]
  | UpdateFlowNone | UpdateFlowOther _ => []
  end.

(** The phases from state [s] on. *)
Fixpoint phases_from (s : UpdateState) (l : list phase) : list phase :=
  match l with
  | [] => []
  | p :: l' => if decide (ph_state p = s) then l else phases_from s l'
  end.

(** Where a move leads. *)
Inductive move := ToUpdate (s : UpdateState) | ToCluster (c : ClusterState).

Definition enter (l : list phase) : move :=
  match l with [] => ToCluster ClusterStateUpdateFinishing | p :: _ => ToUpdate (ph_state p) end.

(** A flow that checks the possibility of the update can be turned down. *)
Definition checks (f : UpdateFlow) : bool :=
  existsb (fun p => bool_decide (ph_state p = UpdateStatePossibilityCheck)) (phases f).

Definition transition (f : UpdateFlow) (s : UpdateState) (x : facts) : option move :=
  if decide (s = UpdateStateImpossibleToStart) then
    if checks f && (negb (fact_needSync x) || negb (fact_fullUpdate x))
    then Some (ToCluster ClusterStateCancelUpdate) else None
  else
    match phases_from s (phases f) with
    | [] => None
    | p :: rest =>
        if ph_skip p x then Some (enter (tail rest))
        else if ph_done p x then Some (enter rest)
        else if bool_decide (s = UpdateStatePossibilityCheck) && fact_condition x ConditionNoPossibility
        then Some (ToUpdate UpdateStateImpossibleToStart) else None
    end.

(** ** The handlers implement the phases *)

Section Refinement.
Context {H E : Type} `{K : Kube E} `{CM : ConditionMeta} `{KL : !KubeLaws E K}.
Local Abbreviation W := (World H E).
Implicit Types (cm : ComponentManager W) (w : W).

(** The facts of a world. *)
Definition updating_component w (c : Component W) : bool :=
  (is_nil (us_Components (updateStatus w)) && cmp_IsUpdatable c)
  || bool_decide (cmp_GetName c ∈ elems (us_Components (updateStatus w))).

Definition pods_removed w (cs : list (Component W)) : bool :=
  forallb (fun c => negb (updating_component w c) ||
    update_condition_true w (GetPodsRemovedCondition (cmp_GetName c))) cs.

Definition facts_of cm w : facts := {|
  fact_condition := update_condition_true w;
  fact_needSync := needSync cm;
  fact_fullUpdate := sp_EnableFullUpdate (yt_Spec (resource w));
  fact_podsRemoved := pods_removed w (allComponents cm);
  fact_allReadyOrUpdating := allReadyOrUpdating cm;
  fact_schedulerUpdating :=
    match schedulerComponent cm with Some c => updating_component w c | None => false end;
  fact_queryTrackerUpdating :=
    match queryTrackerComponent cm with Some c => updating_component w c | None => false end;
|}.

Definition apply_move (o : move) : W -> W :=
  match o with
  | ToUpdate s => set_updateStatus (set_us_State s)
  | ToCluster c => set_status (set_st_State c)
  end.

(** [m] waits and changes nothing, or makes the move and saves it; the only
    other effect is on the event recorder. *)
Definition behaves (m : M W (option Result * error)) w (o : option move) : Prop :=
  match o with
  | None => m w = Some ((None, None), w)
  | Some o =>
      exists res err w1 w', m w = Some ((Some res, err), w') /\
        resource w1 = resource w /\ heap w1 = heap w /\ persisted (ext w1) = persisted (ext w) /\
        saved (apply_move o w1) err w'
  end.

Lemma LogUpdate_run msg w :
  exists w1, LogUpdate msg w = Some (tt, w1) /\
    resource w1 = resource w /\ heap w1 = heap w /\ persisted (ext w1) = persisted (ext w).
Proof.
  eexists. split; [reflexivity|]. repeat split. apply (event_persisted "Normal" "Update" msg).
Qed.

Lemma save_update_behaves msg s res w : behaves (save_update msg s res) w (Some (ToUpdate s)).
Proof.
  destruct (LogUpdate_run msg w) as (w1 & Hlog & Hr & Hh & Hp).
  destruct (SaveUpdateState_saved s w1) as (err & w' & Hsave & Hs).
  exists res, err, w1, w'. split; [|done].
  unfold save_update. by rewrite (bind_step _ _ _ _ _ Hlog), (bind_step _ _ _ _ _ Hsave).
Qed.

Lemma save_cluster_behaves msg s w : behaves (save_cluster msg s) w (Some (ToCluster s)).
Proof.
  destruct (LogUpdate_run msg w) as (w1 & Hlog & Hr & Hh & Hp).
  destruct (SaveClusterState_saved s w1) as (err & w' & Hsave & Hs).
  exists requeue, err, w1, w'. split; [|done].
  unfold save_cluster. by rewrite (bind_step _ _ _ _ _ Hlog), (bind_step _ _ _ _ _ Hsave).
Qed.

(** A message logged before a move. *)
Lemma log_behaves msg m w o :
  (forall w1, resource w1 = resource w -> behaves m w1 (Some o)) ->
  behaves (_ ← LogUpdate msg; m) w (Some o).
Proof.
  destruct (LogUpdate_run msg w) as (w1 & Hlog & Hr & Hh & Hp). intros Hm.
  destruct (Hm w1 Hr) as (res & err & w2 & w' & Hrun & Hr2 & Hh2 & Hp2 & Hs).
  exists res, err, w2, w'. 
  split; [by rewrite (bind_step _ _ _ _ _ Hlog)|]. split; [congruence|].
  split; [congruence|]. split; [congruence|exact Hs].
Qed.

Lemma wait_behaves w : behaves wait w None.
Proof. done. Qed.

Lemma when_condition_behaves c m w o :
  behaves m w o ->
  behaves (when_condition c m) w (if update_condition_true w c then o else None).
Proof.
  intros Hm. unfold when_condition, IsUpdateStatusConditionTrue, update_condition_true, behaves.
  rewrite run_gets. by destruct (meta_IsStatusConditionTrue _ c).
Qed.

Lemma IsUpdatingComponent_run c w :
  IsUpdatingComponent c w = Some (updating_component w c, w).
Proof. done. Qed.

Lemma arePodsRemoved_run cs w :
  arePodsRemoved_loop cs w = Some (pods_removed w cs, w).
Proof.
  induction cs as [|c cs IH]; [done|]. cbn [arePodsRemoved_loop pods_removed forallb].
  rewrite (bind_step _ _ _ _ _ (IsUpdatingComponent_run c w)).
  destruct (updating_component w c); [|exact IH].
  unfold areComponentPodsRemoved, IsUpdateStatusConditionTrue. rewrite run_gets.
  change (meta_IsStatusConditionTrue _ ?t) with (update_condition_true w t).
  destruct (update_condition_true w _); [exact IH|reflexivity].
Qed.

Lemma behaves_eq m w o o' : behaves m w o -> o = o' -> behaves m w o'.
Proof. by intros ? <-. Qed.

(** A read, then the rest. *)
Lemma behaves_read {A} (m : M W A) f a w o :
  m w = Some (a, w) -> behaves (f a) w o -> behaves (m ≫= f) w o.
Proof.
  intros Hm. unfold behaves. by rewrite (bind_step _ _ _ _ _ Hm).
Qed.

Lemma condition_run c w : IsUpdateStatusConditionTrue c w = Some (update_condition_true w c, w).
Proof. done. Qed.

Lemma possibility_check_behaves next w :
  behaves (possibility_check next) w
    (if update_condition_true w ConditionHasPossibility then Some (ToUpdate next)
     else if update_condition_true w ConditionNoPossibility
     then Some (ToUpdate UpdateStateImpossibleToStart) else None).
Proof.
  eapply behaves_read; [apply condition_run|].
  destruct (update_condition_true w ConditionHasPossibility); [apply save_update_behaves|].
  apply (when_condition_behaves _ _ _ (Some _)), save_update_behaves.
Qed.

Lemma impossible_to_start_behaves cm w :
  behaves (impossible_to_start cm) w
    (if negb (needSync cm) || negb (sp_EnableFullUpdate (yt_Spec (resource w)))
     then Some (ToCluster ClusterStateCancelUpdate) else None).
Proof.
  eapply behaves_read; [reflexivity|].
  destruct (_ || _); [apply save_cluster_behaves|done].
Qed.

Lemma pods_removal_behaves cm w :
  behaves (pods_removal cm) w
    (if pods_removed w (allComponents cm)
     then Some (ToUpdate UpdateStateWaitingForPodsCreation) else None).
Proof.
  eapply behaves_read; [apply arePodsRemoved_run|].
  destruct (pods_removed _ _); [apply save_update_behaves|done].
Qed.

Lemma pods_creation_behaves cm next w :
  behaves (pods_creation cm next) w
    (if allReadyOrUpdating cm then Some (ToUpdate next) else None).
Proof. unfold pods_creation. destruct (allReadyOrUpdating cm); [apply save_update_behaves|done]. Qed.

Lemma stateless_pods_creation_behaves cm w :
  behaves (stateless_pods_creation cm) w
    (if allReadyOrUpdating cm
     then Some (ToUpdate UpdateStateWaitingForOpArchiveUpdatingPrepare) else None).
Proof.
  unfold stateless_pods_creation. destruct (allReadyOrUpdating cm); [|done].
  apply log_behaves. intros. apply save_update_behaves.
Qed.

Lemma needSchedulerUpdate_run cm w :
  needSchedulerUpdate cm w = Some (fact_schedulerUpdating (facts_of cm w), w).
Proof. unfold needSchedulerUpdate, facts_of; simpl. by destruct (schedulerComponent cm). Qed.

Lemma needQueryTrackerUpdate_run cm w :
  needQueryTrackerUpdate cm w = Some (fact_queryTrackerUpdating (facts_of cm w), w).
Proof. unfold needQueryTrackerUpdate, facts_of; simpl. by destruct (queryTrackerComponent cm). Qed.

Lemma op_archive_prepare_behaves cm w :
  behaves (op_archive_prepare cm) w
    (if negb (fact_schedulerUpdating (facts_of cm w)) ||
        update_condition_true w ConditionNotNecessaryToUpdateOpArchive
     then Some (ToUpdate UpdateStateWaitingForQTStateUpdatingPrepare)
     else if update_condition_true w ConditionOpArchivePreparedForUpdating
     then Some (ToUpdate UpdateStateWaitingForOpArchiveUpdate) else None).
Proof.
  eapply behaves_read; [apply needSchedulerUpdate_run|].
  destruct (fact_schedulerUpdating (facts_of cm w)); cbn [negb orb].
  - eapply behaves_read; [apply condition_run|].
    destruct (update_condition_true w ConditionNotNecessaryToUpdateOpArchive).
    + apply log_behaves. intros. apply save_update_behaves.
    + apply (when_condition_behaves _ _ _ (Some _)), save_update_behaves.
  - eapply behaves_read; [reflexivity|]. apply log_behaves. intros. apply save_update_behaves.
Qed.

Lemma qt_prepare_behaves cm msg next (skip : M W (option Result * error)) o w :
  (forall w1, behaves skip w1 (Some o)) ->
  behaves (need ← needQueryTrackerUpdate cm;
           if negb need then _ ← LogUpdate msg; skip
           else when_condition ConditionQTStatePreparedForUpdating
                  (save_update next UpdateStateWaitingForQTStateUpdate requeue)) w
    (if negb (fact_queryTrackerUpdating (facts_of cm w)) then Some o
     else if update_condition_true w ConditionQTStatePreparedForUpdating
     then Some (ToUpdate UpdateStateWaitingForQTStateUpdate) else None).
Proof.
  intros Hskip. eapply behaves_read; [apply needQueryTrackerUpdate_run|].
  destruct (fact_queryTrackerUpdating (facts_of cm w)); cbn [negb].
  - apply (when_condition_behaves _ _ _ (Some _)), save_update_behaves.
  - apply log_behaves. intros. apply Hskip.
Qed.
End Refinement.

(** [handler_case] picks the lemma of the case of a handler's switch. *)
Ltac handler_case :=
  eapply behaves_eq;
  [ lazymatch goal with
    | |- behaves wait _ _ => apply wait_behaves
    | |- behaves (save_update _ _ _) _ _ => apply save_update_behaves
    | |- behaves (save_cluster _ _) _ _ => apply save_cluster_behaves
    | |- behaves (possibility_check _) _ _ => apply possibility_check_behaves
    | |- behaves (impossible_to_start _) _ _ => apply impossible_to_start_behaves
    | |- behaves (pods_removal _) _ _ => apply pods_removal_behaves
    | |- behaves (pods_creation _ _) _ _ => apply pods_creation_behaves
    | |- behaves (stateless_pods_creation _) _ _ => apply stateless_pods_creation_behaves
    | |- behaves (op_archive_prepare _) _ _ => apply op_archive_prepare_behaves
    | |- behaves (when_condition _ (save_update _ _ _)) _ _ =>
        apply when_condition_behaves, save_update_behaves
    | |- behaves (when_condition _ (save_cluster _ _)) _ _ =>
        apply when_condition_behaves, save_cluster_behaves
    | |- behaves op_archive_update _ _ => apply when_condition_behaves, save_update_behaves
    | |- behaves (needQueryTrackerUpdate _ ≫= _) _ _ =>
        apply qt_prepare_behaves; intros;
        first [apply save_update_behaves | apply save_cluster_behaves]
    end
  | reflexivity ].

Section Handlers.
Context {H E : Type} `{K : Kube E} `{CM : ConditionMeta} `{KL : !KubeLaws E K}.
Local Abbreviation W := (World H E).
Implicit Types (cm : ComponentManager W) (w : W).

(** The behaviour of a handler, whatever the update state. *)
Definition implements (handler : ComponentManager W -> M W (option Result * error))
    (f : UpdateFlow) : Prop :=
  forall cm w, behaves (handler cm) w
    (transition f (us_State (updateStatus w)) (facts_of cm w)).

Lemma handleEverything_implements : implements handleEverything UpdateFlowFull.
Proof.
  intros cm w. eapply behaves_read; [reflexivity|].
  destruct (us_State (updateStatus w)); handler_case.
Qed.

Lemma handleStateless_implements : implements handleStateless UpdateFlowStateless.
Proof.
  intros cm w. eapply behaves_read; [reflexivity|].
  destruct (us_State (updateStatus w)); handler_case.
Qed.

Lemma handleMasterOnly_implements : implements handleMasterOnly UpdateFlowMaster.
Proof.
  intros cm w. eapply behaves_read; [reflexivity|].
  destruct (us_State (updateStatus w)); handler_case.
Qed.

Lemma handleTabletNodesOnly_implements : implements handleTabletNodesOnly UpdateFlowTabletNodes.
Proof.
  intros cm w. eapply behaves_read; [reflexivity|].
  destruct (us_State (updateStatus w)); handler_case.
Qed.

Lemma transition_no_phases f s x : phases f = [] -> transition f s x = None.
Proof.
  intros Hf. unfold transition, checks. rewrite Hf. simpl. by case_decide.
Qed.

Lemma handle_flow_behaves cm w :
  behaves (handle_flow cm) w
    (transition (us_Flow (updateStatus w)) (us_State (updateStatus w)) (facts_of cm w)).
Proof.
  eapply behaves_read; [reflexivity|].
  destruct (us_Flow (updateStatus w)).
  - by rewrite transition_no_phases.
  - apply handleStateless_implements.
  - apply handleMasterOnly_implements.
  - apply handleTabletNodesOnly_implements.
  - apply handleEverything_implements.
  - by rewrite transition_no_phases.
Qed.
End Handlers.

(** ** The machine: progress and completeness *)

(** How many phases are left; an update that was turned down is about to end. *)
Definition phases_left (f : UpdateFlow) (s : UpdateState) : nat :=
  if decide (s = UpdateStateImpossibleToStart) then 0 else length (phases_from s (phases f)).

(** The states a flow can be in. *)
Definition flow_state (f : UpdateFlow) (s : UpdateState) : Prop :=
  s = UpdateStateImpossibleToStart /\ checks f = true \/ s ∈ ph_state <$> phases f.

Lemma phases_from_split s l p rest :
  phases_from s l = p :: rest -> exists pre, l = pre ++ p :: rest /\ ph_state p = s.
Proof.
  induction l as [|q l IH]; simpl; [done|]. case_decide as Hq.
  - intros [= -> ->]. by exists [].
  - intros (pre & -> & ?)%IH. by exists (q :: pre).
Qed.

Lemma phases_from_app pre p rest :
  NoDup (ph_state <$> pre ++ p :: rest) -> phases_from (ph_state p) (pre ++ p :: rest) = p :: rest.
Proof.
  induction pre as [|q pre IH]; simpl; [by rewrite decide_True|].
  rewrite NoDup_cons. intros [Hq Hnd]. rewrite decide_False; [auto|].
  intros Heq. apply Hq. rewrite Heq, fmap_app, elem_of_app. right. by left.
Qed.

(** Every flow visits a state at most once, and never the turned-down one. *)
Lemma phases_NoDup f : NoDup (ph_state <$> phases f).
Proof. destruct f; apply (bool_decide_unpack _); vm_compute; exact I. Qed.

Lemma phases_not_impossible f : UpdateStateImpossibleToStart ∉ ph_state <$> phases f.
Proof. destruct f; apply (bool_decide_unpack _); vm_compute; exact I. Qed.

(** Entering a phase of a suffix of the flow. *)
Lemma enter_suffix f pre l s :
  phases f = pre ++ l -> enter l = ToUpdate s ->
  s ∈ ph_state <$> phases f /\ phases_left f s = length l.
Proof.
  intros Hf He. destruct l as [|p l]; [done|]. injection He as <-.
  pose proof (phases_NoDup f) as Hnd. pose proof (phases_not_impossible f) as Hni.
  rewrite Hf in Hnd, Hni |- *.
  assert (ph_state p ∈ ph_state <$> pre ++ p :: l) as Hin.
  { rewrite fmap_app, elem_of_app. right. by left. }
  split; [done|]. unfold phases_left. rewrite decide_False by congruence.
  by rewrite Hf, phases_from_app.
Qed.

Lemma transition_progress f s x s' :
  transition f s x = Some (ToUpdate s') ->
  flow_state f s' /\ phases_left f s' < phases_left f s.
Proof.
  unfold transition. case_decide as Hs; [by case_match|].
  destruct (phases_from s (phases f)) as [|p rest] eqn:Hp; [done|].
  pose proof (phases_from_split _ _ _ _ Hp) as (pre & Hf & Hps).
  assert (phases_left f s = S (length rest)) as ->.
  { unfold phases_left. by rewrite decide_False, Hp. }
  destruct (ph_skip p x); [|destruct (ph_done p x)].
  - intros [= He]. destruct rest as [|q rest]; [done|].
    apply (enter_suffix f (pre ++ [p; q])) in He as [? ->]; [|by rewrite Hf, <- (assoc_L (++))].
    split; [by right|simpl; lia].
  - intros [= He]. apply (enter_suffix f (pre ++ [p])) in He as [? ->];
      [|by rewrite Hf, <- (assoc_L (++))]. split; [by right|lia].
  - destruct (bool_decide _) eqn:Hc; [|done]. simpl. apply bool_decide_eq_true in Hc.
    case_match; [|done]. intros [= <-]. split; [left; split; [done|]|unfold phases_left].
    + unfold checks. apply existsb_exists. exists p. rewrite bool_decide_eq_true.
      split; [|congruence]. apply list_elem_of_In. rewrite Hf, elem_of_app. right. by left.
    + rewrite decide_True by done. lia.
Qed.

(** A flow never leaves its own states, and is never stuck for want of a case. *)
Lemma transition_cluster f s x c :
  transition f s x = Some (ToCluster c) ->
  c = ClusterStateCancelUpdate /\ s = UpdateStateImpossibleToStart \/
  c = ClusterStateUpdateFinishing /\ s ∈ ph_state <$> phases f.
Proof.
  unfold transition. case_decide as Hs; [case_match; [intros [= <-]; by left|done]|].
  destruct (phases_from s (phases f)) as [|p rest] eqn:Hp; [done|].
  pose proof (phases_from_split _ _ _ _ Hp) as (pre & Hf & Hps).
  assert (s ∈ ph_state <$> phases f) as Hin.
  { rewrite Hf, fmap_app, elem_of_app. right. rewrite <- Hps. by left. }
  unfold enter. repeat case_match; intros; simplify_eq; by right.
Qed.

(** ** Runs of a flow *)

(** [flow_run f s xs s']: from [s], the moves made on the facts [xs], in
    order, lead to [s']. *)
Inductive flow_run (f : UpdateFlow) (s : UpdateState) : list facts -> UpdateState -> Prop :=
| flow_run_nil : flow_run f s [] s
| flow_run_snoc xs s1 x s2 :
    flow_run f s xs s1 -> transition f s1 x = Some (ToUpdate s2) -> flow_run f s (xs ++ [x]) s2.

Lemma flow_run_bound f s xs s' :
  flow_run f s xs s' -> length xs + phases_left f s' <= phases_left f s.
Proof.
  induction 1 as [|xs s1 x s2 _ IH Ht]; [done|].
  apply transition_progress in Ht as [_ Hlt]. rewrite length_app. simpl. lia.
Qed.

(** A move into a phase of the flow, from an unskippable one. *)
Lemma transition_into f s x p pre l :
  phases f = pre ++ p :: l -> transition f s x = Some (ToUpdate (ph_state p)) ->
  Forall (fun q => forall y, ph_skip q y = false) pre ->
  exists pre0 q, pre = pre0 ++ [q] /\ ph_state q = s /\ ph_done q x = true.
Proof.
  intros Hf. unfold transition. case_decide as Hs; [by case_match|].
  destruct (phases_from s (phases f)) as [|q rest] eqn:Hp; [done|].
  pose proof (phases_from_split _ _ _ _ Hp) as (pre0 & Hf0 & Hq).
  pose proof (phases_NoDup f) as Hnd. pose proof (phases_not_impossible f) as Hni.
  assert (forall rest' pre', phases f = pre' ++ rest' -> enter rest' = ToUpdate (ph_state p) ->
    rest' = p :: l /\ pre' = pre) as Hent.
  { intros rest' pre' Hf' He. destruct rest' as [|p' l']; [done|]. injection He as He.
    rewrite Hf in Hnd. pose proof (phases_from_app _ _ _ Hnd) as H1.
    rewrite <- Hf, Hf' in Hnd. pose proof (phases_from_app _ _ _ Hnd) as H2.
    rewrite <- Hf', He, Hf, H1 in H2. injection H2 as <- <-. split; [done|].
    rewrite Hf in Hf'. by apply app_inj_tail_iff in Hf' || by simplify_list_eq. }
  intros Ht Hskip.
  assert (ph_skip q x = true -> False) as Hno.
  { intros Hsk. rewrite Hsk in Ht. injection Ht as He. destruct rest as [|q2 rest]; [done|].
    destruct (Hent rest (pre0 ++ [q; q2])) as [_ <-]; [by rewrite Hf0, <- (assoc_L (++))|done|].
    rewrite Forall_app in Hskip. destruct Hskip as [_ Hq2]. inversion Hq2; subst. congruence. }
  destruct (ph_skip q x); [by destruct Hno|].
  destruct (ph_done q x) eqn:Hd.
  - injection Ht as He. destruct (Hent rest (pre0 ++ [q])) as [_ <-]; [|done|by eauto].
    by rewrite Hf0, <- (assoc_L (++)).
  - case_match; [|done]. injection Ht as Himp. destruct Hni.
    rewrite Himp, Hf, fmap_app, elem_of_app. right. by left.
Qed.

Lemma flow_run_completed f p0 l0 xs s :
  phases f = p0 :: l0 -> flow_run f (ph_state p0) xs s ->
  forall pre p l, phases f = pre ++ p :: l -> ph_state p = s ->
    Forall (fun q => forall y, ph_skip q y = false) pre ->
    Forall (fun q => exists x, x ∈ xs /\ ph_done q x = true) pre.
Proof.
  intros Hf0. pose proof (phases_NoDup f) as Hnd.
  induction 1 as [|xs s1 x s2 _ IH Ht]; intros pre p l Hf Hp Hskip.
  - destruct pre as [|q pre]; [constructor|]. exfalso.
    rewrite Hf in Hnd. rewrite Hf0 in Hf. injection Hf as <- ->. simpl in Hnd.
    apply NoDup_cons in Hnd as [Hni _]. apply Hni. rewrite <- Hp, fmap_app, elem_of_app.
    right. by left.
  - subst s2. destruct (transition_into _ _ _ _ _ _ Hf Ht Hskip) as (pre0 & q & -> & Hq & Hd).
    rewrite Forall_app in Hskip |- *. destruct Hskip as [Hs0 _]. split.
    + rewrite <- (assoc_L (++)) in Hf. specialize (IH pre0 q (p :: l) Hf Hq Hs0).
      eapply Forall_impl; [exact IH|]. intros q' (y & Hy & ?). exists y. set_solver.
    + constructor; [|constructor]. exists x. set_solver.
Qed.

(** [drive n f s xs]: at most [n] reconciliations of an update, seeing the
    facts [xs 0], [xs 1], ... *)
Fixpoint drive (n : nat) (f : UpdateFlow) (s : UpdateState) (xs : nat -> facts) : move :=
  match n with
  | 0 => ToUpdate s
  | S n =>
      match transition f s (xs 0) with
      | Some (ToUpdate s') => drive n f s' (fun i => xs (S i))
      | Some (ToCluster c) => ToCluster c
      | None => drive n f s (fun i => xs (S i))
      end
  end.

(** The facts complete every phase of the flow. *)
Definition completes (f : UpdateFlow) (x : facts) : Prop :=
  Forall (fun p => ph_done p x = true) (phases f).

Lemma transition_completes f s x :
  s ∈ ph_state <$> phases f -> completes f x ->
  transition f s x = Some (ToCluster ClusterStateUpdateFinishing) \/
  exists s', transition f s x = Some (ToUpdate s') /\ s' ∈ ph_state <$> phases f.
Proof.
  intros Hin Hx.
  destruct (transition f s x) as [[s'|c]|] eqn:Ht.
  - right. exists s'. split; [done|]. pose proof (transition_progress _ _ _ _ Ht) as [[[-> _]|?] _];
      [|done]. exfalso. revert Ht. unfold transition. case_decide as Hs; [by case_match|].
    destruct (phases_from s (phases f)) as [|p rest] eqn:Hp; [done|].
    pose proof (phases_from_split _ _ _ _ Hp) as (pre & Hf & _).
    assert (ph_done p x = true) as Hd.
    { unfold completes in Hx. rewrite Hf, Forall_app in Hx. destruct Hx as [_ Hx]. by inversion Hx. }
    rewrite Hd. pose proof (phases_not_impossible f) as Hni.
    destruct (ph_skip p x); intros [= He].
    + destruct rest as [|p2 rest]; [done|].
      apply (enter_suffix f (pre ++ [p; p2])) in He as [? _]; [done|by rewrite Hf, <- (assoc_L (++))].
    + apply (enter_suffix f (pre ++ [p])) in He as [? _]; [done|by rewrite Hf, <- (assoc_L (++))].
  - apply transition_cluster in Ht as [[_ ->]|[-> _]]; [by apply phases_not_impossible in Hin|by left].
  - exfalso. revert Ht. unfold transition.
    rewrite decide_False by (intros ->; by apply phases_not_impossible in Hin).
    destruct (phases_from s (phases f)) as [|p rest] eqn:Hp.
    + exfalso. clear Hx. induction (phases f) as [|q l IH]; simpl in *; [set_solver|].
      case_decide; [done|]. apply elem_of_cons in Hin as [->|Hin]; [done|auto].
    + pose proof (phases_from_split _ _ _ _ Hp) as (pre & Hf & _).
      unfold completes in Hx. rewrite Hf, Forall_app in Hx. destruct Hx as [_ Hx].
      inversion Hx as [|? ? Hd]; subst. rewrite Hd. by destruct (ph_skip p x).
Qed.

Lemma phases_left_pos f s : s ∈ ph_state <$> phases f -> 0 < phases_left f s.
Proof.
  intros Hin. unfold phases_left.
  rewrite decide_False by (intros ->; by apply phases_not_impossible in Hin).
  induction (phases f) as [|p l IH]; simpl in *; [set_solver|].
  case_decide; [simpl; lia|]. apply elem_of_cons in Hin as [->|Hin]; [done|auto].
Qed.

Lemma drive_completes n f s xs :
  s ∈ ph_state <$> phases f -> (forall i, completes f (xs i)) -> phases_left f s <= n ->
  drive n f s xs = ToCluster ClusterStateUpdateFinishing.
Proof.
  revert s xs. induction n as [|n IH]; intros s xs Hin Hx Hn.
  - pose proof (phases_left_pos f s Hin). lia.
  - simpl. destruct (transition_completes f s (xs 0) Hin (Hx 0)) as [->|(s' & Ht & Hin')]; [done|].
    rewrite Ht. apply IH; [done|auto|]. apply transition_progress in Ht as [_ ?]. lia.
Qed.

(** ** Theorems *)

(** What must have held before pods are removed, flow by flow. *)
Definition required_before_pods_removal (f : UpdateFlow) : list string :=
  match f with
  | UpdateFlowFull =>
      [ConditionHasPossibility; ConditionSafeModeEnabled; ConditionTabletCellsSaved;
       ConditionTabletCellsRemovingStarted; ConditionTabletCellsRemoved; ConditionSnaphotsSaved]
  | UpdateFlowMaster => [ConditionHasPossibility; ConditionSafeModeEnabled; ConditionSnaphotsSaved]
  | UpdateFlowTabletNodes =>
      [ConditionHasPossibility; ConditionTabletCellsSaved; ConditionTabletCellsRemovingStarted;
       ConditionTabletCellsRemoved]
  | _ => []
  end.

(** Reaching the removal of pods through phases that each wait for one
    condition. *)
Lemma run_requires f (scs : list (UpdateState * string)) l xs :
  phases f = ph_start :: ((fun sc => simple sc.1 sc.2) <$> scs) ++ ph_pods_removal :: l ->
  flow_run f UpdateStateNone xs UpdateStateWaitingForPodsRemoval ->
  Forall (fun c => exists x, x ∈ xs /\ fact_condition x c = true) scs.*2.
Proof.
  intros Hf Hrun.
  pose proof (flow_run_completed f ph_start _ xs _ Hf Hrun
    (ph_start :: ((fun sc => simple sc.1 sc.2) <$> scs)) ph_pods_removal l Hf eq_refl) as Hc.
  apply Forall_cons_1 in Hc as [_ Hc]; [by rewrite Forall_fmap in Hc; rewrite Forall_fmap|].
  constructor; [done|]. apply Forall_fmap, Forall_forall. done.
Qed.

(** C4. The four update handlers implement the phase lists: for every flow,
    update state and world, the handler waits without any effect when the
    specification has no move, and otherwise makes exactly the specified move
    and saves it: the status the API server holds afterwards is the new one,
    or the old one when the handler returns an error. *)
Theorem handle_flow_refines {H E : Type} `{KL : KubeLaws E} `{CM : ConditionMeta}
    (cm : ComponentManager (World H E)) (w : World H E) :
  behaves (handle_flow cm) w
    (transition (us_Flow (updateStatus w)) (us_State (updateStatus w)) (facts_of cm w)).
Proof. apply handle_flow_behaves. Qed.

Lemma phases_left_16 f s : phases_left f s <= 16.
Proof.
  unfold phases_left. case_decide; [lia|].
  assert (length (phases_from s (phases f)) <= length (phases f)) as Hle.
  { induction (phases f) as [|p l IH]; simpl; [done|]. case_decide; simpl; lia. }
  assert (length (phases f) <= 16) by (destruct f; simpl; lia). lia.
Qed.

(** Each move of a flow leaves strictly fewer phases, stays within the states
    the flow's handler knows, and no run of a flow makes more than 16 moves. *)
Theorem flow_terminates (f : UpdateFlow) (s : UpdateState) (xs : list facts) (s' : UpdateState)
    (Hrun : flow_run f s xs s') (Hs : flow_state f s) :
  flow_state f s' /\ length xs + phases_left f s' <= phases_left f s /\ length xs <= 16.
Proof.
  split.
  { induction Hrun as [|xs s1 x s2 _ _ Ht]; [done|]. by apply transition_progress in Ht as [? _]. }
  apply flow_run_bound in Hrun. split; [done|]. pose proof (phases_left_16 f s). lia.
Qed.

(** When an update that started at the beginning of its flow waits for the removal of pods, every
    required condition was true at one of the earlier moves: for the full
    flow the update was possible, safe mode was on, the tablet cells were
    saved, their removal started and finished, and the master snapshots were
    built. *)
Theorem pods_removal_guarded (f : UpdateFlow) (xs : list facts)
    (Hrun : flow_run f UpdateStateNone xs UpdateStateWaitingForPodsRemoval) :
  Forall (fun c => exists x, x ∈ xs /\ fact_condition x c = true) (required_before_pods_removal f).
Proof.
  destruct f; [constructor|constructor| | | |constructor].
  - by apply (run_requires UpdateFlowMaster [(UpdateStatePossibilityCheck, ConditionHasPossibility);
      (UpdateStateWaitingForSafeModeEnabled, ConditionSafeModeEnabled);
      (UpdateStateWaitingForSnapshots, ConditionSnaphotsSaved)] _ xs eq_refl).
  - by apply (run_requires UpdateFlowTabletNodes [(UpdateStatePossibilityCheck, ConditionHasPossibility);
      (UpdateStateWaitingForTabletCellsSaving, ConditionTabletCellsSaved);
      (UpdateStateWaitingForTabletCellsRemovingStart, ConditionTabletCellsRemovingStarted);
      (UpdateStateWaitingForTabletCellsRemoved, ConditionTabletCellsRemoved)] _ xs eq_refl).
  - by apply (run_requires UpdateFlowFull [(UpdateStatePossibilityCheck, ConditionHasPossibility);
      (UpdateStateWaitingForSafeModeEnabled, ConditionSafeModeEnabled);
      (UpdateStateWaitingForTabletCellsSaving, ConditionTabletCellsSaved);
      (UpdateStateWaitingForTabletCellsRemovingStart, ConditionTabletCellsRemovingStarted);
      (UpdateStateWaitingForTabletCellsRemoved, ConditionTabletCellsRemoved);
      (UpdateStateWaitingForSnapshots, ConditionSnaphotsSaved)] _ xs eq_refl).
Qed.

(** If at each reconciliation the cluster reports what
    the phase waits for, a flow in any of its states reaches
    [ClusterStateUpdateFinishing] within the number of phases left, whichever
    optional phases are skipped on the way. *)
Theorem flow_completes (f : UpdateFlow) (s : UpdateState) (xs : nat -> facts)
    (Hs : s ∈ ph_state <$> phases f) (Hx : forall i, completes f (xs i)) :
  drive (phases_left f s) f s xs = ToCluster ClusterStateUpdateFinishing.
Proof. by apply drive_completes. Qed.

(** ** Witnesses *)

(** A run computed. *)
Fixpoint flow_exec (f : UpdateFlow) (s : UpdateState) (xs : list facts) : option UpdateState :=
  match xs with
  | [] => Some s
  | x :: xs =>
      match transition f s x with Some (ToUpdate s') => flow_exec f s' xs | _ => None end
  end.

Lemma flow_run_cons f s x s1 xs s2 :
  transition f s x = Some (ToUpdate s1) -> flow_run f s1 xs s2 -> flow_run f s (x :: xs) s2.
Proof.
  intros Ht. induction 1 as [|xs s2 y s3 _ IH Hy].
  - apply (flow_run_snoc f s [] s x s1); [constructor|done].
  - rewrite app_comm_cons. by apply (flow_run_snoc f s (x :: xs) s2).
Qed.

Lemma flow_exec_run f s xs s' : flow_exec f s xs = Some s' -> flow_run f s xs s'.
Proof.
  revert s. induction xs as [|x xs IH]; intros s; simpl; [intros [= <-]; constructor|].
  destruct (transition f s x) as [[s1|]|] eqn:Ht; try done. intros Hrun.
  eapply flow_run_cons; [done|auto].
Qed.

(** A cluster where everything that is waited for has happened. *)
Definition facts_done : facts := mkFacts (fun _ => true) true true true true true true.

Lemma flow_terminates_witness :
  flow_state UpdateFlowFull UpdateStateWaitingForPodsRemoval /\ 7 + 9 <= 16.
Proof.
  destruct (flow_terminates UpdateFlowFull UpdateStateNone (repeat facts_done 7)
    UpdateStateWaitingForPodsRemoval) as (H1 & H2 & H3).
  - apply flow_exec_run. reflexivity.
  - right. apply (bool_decide_unpack _). vm_compute. exact I.
  - split; [exact H1|vm_compute; lia].
Defined.

Lemma pods_removal_guarded_witness :
  Forall (fun c => exists x, x ∈ repeat facts_done 7 /\ fact_condition x c = true)
    (required_before_pods_removal UpdateFlowFull).
Proof.
  apply (pods_removal_guarded UpdateFlowFull (repeat facts_done 7)).
  apply flow_exec_run. reflexivity.
Defined.

Lemma flow_completes_witness :
  drive 16 UpdateFlowFull UpdateStateNone (fun _ => facts_done) =
  ToCluster ClusterStateUpdateFinishing.
Proof.
  apply (flow_completes UpdateFlowFull UpdateStateNone (fun _ => facts_done)).
  - apply (bool_decide_unpack _). vm_compute. exact I.
  - intros _. repeat constructor.
Defined.
