(* ===== verification/Reach.v ===== *)
(** * Reconciliations as steps of an abstract machine

    [cstep] is the life cycle of a cluster: creation, initialisation, running,
    reconfiguration, updating along a flow, finishing or cancelling.
    [reconcile_simulated] shows that one call of [Sync], whatever the cluster
    answers and whichever write fails, moves the status the API server holds
    along this machine; [reconcile_invariant] draws the consequences. *)

From S2P Require Import Prelude Api Kube Conditions Samples UpdateFlow Labeller Proxy Component Manager Sync Flows.

(** ** The life cycle *)

(** Cluster state and update status. *)
Record ctl := mkCtl {
  ct_State : ClusterState;
  ct_Update : Api.UpdateStatus;
}.

Definition ctl_of (st : YtsaurusStatus) : ctl := mkCtl (st_State st) (st_UpdateStatus st).

(** The update status of a cluster that is not updated. *)
Definition blank : Api.UpdateStatus := mkUpdateStatus UpdateStateNone None UpdateFlowNone [] [] [].

Definition known_flow (f : UpdateFlow) : Prop := phases f <> [].

Section LifeCycle.
Context `{CM : ConditionMeta}.

(** The conditions a handler sees are those of the update status. *)
Definition seen_in (x : facts) (u : Api.UpdateStatus) : Prop :=
  forall c, fact_condition x c = meta_IsStatusConditionTrue (us_Conditions u) c.

(** [step_work]: the components record what they did (the conditions, the
    tablet cells and the paths of the masters), and take no condition back. *)
Inductive cstep : ctl -> ctl -> Prop :=
| step_create u : cstep (mkCtl ClusterStateCreated u) (mkCtl ClusterStateInitializing u)
| step_initialized u : cstep (mkCtl ClusterStateInitializing u) (mkCtl ClusterStateRunning u)
| step_reconfigure u : cstep (mkCtl ClusterStateRunning u) (mkCtl ClusterStateReconfiguration u)
| step_reconfigured u : cstep (mkCtl ClusterStateReconfiguration u) (mkCtl ClusterStateRunning u)
| step_start u f cs :
    known_flow f ->
    cstep (mkCtl ClusterStateRunning u)
      (mkCtl ClusterStateUpdating (set_us_Components cs (set_us_Flow f u)))
| step_work u u' :
    us_State u' = us_State u -> us_Flow u' = us_Flow u -> us_Components u' = us_Components u ->
    keeps u u' -> cstep (mkCtl ClusterStateUpdating u) (mkCtl ClusterStateUpdating u')
| step_update u x s :
    seen_in x u -> transition (us_Flow u) (us_State u) x = Some (ToUpdate s) ->
    cstep (mkCtl ClusterStateUpdating u) (mkCtl ClusterStateUpdating (set_us_State s u))
| step_leave u x c :
    seen_in x u -> transition (us_Flow u) (us_State u) x = Some (ToCluster c) ->
    cstep (mkCtl ClusterStateUpdating u) (mkCtl c u)
| step_reset c u :
    c = ClusterStateCancelUpdate \/ c = ClusterStateUpdateFinishing ->
    cstep (mkCtl c u) (mkCtl c (set_us_State UpdateStateNone u))
| step_clear c u :
    c = ClusterStateCancelUpdate \/ c = ClusterStateUpdateFinishing ->
    us_State u = UpdateStateNone -> cstep (mkCtl c u) (mkCtl c blank)
| step_resume c :
    c = ClusterStateCancelUpdate \/ c = ClusterStateUpdateFinishing ->
    cstep (mkCtl c blank) (mkCtl ClusterStateRunning blank).

(** Outside an update the update status is blank: no update state, flow,
    component, condition, tablet cell or path of a master is left over; inside,
    the update state is one its flow handles. *)
Definition coherent (c : ctl) : Prop :=
  match ct_State c with
  | ClusterStateUpdating => flow_state (us_Flow (ct_Update c)) (us_State (ct_Update c))
  | ClusterStateUpdateFinishing | ClusterStateCancelUpdate => True
  | ClusterStateOther _ => False
  | _ => ct_Update c = blank
  end.

Lemma start_state f : known_flow f -> flow_state f UpdateStateNone.
Proof. intros Hf. right. destruct f; try (by destruct Hf); simpl; left. Qed.

Lemma cstep_coherent c c' : cstep c c' -> coherent c -> coherent c'.
Proof.
  destruct 1 as [| | | |u f cs Hf|u u' Hs Hfl _|u x s _ Ht|u x c _ Ht|c u Hc|c u Hc|c Hc];
    unfold coherent; simpl; try tauto.
  - intros ->. by apply start_state.
  - by rewrite Hs, Hfl.
  - intros _. by apply transition_progress in Ht as [? _].
  - intros _. by apply transition_cluster in Ht as [[-> _]|[-> _]].
  - by destruct Hc as [-> | ->].
  - by destruct Hc as [-> | ->].
Qed.

Lemma rtc_coherent c c' : rtc cstep c c' -> coherent c -> coherent c'.
Proof. induction 1; eauto using cstep_coherent. Qed.
End LifeCycle.

(** ** One reconciliation *)

Section Reach.
Context {H E : Type} `{K : Kube E} `{CM : ConditionMeta}.
Context `{KL : !KubeLaws E K} `{CL : !ConditionMetaLaws CM}.
Local Abbreviation W := (World H E).
Implicit Types (cm : ComponentManager W) (w : W) (f : Factory W).

(** What is in memory and what the API server holds. *)
Definition memory w : ctl := ctl_of (status w).
Definition server_ctl w : ctl := ctl_of (persisted (ext w)).

(** [moved c w']: memory and server are both reachable from [c]. *)
Definition moved (c : ctl) w : Prop := rtc cstep c (memory w) /\ rtc cstep c (server_ctl w).

Lemma saved_moved c w g err w' :
  saved g err w' -> rtc cstep c (ctl_of (status g)) ->
  persisted (ext g) = persisted (ext w) -> rtc cstep c (server_ctl w) -> moved c w'.
Proof.
  intros (Hr & _ & Hp) Hg He Hw. unfold moved, memory, server_ctl, status. rewrite Hr, Hp.
  split; [done|]. destruct err; [by rewrite He|done].
Qed.

(** A component may only record what it did, and that only in an update. *)
Lemma frame_control w w' :
  frame w w' -> rtc cstep (memory w) (memory w') /\ server_ctl w' = server_ctl w.
Proof.
  intros (Hc & Hk & Hu). unfold control in Hc. unfold memory, server_ctl, ctl_of.
  injection Hc as _ _ _ _ _ Hst Hus Huc Huf Hp. rewrite Hst, Hp. split; [|done].
  destruct (decide (st_State (status w) = ClusterStateUpdating)) as [Hup|Hno].
  - rewrite Hup. apply rtc_once. by apply step_work.
  - specialize (Hu Hno). unfold updateStatus in Hu. by rewrite Hu.
Qed.

Lemma memory_eq w : memory w = mkCtl (st_State (status w)) (updateStatus w).
Proof. done. Qed.

(** The cases of the switch, each from a world in the case's state. *)

Lemma save_cluster_moved c w s err w' :
  moved c w -> SaveClusterState s w = Some (err, w') ->
  cstep (memory w) (mkCtl s (ct_Update (memory w))) ->
  moved c w'.
Proof.
  intros [Hm Hp] Hrun Hs. destruct (SaveClusterState_saved s w) as (err' & w1 & Hrun' & Hsv).
  rewrite Hrun in Hrun'. injection Hrun' as <- <-.
  eapply saved_moved; [exact Hsv| |reflexivity|done]. eapply rtc_r; [exact Hm|exact Hs].
Qed.

(** What a call of the handlers does to the status: nothing, or the move of
    the flow, in memory and, without error, on the server. *)
Lemma handle_flow_step cm w r w' :
  handle_flow cm w = Some (r, w') ->
  r = (None, None) /\ w' = w \/
  exists mv res err, r = (Some res, err) /\
    transition (us_Flow (updateStatus w)) (us_State (updateStatus w)) (facts_of cm w) = Some mv /\
    status w' = status (apply_move mv w) /\
    persisted (ext w') =
      match err with None => status (apply_move mv w) | Some _ => persisted (ext w) end.
Proof.
  intros Hrun. pose proof (handle_flow_behaves cm w) as Hb. unfold behaves in Hb.
  destruct (transition _ _ _) as [mv|] eqn:Ht; [right|left; rewrite Hrun in Hb; by injection Hb as -> ->].
  destruct Hb as (res & err & w1 & w2 & Hrun' & Hr & _ & Hpe & Hr2 & _ & Hp2).
  rewrite Hrun in Hrun'. injection Hrun' as -> <-. exists mv, res, err.
  assert (status (apply_move mv w1) = status (apply_move mv w)) as Hst.
  { destruct mv; unfold apply_move, set_updateStatus, set_status, status; simpl; by rewrite Hr. }
  assert (persisted (ext (apply_move mv w1)) = persisted (ext w)) as Hpm by (by destruct mv).
  rewrite <- Hst, <- Hpm. unfold status at 1. by rewrite Hr2.
Qed.

(** The move is a step of the life cycle. *)
Lemma apply_move_cstep cm w mv :
  st_State (status w) = ClusterStateUpdating ->
  transition (us_Flow (updateStatus w)) (us_State (updateStatus w)) (facts_of cm w) = Some mv ->
  cstep (memory w) (ctl_of (status (apply_move mv w))).
Proof.
  intros Hst Ht. rewrite memory_eq, Hst.
  destruct mv as [s|k]; unfold ctl_of, apply_move, set_updateStatus, set_status; simpl; rewrite ?Hst;
    [eapply step_update|eapply step_leave]; try exact Ht; by intros c.
Qed.

Lemma behaves_moved c cm w r w' :
  moved c w -> ct_State (memory w) = ClusterStateUpdating ->
  handle_flow cm w = Some (r, w') -> moved c w'.
Proof.
  intros [Hm Hp] Hst [[_ ->]|(mv & res & err & _ & Ht & Hs & Hpe)]%handle_flow_step; [done|].
  assert (rtc cstep c (ctl_of (status (apply_move mv w)))).
  { eapply rtc_r; [exact Hm|]. by eapply apply_move_cstep. }
  split; unfold memory, server_ctl; [by rewrite Hs|rewrite Hpe]. by destruct err.
Qed.

Lemma finish_moved c w r w' :
  moved c w ->
  ct_State (memory w) = ClusterStateCancelUpdate \/ ct_State (memory w) = ClusterStateUpdateFinishing ->
  finish_update w = Some (r, w') -> moved c w'.
Proof.
  intros [Hm Hp] Hst Hrun. unfold finish_update in Hrun.
  destruct (SaveUpdateState_saved UpdateStateNone w) as (e1 & w1 & Hrun1 & Hs1).
  rewrite (bind_step _ _ _ _ _ Hrun1) in Hrun.
  assert (rtc cstep c (ctl_of (status (set_updateStatus (set_us_State UpdateStateNone) w)))) as Hm1.
  { eapply rtc_r; [exact Hm|]. rewrite memory_eq in *. by apply step_reset. }
  pose proof (saved_moved c w _ _ _ Hs1 Hm1 eq_refl Hp) as [Hmem1 Hsrv1].
  destruct e1; [by injection Hrun as _ <-|].
  destruct (ClearUpdateStatus_saved w1) as (e2 & w2 & Hrun2 & Hs2).
  rewrite (bind_step _ _ _ _ _ Hrun2) in Hrun.
  assert (status w1 = status (set_updateStatus (set_us_State UpdateStateNone) w)) as Hst1.
  { destruct Hs1 as (Hr1 & _). unfold status. by rewrite Hr1. }
  assert (ctl_of (status (set_updateStatus cleared w1)) =
    mkCtl (ct_State (memory w)) blank) as Hcl.
  { unfold ctl_of, set_updateStatus, set_status, cleared in *; simpl in *. by rewrite Hst1. }
  assert (rtc cstep c (ctl_of (status (set_updateStatus cleared w1)))) as Hm2.
  { rewrite Hcl. eapply rtc_r; [exact Hmem1|]. unfold memory. rewrite Hst1. by apply step_clear. }
  pose proof (saved_moved c w1 _ _ _ Hs2 Hm2 eq_refl Hsrv1) as [Hmem2 Hsrv2].
  destruct e2; [by injection Hrun as _ <-|].
  apply bind_inv in Hrun as (e3 & w3 & Hrun3 & Hret). injection Hret as _ <-.
  eapply (save_cluster_moved c w2); [by split|exact Hrun3|].
  assert (memory w2 = ctl_of (status (set_updateStatus cleared w1))) as ->.
  { destruct Hs2 as (Hr2 & _). unfold memory, status. by rewrite Hr2. }
  rewrite Hcl. simpl. by apply step_resume.
Qed.

Lemma flow_spec_known {C} (gt : C -> ComponentType) (gn : C -> string) sel full cs (fl : UpdateFlow) ns :
  flow_spec gt gn sel full cs = Some (fl, ns) -> known_flow fl.
Proof.
  unfold flow_spec, known_flow. intros Hf. destruct sel; repeat case_match; simplify_eq; done.
Qed.

Lemma chosen_known cm spec meta :
  is_nil (needUpdate cm) = false ->
  chooseUpdateFlow cmp_GetType cmp_GetName spec (needUpdate cm) = (meta, "") ->
  known_flow (flow meta).
Proof.
  destruct (needUpdate cm) as [cs|]; [|done]. intros _ Hc. apply choice_accepted in Hc.
  rewrite chooseUpdateFlow_ok in Hc. by eapply flow_spec_known.
Qed.

Lemma sync_running_moved c cm w r w' :
  moved c w -> ct_State (memory w) = ClusterStateRunning ->
  sync_running cm w = Some (r, w') -> moved c w'.
Proof.
  intros Hmv Hst. unfold sync_running.
  destruct (negb (needSync cm)); [by intros [= _ <-]|].
  destruct (needInit cm).
  { intros (err & w1 & Hrun & Hret)%bind_inv. injection Hret as _ <-.
    eapply save_cluster_moved; [done|done|]. rewrite memory_eq in *. simpl in Hst. rewrite Hst.
    simpl. constructor. }
  destruct (is_nil (needUpdate cm)) eqn:Hnil; [by intros [= _ <-]|].
  cbn [negb]. intros Hrun. apply bind_inv in Hrun as (y & w1 & Hg & Hrun).
  injection Hg as <- <-.
  destruct (chooseUpdateFlow _ _ _ _) as [meta msg] eqn:Hch.
  destruct (bool_decide (msg = "")) eqn:Hmsg; cbn [negb] in Hrun; [|by injection Hrun as _ <-].
  apply bool_decide_eq_true in Hmsg as ->.
  destruct (SaveUpdatingClusterState_saved (flow meta) (componentNames meta) w) as (e & w1 & Hrun1 & Hs).
  rewrite (bind_step _ _ _ _ _ Hrun1) in Hrun.
  assert (w' = w1) as -> by (destruct e; by inversion Hrun).
  destruct Hmv as [Hm Hp]. eapply saved_moved; [exact Hs| |reflexivity|exact Hp].
  eapply rtc_r; [exact Hm|]. rewrite memory_eq in *. simpl in Hst. rewrite Hst.
  apply step_start. by eapply chosen_known.
Qed.

Lemma sync_state_moved c cm w r w' :
  moved c w -> sync_state cm w = Some (r, w') -> moved c w'.
Proof.
  intros Hmv Hrun. apply bind_inv in Hrun as (s & w1 & Hg & Hrun). injection Hg as <- <-.
  destruct (st_State (status w)) eqn:Hst.
  - apply bind_inv in Hrun as (err & w1 & Hrun & Hret). injection Hret as _ <-.
    eapply save_cluster_moved; [done|done|]. rewrite memory_eq, Hst. constructor.
  - destruct (negb (needSync cm)); [|by injection Hrun as _ <-].
    apply bind_inv in Hrun as (err & w1 & Hrun & Hret). injection Hret as _ <-.
    eapply save_cluster_moved; [done|done|]. rewrite memory_eq, Hst. constructor.
  - by eapply sync_running_moved.
  - destruct (negb (needInit cm)); [|by injection Hrun as _ <-].
    apply bind_inv in Hrun as (err & w1 & Hrun & Hret). injection Hret as _ <-.
    eapply save_cluster_moved; [done|done|]. rewrite memory_eq, Hst. constructor.
  - apply bind_inv in Hrun as ([res err] & w1 & Hrun & Hret).
    assert (w' = w1) as -> by (destruct res; by inversion Hret). by eapply behaves_moved.
  - apply bind_inv in Hrun as (res & w1 & Hrun & Hret). injection Hret as _ <-.
    eapply finish_moved; [done|by right|done].
  - apply bind_inv in Hrun as (res & w1 & Hrun & Hret). injection Hret as _ <-.
    eapply finish_moved; [done|by left|done].
  - by injection Hrun as _ <-.
Qed.

Lemma frame_moved c w w' : frame w w' -> moved c w -> moved c w'.
Proof.
  intros [Hm Hs]%frame_control [H1 H2].
  split; [eapply rtc_trans; [exact H1|exact Hm]|by rewrite Hs].
Qed.

Lemma Manager_Sync_moved c cm w r w' :
  Forall ComponentLaws (allComponents cm) ->
  moved c w -> Manager_Sync cm w = Some (r, w') -> moved c w'.
Proof.
  intros Hcs Hmv Hrun. apply bind_inv in Hrun as (res & w1 & Hrun & Hret).
  assert (moved c w1) as Hmv1 by (eapply frame_moved; [by eapply syncComponents_frame|done]).
  destruct res as [early|pending]; [by injection Hret as _ <-|].
  destruct (UpdateStatus_saved w1) as (err & w2 & Hup & Hs).
  rewrite (bind_step _ _ _ _ _ Hup) in Hret.
  assert (w' = w2) as -> by (destruct err, pending; by inversion Hret).
  destruct Hmv1 as [Hm Hp]. eapply saved_moved; [exact Hs|exact Hm|reflexivity|exact Hp].
Qed.

Lemma Sync_moved c f w r w' :
  FactoryLaws f -> moved c w -> Sync f w = Some (r, w') -> moved c w'.
Proof.
  intros Hf Hmv Hrun. apply bind_inv in Hrun as (y & w0 & Hg & Hrun). injection Hg as <- <-.
  destruct (negb _); [by injection Hrun as _ <-|].
  apply bind_inv in Hrun as (res & w1 & Hnew & Hrun).
  assert (moved c w1) as Hmv1 by (eapply frame_moved; [by eapply NewComponentManager_frame|done]).
  destruct res as [err|cm]; [by injection Hrun as _ <-|].
  apply NewComponentManager_iff in Hnew as (cs & q & s & ss & Hb & Ho & ->).
  apply bind_inv in Hrun as (res & w2 & Hst & Hrun).
  assert (moved c w2) as Hmv2 by (by eapply sync_state_moved).
  destruct res; [by injection Hrun as _ <-|].
  eapply Manager_Sync_moved; [|done|done]. simpl. by eapply Hf.
Qed.
End Reach.

(** ** Theorems *)

Section Theorems.
Context {H E : Type} `{K : Kube E} `{CM : ConditionMeta}.
Context `{KL : !KubeLaws E K} `{CL : !ConditionMetaLaws CM}.
Local Abbreviation W := (World H E).

(** Every reconciliation is simulated by the life cycle: if the resource
    in memory is what the API server holds, then whatever the components and
    the client answer, and whichever write fails, the status the server holds
    after [Sync] returns, with or without an error, is reachable by the life
    cycle from the status it held before. *)
Theorem reconcile_simulated (f : Factory W) (w : W) (r : Result * error) (w' : W)
    (Hf : FactoryLaws f) (Hfresh : status w = persisted (ext w))
    (Hrun : Sync f w = Some (r, w')) :
  rtc cstep (ctl_of (persisted (ext w))) (ctl_of (persisted (ext w'))).
Proof.
  eapply Sync_moved; [done| |exact Hrun]. unfold moved, memory, server_ctl. by rewrite Hfresh.
Qed.

(** The status the API server holds is always coherent: outside an update
    there is no update state, flow, component list, condition, saved tablet cell
    or path left over, so an update never acts on what an earlier one recorded,
    and during an update the update state is one that the handler of its flow handles, so an
    update never falls into a [switch] without a case. *)
Theorem reconcile_invariant (f : Factory W) (w : W) (r : Result * error) (w' : W)
    (Hf : FactoryLaws f) (Hfresh : status w = persisted (ext w))
    (Hinv : coherent (ctl_of (persisted (ext w)))) (Hrun : Sync f w = Some (r, w')) :
  coherent (ctl_of (persisted (ext w'))).
Proof.
  eapply rtc_coherent; [|exact Hinv]. eapply Sync_moved; [done| |exact Hrun].
  unfold moved, memory, server_ctl. by rewrite Hfresh.
Qed.
End Theorems.

(** ** Witnesses *)

Import RefKube RefMeta.

Module Witness.
(** A running cluster whose master needs an update. *)
Definition factory : Factory (World unit YtsaurusStatus) :=
  SampleFactory.factory MasterType SyncStatusNeedLocalUpdate.

Definition world : World unit YtsaurusStatus :=
  mkWorld (sample_Ytsaurus ClusterStateRunning) tt (sample_Status ClusterStateRunning).

(** After one reconciliation the server holds an updating cluster. *)
Definition after : YtsaurusStatus :=
  match Sync factory world with
  | Some (_, w') => persisted (ext w')
  | None => sample_Status ClusterStateCreated
  end.
End Witness.

Lemma reconcile_simulated_witness :
  ct_State (ctl_of Witness.after) = ClusterStateUpdating /\
  rtc cstep (ctl_of (sample_Status ClusterStateRunning)) (ctl_of Witness.after).
Proof.
  split; [reflexivity|].
  exact (reconcile_simulated Witness.factory Witness.world (requeue, None) _
    (SampleFactory.factory_laws _ _) eq_refl eq_refl).
Defined.

Lemma reconcile_invariant_witness : coherent (ctl_of Witness.after).
Proof.
  refine (reconcile_invariant Witness.factory Witness.world (requeue, None) _
    (SampleFactory.factory_laws _ _) eq_refl _ eq_refl).
  repeat split.
Defined.
