(* ===== verification/Updates.v ===== *)
(** * Whole updates: sequences of reconciliations

    [history] chains calls of [Sync], each starting from the status the one
    before left on the API server.  What the update flows promise as machines
    (Flows.v) is proved here of the statuses the server holds: updates end,
    pass their phases in order, and start from a blank update status. *)

From S2P Require Import Prelude Api Kube Conditions Samples UpdateFlow Labeller Proxy Component ServerComponent Manager Sync Flows Reach.

(** ** The phases a flow cannot skip *)

(** The phases whose handler may skip the next one. *)
Definition skippable (s : UpdateState) : bool :=
  bool_decide (s = UpdateStateWaitingForOpArchiveUpdatingPrepare)
  || bool_decide (s = UpdateStateWaitingForQTStateUpdatingPrepare).

(** All others, without those that may be skipped. *)
Fixpoint mandatory (skipped : bool) (l : list phase) : list phase :=
  match l with
  | [] => []
  | p :: l' =>
      (if skipped || skippable (ph_state p) then [] else [p]) ++ mandatory (skippable (ph_state p)) l'
  end.

Lemma mandatory_app b l1 l2 : exists b', mandatory b (l1 ++ l2) = mandatory b l1 ++ mandatory b' l2.
Proof.
  revert b. induction l1 as [|p l1 IH]; intros b; simpl; [by exists b|].
  destruct (IH (skippable (ph_state p))) as (b' & ->). exists b'. by rewrite (assoc_L (++)).
Qed.

Lemma phases_skippable f p x : p ∈ phases f -> ph_skip p x = true -> skippable (ph_state p) = true.
Proof.
  intros Hp Hs. destruct f; simpl in Hp;
    repeat (apply elem_of_cons in Hp as [->|Hp]; [done|]); by apply elem_of_nil in Hp.
Qed.

(** [passed f mv pre]: with the move [mv] the flow is past the phases [pre]. *)
Definition passed (f : UpdateFlow) (mv : move) (pre : list phase) : Prop :=
  exists rest, phases f = pre ++ rest /\ enter rest = mv.

Lemma enter_inj f pre1 rest1 pre2 rest2 :
  phases f = pre1 ++ rest1 -> phases f = pre2 ++ rest2 -> enter rest1 = enter rest2 ->
  pre1 = pre2 /\ rest1 = rest2.
Proof.
  intros H1 H2 He. pose proof (phases_NoDup f) as Hnd.
  assert (rest1 = rest2) as ->.
  { destruct rest1 as [|p1 rest1], rest2 as [|p2 rest2]; simpl in He; try done.
    injection He as He. pose proof Hnd as Hnd2. rewrite H1 in Hnd. rewrite H2 in Hnd2.
    pose proof (phases_from_app _ _ _ Hnd) as P1. pose proof (phases_from_app _ _ _ Hnd2) as P2.
    rewrite <- H1 in P1. rewrite <- H2, <- He in P2. congruence. }
  split; [|done]. rewrite H1 in H2. by apply app_inv_tail in H2.
Qed.

(** One move passes the phase it leaves, completed, and may skip the next. *)
Lemma transition_passed f s x mv pre :
  transition f s x = Some mv -> passed f mv pre ->
  exists pre0, passed f (ToUpdate s) pre0 /\
    exists q, ph_state q = s /\
      (pre = pre0 ++ [q] /\ ph_done q x = true \/
       pre = pre0 ++ [q] /\ skippable s = true \/
       exists q2, pre = pre0 ++ [q; q2] /\ skippable s = true).
Proof.
  intros Ht (rest & Hf & He). pose proof (phases_not_impossible f) as Hni.
  assert (mv <> ToUpdate UpdateStateImpossibleToStart) as Hmv.
  { intros ->. destruct rest as [|r rest]; [done|]. injection He as He. apply Hni.
    rewrite Hf, fmap_app, elem_of_app, <- He. right. by left. }
  unfold transition in Ht. case_decide as Hs.
  { case_match; [|done]. injection Ht as <-. by destruct rest. }
  destruct (phases_from s (phases f)) as [|q rest0] eqn:Hp; [done|].
  pose proof (phases_from_split _ _ _ _ Hp) as (pre0 & Hf0 & Hq). exists pre0.
  split; [exists (q :: rest0); split; [done|simpl; by rewrite Hq]|]. exists q. split; [done|].
  destruct (ph_skip q x) eqn:Hsk.
  - assert (skippable s = true) as Hsks.
    { rewrite <- Hq. eapply phases_skippable; [|exact Hsk]. rewrite Hf0, elem_of_app. right. by left. }
    injection Ht as Ht. destruct rest0 as [|q2 rest0]; simpl in Ht.
    + destruct (enter_inj f pre rest (pre0 ++ [q]) []) as [-> _]; [done| |by rewrite He|by auto].
      by rewrite app_nil_r.
    + destruct (enter_inj f pre rest (pre0 ++ [q; q2]) rest0) as [-> _]; [done| |by rewrite He|by eauto].
      by rewrite <- (assoc_L (++)).
  - destruct (ph_done q x) eqn:Hd.
    + injection Ht as Ht. destruct (enter_inj f pre rest (pre0 ++ [q]) rest0) as [-> _];
        [done|by rewrite <- (assoc_L (++))|by rewrite He|by auto].
    + case_match; [|done]. injection Ht as <-. done.
Qed.

Lemma passed_start f pre : passed f (ToUpdate UpdateStateNone) pre -> pre = [].
Proof.
  intros (rest & Hf & He).
  destruct (enter_inj f pre rest [] (phases f)) as [-> _]; [done|done| |done].
  rewrite He. destruct f; try done; by destruct pre, rest.
Qed.

(** What one more move completes. *)
Lemma mandatory_move f s x mv pre :
  transition f s x = Some mv -> passed f mv pre ->
  exists pre0, passed f (ToUpdate s) pre0 /\
    exists done_now, mandatory false pre = mandatory false pre0 ++ done_now /\
      Forall (fun q => ph_done q x = true) done_now.
Proof.
  intros Ht Hp. destruct (transition_passed _ _ _ _ _ Ht Hp) as (pre0 & H0 & q & Hq & Hcase).
  exists pre0. split; [done|].
  destruct Hcase as [[-> Hd]|[[-> Hk]|(q2 & -> & Hk)]];
    match goal with |- exists _, mandatory false (_ ++ ?l) = _ /\ _ =>
      destruct (mandatory_app false pre0 l) as (b & ->) end;
    eexists; (split; [reflexivity|]); simpl; rewrite Hq.
  - rewrite app_nil_r. destruct (b || _); constructor; [done|constructor].
  - rewrite Hk, orb_true_r. constructor.
  - rewrite Hk, orb_true_r. constructor.
Qed.

Lemma flow_run_mandatory f xs s pre :
  flow_run f UpdateStateNone xs s -> passed f (ToUpdate s) pre ->
  Forall (fun q => exists x, x ∈ xs /\ ph_done q x = true) (mandatory false pre).
Proof.
  intros Hrun. revert pre. induction Hrun as [|xs s1 x s2 _ IH Ht]; intros pre Hp.
  - apply passed_start in Hp as ->. constructor.
  - destruct (mandatory_move _ _ _ _ _ Ht Hp) as (pre0 & H0 & now & -> & Hnow).
    apply Forall_app; split.
    + eapply Forall_impl; [by apply IH|]. intros q (y & Hy & Hd). exists y. set_solver.
    + eapply Forall_impl; [exact Hnow|]. intros q Hd. exists x. set_solver.
Qed.

(** [leads f s xs mv]: from [s], the moves made on the facts [xs] lead to an
    update state, or out of the update. *)
Inductive leads (f : UpdateFlow) : UpdateState -> list facts -> move -> Prop :=
| leads_nil s : leads f s [] (ToUpdate s)
| leads_end s x c : transition f s x = Some (ToCluster c) -> leads f s [x] (ToCluster c)
| leads_cons s x s1 xs mv :
    transition f s x = Some (ToUpdate s1) -> leads f s1 xs mv -> leads f s (x :: xs) mv.

Lemma leads_run f s xs mv :
  leads f s xs mv ->
  exists ys s', flow_run f s ys s' /\
    (xs = ys /\ mv = ToUpdate s' \/
     exists x c, xs = ys ++ [x] /\ mv = ToCluster c /\ transition f s' x = Some (ToCluster c)).
Proof.
  induction 1 as [s|s x c Ht|s x s1 xs mv Ht _ (ys & s' & Hr & IH)].
  - exists [], s. split; [constructor|by left].
  - exists [], s. split; [constructor|]. right. by exists x, c.
  - exists (x :: ys), s'. split; [by eapply flow_run_cons|].
    destruct IH as [[-> ->]|(y & c & -> & -> & Hy)]; [by left|right]. by exists y, c.
Qed.

Lemma leads_mandatory f xs mv pre :
  leads f UpdateStateNone xs mv -> passed f mv pre ->
  Forall (fun q => exists x, x ∈ xs /\ ph_done q x = true) (mandatory false pre).
Proof.
  intros (ys & s' & Hr & [[-> ->]|(x & c & -> & -> & Ht)])%leads_run Hp; [by eapply flow_run_mandatory|].
  destruct (mandatory_move _ _ _ _ _ Ht Hp) as (pre0 & H0 & now & -> & Hnow).
  apply Forall_app; split.
  - eapply Forall_impl; [by eapply flow_run_mandatory|]. intros q (y & Hy & Hd). exists y. set_solver.
  - eapply Forall_impl; [exact Hnow|]. intros q Hd. exists x. set_solver.
Qed.

(** ** What an update has to go through *)

(** The conditions that must have been acknowledged before an update waits for
    the removal of pods, and before it finishes. *)
Definition required (fl : UpdateFlow) (mv : move) : list string :=
  match mv with
  | ToUpdate UpdateStateWaitingForPodsRemoval => required_before_pods_removal fl
  | ToCluster ClusterStateUpdateFinishing =>
      required_before_pods_removal fl ++
      match fl with
      | UpdateFlowFull =>
          [ConditionMasterExitedReadOnly; ConditionTabletCellsRecovered; ConditionSafeModeDisabled]
      | UpdateFlowMaster => [ConditionMasterExitedReadOnly; ConditionSafeModeDisabled]
      | UpdateFlowTabletNodes => [ConditionTabletCellsRecovered]
      | _ => []
      end
  | _ => []
  end.
(** [find_phase]: one of the phases that wait for a condition. *)
Ltac find_phase :=
  let pick q := exists q; split; [cbn; solve [repeat first [left | right]] | reflexivity] in
  first [ pick ph_check | pick ph_safe_mode | pick ph_cells_saving | pick ph_cells_removing
        | pick ph_cells_removed | pick ph_snapshots | pick ph_exit_read_only
        | pick ph_cells_recovery | pick ph_safe_mode_off ].

Ltac find_phases Hc :=
  repeat (apply elem_of_cons in Hc as [->|Hc]; [find_phase|]); by apply elem_of_nil in Hc.

(** Each of these conditions is awaited by a phase that is not skipped. *)
Lemma required_mandatory fl mv c :
  c ∈ required fl mv ->
  exists pre, passed fl mv pre /\ exists q, q ∈ mandatory false pre /\ ph_done q = on c.
Proof.
  intros Hc. destruct mv as [s|k]; simpl in Hc.
  - destruct s; try (by apply elem_of_nil in Hc). destruct fl; simpl in Hc; try (by apply elem_of_nil in Hc).
    + exists (take 4 (phases UpdateFlowMaster)). split; [by eexists|find_phases Hc].
    + exists (take 5 (phases UpdateFlowTabletNodes)). split; [by eexists|find_phases Hc].
    + exists (take 7 (phases UpdateFlowFull)). split; [by eexists|find_phases Hc].
  - destruct k; try (by apply elem_of_nil in Hc). exists (phases fl).
    split; [exists []; by rewrite app_nil_r|].
    destruct fl; simpl in Hc; try (by apply elem_of_nil in Hc); find_phases Hc.
Qed.

Lemma required_never_reset fl mv c : c ∈ required fl mv -> c <> ConditionMasterExitReadOnlyPrepared.
Proof.
  intros Hc ->. revert Hc. destruct mv as [s|k]; [destruct s|destruct k]; destruct fl;
    apply (bool_decide_unpack _); vm_compute; exact I.
Qed.

Lemma leads_required fl xs mv :
  leads fl UpdateStateNone xs mv ->
  Forall (fun c => exists x, x ∈ xs /\ fact_condition x c = true) (required fl mv).
Proof.
  intros Hl. apply Forall_forall. intros c Hc.
  destruct (required_mandatory _ _ _ Hc) as (pre & Hp & q & Hq & Hd).
  pose proof (leads_mandatory _ _ _ _ Hl Hp) as Hall. rewrite Forall_forall in Hall.
  destruct (Hall q Hq) as (x & Hx & Hdone). exists x. split; [done|].
  rewrite Hd in Hdone. exact Hdone.
Qed.

(** ** What an update waits for *)

Definition awaited (fl : UpdateFlow) (s : UpdateState) (x : facts) : Prop :=
  forall p, p ∈ phases fl -> ph_state p = s -> ph_done p x = true \/ ph_skip p x = true.

Lemma transition_awaited fl s x :
  s ∈ ph_state <$> phases fl -> awaited fl s x ->
  transition fl s x = Some (ToCluster ClusterStateUpdateFinishing) \/
  exists s', transition fl s x = Some (ToUpdate s') /\ s' ∈ ph_state <$> phases fl /\
    phases_left fl s' < phases_left fl s.
Proof.
  intros Hin Hx. pose proof (phases_not_impossible fl) as Hni.
  assert (s <> UpdateStateImpossibleToStart) as Hs by (by intros ->).
  assert (exists p rest, phases_from s (phases fl) = p :: rest) as (p & rest & Hp).
  { pose proof (phases_left_pos _ _ Hin) as Hpos. unfold phases_left in Hpos.
    rewrite decide_False in Hpos by done. destruct (phases_from _ _); simpl in Hpos; [lia|eauto]. }
  pose proof (phases_from_split _ _ _ _ Hp) as (pre & Hf & Hps).
  assert (p ∈ phases fl) as Hpin by (rewrite Hf, elem_of_app; right; left).
  assert (exists l pre', phases fl = pre' ++ l /\ transition fl s x = Some (enter l)) as (l & pre' & Hl & Ht).
  { unfold transition. rewrite decide_False, Hp by done. destruct (ph_skip p x) eqn:Hk.
    - exists (tail rest). destruct rest as [|q rest]; simpl.
      + exists (phases fl). by rewrite app_nil_r.
      + exists (pre ++ [p; q]). by rewrite <- (assoc_L (++)).
    - destruct (Hx p Hpin Hps) as [->|]; [|congruence]. exists rest, (pre ++ [p]).
      by rewrite <- (assoc_L (++)). }
  destruct l as [|q l]; [by left|right]. exists (ph_state q). split; [done|].
  apply transition_progress in Ht as [_ ?]. split; [|done].
  rewrite Hl, fmap_app, elem_of_app. right. left.
Qed.

(** ** Reconciliations and the statuses they leave *)

Section Step.
Context {H E : Type} `{K : Kube E} `{CM : ConditionMeta}.
Context `{KL : !KubeLaws E K} `{CL : !ConditionMetaLaws CM}.
Local Abbreviation W := (World H E).
Implicit Types (f : Factory W) (w : W) (cm : ComponentManager W).

Definition is_updating w : Prop := st_State (status w) = ClusterStateUpdating.

(** Where a cluster is in an update. *)
Definition position (st : YtsaurusStatus) : ClusterState * UpdateState * UpdateFlow * slice string :=
  let u := st_UpdateStatus st in (st_State st, us_State u, us_Flow u, us_Components u).

Definition moved_to (mv : move) (st : YtsaurusStatus) : YtsaurusStatus :=
  match mv with
  | ToUpdate s => set_st_UpdateStatus (set_us_State s (st_UpdateStatus st)) st
  | ToCluster c => set_st_State c st
  end.

Lemma apply_move_status mv w : status (apply_move mv w) = moved_to mv (status w).
Proof. by destruct mv. Qed.

(** What the components leave of a status: the position, and what was
    acknowledged. *)
Definition recorded (st st' : YtsaurusStatus) : Prop :=
  position st' = position st /\ keeps (st_UpdateStatus st) (st_UpdateStatus st').

Lemma frame_recorded w w' : frame w w' -> recorded (status w) (status w').
Proof.
  intros (Hc & Hk & _). split; [|exact Hk]. unfold control in Hc. unfold position.
  fold (updateStatus w) (updateStatus w'). congruence.
Qed.

Lemma frame_position w w' : frame w w' -> position (status w') = position (status w).
Proof. by intros [? _]%frame_recorded. Qed.

Lemma frame_persisted w w' : frame w w' -> persisted (ext w') = persisted (ext w).
Proof. intros (Hc & _). unfold control in Hc. congruence. Qed.

(** The pass over the components saves no other position. *)
Lemma Manager_Sync_recorded cm w r w' :
  Forall ComponentLaws (allComponents cm) -> Manager_Sync cm w = Some (r, w') ->
  persisted (ext w') = persisted (ext w) \/ recorded (status w) (persisted (ext w')).
Proof.
  intros Hcs Hrun. apply bind_inv in Hrun as (res & w1 & Hrun & Hret).
  assert (frame w w1) as Hfr by (by eapply syncComponents_frame).
  destruct res as [early|pending]; [injection Hret as _ <-; left; by apply frame_persisted|].
  destruct (UpdateStatus_saved w1) as (err & w2 & Hup & _ & _ & Hp).
  rewrite (bind_step _ _ _ _ _ Hup) in Hret.
  assert (w' = w2) as -> by (destruct err, pending; by inversion Hret).
  rewrite Hp. destruct err; [left; by apply frame_persisted|right; by apply frame_recorded].
Qed.

(** One reconciliation of an updating cluster: the server keeps the position,
    or it takes the move of the flow, decided on what the manager, freshly
    built, shows. *)
Lemma Sync_updating f w r w' :
  FactoryLaws f -> status w = persisted (ext w) -> is_updating w -> Sync f w = Some (r, w') ->
  recorded (status w) (persisted (ext w')) \/
  exists cm w1 mv, NewComponentManager f w = Some (inr cm, w1) /\
    transition (us_Flow (updateStatus w)) (us_State (updateStatus w)) (facts_of cm w1) = Some mv /\
    recorded (status w) (status w1) /\ persisted (ext w') = moved_to mv (status w1).
Proof.
  intros Hf Hfresh Hup Hrun. apply bind_inv in Hrun as (y & w0 & Hg & Hrun). injection Hg as <- <-.
  assert (forall w2, persisted (ext w2) = persisted (ext w) -> recorded (status w) (persisted (ext w2))) as Hsame.
  { intros w2 ->. by rewrite <- Hfresh. }
  destruct (negb _); [injection Hrun as _ <-; left; by apply Hsame|].
  apply bind_inv in Hrun as (res & w1 & Hnew & Hrun).
  assert (frame w w1) as Hfr by (by eapply NewComponentManager_frame).
  pose proof (frame_recorded _ _ Hfr) as [Hpos Hk]. pose proof (frame_persisted _ _ Hfr) as Hper.
  destruct res as [err|cm]; [injection Hrun as _ <-; left; by apply Hsame|].
  assert (Forall ComponentLaws (allComponents cm)) as Hcs.
  { apply NewComponentManager_iff in Hnew as (cs & q & s & ss & Hb & _ & ->). by eapply Hf. }
  apply bind_inv in Hrun as (res & w2 & Hst & Hrun).
  apply bind_inv in Hst as (st & w3 & Hg & Hst). injection Hg as <- <-.
  pose proof Hpos as Hpos'. unfold position in Hpos'. injection Hpos' as Hc Hs Hfl _.
  unfold is_updating in Hup. rewrite Hup in Hc. rewrite Hc in Hst.
  apply bind_inv in Hst as ([o err] & w4 & Hh & Hst).
  apply handle_flow_step in Hh as [[[= -> ->] ->]|(mv & res1 & err1 & [= -> ->] & Ht & _ & Hp)].
  - injection Hst as <- <-. left.
    apply Manager_Sync_recorded in Hrun as [Hp|[Hp Hk2]]; [apply Hsame; congruence| |done].
    split; [by rewrite Hp|by transitivity (st_UpdateStatus (status w1))].
  - injection Hst as <- <-. injection Hrun as _ <-. rewrite apply_move_status in Hp.
    destruct err1; [left; apply Hsame; congruence|right]. exists cm, w1, mv.
    split; [done|]. split; [|done]. unfold updateStatus in *. by rewrite <- Hs, <- Hfl.
Qed.

(** *** How an update starts *)

Definition no_update w : Prop :=
  st_State (status w) <> ClusterStateUpdating /\ st_State (persisted (ext w)) <> ClusterStateUpdating.

(** The start of an update on the server: the flow and the components are
    added to the update status the manager saw. *)
Definition started w w' : Prop :=
  st_State (status w) = ClusterStateRunning /\
  exists fl cs, known_flow fl /\ st_State (persisted (ext w')) = ClusterStateUpdating /\
    st_UpdateStatus (persisted (ext w')) = set_us_Components cs (set_us_Flow fl (updateStatus w)).

(** What a case of the switch on the cluster state does outside an update. *)
Definition starts_or_not w (r : option (Result * error)) w' : Prop :=
  st_State (persisted (ext w')) <> ClusterStateUpdating /\ (r = None -> w' = w) \/
  started w w' /\ r <> None.

Lemma saved_no_update g err w w' :
  saved g err w' -> persisted (ext g) = persisted (ext w) -> no_update w ->
  st_State (status g) <> ClusterStateUpdating -> no_update w'.
Proof.
  intros (Hr & _ & Hp) He [_ Hw] Hg. split; [unfold status; by rewrite Hr|].
  rewrite Hp. by destruct err; rewrite ?He.
Qed.

Lemma SaveClusterState_no_update s w err w' :
  SaveClusterState s w = Some (err, w') -> no_update w -> s <> ClusterStateUpdating -> no_update w'.
Proof.
  intros Hrun. destruct (SaveClusterState_saved s w) as (err' & w2 & Hrun' & Hs).
  rewrite Hrun in Hrun'. injection Hrun' as <- <-. intros Hw Hne. by apply (saved_no_update _ _ w _ Hs).
Qed.

Lemma finish_update_no_update w r w' : finish_update w = Some (r, w') -> no_update w -> no_update w'.
Proof.
  intros Hrun Hw. unfold finish_update in Hrun.
  destruct (SaveUpdateState_saved UpdateStateNone w) as (e1 & w1 & Hrun1 & Hs1).
  rewrite (bind_step _ _ _ _ _ Hrun1) in Hrun.
  assert (no_update w1) as H1 by (apply (saved_no_update _ _ w _ Hs1); [reflexivity|done|apply Hw]).
  destruct e1; [by injection Hrun as _ <-|].
  destruct (ClearUpdateStatus_saved w1) as (e2 & w2 & Hrun2 & Hs2).
  rewrite (bind_step _ _ _ _ _ Hrun2) in Hrun.
  assert (no_update w2) as H2 by (apply (saved_no_update _ _ w1 _ Hs2); [reflexivity|done|apply H1]).
  destruct e2; [by injection Hrun as _ <-|].
  apply bind_inv in Hrun as (e3 & w3 & Hrun3 & Hret). injection Hret as _ <-.
  by eapply SaveClusterState_no_update.
Qed.

Lemma save_state_starts_not s w (res : Result) r w' :
  no_update w -> s <> ClusterStateUpdating ->
  (err ← SaveClusterState s; mret (Some (res, err))) w = Some (r, w') -> starts_or_not w r w'.
Proof.
  intros Hw Hs (err & w1 & Hrun & [= <- <-])%bind_inv. left.
  split; [|done]. by eapply SaveClusterState_no_update in Hrun as [_ ?].
Qed.

Lemma nothing_starts_not w r : no_update w -> starts_or_not w r w.
Proof. intros [_ ?]. by left. Qed.

Lemma sync_running_starts cm w r w' :
  st_State (status w) = ClusterStateRunning -> no_update w -> sync_running cm w = Some (r, w') ->
  starts_or_not w r w'.
Proof.
  intros Hst Hw. unfold sync_running. destruct (negb (needSync cm)).
  { intros [= <- <-]. by apply nothing_starts_not. }
  destruct (needInit cm); [by apply save_state_starts_not|].
  destruct (is_nil (needUpdate cm)) eqn:Hnil; cbn [negb].
  { intros [= <- <-]. by apply nothing_starts_not. }
  intros Hrun. apply bind_inv in Hrun as (y & w1 & Hg & Hrun). injection Hg as <- <-.
  destruct (chooseUpdateFlow _ _ _ _) as [meta msg] eqn:Hch.
  destruct (bool_decide (msg = "")) eqn:Hmsg; cbn [negb] in Hrun.
  2: { injection Hrun as <- <-. by apply nothing_starts_not. }
  apply bool_decide_eq_true in Hmsg as ->.
  destruct (SaveUpdatingClusterState_saved (flow meta) (componentNames meta) w)
    as (e & w1 & Hrun1 & _ & _ & Hp).
  rewrite (bind_step _ _ _ _ _ Hrun1) in Hrun.
  destruct e as [e|]; injection Hrun as <- <-.
  - left. split; [|done]. rewrite Hp. by destruct Hw.
  - right. split; [|done]. split; [done|]. exists (flow meta), (componentNames meta).
    rewrite Hp. split; [by eapply chosen_known|]. by split.
Qed.

Lemma sync_state_starts cm w r w' :
  no_update w -> sync_state cm w = Some (r, w') -> starts_or_not w r w'.
Proof.
  intros Hw Hrun. pose proof Hw as [Hst _].
  apply bind_inv in Hrun as (s & w1 & Hg & Hrun). injection Hg as <- <-.
  destruct (st_State (status w)) eqn:Hs; try done.
  - eapply save_state_starts_not; [done| |exact Hrun]; done.
  - destruct (negb (needSync cm)); [eapply save_state_starts_not; [done| |exact Hrun]; done|].
    injection Hrun as <- <-. by apply nothing_starts_not.
  - by eapply sync_running_starts.
  - destruct (negb (needInit cm)); [eapply save_state_starts_not; [done| |exact Hrun]; done|].
    injection Hrun as <- <-. by apply nothing_starts_not.
  - apply bind_inv in Hrun as (res & w1 & Hrun & [= <- <-]). left. split; [|done].
    by apply (finish_update_no_update _ _ _ Hrun).
  - apply bind_inv in Hrun as (res & w1 & Hrun & [= <- <-]). left. split; [|done].
    by apply (finish_update_no_update _ _ _ Hrun).
  - injection Hrun as <- <-. by apply nothing_starts_not.
Qed.

(** A reconciliation of a cluster that is not updated starts no update, or
    starts one on a blank update status. *)
Lemma Sync_starting f w r w' :
  FactoryLaws f -> status w = persisted (ext w) -> coherent (ctl_of (status w)) -> ~ is_updating w ->
  Sync f w = Some (r, w') -> st_State (persisted (ext w')) = ClusterStateUpdating ->
  exists fl cs, known_flow fl /\
    st_UpdateStatus (persisted (ext w')) = set_us_Components cs (set_us_Flow fl blank).
Proof.
  intros Hf Hfresh Hco Hno Hrun Hup. unfold is_updating in Hno.
  apply bind_inv in Hrun as (y & w0 & Hg & Hrun). injection Hg as <- <-.
  destruct (negb _); [injection Hrun as _ <-; congruence|].
  apply bind_inv in Hrun as (res & w1 & Hnew & Hrun).
  assert (frame w w1) as Hfr by (by eapply NewComponentManager_frame).
  pose proof (frame_persisted _ _ Hfr) as Hper. destruct Hfr as (Hc & _ & Hus). specialize (Hus Hno).
  apply control_state in Hc.
  destruct res as [err|cm]; [injection Hrun as _ <-; congruence|].
  assert (Forall ComponentLaws (allComponents cm)) as Hcs.
  { apply NewComponentManager_iff in Hnew as (cs & q & s & ss & Hb & _ & ->). by eapply Hf. }
  apply bind_inv in Hrun as (res & w2 & Hst & Hrun).
  assert (no_update w1) as Hw1 by (split; congruence).
  apply sync_state_starts in Hst as [[Hst He]|[(Hr & fl & cs & Hk & _ & Hu) Hne]]; [| |done].
  - destruct res; [by injection Hrun as _ <-|]. rewrite He in Hrun by done.
    apply Manager_Sync_recorded in Hrun as [Hp|[Hp _]]; [|destruct Hw1|done]; [congruence|].
    unfold position in Hp. congruence.
  - destruct res; [|done]. injection Hrun as _ <-. exists fl, cs. split; [done|].
    rewrite Hu, Hus. f_equal. f_equal. unfold coherent, ctl_of in Hco. simpl in Hco.
    rewrite <- Hc, Hr in Hco. exact Hco.
Qed.

(** *** Reconciliations without error *)

Lemma finish_update_done w r w' :
  finish_update w = Some ((r, None), w') -> ctl_of (persisted (ext w')) = mkCtl ClusterStateRunning blank.
Proof.
  intros Hrun. unfold finish_update in Hrun.
  destruct (SaveUpdateState_saved UpdateStateNone w) as (e1 & w1 & Hrun1 & Hr1 & _).
  rewrite (bind_step _ _ _ _ _ Hrun1) in Hrun. destruct e1; [done|].
  destruct (ClearUpdateStatus_saved w1) as (e2 & w2 & Hrun2 & Hr2 & _).
  rewrite (bind_step _ _ _ _ _ Hrun2) in Hrun. destruct e2; [done|].
  destruct (SaveClusterState_saved ClusterStateRunning w2) as (e3 & w3 & Hrun3 & _ & _ & Hp3).
  rewrite (bind_step _ _ _ _ _ Hrun3) in Hrun. injection Hrun as _ -> <-. rewrite Hp3.
  unfold ctl_of, set_status, status; simpl. rewrite Hr2. simpl.
  unfold status; rewrite Hr1. reflexivity.
Qed.

(** The manager is built, its components are what it found. *)
Lemma Sync_answered f w res w' :
  FactoryLaws f -> sp_IsManaged (yt_Spec (resource w)) = true -> Sync f w = Some ((res, None), w') ->
  exists cm w1, NewComponentManager f w = Some (inr cm, w1) /\ frame w w1 /\
    exists r w2, sync_state cm w1 = Some (r, w2) /\
      match r with
      | Some r => r = (res, None) /\ w' = w2
      | None => Manager_Sync cm w2 = Some ((res, None), w')
      end.
Proof.
  intros Hf Hman Hrun. apply bind_inv in Hrun as (y & w0 & Hg & Hrun). injection Hg as <- <-.
  rewrite Hman in Hrun. apply bind_inv in Hrun as (rcm & w1 & Hnew & Hrun).
  destruct rcm as [err|cm]; [done|]. exists cm, w1. split; [done|].
  split; [by eapply NewComponentManager_frame|].
  apply bind_inv in Hrun as (r & w2 & Hst & Hrun). exists r, w2. split; [done|].
  destruct r; [|done]. by injection Hrun as -> <-.
Qed.

Lemma Sync_finishing f w res w' :
  FactoryLaws f -> sp_IsManaged (yt_Spec (resource w)) = true ->
  st_State (status w) = ClusterStateUpdateFinishing -> Sync f w = Some ((res, None), w') ->
  ctl_of (persisted (ext w')) = mkCtl ClusterStateRunning blank.
Proof.
  intros Hf Hman Hst Hrun.
  destruct (Sync_answered _ _ _ _ Hf Hman Hrun) as (cm & w1 & _ & Hfr & r & w2 & Hss & Hr).
  destruct Hfr as (Hc & _). apply control_state in Hc. rewrite Hst in Hc.
  apply bind_inv in Hss as (s & w3 & Hg & Hss). injection Hg as <- <-. rewrite Hc in Hss.
  apply bind_inv in Hss as ([res2 err2] & w4 & Hfin & [= <- <-]). destruct Hr as [[= -> ->] ->].
  by eapply finish_update_done.
Qed.

(** With a move to make, a reconciliation without error makes it. *)
Lemma Sync_moves f w res w' cm w1 mv :
  FactoryLaws f -> sp_IsManaged (yt_Spec (resource w)) = true -> is_updating w ->
  Sync f w = Some ((res, None), w') -> NewComponentManager f w = Some (inr cm, w1) ->
  transition (us_Flow (updateStatus w)) (us_State (updateStatus w)) (facts_of cm w1) = Some mv ->
  position (status w1) = position (status w) /\ persisted (ext w') = moved_to mv (status w1).
Proof.
  intros Hf Hman Hup Hrun Hnew Ht.
  destruct (Sync_answered _ _ _ _ Hf Hman Hrun) as (cm' & w1' & Hnew' & Hfr & r & w2 & Hss & Hr).
  rewrite Hnew in Hnew'. injection Hnew' as <- <-. pose proof (frame_position _ _ Hfr) as Hpos.
  split; [done|]. unfold position in Hpos. injection Hpos as Hc Hs Hfl _.
  fold (updateStatus w) (updateStatus w1) in Hs, Hfl. rewrite <- Hs, <- Hfl in Ht.
  unfold is_updating in Hup. rewrite Hup in Hc.
  apply bind_inv in Hss as (s & w3 & Hg & Hss). injection Hg as <- <-. rewrite Hc in Hss.
  apply bind_inv in Hss as ([o err] & w4 & Hh & Hss).
  pose proof (handle_flow_behaves cm w1) as Hb. rewrite Ht in Hb.
  destruct Hb as (? & ? & ? & ? & Hh' & _). rewrite Hh in Hh'. injection Hh' as -> _ _.
  injection Hss as <- <-. destruct Hr as [[= -> ->] ->].
  apply handle_flow_step in Hh as [[? _]|(mv' & ? & ? & [= <- <-] & Ht' & _ & Hp)]; [done|].
  rewrite Ht in Ht'. injection Ht' as <-. by rewrite Hp, apply_move_status.
Qed.
End Step.

(** ** Histories *)

Section History.
Context {H E : Type} `{K : Kube E} `{CM : ConditionMeta}.
Context `{KL : !KubeLaws E K} `{CL : !ConditionMetaLaws CM}.
Local Abbreviation W := (World H E).
(** The constructors of the components read the resource of the world. *)
Context (f : W -> Factory W) (Hf : forall w, FactoryLaws (f w)).

(** [history st ws st']: from the status [st] on the server, reconciliations
    ran in the worlds [ws], one after the other, each on what the server then
    held, with or without an error, and left [st']. *)
Inductive history : YtsaurusStatus -> list W -> YtsaurusStatus -> Prop :=
| history_nil st : history st [] st
| history_cons w r w' ws st' :
    status w = persisted (ext w) -> Sync (f w) w = Some (r, w') ->
    history (persisted (ext w')) ws st' -> history (status w) (w :: ws) st'.

(** The statuses the server held. *)
Definition statuses (ws : list W) (st' : YtsaurusStatus) : list YtsaurusStatus :=
  (status <$> ws) ++ [st'].

Lemma history_statuses st ws st' : history st ws st' -> exists l, statuses ws st' = st :: l.
Proof. destruct 1; unfold statuses; simpl; eauto. Qed.

(** A history follows the life cycle. *)
Lemma history_simulated st ws st' : history st ws st' -> rtc cstep (ctl_of st) (ctl_of st').
Proof.
  induction 1 as [|w r w' ws st' Hfresh Hrun _ IH]; [done|]. eapply rtc_trans; [|exact IH].
  assert (moved (ctl_of (status w)) w) as Hm by (unfold moved, memory, server_ctl; by rewrite Hfresh).
  exact (proj2 (Sync_moved _ _ _ _ _ (Hf w) Hm Hrun)).
Qed.

(** How often the update state changed. *)
Fixpoint changes (l : list YtsaurusStatus) : nat :=
  match l with
  | st :: ((st2 :: _) as l') =>
      (if decide (us_State (st_UpdateStatus st) = us_State (st_UpdateStatus st2)) then 0 else 1)
      + changes l'
  | _ => 0
  end.

(** Where an update is, or how it ended. *)
Definition move_of (st : YtsaurusStatus) : move :=
  if decide (st_State st = ClusterStateUpdating) then ToUpdate (us_State (st_UpdateStatus st))
  else ToCluster (st_State st).

Definition has_ended (mv : move) : nat := match mv with ToUpdate _ => 0 | ToCluster _ => 1 end.

(** Nothing is left of a history of updating clusters once the update ended. *)
Lemma history_ended st ws st' :
  history st ws st' -> st_State st <> ClusterStateUpdating -> Forall is_updating ws ->
  ws = [] /\ st' = st.
Proof. destruct 1; [done|]. intros Hno Hall. by inversion Hall. Qed.

(** What was true when a move was made is recorded. *)
Definition acknowledged (u : Api.UpdateStatus) (x : facts) : Prop :=
  forall c, c <> ConditionMasterExitReadOnlyPrepared -> fact_condition x c = true ->
    meta_IsStatusConditionTrue (us_Conditions u) c = true.

Lemma moved_keeps st st1 mv :
  keeps (st_UpdateStatus st) (st_UpdateStatus st1) ->
  keeps (st_UpdateStatus st) (st_UpdateStatus (moved_to mv st1)).
Proof. by destruct mv. Qed.

(** While the cluster is updated, the statuses the server holds make a run of
    the flow, on conditions the server still holds in the end. *)
Lemma history_leads st ws st' :
  history st ws st' -> st_State st = ClusterStateUpdating -> Forall is_updating ws ->
  let u := st_UpdateStatus st in
  let u' := st_UpdateStatus st' in
  us_Flow u' = us_Flow u /\ us_Components u' = us_Components u /\ keeps u u' /\
  exists xs, leads (us_Flow u) (us_State u) xs (move_of st') /\
    changes (statuses ws st') + has_ended (move_of st') <= length xs /\
    (conditions_wf (us_Conditions u) -> Forall (acknowledged u') xs).
Proof.
  induction 1 as [st|w r w' ws st' Hfresh Hrun Hh IH]; intros Hup Hall; cbv zeta.
  { do 3 (split; [done|]). exists []. unfold move_of. rewrite decide_True by done.
    split; [constructor|]. split; [simpl; lia|constructor]. }
  inversion Hall as [|? ? Hw Hws]; subst. destruct (history_statuses _ _ _ Hh) as [l Hl].
  assert (statuses (w :: ws) st' = status w :: statuses ws st') as -> by done. cbv zeta in IH.
  destruct (Sync_updating _ _ _ _ (Hf w) Hfresh Hw Hrun)
    as [[Hpos Hk]|(cm & w1 & mv & _ & Ht & [Hpos Hk] & Hp)];
    unfold position in Hpos; injection Hpos as Hc Hs Hfl Hcs.
  - destruct IH as (-> & -> & Hk' & xs & Hlead & Hch & Hx); [congruence|done|].
    rewrite Hs, Hfl in Hlead. do 2 (split; [done|]). split; [by etransitivity|].
    exists xs. split; [done|]. split; [|by intros Hwf; apply Hx, Hk].
    rewrite Hl in Hch |- *. simpl. by rewrite decide_True.
  - pose proof (moved_keeps _ _ mv Hk) as Hk1. rewrite <- Hp in Hk1.
    assert (seen_in (facts_of cm w1) (st_UpdateStatus (persisted (ext w')))) as Hseen.
    { rewrite Hp. by destruct mv. }
    destruct mv as [s|c].
    + destruct IH as (Hf' & Hc' & Hk' & xs & Hlead & Hch & Hx); [by rewrite Hp; simpl; rewrite Hc|done|].
      split; [by rewrite Hf', Hp|]. split; [by rewrite Hc', Hp|]. split; [by etransitivity|].
      exists (facts_of cm w1 :: xs). split.
      { eapply leads_cons; [exact Ht|]. rewrite Hp in Hlead. simpl in Hlead. by rewrite Hfl in Hlead. }
      split; [rewrite Hl in Hch |- *; simpl in *; case_decide; lia|].
      intros Hwf. pose proof (proj1 (Hk1 Hwf)) as Hwf1. constructor; [|by apply Hx].
      intros t Hne Hct. apply (Hk' Hwf1); [done|]. by rewrite <- (Hseen t).
    + pose proof (transition_cluster _ _ _ _ Ht) as Hcl.
      assert (c <> ClusterStateUpdating) as Hc' by (intros ->; destruct Hcl as [[? _]|[? _]]; done).
      destruct (history_ended _ _ _ Hh) as [-> ->]; [by rewrite Hp|done|].
      split; [by rewrite Hp|]. split; [by rewrite Hp|]. split; [done|].
      exists [facts_of cm w1]. rewrite Hp. unfold move_of. simpl. rewrite decide_False by done.
      split; [by constructor|]. split; [rewrite decide_True by done; simpl; lia|].
      intros _. constructor; [|constructor]. intros t _ Hct. specialize (Hseen t).
      rewrite Hct in Hseen. by rewrite Hp in Hseen.
Qed.

(** The number of changes is bounded by the phases that were left. *)
Lemma history_changes st ws st' :
  history st ws st' -> st_State st = ClusterStateUpdating -> Forall is_updating ws ->
  let fl := us_Flow (st_UpdateStatus st) in
  changes (statuses ws st') +
    (if decide (st_State st' = ClusterStateUpdating) then phases_left fl (us_State (st_UpdateStatus st'))
     else 0) <= phases_left fl (us_State (st_UpdateStatus st)).
Proof.
  intros Hh Hup Hall. destruct (history_leads _ _ _ Hh Hup Hall) as (_ & _ & _ & xs & Hl & Hch & _).
  cbv zeta. apply leads_run in Hl as (ys & s' & Hr & Hcase). apply flow_run_bound in Hr.
  unfold move_of in *. case_decide as Hst.
  - destruct Hcase as [[-> [= ->]]|(x & c & _ & ? & _)]; [simpl in Hch; lia|done].
  - destruct Hcase as [[_ ?]|(x & c & -> & _ & _)]; [done|].
    rewrite length_app in Hch. simpl in Hch. lia.
Qed.


(** A reconciliation that goes well: it ends without error, and, during an
    update, shows what the current phase waits for. *)
Definition goes_well (w : W) : Prop :=
  sp_IsManaged (yt_Spec (resource w)) = true /\
  (exists res w', Sync (f w) w = Some ((res, None), w')) /\
  (is_updating w -> exists cm w1, NewComponentManager (f w) w = Some (inr cm, w1) /\
     awaited (us_Flow (updateStatus w)) (us_State (updateStatus w)) (facts_of cm w1)).

Lemma goes_well_moves w r w' :
  goes_well w -> is_updating w -> Sync (f w) w = Some (r, w') ->
  us_State (updateStatus w) ∈ ph_state <$> phases (us_Flow (updateStatus w)) ->
  let st' := persisted (ext w') in
  st_State st' = ClusterStateUpdateFinishing \/
  st_State st' = ClusterStateUpdating /\ us_Flow (st_UpdateStatus st') = us_Flow (updateStatus w) /\
  us_State (st_UpdateStatus st') ∈ ph_state <$> phases (us_Flow (updateStatus w)) /\
  phases_left (us_Flow (updateStatus w)) (us_State (st_UpdateStatus st')) <
    phases_left (us_Flow (updateStatus w)) (us_State (updateStatus w)).
Proof.
  intros (Hman & (res & w2 & Hrun) & Haw) Hup Hrun' Hin. rewrite Hrun in Hrun'. injection Hrun' as <- <-.
  destruct (Haw Hup) as (cm & w1 & Hnew & Hx). cbv zeta.
  destruct (transition_awaited _ _ _ Hin Hx) as [Ht|(s & Ht & Hs & Hlt)];
    destruct (Sync_moves _ _ _ _ _ _ _ (Hf w) Hman Hup Hrun Hnew Ht) as [Hpos ->]; [by left|right].
  unfold position in Hpos. injection Hpos as Hc _ Hfl _. simpl. rewrite Hc, Hfl. by split_and!.
Qed.

Lemma history_completes st ws st' :
  history st ws st' -> Forall goes_well ws -> st_State st = ClusterStateUpdating ->
  us_State (st_UpdateStatus st) ∈ ph_state <$> phases (us_Flow (st_UpdateStatus st)) ->
  phases_left (us_Flow (st_UpdateStatus st)) (us_State (st_UpdateStatus st)) < length ws ->
  exists st2, st2 ∈ statuses ws st' /\ ctl_of st2 = mkCtl ClusterStateRunning blank.
Proof.
  induction 1 as [st|w r w' ws st' Hfresh Hrun Hh IH]; intros Hall Hup Hin Hlen; simpl in Hlen; [lia|].
  inversion Hall as [|? ? Hw Hws]; subst. destruct (history_statuses _ _ _ Hh) as [l Hl].
  assert (statuses (w :: ws) st' = status w :: statuses ws st') as -> by done.
  destruct (goes_well_moves _ _ _ Hw Hup Hrun Hin) as [Hfin|(Hup' & Hfl & Hin' & Hlt)].
  - pose proof (phases_left_pos _ _ Hin) as Hpos.
    destruct Hh as [|w2 r2 w2' ws st' Hfresh2 Hrun2 Hh]; [simpl in Hlen; lia|].
    inversion Hws as [|? ? (Hman & (res & w3 & Hrun3) & _) _]; subst.
    rewrite Hrun2 in Hrun3. injection Hrun3 as -> <-.
    destruct (history_statuses _ _ _ Hh) as [l2 Hl2]. exists (persisted (ext w2')). split.
    + change (statuses (w2 :: ws) st') with (status w2 :: statuses ws st'). rewrite Hl2. do 2 right. left.
    + by eapply Sync_finishing.
  - destruct IH as (st2 & Hst2 & Hc); [done|done|by rewrite Hfl|rewrite Hfl; unfold updateStatus in *; lia|].
    exists st2. split; [by right|done].
Qed.
End History.

(** ** Theorems *)

Section Theorems.
Context {H E : Type} `{K : Kube E} `{CM : ConditionMeta}.
Context `{KL : !KubeLaws E K} `{CL : !ConditionMetaLaws CM}.
Local Abbreviation W := (World H E).

(** An update that begins: a reconciliation of a cluster that was not updated
    left the status [st] of an updating one. *)
Definition begins (f : W -> Factory W) (st : YtsaurusStatus) : Prop :=
  exists (w : W) r w', status w = persisted (ext w) /\ coherent (ctl_of (status w)) /\ ~ is_updating w /\
    Sync (f w) w = Some (r, w') /\ persisted (ext w') = st /\ st_State st = ClusterStateUpdating.

Lemma begins_blank f st :
  (forall w, FactoryLaws (f w)) -> begins f st ->
  st_State st = ClusterStateUpdating /\
  exists fl cs, known_flow fl /\ st_UpdateStatus st = set_us_Components cs (set_us_Flow fl blank).
Proof.
  intros Hf (w & r & w' & Hfresh & Hco & Hno & Hrun & <- & Hup). split; [done|].
  by apply (Sync_starting (f w) w r w').
Qed.

(** C5. Updates end.  Over any sequence of reconciliations of an updating
    cluster, each of which may fail, the flow and the components of the update
    stay, and the update state the API server holds changes at most as often as
    phases were left, at most sixteen times; it is always one that the handler
    of the flow has a case for, and the update is left only to be finished or
    cancelled. *)
Theorem update_terminates (f : W -> Factory W) (st : YtsaurusStatus) (ws : list W) (st' : YtsaurusStatus)
    (Hf : forall w, FactoryLaws (f w)) (Hhist : history f st ws st')
    (Hup : st_State st = ClusterStateUpdating) (Hall : Forall is_updating ws)
    (Hco : coherent (ctl_of st)) :
  let u := st_UpdateStatus st in
  let u' := st_UpdateStatus st' in
  us_Flow u' = us_Flow u /\ us_Components u' = us_Components u /\
  changes (statuses ws st') <= phases_left (us_Flow u) (us_State u) <= 16 /\
  (st_State st' = ClusterStateUpdating /\ flow_state (us_Flow u') (us_State u') /\
     changes (statuses ws st') + phases_left (us_Flow u) (us_State u') <= phases_left (us_Flow u) (us_State u) \/
   st_State st' = ClusterStateUpdateFinishing \/ st_State st' = ClusterStateCancelUpdate).
Proof.
  cbv zeta. destruct (history_leads f Hf st ws st' Hhist Hup Hall) as (Hfl & Hcs & _ & xs & Hl & _).
  pose proof (history_changes f Hf st ws st' Hhist Hup Hall) as Hch. cbv zeta in Hch.
  assert (flow_state (us_Flow (st_UpdateStatus st)) (us_State (st_UpdateStatus st))) as Hfs.
  { unfold coherent, ctl_of in Hco. simpl in Hco. by rewrite Hup in Hco. }
  split; [done|]. split; [done|]. split; [split; [lia|apply phases_left_16]|].
  apply leads_run in Hl as (ys & s' & Hr & Hcase). unfold move_of in Hcase. case_decide as Hst.
  - left. split; [done|]. destruct Hcase as [[_ [= <-]]|(? & ? & _ & ? & _)]; [|done].
    split; [|lia]. rewrite Hfl. by eapply (flow_terminates _ _ _ _ Hr).
  - right. destruct Hcase as [[_ ?]|(x & c & _ & [= <-] & Ht)]; [done|].
    apply transition_cluster in Ht as [[-> _]|[-> _]]; auto.
Qed.

(** C6. Nothing is torn down before it is safe, and nothing is left undone.  An
    update starts with a blank update status, so no condition of an earlier
    update counts; and when the server holds that it waits for the removal of
    pods, it also holds as true every condition the flow requires: for the full
    flow the update is possible, safe mode is on, the tablet cells are saved,
    their removal started and finished, and the master snapshots are built.  When
    it holds that the update finishes, so are the others: the masters left the
    read-only state, the tablet cells were recovered and safe mode is off. *)
Theorem update_guarded (f : W -> Factory W) (st : YtsaurusStatus) (ws : list W) (st' : YtsaurusStatus)
    (Hf : forall w, FactoryLaws (f w)) (Hstart : begins f st) (Hhist : history f st ws st')
    (Hall : Forall is_updating ws) :
  us_Conditions (st_UpdateStatus st) = [] /\
  Forall (fun c => meta_IsStatusConditionTrue (us_Conditions (st_UpdateStatus st')) c = true)
    (required (us_Flow (st_UpdateStatus st')) (move_of st')).
Proof.
  destruct (begins_blank f st Hf Hstart) as (Hup & fl & cs & _ & Hst).
  split; [by rewrite Hst|].
  destruct (history_leads f Hf st ws st' Hhist Hup Hall) as (Hfl & _ & _ & xs & Hl & _ & Hx).
  assert (conditions_wf (us_Conditions (st_UpdateStatus st))) as Hwf by (rewrite Hst; constructor).
  specialize (Hx Hwf). rewrite Hfl. replace (us_State (st_UpdateStatus st)) with UpdateStateNone in Hl
    by (by rewrite Hst).
  apply Forall_forall. intros c Hc. pose proof (leads_required _ _ _ Hl) as Hreq.
  rewrite Forall_forall in Hreq. destruct (Hreq c Hc) as (x & Hin & Htrue).
  apply (proj1 (Forall_forall _ _) Hx x Hin); [|done]. by eapply required_never_reset.
Qed.

(** C7. Updates finish.  If the reconciliations of a cluster end without error
    and during the update show what the current phase waits for, then after
    one more than the phases that were left the server has held the status of
    a running cluster with a blank update status, whichever optional phases
    were skipped. *)
Theorem update_completes (f : W -> Factory W) (st : YtsaurusStatus) (ws : list W) (st' : YtsaurusStatus)
    (Hf : forall w, FactoryLaws (f w)) (Hhist : history f st ws st') (Hwell : Forall (goes_well f) ws)
    (Hup : st_State st = ClusterStateUpdating)
    (Hin : us_State (st_UpdateStatus st) ∈ ph_state <$> phases (us_Flow (st_UpdateStatus st)))
    (Hlen : phases_left (us_Flow (st_UpdateStatus st)) (us_State (st_UpdateStatus st)) < length ws) :
  exists st2, st2 ∈ statuses ws st' /\ ctl_of st2 = mkCtl ClusterStateRunning blank.
Proof. by eapply history_completes. Qed.
End Theorems.

(** ** Witnesses *)

Import RefKube RefMeta.

Module UpdateWitness.
Local Abbreviation W := (World unit YtsaurusStatus).

(** Everything the update of the masters waits for. *)
Definition awaited_conditions : list string :=
  [ConditionHasPossibility; ConditionSafeModeEnabled; ConditionSnaphotsSaved;
   GetPodsRemovedCondition (ComponentType_string MasterType); ConditionMasterExitedReadOnly;
   ConditionSafeModeDisabled].

Fixpoint acknowledge_all (cs : list string) : M W unit :=
  match cs with
  | [] => mret tt
  | c :: cs' =>
      _ ← SetUpdateStatusCondition (mkCondition c ConditionTrue 0 "Update" "");
      acknowledge_all cs'
  end.

(** A master that needs an update, and then acknowledges at once all that is
    waited for. *)
Definition master_status : M W SyncResult :=
  state ← GetClusterState;
  if decide (state = ClusterStateUpdating) then
    _ ← acknowledge_all awaited_conditions; mret (SimpleStatus SyncStatusUpdating, None)
  else mret (SimpleStatus SyncStatusNeedLocalUpdate, None).

Definition master : Component W :=
  mkComponent _ (mret None) (mret None) master_status (ComponentType_string MasterType) MasterType
    (fun _ => mret tt) true.

Lemma master_laws : ComponentLaws master.
Proof.
  split; try (intros; apply preserves_ret, _). apply preserves_while_updating; [|apply preserves_ret, _].
  apply preserves_bind; [tc_solve| |intros []; apply preserves_ret, _].
  induction awaited_conditions as [|c cs IH]; simpl; [apply preserves_ret, _|].
  apply preserves_bind; [tc_solve|apply preserves_acknowledge|by intros []].
Qed.

Definition ready_factory : Factory W := SampleFactory.factory MasterType SyncStatusReady.

Definition factory (_ : W) : Factory W :=
  let f := ready_factory in
  mkFactory _ (NewDiscovery f) master (NewHTTPProxy f) (NewYtsaurusClient f) (NewDataNode f) (NewUI f)
    (NewRPCProxy f) (NewTCPProxy f) (NewExecNode f) (NewTabletNode f) (NewScheduler f)
    (NewControllerAgent f) (NewQueryTracker f) (NewQueueAgent f) (NewYQLAgent f)
    (NewStrawberryController f) (NewMasterCache f).

Lemma master_factory_laws w : FactoryLaws (factory w).
Proof.
  intros spec cs q s Hb. eapply buildComponents_Forall; [|exact Hb].
  split; intros; first [exact master_laws | exact (SampleFactory.component_laws MasterType SyncStatusReady _)].
Qed.

(** The world of a reconciliation that starts from a status. *)
Definition spec : YtsaurusSpec := sample_Spec true UpdateSelectorMasterOnly.
Definition world (st : YtsaurusStatus) : W := mkWorld (mkYtsaurus "minisaurus" "default" spec st) tt st.

(** [n] reconciliations. *)
Fixpoint run (n : nat) (st : YtsaurusStatus) : option (list W * YtsaurusStatus) :=
  match n with
  | 0 => Some ([], st)
  | S n =>
      match Sync (factory (world st)) (world st) with
      | Some (_, w') =>
          match run n (persisted (ext w')) with
          | Some (ws, st') => Some (world st :: ws, st')
          | None => None
          end
      | None => None
      end
  end.

Lemma run_history n st ws st' : run n st = Some (ws, st') -> history factory st ws st'.
Proof.
  revert st ws st'. induction n as [|n IH]; intros st ws st'; simpl; [intros [= <- <-]; constructor|].
  destruct (Sync _ _) as [[r w']|] eqn:Hs; [|done].
  destruct (run n _) as [[ws1 st1]|] eqn:Hr; [|done]. intros [= <- <-].
  apply (history_cons factory (world st) r w'); [done|done|by apply IH].
Qed.

(** The status of the running cluster, and after the start of the update. *)
Definition running : YtsaurusStatus := sample_Status ClusterStateRunning.
Definition start : YtsaurusStatus := match run 1 running with Some (_, st) => st | None => running end.

Definition goes_well_b (w : W) : bool :=
  sp_IsManaged (yt_Spec (resource w)) &&
  match Sync (factory w) w with Some ((_, None), _) => true | _ => false end &&
  match NewComponentManager (factory w) w with
  | Some (inr cm, w1) =>
      forallb (fun p => negb (bool_decide (ph_state p = us_State (updateStatus w)))
                        || ph_done p (facts_of cm w1) || ph_skip p (facts_of cm w1))
        (phases (us_Flow (updateStatus w)))
  | _ => false
  end.

Lemma goes_well_b_true w : goes_well_b w = true -> goes_well factory w.
Proof.
  unfold goes_well_b. intros [[Hm Hs]%andb_true_iff Hn]%andb_true_iff. split; [done|]. split.
  - destruct (Sync _ _) as [[[res [?|]] w']|]; [done|eauto|done].
  - intros _. destruct (NewComponentManager _ _) as [[[?|cm] w1]|]; [done| |done].
    exists cm, w1. split; [done|]. intros p Hp Hst. rewrite forallb_forall in Hn.
    specialize (Hn p (proj1 (list_elem_of_In _ _) Hp)).
    rewrite bool_decide_eq_true_2 in Hn by done. by apply orb_true_iff.
Qed.
End UpdateWitness.

Import UpdateWitness.

Lemma start_begins : begins factory start.
Proof.
  exists (world running). destruct (Sync (factory (world running)) (world running)) as [[r w']|] eqn:Hrun;
    [|exfalso; revert Hrun; vm_compute; discriminate].
  assert (start = persisted (ext w')) as ->.
  { revert Hrun. vm_compute. by intros [= _ <-]. }
  exists r, w'. split_and!; try done. revert Hrun. vm_compute. by intros [= _ <-].
Qed.

(** The update of the masters has eight phases. *)
Lemma update_terminates_witness :
  exists ws st', run 8 start = Some (ws, st') /\ st_State st' = ClusterStateUpdateFinishing /\
    us_Flow (st_UpdateStatus st') = UpdateFlowMaster /\ changes (statuses ws st') <= 8.
Proof.
  destruct (run 8 start) as [[ws st']|] eqn:Hrun; [|exfalso; revert Hrun; vm_compute; discriminate].
  destruct (update_terminates factory start ws st' master_factory_laws (run_history _ _ _ _ Hrun))
    as (Hfl & _ & [Hch _] & _).
  - vm_compute. reflexivity.
  - revert Hrun. vm_compute. intros [= <- _]. repeat constructor.
  - apply (bool_decide_unpack _). vm_compute. exact I.
  - exists ws, st'. split; [done|]. split; [|split; [exact Hfl|exact Hch]].
    revert Hrun. vm_compute. by intros [= _ <-].
Defined.

Lemma update_guarded_witness :
  exists ws st', run 4 start = Some (ws, st') /\
    us_State (st_UpdateStatus st') = UpdateStateWaitingForPodsRemoval /\
    Forall (fun c => meta_IsStatusConditionTrue (us_Conditions (st_UpdateStatus st')) c = true)
      [ConditionHasPossibility; ConditionSafeModeEnabled; ConditionSnaphotsSaved].
Proof.
  destruct (run 4 start) as [[ws st']|] eqn:Hrun; [|exfalso; revert Hrun; vm_compute; discriminate].
  assert (us_State (st_UpdateStatus st') = UpdateStateWaitingForPodsRemoval /\
          required (us_Flow (st_UpdateStatus st')) (move_of st') =
            [ConditionHasPossibility; ConditionSafeModeEnabled; ConditionSnaphotsSaved] /\
          Forall is_updating ws) as (Hs & Hreq & Hup).
  { revert Hrun. vm_compute. intros [= <- <-]. repeat constructor. }
  exists ws, st'. split; [done|]. split; [done|]. rewrite <- Hreq.
  by apply (update_guarded factory start ws st' master_factory_laws start_begins (run_history _ _ _ _ Hrun)).
Defined.

Lemma update_completes_witness :
  exists ws st' st2, run 9 start = Some (ws, st') /\ st2 ∈ statuses ws st' /\
    ctl_of st2 = mkCtl ClusterStateRunning blank.
Proof.
  destruct (run 9 start) as [[ws st']|] eqn:Hrun; [|exfalso; revert Hrun; vm_compute; discriminate].
  destruct (update_completes factory start ws st' master_factory_laws (run_history _ _ _ _ Hrun)) as (st2 & H1 & H2).
  - apply Forall_forall. intros w Hw%list_elem_of_In. apply goes_well_b_true.
    revert w Hw. apply forallb_forall.
    transitivity (match run 9 start with Some (ws, _) => forallb goes_well_b ws | None => false end);
      [by rewrite Hrun|vm_compute; reflexivity].
  - vm_compute. reflexivity.
  - apply (bool_decide_unpack _). vm_compute. exact I.
  - assert (length ws = 9) as ->; [|vm_compute; lia].
    assert (length (from_option fst [] (run 9 start)) = 9) as Hl by (vm_compute; reflexivity).
    by rewrite Hrun in Hl.
  - exists ws, st', st2. by split_and!.
Defined.
