(* ===== verification/Webhook.v ===== *)
(** * Admission of a resource: api/v1/ytsaurus_webhook.go

    The validating webhook checks a specification before the operator ever
    sees it.  Each [validateX] returns a list of errors; a resource is admitted
    when all of them are empty.  k8s.io/apimachinery's [field] package only
    builds values, so paths and errors are constructors here; printing a path,
    decoding a YAML container and listing the resources of a namespace are
    parameters. *)

From S2P Require Import Prelude Api Kube Samples Names Resources Nodes.

(** ** Paths and errors *)

Inductive PathElement := Child (name : string) | Index (i : nat).

(** [field.NewPath("spec").Child(..).Index(..)]. *)
Definition Path : Type := list PathElement.

Definition spec_path (name : string) : Path := [Child "spec"; Child name].
Definition child (p : Path) (name : string) : Path := p ++ [Child name].
Definition index (p : Path) (i : nat) : Path := p ++ [Index i].

(** The rejected values. *)
Inductive BadValue :=
| BadString (s : string)
| BadStrings (l : list string)
| BadInt (n : Z)
| BadBool (b : bool)
| BadLocation (l : LocationSpec)
| BadLocationType (t : LocationType)
| BadSpyt (s : DeprecatedSpytSpec).

Inductive FieldError :=
| Required (p : Path) (detail : string)
| Invalid (p : Path) (value : BadValue) (detail : string)
| NotFound (p : Path) (value : BadValue)
| Duplicate (p : Path) (value : BadValue)
| Forbidden (p : Path) (detail : string)
| InternalError (p : Path) (err : string).

Abbreviation ErrorList := (list FieldError) (only parsing).

(** [Path.String()]. *)
Class PathText := path_String : Path -> string.

(** [yaml.UnmarshalStrict] may fill a part of the container before it fails:
    the name it leaves behind. *)
Class PartialYaml := partial_name : string -> string.

(** [Client.List] of the resources in a namespace: an error, flagged when it
    is [IsNotFound], and the names of the items found. *)
Class Lister (E : Type) := list_Ytsaurus : string -> E -> option (bool * string) * list string.

Section Validators.
Context {E : Type} `{PT : PathText} `{CY : ContainerYaml} `{PY : PartialYaml} `{LI : Lister E}.

(** [if cond { allErrors = append(allErrors, err) }] *)
Definition fail_if (cond : bool) (err : FieldError) : ErrorList := if cond then [err] else [].

(** The inner loop: is the location under some mount? *)
Definition in_volume_mount (mounts : list VolumeMount) (location : LocationSpec) : bool :=
  existsb (fun volumeMount => String.prefix (vm_MountPath volumeMount) (loc_Path location)) mounts.

Definition validateInstanceSpec (instanceSpec : InstanceSpec) (path : Path) : ErrorList :=
  match is_EnableAntiAffinity instanceSpec with
  | Some b => [Invalid (child path "EnableAntiAffinity") (BadBool b)
                 "EnableAntiAffinity is deprecated, use Affinity instead"]
  | None => []
  end ++
  concat (imap (fun locationIdx location =>
            fail_if (negb (in_volume_mount (is_VolumeMounts instanceSpec) location))
              (Invalid (index (child path "locations") locationIdx) (BadLocation location)
                 "location path is not in any volume mount"))
          (is_Locations instanceSpec)).

Definition validateDiscovery (newYtsaurus : YtsaurusSpec) : ErrorList :=
  validateInstanceSpec (sp_Discovery newYtsaurus) (spec_path "discovery").

(** A location of the type exists, or an error. *)
Definition require_location (spec : InstanceSpec) (t : LocationType) (path : Path) : ErrorList :=
  match FindFirstLocation (is_Locations spec) t with
  | None => [NotFound (child path "locations") (BadLocationType t)]
  | Some _ => []
  end.

Definition validateHostAddresses (newYtsaurus : YtsaurusSpec) (fieldPath : Path) : ErrorList :=
  let masters := sp_PrimaryMasters newYtsaurus in
  let hostAddresses := mcs_HostAddresses (ms_MasterConnectionSpec masters) in
  let hostAddressesFieldPath := child fieldPath "hostAddresses" in
  let hostNetwork := default (cs_HostNetwork (sp_CommonSpec newYtsaurus))
                       (is_HostNetwork (ms_InstanceSpec masters)) in
  fail_if (negb hostNetwork && negb (length hostAddresses =? 0)%nat)
    (Required (spec_path "hostNetwork")
       (path_String hostAddressesFieldPath +:+ " doesn't make sense without hostNetwork=true")%string) ++
  fail_if (negb (length hostAddresses =? 0)%nat &&
           negb (Z.of_nat (length hostAddresses) =? is_InstanceCount (ms_InstanceSpec masters))%Z)
    (Invalid hostAddressesFieldPath (BadStrings hostAddresses)
       (path_String hostAddressesFieldPath +:+ " list length shoud be equal to " +:+
          path_String (child fieldPath "instanceCount"))%string).

(** Masters of a cluster that is not ephemeral are kept on different nodes. *)
Definition needs_anti_affinity (newYtsaurus : YtsaurusSpec) : bool :=
  (is_InstanceCount (ms_InstanceSpec (sp_PrimaryMasters newYtsaurus)) >? 1)%Z &&
  negb (cs_EphemeralCluster (sp_CommonSpec newYtsaurus)).

Definition has_anti_affinity (affinity : option Affinity) : bool :=
  match affinity with
  | Some a => match aff_PodAntiAffinity a with Some _ => true | None => false end
  | None => false
  end.

Definition validatePrimaryMasters (newYtsaurus : YtsaurusSpec) (oldYtsaurus : option YtsaurusSpec)
    : ErrorList :=
  let path := spec_path "primaryMasters" in
  let masters := sp_PrimaryMasters newYtsaurus in
  let cellTag (s : YtsaurusSpec) := mcs_CellTag (ms_MasterConnectionSpec (sp_PrimaryMasters s)) in
  validateInstanceSpec (ms_InstanceSpec masters) path ++
  validateHostAddresses newYtsaurus path ++
  require_location (ms_InstanceSpec masters) LocationTypeMasterChangelogs path ++
  require_location (ms_InstanceSpec masters) LocationTypeMasterSnapshots path ++
  match oldYtsaurus with
  | Some old =>
      fail_if (negb (cellTag old =? cellTag newYtsaurus)%Z)
        (Invalid (child path "cellTag") (BadInt (cellTag newYtsaurus)) "Could not be changed")
  | None => []
  end ++
  fail_if (needs_anti_affinity newYtsaurus &&
           negb (has_anti_affinity (is_Affinity (ms_InstanceSpec masters))))
    (Required (child (child path "affinity") "podAntiAffinity")
       "Masters should be placed on different nodes").

Definition validateSecondaryMasters (newYtsaurus : YtsaurusSpec) : ErrorList :=
  concat (imap (fun i sm =>
            let path := index (spec_path "secondaryMasters") i in
            validateInstanceSpec (ms_InstanceSpec sm) path ++ validateHostAddresses newYtsaurus path)
          (sp_SecondaryMasters newYtsaurus)).

(** The loops that collect roles or names in a map: an entry whose key was
    seen before is a duplicate. *)
Fixpoint each_unique {A} (key : A -> string) (field : string) (parent : Path)
    (rest : Path -> A -> ErrorList) (seen : gset string) (i : nat) (l : list A) : ErrorList :=
  match l with
  | [] => []
  | x :: l' =>
      let path := index parent i in
      fail_if (bool_decide (key x ∈ seen)) (Duplicate (child path field) (BadString (key x))) ++
      rest path x ++
      each_unique key field parent rest ({[ key x ]} ∪ seen) (S i) l'
  end.

Definition validateHTTPProxies (newYtsaurus : YtsaurusSpec) : ErrorList :=
  let proxies := sp_HTTPProxies newYtsaurus in
  each_unique hp_Role "role" (spec_path "httpProxies")
    (fun path hp => validateInstanceSpec (hp_InstanceSpec hp) path) ∅ 0 proxies ++
  fail_if (negb (existsb (fun hp => bool_decide (hp_Role hp = DefaultHTTPProxyRole)) proxies))
    (Required (spec_path "httpProxies")
       ("HTTP proxy with `" +:+ DefaultHTTPProxyRole +:+ "` role should exist")%string).

Definition validateRPCProxies (newYtsaurus : YtsaurusSpec) : ErrorList :=
  each_unique rp_Role "role" (spec_path "rpcProxies")
    (fun path rp => validateInstanceSpec (rp_InstanceSpec rp) path) ∅ 0 (sp_RPCProxies newYtsaurus).

Definition validateTCPProxies (newYtsaurus : YtsaurusSpec) : ErrorList :=
  each_unique tp_Role "role" (spec_path "tcpProxies")
    (fun path tp => validateInstanceSpec (tp_InstanceSpec tp) path) ∅ 0 (sp_TCPProxies newYtsaurus).

Definition validateDataNodes (newYtsaurus : YtsaurusSpec) : ErrorList :=
  each_unique dn_Name "name" (spec_path "dataNodes")
    (fun path dn => validateInstanceSpec (dn_InstanceSpec dn) path ++
                    require_location (dn_InstanceSpec dn) LocationTypeChunkStore path)
    ∅ 0 (sp_DataNodes newYtsaurus).

(** The name of the decoded container, of what is left of it on an error. *)
Definition sidecar_name (sidecarSpec : string) : string :=
  match container_UnmarshalStrict sidecarSpec with
  | inr sidecar => ct_Name sidecar
  | inl _ => partial_name sidecarSpec
  end.

Fixpoint validateSidecars_from (sidecars : list string) (path : Path) (names : gset string) (i : nat)
    : ErrorList :=
  match sidecars with
  | [] => []
  | sidecarSpec :: sidecars' =>
      match container_UnmarshalStrict sidecarSpec with
      | inl err => [Invalid (index path i) (BadString sidecarSpec) err]
      | inr _ => []
      end ++
      fail_if (bool_decide (sidecar_name sidecarSpec ∈ names))
        (Duplicate (child (index path i) "name") (BadString (sidecar_name sidecarSpec))) ++
      validateSidecars_from sidecars' path ({[ sidecar_name sidecarSpec ]} ∪ names) (S i)
  end.

Definition validateSidecars (sidecars : list string) (path : Path) : ErrorList :=
  validateSidecars_from sidecars path ∅ 0.

(** An optional component that is missing. *)
Definition require_component {A} (o : option A) (field detail : string) : ErrorList :=
  match o with None => [Required (spec_path field) detail] | Some _ => [] end.

Definition require_nodes {A} (l : list A) (field detail : string) : ErrorList :=
  match l with [] => [Required (spec_path field) detail] | _ => [] end.

Definition validateExecNodes (newYtsaurus : YtsaurusSpec) : ErrorList :=
  each_unique en_Name "name" (spec_path "execNodes")
    (fun path en => validateInstanceSpec (en_InstanceSpec en) path ++
                    require_location (en_InstanceSpec en) LocationTypeChunkCache path ++
                    require_location (en_InstanceSpec en) LocationTypeSlots path ++
                    validateSidecars (en_InitContainers en) (child path "initContainers") ++
                    validateSidecars (en_Sidecars en) (child path "sidecars"))
    ∅ 0 (sp_ExecNodes newYtsaurus) ++
  match sp_ExecNodes newYtsaurus with
  | [] => []
  | _ => require_component (sp_Schedulers newYtsaurus) "schedulers"
           "execNodes doesn't make sense without schedulers"
  end.

(** The check of an optional server: nothing when it is absent. *)
Definition validate_optional {A} (o : option A) (check : A -> ErrorList) : ErrorList :=
  match o with Some a => check a | None => [] end.

Definition validateSchedulers (newYtsaurus : YtsaurusSpec) : ErrorList :=
  validate_optional (sp_Schedulers newYtsaurus) (fun s =>
    validateInstanceSpec s (spec_path "schedulers") ++
    require_component (sp_ControllerAgents newYtsaurus) "controllerAgents"
      "schedulers doesn't make sense without controllerAgents").

Definition validateControllerAgents (newYtsaurus : YtsaurusSpec) : ErrorList :=
  validate_optional (sp_ControllerAgents newYtsaurus) (fun s =>
    validateInstanceSpec s (spec_path "controllerAgents") ++
    require_component (sp_Schedulers newYtsaurus) "schedulers"
      "controllerAgents doesn't make sense without schedulers").

Definition validateTabletNodes (newYtsaurus : YtsaurusSpec) : ErrorList :=
  each_unique tn_Name "name" (spec_path "tabletNodes")
    (fun path tn => validateInstanceSpec (tn_InstanceSpec tn) path) ∅ 0 (sp_TabletNodes newYtsaurus).

Definition validateChyt (_ : YtsaurusSpec) : ErrorList := [].

Definition validateStrawberry (newYtsaurus : YtsaurusSpec) : ErrorList :=
  validate_optional (sp_StrawberryController newYtsaurus) (fun _ =>
    require_component (sp_Schedulers newYtsaurus) "schedulers" "schedulers are required for strawberry").

Definition validateQueryTrackers (newYtsaurus : YtsaurusSpec) : ErrorList :=
  validate_optional (sp_QueryTrackers newYtsaurus) (fun s =>
    validateInstanceSpec s (spec_path "queryTrackers") ++
    require_nodes (sp_TabletNodes newYtsaurus) "tabletNodes" "tabletNodes are required for queryTrackers" ++
    require_component (sp_Schedulers newYtsaurus) "schedulers"
      "schedulers are required for queryTrackers").

Definition validateQueueAgents (newYtsaurus : YtsaurusSpec) : ErrorList :=
  validate_optional (sp_QueueAgents newYtsaurus) (fun s =>
    validateInstanceSpec s (spec_path "queueAgents") ++
    require_nodes (sp_TabletNodes newYtsaurus) "tabletNodes" "tabletNodes are required for queueAgents").

Definition validateSpyt (newYtsaurus : YtsaurusSpec) : ErrorList :=
  validate_optional (sp_Spyt newYtsaurus) (fun s =>
    [Invalid (spec_path "spyt") (BadSpyt s) "spyt is deprecated here, use Spyt resource instead"]).

Definition validateYQLAgents (newYtsaurus : YtsaurusSpec) : ErrorList :=
  validate_optional (sp_YQLAgents newYtsaurus) (fun s =>
    validateInstanceSpec s (spec_path "YQLAgents") ++
    require_component (sp_QueryTrackers newYtsaurus) "queryTrackers"
      "yqlAgents doesn't make sense without queryTrackers").

(** The loop over the proxies stops at the first one with the default role. *)
Fixpoint validateUi_from (proxies : list HTTPProxiesSpec) (i : nat) : ErrorList :=
  match proxies with
  | [] => []
  | hp :: proxies' =>
      if decide (hp_Role hp = DefaultHTTPProxyRole) then
        match ht_HTTPSSecret (hp_Transport hp) with
        | None =>
            [Required (child (child (index (spec_path "httpProxies") i) "transport") "httpsSecret")
               ("configured HTTPS for proxy with `" +:+ DefaultHTTPProxyRole +:+
                  "` role is required for ui.secure")%string]
        | Some _ => []
        end
      else validateUi_from proxies' (S i)
  end.

Definition validateUi (newYtsaurus : YtsaurusSpec) : ErrorList :=
  validate_optional (sp_UI newYtsaurus) (fun ui =>
    if ui_Secure ui then validateUi_from (sp_HTTPProxies newYtsaurus) 0 else []).

(** One cluster per namespace. *)
Definition validateExistsYtsaurus (newYtsaurus : Ytsaurus) (e : E) : ErrorList :=
  let '(err, items) := list_Ytsaurus (yt_Namespace newYtsaurus) e in
  let check :=
    if bool_decide (items = [yt_Name newYtsaurus]) then []
    else if (length items =? 0)%nat then []
    else [Forbidden [Child "metadata"; Child "namespace"]
            ("A Ytsaurus object already exists in the given namespace " +:+ yt_Namespace newYtsaurus)%string] in
  match err with
  | Some (false, msg) => [InternalError [Child "k8sClient"] msg]
  | _ => check
  end.

Definition validateYtsaurus (newYtsaurus : Ytsaurus) (oldYtsaurus : option Ytsaurus) (e : E) : ErrorList :=
  let spec := yt_Spec newYtsaurus in
  validateDiscovery spec ++
  validatePrimaryMasters spec (yt_Spec <$> oldYtsaurus) ++
  validateSecondaryMasters spec ++
  validateHTTPProxies spec ++
  validateRPCProxies spec ++
  validateTCPProxies spec ++
  validateDataNodes spec ++
  validateExecNodes spec ++
  validateSchedulers spec ++
  validateControllerAgents spec ++
  validateTabletNodes spec ++
  validateChyt spec ++
  validateStrawberry spec ++
  validateQueryTrackers spec ++
  validateQueueAgents spec ++
  validateSpyt spec ++
  validateYQLAgents spec ++
  validateUi spec ++
  validateExistsYtsaurus newYtsaurus e.

(** ** The webhook *)

Inductive AdmissionError :=
| NewInvalid (group kind name : string) (errs : ErrorList)
| WrongType (message : string).

Definition evaluateYtsaurusValidation (newYtsaurus : Ytsaurus) (oldYtsaurus : option Ytsaurus) (e : E)
    : option AdmissionError :=
  match validateYtsaurus newYtsaurus oldYtsaurus e with
  | [] => None
  | allErrors => Some (NewInvalid "cluster.ytsaurus.tech" "Ytsaurus" (yt_Name newYtsaurus) allErrors)
  end.

(** A [runtime.Object]: a resource, or an object of another type, by its name
    in Go. *)
Definition Object : Type := Ytsaurus + string.

(** The handlers; [None] is a panic.  [ValidateCreate] logs the name before it
    checks the type: reading it from the nil pointer of a failed assertion
    panics.  [%T] of that pointer prints the expected type. *)
Definition ValidateCreate (obj : Object) (e : E) : option (option AdmissionError) :=
  match obj with
  | inl newYtsaurus => Some (evaluateYtsaurusValidation newYtsaurus None e)
  | inr _ => None
  end.

Definition wrong_type : option AdmissionError :=
  Some (WrongType "expected a Ytsaurus but got a *v1.Ytsaurus").

Definition ValidateUpdate (oldObj newObj : Object) (e : E) : option (option AdmissionError) :=
  match oldObj, newObj with
  | inl oldYtsaurus, inl newYtsaurus =>
      Some (evaluateYtsaurusValidation newYtsaurus (Some oldYtsaurus) e)
  | _, _ => Some wrong_type
  end.

Definition ValidateDelete (newObj : Object) (e : E) : option (option AdmissionError) :=
  match newObj with
  | inl _ => Some None
  | inr _ => Some wrong_type
  end.
End Validators.

(** ** What an admitted specification satisfies *)

(** Every location lies under a mount: its path starts with the mount's. *)
Definition locations_mounted (i : InstanceSpec) : Prop :=
  forall l, l ∈ is_Locations i ->
    exists v, v ∈ is_VolumeMounts i /\ String.prefix (vm_MountPath v) (loc_Path l) = true.

Definition valid_instance (i : InstanceSpec) : Prop :=
  is_EnableAntiAffinity i = None /\ locations_mounted i.

Definition has_location (i : InstanceSpec) (t : LocationType) : Prop :=
  exists l, l ∈ is_Locations i /\ loc_LocationType l = t.

(** The servers whose instance specification is checked: all but the caches
    of the masters. *)
Definition checked_instances (s : YtsaurusSpec) : list InstanceSpec :=
  [sp_Discovery s; ms_InstanceSpec (sp_PrimaryMasters s)] ++
  (ms_InstanceSpec <$> sp_SecondaryMasters s) ++ (hp_InstanceSpec <$> sp_HTTPProxies s) ++
  (rp_InstanceSpec <$> sp_RPCProxies s) ++ (tp_InstanceSpec <$> sp_TCPProxies s) ++
  (dn_InstanceSpec <$> sp_DataNodes s) ++ (en_InstanceSpec <$> sp_ExecNodes s) ++
  (tn_InstanceSpec <$> sp_TabletNodes s) ++
  omap id [sp_Schedulers s; sp_ControllerAgents s; sp_QueryTrackers s; sp_QueueAgents s; sp_YQLAgents s].

Section Valid.
Context `{PT : PathText} `{CY : ContainerYaml} `{PY : PartialYaml}.

(** Sidecars that decode, under different names. *)
Definition valid_sidecars (l : list string) : Prop :=
  NoDup (sidecar_name <$> l) /\ Forall (fun s => exists c, container_UnmarshalStrict s = inr c) l.

(** The addresses of the masters' hosts, when there are any: one for each
    instance, on the network of the hosts. *)
Definition valid_host_addresses (s : YtsaurusSpec) : Prop :=
  let m := sp_PrimaryMasters s in
  let addresses := mcs_HostAddresses (ms_MasterConnectionSpec m) in
  addresses = [] \/
  default (cs_HostNetwork (sp_CommonSpec s)) (is_HostNetwork (ms_InstanceSpec m)) = true /\
  Z.of_nat (length addresses) = is_InstanceCount (ms_InstanceSpec m).

Record valid_spec (s : YtsaurusSpec) : Prop := mkValidSpec {
  vs_instances : Forall valid_instance (checked_instances s);
  vs_hosts : valid_host_addresses s;
  vs_changelogs : has_location (ms_InstanceSpec (sp_PrimaryMasters s)) LocationTypeMasterChangelogs;
  vs_snapshots : has_location (ms_InstanceSpec (sp_PrimaryMasters s)) LocationTypeMasterSnapshots;
  vs_apart : (1 < is_InstanceCount (ms_InstanceSpec (sp_PrimaryMasters s)))%Z ->
    cs_EphemeralCluster (sp_CommonSpec s) = false ->
    exists a p, is_Affinity (ms_InstanceSpec (sp_PrimaryMasters s)) = Some a /\
                aff_PodAntiAffinity a = Some p;
  vs_http : NoDup (hp_Role <$> sp_HTTPProxies s);
  vs_default : DefaultHTTPProxyRole ∈ hp_Role <$> sp_HTTPProxies s;
  vs_rpc : NoDup (rp_Role <$> sp_RPCProxies s);
  vs_tcp : NoDup (tp_Role <$> sp_TCPProxies s);
  vs_data : NoDup (dn_Name <$> sp_DataNodes s);
  vs_exec : NoDup (en_Name <$> sp_ExecNodes s);
  vs_tablet : NoDup (tn_Name <$> sp_TabletNodes s);
  vs_stores : Forall (fun n => has_location (dn_InstanceSpec n) LocationTypeChunkStore) (sp_DataNodes s);
  vs_slots : Forall (fun n => has_location (en_InstanceSpec n) LocationTypeChunkCache /\
                              has_location (en_InstanceSpec n) LocationTypeSlots /\
                              valid_sidecars (en_InitContainers n) /\ valid_sidecars (en_Sidecars n))
               (sp_ExecNodes s);
  vs_scheduling : is_Some (sp_Schedulers s) <-> is_Some (sp_ControllerAgents s);
  vs_scheduled : sp_ExecNodes s <> [] \/ is_Some (sp_StrawberryController s) \/
    is_Some (sp_QueryTrackers s) -> is_Some (sp_Schedulers s);
  vs_tables : is_Some (sp_QueryTrackers s) \/ is_Some (sp_QueueAgents s) -> sp_TabletNodes s <> [];
  vs_yql : is_Some (sp_YQLAgents s) -> is_Some (sp_QueryTrackers s);
  vs_spyt : sp_Spyt s = None;
  vs_secure : forall ui hp, sp_UI s = Some ui -> ui_Secure ui = true -> hp ∈ sp_HTTPProxies s ->
    hp_Role hp = DefaultHTTPProxyRole -> is_Some (ht_HTTPSSecret (hp_Transport hp));
}.

(** ** Each check accepts exactly what it should *)

Lemma app_nil_iff {A} (l k : list A) : l ++ k = [] <-> l = [] /\ k = [].
Proof. split; [apply app_eq_nil|]. by intros [-> ->]. Qed.

Lemma fail_if_nil b err : fail_if b err = [] <-> b = false.
Proof. by destruct b. Qed.

Lemma concat_imap_nil {A} (f : nat -> A -> ErrorList) (P : A -> Prop) l :
  (forall i x, f i x = [] <-> P x) -> concat (imap f l) = [] <-> Forall P l.
Proof.
  revert f. induction l as [|x l IH]; intros f Hf; simpl; [split; [constructor|done]|].
  rewrite app_nil_iff, Hf, Forall_cons. f_equiv. apply IH. intros. apply Hf.
Qed.

Lemma each_unique_nil {A} (key : A -> string) field parent rest (P : A -> Prop) seen i l :
  (forall p x, rest p x = [] <-> P x) ->
  each_unique key field parent rest seen i l = [] <->
  NoDup (key <$> l) /\ Forall (fun x => key x ∉ seen) l /\ Forall P l.
Proof.
  intros Hrest. revert seen i. induction l as [|x l IH]; intros seen i.
  - simpl. split; [|done]. repeat split; constructor.
  - simpl. rewrite !app_nil_iff, fail_if_nil, bool_decide_eq_false, Hrest, IH, NoDup_cons, !Forall_cons.
    rewrite list_elem_of_fmap. rewrite !Forall_forall. set_solver.
Qed.

Lemma each_unique_top {A} (key : A -> string) field parent rest (P : A -> Prop) l :
  (forall p x, rest p x = [] <-> P x) ->
  each_unique key field parent rest ∅ 0 l = [] <-> NoDup (key <$> l) /\ Forall P l.
Proof.
  intros Hrest. rewrite (each_unique_nil _ _ _ _ P); [|done].
  split; [tauto|]. intros [? ?]. split_and!; [done| |done]. apply Forall_forall. set_solver.
Qed.

Lemma validateInstanceSpec_nil i p : validateInstanceSpec i p = [] <-> valid_instance i.
Proof.
  unfold validateInstanceSpec, valid_instance. rewrite app_nil_iff. f_equiv.
  - by destruct (is_EnableAntiAffinity i).
  - rewrite (concat_imap_nil _ (fun l => in_volume_mount (is_VolumeMounts i) l = true)).
    + rewrite Forall_forall. unfold locations_mounted, in_volume_mount.
      setoid_rewrite existsb_exists. by setoid_rewrite list_elem_of_In.
    + intros j x. rewrite fail_if_nil, negb_false_iff. done.
Qed.

Lemma require_location_nil i t p : require_location i t p = [] <-> has_location i t.
Proof.
  unfold require_location, has_location. destruct (FindFirstLocation _ _) as [l|] eqn:Hf.
  - rewrite FindFirstLocation_head in Hf. split; [intros _|done]. exists l.
    apply head_Some_elem_of in Hf. apply list_elem_of_filter in Hf. tauto.
  - apply FindFirstLocation_None in Hf. rewrite Forall_forall in Hf. split; [done|].
    intros (l & Hl & Ht). by destruct (Hf l Hl).
Qed.

Lemma validateHostAddresses_nil s p : validateHostAddresses s p = [] <-> valid_host_addresses s.
Proof.
  unfold validateHostAddresses, valid_host_addresses. rewrite app_nil_iff, !fail_if_nil.
  destruct (mcs_HostAddresses _) as [|a l]; [simpl; rewrite !andb_false_r; tauto|].
  assert ((length (a :: l) =? 0)%nat = false) as -> by done. cbn [negb andb].
  rewrite !andb_true_r, !negb_false_iff, Z.eqb_eq. split; [auto|]. by intros [[=]|].
Qed.

Lemma validateSidecars_from_nil l p names i :
  validateSidecars_from l p names i = [] <->
  NoDup (sidecar_name <$> l) /\ Forall (fun s => sidecar_name s ∉ names) l /\
  Forall (fun s => exists c, container_UnmarshalStrict s = inr c) l.
Proof.
  revert names i. induction l as [|s l IH]; intros names i.
  - simpl. split; [|done]. repeat split; constructor.
  - simpl. rewrite !app_nil_iff, fail_if_nil, bool_decide_eq_false, IH, NoDup_cons, !Forall_cons.
    rewrite list_elem_of_fmap, !Forall_forall.
    assert (match container_UnmarshalStrict s with
            | inl err => [Invalid (index p i) (BadString s) err] | inr _ => [] end = [] <->
            exists c, container_UnmarshalStrict s = inr c) as ->.
    { destruct (container_UnmarshalStrict s); naive_solver. }
    set_solver.
Qed.

Lemma validateSidecars_nil l p : validateSidecars l p = [] <-> valid_sidecars l.
Proof.
  unfold validateSidecars, valid_sidecars. rewrite validateSidecars_from_nil.
  split; [tauto|]. intros [? ?]. split_and!; [done| |done]. apply Forall_forall. set_solver.
Qed.

Lemma require_component_nil {A} (o : option A) f d : require_component o f d = [] <-> is_Some o.
Proof. destruct o; simpl; split; [by eexists|done|done|by intros [? [=]]]. Qed.

Lemma require_nodes_nil {A} (l : list A) f d : require_nodes l f d = [] <-> l <> [].
Proof. by destruct l. Qed.

Lemma validate_optional_nil {A} (o : option A) check :
  validate_optional o check = [] <-> forall a, o = Some a -> check a = [].
Proof. destruct o as [a|]; simpl; naive_solver. Qed.

Lemma validateUi_from_nil l i : NoDup (hp_Role <$> l) ->
  validateUi_from l i = [] <->
  forall hp, hp ∈ l -> hp_Role hp = DefaultHTTPProxyRole -> is_Some (ht_HTTPSSecret (hp_Transport hp)).
Proof.
  revert i. induction l as [|x l IH]; intros i; [split; [intros _ hp Hin; by apply not_elem_of_nil in Hin|done]|].
  simpl. rewrite NoDup_cons, list_elem_of_fmap. intros [Hx Hnd]. setoid_rewrite elem_of_cons.
  destruct (decide _) as [Hr|Hr].
  - split.
    + intros Hs hp [->|Hin] Hrole; [by destruct (ht_HTTPSSecret _)|]. destruct Hx. exists hp. by split; congruence.
    + intros Hs. destruct (Hs x (or_introl eq_refl) Hr) as [? ->]. done.
  - rewrite IH by done. split; [|auto]. intros Hs hp [->|Hin]; [done|auto].
Qed.

Lemma validateHTTPProxies_nil s : validateHTTPProxies s = [] <->
  (NoDup (hp_Role <$> sp_HTTPProxies s) /\
   Forall (fun hp => valid_instance (hp_InstanceSpec hp)) (sp_HTTPProxies s)) /\
  DefaultHTTPProxyRole ∈ hp_Role <$> sp_HTTPProxies s.
Proof.
  unfold validateHTTPProxies. rewrite app_nil_iff, fail_if_nil, negb_false_iff.
  rewrite (each_unique_top _ _ _ _ (fun hp => valid_instance (hp_InstanceSpec hp)))
    by (intros; apply validateInstanceSpec_nil).
  f_equiv. rewrite existsb_exists, list_elem_of_fmap. setoid_rewrite bool_decide_eq_true.
  setoid_rewrite list_elem_of_In. naive_solver.
Qed.

Lemma validateExecNodes_nil s : validateExecNodes s = [] <->
  (NoDup (en_Name <$> sp_ExecNodes s) /\
   Forall (fun n => valid_instance (en_InstanceSpec n) /\
     has_location (en_InstanceSpec n) LocationTypeChunkCache /\
     has_location (en_InstanceSpec n) LocationTypeSlots /\
     valid_sidecars (en_InitContainers n) /\ valid_sidecars (en_Sidecars n)) (sp_ExecNodes s)) /\
  (sp_ExecNodes s <> [] -> is_Some (sp_Schedulers s)).
Proof.
  unfold validateExecNodes. rewrite app_nil_iff. f_equiv.
  - apply each_unique_top. intros. rewrite !app_nil_iff, validateInstanceSpec_nil, !require_location_nil.
    by rewrite !validateSidecars_nil.
  - destruct (sp_ExecNodes s); [done|]. rewrite require_component_nil. naive_solver.
Qed.

Lemma Forall_omap_id {A} (P : A -> Prop) l :
  Forall P (omap id l) <-> Forall (fun o => forall a, o = Some a -> P a) l.
Proof.
  induction l as [|[a|] l IH]; simpl; [done| |]; rewrite ?Forall_cons, IH; naive_solver.
Qed.

Lemma validateSecondaryMasters_nil s : validateSecondaryMasters s = [] <->
  Forall (fun m => valid_instance (ms_InstanceSpec m) /\ valid_host_addresses s) (sp_SecondaryMasters s).
Proof.
  apply concat_imap_nil. intros. by rewrite app_nil_iff, validateInstanceSpec_nil, validateHostAddresses_nil.
Qed.

Lemma validateDataNodes_nil s : validateDataNodes s = [] <->
  NoDup (dn_Name <$> sp_DataNodes s) /\
  Forall (fun n => valid_instance (dn_InstanceSpec n) /\
                   has_location (dn_InstanceSpec n) LocationTypeChunkStore) (sp_DataNodes s).
Proof.
  apply each_unique_top. intros. by rewrite app_nil_iff, validateInstanceSpec_nil, require_location_nil.
Qed.

(** The cell tag of the primary masters stays as it was. *)
Definition same_cell (s : YtsaurusSpec) (old : option YtsaurusSpec) : Prop :=
  let cellTag (s : YtsaurusSpec) := mcs_CellTag (ms_MasterConnectionSpec (sp_PrimaryMasters s)) in
  forall o, old = Some o -> cellTag o = cellTag s.

Lemma has_anti_affinity_true a :
  has_anti_affinity a = true <-> exists x p, a = Some x /\ aff_PodAntiAffinity x = Some p.
Proof.
  destruct a as [x|]; simpl; [|split; [done|by intros (? & ? & [=] & ?)]].
  destruct (aff_PodAntiAffinity x) as [p|] eqn:Hx; split; [by exists x, p|done|done|].
  intros (? & ? & [= <-] & Hp). congruence.
Qed.

Lemma validatePrimaryMasters_nil s old : validatePrimaryMasters s old = [] <->
  valid_instance (ms_InstanceSpec (sp_PrimaryMasters s)) /\ valid_host_addresses s /\
  has_location (ms_InstanceSpec (sp_PrimaryMasters s)) LocationTypeMasterChangelogs /\
  has_location (ms_InstanceSpec (sp_PrimaryMasters s)) LocationTypeMasterSnapshots /\
  same_cell s old /\
  ((1 < is_InstanceCount (ms_InstanceSpec (sp_PrimaryMasters s)))%Z ->
   cs_EphemeralCluster (sp_CommonSpec s) = false ->
   exists a p, is_Affinity (ms_InstanceSpec (sp_PrimaryMasters s)) = Some a /\
               aff_PodAntiAffinity a = Some p).
Proof.
  unfold validatePrimaryMasters. rewrite !app_nil_iff, validateInstanceSpec_nil, validateHostAddresses_nil.
  rewrite !require_location_nil, fail_if_nil. repeat f_equiv.
  - unfold same_cell. destruct old as [o|]; [|naive_solver].
    rewrite fail_if_nil, negb_false_iff, Z.eqb_eq. naive_solver.
  - unfold needs_anti_affinity. rewrite <- has_anti_affinity_true, andb_false_iff, andb_false_iff.
    rewrite negb_false_iff, Z.gtb_ltb, Z.ltb_ge, negb_false_iff.
    destruct (has_anti_affinity _); [split; auto|]. destruct (cs_EphemeralCluster _); [split; auto|].
    split; [intros [[?|[=]]|[=]] ? _; lia|]. intros Hv. left. left.
    destruct (Z.le_gt_cases (is_InstanceCount (ms_InstanceSpec (sp_PrimaryMasters s))) 1) as [|Hgt]; [done|].
    by assert (false = true) by (apply Hv; [lia|done]).
Qed.
End Valid.

Section Admission.
Context {E : Type} `{PT : PathText} `{CY : ContainerYaml} `{PY : PartialYaml} `{LI : Lister E}.

(** The listing of the namespace succeeds, or fails because there is nothing,
    and shows no other cluster. *)
Definition alone (y : Ytsaurus) (e : E) : Prop :=
  (forall msg, fst (list_Ytsaurus (yt_Namespace y) e) <> Some (false, msg)) /\
  (snd (list_Ytsaurus (yt_Namespace y) e) = [] \/ snd (list_Ytsaurus (yt_Namespace y) e) = [yt_Name y]).

Lemma validateExistsYtsaurus_nil y e : validateExistsYtsaurus y e = [] <-> alone y e.
Proof.
  unfold validateExistsYtsaurus, alone. destruct (list_Ytsaurus _ e) as [err items]. simpl.
  assert ((if bool_decide (items = [yt_Name y]) then []
           else if (length items =? 0)%nat then []
           else [Forbidden [Child "metadata"; Child "namespace"]
                  ("A Ytsaurus object already exists in the given namespace " +:+ yt_Namespace y)%string]) = []
          <-> items = [] \/ items = [yt_Name y]) as Hc.
  { destruct (decide (items = [yt_Name y])) as [->|Hne]; [rewrite bool_decide_true by done; by split; [right|]|].
    rewrite bool_decide_false by done. destruct items; simpl; naive_solver. }
  destruct err as [[[] msg]|]; rewrite ?Hc; [naive_solver| |naive_solver].
  split; [done|]. intros [Hn _]. by destruct (Hn msg).
Qed.

#[local] Opaque validateInstanceSpec require_component require_nodes.

(** The checks of the optional components, as a whole. *)
Lemma validate_optionals_nil s :
  validateSchedulers s ++ validateControllerAgents s ++ validateStrawberry s ++
  validateQueryTrackers s ++ validateQueueAgents s ++ validateSpyt s ++ validateYQLAgents s = [] <->
  Forall valid_instance (omap id [sp_Schedulers s; sp_ControllerAgents s; sp_QueryTrackers s;
                                  sp_QueueAgents s; sp_YQLAgents s]) /\
  (is_Some (sp_Schedulers s) <-> is_Some (sp_ControllerAgents s)) /\
  (is_Some (sp_StrawberryController s) \/ is_Some (sp_QueryTrackers s) -> is_Some (sp_Schedulers s)) /\
  (is_Some (sp_QueryTrackers s) \/ is_Some (sp_QueueAgents s) -> sp_TabletNodes s <> []) /\
  (is_Some (sp_YQLAgents s) -> is_Some (sp_QueryTrackers s)) /\ sp_Spyt s = None.
Proof.
  rewrite Forall_omap_id, !Forall_cons, Forall_nil, !app_nil_iff.
  unfold validateSchedulers, validateControllerAgents, validateStrawberry, validateQueryTrackers,
    validateQueueAgents, validateSpyt, validateYQLAgents.
  rewrite !validate_optional_nil.
  repeat setoid_rewrite app_nil_iff. setoid_rewrite validateInstanceSpec_nil.
  setoid_rewrite require_component_nil. setoid_rewrite require_nodes_nil. unfold is_Some.
  destruct (sp_Spyt s) as [sp|] eqn:Hspyt; [|naive_solver].
  split; [|naive_solver]. intros (_ & _ & _ & _ & _ & Hs & _).
  by specialize (Hs sp eq_refl).
Qed.

Lemma checked_instances_valid s : Forall valid_instance (checked_instances s) <->
  valid_instance (sp_Discovery s) /\ valid_instance (ms_InstanceSpec (sp_PrimaryMasters s)) /\
  Forall (fun m => valid_instance (ms_InstanceSpec m)) (sp_SecondaryMasters s) /\
  Forall (fun p => valid_instance (hp_InstanceSpec p)) (sp_HTTPProxies s) /\
  Forall (fun p => valid_instance (rp_InstanceSpec p)) (sp_RPCProxies s) /\
  Forall (fun p => valid_instance (tp_InstanceSpec p)) (sp_TCPProxies s) /\
  Forall (fun n => valid_instance (dn_InstanceSpec n)) (sp_DataNodes s) /\
  Forall (fun n => valid_instance (en_InstanceSpec n)) (sp_ExecNodes s) /\
  Forall (fun n => valid_instance (tn_InstanceSpec n)) (sp_TabletNodes s) /\
  Forall valid_instance (omap id [sp_Schedulers s; sp_ControllerAgents s; sp_QueryTrackers s;
                                  sp_QueueAgents s; sp_YQLAgents s]).
Proof.
  unfold checked_instances. rewrite !Forall_app, !Forall_fmap, !Forall_cons, Forall_nil.
  unfold compose. tauto.
Qed.

(** C37. The webhook admits exactly the well-formed resources: those whose
    specification is valid (every checked server well formed, different roles
    and names, an HTTP proxy of the default role, the locations each kind of
    node needs, the components each component depends on), that keep the cell
    tag of the masters, and that are alone in their namespace.  So no resource
    the components cannot work with passes the check, and none is refused
    without a reason. *)
Theorem admitted_iff_valid (newYtsaurus : Ytsaurus) (oldYtsaurus : option Ytsaurus) (e : E) :
  evaluateYtsaurusValidation newYtsaurus oldYtsaurus e = None <->
  valid_spec (yt_Spec newYtsaurus) /\ same_cell (yt_Spec newYtsaurus) (yt_Spec <$> oldYtsaurus) /\
  alone newYtsaurus e.
Proof.
  set (s := yt_Spec newYtsaurus).
  assert (evaluateYtsaurusValidation newYtsaurus oldYtsaurus e = None <->
          validateYtsaurus newYtsaurus oldYtsaurus e = []) as ->.
  { unfold evaluateYtsaurusValidation. by destruct (validateYtsaurus _ _ _). }
  pose proof (checked_instances_valid s) as Hi. pose proof (validate_optionals_nil s) as Ho.
  rewrite !app_nil_iff in Ho. unfold validateYtsaurus. fold s. rewrite !app_nil_iff.
  unfold validateDiscovery, validateRPCProxies, validateTCPProxies, validateTabletNodes, validateUi in *.
  rewrite !(each_unique_top _ _ _ _ _ _ (fun p x => validateInstanceSpec_nil _ p)).
  rewrite validateInstanceSpec_nil, validatePrimaryMasters_nil, validateSecondaryMasters_nil,
    validateHTTPProxies_nil, validateDataNodes_nil, validateExecNodes_nil, validateExistsYtsaurus_nil.
  rewrite validate_optional_nil.
  rewrite !Forall_and.
  assert (Forall (fun _ => valid_host_addresses s) (sp_SecondaryMasters s) <->
          (sp_SecondaryMasters s <> [] -> valid_host_addresses s)) as ->.
  { destruct (sp_SecondaryMasters s); [done|]. rewrite Forall_forall. set_solver. }
  split.
  - intros HH. assert (NoDup (hp_Role <$> sp_HTTPProxies s)) as Hnd by tauto.
    split; [constructor; try tauto|tauto].
    + rewrite !Forall_and. tauto.
    + destruct HH as (_ & _ & _ & _ & _ & _ & _ & _ & _ & _ & _ & _ & _ & _ & _ & _ & _ & Hui & _).
      intros ui hp Hu Hsec. specialize (Hui ui Hu). rewrite Hsec in Hui.
      by apply (proj1 (validateUi_from_nil _ 0 Hnd)).
  - intros [[] ?]. rewrite !Forall_and in *. split_and!; try tauto.
    intros ui Hu. destruct (ui_Secure ui) eqn:Hsec; [|done]. apply validateUi_from_nil; [done|]. eauto.
Qed.
End Admission.

(** The check of the mounts compares strings, not path elements: a location
    beside the mounted directory passes. *)
Lemma sibling_directory_mounted :
  in_volume_mount [mkVolumeMount "data" "/yt/data" false None ""]
    (mkLocationSpec LocationTypeSlots "/yt/data-other/slots" "default" None None None) = true.
Proof. reflexivity. Qed.

(** A small cluster that is admitted, and refused once its RPC proxies share
    a role. *)
Module WebhookWitness.
#[export] Instance path_text : PathText := fun _ => "path"%string.
#[export] Instance yaml : ContainerYaml := fun _ => inl "not a container"%string.
#[export] Instance partial : PartialYaml := fun _ => ""%string.
#[export] Instance lister : Lister unit := fun _ _ => (None, []).

Definition location (t : LocationType) : LocationSpec :=
  mkLocationSpec t "/yt/data/here" "default" None None None.
Definition server (locations : list LocationType) : InstanceSpec :=
  mkInstanceSpec None [] [] [mkVolumeMount "data" "/yt/data" false None ""] None
    (mkResourceRequirements None None) 1 None (location <$> locations) [] None None None
    None [] [] None ∅ [] ∅ ∅ None None None.
Definition rpc (role : string) : RPCProxiesSpec :=
  mkRPCProxiesSpec (server []) None None role (mkRPCTransportSpec None false false "").
Definition spec (rpcRoles : list string) : YtsaurusSpec :=
  mkYtsaurusSpec sample_CommonSpec "ui:dev" None None true true UpdateSelectorUnspecified None (server [])
    (mkMastersSpec (server [LocationTypeMasterChangelogs; LocationTypeMasterSnapshots])
       (mkMasterConnectionSpec 1 []) "" None None []) [] None
    [mkHTTPProxiesSpec (server []) "NodePort" None None "default" (mkHTTPTransportSpec None false)]
    (rpc <$> rpcRoles) [] [mkDataNodesSpec (server [LocationTypeChunkStore]) (mkClusterNodesSpec [] "") "default"]
    [] (Some (server [])) (Some (server [])) [] None None None None None None None.
Definition cluster (rpcRoles : list string) : Ytsaurus :=
  mkYtsaurus "minisaurus" "default" (spec rpcRoles) (sample_Status ClusterStateCreated).

Example admitted : evaluateYtsaurusValidation (cluster ["default"; "heavy"]) None tt = None.
Proof. reflexivity. Qed.

Example refused :
  evaluateYtsaurusValidation (cluster ["heavy"; "heavy"]) None tt =
  Some (NewInvalid "cluster.ytsaurus.tech" "Ytsaurus" "minisaurus"
          [Duplicate (child (index (spec_path "rpcProxies") 1) "role") (BadString "heavy")]).
Proof. reflexivity. Qed.
Lemma server_valid ls : valid_instance (server ls).
Proof.
  split; [done|]. intros l (t & -> & _)%list_elem_of_fmap. eexists. split; [by apply list_elem_of_here|reflexivity].
Qed.

Lemma server_has t ls : t ∈ ls -> has_location (server ls) t.
Proof. intros Ht. exists (location t). split; [|done]. by apply list_elem_of_fmap_2. Qed.

Lemma cluster_valid : valid_spec (spec ["default"; "heavy"]).
Proof.
  constructor; try (by apply (bool_decide_unpack _); vm_compute); try done.
  - repeat constructor; apply server_valid.
  - apply server_has. set_solver.
  - apply server_has. set_solver.
  - constructor; [apply server_has; set_solver|constructor].
Qed.
End WebhookWitness.
