(* ===== verification/Microservice.v ===== *)
(** * Microservices: pkg/components/microservice.go

    The UI and the strawberry (CHYT) controller run as deployments with a
    service and a configuration, behind the interface [microservice]. *)

From S2P Require Import Prelude GoPath Api Kube Conditions Samples CellId Labeller Names Proxy Component Resources ConfigHelper Server InitJob Observe ServerComponent Nodes Proxies YtApi YtsaurusClient StateJobs.

(** ** microservice.go *)

(** The interface. *)
Record microservice (W H : Type) := mkMicroservice {
  msv_Fetch : M W error;
  msv_Sync : M W error;
  msv_pods : podsManager W;
  msv_needSync : M W bool;
  msv_needUpdate : M W bool;
  msv_getImage : string;
  msv_getHttpService : HTTPService (H:=H);
  msv_buildDeployment : M W (Ref H Deployment);
  msv_buildService : M W (Ref H Service);
  msv_buildConfig : M W (option (Ref H ConfigMap));
}.
Arguments msv_Fetch {W H} _. Arguments msv_Sync {W H} _. Arguments msv_pods {W H} _.
Arguments msv_needSync {W H} _. Arguments msv_needUpdate {W H} _. Arguments msv_getImage {W H} _.
Arguments msv_getHttpService {W H} _. Arguments msv_buildDeployment {W H} _.
Arguments msv_buildService {W H} _. Arguments msv_buildConfig {W H} _.

(** The builders' targets are the [newObject]s of the resources, so the
    pointers [builtDeployment], [builtService] and [builtConfig] are nil or
    those: flags say which. *)
Record microserviceImpl (H : Type) := mkMicroserviceImpl {
  mi_image : string;
  mi_labeller : Labeller;
  mi_instanceCount : Z;
  mi_deployment : BuiltHandle H KDeployment;
  mi_service : HTTPService (H:=H);
  mi_configHelper : ConfigHelper H;
  mi_builtDeployment : Ref H bool;
  mi_builtService : Ref H bool;
  mi_builtConfig : Ref H bool;
}.
Arguments mi_image {H} _. Arguments mi_labeller {H} _. Arguments mi_instanceCount {H} _.
Arguments mi_deployment {H} _. Arguments mi_service {H} _. Arguments mi_configHelper {H} _.
Arguments mi_builtDeployment {H} _. Arguments mi_builtService {H} _. Arguments mi_builtConfig {H} _.

(** The variables a microservice allocates. *)
Record MicroserviceVars (H : Type) := mkMicroserviceVars {
  mv_deployment_old : Ref H Deployment;
  mv_deployment_new : Ref H Deployment;
  mv_deployment_built : Ref H bool;
  mv_service_old : Ref H Service;
  mv_service_new : Ref H Service;
  mv_overrides : Ref H ConfigMap;
  mv_configMap_old : Ref H ConfigMap;
  mv_configMap_new : Ref H ConfigMap;
  mv_builtDeployment : Ref H bool;
  mv_builtService : Ref H bool;
  mv_builtConfig : Ref H bool;
}.
Arguments mv_deployment_old {H} _. Arguments mv_deployment_new {H} _. Arguments mv_deployment_built {H} _.
Arguments mv_service_old {H} _. Arguments mv_service_new {H} _. Arguments mv_overrides {H} _.
Arguments mv_configMap_old {H} _. Arguments mv_configMap_new {H} _. Arguments mv_builtDeployment {H} _.
Arguments mv_builtService {H} _. Arguments mv_builtConfig {H} _.

(** [newMicroservice]; the node port is the one [SetHttpNodePort] sets before
    anything is built. *)
Definition newMicroservice {H} (vars : MicroserviceVars H) (l : Labeller)
    (configOverrides : option LocalObjectReference) (image : string) (instanceCount : Z)
    (generators : list (string * GeneratorDescriptor)) (deploymentName serviceName : string)
    (httpNodePort : option Z) : microserviceImpl H :=
  mkMicroserviceImpl H image l instanceCount
    (mkBuiltHandle H KDeployment
       (mkHandle H KDeployment deploymentName (mv_deployment_old vars) (mv_deployment_new vars))
       (mv_deployment_built vars))
    (mkHTTPService (mkHTTPTransportSpec None false) httpNodePort None
       (mkHandle H KService serviceName (mv_service_old vars) (mv_service_new vars)))
    (mkConfigHelper H l generators configOverrides (mv_overrides vars)
       (mkHandle H KConfigMap (GetMainConfigMapName l) (mv_configMap_old vars) (mv_configMap_new vars)))
    (mv_builtDeployment vars) (mv_builtService vars) (mv_builtConfig vars).

(** Assignments to the specification of a deployment. *)
Definition dp_podSpec (d : Deployment) : PodSpec := pt_Spec (dp_Template d).
Definition set_dp_podSpec (p : PodSpec) (d : Deployment) : Deployment :=
  mkDeployment (dp_ObjectMeta d) (dp_Selector d) (dp_Replicas d)
    (mkPodTemplateSpec (pt_ObjectMeta (dp_Template d)) p)
    (dp_Status_Replicas d) (dp_Status_AvailableReplicas d).
Definition set_dp_Replicas (n : option Z) (d : Deployment) : Deployment :=
  mkDeployment (dp_ObjectMeta d) (dp_Selector d) n (dp_Template d)
    (dp_Status_Replicas d) (dp_Status_AvailableReplicas d).
(** [d.Spec = old.Spec]. *)
Definition set_dp_Spec (old d : Deployment) : Deployment :=
  mkDeployment (dp_ObjectMeta d) (dp_Selector old) (dp_Replicas old) (dp_Template old)
    (dp_Status_Replicas d) (dp_Status_AvailableReplicas d).

Definition set_ct_Image (v : string) (c : Container) : Container :=
  mkContainer v (ct_Name c) (ct_Command c) (ct_Args c) (ct_Env c) (ct_EnvFrom c) (ct_VolumeMounts c)
    (ct_Ports c) (ct_Resources c) (ct_ReadinessProbe c) (ct_Privileged c).

Section Microservice.
Context {H E : Type} `{K : Kube E} `{CM : ConditionMeta} `{CO : Codec}.
Local Abbreviation W := (World H E).
Implicit Types m : microserviceImpl H.

(** [*ref = f( *ref )]. *)
Definition update {A} (r : Ref H A) (f : A -> A) : M W unit := a ← read r; write r (f a).

Definition rebuildDeployment m : M W (Ref H Deployment) :=
  d ← Deployment_Build (mi_labeller m) (mi_deployment m);
  _ ← write (mi_builtDeployment m) true;
  _ ← update d (set_dp_Replicas (Some (mi_instanceCount m)));
  _ ← update d (fun o => set_dp_podSpec
        (set_ps_Containers [set_ct_Image (mi_image m) Container_zero] (dp_podSpec o)) o);
  mret d.

Definition buildDeployment m : M W (Ref H Deployment) :=
  built ← read (mi_builtDeployment m);
  if (built : bool) then mret (newObject (bh_handle (mi_deployment m))) else rebuildDeployment m.

Definition buildService m : M W (Ref H Service) :=
  built ← read (mi_builtService m);
  let s := mi_service m in
  if (built : bool) then mret (newObject (hs_handle s))
  else
    r ← HTTPService_Build (mi_labeller m) (hs_transport s) (hs_httpNodePort s) (hs_httpsNodePort s)
          (hs_handle s);
    _ ← write (mi_builtService m) true;
    mret r.

(** A configuration that cannot be rendered is nil, and is built again. *)
Definition buildConfig m : M W (option (Ref H ConfigMap)) :=
  built ← read (mi_builtConfig m);
  if (built : bool) then mret (Some (newObject (ch_configMap (mi_configHelper m))))
  else
    cm ← ConfigHelper_Build (mi_configHelper m);
    _ ← write (mi_builtConfig m) (match cm with Some _ => true | None => false end);
    mret cm.

Definition microserviceImpl_Sync m : M W error :=
  _ ← buildConfig m;
  _ ← buildDeployment m;
  _ ← buildService m;
  in_order [Sync (bh_handle (mi_deployment m)); ConfigHelper_Sync (mi_configHelper m);
            Sync (hs_handle (mi_service m))].

Definition microserviceImpl_Fetch m : M W error :=
  in_order [ConfigHelper_Fetch (mi_configHelper m); Fetch (bh_handle (mi_deployment m));
            Fetch (hs_handle (mi_service m))].

Definition microserviceImpl_needSync m : M W bool :=
  '(needReload, err) ← NeedReload (mi_configHelper m);
  let needReload := match err with Some _ => false | None => needReload end in
  init ← NeedInit (mi_configHelper m);
  if (init : bool) then mret true
  else
    state ← GetClusterState;
    if bool_decide (state = ClusterStateUpdating) && needReload then mret true
    else
      e ← Exists (hs_handle (mi_service m));
      if negb e then mret true else Deployment_NeedSync (mi_deployment m) (mi_instanceCount m).

Definition microserviceImpl_exists m : M W bool :=
  e ← Exists (bh_handle (mi_deployment m));
  if negb e then mret false else Exists (hs_handle (mi_service m)).

(** [Containers[0]] panics on a deployment without containers. *)
Definition deploymentImageCorrespondsToSpec m : M W bool :=
  old ← read (oldObject (bh_handle (mi_deployment m)));
  match ps_Containers (dp_podSpec old) with
  | [] => panic
  | c :: _ => mret (bool_decide (ct_Image c = mi_image m))
  end.

Definition microserviceImpl_needUpdate m : M W bool :=
  e ← microserviceImpl_exists m;
  if negb e then mret false
  else
    ok ← deploymentImageCorrespondsToSpec m;
    if negb ok then mret true
    else
      '(needReload, err) ← NeedReload (mi_configHelper m);
      match err with Some _ => mret false | None => mret needReload end.

Definition microserviceImpl_arePodsReady m : M W bool := Deployment_ArePodsReady (mi_deployment m).

Definition microserviceImpl_arePodsRemoved m : M W bool :=
  e ← Exists (bh_handle (mi_deployment m));
  if negb e then mret true else Deployment_ArePodsRemoved (mi_deployment m).

Definition microserviceImpl_removePods m : M W error :=
  d ← Deployment_Build (mi_labeller m) (mi_deployment m);
  _ ← write (mi_builtDeployment m) true;
  old ← read (oldObject (bh_handle (mi_deployment m)));
  _ ← update d (set_dp_Spec old);
  _ ← update d (set_dp_Replicas (Some 0%Z));
  microserviceImpl_Sync m.

Definition microserviceImpl_microservice m : microservice W H :=
  mkMicroservice W H (microserviceImpl_Fetch m) (microserviceImpl_Sync m)
    (mkPodsManager W (microserviceImpl_removePods m) (microserviceImpl_arePodsRemoved m)
       (microserviceImpl_arePodsReady m) (deploymentImageCorrespondsToSpec m))
    (microserviceImpl_needSync m) (microserviceImpl_needUpdate m) (mi_image m) (mi_service m)
    (buildDeployment m) (buildService m) (buildConfig m).

(** What the clients rely on: nothing below the components touches the
    status. *)
Class MicroserviceLaws `{KL : !KubeLaws E K} (m : microservice W H) := {
  microservice_pods :: PodsLaws (msv_pods m);
  microservice_fetch_quiet : preserves quiet (msv_Fetch m);
  microservice_sync_quiet : preserves quiet (msv_Sync m);
  microservice_needSync_quiet : preserves quiet (msv_needSync m);
  microservice_needUpdate_quiet : preserves quiet (msv_needUpdate m);
  microservice_deployment_quiet : preserves quiet (msv_buildDeployment m);
  microservice_service_quiet : preserves quiet (msv_buildService m);
}.
End Microservice.

Section MicroserviceFrames.
Context {H E : Type} `{K : Kube E} `{CM : ConditionMeta} `{CO : Codec} `{KL : !KubeLaws E K}.
Local Abbreviation W := (World H E).
Implicit Types m : microserviceImpl H.

Lemma update_quiet {A} (r : Ref H A) f : preserves quiet (update r f : M W unit).
Proof. unfold update. solve_frame. Qed.
#[local] Hint Resolve update_quiet : frame.

Lemma rebuildDeployment_quiet m : preserves quiet (rebuildDeployment m : M W (Ref H Deployment)).
Proof. unfold rebuildDeployment. solve_frame. Qed.
#[local] Hint Resolve rebuildDeployment_quiet : frame.
Lemma buildDeployment_quiet m : preserves quiet (buildDeployment m : M W (Ref H Deployment)).
Proof. unfold buildDeployment. solve_frame. Qed.
Lemma buildService_quiet m : preserves quiet (buildService m : M W (Ref H Service)).
Proof. unfold buildService. solve_frame. Qed.
Lemma buildConfig_quiet m : preserves quiet (buildConfig m : M W _).
Proof. unfold buildConfig. solve_frame. Qed.
#[local] Hint Resolve buildDeployment_quiet buildService_quiet buildConfig_quiet : frame.
Lemma microserviceImpl_Sync_quiet m : preserves quiet (microserviceImpl_Sync m : M W error).
Proof. unfold microserviceImpl_Sync. solve_frame. Qed.
Lemma microserviceImpl_Fetch_quiet m : preserves quiet (microserviceImpl_Fetch m : M W error).
Proof. unfold microserviceImpl_Fetch. solve_frame. Qed.
Lemma deploymentImageCorrespondsToSpec_quiet m :
  preserves quiet (deploymentImageCorrespondsToSpec m : M W bool).
Proof. unfold deploymentImageCorrespondsToSpec. solve_frame. Qed.
#[local] Hint Resolve microserviceImpl_Sync_quiet microserviceImpl_Fetch_quiet
  deploymentImageCorrespondsToSpec_quiet : frame.
Lemma microserviceImpl_needSync_quiet m : preserves quiet (microserviceImpl_needSync m : M W bool).
Proof. unfold microserviceImpl_needSync. solve_frame. Qed.
Lemma microserviceImpl_needUpdate_quiet m : preserves quiet (microserviceImpl_needUpdate m : M W bool).
Proof. unfold microserviceImpl_needUpdate, microserviceImpl_exists. solve_frame. Qed.
Lemma microserviceImpl_removePods_quiet m : preserves quiet (microserviceImpl_removePods m : M W error).
Proof. unfold microserviceImpl_removePods. solve_frame. Qed.
Lemma microserviceImpl_arePodsRemoved_quiet m :
  preserves quiet (microserviceImpl_arePodsRemoved m : M W bool).
Proof. unfold microserviceImpl_arePodsRemoved. solve_frame. Qed.
Lemma microserviceImpl_arePodsReady_quiet m : preserves quiet (microserviceImpl_arePodsReady m : M W bool).
Proof. unfold microserviceImpl_arePodsReady. solve_frame. Qed.
#[local] Hint Resolve microserviceImpl_needSync_quiet microserviceImpl_needUpdate_quiet
  microserviceImpl_removePods_quiet microserviceImpl_arePodsRemoved_quiet
  microserviceImpl_arePodsReady_quiet : frame.

#[export] Instance microserviceImpl_laws m :
  MicroserviceLaws (H:=H) (E:=E) (microserviceImpl_microservice m).
Proof. split; simpl; eauto with frame. split; simpl; eauto with frame. Qed.
End MicroserviceFrames.

#[export] Hint Resolve update_quiet microservice_fetch_quiet microservice_sync_quiet
  microservice_needSync_quiet microservice_needUpdate_quiet microservice_deployment_quiet
  microservice_service_quiet : frame.

(** ** What is submitted, and what counts as up to date *)

Section Deployments.
Context {H E : Type} `{K : Kube E} `{CM : ConditionMeta} `{CO : Codec}.
Local Abbreviation W := (World H E).
Implicit Types (m : microserviceImpl H) (w : W).

(** The deployment being built, and the one in the cluster. *)
Definition built_deployment m w : Deployment :=
  load (newObject (bh_handle (mi_deployment m))) (heap w).
Definition live_deployment m w : Deployment :=
  load (oldObject (bh_handle (mi_deployment m))) (heap w).

(** The variables of a microservice do not overlap. *)
Record microservice_separate m : Prop := {
  sep_d_flag : separate (newObject (bh_handle (mi_deployment m))) (mi_builtDeployment m);
  sep_d_cm : separate (newObject (bh_handle (mi_deployment m))) (newObject (ch_configMap (mi_configHelper m)));
  sep_d_cflag : separate (newObject (bh_handle (mi_deployment m))) (mi_builtConfig m);
  sep_d_svc : separate (newObject (bh_handle (mi_deployment m))) (newObject (hs_handle (mi_service m)));
  sep_d_sflag : separate (newObject (bh_handle (mi_deployment m))) (mi_builtService m);
  sep_flag_d : separate (mi_builtDeployment m) (newObject (bh_handle (mi_deployment m)));
  sep_flag_cm : separate (mi_builtDeployment m) (newObject (ch_configMap (mi_configHelper m)));
  sep_flag_cflag : separate (mi_builtDeployment m) (mi_builtConfig m);
  sep_flag_svc : separate (mi_builtDeployment m) (newObject (hs_handle (mi_service m)));
  sep_flag_sflag : separate (mi_builtDeployment m) (mi_builtService m);
  sep_old_d : separate (oldObject (bh_handle (mi_deployment m))) (newObject (bh_handle (mi_deployment m)));
  sep_old_built : separate (oldObject (bh_handle (mi_deployment m))) (bh_built (mi_deployment m));
  sep_old_flag : separate (oldObject (bh_handle (mi_deployment m))) (mi_builtDeployment m);
}.

Lemma same_bind {A B C} (r : Ref H A) (p : M W B) (f : B -> M W C) :
  preserves (same r) p -> (forall b, preserves (same r) (f b)) -> preserves (same r) (p ≫= f).
Proof. intros. by apply preserves_bind; [tc_solve| |]. Qed.

Lemma same_buildConfig {A} (r : Ref H A) m :
  separate r (newObject (ch_configMap (mi_configHelper m))) -> separate r (mi_builtConfig m) ->
  preserves (same r) (buildConfig m : M W _).
Proof.
  intros. apply same_bind; [apply preserves_gets, _|]. intros []; [apply preserves_ret, _|].
  apply same_bind; [by apply same_build|]. intros cm. apply same_bind; [by apply same_write|].
  intros. apply preserves_ret, _.
Qed.

Lemma same_buildService {A} (r : Ref H A) m :
  separate r (newObject (hs_handle (mi_service m))) -> separate r (mi_builtService m) ->
  preserves (same r) (buildService m : M W _).
Proof.
  intros. apply same_bind; [apply preserves_gets, _|]. intros []; [apply preserves_ret, _|].
  apply same_bind; [apply same_bind; [by apply same_write|intros; apply preserves_ret, _]|].
  intros s. apply same_bind; [by apply same_write|]. intros. apply preserves_ret, _.
Qed.

Lemma run_update {A} (r : Ref H A) f w :
  update r f w = Some (tt, mkWorld (resource w) (store r (f (load r (heap w))) (heap w)) (ext w)).
Proof. done. Qed.

(** A deployment built anew: the replicas, and one container with the image. *)
Lemma buildDeployment_result m w d w1 :
  microservice_separate m -> load (mi_builtDeployment m) (heap w) = false ->
  buildDeployment m w = Some (d, w1) ->
  d = newObject (bh_handle (mi_deployment m)) /\ load (mi_builtDeployment m) (heap w1) = true /\
  dp_Replicas (built_deployment m w1) = Some (mi_instanceCount m).
Proof.
  intros Hsep Hflag Hrun. unfold buildDeployment, read in Hrun. rewrite run_gets, Hflag in Hrun.
  apply bind_inv in Hrun as (d0 & w0 & Hb & Hrun).
  assert (d0 = newObject (bh_handle (mi_deployment m))) as ->.
  { unfold Deployment_Build in Hb. apply bind_inv in Hb as (? & ? & _ & Hb).
    apply bind_inv in Hb as (? & ? & _ & Hb). apply bind_inv in Hb as (? & ? & _ & Hb). by injection Hb. }
  unfold write in Hrun. rewrite run_modify in Hrun.
  rewrite (bind_step _ _ _ _ _ (run_update _ _ _)), (bind_step _ _ _ _ _ (run_update _ _ _)) in Hrun.
  injection Hrun as <- <-. split; [done|]. unfold built_deployment. simpl.
  by rewrite !(sep_flag_d m Hsep), !load_store.
Qed.

(** [Sync] submits the deployment that was built before. *)
Lemma microserviceImpl_Sync_built m w err w' :
  microservice_separate m -> load (mi_builtDeployment m) (heap w) = true ->
  microserviceImpl_Sync m w = Some (err, w') ->
  exists w1, built_deployment m w1 = built_deployment m w /\
    in_order [Sync (bh_handle (mi_deployment m)); ConfigHelper_Sync (mi_configHelper m);
              Sync (hs_handle (mi_service m))] w1 = Some (err, w').
Proof.
  intros Hsep Hflag Hrun. unfold microserviceImpl_Sync in Hrun.
  apply bind_inv in Hrun as (c & w1 & H1 & Hrun). apply bind_inv in Hrun as (d & w2 & H2 & Hrun).
  apply bind_inv in Hrun as (s & w3 & H3 & Hrun).
  pose proof (same_buildConfig _ _ (sep_d_cm m Hsep) (sep_d_cflag m Hsep) _ _ _ H1) as Hd1.
  pose proof (same_buildConfig _ _ (sep_flag_cm m Hsep) (sep_flag_cflag m Hsep) _ _ _ H1) as Hf1.
  unfold same in *. unfold buildDeployment, read in H2. rewrite run_gets, Hf1, Hflag in H2.
  injection H2 as _ <-.
  pose proof (same_buildService _ _ (sep_d_svc m Hsep) (sep_d_sflag m Hsep) _ _ _ H3) as Hd3.
  exists w3. split; [|done]. unfold built_deployment, same in *. congruence.
Qed.

(** Removing the pods submits the live deployment, with no replicas. *)
Lemma microservice_scales_to_zero m w err w' :
  microservice_separate m -> microserviceImpl_removePods m w = Some (err, w') ->
  exists w1, dp_Replicas (built_deployment m w1) = Some 0%Z /\
    dp_Template (built_deployment m w1) = dp_Template (live_deployment m w) /\
    in_order [Sync (bh_handle (mi_deployment m)); ConfigHelper_Sync (mi_configHelper m);
              Sync (hs_handle (mi_service m))] w1 = Some (err, w').
Proof.
  intros Hsep Hrun. unfold microserviceImpl_removePods in Hrun.
  apply bind_inv in Hrun as (d0 & w0 & Hb & Hrun).
  assert (d0 = newObject (bh_handle (mi_deployment m)) /\ live_deployment m w0 = live_deployment m w)
    as [-> Hlive].
  { unfold Deployment_Build, ExtraPodAnnotations, read, write in Hb. rewrite run_gets in Hb.
    destruct (load (bh_built (mi_deployment m)) (heap w)).
    - rewrite run_ret, run_modify in Hb. injection Hb as <- <-. split; [done|].
      unfold live_deployment. simpl. apply (sep_old_built m Hsep).
    - rewrite run_assoc, run_gets, run_assoc, run_gets, run_assoc, run_gets, run_modify, run_modify in Hb.
      injection Hb as <- <-. split; [done|]. unfold live_deployment. simpl.
      by rewrite (sep_old_built m Hsep), (sep_old_d m Hsep). }
  unfold read, write in Hrun. rewrite run_modify, run_gets in Hrun.
  rewrite (bind_step _ _ _ _ _ (run_update _ _ _)), (bind_step _ _ _ _ _ (run_update _ _ _)) in Hrun.
  apply microserviceImpl_Sync_built in Hrun as (w1 & Hd & Hrun); [|done|].
  - exists w1. rewrite Hd. unfold built_deployment at 1 2. simpl. rewrite !load_store. simpl.
    rewrite (sep_old_flag m Hsep). split; [done|]. split; [|done]. by rewrite <- Hlive.
  - simpl. by rewrite !(sep_flag_d m Hsep), load_store.
Qed.

(** What surrounds the deployment is there and up to date. *)
Record settled m w : Prop := {
  settled_service : Exists (hs_handle (mi_service m)) w = Some (true, w);
  settled_config : Exists (ch_configMap (mi_configHelper m)) w = Some (true, w);
  settled_reload : NeedReload (mi_configHelper m) w = Some ((false, None), w);
}.

Lemma settled_needSync m w :
  settled m w -> microserviceImpl_needSync m w = Deployment_NeedSync (mi_deployment m) (mi_instanceCount m) w.
Proof.
  intros [Hs Hc Hr]. unfold microserviceImpl_needSync, NeedInit, GetClusterState.
  rewrite (bind_step _ _ _ _ _ Hr). cbv beta iota zeta. rewrite run_assoc, (bind_step _ _ _ _ _ Hc), run_ret.
  cbn [negb]. cbv iota. rewrite run_gets, andb_false_r. cbv iota. by rewrite (bind_step _ _ _ _ _ Hs).
Qed.

Lemma up_to_date m w c :
  settled m w -> Exists (bh_handle (mi_deployment m)) w = Some (true, w) ->
  dp_Replicas (live_deployment m w) = Some (mi_instanceCount m) ->
  ps_Containers (dp_podSpec (live_deployment m w)) = [c] -> ct_Image c = mi_image m ->
  microserviceImpl_needSync m w = Some (false, w) /\ microserviceImpl_needUpdate m w = Some (false, w).
Proof.
  intros Hset Hd Hrep Hcont Himg. unfold live_deployment, dp_podSpec in *. split.
  - rewrite settled_needSync by done. unfold Deployment_NeedSync, read. rewrite run_gets, Hrep, Hcont.
    by rewrite !bool_decide_eq_true_2.
  - destruct Hset as [Hs Hc Hr]. unfold microserviceImpl_needUpdate, microserviceImpl_exists.
    rewrite run_assoc, (bind_step _ _ _ _ _ Hd). cbn [negb]. cbv iota. rewrite (bind_step _ _ _ _ _ Hs).
    cbn [negb]. cbv iota. unfold deploymentImageCorrespondsToSpec, read, dp_podSpec.
    rewrite run_assoc, run_gets, Hcont, run_ret, Himg, bool_decide_eq_true_2 by done. cbn [negb]. cbv iota.
    by rewrite (bind_step _ _ _ _ _ Hr).
Qed.

Lemma scaled_down m w :
  settled m w -> dp_Replicas (live_deployment m w) = Some 0%Z -> mi_instanceCount m <> 0%Z ->
  microserviceImpl_needSync m w = Some (true, w).
Proof.
  intros Hset Hrep Hn. rewrite settled_needSync by done. unfold Deployment_NeedSync, read.
  rewrite run_gets. unfold live_deployment in Hrep. rewrite Hrep.
  by rewrite (bool_decide_eq_false_2 (0%Z = _)).
Qed.
End Deployments.
