(* ===== verification/Ui.v ===== *)
(** * The UI and the strawberry controller: ui.go, strawberry_controller.go

    Two components over the interface [microservice]: they wait for what they
    depend on, keep a token, run jobs that prepare the cluster, and deploy. *)

From S2P Require Import Prelude GoPath Api Kube Conditions Samples CellId Labeller Names Proxy Component Resources ConfigHelper Server InitJob Observe ServerComponent Nodes Proxies YtApi YtsaurusClient StateJobs Microservice.

Definition UIClustersConfigFileName : string := "clusters-config.json".
Definition UICustomConfigFileName : string := "common.js".
Definition UIClustersConfigMountPoint : string := "/opt/app".
Definition UICustomConfigMountPoint : string := "/opt/app/dist/server/configs/custom".
Definition UISecretsMountPoint : string := "/opt/app/secrets".
Definition UIVaultMountPoint : string := "/vault".
Definition PrepareSecretContainerName : string := "prepare-secret".
Definition UIContainerName : string := "yt-ui".
Definition UISecretFileName : string := "yt-interface-secret.json".
Definition UIVaultVolumeName : string := "vault".
Definition UISecretsVolumeName : string := "secrets".
Definition UIUserName : string := "robot-ui".
Definition UIHTTPPort : Z := 80.
Definition StrawberryHTTPAPIPort : Z := 80.
Definition StrawberryControllerUserName : string := "robot-strawberry-controller".
Definition ChytInitClusterJobConfigFileName : string := "chyt-init-cluster.yson".

Section UiComponents.
Context {H E : Type} `{K : Kube E} `{CM : ConditionMeta} `{CO : Codec} `{Y : Yt E} `{EN : Entropy E}.
Local Abbreviation W := (World H E).

(** ** ui.go *)

Record UI := mkUI {
  u_labeller : Labeller;
  u_microservice : microservice W H;
  u_initJob : InitJob H E;
  u_master : Component W;
  u_secret : Handle H KSecret;
  u_caBundle : option MountedVolume;
}.

Definition UI_initUser (u : UI) : M W string :=
  '(token, _) ← StringSecret_GetValue (u_secret u) TokenSecretKey;
  mret (String.concat NL (createUserCommand UIUserName "" token false)).

Definition UI_createInitScript (u : UI) : M W string :=
  user ← UI_initUser u;
  mret (String.concat NL [initJobWithNativeDriverPrologue; user]).

(** A configuration file under its own name, and a volume as a directory. *)
Definition ui_config_mount (mountPoint file : string) : VolumeMount :=
  mkVolumeMount ConfigVolumeName (path_Join [mountPoint; file]) true None file.

Definition ui_volumeMounts : list VolumeMount :=
  [ui_config_mount UIClustersConfigMountPoint UIClustersConfigFileName;
   ui_config_mount UICustomConfigMountPoint UICustomConfigFileName;
   mkVolumeMount UIVaultVolumeName UIVaultMountPoint true None "";
   mkVolumeMount UISecretsVolumeName UISecretsMountPoint false None ""].

Definition ui_env (name : string) (spec : UISpec) (caBundle : option MountedVolume) : list EnvVar :=
  [mkEnvVar "YT_AUTH_CLUSTER_ID" name None;
   mkEnvVar "ALLOW_PASSWORD_AUTH" "1" None;
   mkEnvVar "APP_INSTALLATION" "custom" None] ++
  (if ui_UseInsecureCookies spec then [mkEnvVar "YT_AUTH_ALLOW_INSECURE" "1" None] else []) ++
  match caBundle with
  | Some t => [mkEnvVar "NODE_EXTRA_CA_CERTS" (mv_MountPath t +:+ "/ca.crt")%string None]
  | None => []
  end ++
  ui_ExtraEnvVariables spec.

(** [resource.ParseQuantity("1Mi")]. *)
Definition secretsVolumeSize : Quantity := (1048576 * 10 ^ 9)%Z.

Definition ui_initContainer (image : string) : Container :=
  mkContainer image PrepareSecretContainerName
    ["bash"; "-c"; ("cp " +:+ path_Join [UIVaultMountPoint; UISecretFileName] +:+ " " +:+
                      UISecretsMountPoint)%string] [] [] []
    ui_volumeMounts [] (mkResourceRequirements None None) None None.

Definition ui_container (image : string) (env : list EnvVar) : Container :=
  mkContainer image UIContainerName ["supervisord"] [] env [] ui_volumeMounts
    [mkContainerPort "http" UIHTTPPort] (mkResourceRequirements None None)
    (Some (mkProbe (HTTPGet (PortNumber UIHTTPPort) "/readyz") readinessProbe_zero)) None.

Definition ui_volumes (u : UI) : list Volume :=
  [mkVolume ConfigVolumeName (VolumeConfigMap (GetMainConfigMapName (u_labeller u)) None);
   mkVolume UIVaultVolumeName (VolumeSecret (hd_name (u_secret u)));
   mkVolume UISecretsVolumeName (VolumeEmptyDir (Some secretsVolumeSize))].

(** The bundle goes to the containers, not to the init containers. *)
Definition mount_containers (caBundle : option MountedVolume) (p : PodSpec) : PodSpec :=
  match caBundle with
  | None => p
  | Some t =>
      let p := AddVolume t p in
      set_ps_Containers (AddVolumeMount t <$> ps_Containers p) p
  end.

Definition ui_podSpec (u : UI) (env : list EnvVar) (p : PodSpec) : PodSpec :=
  let image := msv_getImage (u_microservice u) in
  mount_containers (u_caBundle u)
    (set_ps_Volumes (ui_volumes u)
       (set_ps_Containers [ui_container image env]
          (set_ps_InitContainers [ui_initContainer image] p))).

(** The objects [syncComponents] builds; a nil [UI] is dereferenced. *)
Definition UI_build (u : UI) : M W unit :=
  y ← GetResource;
  match sp_UI (yt_Spec y) with
  | None => panic
  | Some spec =>
      service ← msv_buildService (u_microservice u);
      _ ← set_service_type service (ui_ServiceType spec);
      let env := ui_env (yt_Name y) spec (u_caBundle u) in
      deployment ← msv_buildDeployment (u_microservice u);
      update deployment (fun d => set_dp_podSpec (ui_podSpec u env (dp_podSpec d)) d)
  end.

Definition UI_syncComponents (u : UI) : M W error :=
  _ ← UI_build u; msv_Sync (u_microservice u).

(** The token, also as the file the UI reads. *)
Definition ui_sync_secret (u : UI) : M W error :=
  token ← RandString 30;
  s ← StringSecret_Build (u_labeller u) (u_secret u);
  o ← read s;
  _ ← write s (mkSecret (sec_ObjectMeta o) (sec_Type o) (sec_Data o)
        (list_to_map
           [(UISecretFileName, ("{" +:+ DQ +:+ "oauthToken" +:+ DQ +:+ " : " +:+ DQ +:+ token +:+ DQ +:+ "}")%string);
            (TokenSecretKey, token)]));
  Resources.Sync (u_secret u).

(** A job, after its script is set: the rest only once it is completed. *)
Definition run_job (j : InitJob H E) (dry : bool) (prepare : M W unit) (rest : M W SyncResult)
    : M W SyncResult :=
  _ ← (if dry then mret tt else prepare);
  '(status, err) ← InitJob_Sync j dry;
  if negb (no_error err) || negb (bool_decide (cst_SyncStatus status = SyncStatusReady)) then
    mret (status, err)
  else rest.

(** The guards of [doSync], of the two components alike. *)
Definition microservice_guards (l : Labeller) (m : microservice W H) (dry : bool)
    (rest : M W SyncResult) : M W SyncResult :=
  local_update_guard (msv_needUpdate m)
    (updating_guard (handleUpdatingClusterState true l (msv_pods m) dry) rest).

Definition UI_doSync (u : UI) (dry : bool) : M W SyncResult :=
  let m := u_microservice u in
  microservice_guards (u_labeller u) m dry
  (await_running (u_master u)
  (pending (StringSecret_NeedSync (u_secret u) TokenSecretKey "") (hd_name (u_secret u)) dry
     (ui_sync_secret u)
  (run_job (u_initJob u) dry
     (script ← UI_createInitScript u; SetInitScript (u_initJob u) script)
  (pending (msv_needSync m) "components" dry (UI_syncComponents u)
  (arePodsReady ← pm_arePodsReady (msv_pods m);
   if negb arePodsReady then mret (WaitingStatus SyncStatusPending "pods", None) else ready))))).

Definition UI_component (u : UI) : Component W :=
  component_of (lb_ComponentName (u_labeller u)) UIType true (u_labeller u)
    (in_order [msv_Fetch (u_microservice u); InitJob_Fetch (u_initJob u); Fetch (u_secret u)])
    (UI_doSync u).

(** ** strawberry_controller.go *)

Definition getControllerConfigFileName (name : string) : string :=
  if decide (name = "chyt") then "chyt-controller.yson" else "strawberry-controller.yson".

Record StrawberryController := mkStrawberryController {
  sb_labeller : Labeller;
  sb_microservice : microservice W H;
  sb_initUserAndUrlJob : InitJob H E;
  sb_initChytClusterJob : InitJob H E;
  sb_secret : Handle H KSecret;
  sb_master : Component W;
  sb_scheduler : Component W;
  sb_dataNodes : list (Component W);
  sb_name : string;
}.

Definition Strawberry_initUsers (c : StrawberryController) : M W string :=
  '(token, _) ← StringSecret_GetValue (sb_secret c) TokenSecretKey;
  mret (String.concat NL (createUserCommand StrawberryControllerUserName "" token true)).

Definition createInitUserAndUrlScript (c : StrawberryController) : M W string :=
  users ← Strawberry_initUsers c;
  mret (String.concat NL
    [initJobWithNativeDriverPrologue;
     users;
     RunIfNonexistent "//sys/@ui_config" ["yt set //sys/@ui_config '{}'"];
     ("yt set //sys/@ui_config/chyt_controller_base_url '" +:+ DQ +:+ "http://" +:+
        hd_name (hs_handle (msv_getHttpService (sb_microservice c))) +:+ ":" +:+
        pretty StrawberryHTTPAPIPort +:+ DQ +:+ "'")%string]).

Definition createInitChytClusterScript : string :=
  String.concat NL
    [initJobPrologue;
     ("/usr/bin/chyt-controller --config-path " +:+
        path_Join [ConfigMountPoint; ChytInitClusterJobConfigFileName] +:+ " init-cluster")%string].

Definition prepareInitChytClusterJob (c : StrawberryController) : M W unit :=
  prepare_state_job (sb_initChytClusterJob c) (sb_secret c) createInitChytClusterScript.

Definition strawberry_container (image secret name : string) : Container :=
  mkContainer image UIContainerName
    ["/usr/bin/chyt-controller"; "--config-path";
     path_Join [ConfigMountPoint; getControllerConfigFileName name]; "run"]
    [] [] [secret] [createConfigVolumeMount] [mkContainerPort "http" StrawberryHTTPAPIPort]
    (mkResourceRequirements None None)
    (Some (mkProbe (TCPSocket (PortNumber StrawberryHTTPAPIPort)) readinessProbe_zero)) None.

Definition Strawberry_build (c : StrawberryController) : M W unit :=
  let m := sb_microservice c in
  service ← msv_buildService m;
  _ ← set_service_type service "ClusterIP";
  deployment ← msv_buildDeployment m;
  update deployment (fun d => set_dp_podSpec
    (set_ps_Volumes
       [createConfigVolume ConfigVolumeName (GetMainConfigMapName (sb_labeller c)) None]
       (set_ps_Containers
          [strawberry_container (msv_getImage m) (hd_name (sb_secret c)) (sb_name c)]
          (dp_podSpec d))) d).

Definition Strawberry_syncComponents (c : StrawberryController) : M W error :=
  _ ← Strawberry_build c; msv_Sync (sb_microservice c).

Definition Strawberry_doSync (c : StrawberryController) (dry : bool) : M W SyncResult :=
  let m := sb_microservice c in
  microservice_guards (sb_labeller c) m dry
  (await_running (sb_master c)
  (await_running (sb_scheduler c)
  (await_all (sb_dataNodes c)
  (pending_secret (sb_labeller c) (sb_secret c) dry
  (run_job (sb_initUserAndUrlJob c) dry
     (script ← createInitUserAndUrlScript c; SetInitScript (sb_initUserAndUrlJob c) script)
  (run_job (sb_initChytClusterJob c) dry (prepareInitChytClusterJob c)
  (pending (msv_needSync m) "components" dry (Strawberry_syncComponents c)
   ready))))))).

Definition Strawberry_component (c : StrawberryController) : Component W :=
  component_of (lb_ComponentName (sb_labeller c)) StrawberryControllerType true (sb_labeller c)
    (in_order [msv_Fetch (sb_microservice c); InitJob_Fetch (sb_initUserAndUrlJob c);
               InitJob_Fetch (sb_initChytClusterJob c); Fetch (sb_secret c)])
    (Strawberry_doSync c).
End UiComponents.

(** ** Frames *)

Section UiFrames.
Context {H E : Type} `{K : Kube E} `{CM : ConditionMeta} `{CO : Codec} `{Y : Yt E} `{EN : Entropy E}.
Context `{KL : !KubeLaws E K} `{CL : !ConditionMetaLaws CM}.
Context `{EL : !EntropyLaws E K KL EN}.
Local Abbreviation W := (World H E).

#[local] Hint Resolve set_service_type_quiet : frame.

Lemma UI_build_quiet (u : UI) :
  MicroserviceLaws (u_microservice u) -> preserves quiet (UI_build u : M W unit).
Proof. intros []. unfold UI_build. solve_frame. Qed.

Lemma Strawberry_build_quiet (c : StrawberryController) :
  MicroserviceLaws (sb_microservice c) -> preserves quiet (Strawberry_build c : M W unit).
Proof. intros []. unfold Strawberry_build. solve_frame. Qed.

Lemma RandString_quiet n : preserves quiet (RandString n : M W string).
Proof. unfold RandString. solve_frame. Qed.
#[local] Hint Resolve RandString_quiet : frame.

Lemma run_job_preserves (j : InitJob H E) dry prepare (rest : M W SyncResult) :
  ConditionManagerFrame (ij_conditionsManager j) -> preserves frame prepare -> preserves frame rest ->
  preserves frame (run_job j dry prepare rest).
Proof. intros. unfold run_job. solve_frame. Qed.

Lemma microservice_guards_preserves l (m : microservice W H) dry (rest : M W SyncResult) :
  MicroserviceLaws m -> preserves frame rest -> preserves frame (microservice_guards l m dry rest).
Proof. intros [] ?. unfold microservice_guards. solve_component. Qed.

#[export] Instance UI_laws (u : UI) :
  MicroserviceLaws (u_microservice u) -> ComponentLaws (u_master u) ->
  ConditionManagerFrame (ij_conditionsManager (u_initJob u)) ->
  ComponentLaws (UI_component u : Component W).
Proof.
  intros Hm Hc Hj. pose proof (UI_build_quiet u Hm). pose proof Hm as [].
  apply component_of_laws; [solve_frame|]. intros dry. unfold UI_doSync.
  apply microservice_guards_preserves; [done|]. solve_component; [unfold ui_sync_secret; solve_frame|].
  apply run_job_preserves; [done|unfold UI_createInitScript, UI_initUser; solve_frame|].
  unfold UI_syncComponents. solve_component.
Qed.

#[export] Instance Strawberry_laws (c : StrawberryController) :
  MicroserviceLaws (sb_microservice c) -> ComponentLaws (sb_master c) -> ComponentLaws (sb_scheduler c) ->
  Forall ComponentLaws (sb_dataNodes c) ->
  ConditionManagerFrame (ij_conditionsManager (sb_initUserAndUrlJob c)) ->
  ConditionManagerFrame (ij_conditionsManager (sb_initChytClusterJob c)) ->
  ComponentLaws (Strawberry_component c : Component W).
Proof.
  intros Hm Hma Hs Hd Hj Hk. pose proof (Strawberry_build_quiet c Hm). pose proof Hm as [].
  apply component_of_laws; [solve_frame|]. intros dry. unfold Strawberry_doSync.
  apply microservice_guards_preserves; [done|]. solve_component; [by apply statuses_frame|].
  apply pending_secret_frame.
  apply run_job_preserves; [done|unfold createInitUserAndUrlScript, Strawberry_initUsers; solve_frame|].
  apply run_job_preserves; [done|unfold prepareInitChytClusterJob; solve_frame|].
  unfold Strawberry_syncComponents. solve_component.
Qed.
End UiFrames.

(** ** The cycle of a deployment *)

Section Cycle.
Context {H E : Type} `{K : Kube E} `{CM : ConditionMeta} `{CO : Codec} `{Y : Yt E} `{EN : Entropy E}.
Local Abbreviation W := (World H E).
Implicit Types (m : microserviceImpl H) (w : W).

(** The two programs that build the objects of a microservice. *)
Inductive deploys m : M W unit -> Prop :=
| by_UI (u : UI) : u_microservice u = microserviceImpl_microservice m -> deploys m (UI_build u)
| by_Strawberry (c : StrawberryController) :
    sb_microservice c = microserviceImpl_microservice m -> deploys m (Strawberry_build c).

(** The service part leaves the flag of the deployment alone; the deployment
    part assigns the pod specification. *)
Lemma build_result m w w1 t (f : PodSpec -> PodSpec) :
  microservice_separate m -> load (mi_builtDeployment m) (heap w) = false ->
  (service ← buildService m;
   _ ← set_service_type service t;
   deployment ← buildDeployment m;
   update deployment (fun d => set_dp_podSpec (f (dp_podSpec d)) d)) w = Some (tt, w1) ->
  load (mi_builtDeployment m) (heap w1) = true /\
  dp_Replicas (built_deployment m w1) = Some (mi_instanceCount m) /\
  exists p, dp_podSpec (built_deployment m w1) = f p.
Proof.
  intros Hsep Hflag Hrun. apply bind_inv in Hrun as (s & wa & Hs & Hrun).
  apply bind_inv in Hrun as ([] & wb & Ht & Hrun). apply bind_inv in Hrun as (d & wc & Hd & Hrun).
  pose proof (same_buildService _ _ (sep_flag_svc m Hsep) (sep_flag_sflag m Hsep) _ _ _ Hs) as Hsa.
  assert (s = newObject (hs_handle (mi_service m))) as ->.
  { unfold buildService, read in Hs. rewrite run_gets in Hs. destruct (load (mi_builtService m) (heap w)); [by injection Hs|].
    apply bind_inv in Hs as (r & ? & Hb & Hs). apply bind_inv in Hs as (? & ? & _ & Hs).
    injection Hs as <- _. apply bind_inv in Hb as (? & ? & _ & Hb). by injection Hb. }
  unfold set_service_type, read in Ht. rewrite run_gets in Ht.
  pose proof (same_write _ _ _ (sep_flag_svc m Hsep) _ _ _ Ht) as Hsb.
  apply buildDeployment_result in Hd as (-> & Hflag' & Hrep); [|done|unfold same in *; congruence].
  rewrite run_update in Hrun. injection Hrun as <-. unfold built_deployment in *. simpl.
  rewrite load_store, (sep_flag_d m Hsep). split; [done|]. split; [done|]. by eexists.
Qed.

Lemma deploys_result m p w w1 :
  microservice_separate m -> load (mi_builtDeployment m) (heap w) = false -> deploys m p ->
  p w = Some (tt, w1) ->
  load (mi_builtDeployment m) (heap w1) = true /\
  dp_Replicas (built_deployment m w1) = Some (mi_instanceCount m) /\
  exists c, ps_Containers (dp_podSpec (built_deployment m w1)) = [c] /\ ct_Image c = mi_image m.
Proof.
  intros Hsep Hflag [u Hu|c Hc] Hrun.
  - unfold UI_build, GetResource in Hrun. rewrite run_gets in Hrun.
    destruct (sp_UI _) as [spec|]; [|done]. rewrite Hu in Hrun.
    apply build_result in Hrun as (Hflag' & Hrep & q & Hq); [|done..]. split; [done|]. split; [done|]. rewrite Hq.
    unfold ui_podSpec, mount_containers. rewrite Hu. destruct (u_caBundle u); simpl; by eexists.
  - unfold Strawberry_build in Hrun. rewrite Hc in Hrun. cbv zeta in Hrun.
    apply (build_result m w w1 "ClusterIP" (fun p => set_ps_Volumes _ (set_ps_Containers _ p))) in Hrun
      as (Hflag' & Hrep & q & Hq); [|done..]. split; [done|]. split; [done|]. rewrite Hq. simpl. by eexists.
Qed.

(** The submission of a microservice: the deployment, the configuration and
    the service, in this order. *)
Definition submission m : M W error :=
  in_order [Resources.Sync (bh_handle (mi_deployment m)); ConfigHelper_Sync (mi_configHelper m);
            Resources.Sync (hs_handle (mi_service m))].

End Cycle.

Import RefKube RefMeta RefCodec.

(** A strawberry controller, its variables and a cluster that holds what it
    built. *)
Module UiWitness.
Definition micro_heap : Type :=
  Deployment * (Deployment * (bool * (Service * (Service * (ConfigMap * (ConfigMap * (ConfigMap *
    (bool * (bool * bool))))))))).
Definition heap_t : Type := micro_heap * StateJobWitness.heap_t.
Definition at1 {A B C} (r : Ref B C) : Ref (A * B) C := comp_ref snd_ref r.
Definition in_micro {A} (r : Ref micro_heap A) : Ref heap_t A := comp_ref fst_ref r.
Definition in_job {A} (r : Ref StateJobWitness.heap_t A) : Ref heap_t A := comp_ref snd_ref r.

Definition vars : MicroserviceVars heap_t :=
  mkMicroserviceVars heap_t (in_micro fst_ref) (in_micro (at1 fst_ref)) (in_micro (at1 (at1 fst_ref)))
    (in_micro (at1 (at1 (at1 fst_ref)))) (in_micro (at1 (at1 (at1 (at1 fst_ref)))))
    (in_micro (at1 (at1 (at1 (at1 (at1 fst_ref))))))
    (in_micro (at1 (at1 (at1 (at1 (at1 (at1 fst_ref)))))))
    (in_micro (at1 (at1 (at1 (at1 (at1 (at1 (at1 fst_ref))))))))
    (in_micro (at1 (at1 (at1 (at1 (at1 (at1 (at1 (at1 fst_ref)))))))))
    (in_micro (at1 (at1 (at1 (at1 (at1 (at1 (at1 (at1 (at1 fst_ref))))))))))
    (in_micro (at1 (at1 (at1 (at1 (at1 (at1 (at1 (at1 (at1 snd_ref)))))))))).

Definition labeller : Labeller :=
  mkLabeller "minisaurus" "default" "yt-strawberry-controller" "StrawberryController" None.

Definition micro : microserviceImpl heap_t :=
  newMicroservice vars labeller None "strawberry:dev" 1
    [("strawberry-controller.yson", mkGeneratorDescriptor (fun y => inr (yt_Name y)) ConfigFormatYson)]
    "strawberry-controller" "strawberry" None.

Definition job_vars : InitJobVars heap_t :=
  let v := StateJobWitness.vars in
  mkInitJobVars heap_t (in_job (jv_job_old v)) (in_job (jv_job_new v)) (in_job (jv_overrides v))
    (in_job (jv_configMap_old v)) (in_job (jv_configMap_new v)) (in_job (jv_built v)).
Definition job : InitJob heap_t YtsaurusStatus :=
  NewInitJob job_vars labeller Ytsaurus_conditions [] "user" ClientConfigFileName "ytsaurus:dev"
    (fun y => inr (yt_Name y)).
Definition secret : Handle heap_t KSecret :=
  let s := StateJobWitness.secret in
  mkHandle heap_t KSecret "yt-strawberry-controller-secret" (in_job (oldObject s)) (in_job (newObject s)).
Definition component : Component (World heap_t YtsaurusStatus) :=
  component_of "Master" MasterType true labeller (mret None) (fun _ => ready).

Definition strawberry : StrawberryController (H:=heap_t) (E:=YtsaurusStatus) :=
  mkStrawberryController labeller (microserviceImpl_microservice micro) job job secret component component
    [] "strawberry".

Definition deployment_zero : Deployment :=
  mkDeployment ObjectMeta_zero ∅ None (mkPodTemplateSpec ObjectMeta_zero PodSpec_zero) 0 0.
Definition service_zero : Service := mkService ObjectMeta_zero "" "" ∅ [].
Definition config_zero : ConfigMap := mkConfigMap ObjectMeta_zero ∅.

Definition world (d : Deployment) (s : Service) (c : ConfigMap) : World heap_t YtsaurusStatus :=
  let w := StateJobWitness.world ClusterStateRunning UpdateStateNone JobWitness.job_zero [] in
  mkWorld (resource w)
    ((d, (deployment_zero, (false, (s, (service_zero, (config_zero, (c, (config_zero,
       (false, (false, false)))))))))), heap w) (ext w).

Definition start : World heap_t YtsaurusStatus := world deployment_zero service_zero config_zero.

(** The cluster holds a deployment like the given one. *)
Definition live_meta : ObjectMeta := mkObjectMeta "strawberry-controller" "default" ∅ None "1".
Definition live (d : Deployment) : World heap_t YtsaurusStatus :=
  world (mkDeployment live_meta (dp_Selector d) (dp_Replicas d) (dp_Template d) 1 1)
    (mkService live_meta "" "" ∅ [])
    (mkConfigMap live_meta {[ "strawberry-controller.yson" := "minisaurus" ]}).

Lemma live_settled d : settled micro (live d).
Proof. split; reflexivity. Qed.

Lemma micro_separate : microservice_separate micro.
Proof. split; intros b h; repeat match goal with x : _ * _ |- _ => destruct x end; reflexivity. Qed.
End UiWitness.

