(* ===== verification/ServerConfigs.v ===== *)
(** * The configurations of the other servers: pkg/ytconfig/master.go,
    master_caches.go, discovery.go, scheduler.go, proxy.go, query_tracker.go,
    queue_agent.go, yql_agent.go, chyt.go, ui.go and their generators in
    generator.go

    A carcass holds what comes from the specification of the server alone; its
    generator fills in what the cluster knows, and marshals the result. *)

From S2P Require Import Prelude GoPath Float Api Resources Server CellId Names YtApi Yson Logging CommonConfig NodeConfig Ui.

Local Open Scope string_scope.
Local Open Scope list_scope.
Local Open Scope res_scope.

(** ** Constants: pkg/consts *)

Definition SchedulerRPCPort : Z := 9011.
Definition ControllerAgentRPCPort : Z := 9014.
Definition HTTPProxyRPCPort : Z := 9016.
Definition HTTPSSecretMountPoint : string := "/config/https_secret".
(** [time.Second * 60], in milliseconds. *)
Definition HTTPSSecretUpdatePeriod : Z := 60000.
Definition DefaultYqlTokenPath : string := "/usr/yql_agent_token".

(** ** Masters *)

Record MasterChangelogs := mkMasterChangelogs { mch_Path : string; mch_IOEngine : option IOEngine }.

Record HydraManager := mkHydraManager { hm_MaxChangelogCountToKeep : Z; hm_MaxSnapshotCountToKeep : Z }.

Record CypressManager := mkCypressManager {
  cm_DefaultTableReplicationFactor : Z;
  cm_DefaultFileReplicationFactor : Z;
  cm_DefaultJournalReplicationFactor : Z;
  cm_DefaultJournalReadQuorum : Z;
  cm_DefaultJournalWriteQuorum : Z;
}.

Definition CypressManager_zero : CypressManager := mkCypressManager 0 0 0 0 0.

Record MasterServer := mkMasterServer {
  msv_CommonServer : CommonServer;
  msv_SnapshotsPath : string;
  msv_Changelogs : MasterChangelogs;
  msv_UseNewHydra : bool;
  msv_HydraManager : HydraManager;
  msv_CypressManager : CypressManager;
  msv_PrimaryMaster : MasterCell;
  msv_SecondaryMasters : list MasterCell;
}.

Section Carcasses.
Context `{QF : Quantities}.

Definition getMasterLogging (spec : MastersSpec) : Logging :=
  createLogging (ms_InstanceSpec spec) "master" default_loggers.

Definition getMasterServerCarcass (spec : MastersSpec) : Res MasterServer :=
  let i := ms_InstanceSpec spec in
  let* monitoringPort := deref (is_MonitoringPort i) in
  match FindFirstLocation (is_Locations i) LocationTypeMasterChangelogs with
  | None => fail "error creating master config: changelog location not found"
  | Some changelogs =>
      match FindFirstLocation (is_Locations i) LocationTypeMasterSnapshots with
      | None => fail "error creating master config: snapshot location not found"
      | Some snapshots =>
          ok (mkMasterServer (CommonServer_with (getMasterLogging spec) monitoringPort MasterRPCPort)
            (loc_Path snapshots) (mkMasterChangelogs (loc_Path changelogs) None) true
            (mkHydraManager (default 10%Z (ms_MaxChangelogCountToKeep spec))
               (default 10%Z (ms_MaxSnapshotCountToKeep spec)))
            CypressManager_zero MasterCell_zero [])
      end
  end.

(** Replication factors of tables and files, then the journals. *)
Definition configureMasterServerCypressManager (maxReplicationFactor : Z) : CypressManager :=
  if (maxReplicationFactor <=? 1)%Z then mkCypressManager 1 1 1 1 1
  else if (maxReplicationFactor =? 2)%Z then mkCypressManager 2 2 2 2 2
  else if ((3 <=? maxReplicationFactor) && (maxReplicationFactor <? 5))%Z then mkCypressManager 3 3 3 2 2
  else if (5 <=? maxReplicationFactor)%Z then mkCypressManager 3 3 5 3 3
  else CypressManager_zero.

(** ** Carcasses of the other servers *)

(** A server with its RPC port, its loggers and its monitoring port. *)
Definition carcass (logging : Logging) (rpcPort : Z) (i : InstanceSpec) : Res CommonServer :=
  let* monitoringPort := deref (is_MonitoringPort i) in
  ok (CommonServer_with logging monitoringPort rpcPort).

Definition getMasterCachesLogging (spec : MasterCachesSpec) : Logging :=
  createLogging (mc_InstanceSpec spec) "master-cache" default_loggers.

Definition getMasterCachesCarcass (spec : MasterCachesSpec) : Res CommonServer :=
  carcass (getMasterCachesLogging spec) MasterCachesRPCPort (mc_InstanceSpec spec).

Record DiscoveryServer := mkDiscoveryServer { dsv_CommonServer : CommonServer; dsv_Addresses : list string }.

Definition getDiscoveryLogging (spec : InstanceSpec) : Logging :=
  createLogging spec "discovery" default_loggers.

Definition getDiscoveryServerCarcass (spec : InstanceSpec) : Res DiscoveryServer :=
  let* c := carcass (getDiscoveryLogging spec) DiscoveryRPCPort spec in
  ok (mkDiscoveryServer c []).

Record SchedulerServer := mkSchedulerServer {
  ssv_CommonServer : CommonServer;
  ssv_EnableOperationArchivation : option bool;
}.

Definition getSchedulerLogging (spec : InstanceSpec) : Logging :=
  createLogging spec "scheduler" default_loggers.

Definition getSchedulerServerCarcass (spec : InstanceSpec) : Res SchedulerServer :=
  let* c := carcass (getSchedulerLogging spec) SchedulerRPCPort spec in
  ok (mkSchedulerServer c None).

Record ControllerAgentServer := mkControllerAgentServer {
  casv_CommonServer : CommonServer;
  casv_EnableTmpfs : bool;
  casv_UseColumnarStatisticsDefault : bool;
}.

Definition getControllerAgentLogging (spec : InstanceSpec) : Logging :=
  createLogging spec "controller-agent" default_loggers.

Definition getControllerAgentServerCarcass (spec : InstanceSpec) : Res ControllerAgentServer :=
  let* c := carcass (getControllerAgentLogging spec) ControllerAgentRPCPort spec in
  ok (mkControllerAgentServer c false false).

Record QueryTrackerServer := mkQueryTrackerServer {
  qtsv_CommonServer : CommonServer;
  qtsv_User : string;
  qtsv_CreateStateTablesOnStartup : bool;
}.

Definition getQueryTrackerLogging (spec : InstanceSpec) : Logging :=
  createLogging spec "query-tracker" default_loggers.

Definition getQueryTrackerServerCarcass (spec : InstanceSpec) : Res QueryTrackerServer :=
  let* c := carcass (getQueryTrackerLogging spec) QueryTrackerRPCPort spec in
  ok (mkQueryTrackerServer c "query_tracker" true).

Record QueueAgentServer := mkQueueAgentServer {
  qasv_CommonServer : CommonServer;
  qasv_User : string;
  qasv_Stage : string;
}.

Definition getQueueAgentLogging (spec : InstanceSpec) : Logging :=
  createLogging spec "queue-agent" default_loggers.

Definition getQueueAgentServerCarcass (spec : InstanceSpec) : Res QueueAgentServer :=
  let* c := carcass (getQueueAgentLogging spec) QueueAgentRPCPort spec in
  ok (mkQueueAgentServer c "queue_agent" "production").

Record ClusterMapping := mkClusterMapping { cmp_Name : string; cmp_Cluster : string; cmp_Default : bool }.

(** [YQLAgent], with its [GatewayConfig] first. *)
Record YQLAgentSection := mkYQLAgentSection {
  ys_GatewayMRJobBinary : string;
  ys_GatewayUDFDirectory : string;
  ys_ClusterMapping : list ClusterMapping;
  ys_YqlPluginSharedLibrary : string;
  ys_YTTokenPath : string;
  ys_MRJobBinary : string;
  ys_UDFDirectory : string;
  ys_AdditionalClusters : list (string * string);
  ys_DefaultCluster : string;
}.

Record YQLAgentServer := mkYQLAgentServer {
  ysv_CommonServer : CommonServer;
  ysv_User : string;
  ysv_YQLAgent : YQLAgentSection;
}.

Definition getYQLAgentLogging (spec : InstanceSpec) : Logging :=
  createLogging spec "yql-agent" [defaultInfoLoggerSpec; defaultDebugLoggerSpec; defaultStderrLoggerSpec].

Definition getYQLAgentServerCarcass (spec : InstanceSpec) : Res YQLAgentServer :=
  let* c := carcass (getYQLAgentLogging spec) YQLAgentRPCPort spec in
  ok (mkYQLAgentServer c "yql_agent"
    (mkYQLAgentSection "/usr/bin/mrjob" "/usr/lib/yql" [] "/usr/lib/yql/libyqlplugin.so"
       DefaultYqlTokenPath "/usr/bin/mrjob" "/usr/lib/yql" [] "")).

(** ** Proxies *)

Record HTTPSServer := mkHTTPSServer {
  hss_Port : Z;
  hss_CertChain : PemBlob;
  hss_PrivateKey : PemBlob;
  hss_UpdatePeriod : Z;
}.

Record HTTPProxyServer := mkHTTPProxyServer {
  hsv_CommonServer : CommonServer;
  hsv_Port : Z;
  hsv_Auth : Auth;
  hsv_CoordinatorEnable : bool;
  hsv_CoordinatorDefaultRoleFilter : string;
  hsv_Driver : Driver;
  hsv_Role : string;
  hsv_HTTPSServer : option HTTPSServer;
}.

Definition getHTTPProxyLogging (spec : HTTPProxiesSpec) : Logging :=
  createLogging (hp_InstanceSpec spec) "http-proxy" default_loggers.

Definition getHTTPProxyServerCarcass (spec : HTTPProxiesSpec) : Res HTTPProxyServer :=
  let* c := carcass (getHTTPProxyLogging spec) HTTPProxyRPCPort (hp_InstanceSpec spec) in
  ok (mkHTTPProxyServer c HTTPProxyHTTPPort (mkAuth true None false false true) true DefaultHTTPProxyRole
    Driver_zero (hp_Role spec)
    ((fun _ =>
        mkHTTPSServer HTTPProxyHTTPSPort (mkPemBlob (path_Join [HTTPSSecretMountPoint; TLSCertKey]) "")
          (mkPemBlob (path_Join [HTTPSSecretMountPoint; TLSPrivateKeyKey]) "") HTTPSSecretUpdatePeriod)
     <$> ht_HTTPSSecret (hp_Transport spec))).

Record RPCProxyServer := mkRPCProxyServer {
  rsv_CommonServer : CommonServer;
  rsv_Role : string;
  rsv_CypressTokenAuthenticator_Secure : bool;
  rsv_OauthService : option OauthService;
  rsv_OauthTokenAuthenticator : bool;
  rsv_RequireAuthentication : option bool;
}.

Definition getRPCProxyLogging (spec : RPCProxiesSpec) : Logging :=
  createLogging (rp_InstanceSpec spec) "rpc-proxy" default_loggers.

Definition getRPCProxyServerCarcass (spec : RPCProxiesSpec) : Res RPCProxyServer :=
  let* c := carcass (getRPCProxyLogging spec) RPCProxyRPCPort (rp_InstanceSpec spec) in
  ok (mkRPCProxyServer c (rp_Role spec) true None false None).

Record TCPProxyServer := mkTCPProxyServer { tsv_CommonServer : CommonServer; tsv_Role : string }.

Definition getTCPProxyLogging (spec : TCPProxiesSpec) : Logging :=
  createLogging (tp_InstanceSpec spec) "tcp-proxy" default_loggers.

(** The RPC port of a TCP proxy is not set. *)
Definition getTCPProxyServerCarcass (spec : TCPProxiesSpec) : Res TCPProxyServer :=
  let* c := carcass (getTCPProxyLogging spec) 0 (tp_InstanceSpec spec) in
  ok (mkTCPProxyServer c (tp_Role spec)).

Record NativeClient := mkNativeClient {
  nc_AddressResolver : AddressResolver;
  nc_Logging : Logging;
  nc_Driver : Driver;
}.

Definition getNativeClientCarcass : NativeClient :=
  mkNativeClient AddressResolver_zero (lgb_logging (newLoggingBuilder None "client")) Driver_zero.
End Carcasses.

(** ** The user interface and the strawberry controller *)

Record UICluster := mkUICluster {
  uc_ID : string;
  uc_Name : string;
  uc_Proxy : string;
  uc_ExternalProxy : option string;
  uc_Secure : bool;
  uc_Authentication : string;
  uc_Group : string;
  uc_Theme : string;
  uc_Environment : string;
  uc_Description : string;
  uc_CellTag : Z;
}.

Definition getUIClusterCarcass : UICluster :=
  mkUICluster "" "" "" None false "basic" "My YTsaurus clusters" "" ""
    "My first YTsaurus. Handle with care." 0.

(** [StrawberryController] of chyt.go. *)
Record StrawberryConfig := mkStrawberryConfig {
  sbc_LocationProxies : list string;
  sbc_Root : string;
  sbc_Stage : string;
  sbc_RobotUsername : string;
  sbc_Controllers : list (string * YtValue);
  sbc_HTTPAPIEndpoint : string;
  sbc_HTTPLocationAliases : list (string * list string);
}.

Definition getStrawberryController `{YsonPretty} (resolver : AddressResolver) : Res StrawberryConfig :=
  let* chytYsonConfig :=
    marshallYsonConfig (YMap (field "address_resolver" (yson_AddressResolver resolver))) in
  ok (mkStrawberryConfig [] "//sys/strawberry" "production" StrawberryControllerUserName
        [("chyt", YRaw chytYsonConfig)] (":" +:+ pretty StrawberryHTTPAPIPort)%string []).

(** [ChytInitCluster] with its proxy. *)
Definition yson_ChytInitCluster (proxy : string) : YtValue :=
  YMap (field "proxy" (YString proxy) ++ field "strawberry_root" (YString "//sys/strawberry")
    ++ field "families" (yson_strings ["chyt"; "jupyt"])).

(** ** Documents *)

Definition yson_MasterServer (c : MasterServer) : YtValue :=
  YMap (fields_CommonServer (msv_CommonServer c)
    ++ field "snapshots" (YMap (field "path" (YString (msv_SnapshotsPath c))))
    ++ field "changelogs"
         (YMap (field "path" (YString (mch_Path (msv_Changelogs c)))
            ++ opt "io_engine" yson_IOEngine (mch_IOEngine (msv_Changelogs c))))
    ++ field "use_new_hydra" (YBool (msv_UseNewHydra c))
    ++ field "hydra_manager"
         (YMap (field "max_changelog_count_to_keep" (YInt (hm_MaxChangelogCountToKeep (msv_HydraManager c)))
            ++ field "max_snapshot_count_to_keep" (YInt (hm_MaxSnapshotCountToKeep (msv_HydraManager c)))))
    ++ field "cypress_manager"
         (let m := msv_CypressManager c in
          YMap (opt_int "default_table_replication_factor" (cm_DefaultTableReplicationFactor m)
            ++ opt_int "default_file_replication_factor" (cm_DefaultFileReplicationFactor m)
            ++ opt_int "default_journal_replication_factor" (cm_DefaultJournalReplicationFactor m)
            ++ opt_int "default_journal_read_quorum" (cm_DefaultJournalReadQuorum m)
            ++ opt_int "default_journal_write_quorum" (cm_DefaultJournalWriteQuorum m)))
    ++ field "primary_master" (yson_MasterCell (msv_PrimaryMaster c))
    ++ field "secondary_masters" (yson_list yson_MasterCell (msv_SecondaryMasters c))).

Definition yson_DiscoveryServer (c : DiscoveryServer) : YtValue :=
  YMap (fields_CommonServer (dsv_CommonServer c)
    ++ field "discovery_server" (YMap (field "server_addresses" (yson_strings (dsv_Addresses c))))).

Definition yson_MasterCacheServer (c : CommonServer) : YtValue := YMap (fields_CommonServer c).

Definition yson_SchedulerServer (c : SchedulerServer) : YtValue :=
  YMap (fields_CommonServer (ssv_CommonServer c)
    ++ field "scheduler"
         (YMap (field "operations_cleaner"
            (YMap (opt "enable_operation_archivation" YBool (ssv_EnableOperationArchivation c)))))).

Definition yson_ControllerAgentServer (c : ControllerAgentServer) : YtValue :=
  YMap (fields_CommonServer (casv_CommonServer c)
    ++ field "controller_agent"
         (YMap (field "enable_tmpfs" (YBool (casv_EnableTmpfs c))
            ++ field "use_columnar_statistics_default" (YBool (casv_UseColumnarStatisticsDefault c))))).

Definition yson_QueryTrackerServer (c : QueryTrackerServer) : YtValue :=
  YMap (fields_CommonServer (qtsv_CommonServer c)
    ++ field "user" (YString (qtsv_User c))
    ++ field "create_state_tables_on_startup" (YBool (qtsv_CreateStateTablesOnStartup c))).

Definition yson_QueueAgentServer (c : QueueAgentServer) : YtValue :=
  YMap (fields_CommonServer (qasv_CommonServer c)
    ++ field "user" (YString (qasv_User c))
    ++ field "queue_agent" (YMap (field "stage" (YString (qasv_Stage c))))).

Definition yson_ClusterMapping (m : ClusterMapping) : YtValue :=
  YMap (field "name" (YString (cmp_Name m)) ++ field "cluster" (YString (cmp_Cluster m))
    ++ field "default" (YBool (cmp_Default m))).

Definition yson_YQLAgentServer (c : YQLAgentServer) : YtValue :=
  let a := ysv_YQLAgent c in
  YMap (fields_CommonServer (ysv_CommonServer c)
    ++ field "user" (YString (ysv_User c))
    ++ field "yql_agent"
         (YMap (field "gateway_config"
                  (YMap (field "mr_job_bin" (YString (ys_GatewayMRJobBinary a))
                     ++ field "mr_job_udfs_dir" (YString (ys_GatewayUDFDirectory a))
                     ++ field "cluster_mapping" (yson_list yson_ClusterMapping (ys_ClusterMapping a))))
            ++ field "yql_plugin_shared_library" (YString (ys_YqlPluginSharedLibrary a))
            ++ field "yt_token_path" (YString (ys_YTTokenPath a))
            ++ field "mr_job_binary" (YString (ys_MRJobBinary a))
            ++ field "udf_directory" (YString (ys_UDFDirectory a))
            ++ field "additional_clusters"
                 (YMap ((fun p => (p.1, YString p.2)) <$> ys_AdditionalClusters a))
            ++ field "default_cluster" (YString (ys_DefaultCluster a))))).

Definition yson_HTTPSServer (s : HTTPSServer) : YtValue :=
  YMap (field "port" (YInt (hss_Port s))
    ++ field "credentials"
         (YMap (field "cert_chain" (yson_PemBlob (hss_CertChain s))
            ++ field "private_key" (yson_PemBlob (hss_PrivateKey s))
            ++ opt_int "update_period" (hss_UpdatePeriod s)))).

Definition yson_HTTPProxyServer (c : HTTPProxyServer) : YtValue :=
  YMap (fields_CommonServer (hsv_CommonServer c)
    ++ field "port" (YInt (hsv_Port c))
    ++ field "auth" (yson_Auth (hsv_Auth c))
    ++ field "coordinator"
         (YMap (field "enable" (YBool (hsv_CoordinatorEnable c))
            ++ field "default_role_filter" (YString (hsv_CoordinatorDefaultRoleFilter c))))
    ++ field "driver" (yson_Driver (hsv_Driver c))
    ++ field "role" (YString (hsv_Role c))
    ++ opt "https_server" yson_HTTPSServer (hsv_HTTPSServer c)).

Definition yson_RPCProxyServer (c : RPCProxyServer) : YtValue :=
  YMap (fields_CommonServer (rsv_CommonServer c)
    ++ field "role" (YString (rsv_Role c))
    ++ field "cypress_user_manager" (YMap [])
    ++ field "cypress_token_authenticator" (yson_token_authenticator (rsv_CypressTokenAuthenticator_Secure c))
    ++ opt "oauth_service" yson_OauthService (rsv_OauthService c)
    ++ opt_empty "oauth_token_authenticator" (rsv_OauthTokenAuthenticator c)
    ++ opt "require_authentication" YBool (rsv_RequireAuthentication c)).

Definition yson_TCPProxyServer (c : TCPProxyServer) : YtValue :=
  YMap (fields_CommonServer (tsv_CommonServer c) ++ field "role" (YString (tsv_Role c))).

Definition yson_NativeClient (c : NativeClient) : YtValue :=
  YMap (field "address_resolver" (yson_AddressResolver (nc_AddressResolver c))
    ++ field "logging" (yson_Logging (nc_Logging c))
    ++ field "driver" (yson_Driver (nc_Driver c))).

Definition yson_UICluster (c : UICluster) : YtValue :=
  YMap (field "id" (YString (uc_ID c)) ++ field "name" (YString (uc_Name c))
    ++ field "proxy" (YString (uc_Proxy c)) ++ opt "externalProxy" YString (uc_ExternalProxy c)
    ++ field "secure" (YBool (uc_Secure c)) ++ field "authentication" (YString (uc_Authentication c))
    ++ field "group" (YString (uc_Group c)) ++ field "theme" (YString (uc_Theme c))
    ++ field "environment" (YString (uc_Environment c))
    ++ field "description" (YString (uc_Description c))
    ++ field "primaryMaster" (YMap (field "cellTag" (YInt (uc_CellTag c))))).

Definition yson_StrawberryConfig (c : StrawberryConfig) : YtValue :=
  YMap (field "location_proxies" (yson_strings (sbc_LocationProxies c))
    ++ field "strawberry"
         (YMap (field "root" (YString (sbc_Root c)) ++ field "stage" (YString (sbc_Stage c))
            ++ field "robot_username" (YString (sbc_RobotUsername c))))
    ++ field "controllers" (YMap (sbc_Controllers c))
    ++ field "http_api_endpoint" (YString (sbc_HTTPAPIEndpoint c))
    ++ field "http_location_aliases"
         (YMap ((fun p => (p.1, yson_strings p.2)) <$> sbc_HTTPLocationAliases c))).

(** ** The generators *)

Section Generators.
Context `{U : Uuid} `{QF : Quantities} `{YP : YsonPretty}.
Context (g : Generator).

Let base := gen_base g.
Let spec := yt_Spec (gen_ytsaurus g).

Definition GetClusterConnection : Res string :=
  let* c := fillClusterConnection base ClusterConnection_zero None in
  marshallYsonConfig (yson_ClusterConnection c).

Definition GetStrawberryControllerConfig : Res string :=
  let* c := getStrawberryController (fillAddressResolver base AddressResolver_zero) in
  let proxy := GetHTTPProxiesAddress g DefaultHTTPProxyRole in
  marshallYsonConfig (yson_StrawberryConfig
    (mkStrawberryConfig [proxy] (sbc_Root c) (sbc_Stage c) (sbc_RobotUsername c) (sbc_Controllers c)
       (sbc_HTTPAPIEndpoint c) [(proxy, [yt_Name (gen_ytsaurus g)])])).

Definition GetChytInitClusterConfig : Res string :=
  marshallYsonConfig (yson_ChytInitCluster (GetHTTPProxiesAddress g DefaultHTTPProxyRole)).

(** Masters on the network of their hosts identify themselves by the address
    of their pod, unless the addresses of the hosts are given. *)
Definition master_localhost (s : MastersSpec) (c : CommonServer) : CommonServer :=
  if default (cs_HostNetwork (sp_CommonSpec spec)) (is_HostNetwork (ms_InstanceSpec s)) &&
     bool_decide (mcs_HostAddresses (ms_MasterConnectionSpec s) = [])
  then set_LocalhostNameOverride ("{K8S_POD_NAME}." +:+ getMasterPodFqdnSuffix base)%string c else c.

Definition getMasterConfigImpl (s : MastersSpec) : Res MasterServer :=
  let* c := getMasterServerCarcass s in
  let* common := fillServer base (msv_CommonServer c) (ms_InstanceSpec s) in
  let* primaryMaster := fillPrimaryMaster base in
  ok (mkMasterServer (master_localhost s common) (msv_SnapshotsPath c)
    (mkMasterChangelogs (mch_Path (msv_Changelogs c)) (fillIOEngine base (mch_IOEngine (msv_Changelogs c))))
    (msv_UseNewHydra c) (msv_HydraManager c)
    (configureMasterServerCypressManager (GetMaxReplicationFactor base)) primaryMaster
    (msv_SecondaryMasters c)).

Definition GetMasterConfig (s : MastersSpec) : Res string :=
  let* c := getMasterConfigImpl s in marshallYsonConfig (yson_MasterServer c).

Definition GetNativeClientConfig : Res string :=
  let c := getNativeClientCarcass in
  let* driver := fillDriver g (nc_Driver c) in
  marshallYsonConfig (yson_NativeClient
    (mkNativeClient (fillAddressResolver base (nc_AddressResolver c)) (nc_Logging c)
       (mkDriver (dr_TimestampProviders driver) (dr_PrimaryMaster driver) 4))).

Definition getSchedulerConfigImpl (s : InstanceSpec) : Res SchedulerServer :=
  let* c := getSchedulerServerCarcass s in
  let archivation :=
    match sp_TabletNodes spec with [] => Some false | _ => ssv_EnableOperationArchivation c end in
  let* common := fillServer base (ssv_CommonServer c) s in
  ok (mkSchedulerServer common archivation).

(** Without a specification the configuration is empty. *)
Definition if_specified {A} (s : option A) (f : A -> Res string) : Res string :=
  match s with None => ok "" | Some s => f s end.

Definition GetSchedulerConfig (s : option InstanceSpec) : Res string :=
  if_specified s (fun s =>
  let* c := getSchedulerConfigImpl s in marshallYsonConfig (yson_SchedulerServer c)).

Definition getRPCProxyConfigImpl (s : RPCProxiesSpec) : Res RPCProxyServer :=
  let* c := getRPCProxyServerCarcass s in
  let* common := fillCommonService base (rsv_CommonServer c) (rp_InstanceSpec s) in
  ok (match sp_OauthService spec with
      | None =>
          mkRPCProxyServer common (rsv_Role c) (rsv_CypressTokenAuthenticator_Secure c) (rsv_OauthService c)
            (rsv_OauthTokenAuthenticator c) (rsv_RequireAuthentication c)
      | Some oauth =>
          mkRPCProxyServer common (rsv_Role c) (rsv_CypressTokenAuthenticator_Secure c)
            (Some (oauth_of oauth)) true (Some true)
      end).

Definition GetRPCProxyConfig (s : RPCProxiesSpec) : Res string :=
  let* c := getRPCProxyConfigImpl s in
  let common := rsv_CommonServer c in
  let common :=
    match rt_TLSSecret (rp_Transport s) with
    | None => common
    | Some _ =>
        set_BusServer (Some (fillBusEncryption (default Bus_zero (bs_BusServer (csv_BasicServer common)))
                               (rp_Transport s))) common
    end in
  marshallYsonConfig (yson_RPCProxyServer
    (mkRPCProxyServer common (rsv_Role c) (rsv_CypressTokenAuthenticator_Secure c) (rsv_OauthService c)
       (rsv_OauthTokenAuthenticator c) (rsv_RequireAuthentication c))).

Definition getTCPProxyConfigImpl (s : TCPProxiesSpec) : Res TCPProxyServer :=
  let* c := getTCPProxyServerCarcass s in
  let* common := fillCommonService base (tsv_CommonServer c) (tp_InstanceSpec s) in
  ok (mkTCPProxyServer common (tsv_Role c)).

Definition GetTCPProxyConfig (s : TCPProxiesSpec) : Res string :=
  match sp_TCPProxies spec with
  | [] => ok ""
  | _ => let* c := getTCPProxyConfigImpl s in marshallYsonConfig (yson_TCPProxyServer c)
  end.

Definition getControllerAgentConfigImpl (s : InstanceSpec) : Res ControllerAgentServer :=
  let* c := getControllerAgentServerCarcass s in
  let* common := fillServer base (casv_CommonServer c) s in
  ok (mkControllerAgentServer common true true).

Definition GetControllerAgentConfig (s : option InstanceSpec) : Res string :=
  if_specified s (fun s =>
  let* c := getControllerAgentConfigImpl s in marshallYsonConfig (yson_ControllerAgentServer c)).

Definition getHTTPProxyConfigImpl (s : HTTPProxiesSpec) : Res HTTPProxyServer :=
  let* c := getHTTPProxyServerCarcass s in
  let* driver := fillDriver g (hsv_Driver c) in
  let* common := fillServer base (hsv_CommonServer c) (hp_InstanceSpec s) in
  let a := hsv_Auth c in
  let auth :=
    match sp_OauthService spec with
    | None => a
    | Some oauth =>
        mkAuth (au_CypressTokenAuthenticator_Secure a) (Some (oauth_of oauth)) true true
          (au_RequireAuthentication a)
    end in
  ok (mkHTTPProxyServer common (hsv_Port c) auth (hsv_CoordinatorEnable c)
        (hsv_CoordinatorDefaultRoleFilter c) driver (hsv_Role c) (hsv_HTTPSServer c)).

Definition GetHTTPProxyConfig (s : HTTPProxiesSpec) : Res string :=
  let* c := getHTTPProxyConfigImpl s in marshallYsonConfig (yson_HTTPProxyServer c).

Definition getQueryTrackerConfigImpl (s : InstanceSpec) : Res QueryTrackerServer :=
  let* c := getQueryTrackerServerCarcass s in
  let* common := fillServer base (qtsv_CommonServer c) s in
  ok (mkQueryTrackerServer common (qtsv_User c) (qtsv_CreateStateTablesOnStartup c)).

Definition GetQueryTrackerConfig (s : option InstanceSpec) : Res string :=
  if_specified s (fun s =>
  let* c := getQueryTrackerConfigImpl s in marshallYsonConfig (yson_QueryTrackerServer c)).

Definition getQueueAgentConfigImpl (s : InstanceSpec) : Res QueueAgentServer :=
  let* c := getQueueAgentServerCarcass s in
  let* common := fillServer base (qasv_CommonServer c) s in
  ok (mkQueueAgentServer common (qasv_User c) (qasv_Stage c)).

Definition GetQueueAgentConfig (s : option InstanceSpec) : Res string :=
  if_specified s (fun s =>
  let* c := getQueueAgentConfigImpl s in marshallYsonConfig (yson_QueueAgentServer c)).

Definition getYQLAgentConfigImpl (s : InstanceSpec) : Res YQLAgentServer :=
  let* c := getYQLAgentServerCarcass s in
  let* common := fillServer base (ysv_CommonServer c) s in
  let a := ysv_YQLAgent c in
  let name := yt_Name (gen_ytsaurus g) in
  let cluster := GetHTTPProxiesServiceAddress g DefaultHTTPProxyRole in
  ok (mkYQLAgentServer common (ysv_User c)
    (mkYQLAgentSection (ys_GatewayMRJobBinary a) (ys_GatewayUDFDirectory a)
       [mkClusterMapping name cluster true] (ys_YqlPluginSharedLibrary a) (ys_YTTokenPath a)
       (ys_MRJobBinary a) (ys_UDFDirectory a) [(name, cluster)] name)).

Definition GetYQLAgentConfig (s : option InstanceSpec) : Res string :=
  if_specified s (fun s =>
  let* c := getYQLAgentConfigImpl s in marshallYsonConfig (yson_YQLAgentServer c)).

Definition ui_cluster (ui : UISpec) : UICluster :=
  let c := getUIClusterCarcass in
  let name := yt_Name (gen_ytsaurus g) in
  mkUICluster name name (GetHTTPProxiesAddress g DefaultHTTPProxyRole) (ui_ExternalProxy ui) (ui_Secure ui)
    (uc_Authentication c) (default (uc_Group c) (ui_Group ui)) (ui_Theme ui) (ui_Environment ui)
    (default (uc_Description c) (ui_Description ui))
    (mcs_CellTag (ms_MasterConnectionSpec (sp_PrimaryMasters spec))).

Definition GetUIClustersConfig : Res string :=
  if_specified (sp_UI spec) (fun ui =>
  marshallYsonConfig (YMap (field "clusters" (yson_list yson_UICluster [ui_cluster ui])))).

(** [UICustomSettings]: the pointer [DirectDownload], when it is not nil. *)
Definition GetUICustomSettings (ui : UISpec) : option bool := ui_DirectDownload ui.

Definition GetUICustomConfig : Res string :=
  if_specified (sp_UI spec) (fun ui =>
  marshallYsonConfig
    (YMap (opt "odinBaseUrl" YString (ui_OdinBaseUrl ui)
       ++ opt "uiSettings" (fun d => YMap (field "directDownload" (YBool d))) (GetUICustomSettings ui)))).

Definition getDiscoveryConfigImpl (s : InstanceSpec) : Res DiscoveryServer :=
  let* c := getDiscoveryServerCarcass s in
  let* common := fillServer base (dsv_CommonServer c) s in
  ok (mkDiscoveryServer common (getDiscoveryAddresses base)).

Definition GetDiscoveryConfig (s : InstanceSpec) : Res string :=
  let* c := getDiscoveryConfigImpl s in marshallYsonConfig (yson_DiscoveryServer c).

Definition getMasterCachesConfigImpl (s : MasterCachesSpec) : Res CommonServer :=
  let* c := getMasterCachesCarcass s in fillCommonService base c (mc_InstanceSpec s).

Definition GetMasterCachesConfig (s : option MasterCachesSpec) : Res string :=
  if_specified s (fun s =>
  let* c := getMasterCachesConfigImpl s in marshallYsonConfig (yson_MasterCacheServer c)).
End Generators.
