(* ===== verification/Constructors.v ===== *)
(** * The constructors of the components and the operator they make

    The functions [New...] of pkg/components build every component from the
    resource: its labeller, its server, its jobs and its secrets.  Together
    they are the factory that [NewComponentManager] uses.  The variables a
    constructor allocates are given by an allocator. *)

From S2P Require Import Prelude Api Kube Conditions Samples CellId Labeller Proxy Component Resources ConfigHelper Server InitJob Observe ServerComponent Nodes Proxies Names YtApi Yson Logging CommonConfig NodeConfig YtsaurusClient ClientFacts Masters StateJobs Agents TabletNodes Initialised Manager Sync Reach Webhook Microservice Ui ServerConfigs.

(** ** Constants: pkg/consts *)

Definition YTRPCPortName : string := "rpc".

Definition DiscoveryMonitoringPort : Z := 10020.
Definition MasterMonitoringPort : Z := 10010.
Definition SchedulerMonitoringPort : Z := 10011.
Definition ControllerAgentMonitoringPort : Z := 10014.
Definition DataNodeMonitoringPort : Z := 10012.
Definition TabletNodeMonitoringPort : Z := 10022.
Definition ExecNodeMonitoringPort : Z := 10029.
Definition RPCProxyMonitoringPort : Z := 10013.
Definition HTTPProxyMonitoringPort : Z := 10016.
Definition TCPProxyMonitoringPort : Z := 10017.
Definition QueryTrackerMonitoringPort : Z := 10028.
Definition YQLAgentMonitoringPort : Z := 10019.
Definition QueueAgentMonitoringPort : Z := 10030.
Definition MasterCachesMonitoringPort : Z := 10018.

Definition YTComponentLabelDiscovery : string := "yt-discovery".
Definition YTComponentLabelMaster : string := "yt-master".
Definition YTComponentLabelScheduler : string := "yt-scheduler".
Definition YTComponentLabelControllerAgent : string := "yt-controller-agent".
Definition YTComponentLabelDataNode : string := "yt-data-node".
Definition YTComponentLabelExecNode : string := "yt-exec-node".
Definition YTComponentLabelTabletNode : string := "yt-tablet-node".
Definition YTComponentLabelHTTPProxy : string := "yt-http-proxy".
Definition YTComponentLabelRPCProxy : string := "yt-rpc-proxy".
Definition YTComponentLabelTCPProxy : string := "yt-tcp-proxy".
Definition YTComponentLabelUI : string := "yt-ui".
Definition YTComponentLabelYqlAgent : string := "yt-yql-agent".
Definition YTComponentLabelMasterCache : string := "yt-master-cache".

Definition HTTPSSecretVolumeName : string := "https-secret".
Definition RPCSecretVolumeName : string := "rpc-secret".

(** ** The default monitoring ports

    Every constructor fills in a missing monitoring port: in the resource for
    the parts there is one of, in a copy of the specification for proxies and
    nodes. *)

Definition default_MonitoringPort (port : Z) (s : InstanceSpec) : InstanceSpec :=
  match is_MonitoringPort s with
  | Some _ => s
  | None =>
      mkInstanceSpec (is_Image s) (is_EntrypointWrapper s) (is_Volumes s) (is_VolumeMounts s)
        (is_ReadinessProbeParams s) (is_Resources s) (is_InstanceCount s) (is_MinReadyInstanceCount s)
        (is_Locations s) (is_VolumeClaimTemplates s) (is_RuntimeClassName s) (is_EnableAntiAffinity s)
        (is_HostNetwork s) (Some port) (is_Loggers s) (is_StructuredLoggers s) (is_Affinity s)
        (is_NodeSelector s) (is_Tolerations s) (is_PodLabels s) (is_PodAnnotations s)
        (is_SetHostnameAsFQDN s) (is_TerminationGracePeriodSeconds s) (is_NativeTransport s)
  end.

Definition MastersSpec_port (s : MastersSpec) : MastersSpec :=
  mkMastersSpec (default_MonitoringPort MasterMonitoringPort (ms_InstanceSpec s))
    (ms_MasterConnectionSpec s) (ms_HostAddressLabel s) (ms_MaxSnapshotCountToKeep s)
    (ms_MaxChangelogCountToKeep s) (ms_Sidecars s).
Definition MasterCachesSpec_port (s : MasterCachesSpec) : MasterCachesSpec :=
  mkMasterCachesSpec (default_MonitoringPort MasterCachesMonitoringPort (mc_InstanceSpec s))
    (mc_CellTag s) (mc_HostAddresses s) (mc_HostAddressLabel s).
Definition HTTPProxiesSpec_port (s : HTTPProxiesSpec) : HTTPProxiesSpec :=
  mkHTTPProxiesSpec (default_MonitoringPort HTTPProxyMonitoringPort (hp_InstanceSpec s))
    (hp_ServiceType s) (hp_HttpNodePort s) (hp_HttpsNodePort s) (hp_Role s) (hp_Transport s).
Definition RPCProxiesSpec_port (s : RPCProxiesSpec) : RPCProxiesSpec :=
  mkRPCProxiesSpec (default_MonitoringPort RPCProxyMonitoringPort (rp_InstanceSpec s))
    (rp_ServiceType s) (rp_NodePort s) (rp_Role s) (rp_Transport s).
Definition TCPProxiesSpec_port (s : TCPProxiesSpec) : TCPProxiesSpec :=
  mkTCPProxiesSpec (default_MonitoringPort TCPProxyMonitoringPort (tp_InstanceSpec s))
    (tp_ServiceType s) (tp_MinPort s) (tp_PortCount s) (tp_Role s).
Definition DataNodesSpec_port (s : DataNodesSpec) : DataNodesSpec :=
  mkDataNodesSpec (default_MonitoringPort DataNodeMonitoringPort (dn_InstanceSpec s))
    (dn_ClusterNodesSpec s) (dn_Name s).
Definition ExecNodesSpec_port (s : ExecNodesSpec) : ExecNodesSpec :=
  mkExecNodesSpec (default_MonitoringPort ExecNodeMonitoringPort (en_InstanceSpec s))
    (en_ClusterNodesSpec s) (en_Name s) (en_InitContainers s) (en_Sidecars s) (en_Privileged s)
    (en_JobProxyLoggers s) (en_JobResources s) (en_JobEnvironment s).
Definition TabletNodesSpec_port (s : TabletNodesSpec) : TabletNodesSpec :=
  mkTabletNodesSpec (default_MonitoringPort TabletNodeMonitoringPort (tn_InstanceSpec s))
    (tn_ClusterNodesSpec s) (tn_Name s).

(** The resource after the constructors [NewComponentManager] runs: what the
    generators see when they are called. *)
Definition with_monitoring_ports (y : Ytsaurus) : Ytsaurus :=
  let s := yt_Spec y in
  let tables := negb (bool_decide (sp_TabletNodes s = [])) in
  let port_if (b : bool) p o := if b then default_MonitoringPort p <$> o else o in
  mkYtsaurus (yt_Name y) (yt_Namespace y)
    (mkYtsaurusSpec (sp_CommonSpec s) (sp_UIImage s) (sp_AdminCredentials s) (sp_OauthService s)
       (sp_IsManaged s) (sp_EnableFullUpdate s) (sp_UpdateSelector s) (sp_Bootstrap s)
       (default_MonitoringPort DiscoveryMonitoringPort (sp_Discovery s))
       (MastersSpec_port (sp_PrimaryMasters s)) (sp_SecondaryMasters s)
       (MasterCachesSpec_port <$> sp_MasterCaches s)
       (sp_HTTPProxies s) (sp_RPCProxies s) (sp_TCPProxies s) (sp_DataNodes s) (sp_ExecNodes s)
       (default_MonitoringPort SchedulerMonitoringPort <$> sp_Schedulers s)
       (default_MonitoringPort ControllerAgentMonitoringPort <$> sp_ControllerAgents s)
       (sp_TabletNodes s) (sp_StrawberryController s) (sp_DeprecatedChytController s)
       (port_if (is_some (sp_Schedulers s) && tables) QueryTrackerMonitoringPort (sp_QueryTrackers s))
       (sp_Spyt s)
       (default_MonitoringPort YQLAgentMonitoringPort <$> sp_YQLAgents s)
       (port_if tables QueueAgentMonitoringPort (sp_QueueAgents s))
       (sp_UI s))
    (yt_Status y).

(** ** The allocator *)

(** The variables the constructors allocate, by the label of the component
    (and the name of the job): C40 shows that in an admitted cluster the
    labels of the components differ. *)
Class Alloc (H : Type) := {
  al_server : string -> ServerVars H;
  al_job : string -> string -> InitJobVars H;
  al_microservice : string -> MicroserviceVars H;
  al_secret_old : string -> Ref H Secret;
  al_secret_new : string -> Ref H Secret;
  al_service_old : string -> Ref H Service;
  al_service_new : string -> Ref H Service;
  al_sidecar_overrides : string -> Ref H ConfigMap;
  al_sidecar_old : string -> Ref H ConfigMap;
  al_sidecar_new : string -> Ref H ConfigMap;
  al_adminCredentials : Ref H Secret;
  al_ytClient : Ref H bool;
}.

(** ** The constructors

    [cfgen] and [ytsaurus] of the code are the cluster domain and the
    resource; [None] is a nil dereference. *)

Section Constructors.
Context {H E : Type} `{K : Kube E} `{CM : ConditionMeta} `{CO : Codec} `{CY : ContainerYaml}.
Context `{Y : Yt E} `{YT : YsonText} `{MO : MapOrder E} `{EN : Entropy E} `{U : Uuid} `{QF : Quantities} `{YP : YsonPretty} `{AL : Alloc H}.
Context (clusterDomain : string) (resource : Ytsaurus).
Local Abbreviation W := (World H E).

Let spec := yt_Spec resource.
Let common := sp_CommonSpec spec.
Let cfgen := NewGenerator resource clusterDomain.
Let base := gen_base cfgen.

(** A generator closure: what it renders when it is called.  A panic would end
    the reconciliation; here it is an error of its own, and C8 shows that in
    an admitted cluster no generator panics. *)
Definition panicked : string := "panic".
Definition generated (f : Generator -> YtsaurusSpec -> Res string) : Ytsaurus -> string + string :=
  fun y =>
    let y' := with_monitoring_ports y in
    match f (NewGenerator y' clusterDomain) (yt_Spec y') with
    | None => inl panicked
    | Some r => r
    end.

(** The closures the constructors pass on. *)
Definition nativeClient : Ytsaurus -> string + string := generated (fun g _ => GetNativeClientConfig g).
Definition discovery_config : Ytsaurus -> string + string :=
  generated (fun g s => GetDiscoveryConfig g (sp_Discovery s)).
Definition master_config : Ytsaurus -> string + string :=
  generated (fun g s => GetMasterConfig g (sp_PrimaryMasters s)).
Definition cluster_connection_config : Ytsaurus -> string + string :=
  generated (fun g _ => GetClusterConnection g).
Definition data_node_config (s : DataNodesSpec) : Ytsaurus -> string + string :=
  generated (fun g _ => GetDataNodeConfig (gen_base g) (DataNodesSpec_port s)).
Definition exec_node_config (s : ExecNodesSpec) : Ytsaurus -> string + string :=
  generated (fun g _ => GetExecNodeConfig (gen_base g) (ExecNodesSpec_port s)).
Definition jobs_container_config (s : ExecNodesSpec) : Ytsaurus -> string + string :=
  generated (fun g _ => GetContainerdConfig (ExecNodesSpec_port s)).
Definition controller_agent_config : Ytsaurus -> string + string :=
  generated (fun g s => GetControllerAgentConfig g (sp_ControllerAgents s)).
Definition master_cache_config : Ytsaurus -> string + string :=
  generated (fun g s => GetMasterCachesConfig g (sp_MasterCaches s)).
Definition http_proxy_config (s : HTTPProxiesSpec) : Ytsaurus -> string + string :=
  generated (fun g _ => GetHTTPProxyConfig g (HTTPProxiesSpec_port s)).
Definition rpc_proxy_config (s : RPCProxiesSpec) : Ytsaurus -> string + string :=
  generated (fun g _ => GetRPCProxyConfig g (RPCProxiesSpec_port s)).
Definition tcp_proxy_config (s : TCPProxiesSpec) : Ytsaurus -> string + string :=
  generated (fun g _ => GetTCPProxyConfig g (TCPProxiesSpec_port s)).
Definition tablet_node_config (s : TabletNodesSpec) : Ytsaurus -> string + string :=
  generated (fun g _ => GetTabletNodeConfig (gen_base g) (TabletNodesSpec_port s)).
Definition scheduler_config : Ytsaurus -> string + string :=
  generated (fun g s => GetSchedulerConfig g (sp_Schedulers s)).
Definition query_tracker_config : Ytsaurus -> string + string :=
  generated (fun g s => GetQueryTrackerConfig g (sp_QueryTrackers s)).
Definition queue_agent_config : Ytsaurus -> string + string :=
  generated (fun g s => GetQueueAgentConfig g (sp_QueueAgents s)).
Definition yql_agent_config : Ytsaurus -> string + string :=
  generated (fun g s => GetYQLAgentConfig g (sp_YQLAgents s)).
Definition ui_clusters_config : Ytsaurus -> string + string :=
  generated (fun g _ => GetUIClustersConfig g).
Definition ui_custom_config : Ytsaurus -> string + string :=
  generated (fun g _ => GetUICustomConfig g).
Definition strawberry_controller_config : Ytsaurus -> string + string :=
  generated (fun g _ => GetStrawberryControllerConfig g).
Definition chyt_init_config : Ytsaurus -> string + string :=
  generated (fun g _ => GetChytInitClusterConfig g).

(** A labeller, with or without the annotations of the pods. *)
Definition component_labeller (label name : string) : Labeller :=
  mkLabeller (yt_Name resource) (yt_Namespace resource) label name None.
Definition annotated_labeller (label name : string) : Labeller :=
  mkLabeller (yt_Name resource) (yt_Namespace resource) label name (cs_ExtraPodAnnotations common).

Definition newServer (l : Labeller) (instanceSpec : InstanceSpec)
    (binaryPath configFileName statefulSetName serviceName : string)
    (generator : Ytsaurus -> string + string) (options : list Option) : option (server W H) :=
  serverImpl_server <$>
  newServerConfigured (al_server (lb_ComponentLabel l)) l common instanceSpec binaryPath
    configFileName statefulSetName serviceName generator options.

Definition newLocalServerComponent (l : Labeller) (srv : server W H) : localServerComponent W H :=
  mkLocalServerComponent W H l srv.

Definition rpcPort (port : Z) : Option := WithContainerPorts [mkContainerPort YTRPCPortName port].

Definition newInitJob (l : Labeller) (name configFileName image : string)
    (generator : Ytsaurus -> string + string) : InitJob H E :=
  NewInitJob (al_job (lb_ComponentLabel l) name) l Ytsaurus_conditions (cs_ImagePullSecrets common)
    name configFileName image generator.

Definition NewStringSecret (l : Labeller) : Handle H KSecret :=
  mkHandle H KSecret (GetSecretName l) (al_secret_old (lb_ComponentLabel l))
    (al_secret_new (lb_ComponentLabel l)).

Definition newService (l : Labeller) (name : string) : Handle H KService :=
  mkHandle H KService name (al_service_old (lb_ComponentLabel l)) (al_service_new (lb_ComponentLabel l)).

Definition NewDiscovery : option (localServerComponent W H) :=
  let l := component_labeller YTComponentLabelDiscovery (ComponentType_string DiscoveryType) in
  srv ← newServer l (default_MonitoringPort DiscoveryMonitoringPort (sp_Discovery spec))
    "/usr/bin/ytserver-discovery" "ytserver-discovery.yson"
    (GetDiscoveryStatefulSetName base) (GetDiscoveryServiceName base)
    discovery_config [rpcPort DiscoveryRPCPort];
  Some (newLocalServerComponent l srv).

Definition NewMaster : option (Master H E) :=
  let l := annotated_labeller YTComponentLabelMaster (ComponentType_string MasterType) in
  srv ← newServer l (ms_InstanceSpec (MastersSpec_port (sp_PrimaryMasters spec)))
    "/usr/bin/ytserver-master" "ytserver-master.yson"
    (GetMastersStatefulSetName base) (GetMastersServiceName base)
    master_config [rpcPort MasterRPCPort];
  Some (mkMaster H E (newLocalServerComponent l srv)
    (newInitJob l "default" ClientConfigFileName (cs_CoreImage common) nativeClient)
    (newInitJob l "exit-read-only" ClientConfigFileName (cs_CoreImage common) nativeClient)
    al_adminCredentials cluster_connection_config).

Definition NewDataNode (master : Component W) (s : DataNodesSpec) : option (serverWithMaster (H:=H) (E:=E)) :=
  let l := component_labeller (FormatComponentStringWithDefault YTComponentLabelDataNode (dn_Name s))
             (FormatComponentStringWithDefault (ComponentType_string DataNodeType) (dn_Name s)) in
  srv ← newServer l (dn_InstanceSpec (DataNodesSpec_port s))
    "/usr/bin/ytserver-node" "ytserver-data-node.yson"
    (GetDataNodesStatefulSetName base (dn_Name s)) (GetDataNodesServiceName base (dn_Name s))
    (data_node_config s) [rpcPort DataNodeRPCPort];
  Some (mkServerWithMaster (newLocalServerComponent l srv) master).

Definition NewExecNode (master : Component W) (s : ExecNodesSpec) : option (ExecNode (H:=H) (E:=E)) :=
  let l := component_labeller (FormatComponentStringWithDefault YTComponentLabelExecNode (en_Name s))
             (FormatComponentStringWithDefault (ComponentType_string ExecNodeType) (en_Name s)) in
  srv ← newServer l (en_InstanceSpec (ExecNodesSpec_port s))
    "/usr/bin/ytserver-node" "ytserver-exec-node.yson"
    (GetExecNodesStatefulSetName base (en_Name s)) (GetExecNodesServiceName base (en_Name s))
    (exec_node_config s) [rpcPort ExecNodeRPCPort];
  let sidecarConfig :=
    match en_JobEnvironment s ≫= je_CRI with
    | None => None
    | Some _ =>
        let label := lb_ComponentLabel l in
        Some (mkConfigHelper H l
          [(ContainerdConfigFileName,
            mkGeneratorDescriptor (jobs_container_config s)
              ConfigFormatToml)]
          (cs_ConfigOverrides common) (al_sidecar_overrides label)
          (mkHandle H KConfigMap (GetSidecarConfigMapName l JobsContainerName)
             (al_sidecar_old label) (al_sidecar_new label)))
    end in
  Some (mkExecNode (mkBaseExecNode W H srv (ExecNodesSpec_port s) sidecarConfig) l master).

Definition NewControllerAgent (master : Component W) : option (serverWithMaster (H:=H) (E:=E)) :=
  let l := component_labeller YTComponentLabelControllerAgent (ComponentType_string ControllerAgentType) in
  s ← sp_ControllerAgents spec;
  srv ← newServer l (default_MonitoringPort ControllerAgentMonitoringPort s)
    "/usr/bin/ytserver-controller-agent" "ytserver-controller-agent.yson"
    ControllerAgentsStatefulSetName "controller-agents"
    controller_agent_config
    [rpcPort ControllerAgentRPCPort];
  Some (mkServerWithMaster (newLocalServerComponent l srv) master).

Definition NewMasterCache : option (localServerComponent W H) :=
  let l := annotated_labeller YTComponentLabelMasterCache (ComponentType_string MasterCacheType) in
  s ← sp_MasterCaches spec;
  srv ← newServer l (mc_InstanceSpec (MasterCachesSpec_port s))
    "/usr/bin/ytserver-master-cache" "ytserver-master-cache.yson"
    (GetMasterCachesStatefulSetName base) (GetMasterCachesServiceName base)
    master_cache_config [rpcPort MasterCachesRPCPort];
  Some (newLocalServerComponent l srv).

Definition NewHTTPProxy (masterReconciler : Component W) (s : HTTPProxiesSpec)
    : option (HttpProxy (H:=H) (E:=E)) :=
  let role := hp_Role s in
  let l := component_labeller (FormatComponentStringWithDefault YTComponentLabelHTTPProxy role)
             (FormatComponentStringWithDefault (ComponentType_string HttpProxyType) role) in
  srv ← newServer l (hp_InstanceSpec (HTTPProxiesSpec_port s))
    "/usr/bin/ytserver-http-proxy" "ytserver-http-proxy.yson"
    (GetHTTPProxiesStatefulSetName cfgen role) (GetHTTPProxiesHeadlessServiceName cfgen role)
    (http_proxy_config s)
    [WithContainerPorts
       [mkContainerPort YTRPCPortName HTTPProxyRPCPort; mkContainerPort "http" HTTPProxyHTTPPort;
        mkContainerPort "https" HTTPProxyHTTPSPort];
     WithCustomReadinessProbeEndpointPort HTTPProxyHTTPPort; WithCustomReadinessProbeEndpointPath "/ping"];
  Some (mkHttpProxy (newLocalServerComponent l srv) (hp_ServiceType s) masterReconciler
    (mkHTTPService (hp_Transport s) (hp_HttpNodePort s) (hp_HttpsNodePort s)
       (newService l (GetHTTPProxiesServiceName cfgen role)))
    ((fun name => NewTLSSecret name HTTPSSecretVolumeName HTTPSSecretMountPoint)
       <$> ht_HTTPSSecret (hp_Transport s))).

Definition NewRPCProxy (masterReconciler : Component W) (s : RPCProxiesSpec)
    : option (RpcProxy (H:=H) (E:=E)) :=
  let role := rp_Role s in
  let l := component_labeller (FormatComponentStringWithDefault YTComponentLabelRPCProxy role)
             (FormatComponentStringWithDefault (ComponentType_string RpcProxyType) role) in
  srv ← newServer l (rp_InstanceSpec (RPCProxiesSpec_port s))
    "/usr/bin/ytserver-proxy" "ytserver-rpc-proxy.yson"
    (GetRPCProxiesStatefulSetName cfgen role) (GetRPCProxiesHeadlessServiceName cfgen role)
    (rpc_proxy_config s) [rpcPort RPCProxyRPCPort];
  Some (mkRpcProxy (newLocalServerComponent l srv) masterReconciler (rp_ServiceType s)
    ((fun _ => newService l (GetRPCProxiesServiceName cfgen role)) <$> rp_ServiceType s)
    (rp_NodePort s)
    ((fun name => NewTLSSecret name RPCSecretVolumeName RPCSecretMountPoint)
       <$> rt_TLSSecret (rp_Transport s))).

Definition NewTCPProxy (masterReconciler : Component W) (s : TCPProxiesSpec)
    : option (TcpProxy (H:=H) (E:=E)) :=
  let role := tp_Role s in
  let l := component_labeller (FormatComponentStringWithDefault YTComponentLabelTCPProxy role)
             (FormatComponentStringWithDefault (ComponentType_string TcpProxyType) role) in
  srv ← newServer l (tp_InstanceSpec (TCPProxiesSpec_port s))
    "/usr/bin/ytserver-tcp-proxy" "ytserver-tcp-proxy.yson"
    (GetTCPProxiesStatefulSetName cfgen role) (GetTCPProxiesHeadlessServiceName cfgen role)
    (tcp_proxy_config s) [];
  Some (mkTcpProxy (newLocalServerComponent l srv) masterReconciler
    ((fun _ => newService l (GetTCPProxiesServiceName cfgen role)) <$> tp_ServiceType s)
    (default "" (tp_ServiceType s)) (tp_PortCount s) (tp_MinPort s)).

Definition newYtsaurusClient (httpProxy : Component W) : YtsaurusClient H E :=
  YtsaurusClient.NewYtsaurusClient (al_job "yt-client" "user") (al_secret_old "yt-client")
    (al_secret_new "yt-client") al_ytClient cfgen nativeClient httpProxy resource.

(** The YT client component as the callers of [GetYtClient] hold it. *)
Definition with_client (yc : Component W) : internalYtsaurusClient H E :=
  mkInternalYtsaurusClient H E yc al_ytClient.

Definition NewTabletNode (ytsaurusClient : Component W) (s : TabletNodesSpec) (doInitialization : bool)
    : option (TabletNode H E) :=
  let l := component_labeller (FormatComponentStringWithDefault YTComponentLabelTabletNode (tn_Name s))
             (FormatComponentStringWithDefault (ComponentType_string TabletNodeType) (tn_Name s)) in
  srv ← newServer l (tn_InstanceSpec (TabletNodesSpec_port s))
    "/usr/bin/ytserver-node" "ytserver-tablet-node.yson"
    (GetTabletNodesStatefulSetName base (tn_Name s)) (GetTabletNodesServiceName base (tn_Name s))
    (tablet_node_config s) [rpcPort TabletNodeRPCPort];
  Some (mkTabletNode H E (newLocalServerComponent l srv) base (with_client ytsaurusClient)
    "bundlesTabletNodeInitCompleted" (TabletNodesSpec_port s) doInitialization).

(** A list of components built by [append] from nil. *)
Definition appended (l : list (Component W)) : slice (Component W) :=
  match l with [] => None | _ => Some l end.

Definition NewScheduler (master : Component W) (execNodes tabletNodes : list (Component W))
    : option (Scheduler (H:=H) (E:=E)) :=
  let l := annotated_labeller YTComponentLabelScheduler (ComponentType_string SchedulerType) in
  s ← sp_Schedulers spec;
  srv ← newServer l (default_MonitoringPort SchedulerMonitoringPort s)
    "/usr/bin/ytserver-scheduler" "ytserver-scheduler.yson"
    (GetSchedulerStatefulSetName cfgen) (GetSchedulerServiceName cfgen)
    scheduler_config [rpcPort SchedulerRPCPort];
  Some (mkScheduler (newLocalServerComponent l srv) cfgen master (appended execNodes)
    (appended tabletNodes)
    (newInitJob l "user" ClientConfigFileName (cs_CoreImage common) nativeClient)
    (newInitJob l "op-archive" ClientConfigFileName (cs_CoreImage common) nativeClient)
    (NewStringSecret l)).

Definition NewQueryTracker (yc : Component W) (tabletNodes : list (Component W))
    : option (QueryTracker (H:=H) (E:=E)) :=
  let l := annotated_labeller "yt-query-tracker" (ComponentType_string QueryTrackerType) in
  s ← sp_QueryTrackers spec;
  srv ← newServer l (default_MonitoringPort QueryTrackerMonitoringPort s)
    "/usr/bin/ytserver-query-tracker" "ytserver-query-tracker.yson"
    (GetQueryTrackerStatefulSetName cfgen) (GetQueryTrackerServiceName cfgen)
    query_tracker_config [rpcPort QueryTrackerRPCPort];
  Some (mkQueryTracker (newLocalServerComponent l srv) cfgen (with_client yc) (appended tabletNodes)
    "queryTrackerInitCompleted"
    (newInitJob l "qt-state" ClientConfigFileName (default (cs_CoreImage common) (is_Image s)) nativeClient)
    (NewStringSecret l)).

Definition NewQueueAgent (yc master : Component W) (tabletNodes : list (Component W))
    : option (QueueAgent (H:=H) (E:=E)) :=
  let l := annotated_labeller "yt-queue-agent" (ComponentType_string QueueAgentType) in
  s ← sp_QueueAgents spec;
  srv ← newServer l (default_MonitoringPort QueueAgentMonitoringPort s)
    "/usr/bin/ytserver-queue-agent" "ytserver-queue-agent.yson"
    (GetQueueAgentStatefulSetName cfgen) (GetQueueAgentServiceName cfgen)
    queue_agent_config [rpcPort QueueAgentRPCPort];
  Some (mkQueueAgent (newLocalServerComponent l srv) cfgen (with_client yc) master (appended tabletNodes)
    "queueAgentInitCompleted"
    (newInitJob l "qa-state" ClientConfigFileName (default (cs_CoreImage common) (is_Image s)) nativeClient)
    (NewStringSecret l)).

Definition NewYQLAgent (master : Component W) : option (YqlAgent (H:=H) (E:=E)) :=
  let l := annotated_labeller YTComponentLabelYqlAgent (ComponentType_string YqlAgentType) in
  s ← sp_YQLAgents spec;
  srv ← newServer l (default_MonitoringPort YQLAgentMonitoringPort s)
    "/usr/bin/ytserver-yql-agent" "ytserver-yql-agent.yson"
    (GetYQLAgentStatefulSetName cfgen) (GetYQLAgentServiceName cfgen)
    yql_agent_config [rpcPort YQLAgentRPCPort];
  Some (mkYqlAgent (newLocalServerComponent l srv) cfgen master
    (newInitJob l "yql-agent-environment" ClientConfigFileName (cs_CoreImage common) nativeClient)
    (NewStringSecret l)).

Definition NewUI (master : Component W) : option (UI (H:=H) (E:=E)) :=
  let l := annotated_labeller YTComponentLabelUI (ComponentType_string UIType) in
  s ← sp_UI spec;
  let m := newMicroservice (al_microservice (lb_ComponentLabel l)) l (cs_ConfigOverrides common)
    (default (sp_UIImage spec) (ui_Image s)) (ui_InstanceCount s)
    [(UIClustersConfigFileName,
      mkGeneratorDescriptor ui_clusters_config ConfigFormatJson);
     (UICustomConfigFileName,
      mkGeneratorDescriptor ui_custom_config ConfigFormatJsonWithJsPrologue)]
    "ytsaurus-ui-deployment" "ytsaurus-ui" (ui_HttpNodePort s) in
  Some (mkUI l (microserviceImpl_microservice m)
    (newInitJob l "default" ClientConfigFileName (cs_CoreImage common) nativeClient) master
    (NewStringSecret l)
    ((fun name => NewCABundle name CABundleVolumeName CABundleMountPoint) <$> cs_CABundle common)).

(** The image, the name and the component name of the strawberry controller. *)
Definition strawberry_names : string * string * string :=
  let image := default (cs_CoreImage common) (sp_DeprecatedChytController spec ≫= sc_Image) in
  match sp_StrawberryController spec with
  | None => (image, "chyt", "ChytController")
  | Some s => (default image (sc_Image s), "strawberry", ComponentType_string StrawberryControllerType)
  end%string.

Definition NewStrawberryController (master scheduler : Component W) (dataNodes : list (Component W))
    : StrawberryController (H:=H) (E:=E) :=
  let '(image, name, componentName) := strawberry_names in
  let l := annotated_labeller ("yt-" +:+ name +:+ "-controller")%string componentName in
  let m := newMicroservice (al_microservice (lb_ComponentLabel l)) l (cs_ConfigOverrides common) image 1
    [(getControllerConfigFileName name,
      mkGeneratorDescriptor strawberry_controller_config ConfigFormatYson)]
    (name +:+ "-controller")%string name None in
  mkStrawberryController l (microserviceImpl_microservice m)
    (newInitJob l "user" ClientConfigFileName (cs_CoreImage common) nativeClient)
    (newInitJob l "cluster" ChytInitClusterJobConfigFileName image
       chyt_init_config)
    (NewStringSecret l) master scheduler dataNodes name.

(** ** The operator

    A constructor that dereferences nil panics; [NewComponentManager] never
    calls one that does. *)

Definition nil_component : Component W :=
  mkComponent W panic panic panic "" DiscoveryType (fun _ => panic) false.

Definition constructed {A} (f : A -> Component W) (o : option A) : Component W :=
  default nil_component (f <$> o).

Definition operator : Factory W :=
  mkFactory W
    (constructed Discovery NewDiscovery)
    (constructed Master_component NewMaster)
    (fun m s => constructed HttpProxy_component (NewHTTPProxy m s))
    (fun hp => YtsaurusClient_component (newYtsaurusClient hp))
    (fun m s => constructed DataNode (NewDataNode m s))
    (fun m => constructed UI_component (NewUI m))
    (fun m s => constructed RpcProxy_component (NewRPCProxy m s))
    (fun m s => constructed TcpProxy_component (NewTCPProxy m s))
    (fun m s => constructed ExecNode_component (NewExecNode m s))
    (fun yc s first => constructed TabletNode_component (NewTabletNode yc s first))
    (fun m es ts => constructed Scheduler_component (NewScheduler m es ts))
    (fun m => constructed ControllerAgent (NewControllerAgent m))
    (fun yc ts => constructed QueryTracker_component (NewQueryTracker yc ts))
    (fun yc m ts => constructed QueueAgent_component (NewQueueAgent yc m ts))
    (fun m => constructed YqlAgent_component (NewYQLAgent m))
    (fun m s ds => Strawberry_component (NewStrawberryController m s ds))
    (constructed MasterCache NewMasterCache).
End Constructors.
