(* ===== verification/Wiring.v ===== *)
(** * The operator as it is wired together

    The components that the constructors build keep the promises the manager
    and the reconciler rely on, report under the labellers of the resource,
    and have different names and labels in every cluster the webhook admits.
    The whole operator is run on a small cluster. *)

From S2P Require Import Prelude Float Api Kube Conditions Samples CellId Labeller Proxy Component Resources ConfigHelper Server InitJob Observe ServerComponent Nodes Proxies Names YtApi Yson Logging CommonConfig NodeConfig YtsaurusClient ClientFacts Masters StateJobs Agents TabletNodes Initialised Manager Sync Reach Updates Webhook Microservice Ui ServerConfigs Constructors.

(** ** Every component the operator builds keeps its promise *)

Section OperatorLaws.
Context {H E : Type} `{K : Kube E} `{CM : ConditionMeta} `{CO : Codec} `{CY : ContainerYaml}.
Context `{Y : Yt E} `{YT : YsonText} `{MO : MapOrder E} `{EN : Entropy E} `{U : Uuid} `{QF : Quantities} `{YP : YsonPretty} `{AL : Alloc H}.
Context `{KL : !KubeLaws E K} `{CL : !ConditionMetaLaws CM} `{YL : !YtLaws E K KL Y}.
Context `{EL : !EntropyLaws E K KL EN}.
Local Abbreviation W := (World H E).
Context (clusterDomain : string) (y : Ytsaurus).

Lemma newServer_laws l s b f n sv g o (srv : server W H) :
  newServer y l s b f n sv g o = Some srv -> ServerLaws srv.
Proof. unfold newServer. intros (si & _ & ->)%fmap_Some. tc_solve. Qed.

Lemma constructed_laws {A} (f : A -> Component W) o :
  (forall a, o = Some a -> ComponentLaws (f a)) -> ComponentLaws (constructed f o).
Proof.
  intros Hf. destruct o as [a|]; [by apply Hf|]. split; intros; apply preserves_panic.
Qed.

Lemma appended_laws (l : list (Component W)) :
  Forall ComponentLaws l -> Forall ComponentLaws (elems (appended l)).
Proof. by destruct l. Qed.

(** A constructor that succeeds built its server. *)
Ltac constructed_with lemma :=
  apply constructed_laws; intros ? Hc;
  repeat (apply bind_Some in Hc as (? & ? & Hc)); injection Hc as <-;
  eapply lemma; simpl;
  eauto using newServer_laws, appended_laws, Ytsaurus_conditions_frame, microserviceImpl_laws.

Lemma operator_laws : FactoryForall ComponentLaws (operator clusterDomain y).
Proof.
  constructor; simpl; intros.
  - constructed_with @Discovery_laws.
  - constructed_with @Master_laws.
  - constructed_with @HttpProxy_laws.
  - apply YtsaurusClient_laws; [done|apply Ytsaurus_conditions_frame].
  - constructed_with @DataNode_laws.
  - constructed_with @UI_laws.
  - constructed_with @RpcProxy_laws.
  - constructed_with @TcpProxy_laws.
  - constructed_with @ExecNode_laws.
  - constructed_with @TabletNode_laws.
  - constructed_with @Scheduler_laws.
  - constructed_with @ControllerAgent_laws.
  - constructed_with @QueryTracker_laws.
  - constructed_with @QueueAgent_laws.
  - constructed_with @YqlAgent_laws.
  - unfold NewStrawberryController. destruct (strawberry_names y) as [[? ?] ?].
    apply Strawberry_laws; simpl; auto using Ytsaurus_conditions_frame, microserviceImpl_laws.
  - constructed_with @MasterCache_laws.
Qed.

Lemma operator_factory_laws : FactoryLaws (operator clusterDomain y).
Proof. intros spec cs q s. apply buildComponents_Forall, operator_laws. Qed.
End OperatorLaws.

(** ** The components of a resource and their labellers *)

Lemma Format_prefix a r : exists q, FormatComponentStringWithDefault a r +:+ "-" = (a +:+ "-") +:+ q.
Proof.
  unfold FormatComponentStringWithDefault. case_decide.
  - exists (r +:+ "-"). induction a as [|c a IH]; [done|]. exact (f_equal (String c) IH).
  - exists "". induction a as [|c a IH]; [done|]. exact (f_equal (String c) IH).
Qed.

Lemma Format_suffix a r s :
  FormatComponentStringWithDefault a r = FormatComponentStringWithDefault a s -> r = s.
Proof.
  assert (forall p q : string, a +:+ p = a +:+ q -> p = q) as Hinj.
  { induction a as [|c a IH]; [done|]. intros p q [= Heq]. by apply IH. }
  assert (forall q, a <> a +:+ "-" +:+ q) as Hne.
  { intros q Heq. apply (f_equal String.length) in Heq. rewrite string_length_app in Heq. simpl in Heq. lia. }
  unfold FormatComponentStringWithDefault. repeat case_decide; intros Heq.
  - apply Hinj in Heq. by injection Heq.
  - by destruct (Hne r).
  - by destruct (Hne s).
  - destruct (decide (r = DefaultName)), (decide (s = DefaultName)); congruence.
Qed.

(** Neither base, followed by a dash, starts the other. *)
Definition incomparable (a b : string) : bool :=
  negb (String.prefix (a +:+ "-") (b +:+ "-")) && negb (String.prefix (b +:+ "-") (a +:+ "-")).

Lemma prefixes_comparable a b p q :
  a +:+ p = b +:+ q -> String.prefix a b = true \/ String.prefix b a = true.
Proof.
  revert b. induction a as [|c a IH]; intros [|d b] Heq; simpl; auto.
  injection Heq as -> Heq. destruct (Ascii.ascii_dec d d); [|done]. by apply IH.
Qed.

Lemma Format_incomparable a b r s :
  incomparable a b = true ->
  FormatComponentStringWithDefault a r <> FormatComponentStringWithDefault b s.
Proof.
  unfold incomparable. rewrite andb_true_iff, !negb_true_iff. intros [H1 H2] Heq.
  destruct (Format_prefix a r) as [p Hp], (Format_prefix b s) as [q Hq].
  destruct (prefixes_comparable (a +:+ "-") (b +:+ "-") p q); congruence.
Qed.

(** Components of one kind: the bases of their label and name, and the roles
    or names that follow. *)
Record Group := mkGroup {
  gr_label : string;
  gr_name : string;
  gr_annotated : bool;
  gr_suffixes : list string;
}.

(** Two groups never give the same string. *)
Definition disjoint_strings (f : Group -> string) (g h : Group) : Prop :=
  incomparable (f g) (f h) = true \/
  (f g <> f h /\ Forall (eq DefaultName) (gr_suffixes g) /\ Forall (eq DefaultName) (gr_suffixes h)).

Definition group_strings (f : Group -> string) (g : Group) : list string :=
  FormatComponentStringWithDefault (f g) <$> gr_suffixes g.

Lemma group_strings_nodup f gs :
  Forall (fun g => NoDup (gr_suffixes g)) gs -> ForallOrdPairs (disjoint_strings f) gs ->
  NoDup (gs ≫= group_strings f).
Proof.
  intros Hs Hd. induction Hd as [|g gs Hg _ IH]; [constructor|]. inversion Hs; subst.
  rewrite bind_cons, NoDup_app. split_and!; [| |by apply IH].
  - apply NoDup_fmap_2_strong; [|done]. intros r s _ _. apply Format_suffix.
  - intros x (r & -> & Hr)%list_elem_of_fmap Hin.
    apply list_elem_of_bind in Hin as (h & Hx & Hh). apply list_elem_of_fmap in Hx as (s & Heq & Hs').
    rewrite List.Forall_forall in Hg. destruct (Hg h) as [Hinc|(Hne & Hr' & Hs'')].
    + by apply list_elem_of_In.
    + by apply (Format_incomparable _ _ r s Hinc).
    + rewrite Forall_forall in Hr', Hs''. rewrite <- (Hr' r Hr), <- (Hs'' s Hs') in Heq. done.
Qed.

Section Groups.
Context (y : Ytsaurus).
Let spec := yt_Spec y.

Definition single_if (b : bool) (label name : string) (annotated : bool) : Group :=
  mkGroup label name annotated (if b then [DefaultName] else []).
Definition several (label : string) (t : ComponentType) (suffixes : list string) : Group :=
  mkGroup label (ComponentType_string t) false suffixes.

(** The groups of the components of a resource, in the order of the manager. *)
Definition component_groups : list Group :=
  let has_scheduler := is_some (sp_Schedulers spec) in
  let has_tablets := match sp_TabletNodes spec with [] => false | _ => true end in
  let '(_, chyt, chytName) := strawberry_names y in
  [single_if true YTComponentLabelDiscovery "Discovery" false;
   single_if true YTComponentLabelMaster "Master" true;
   single_if true "yt-client" "YtsaurusClient" true;
   several YTComponentLabelDataNode DataNodeType (dn_Name <$> sp_DataNodes spec);
   several YTComponentLabelHTTPProxy HttpProxyType (hp_Role <$> sp_HTTPProxies spec);
   single_if (is_some (sp_UI spec)) YTComponentLabelUI "UI" true;
   several YTComponentLabelRPCProxy RpcProxyType (rp_Role <$> sp_RPCProxies spec);
   several YTComponentLabelTCPProxy TcpProxyType (tp_Role <$> sp_TCPProxies spec);
   several YTComponentLabelExecNode ExecNodeType (en_Name <$> sp_ExecNodes spec);
   several YTComponentLabelTabletNode TabletNodeType (tn_Name <$> sp_TabletNodes spec);
   single_if has_scheduler YTComponentLabelScheduler "Scheduler" true;
   single_if (is_some (sp_ControllerAgents spec)) YTComponentLabelControllerAgent "ControllerAgent" false;
   single_if (is_some (sp_QueryTrackers spec) && has_scheduler && has_tablets)
     "yt-query-tracker" "QueryTracker" true;
   single_if (is_some (sp_QueueAgents spec) && has_tablets) "yt-queue-agent" "QueueAgent" true;
   single_if (is_some (sp_YQLAgents spec)) YTComponentLabelYqlAgent "YqlAgent" true;
   single_if (has_scheduler &&
     (is_some (sp_DeprecatedChytController spec) || is_some (sp_StrawberryController spec)))
     ("yt-" +:+ chyt +:+ "-controller") chytName true;
   single_if (is_some (sp_MasterCaches spec)) YTComponentLabelMasterCache "MasterCache" true].

Definition group_labellers (g : Group) : list Labeller :=
  (fun suffix =>
     (if gr_annotated g then annotated_labeller else component_labeller) y
       (FormatComponentStringWithDefault (gr_label g) suffix)
       (FormatComponentStringWithDefault (gr_name g) suffix)) <$> gr_suffixes g.

Definition component_labellers : list Labeller := component_groups ≫= group_labellers.

Lemma group_labels gs : lb_ComponentLabel <$> (gs ≫= group_labellers) = gs ≫= group_strings gr_label.
Proof.
  induction gs as [|g gs IH]; [done|]. rewrite !bind_cons, fmap_app, IH. f_equal.
  unfold group_labellers, group_strings. rewrite <- list_fmap_compose. apply list_fmap_ext.
  intros i r _. simpl. by destruct (gr_annotated g).
Qed.

Lemma group_names gs : lb_ComponentName <$> (gs ≫= group_labellers) = gs ≫= group_strings gr_name.
Proof.
  induction gs as [|g gs IH]; [done|]. rewrite !bind_cons, fmap_app, IH. f_equal.
  unfold group_labellers, group_strings. rewrite <- list_fmap_compose. apply list_fmap_ext.
  intros i r _. simpl. by destruct (gr_annotated g).
Qed.

Lemma strawberry_names_cases :
  (exists image, strawberry_names y = (image, "chyt", "ChytController")) \/
  (exists image, strawberry_names y = (image, "strawberry", "StrawberryController")).
Proof. unfold strawberry_names. destruct (sp_StrawberryController _); eauto. Qed.

Ltac pairwise_disjoint :=
  repeat (apply FOP_cons || apply FOP_nil || apply List.Forall_cons || apply List.Forall_nil);
  first [left; vm_compute; reflexivity
        |right; simpl; repeat case_match; repeat constructor; discriminate].

Lemma groups_disjoint f :
  f = gr_label \/ f = gr_name -> ForallOrdPairs (disjoint_strings f) component_groups.
Proof.
  unfold component_groups.
  destruct strawberry_names_cases as [[i ->]|[i ->]]; intros [->| ->]; pairwise_disjoint.
Qed.

(** The webhook keeps roles and names apart. *)
Lemma groups_nodup `{CY : ContainerYaml} `{PY : PartialYaml} : valid_spec spec -> Forall (fun g => NoDup (gr_suffixes g)) component_groups.
Proof.
  intros []. unfold component_groups. destruct (strawberry_names y) as [[image chyt] chytName].
  repeat apply Forall_cons_2; try apply Forall_nil_2; simpl; try done.
  all: repeat case_match; auto using NoDup_singleton, NoDup_nil_2.
Qed.
End Groups.

Section Built.
Context {H E : Type} `{K : Kube E} `{CM : ConditionMeta} `{CO : Codec} `{CY : ContainerYaml}.
Context `{Y : Yt E} `{YT : YsonText} `{MO : MapOrder E} `{EN : Entropy E} `{U : Uuid} `{QF : Quantities} `{YP : YsonPretty} `{AL : Alloc H}.
Local Abbreviation W := (World H E).
Context (clusterDomain : string) (y : Ytsaurus).

(** The component reports under the names of the labeller. *)
Definition labelled (c : Component W) (l : Labeller) : Prop :=
  cmp_GetName c = lb_ComponentName l /\ cmp_SetReadyCondition c = SetReadyCondition l.

Lemma default_port_set p s : is_Some (is_MonitoringPort (default_MonitoringPort p s)).
Proof. unfold default_MonitoringPort. destruct (is_MonitoringPort s) eqn:Hp; simpl; eauto. Qed.

Lemma newServer_built l s b f n sv g o :
  is_Some (is_MonitoringPort s) -> is_Some (newServer y l s b f n sv g o : option (server W H)).
Proof. intros [p Hp]. unfold newServer, newServerConfigured. rewrite Hp. simpl. eauto. Qed.

Lemma labelled_names cs ls : Forall2 labelled cs ls -> cmp_GetName <$> cs = lb_ComponentName <$> ls.
Proof. induction 1 as [|c l cs ls [Hc _] _ IH]; [done|]. rewrite !fmap_cons. congruence. Qed.

(** No constructor that is given its specification dereferences nil. *)
Ltac labelled_by_server :=
  match goal with
  | |- context [newServer y ?l ?s ?b ?f ?n ?sv ?g ?o] =>
      destruct (newServer_built l s b f n sv g o) as [? ->];
      [apply default_port_set|by split]
  end.

Let f := operator clusterDomain y : Factory W.
Let spec := yt_Spec y.
Let lb (annotated : bool) label name suffix :=
  (if annotated then annotated_labeller else component_labeller) y
    (FormatComponentStringWithDefault label suffix) (FormatComponentStringWithDefault name suffix).

(** The components a cluster always has, and those it has lists of. *)
Lemma built_always m :
  labelled (Manager.NewDiscovery f) (lb false YTComponentLabelDiscovery "Discovery" DefaultName) /\
  labelled (Manager.NewMaster f) (lb true YTComponentLabelMaster "Master" DefaultName) /\
  labelled (Manager.NewYtsaurusClient f m) (lb true "yt-client" "YtsaurusClient" DefaultName).
Proof.
  subst f lb. simpl. unfold NewDiscovery, NewMaster. simpl.
  split_and!; [labelled_by_server|labelled_by_server|by split].
Qed.

Lemma built_nodes m yc :
  (forall s, labelled (Manager.NewDataNode f m s)
    (lb false YTComponentLabelDataNode "DataNode" (dn_Name s))) /\
  (forall s, labelled (Manager.NewExecNode f m s)
    (lb false YTComponentLabelExecNode "ExecNode" (en_Name s))) /\
  (forall s b, labelled (Manager.NewTabletNode f yc s b)
    (lb false YTComponentLabelTabletNode "TabletNode" (tn_Name s))).
Proof.
  subst f lb. simpl. unfold NewDataNode, NewExecNode, NewTabletNode. simpl.
  split_and!; intros; labelled_by_server.
Qed.

Lemma built_proxies m :
  (forall s, labelled (Manager.NewHTTPProxy f m s)
    (lb false YTComponentLabelHTTPProxy "HttpProxy" (hp_Role s))) /\
  (forall s, labelled (Manager.NewRPCProxy f m s)
    (lb false YTComponentLabelRPCProxy "RpcProxy" (rp_Role s))) /\
  (forall s, labelled (Manager.NewTCPProxy f m s)
    (lb false YTComponentLabelTCPProxy "TcpProxy" (tp_Role s))).
Proof.
  subst f lb. simpl. unfold NewHTTPProxy, NewRPCProxy, NewTCPProxy. simpl.
  split_and!; intros; labelled_by_server.
Qed.

(** The optional components, when the resource has their specification. *)
Lemma built_scheduling m es ts :
  (is_some (sp_Schedulers spec) = true ->
   labelled (Manager.NewScheduler f m es ts) (lb true YTComponentLabelScheduler "Scheduler" DefaultName)) /\
  (is_some (sp_ControllerAgents spec) = true ->
   labelled (Manager.NewControllerAgent f m)
     (lb false YTComponentLabelControllerAgent "ControllerAgent" DefaultName)) /\
  (is_some (sp_MasterCaches spec) = true ->
   labelled (Manager.NewMasterCache f) (lb true YTComponentLabelMasterCache "MasterCache" DefaultName)).
Proof.
  subst f lb spec. simpl. unfold NewScheduler, NewControllerAgent, NewMasterCache.
  split_and!; intros Hs; destruct (_ (yt_Spec y)); try done; simpl; labelled_by_server.
Qed.

Lemma built_agents m yc ts :
  (is_some (sp_QueryTrackers spec) = true ->
   labelled (Manager.NewQueryTracker f yc ts) (lb true "yt-query-tracker" "QueryTracker" DefaultName)) /\
  (is_some (sp_QueueAgents spec) = true ->
   labelled (Manager.NewQueueAgent f yc m ts) (lb true "yt-queue-agent" "QueueAgent" DefaultName)) /\
  (is_some (sp_YQLAgents spec) = true ->
   labelled (Manager.NewYQLAgent f m) (lb true YTComponentLabelYqlAgent "YqlAgent" DefaultName)).
Proof.
  subst f lb spec. simpl. unfold NewQueryTracker, NewQueueAgent, NewYQLAgent.
  split_and!; intros Hs; destruct (_ (yt_Spec y)); try done; simpl; labelled_by_server.
Qed.

Lemma built_deployments m s ds :
  (is_some (sp_UI spec) = true ->
   labelled (Manager.NewUI f m) (lb true YTComponentLabelUI "UI" DefaultName)) /\
  (forall image name componentName, strawberry_names y = (image, name, componentName) ->
   labelled (Manager.NewStrawberryController f m s ds)
     (lb true ("yt-" +:+ name +:+ "-controller") componentName DefaultName)).
Proof.
  subst f lb spec. simpl. unfold NewUI, NewStrawberryController. split.
  - intros Hs. destruct (sp_UI _); [|done]. by split.
  - intros image name componentName ->. by split.
Qed.

Lemma labelled_map {A} (c : A -> Component W) label t (r : A -> string) xs :
  (forall x, labelled (c x) (lb false label (ComponentType_string t) (r x))) ->
  Forall2 labelled (c <$> xs) (group_labellers y (several label t (r <$> xs))).
Proof.
  intros Hx. unfold group_labellers. simpl. rewrite <- list_fmap_compose.
  by apply Forall2_fmap_2, Forall_Forall2_diag, Forall_true.
Qed.

Lemma labelled_imap {A} (c : A -> bool -> Component W) label t (r : A -> string) xs :
  (forall x b, labelled (c x b) (lb false label (ComponentType_string t) (r x))) ->
  Forall2 labelled (imap_first c xs) (group_labellers y (several label t (r <$> xs))).
Proof.
  intros Hx. unfold imap_first, group_labellers. simpl. rewrite <- list_fmap_compose.
  apply Forall2_same_length_lookup_2; [by rewrite length_imap, length_fmap|].
  intros i c' l' Hc Hl. rewrite list_lookup_imap in Hc. rewrite list_lookup_fmap in Hl.
  destruct (xs !! i) as [x|]; simplify_eq/=. apply Hx.
Qed.

Lemma labelled_if (b : bool) c label name annotated :
  (b = true -> labelled c (lb annotated label name DefaultName)) ->
  Forall2 labelled (if b then [c] else []) (group_labellers y (single_if b label name annotated)).
Proof. destruct b; intros Hc; repeat constructor; by apply Hc. Qed.

Lemma labelled_option {A} (o : option A) c label name annotated :
  (is_some o = true -> labelled c (lb annotated label name DefaultName)) ->
  Forall2 labelled (match o with Some _ => [c] | None => [] end)
    (group_labellers y (single_if (is_some o) label name annotated)).
Proof. destruct o; intros Hc; repeat constructor; by apply Hc. Qed.

Lemma option_list_if {A} (b : bool) (x : A) :
  option_list (if b then Some x else None) = if b then [x] else [].
Proof. by destruct b. Qed.

Lemma option_list_match {A B} (o : option A) (x : B) :
  option_list (match o with Some _ => Some x | None => None end) =
  match o with Some _ => [x] | None => [] end.
Proof. by destruct o. Qed.

(** The components of the manager and the labellers of the resource agree. *)
Lemma operator_labelled cs q s :
  buildComponents f spec = Some (cs, q, s) -> Forall2 labelled cs (component_labellers y).
Proof.
  pose proof built_always as Ha. pose proof built_nodes as Hn. pose proof built_proxies as Hp.
  pose proof built_scheduling as Hs. pose proof built_agents as Hg. pose proof built_deployments as Hd.
  clearbody f. unfold buildComponents, component_labellers, component_groups.
  change (yt_Spec y) with spec. cbv zeta.
  destruct (strawberry_names y) as [[image chyt] chytName] eqn:Hname. rewrite !bind_cons.
  destruct (sp_HTTPProxies spec) as [|h hs]; [done|]. cbn [fmap list_fmap]. intros [= <- _ _].
  set (m := Manager.NewMaster f). constructor; [apply (Ha m)|]. constructor; [apply (Ha m)|].
  constructor; [apply Ha|]. specialize (Hn m (Manager.NewYtsaurusClient f (Manager.NewHTTPProxy f m h))).
  destruct (Hp m) as (Hhp & Hrp & Htp), Hn as (Hdn & Hen & Htn).
  apply Forall2_app; [by apply labelled_map|].
  rewrite app_comm_cons. apply Forall2_app; [by apply (labelled_map _ _ HttpProxyType hp_Role (h :: hs))|].
  apply Forall2_app; [apply labelled_option, (proj1 (Hd m m []))|].
  apply Forall2_app; [by apply labelled_map|]. apply Forall2_app; [by apply labelled_map|].
  apply Forall2_app; [by apply labelled_map|]. apply Forall2_app; [by apply labelled_imap|].
  set (ts := imap_first _ _). set (es := _ <$> sp_ExecNodes spec). set (yc := Manager.NewYtsaurusClient f _).
  apply Forall2_app; [rewrite option_list_match; apply labelled_option, (Hs m es ts)|].
  apply Forall2_app; [apply labelled_option, (Hs m es ts)|].
  apply Forall2_app.
  { rewrite option_list_if. apply labelled_if. rewrite !andb_true_iff. intros [[Hq _] _]. by apply Hg. }
  apply Forall2_app; [apply labelled_if; rewrite andb_true_iff; intros [Hq _]; by apply Hg|].
  apply Forall2_app; [apply labelled_option, (Hg m m [])|].
  rewrite app_nil_r. apply Forall2_app; [|apply labelled_option, (Hs m es ts)].
  destruct (sp_Schedulers spec) as [sch|]; [|constructor].
  apply labelled_if. intros _. by apply (proj2 (Hd m _ _) image).
Qed.
End Built.

(** ** Theorems *)

Section Theorems.
Context {H E : Type} `{K : Kube E} `{CM : ConditionMeta} `{CO : Codec} `{CY : ContainerYaml}.
Context `{Y : Yt E} `{YT : YsonText} `{MO : MapOrder E} `{EN : Entropy E} `{U : Uuid} `{QF : Quantities} `{YP : YsonPretty} `{AL : Alloc H}.
Local Abbreviation W := (World H E).

(** C39. The operator as it is wired together follows the life cycle of a
    cluster: with the components the constructors build from the resource,
    whatever the Kubernetes API, the YT cluster and the renderers of the
    configurations answer, and whichever reconciliations fail, any sequence of
    them moves the status the API server holds along the life cycle, and leaves
    it coherent if it was: outside an update the update status is blank, and
    during one its state is one the flow has a handler for. *)
Theorem operator_simulated `{KL : !KubeLaws E K} `{CL : !ConditionMetaLaws CM} `{YL : !YtLaws E K KL Y}
    `{EL : !EntropyLaws E K KL EN} (clusterDomain : string)
    (st : YtsaurusStatus) (ws : list W) (st' : YtsaurusStatus)
    (Hhist : history (fun w => operator clusterDomain (resource w)) st ws st') :
  rtc cstep (ctl_of st) (ctl_of st') /\ (coherent (ctl_of st) -> coherent (ctl_of st')).
Proof.
  apply history_simulated in Hhist; [|intros w; apply operator_factory_laws].
  split; [done|]. by apply rtc_coherent.
Qed.

(** C40. For every resource the webhook admits the manager can be built, and
    its components are those of the specification: they report, in order,
    under the names of [component_labellers], no two components share a name,
    so selecting one for an update never touches another, and no two share a
    label, of which the names of their config maps, secrets, jobs and
    monitoring services are made. *)
Theorem operator_components `{PY : PartialYaml} (clusterDomain : string) (y : Ytsaurus)
    (Hvalid : valid_spec (yt_Spec y)) :
  exists cs q s,
    buildComponents (operator clusterDomain y : Factory W) (yt_Spec y) = Some (cs, q, s) /\
    Forall2 labelled cs (component_labellers y) /\
    NoDup (cmp_GetName <$> cs) /\
    NoDup (lb_ComponentLabel <$> component_labellers y).
Proof.
  assert (forall f, f = gr_label \/ f = gr_name -> NoDup (component_groups y ≫= group_strings f)) as Hnd.
  { intros f Hf. apply group_strings_nodup; [eapply groups_nodup, Hvalid|by apply groups_disjoint]. }
  destruct (buildComponents (operator clusterDomain y) (yt_Spec y)) as [[[cs q] s]|] eqn:Hb.
  - exists cs, q, s. pose proof (operator_labelled _ _ _ _ _ Hb) as Hl. split_and!; [done|done| |].
    + rewrite (labelled_names _ _ Hl). unfold component_labellers. rewrite group_names. auto.
    + unfold component_labellers. rewrite group_labels. auto.
  - exfalso. destruct Hvalid as [_ _ _ _ _ _ Hd]. unfold buildComponents in Hb.
    destruct (sp_HTTPProxies (yt_Spec y)); [by apply not_elem_of_nil in Hd|done].
Qed.
End Theorems.
(** ** Witnesses *)

Import RefKube RefMeta RefCodec NoCluster InitialisedWitness.

(** A heap with the variables of every component. *)
Module OperatorWitness.
#[export] Instance yt_laws : YtLaws YtsaurusStatus kube kube_laws yt.
Proof. by split. Qed.
#[export] Instance entropy_laws : EntropyLaws YtsaurusStatus kube kube_laws entropy.
Proof. done. Qed.

(** The libraries: the identifier of the masters, quantities as floats, and a
    writer that prints nothing. *)
#[export] Instance uuid : Uuid := sample_uuid_lib.
#[export] Instance quantities : Quantities :=
  {| Quantity_Value q := (q / 10 ^ 9)%Z; AsApproximateFloat64 q := float64 (mkFloat (q / 10 ^ 9) 0) |}.
#[export] Instance yson_pretty : YsonPretty := fun _ => inr ""%string.

(** [n + 1] slots. *)
Fixpoint slots (n : nat) (X : Type) : Type :=
  match n with 0 => X | S n => X * slots n X end.
Fixpoint slot {X} (n k : nat) : Ref (slots n X) X :=
  match n return Ref (slots n X) X with
  | 0 => {| load x := x; store x _ := x; load_store _ _ := eq_refl; store_load _ := eq_refl;
            store_store _ _ _ := eq_refl |}
  | S n => match k with 0 => fst_ref | S k => comp_ref snd_ref (slot n k) end
  end.
Fixpoint filled {X} (n : nat) (x : X) : slots n X :=
  match n with 0 => x | S n => (x, filled n x) end.

(** The variables of one component: a server, two jobs, a microservice with
    the variables of two more objects, and a sidecar configuration. *)
Definition vars_t : Type :=
  Server.Witness.heap_t * (JobWitness.heap_t * (JobWitness.heap_t * (UiWitness.heap_t *
    ((Secret * Secret) * ((Service * Service) * (ConfigMap * (ConfigMap * ConfigMap))))))).
Definition heap_t : Type := Secret * (bool * slots 8 vars_t).

Definition index (label : string) : nat :=
  default 0 (list_find (eq label)
    ["yt-discovery"; "yt-master"; "yt-client"; "yt-data-node-"; "yt-http-proxy"; "yt-tablet-node-";
     "yt-scheduler"; "yt-controller-agent"] ≫= fun p => Some p.1).
Section At.
(** The variables, in a part of a heap. *)
Context {H : Type} (at_heap : Ref H heap_t).

Definition slot_of (label : string) : Ref H vars_t :=
  comp_ref at_heap (comp_ref snd_ref (comp_ref snd_ref (slot 8 (index label)))).

Definition server_at (r : Ref H Server.Witness.heap_t) : ServerVars H :=
  let v := Server.Witness.vars in
  mkServerVars H (comp_ref r (sr_statefulSet_old v)) (comp_ref r (sr_statefulSet_new v))
    (comp_ref r (sr_statefulSet_built v)) (comp_ref r (sr_headless_old v)) (comp_ref r (sr_headless_new v))
    (comp_ref r (sr_monitoring_old v)) (comp_ref r (sr_monitoring_new v)) (comp_ref r (sr_overrides v))
    (comp_ref r (sr_configMap_old v)) (comp_ref r (sr_configMap_new v)) (comp_ref r (sr_built v)).
Definition job_at (r : Ref H JobWitness.heap_t) : InitJobVars H :=
  let v := JobWitness.vars in
  mkInitJobVars H (comp_ref r (jv_job_old v)) (comp_ref r (jv_job_new v)) (comp_ref r (jv_overrides v))
    (comp_ref r (jv_configMap_old v)) (comp_ref r (jv_configMap_new v)) (comp_ref r (jv_built v)).
Definition microservice_at (r : Ref H UiWitness.heap_t) : MicroserviceVars H :=
  let v := UiWitness.vars in
  mkMicroserviceVars H (comp_ref r (mv_deployment_old v)) (comp_ref r (mv_deployment_new v))
    (comp_ref r (mv_deployment_built v)) (comp_ref r (mv_service_old v)) (comp_ref r (mv_service_new v))
    (comp_ref r (mv_overrides v)) (comp_ref r (mv_configMap_old v)) (comp_ref r (mv_configMap_new v))
    (comp_ref r (mv_builtDeployment v)) (comp_ref r (mv_builtService v)) (comp_ref r (mv_builtConfig v)).

Definition second_job (name : string) : bool :=
  bool_decide (name ∈ ["exit-read-only"; "op-archive"; "cluster"]).
Definition rest_of (label : string) := comp_ref (comp_ref (comp_ref (slot_of label) snd_ref) snd_ref) snd_ref.
Definition objects_of (label : string) := comp_ref (rest_of label) snd_ref.
Definition services_of (label : string) := comp_ref (objects_of label) snd_ref.

Definition alloc_at : Alloc H := {|
  al_server label := server_at (comp_ref (slot_of label) fst_ref);
  al_job label name :=
    job_at (if second_job name then comp_ref (comp_ref (comp_ref (slot_of label) snd_ref) snd_ref) fst_ref
            else comp_ref (comp_ref (slot_of label) snd_ref) fst_ref);
  al_microservice label := microservice_at (comp_ref (rest_of label) fst_ref);
  al_secret_old label := comp_ref (comp_ref (objects_of label) fst_ref) fst_ref;
  al_secret_new label := comp_ref (comp_ref (objects_of label) fst_ref) snd_ref;
  al_service_old label := comp_ref (comp_ref (services_of label) fst_ref) fst_ref;
  al_service_new label := comp_ref (comp_ref (services_of label) fst_ref) snd_ref;
  al_sidecar_overrides label := comp_ref (comp_ref (services_of label) snd_ref) fst_ref;
  al_sidecar_old label := comp_ref (comp_ref (comp_ref (services_of label) snd_ref) snd_ref) fst_ref;
  al_sidecar_new label := comp_ref (comp_ref (comp_ref (services_of label) snd_ref) snd_ref) snd_ref;
  al_adminCredentials := comp_ref at_heap fst_ref;
  al_ytClient := comp_ref at_heap (comp_ref snd_ref fst_ref);
|}.
End At.

#[export] Instance alloc : Alloc heap_t := alloc_at (slot 0 0).

Definition secret_zero : Secret := StateJobWitness.secret_zero.
Definition fresh : vars_t :=
  let job := heap (JobWitness.world JobWitness.job_zero []) in
  let cm := JobWitness.cm_zero in
  let svc := Server.Witness.svc_zero in
  (Server.Witness.heap0, (job, (job, (heap UiWitness.start,
    ((secret_zero, secret_zero), ((svc, svc), (cm, (cm, cm)))))))).

(** A cluster that was just created. *)
Definition world : World heap_t YtsaurusStatus :=
  mkWorld (sample_Ytsaurus ClusterStateCreated) (secret_zero, (false, filled 8 fresh))
    (sample_Status ClusterStateCreated).
End OperatorWitness.

Import OperatorWitness.

(** The first reconciliation of a cluster starts its initialisation. *)
Lemma operator_simulated_witness :
  exists st', st_State st' = ClusterStateInitializing /\
    rtc cstep (ctl_of (status world)) (ctl_of st') /\ coherent (ctl_of st').
Proof.
  destruct (Sync (operator "cluster.local" (resource world)) world) as [[r w']|] eqn:Hrun;
    [|exfalso; revert Hrun; vm_compute; discriminate].
  exists (persisted (ext w')). split.
  - revert Hrun. vm_compute. by intros [= _ <-].
  - destruct (operator_simulated "cluster.local" (status world) [world] (persisted (ext w')))
      as [Hsteps Hco]; [|split; [exact Hsteps|by apply Hco]].
    eapply history_cons; [reflexivity|exact Hrun|constructor].
Defined.

Import WebhookWitness.

Lemma operator_components_witness :
  exists cs q s,
    buildComponents (operator "cluster.local" (cluster ["default"; "heavy"]) : Factory (World heap_t YtsaurusStatus))
      (yt_Spec (cluster ["default"; "heavy"])) = Some (cs, q, s) /\
    NoDup (cmp_GetName <$> cs).
Proof.
  destruct (operator_components (H:=heap_t) (E:=YtsaurusStatus) "cluster.local" (cluster ["default"; "heavy"]))
    as (cs & q & s & Hb & _ & Hn & _); [|by exists cs, q, s].
  apply cluster_valid.
Defined.
