(* ===== verification/Golden.v ===== *)
(** * The golden files of the configuration generators

    generator_test.go renders the configurations of a test cluster and
    compares them with the files of pkg/ytconfig/canondata.  Here the model
    renders them, with a writer of pretty YSON, and reproduces the files
    character by character, apart from the quotation marks, which are written
    as backquotes. *)

From S2P Require Import Prelude Float Api CellId Names YtApi Yson Logging CommonConfig NodeConfig ServerConfigs.

Local Open Scope string_scope.
Local Open Scope list_scope.

(** ** Pretty YSON

    Maps and lists have an entry per line and an indentation of four; a string
    is quoted unless it is an identifier of letters and digits. *)

Definition newline : string := String (Ascii.ascii_of_nat 10) "".
Definition indentation (n : nat) : string := String.concat "" (repeat "    " n).

Definition letter (c : Ascii.ascii) : bool :=
  let n := Ascii.nat_of_ascii c in ((65 <=? n) && (n <=? 90) || (97 <=? n) && (n <=? 122))%nat.
Definition digit (c : Ascii.ascii) : bool :=
  let n := Ascii.nat_of_ascii c in ((48 <=? n) && (n <=? 57))%nat.
Definition identifier (s : string) : bool :=
  match s with
  | "" => false
  | String c _ => letter c && forallb (fun c => letter c || digit c) (String.list_ascii_of_string s)
  end.
Definition yson_string (s : string) : string := if identifier s then s else "`" +:+ s +:+ "`".

Fixpoint indent_lines (n : nat) (s : string) : string :=
  match s with
  | "" => ""
  | String c s =>
      String c ((if decide (c = Ascii.ascii_of_nat 10) then indentation n else "") +:+ indent_lines n s)
  end.

(** [%f]: six decimals. *)
Definition six_decimals (f : float) : string :=
  let n := truncate (mul_exact f (mkFloat (10 ^ 6) 0)) in
  let decimals := pretty (10 ^ 6 + n mod 10 ^ 6)%Z in
  pretty (n / 10 ^ 6)%Z +:+ "." +:+ String.substring 1 6 decimals.

Fixpoint pretty_yson (n : nat) (v : YtValue) : string :=
  let entries (l : list string) :=
    newline +:+ String.concat "" ((fun e => indentation (S n) +:+ e +:+ ";" +:+ newline) <$> l)
      +:+ indentation n in
  match v with
  | YBool b => if b then "%true" else "%false"
  | YInt i => pretty i
  | YString s => yson_string s
  | YList l => "[" +:+ entries (pretty_yson (S n) <$> l) +:+ "]"
  | YMap m => "{" +:+ entries ((fun p => yson_string p.1 +:+ "=" +:+ pretty_yson (S n) p.2) <$> m) +:+ "}"
  | YFloat f => six_decimals f
  | YEntity => "#"
  | YRaw s => indent_lines n s
  end.

#[local] Instance pretty_format : YsonPretty := fun v => inr (pretty_yson 0 v).

(** The bytes of a random UUID, with its version and its variant. *)
#[local] Instance uuid : Uuid := fun s =>
  let b := take 16 ((fun c => Z.of_nat (Ascii.nat_of_ascii c)) <$> String.list_ascii_of_string s) in
  if decide (length b = 16%nat) then
    Some (alter (fun x => Z.lor (Z.land x 63) 128) 8 (alter (fun x => Z.lor (Z.land x 15) 64) 6 b))
  else None.

(** A quantity, rounded up to whole units. *)
#[local] Instance quantities : Quantities :=
  {| Quantity_Value q := ((q + (10 ^ 9 - 1)) / 10 ^ 9)%Z; AsApproximateFloat64 q := float64_of_int (q / 10 ^ 9) |}.

(** ** The test cluster *)

Definition unit : Z := 10 ^ 9.
Definition Gi : Z := 1024 * 1024 * 1024 * unit.

Definition basic (count : Z) (port : option Z) : InstanceSpec :=
  mkInstanceSpec None [] [] [] None (mkResourceRequirements None None) count None [] [] None None None
    port [] [] None ∅ [] ∅ ∅ None None None.

Definition text_logger (name : string) (level : LogLevel) (compression : LogCompression)
    (rotation : option LogRotationPolicy) (exclude : list string) : TextLoggerSpec :=
  mkTextLoggerSpec (mkBaseLoggerSpec name LogFormatPlainText level compression false rotation)
    LogWriterTypeFile
    (match exclude with [] => None | _ => Some (mkCategoriesFilter CategoriesFilterTypeExclude exclude) end).

Definition claim (name : string) (storage : Z) : EmbeddedPersistentVolumeClaim :=
  mkEmbeddedPersistentVolumeClaim name ∅ ∅ (mkResourceRequirements (Some {["storage" := storage]}) None).

Definition at_path (t : LocationType) (path medium : string) (quota low : option Z) (trash : option Z)
    : LocationSpec := mkLocationSpec t path medium quota low trash.

Definition getCommonSpec (everything : bool) (tcp : option bool) : CommonSpec :=
  mkCommonSpec "" None None None false (negb everything) everything tcp tcp false false everything
    None None [].

Definition testHosts : list string :=
  ["host1.external.address"; "host2.external.address"; "host3.external.address"].

Definition primary_masters (hosts : list string) : MastersSpec :=
  mkMastersSpec
    (mkInstanceSpec None [] [] [mkVolumeMount "master-data" "/yt/master-data" false None ""] None
       (mkResourceRequirements None None) 1 None
       [at_path LocationTypeMasterChangelogs "/yt/master-data/master-changelogs" "" None None None;
        at_path LocationTypeMasterSnapshots "/yt/master-data/master-snapshots" "" None None None]
       [claim "master-data" (20 * Gi)] None None None (Some 10010%Z)
       [text_logger "info" LogLevelInfo LogCompressionNone None [];
        text_logger "error" LogLevelError LogCompressionNone None [];
        text_logger "debug" LogLevelDebug LogCompressionZstd
          (Some (mkLogRotationPolicy (Some 900000%Z) None (Some (10 * Gi)%Z) None)) ["Bus"]]
       [] None ∅ [] ∅ ∅ None None None)
    (mkMasterConnectionSpec 0 hosts) "" (Some 1543%Z) None
    ["{name: sleep, image: fakeimage:stable, command: [/bin/sleep], args: [inf]}"].

Definition master_caches (hosts : list string) : MasterCachesSpec :=
  mkMasterCachesSpec (basic 3 (Some 10018%Z)) 0 hosts "".

Definition oauth : OauthServiceSpec :=
  mkOauthServiceSpec "oauth-host" 433 true (mkOauthUserInfoHandlerSpec "user-info-endpoint" "login" None).

Definition port (p : Z) : option InstanceSpec := Some (basic 3 (Some p)).

(** [getYtsaurusWithEverything]. *)
Definition everything_with (tcp : option bool) (cacheHosts : list string) : Ytsaurus :=
  mkYtsaurus "test" "fake"
    (mkYtsaurusSpec (getCommonSpec true tcp) "" None (Some oauth) false false UpdateSelectorUnspecified None
       (basic 3 (Some 10020%Z)) (primary_masters []) [] (Some (master_caches cacheHosts)) [] []
       [mkTCPProxiesSpec (basic 3 (Some 10017%Z)) None 10000 20000 ""] [] [] (port 10011) (port 10014) []
       (Some (mkStrawberryControllerSpec (mkResourceRequirements None None) (Some "dummy-strawberry-image")))
       None (port 10028) None (port 10019) (port 10030)
       (Some (mkUISpec (Some "dummy-ui-image") "NodePort" None false false (mkResourceRequirements None None)
          0 None (Some "http://odin-webservice.odin.svc.cluster.local") [] "" "" None None None)))
    (mkYtsaurusStatus ClusterStateCreated []
       (mkUpdateStatus UpdateStateNone None UpdateFlowNone [] [] [])).
Definition everything : Ytsaurus := everything_with None [].

(** [getYtsaurus], with the hosts of the masters, schedulers and an interface. *)
Definition bare (hosts : list string) (schedulers : option InstanceSpec) (ui : option UISpec) : Ytsaurus :=
  mkYtsaurus "test" "fake"
    (mkYtsaurusSpec (getCommonSpec false None) "" None None false false UpdateSelectorUnspecified None
       (basic 0 None) (primary_masters hosts) [] None [] [] [] [] [] schedulers None [] None None None None
       None None ui)
    (mkYtsaurusStatus ClusterStateCreated []
       (mkUpdateStatus UpdateStateNone None UpdateFlowNone [] [] [])).

Definition ui_custom (externalProxy : option string) (secure : bool) : option UISpec :=
  Some (mkUISpec None "" None false secure (mkResourceRequirements None None) 0 externalProxy
    (Some "http://odin-webservice.odin.svc.cluster.local") [] "" "" None None None).

Definition gen (y : Ytsaurus) : Generator := NewGenerator y "fake.zone".
Definition local : BaseGenerator := NewLocalBaseGenerator everything "fake.zone".
Definition remote : BaseGenerator :=
  NewRemoteBaseGenerator "test" "fake" "fake.zone" (getCommonSpec false None)
    (mkMasterConnectionSpec 1000 testHosts) (Some (master_caches testHosts)).

Definition limits (cpu memory : Z) : ResourceRequirements :=
  mkResourceRequirements None (Some {["cpu" := (cpu * unit)%Z; "memory" := (memory * Gi)%Z]}).
Definition jobs : option ResourceRequirements := Some (limits 99 99).

Definition node_instance (count port : Z) (locations : list LocationSpec) : InstanceSpec :=
  mkInstanceSpec None [] [] [mkVolumeMount "hdd1" "/yt/hdd1" false None ""] None (limits 20 5) count None
    locations [claim "hdd1" (10 * Gi)] None None None (Some port) [] [] None ∅ [] ∅ ∅ None None None.

Definition cluster_nodes : ClusterNodesSpec := mkClusterNodesSpec ["rack:xn-a"] "fake".

Definition chunk_store (quota low trash : option Z) : LocationSpec :=
  at_path LocationTypeChunkStore "/yt/hdd1/chunk-store" "nvme" quota low trash.
Definition chunk_cache : LocationSpec :=
  at_path LocationTypeChunkCache "/yt/hdd1/chunk-cache" "" None None None.
Definition slots : LocationSpec := at_path LocationTypeSlots "/yt/hdd2/slots" "" (Some (5 * Gi)%Z) None None.
Definition images : LocationSpec :=
  at_path LocationTypeImageCache "/yt/hdd1/images" "" (Some (4 * Gi)%Z) None None.

Definition data_nodes (l : LocationSpec) : DataNodesSpec :=
  mkDataNodesSpec (node_instance 20 10012 [l]) cluster_nodes "dn-a".

Definition exec_nodes (locations : list LocationSpec) (jobResources : option ResourceRequirements)
    (environment : option JobEnvironmentSpec) : ExecNodesSpec :=
  mkExecNodesSpec (node_instance 50 10029 locations) cluster_nodes "end-a" [] [] false
    [text_logger "debug" LogLevelDebug LogCompressionZstd
       (Some (mkLogRotationPolicy (Some 900000%Z) None (Some (3145728 * unit)%Z) None)) ["Bus"; "Concurrency"]]
    jobResources environment.
Definition exec (jobResources : option ResourceRequirements) : ExecNodesSpec :=
  exec_nodes [chunk_cache; slots] jobResources None.
Definition exec_cri (jobResources : option ResourceRequirements) (isolated : bool) : ExecNodesSpec :=
  exec_nodes [chunk_cache; slots; images] jobResources
    (Some (mkJobEnvironmentSpec (Some isolated) (Some 42%Z)
       (Some (mkCRIJobEnvironmentSpec [] (Some "registry.k8s.io/pause:3.8") (Some 120%Z) (Some "yt")
          (Some "/yt") None None None None None))
       (Some true) (Some true))).

Definition tablet_nodes : TabletNodesSpec :=
  mkTabletNodesSpec (node_instance 100 10022 [chunk_cache; slots]) cluster_nodes "".

Definition http_proxy : HTTPProxiesSpec :=
  mkHTTPProxiesSpec (basic 3 (Some 10016%Z)) "NodePort" (Some 10000%Z) (Some 10001%Z) "control"
    (mkHTTPTransportSpec (Some "yt-test-infra-wildcard") false).
Definition rpc_proxy : RPCProxiesSpec :=
  mkRPCProxiesSpec (basic 3 (Some 10013%Z)) None None "default" (mkRPCTransportSpec None false false "").
Definition tcp_proxy : TCPProxiesSpec := mkTCPProxiesSpec (basic 3 (Some 10017%Z)) None 0 0 "default".

(** ** The golden files *)

Example TestGetChytInitClusterConfig :
  GetChytInitClusterConfig (gen everything) = ok
"{
    proxy=`http-proxies-lb-test.fake.svc.fake.zone`;
    `strawberry_root`=`//sys/strawberry`;
    families=[
        chyt;
        jupyt;
    ];
}".
Proof. by vm_compute. Qed.

Example TestGetControllerAgentsConfig :
  GetControllerAgentConfig (gen everything) (port 10014) = ok
"{
    `address_resolver`={
        `enable_ipv4`=%true;
        `enable_ipv6`=%false;
        retries=1000;
    };
    `solomon_exporter`={
        host=`{POD_SHORT_HOSTNAME}`;
        `instance_tags`={
            pod=`{K8S_POD_NAME}`;
        };
    };
    logging={
        writers={
            info={
                type=file;
                `file_name`=`/var/log/controller-agent.info.log`;
                format=`plain_text`;
                `enable_system_messages`=%true;
            };
            stderr={
                type=stderr;
                format=`plain_text`;
                `enable_system_messages`=%true;
            };
        };
        rules=[
            {
                `min_level`=info;
                writers=[
                    info;
                ];
                family=`plain_text`;
            };
            {
                `min_level`=error;
                writers=[
                    stderr;
                ];
                family=`plain_text`;
            };
        ];
        `flush_period`=3000;
    };
    `monitoring_port`=10014;
    `rpc_port`=9014;
    `timestamp_provider`={
        addresses=[
            `ms-test-0.masters-test.fake.svc.fake.zone:9010`;
        ];
    };
    `cluster_connection`={
        `cluster_name`=test;
        `primary_master`={
            addresses=[
                `ms-test-0.masters-test.fake.svc.fake.zone:9010`;
            ];
            peers=[
                {
                    address=`ms-test-0.masters-test.fake.svc.fake.zone:9010`;
                    voting=%true;
                };
            ];
            `cell_id`=`65726e65-ad6b7562-259-79747361`;
        };
        `discovery_connection`={
            addresses=[
                `ds-test-0.discovery-test.fake.svc.fake.zone:9020`;
                `ds-test-1.discovery-test.fake.svc.fake.zone:9020`;
                `ds-test-2.discovery-test.fake.svc.fake.zone:9020`;
            ];
        };
        `master_cache`={
            addresses=[
                `msc-test-0.master-caches-test.fake.svc.fake.zone:9018`;
                `msc-test-1.master-caches-test.fake.svc.fake.zone:9018`;
                `msc-test-2.master-caches-test.fake.svc.fake.zone:9018`;
            ];
            `cell_id`=`65726e65-ad6b7562-259-79747361`;
            `enable_master_cache_discovery`=%false;
        };
    };
    `cypress_annotations`={
        `k8s_node_name`=`{K8S_NODE_NAME}`;
        `k8s_pod_name`=`{K8S_POD_NAME}`;
        `k8s_pod_namespace`=`{K8S_POD_NAMESPACE}`;
        `physical_host`=`{K8S_NODE_NAME}`;
    };
    `controller_agent`={
        `enable_tmpfs`=%true;
        `use_columnar_statistics_default`=%true;
    };
}".
Proof. by vm_compute. Qed.

Example TestGetDataNodeConfig_without_trash_ttl :
  GetDataNodeConfig local (data_nodes (chunk_store None None None)) = ok
"{
    `address_resolver`={
        `enable_ipv4`=%true;
        `enable_ipv6`=%false;
        retries=1000;
    };
    `solomon_exporter`={
        host=`{POD_SHORT_HOSTNAME}`;
        `instance_tags`={
            pod=`{K8S_POD_NAME}`;
        };
    };
    logging={
        writers={
            info={
                type=file;
                `file_name`=`/var/log/data-node.info.log`;
                format=`plain_text`;
                `enable_system_messages`=%true;
            };
            stderr={
                type=stderr;
                format=`plain_text`;
                `enable_system_messages`=%true;
            };
        };
        rules=[
            {
                `min_level`=info;
                writers=[
                    info;
                ];
                family=`plain_text`;
            };
            {
                `min_level`=error;
                writers=[
                    stderr;
                ];
                family=`plain_text`;
            };
        ];
        `flush_period`=3000;
    };
    `monitoring_port`=10012;
    `rpc_port`=9012;
    `timestamp_provider`={
        addresses=[
            `ms-test-0.masters-test.fake.svc.fake.zone:9010`;
        ];
    };
    `cluster_connection`={
        `cluster_name`=test;
        `primary_master`={
            addresses=[
                `ms-test-0.masters-test.fake.svc.fake.zone:9010`;
            ];
            peers=[
                {
                    address=`ms-test-0.masters-test.fake.svc.fake.zone:9010`;
                    voting=%true;
                };
            ];
            `cell_id`=`65726e65-ad6b7562-259-79747361`;
        };
        `discovery_connection`={
            addresses=[
                `ds-test-0.discovery-test.fake.svc.fake.zone:9020`;
                `ds-test-1.discovery-test.fake.svc.fake.zone:9020`;
                `ds-test-2.discovery-test.fake.svc.fake.zone:9020`;
            ];
        };
        `master_cache`={
            addresses=[
                `msc-test-0.master-caches-test.fake.svc.fake.zone:9018`;
                `msc-test-1.master-caches-test.fake.svc.fake.zone:9018`;
                `msc-test-2.master-caches-test.fake.svc.fake.zone:9018`;
            ];
            `cell_id`=`65726e65-ad6b7562-259-79747361`;
            `enable_master_cache_discovery`=%false;
        };
    };
    `cypress_annotations`={
        `k8s_node_name`=`{K8S_NODE_NAME}`;
        `k8s_pod_name`=`{K8S_POD_NAME}`;
        `k8s_pod_namespace`=`{K8S_POD_NAMESPACE}`;
        `physical_host`=`{K8S_NODE_NAME}`;
    };
    flavors=[
        data;
    ];
    `resource_limits`={
        `total_memory`=5368709120;
        `total_cpu`=0.000000;
        `node_dedicated_cpu`=0.000000;
    };
    tags=[
        `rack:xn-a`;
    ];
    rack=fake;
    `skynet_http_port`=11012;
    `data_node`={
        `store_locations`=[
            {
                path=`/yt/hdd1/chunk-store`;
                `medium_name`=nvme;
                quota=10737418240;
                `high_watermark`=536870912;
                `low_watermark`=1073741824;
                `disable_writes_watermark`=268435456;
                `trash_cleanup_watermark`=1073741824;
            };
        ];
        `cache_locations`=[
        ];
        `block_cache`={
            `compressed_data`={
                capacity=0;
            };
            `uncompressed_data`={
                capacity=0;
            };
        };
        `blocks_ext_cache`={
            capacity=0;
        };
        `chunk_meta_cache`={
            capacity=0;
        };
        `block_meta_cache`={
            capacity=0;
        };
    };
}".
Proof. by vm_compute. Qed.

Example TestGetDataNodeConfig_with_trash_ttl :
  GetDataNodeConfig local (data_nodes (chunk_store None None (Some 60000%Z))) = ok
"{
    `address_resolver`={
        `enable_ipv4`=%true;
        `enable_ipv6`=%false;
        retries=1000;
    };
    `solomon_exporter`={
        host=`{POD_SHORT_HOSTNAME}`;
        `instance_tags`={
            pod=`{K8S_POD_NAME}`;
        };
    };
    logging={
        writers={
            info={
                type=file;
                `file_name`=`/var/log/data-node.info.log`;
                format=`plain_text`;
                `enable_system_messages`=%true;
            };
            stderr={
                type=stderr;
                format=`plain_text`;
                `enable_system_messages`=%true;
            };
        };
        rules=[
            {
                `min_level`=info;
                writers=[
                    info;
                ];
                family=`plain_text`;
            };
            {
                `min_level`=error;
                writers=[
                    stderr;
                ];
                family=`plain_text`;
            };
        ];
        `flush_period`=3000;
    };
    `monitoring_port`=10012;
    `rpc_port`=9012;
    `timestamp_provider`={
        addresses=[
            `ms-test-0.masters-test.fake.svc.fake.zone:9010`;
        ];
    };
    `cluster_connection`={
        `cluster_name`=test;
        `primary_master`={
            addresses=[
                `ms-test-0.masters-test.fake.svc.fake.zone:9010`;
            ];
            peers=[
                {
                    address=`ms-test-0.masters-test.fake.svc.fake.zone:9010`;
                    voting=%true;
                };
            ];
            `cell_id`=`65726e65-ad6b7562-259-79747361`;
        };
        `discovery_connection`={
            addresses=[
                `ds-test-0.discovery-test.fake.svc.fake.zone:9020`;
                `ds-test-1.discovery-test.fake.svc.fake.zone:9020`;
                `ds-test-2.discovery-test.fake.svc.fake.zone:9020`;
            ];
        };
        `master_cache`={
            addresses=[
                `msc-test-0.master-caches-test.fake.svc.fake.zone:9018`;
                `msc-test-1.master-caches-test.fake.svc.fake.zone:9018`;
                `msc-test-2.master-caches-test.fake.svc.fake.zone:9018`;
            ];
            `cell_id`=`65726e65-ad6b7562-259-79747361`;
            `enable_master_cache_discovery`=%false;
        };
    };
    `cypress_annotations`={
        `k8s_node_name`=`{K8S_NODE_NAME}`;
        `k8s_pod_name`=`{K8S_POD_NAME}`;
        `k8s_pod_namespace`=`{K8S_POD_NAMESPACE}`;
        `physical_host`=`{K8S_NODE_NAME}`;
    };
    flavors=[
        data;
    ];
    `resource_limits`={
        `total_memory`=5368709120;
        `total_cpu`=0.000000;
        `node_dedicated_cpu`=0.000000;
    };
    tags=[
        `rack:xn-a`;
    ];
    rack=fake;
    `skynet_http_port`=11012;
    `data_node`={
        `store_locations`=[
            {
                path=`/yt/hdd1/chunk-store`;
                `medium_name`=nvme;
                quota=10737418240;
                `high_watermark`=536870912;
                `low_watermark`=1073741824;
                `disable_writes_watermark`=268435456;
                `trash_cleanup_watermark`=1073741824;
                `max_trash_ttl`=60000;
            };
        ];
        `cache_locations`=[
        ];
        `block_cache`={
            `compressed_data`={
                capacity=0;
            };
            `uncompressed_data`={
                capacity=0;
            };
        };
        `blocks_ext_cache`={
            capacity=0;
        };
        `chunk_meta_cache`={
            capacity=0;
        };
        `block_meta_cache`={
            capacity=0;
        };
    };
}".
Proof. by vm_compute. Qed.

Example TestGetDataNodeConfig_with_watermark :
  GetDataNodeConfig local (data_nodes (chunk_store (Some (1024 * Gi)%Z) (Some (50 * Gi)%Z) None)) = ok
"{
    `address_resolver`={
        `enable_ipv4`=%true;
        `enable_ipv6`=%false;
        retries=1000;
    };
    `solomon_exporter`={
        host=`{POD_SHORT_HOSTNAME}`;
        `instance_tags`={
            pod=`{K8S_POD_NAME}`;
        };
    };
    logging={
        writers={
            info={
                type=file;
                `file_name`=`/var/log/data-node.info.log`;
                format=`plain_text`;
                `enable_system_messages`=%true;
            };
            stderr={
                type=stderr;
                format=`plain_text`;
                `enable_system_messages`=%true;
            };
        };
        rules=[
            {
                `min_level`=info;
                writers=[
                    info;
                ];
                family=`plain_text`;
            };
            {
                `min_level`=error;
                writers=[
                    stderr;
                ];
                family=`plain_text`;
            };
        ];
        `flush_period`=3000;
    };
    `monitoring_port`=10012;
    `rpc_port`=9012;
    `timestamp_provider`={
        addresses=[
            `ms-test-0.masters-test.fake.svc.fake.zone:9010`;
        ];
    };
    `cluster_connection`={
        `cluster_name`=test;
        `primary_master`={
            addresses=[
                `ms-test-0.masters-test.fake.svc.fake.zone:9010`;
            ];
            peers=[
                {
                    address=`ms-test-0.masters-test.fake.svc.fake.zone:9010`;
                    voting=%true;
                };
            ];
            `cell_id`=`65726e65-ad6b7562-259-79747361`;
        };
        `discovery_connection`={
            addresses=[
                `ds-test-0.discovery-test.fake.svc.fake.zone:9020`;
                `ds-test-1.discovery-test.fake.svc.fake.zone:9020`;
                `ds-test-2.discovery-test.fake.svc.fake.zone:9020`;
            ];
        };
        `master_cache`={
            addresses=[
                `msc-test-0.master-caches-test.fake.svc.fake.zone:9018`;
                `msc-test-1.master-caches-test.fake.svc.fake.zone:9018`;
                `msc-test-2.master-caches-test.fake.svc.fake.zone:9018`;
            ];
            `cell_id`=`65726e65-ad6b7562-259-79747361`;
            `enable_master_cache_discovery`=%false;
        };
    };
    `cypress_annotations`={
        `k8s_node_name`=`{K8S_NODE_NAME}`;
        `k8s_pod_name`=`{K8S_POD_NAME}`;
        `k8s_pod_namespace`=`{K8S_POD_NAMESPACE}`;
        `physical_host`=`{K8S_NODE_NAME}`;
    };
    flavors=[
        data;
    ];
    `resource_limits`={
        `total_memory`=5368709120;
        `total_cpu`=0.000000;
        `node_dedicated_cpu`=0.000000;
    };
    tags=[
        `rack:xn-a`;
    ];
    rack=fake;
    `skynet_http_port`=11012;
    `data_node`={
        `store_locations`=[
            {
                path=`/yt/hdd1/chunk-store`;
                `medium_name`=nvme;
                quota=1099511627776;
                `high_watermark`=26843545600;
                `low_watermark`=53687091200;
                `disable_writes_watermark`=13421772800;
                `trash_cleanup_watermark`=53687091200;
            };
        ];
        `cache_locations`=[
        ];
        `block_cache`={
            `compressed_data`={
                capacity=0;
            };
            `uncompressed_data`={
                capacity=0;
            };
        };
        `blocks_ext_cache`={
            capacity=0;
        };
        `chunk_meta_cache`={
            capacity=0;
        };
        `block_meta_cache`={
            capacity=0;
        };
    };
}".
Proof. by vm_compute. Qed.

Example TestGetDataNodeWithoutYtsaurusConfig :
  GetDataNodeConfig remote (data_nodes (chunk_store None None None)) = ok
"{
    `address_resolver`={
        `enable_ipv4`=%false;
        `enable_ipv6`=%true;
        retries=1000;
    };
    `solomon_exporter`={
        host=`{POD_SHORT_HOSTNAME}`;
        `instance_tags`={
            pod=`{K8S_POD_NAME}`;
        };
    };
    logging={
        writers={
            info={
                type=file;
                `file_name`=`/var/log/data-node.info.log`;
                format=`plain_text`;
                `enable_system_messages`=%true;
            };
            stderr={
                type=stderr;
                format=`plain_text`;
                `enable_system_messages`=%true;
            };
        };
        rules=[
            {
                `min_level`=info;
                writers=[
                    info;
                ];
                family=`plain_text`;
            };
            {
                `min_level`=error;
                writers=[
                    stderr;
                ];
                family=`plain_text`;
            };
        ];
        `flush_period`=3000;
    };
    `monitoring_port`=10012;
    `rpc_port`=9012;
    `timestamp_provider`={
        addresses=[
            `host1.external.address:9010`;
            `host2.external.address:9010`;
            `host3.external.address:9010`;
        ];
    };
    `cluster_connection`={
        `cluster_name`=test;
        `primary_master`={
            addresses=[
                `host1.external.address:9010`;
                `host2.external.address:9010`;
                `host3.external.address:9010`;
            ];
            peers=[
                {
                    address=`host1.external.address:9010`;
                    voting=%true;
                };
                {
                    address=`host2.external.address:9010`;
                    voting=%true;
                };
                {
                    address=`host3.external.address:9010`;
                    voting=%true;
                };
            ];
            `cell_id`=`65726e65-ad6b7562-3e80259-79747361`;
        };
        `discovery_connection`={
            addresses=[
            ];
        };
        `master_cache`={
            addresses=[
                `host1.external.address:9018`;
                `host2.external.address:9018`;
                `host3.external.address:9018`;
            ];
            `cell_id`=`65726e65-ad6b7562-3e80259-79747361`;
            `enable_master_cache_discovery`=%false;
        };
    };
    `cypress_annotations`={
        `k8s_node_name`=`{K8S_NODE_NAME}`;
        `k8s_pod_name`=`{K8S_POD_NAME}`;
        `k8s_pod_namespace`=`{K8S_POD_NAMESPACE}`;
        `physical_host`=`{K8S_NODE_NAME}`;
    };
    flavors=[
        data;
    ];
    `resource_limits`={
        `total_memory`=5368709120;
        `total_cpu`=0.000000;
        `node_dedicated_cpu`=0.000000;
    };
    tags=[
        `rack:xn-a`;
    ];
    rack=fake;
    `skynet_http_port`=11012;
    `data_node`={
        `store_locations`=[
            {
                path=`/yt/hdd1/chunk-store`;
                `medium_name`=nvme;
                quota=10737418240;
                `high_watermark`=536870912;
                `low_watermark`=1073741824;
                `disable_writes_watermark`=268435456;
                `trash_cleanup_watermark`=1073741824;
            };
        ];
        `cache_locations`=[
        ];
        `block_cache`={
            `compressed_data`={
                capacity=0;
            };
            `uncompressed_data`={
                capacity=0;
            };
        };
        `blocks_ext_cache`={
            capacity=0;
        };
        `chunk_meta_cache`={
            capacity=0;
        };
        `block_meta_cache`={
            capacity=0;
        };
    };
}".
Proof. by vm_compute. Qed.

Example TestGetDiscoveryConfig :
  GetDiscoveryConfig (gen everything) (basic 3 (Some 10020%Z)) = ok
"{
    `address_resolver`={
        `enable_ipv4`=%true;
        `enable_ipv6`=%false;
        retries=1000;
    };
    `solomon_exporter`={
        host=`{POD_SHORT_HOSTNAME}`;
        `instance_tags`={
            pod=`{K8S_POD_NAME}`;
        };
    };
    logging={
        writers={
            info={
                type=file;
                `file_name`=`/var/log/discovery.info.log`;
                format=`plain_text`;
                `enable_system_messages`=%true;
            };
            stderr={
                type=stderr;
                format=`plain_text`;
                `enable_system_messages`=%true;
            };
        };
        rules=[
            {
                `min_level`=info;
                writers=[
                    info;
                ];
                family=`plain_text`;
            };
            {
                `min_level`=error;
                writers=[
                    stderr;
                ];
                family=`plain_text`;
            };
        ];
        `flush_period`=3000;
    };
    `monitoring_port`=10020;
    `rpc_port`=9020;
    `timestamp_provider`={
        addresses=[
            `ms-test-0.masters-test.fake.svc.fake.zone:9010`;
        ];
    };
    `cluster_connection`={
        `cluster_name`=test;
        `primary_master`={
            addresses=[
                `ms-test-0.masters-test.fake.svc.fake.zone:9010`;
            ];
            peers=[
                {
                    address=`ms-test-0.masters-test.fake.svc.fake.zone:9010`;
                    voting=%true;
                };
            ];
            `cell_id`=`65726e65-ad6b7562-259-79747361`;
        };
        `discovery_connection`={
            addresses=[
                `ds-test-0.discovery-test.fake.svc.fake.zone:9020`;
                `ds-test-1.discovery-test.fake.svc.fake.zone:9020`;
                `ds-test-2.discovery-test.fake.svc.fake.zone:9020`;
            ];
        };
        `master_cache`={
            addresses=[
                `msc-test-0.master-caches-test.fake.svc.fake.zone:9018`;
                `msc-test-1.master-caches-test.fake.svc.fake.zone:9018`;
                `msc-test-2.master-caches-test.fake.svc.fake.zone:9018`;
            ];
            `cell_id`=`65726e65-ad6b7562-259-79747361`;
            `enable_master_cache_discovery`=%false;
        };
    };
    `cypress_annotations`={
        `k8s_node_name`=`{K8S_NODE_NAME}`;
        `k8s_pod_name`=`{K8S_POD_NAME}`;
        `k8s_pod_namespace`=`{K8S_POD_NAMESPACE}`;
        `physical_host`=`{K8S_NODE_NAME}`;
    };
    `discovery_server`={
        `server_addresses`=[
            `ds-test-0.discovery-test.fake.svc.fake.zone:9020`;
            `ds-test-1.discovery-test.fake.svc.fake.zone:9020`;
            `ds-test-2.discovery-test.fake.svc.fake.zone:9020`;
        ];
    };
}".
Proof. by vm_compute. Qed.

Example TestGetExecNodeConfig_without_job_resources :
  GetExecNodeConfig local (exec None) = ok
"{
    `address_resolver`={
        `enable_ipv4`=%true;
        `enable_ipv6`=%false;
        retries=1000;
    };
    `solomon_exporter`={
        host=`{POD_SHORT_HOSTNAME}`;
        `instance_tags`={
            pod=`{K8S_POD_NAME}`;
        };
    };
    logging={
        writers={
            info={
                type=file;
                `file_name`=`/var/log/exec-node.info.log`;
                format=`plain_text`;
                `enable_system_messages`=%true;
            };
            stderr={
                type=stderr;
                format=`plain_text`;
                `enable_system_messages`=%true;
            };
        };
        rules=[
            {
                `min_level`=info;
                writers=[
                    info;
                ];
                family=`plain_text`;
            };
            {
                `min_level`=error;
                writers=[
                    stderr;
                ];
                family=`plain_text`;
            };
        ];
        `flush_period`=3000;
    };
    `monitoring_port`=10029;
    `rpc_port`=9029;
    `timestamp_provider`={
        addresses=[
            `ms-test-0.masters-test.fake.svc.fake.zone:9010`;
        ];
    };
    `cluster_connection`={
        `cluster_name`=test;
        `primary_master`={
            addresses=[
                `ms-test-0.masters-test.fake.svc.fake.zone:9010`;
            ];
            peers=[
                {
                    address=`ms-test-0.masters-test.fake.svc.fake.zone:9010`;
                    voting=%true;
                };
            ];
            `cell_id`=`65726e65-ad6b7562-259-79747361`;
        };
        `discovery_connection`={
            addresses=[
                `ds-test-0.discovery-test.fake.svc.fake.zone:9020`;
                `ds-test-1.discovery-test.fake.svc.fake.zone:9020`;
                `ds-test-2.discovery-test.fake.svc.fake.zone:9020`;
            ];
        };
        `master_cache`={
            addresses=[
                `msc-test-0.master-caches-test.fake.svc.fake.zone:9018`;
                `msc-test-1.master-caches-test.fake.svc.fake.zone:9018`;
                `msc-test-2.master-caches-test.fake.svc.fake.zone:9018`;
            ];
            `cell_id`=`65726e65-ad6b7562-259-79747361`;
            `enable_master_cache_discovery`=%false;
        };
    };
    `cypress_annotations`={
        `k8s_node_name`=`{K8S_NODE_NAME}`;
        `k8s_pod_name`=`{K8S_POD_NAME}`;
        `k8s_pod_namespace`=`{K8S_POD_NAMESPACE}`;
        `physical_host`=`{K8S_NODE_NAME}`;
    };
    flavors=[
        exec;
    ];
    `resource_limits`={
        `total_memory`=5368709120;
        `total_cpu`=20.000000;
        `node_dedicated_cpu`=0.000000;
    };
    tags=[
        `rack:xn-a`;
    ];
    rack=fake;
    `skynet_http_port`=11029;
    `job_resource_manager`={
        `resource_limits`={
            `user_slots`=100;
        };
    };
    `exec_node`={
        `slot_manager`={
            locations=[
                {
                    path=`/yt/hdd2/slots`;
                    `medium_name`=``;
                    `disk_quota`=5368709120;
                    `disk_usage_watermark`=536870912;
                    `enable_disk_quota`=%false;
                };
            ];
            `job_environment`={
                type=porto;
                `start_uid`=19500;
            };
            `enable_tmpfs`=%true;
        };
        `gpu_manager`={
            `gpu_info_source`={
                type=`nvidia_smi`;
            };
        };
        `job_controller`={
            `resource_limits`={
                `user_slots`=100;
            };
            `gpu_manager`={
                `gpu_info_source`={
                    type=`nvidia_smi`;
                };
            };
        };
        `job_proxy`={
            `job_proxy_authentication_manager`={
                `cypress_cookie_manager`={
                };
                `cypress_user_manager`={
                };
                `cypress_token_authenticator`={
                    secure=%true;
                };
                `require_authentication`=%true;
            };
            `job_proxy_logging`={
                writers={
                    debug={
                        type=file;
                        `file_name`=`job-proxy.debug.log.zstd`;
                        format=`plain_text`;
                        `compression_method`=zstd;
                        `enable_compression`=%true;
                        `enable_system_messages`=%true;
                        `rotation_policy`={
                            `rotation_period`=900000;
                            `max_total_size_to_keep`=3145728;
                        };
                    };
                };
                rules=[
                    {
                        `exclude_categories`=[
                            Bus;
                            Concurrency;
                        ];
                        `min_level`=debug;
                        writers=[
                            debug;
                        ];
                        family=`plain_text`;
                    };
                ];
                `flush_period`=3000;
            };
        };
        `job_proxy_authentication_manager`={
            `cypress_cookie_manager`={
            };
            `cypress_user_manager`={
            };
            `cypress_token_authenticator`={
                secure=%true;
            };
            `require_authentication`=%true;
        };
        `job_proxy_logging`={
            writers={
                debug={
                    type=file;
                    `file_name`=`job-proxy.debug.log.zstd`;
                    format=`plain_text`;
                    `compression_method`=zstd;
                    `enable_compression`=%true;
                    `enable_system_messages`=%true;
                    `rotation_policy`={
                        `rotation_period`=900000;
                        `max_total_size_to_keep`=3145728;
                    };
                };
            };
            rules=[
                {
                    `exclude_categories`=[
                        Bus;
                        Concurrency;
                    ];
                    `min_level`=debug;
                    writers=[
                        debug;
                    ];
                    family=`plain_text`;
                };
            ];
            `flush_period`=3000;
        };
    };
    `data_node`={
        `store_locations`=[
        ];
        `cache_locations`=[
            {
                path=`/yt/hdd1/chunk-cache`;
            };
        ];
        `block_cache`={
            `compressed_data`={
                capacity=0;
            };
            `uncompressed_data`={
                capacity=0;
            };
        };
        `blocks_ext_cache`={
            capacity=0;
        };
        `chunk_meta_cache`={
            capacity=0;
        };
        `block_meta_cache`={
            capacity=0;
        };
    };
    `tablet_node`={
        `versioned_chunk_meta_cache`={
            capacity=0;
        };
    };
    `caching_object_service`={
        capacity=0;
    };
}".
Proof. by vm_compute. Qed.

Example TestGetExecNodeConfig_with_job_resources :
  GetExecNodeConfig local (exec jobs) = ok
"{
    `address_resolver`={
        `enable_ipv4`=%true;
        `enable_ipv6`=%false;
        retries=1000;
    };
    `solomon_exporter`={
        host=`{POD_SHORT_HOSTNAME}`;
        `instance_tags`={
            pod=`{K8S_POD_NAME}`;
        };
    };
    logging={
        writers={
            info={
                type=file;
                `file_name`=`/var/log/exec-node.info.log`;
                format=`plain_text`;
                `enable_system_messages`=%true;
            };
            stderr={
                type=stderr;
                format=`plain_text`;
                `enable_system_messages`=%true;
            };
        };
        rules=[
            {
                `min_level`=info;
                writers=[
                    info;
                ];
                family=`plain_text`;
            };
            {
                `min_level`=error;
                writers=[
                    stderr;
                ];
                family=`plain_text`;
            };
        ];
        `flush_period`=3000;
    };
    `monitoring_port`=10029;
    `rpc_port`=9029;
    `timestamp_provider`={
        addresses=[
            `ms-test-0.masters-test.fake.svc.fake.zone:9010`;
        ];
    };
    `cluster_connection`={
        `cluster_name`=test;
        `primary_master`={
            addresses=[
                `ms-test-0.masters-test.fake.svc.fake.zone:9010`;
            ];
            peers=[
                {
                    address=`ms-test-0.masters-test.fake.svc.fake.zone:9010`;
                    voting=%true;
                };
            ];
            `cell_id`=`65726e65-ad6b7562-259-79747361`;
        };
        `discovery_connection`={
            addresses=[
                `ds-test-0.discovery-test.fake.svc.fake.zone:9020`;
                `ds-test-1.discovery-test.fake.svc.fake.zone:9020`;
                `ds-test-2.discovery-test.fake.svc.fake.zone:9020`;
            ];
        };
        `master_cache`={
            addresses=[
                `msc-test-0.master-caches-test.fake.svc.fake.zone:9018`;
                `msc-test-1.master-caches-test.fake.svc.fake.zone:9018`;
                `msc-test-2.master-caches-test.fake.svc.fake.zone:9018`;
            ];
            `cell_id`=`65726e65-ad6b7562-259-79747361`;
            `enable_master_cache_discovery`=%false;
        };
    };
    `cypress_annotations`={
        `k8s_node_name`=`{K8S_NODE_NAME}`;
        `k8s_pod_name`=`{K8S_POD_NAME}`;
        `k8s_pod_namespace`=`{K8S_POD_NAMESPACE}`;
        `physical_host`=`{K8S_NODE_NAME}`;
    };
    flavors=[
        exec;
    ];
    `resource_limits`={
        `total_memory`=111669149696;
        `total_cpu`=119.000000;
        `node_dedicated_cpu`=20.000000;
    };
    tags=[
        `rack:xn-a`;
    ];
    rack=fake;
    `skynet_http_port`=11029;
    `job_resource_manager`={
        `resource_limits`={
            `user_slots`=495;
        };
    };
    `exec_node`={
        `slot_manager`={
            locations=[
                {
                    path=`/yt/hdd2/slots`;
                    `medium_name`=``;
                    `disk_quota`=5368709120;
                    `disk_usage_watermark`=536870912;
                    `enable_disk_quota`=%false;
                };
            ];
            `job_environment`={
                type=porto;
                `start_uid`=19500;
            };
            `enable_tmpfs`=%true;
        };
        `gpu_manager`={
            `gpu_info_source`={
                type=`nvidia_smi`;
            };
        };
        `job_controller`={
            `resource_limits`={
                `user_slots`=495;
            };
            `gpu_manager`={
                `gpu_info_source`={
                    type=`nvidia_smi`;
                };
            };
        };
        `job_proxy`={
            `job_proxy_authentication_manager`={
                `cypress_cookie_manager`={
                };
                `cypress_user_manager`={
                };
                `cypress_token_authenticator`={
                    secure=%true;
                };
                `require_authentication`=%true;
            };
            `job_proxy_logging`={
                writers={
                    debug={
                        type=file;
                        `file_name`=`job-proxy.debug.log.zstd`;
                        format=`plain_text`;
                        `compression_method`=zstd;
                        `enable_compression`=%true;
                        `enable_system_messages`=%true;
                        `rotation_policy`={
                            `rotation_period`=900000;
                            `max_total_size_to_keep`=3145728;
                        };
                    };
                };
                rules=[
                    {
                        `exclude_categories`=[
                            Bus;
                            Concurrency;
                        ];
                        `min_level`=debug;
                        writers=[
                            debug;
                        ];
                        family=`plain_text`;
                    };
                ];
                `flush_period`=3000;
            };
        };
        `job_proxy_authentication_manager`={
            `cypress_cookie_manager`={
            };
            `cypress_user_manager`={
            };
            `cypress_token_authenticator`={
                secure=%true;
            };
            `require_authentication`=%true;
        };
        `job_proxy_logging`={
            writers={
                debug={
                    type=file;
                    `file_name`=`job-proxy.debug.log.zstd`;
                    format=`plain_text`;
                    `compression_method`=zstd;
                    `enable_compression`=%true;
                    `enable_system_messages`=%true;
                    `rotation_policy`={
                        `rotation_period`=900000;
                        `max_total_size_to_keep`=3145728;
                    };
                };
            };
            rules=[
                {
                    `exclude_categories`=[
                        Bus;
                        Concurrency;
                    ];
                    `min_level`=debug;
                    writers=[
                        debug;
                    ];
                    family=`plain_text`;
                };
            ];
            `flush_period`=3000;
        };
    };
    `data_node`={
        `store_locations`=[
        ];
        `cache_locations`=[
            {
                path=`/yt/hdd1/chunk-cache`;
            };
        ];
        `block_cache`={
            `compressed_data`={
                capacity=0;
            };
            `uncompressed_data`={
                capacity=0;
            };
        };
        `blocks_ext_cache`={
            capacity=0;
        };
        `chunk_meta_cache`={
            capacity=0;
        };
        `block_meta_cache`={
            capacity=0;
        };
    };
    `tablet_node`={
        `versioned_chunk_meta_cache`={
            capacity=0;
        };
    };
    `caching_object_service`={
        capacity=0;
    };
}".
Proof. by vm_compute. Qed.

Example TestGetExecNodeConfigWithCri_isolated_containers_without_job_resources :
  GetExecNodeConfig local (exec_cri None true) = ok
"{
    `address_resolver`={
        `enable_ipv4`=%true;
        `enable_ipv6`=%false;
        retries=1000;
    };
    `solomon_exporter`={
        host=`{POD_SHORT_HOSTNAME}`;
        `instance_tags`={
            pod=`{K8S_POD_NAME}`;
        };
    };
    logging={
        writers={
            info={
                type=file;
                `file_name`=`/var/log/exec-node.info.log`;
                format=`plain_text`;
                `enable_system_messages`=%true;
            };
            stderr={
                type=stderr;
                format=`plain_text`;
                `enable_system_messages`=%true;
            };
        };
        rules=[
            {
                `min_level`=info;
                writers=[
                    info;
                ];
                family=`plain_text`;
            };
            {
                `min_level`=error;
                writers=[
                    stderr;
                ];
                family=`plain_text`;
            };
        ];
        `flush_period`=3000;
    };
    `monitoring_port`=10029;
    `rpc_port`=9029;
    `timestamp_provider`={
        addresses=[
            `ms-test-0.masters-test.fake.svc.fake.zone:9010`;
        ];
    };
    `cluster_connection`={
        `cluster_name`=test;
        `primary_master`={
            addresses=[
                `ms-test-0.masters-test.fake.svc.fake.zone:9010`;
            ];
            peers=[
                {
                    address=`ms-test-0.masters-test.fake.svc.fake.zone:9010`;
                    voting=%true;
                };
            ];
            `cell_id`=`65726e65-ad6b7562-259-79747361`;
        };
        `discovery_connection`={
            addresses=[
                `ds-test-0.discovery-test.fake.svc.fake.zone:9020`;
                `ds-test-1.discovery-test.fake.svc.fake.zone:9020`;
                `ds-test-2.discovery-test.fake.svc.fake.zone:9020`;
            ];
        };
        `master_cache`={
            addresses=[
                `msc-test-0.master-caches-test.fake.svc.fake.zone:9018`;
                `msc-test-1.master-caches-test.fake.svc.fake.zone:9018`;
                `msc-test-2.master-caches-test.fake.svc.fake.zone:9018`;
            ];
            `cell_id`=`65726e65-ad6b7562-259-79747361`;
            `enable_master_cache_discovery`=%false;
        };
    };
    `cypress_annotations`={
        `k8s_node_name`=`{K8S_NODE_NAME}`;
        `k8s_pod_name`=`{K8S_POD_NAME}`;
        `k8s_pod_namespace`=`{K8S_POD_NAMESPACE}`;
        `physical_host`=`{K8S_NODE_NAME}`;
    };
    flavors=[
        exec;
    ];
    `resource_limits`={
        `total_memory`=5368709120;
        `total_cpu`=20.000000;
        `node_dedicated_cpu`=0.000000;
    };
    tags=[
        `rack:xn-a`;
    ];
    rack=fake;
    `skynet_http_port`=11029;
    `job_resource_manager`={
        `resource_limits`={
            `user_slots`=42;
        };
    };
    `exec_node`={
        `slot_manager`={
            locations=[
                {
                    path=`/yt/hdd2/slots`;
                    `medium_name`=``;
                    `disk_quota`=5368709120;
                    `disk_usage_watermark`=536870912;
                    `enable_disk_quota`=%false;
                };
            ];
            `job_environment`={
                type=cri;
                `start_uid`=19500;
                `cri_executor`={
                    `retry_backoff_time`=1000;
                    `retry_attempts`=120;
                    `retry_timeout`=120000;
                    `runtime_endpoint`=`unix:///yt/hdd1/images/containerd.sock`;
                    `image_endpoint`=`unix:///yt/hdd1/images/containerd.sock`;
                    namespace=yt;
                    `base_cgroup`=`/yt`;
                };
                `cri_image_cache`={
                    capacity=4294967296;
                };
                `use_job_proxy_from_image`=%false;
            };
            `do_not_set_user_id`=%true;
            `enable_tmpfs`=%false;
        };
        `gpu_manager`={
            `gpu_info_source`={
                type=`nvidia_smi`;
            };
        };
        `job_controller`={
            `resource_limits`={
                `user_slots`=42;
            };
            `gpu_manager`={
                `gpu_info_source`={
                    type=`nvidia_smi`;
                };
            };
        };
        `job_proxy`={
            `job_proxy_authentication_manager`={
                `cypress_cookie_manager`={
                };
                `cypress_user_manager`={
                };
                `cypress_token_authenticator`={
                    secure=%true;
                };
                `require_authentication`=%true;
            };
            `job_proxy_logging`={
                writers={
                    debug={
                        type=file;
                        `file_name`=`job-proxy.debug.log.zstd`;
                        format=`plain_text`;
                        `compression_method`=zstd;
                        `enable_compression`=%true;
                        `enable_system_messages`=%true;
                        `rotation_policy`={
                            `rotation_period`=900000;
                            `max_total_size_to_keep`=3145728;
                        };
                    };
                };
                rules=[
                    {
                        `exclude_categories`=[
                            Bus;
                            Concurrency;
                        ];
                        `min_level`=debug;
                        writers=[
                            debug;
                        ];
                        family=`plain_text`;
                    };
                ];
                `flush_period`=3000;
            };
            `forward_all_environment_variables`=%true;
        };
        `job_proxy_authentication_manager`={
            `cypress_cookie_manager`={
            };
            `cypress_user_manager`={
            };
            `cypress_token_authenticator`={
                secure=%true;
            };
            `require_authentication`=%true;
        };
        `job_proxy_logging`={
            writers={
                debug={
                    type=file;
                    `file_name`=`job-proxy.debug.log.zstd`;
                    format=`plain_text`;
                    `compression_method`=zstd;
                    `enable_compression`=%true;
                    `enable_system_messages`=%true;
                    `rotation_policy`={
                        `rotation_period`=900000;
                        `max_total_size_to_keep`=3145728;
                    };
                };
            };
            rules=[
                {
                    `exclude_categories`=[
                        Bus;
                        Concurrency;
                    ];
                    `min_level`=debug;
                    writers=[
                        debug;
                    ];
                    family=`plain_text`;
                };
            ];
            `flush_period`=3000;
        };
        `do_not_set_user_id`=%true;
        `forward_all_environment_variables`=%true;
        `use_artifact_binds`=%true;
    };
    `data_node`={
        `store_locations`=[
        ];
        `cache_locations`=[
            {
                path=`/yt/hdd1/chunk-cache`;
            };
        ];
        `block_cache`={
            `compressed_data`={
                capacity=0;
            };
            `uncompressed_data`={
                capacity=0;
            };
        };
        `blocks_ext_cache`={
            capacity=0;
        };
        `chunk_meta_cache`={
            capacity=0;
        };
        `block_meta_cache`={
            capacity=0;
        };
    };
    `tablet_node`={
        `versioned_chunk_meta_cache`={
            capacity=0;
        };
    };
    `caching_object_service`={
        capacity=0;
    };
}".
Proof. by vm_compute. Qed.

Example TestGetExecNodeConfigWithCri_isolated_containers_with_job_resources :
  GetExecNodeConfig local (exec_cri jobs true) = ok
"{
    `address_resolver`={
        `enable_ipv4`=%true;
        `enable_ipv6`=%false;
        retries=1000;
    };
    `solomon_exporter`={
        host=`{POD_SHORT_HOSTNAME}`;
        `instance_tags`={
            pod=`{K8S_POD_NAME}`;
        };
    };
    logging={
        writers={
            info={
                type=file;
                `file_name`=`/var/log/exec-node.info.log`;
                format=`plain_text`;
                `enable_system_messages`=%true;
            };
            stderr={
                type=stderr;
                format=`plain_text`;
                `enable_system_messages`=%true;
            };
        };
        rules=[
            {
                `min_level`=info;
                writers=[
                    info;
                ];
                family=`plain_text`;
            };
            {
                `min_level`=error;
                writers=[
                    stderr;
                ];
                family=`plain_text`;
            };
        ];
        `flush_period`=3000;
    };
    `monitoring_port`=10029;
    `rpc_port`=9029;
    `timestamp_provider`={
        addresses=[
            `ms-test-0.masters-test.fake.svc.fake.zone:9010`;
        ];
    };
    `cluster_connection`={
        `cluster_name`=test;
        `primary_master`={
            addresses=[
                `ms-test-0.masters-test.fake.svc.fake.zone:9010`;
            ];
            peers=[
                {
                    address=`ms-test-0.masters-test.fake.svc.fake.zone:9010`;
                    voting=%true;
                };
            ];
            `cell_id`=`65726e65-ad6b7562-259-79747361`;
        };
        `discovery_connection`={
            addresses=[
                `ds-test-0.discovery-test.fake.svc.fake.zone:9020`;
                `ds-test-1.discovery-test.fake.svc.fake.zone:9020`;
                `ds-test-2.discovery-test.fake.svc.fake.zone:9020`;
            ];
        };
        `master_cache`={
            addresses=[
                `msc-test-0.master-caches-test.fake.svc.fake.zone:9018`;
                `msc-test-1.master-caches-test.fake.svc.fake.zone:9018`;
                `msc-test-2.master-caches-test.fake.svc.fake.zone:9018`;
            ];
            `cell_id`=`65726e65-ad6b7562-259-79747361`;
            `enable_master_cache_discovery`=%false;
        };
    };
    `cypress_annotations`={
        `k8s_node_name`=`{K8S_NODE_NAME}`;
        `k8s_pod_name`=`{K8S_POD_NAME}`;
        `k8s_pod_namespace`=`{K8S_POD_NAMESPACE}`;
        `physical_host`=`{K8S_NODE_NAME}`;
    };
    flavors=[
        exec;
    ];
    `resource_limits`={
        `total_memory`=111669149696;
        `total_cpu`=119.000000;
        `node_dedicated_cpu`=20.000000;
    };
    tags=[
        `rack:xn-a`;
    ];
    rack=fake;
    `skynet_http_port`=11029;
    `job_resource_manager`={
        `resource_limits`={
            `user_slots`=42;
        };
    };
    `exec_node`={
        `slot_manager`={
            locations=[
                {
                    path=`/yt/hdd2/slots`;
                    `medium_name`=``;
                    `disk_quota`=5368709120;
                    `disk_usage_watermark`=536870912;
                    `enable_disk_quota`=%false;
                };
            ];
            `job_environment`={
                type=cri;
                `start_uid`=19500;
                `cri_executor`={
                    `retry_backoff_time`=1000;
                    `retry_attempts`=120;
                    `retry_timeout`=120000;
                    `runtime_endpoint`=`unix:///yt/hdd1/images/containerd.sock`;
                    `image_endpoint`=`unix:///yt/hdd1/images/containerd.sock`;
                    namespace=yt;
                    `base_cgroup`=`/yt`;
                };
                `cri_image_cache`={
                    capacity=4294967296;
                };
                `use_job_proxy_from_image`=%false;
            };
            `do_not_set_user_id`=%true;
            `enable_tmpfs`=%false;
        };
        `gpu_manager`={
            `gpu_info_source`={
                type=`nvidia_smi`;
            };
        };
        `job_controller`={
            `resource_limits`={
                `user_slots`=42;
            };
            `gpu_manager`={
                `gpu_info_source`={
                    type=`nvidia_smi`;
                };
            };
        };
        `job_proxy`={
            `job_proxy_authentication_manager`={
                `cypress_cookie_manager`={
                };
                `cypress_user_manager`={
                };
                `cypress_token_authenticator`={
                    secure=%true;
                };
                `require_authentication`=%true;
            };
            `job_proxy_logging`={
                writers={
                    debug={
                        type=file;
                        `file_name`=`job-proxy.debug.log.zstd`;
                        format=`plain_text`;
                        `compression_method`=zstd;
                        `enable_compression`=%true;
                        `enable_system_messages`=%true;
                        `rotation_policy`={
                            `rotation_period`=900000;
                            `max_total_size_to_keep`=3145728;
                        };
                    };
                };
                rules=[
                    {
                        `exclude_categories`=[
                            Bus;
                            Concurrency;
                        ];
                        `min_level`=debug;
                        writers=[
                            debug;
                        ];
                        family=`plain_text`;
                    };
                ];
                `flush_period`=3000;
            };
            `forward_all_environment_variables`=%true;
        };
        `job_proxy_authentication_manager`={
            `cypress_cookie_manager`={
            };
            `cypress_user_manager`={
            };
            `cypress_token_authenticator`={
                secure=%true;
            };
            `require_authentication`=%true;
        };
        `job_proxy_logging`={
            writers={
                debug={
                    type=file;
                    `file_name`=`job-proxy.debug.log.zstd`;
                    format=`plain_text`;
                    `compression_method`=zstd;
                    `enable_compression`=%true;
                    `enable_system_messages`=%true;
                    `rotation_policy`={
                        `rotation_period`=900000;
                        `max_total_size_to_keep`=3145728;
                    };
                };
            };
            rules=[
                {
                    `exclude_categories`=[
                        Bus;
                        Concurrency;
                    ];
                    `min_level`=debug;
                    writers=[
                        debug;
                    ];
                    family=`plain_text`;
                };
            ];
            `flush_period`=3000;
        };
        `do_not_set_user_id`=%true;
        `forward_all_environment_variables`=%true;
        `use_artifact_binds`=%true;
    };
    `data_node`={
        `store_locations`=[
        ];
        `cache_locations`=[
            {
                path=`/yt/hdd1/chunk-cache`;
            };
        ];
        `block_cache`={
            `compressed_data`={
                capacity=0;
            };
            `uncompressed_data`={
                capacity=0;
            };
        };
        `blocks_ext_cache`={
            capacity=0;
        };
        `chunk_meta_cache`={
            capacity=0;
        };
        `block_meta_cache`={
            capacity=0;
        };
    };
    `tablet_node`={
        `versioned_chunk_meta_cache`={
            capacity=0;
        };
    };
    `caching_object_service`={
        capacity=0;
    };
}".
Proof. by vm_compute. Qed.

Example TestGetExecNodeConfigWithCri_single_container_without_job_resources :
  GetExecNodeConfig local (exec_cri None false) = ok
"{
    `address_resolver`={
        `enable_ipv4`=%true;
        `enable_ipv6`=%false;
        retries=1000;
    };
    `solomon_exporter`={
        host=`{POD_SHORT_HOSTNAME}`;
        `instance_tags`={
            pod=`{K8S_POD_NAME}`;
        };
    };
    logging={
        writers={
            info={
                type=file;
                `file_name`=`/var/log/exec-node.info.log`;
                format=`plain_text`;
                `enable_system_messages`=%true;
            };
            stderr={
                type=stderr;
                format=`plain_text`;
                `enable_system_messages`=%true;
            };
        };
        rules=[
            {
                `min_level`=info;
                writers=[
                    info;
                ];
                family=`plain_text`;
            };
            {
                `min_level`=error;
                writers=[
                    stderr;
                ];
                family=`plain_text`;
            };
        ];
        `flush_period`=3000;
    };
    `monitoring_port`=10029;
    `rpc_port`=9029;
    `timestamp_provider`={
        addresses=[
            `ms-test-0.masters-test.fake.svc.fake.zone:9010`;
        ];
    };
    `cluster_connection`={
        `cluster_name`=test;
        `primary_master`={
            addresses=[
                `ms-test-0.masters-test.fake.svc.fake.zone:9010`;
            ];
            peers=[
                {
                    address=`ms-test-0.masters-test.fake.svc.fake.zone:9010`;
                    voting=%true;
                };
            ];
            `cell_id`=`65726e65-ad6b7562-259-79747361`;
        };
        `discovery_connection`={
            addresses=[
                `ds-test-0.discovery-test.fake.svc.fake.zone:9020`;
                `ds-test-1.discovery-test.fake.svc.fake.zone:9020`;
                `ds-test-2.discovery-test.fake.svc.fake.zone:9020`;
            ];
        };
        `master_cache`={
            addresses=[
                `msc-test-0.master-caches-test.fake.svc.fake.zone:9018`;
                `msc-test-1.master-caches-test.fake.svc.fake.zone:9018`;
                `msc-test-2.master-caches-test.fake.svc.fake.zone:9018`;
            ];
            `cell_id`=`65726e65-ad6b7562-259-79747361`;
            `enable_master_cache_discovery`=%false;
        };
    };
    `cypress_annotations`={
        `k8s_node_name`=`{K8S_NODE_NAME}`;
        `k8s_pod_name`=`{K8S_POD_NAME}`;
        `k8s_pod_namespace`=`{K8S_POD_NAMESPACE}`;
        `physical_host`=`{K8S_NODE_NAME}`;
    };
    flavors=[
        exec;
    ];
    `resource_limits`={
        `total_memory`=5368709120;
        `total_cpu`=20.000000;
        `node_dedicated_cpu`=0.000000;
    };
    tags=[
        `rack:xn-a`;
    ];
    rack=fake;
    `skynet_http_port`=11029;
    `job_resource_manager`={
        `resource_limits`={
            `user_slots`=42;
        };
    };
    `exec_node`={
        `slot_manager`={
            locations=[
                {
                    path=`/yt/hdd2/slots`;
                    `medium_name`=``;
                    `disk_quota`=5368709120;
                    `disk_usage_watermark`=536870912;
                    `enable_disk_quota`=%false;
                };
            ];
            `job_environment`={
                type=cri;
                `start_uid`=19500;
                `cri_executor`={
                    `retry_backoff_time`=1000;
                    `retry_attempts`=120;
                    `retry_timeout`=120000;
                    `runtime_endpoint`=`unix:///yt/hdd1/images/containerd.sock`;
                    `image_endpoint`=`unix:///yt/hdd1/images/containerd.sock`;
                    namespace=yt;
                    `base_cgroup`=`/yt`;
                };
                `cri_image_cache`={
                    capacity=4294967296;
                };
                `use_job_proxy_from_image`=%false;
            };
            `do_not_set_user_id`=%true;
            `enable_tmpfs`=%false;
        };
        `gpu_manager`={
            `gpu_info_source`={
                type=`nvidia_smi`;
            };
        };
        `job_controller`={
            `resource_limits`={
                `user_slots`=42;
            };
            `gpu_manager`={
                `gpu_info_source`={
                    type=`nvidia_smi`;
                };
            };
        };
        `job_proxy`={
            `job_proxy_authentication_manager`={
                `cypress_cookie_manager`={
                };
                `cypress_user_manager`={
                };
                `cypress_token_authenticator`={
                    secure=%true;
                };
                `require_authentication`=%true;
            };
            `job_proxy_logging`={
                writers={
                    debug={
                        type=file;
                        `file_name`=`job-proxy.debug.log.zstd`;
                        format=`plain_text`;
                        `compression_method`=zstd;
                        `enable_compression`=%true;
                        `enable_system_messages`=%true;
                        `rotation_policy`={
                            `rotation_period`=900000;
                            `max_total_size_to_keep`=3145728;
                        };
                    };
                };
                rules=[
                    {
                        `exclude_categories`=[
                            Bus;
                            Concurrency;
                        ];
                        `min_level`=debug;
                        writers=[
                            debug;
                        ];
                        family=`plain_text`;
                    };
                ];
                `flush_period`=3000;
            };
            `forward_all_environment_variables`=%true;
        };
        `job_proxy_authentication_manager`={
            `cypress_cookie_manager`={
            };
            `cypress_user_manager`={
            };
            `cypress_token_authenticator`={
                secure=%true;
            };
            `require_authentication`=%true;
        };
        `job_proxy_logging`={
            writers={
                debug={
                    type=file;
                    `file_name`=`job-proxy.debug.log.zstd`;
                    format=`plain_text`;
                    `compression_method`=zstd;
                    `enable_compression`=%true;
                    `enable_system_messages`=%true;
                    `rotation_policy`={
                        `rotation_period`=900000;
                        `max_total_size_to_keep`=3145728;
                    };
                };
            };
            rules=[
                {
                    `exclude_categories`=[
                        Bus;
                        Concurrency;
                    ];
                    `min_level`=debug;
                    writers=[
                        debug;
                    ];
                    family=`plain_text`;
                };
            ];
            `flush_period`=3000;
        };
        `do_not_set_user_id`=%true;
        `forward_all_environment_variables`=%true;
        `use_artifact_binds`=%true;
    };
    `data_node`={
        `store_locations`=[
        ];
        `cache_locations`=[
            {
                path=`/yt/hdd1/chunk-cache`;
            };
        ];
        `block_cache`={
            `compressed_data`={
                capacity=0;
            };
            `uncompressed_data`={
                capacity=0;
            };
        };
        `blocks_ext_cache`={
            capacity=0;
        };
        `chunk_meta_cache`={
            capacity=0;
        };
        `block_meta_cache`={
            capacity=0;
        };
    };
    `tablet_node`={
        `versioned_chunk_meta_cache`={
            capacity=0;
        };
    };
    `caching_object_service`={
        capacity=0;
    };
}".
Proof. by vm_compute. Qed.

Example TestGetExecNodeConfigWithCri_single_container_with_job_resources :
  GetExecNodeConfig local (exec_cri jobs false) = ok
"{
    `address_resolver`={
        `enable_ipv4`=%true;
        `enable_ipv6`=%false;
        retries=1000;
    };
    `solomon_exporter`={
        host=`{POD_SHORT_HOSTNAME}`;
        `instance_tags`={
            pod=`{K8S_POD_NAME}`;
        };
    };
    logging={
        writers={
            info={
                type=file;
                `file_name`=`/var/log/exec-node.info.log`;
                format=`plain_text`;
                `enable_system_messages`=%true;
            };
            stderr={
                type=stderr;
                format=`plain_text`;
                `enable_system_messages`=%true;
            };
        };
        rules=[
            {
                `min_level`=info;
                writers=[
                    info;
                ];
                family=`plain_text`;
            };
            {
                `min_level`=error;
                writers=[
                    stderr;
                ];
                family=`plain_text`;
            };
        ];
        `flush_period`=3000;
    };
    `monitoring_port`=10029;
    `rpc_port`=9029;
    `timestamp_provider`={
        addresses=[
            `ms-test-0.masters-test.fake.svc.fake.zone:9010`;
        ];
    };
    `cluster_connection`={
        `cluster_name`=test;
        `primary_master`={
            addresses=[
                `ms-test-0.masters-test.fake.svc.fake.zone:9010`;
            ];
            peers=[
                {
                    address=`ms-test-0.masters-test.fake.svc.fake.zone:9010`;
                    voting=%true;
                };
            ];
            `cell_id`=`65726e65-ad6b7562-259-79747361`;
        };
        `discovery_connection`={
            addresses=[
                `ds-test-0.discovery-test.fake.svc.fake.zone:9020`;
                `ds-test-1.discovery-test.fake.svc.fake.zone:9020`;
                `ds-test-2.discovery-test.fake.svc.fake.zone:9020`;
            ];
        };
        `master_cache`={
            addresses=[
                `msc-test-0.master-caches-test.fake.svc.fake.zone:9018`;
                `msc-test-1.master-caches-test.fake.svc.fake.zone:9018`;
                `msc-test-2.master-caches-test.fake.svc.fake.zone:9018`;
            ];
            `cell_id`=`65726e65-ad6b7562-259-79747361`;
            `enable_master_cache_discovery`=%false;
        };
    };
    `cypress_annotations`={
        `k8s_node_name`=`{K8S_NODE_NAME}`;
        `k8s_pod_name`=`{K8S_POD_NAME}`;
        `k8s_pod_namespace`=`{K8S_POD_NAMESPACE}`;
        `physical_host`=`{K8S_NODE_NAME}`;
    };
    flavors=[
        exec;
    ];
    `resource_limits`={
        `total_memory`=111669149696;
        `total_cpu`=119.000000;
        `node_dedicated_cpu`=20.000000;
    };
    tags=[
        `rack:xn-a`;
    ];
    rack=fake;
    `skynet_http_port`=11029;
    `job_resource_manager`={
        `resource_limits`={
            `user_slots`=42;
        };
    };
    `exec_node`={
        `slot_manager`={
            locations=[
                {
                    path=`/yt/hdd2/slots`;
                    `medium_name`=``;
                    `disk_quota`=5368709120;
                    `disk_usage_watermark`=536870912;
                    `enable_disk_quota`=%false;
                };
            ];
            `job_environment`={
                type=cri;
                `start_uid`=19500;
                `cri_executor`={
                    `retry_backoff_time`=1000;
                    `retry_attempts`=120;
                    `retry_timeout`=120000;
                    `runtime_endpoint`=`unix:///yt/hdd1/images/containerd.sock`;
                    `image_endpoint`=`unix:///yt/hdd1/images/containerd.sock`;
                    namespace=yt;
                    `base_cgroup`=`/yt`;
                };
                `cri_image_cache`={
                    capacity=4294967296;
                };
                `use_job_proxy_from_image`=%false;
            };
            `do_not_set_user_id`=%true;
            `enable_tmpfs`=%false;
        };
        `gpu_manager`={
            `gpu_info_source`={
                type=`nvidia_smi`;
            };
        };
        `job_controller`={
            `resource_limits`={
                `user_slots`=42;
            };
            `gpu_manager`={
                `gpu_info_source`={
                    type=`nvidia_smi`;
                };
            };
        };
        `job_proxy`={
            `job_proxy_authentication_manager`={
                `cypress_cookie_manager`={
                };
                `cypress_user_manager`={
                };
                `cypress_token_authenticator`={
                    secure=%true;
                };
                `require_authentication`=%true;
            };
            `job_proxy_logging`={
                writers={
                    debug={
                        type=file;
                        `file_name`=`job-proxy.debug.log.zstd`;
                        format=`plain_text`;
                        `compression_method`=zstd;
                        `enable_compression`=%true;
                        `enable_system_messages`=%true;
                        `rotation_policy`={
                            `rotation_period`=900000;
                            `max_total_size_to_keep`=3145728;
                        };
                    };
                };
                rules=[
                    {
                        `exclude_categories`=[
                            Bus;
                            Concurrency;
                        ];
                        `min_level`=debug;
                        writers=[
                            debug;
                        ];
                        family=`plain_text`;
                    };
                ];
                `flush_period`=3000;
            };
            `forward_all_environment_variables`=%true;
        };
        `job_proxy_authentication_manager`={
            `cypress_cookie_manager`={
            };
            `cypress_user_manager`={
            };
            `cypress_token_authenticator`={
                secure=%true;
            };
            `require_authentication`=%true;
        };
        `job_proxy_logging`={
            writers={
                debug={
                    type=file;
                    `file_name`=`job-proxy.debug.log.zstd`;
                    format=`plain_text`;
                    `compression_method`=zstd;
                    `enable_compression`=%true;
                    `enable_system_messages`=%true;
                    `rotation_policy`={
                        `rotation_period`=900000;
                        `max_total_size_to_keep`=3145728;
                    };
                };
            };
            rules=[
                {
                    `exclude_categories`=[
                        Bus;
                        Concurrency;
                    ];
                    `min_level`=debug;
                    writers=[
                        debug;
                    ];
                    family=`plain_text`;
                };
            ];
            `flush_period`=3000;
        };
        `do_not_set_user_id`=%true;
        `forward_all_environment_variables`=%true;
        `use_artifact_binds`=%true;
    };
    `data_node`={
        `store_locations`=[
        ];
        `cache_locations`=[
            {
                path=`/yt/hdd1/chunk-cache`;
            };
        ];
        `block_cache`={
            `compressed_data`={
                capacity=0;
            };
            `uncompressed_data`={
                capacity=0;
            };
        };
        `blocks_ext_cache`={
            capacity=0;
        };
        `chunk_meta_cache`={
            capacity=0;
        };
        `block_meta_cache`={
            capacity=0;
        };
    };
    `tablet_node`={
        `versioned_chunk_meta_cache`={
            capacity=0;
        };
    };
    `caching_object_service`={
        capacity=0;
    };
}".
Proof. by vm_compute. Qed.

Example TestGetContainerdConfig :
  GetContainerdConfig (exec_cri None false) = ok
"{
    grpc={
        address=`/yt/hdd1/images/containerd.sock`;
        gid=0;
        uid=0;
    };
    plugins={
        `io.containerd.grpc.v1.cri`={
            cni={
                `bin_dir`=`/usr/local/lib/cni`;
                `conf_dir`=`/etc/cni/net.d`;
            };
            containerd={
                `default_runtime_name`=runc;
                runtimes={
                    runc={
                        options={
                            SystemdCgroup=%false;
                        };
                        `runtime_type`=`io.containerd.runc.v2`;
                        `sandbox_mode`=podsandbox;
                    };
                };
            };
            `image_pull_progress_timeout`=`5m0s`;
            registry={
                `config_path`=#;
            };
            `restrict_oom_score_adj`=%true;
            `sandbox_image`=`registry.k8s.io/pause:3.8`;
        };
    };
    root=`/yt/hdd1/images`;
    version=2;
}".
Proof. by vm_compute. Qed.

Example TestGetExecNodeWithoutYtsaurusConfig :
  GetExecNodeConfig remote (exec None) = ok
"{
    `address_resolver`={
        `enable_ipv4`=%false;
        `enable_ipv6`=%true;
        retries=1000;
    };
    `solomon_exporter`={
        host=`{POD_SHORT_HOSTNAME}`;
        `instance_tags`={
            pod=`{K8S_POD_NAME}`;
        };
    };
    logging={
        writers={
            info={
                type=file;
                `file_name`=`/var/log/exec-node.info.log`;
                format=`plain_text`;
                `enable_system_messages`=%true;
            };
            stderr={
                type=stderr;
                format=`plain_text`;
                `enable_system_messages`=%true;
            };
        };
        rules=[
            {
                `min_level`=info;
                writers=[
                    info;
                ];
                family=`plain_text`;
            };
            {
                `min_level`=error;
                writers=[
                    stderr;
                ];
                family=`plain_text`;
            };
        ];
        `flush_period`=3000;
    };
    `monitoring_port`=10029;
    `rpc_port`=9029;
    `timestamp_provider`={
        addresses=[
            `host1.external.address:9010`;
            `host2.external.address:9010`;
            `host3.external.address:9010`;
        ];
    };
    `cluster_connection`={
        `cluster_name`=test;
        `primary_master`={
            addresses=[
                `host1.external.address:9010`;
                `host2.external.address:9010`;
                `host3.external.address:9010`;
            ];
            peers=[
                {
                    address=`host1.external.address:9010`;
                    voting=%true;
                };
                {
                    address=`host2.external.address:9010`;
                    voting=%true;
                };
                {
                    address=`host3.external.address:9010`;
                    voting=%true;
                };
            ];
            `cell_id`=`65726e65-ad6b7562-3e80259-79747361`;
        };
        `discovery_connection`={
            addresses=[
            ];
        };
        `master_cache`={
            addresses=[
                `host1.external.address:9018`;
                `host2.external.address:9018`;
                `host3.external.address:9018`;
            ];
            `cell_id`=`65726e65-ad6b7562-3e80259-79747361`;
            `enable_master_cache_discovery`=%false;
        };
    };
    `cypress_annotations`={
        `k8s_node_name`=`{K8S_NODE_NAME}`;
        `k8s_pod_name`=`{K8S_POD_NAME}`;
        `k8s_pod_namespace`=`{K8S_POD_NAMESPACE}`;
        `physical_host`=`{K8S_NODE_NAME}`;
    };
    flavors=[
        exec;
    ];
    `resource_limits`={
        `total_memory`=5368709120;
        `total_cpu`=20.000000;
        `node_dedicated_cpu`=0.000000;
    };
    tags=[
        `rack:xn-a`;
    ];
    rack=fake;
    `skynet_http_port`=11029;
    `job_resource_manager`={
        `resource_limits`={
            `user_slots`=100;
        };
    };
    `exec_node`={
        `slot_manager`={
            locations=[
                {
                    path=`/yt/hdd2/slots`;
                    `medium_name`=``;
                    `disk_quota`=5368709120;
                    `disk_usage_watermark`=536870912;
                    `enable_disk_quota`=%false;
                };
            ];
            `job_environment`={
                type=simple;
                `start_uid`=19500;
            };
            `enable_tmpfs`=%false;
        };
        `gpu_manager`={
            `gpu_info_source`={
                type=`nvidia_smi`;
            };
        };
        `job_controller`={
            `resource_limits`={
                `user_slots`=100;
            };
            `gpu_manager`={
                `gpu_info_source`={
                    type=`nvidia_smi`;
                };
            };
        };
        `job_proxy`={
            `job_proxy_authentication_manager`={
                `cypress_cookie_manager`={
                };
                `cypress_user_manager`={
                };
                `cypress_token_authenticator`={
                    secure=%true;
                };
                `require_authentication`=%true;
            };
            `job_proxy_logging`={
                writers={
                    debug={
                        type=file;
                        `file_name`=`job-proxy.debug.log.zstd`;
                        format=`plain_text`;
                        `compression_method`=zstd;
                        `enable_compression`=%true;
                        `enable_system_messages`=%true;
                        `rotation_policy`={
                            `rotation_period`=900000;
                            `max_total_size_to_keep`=3145728;
                        };
                    };
                };
                rules=[
                    {
                        `exclude_categories`=[
                            Bus;
                            Concurrency;
                        ];
                        `min_level`=debug;
                        writers=[
                            debug;
                        ];
                        family=`plain_text`;
                    };
                ];
                `flush_period`=3000;
            };
        };
        `job_proxy_authentication_manager`={
            `cypress_cookie_manager`={
            };
            `cypress_user_manager`={
            };
            `cypress_token_authenticator`={
                secure=%true;
            };
            `require_authentication`=%true;
        };
        `job_proxy_logging`={
            writers={
                debug={
                    type=file;
                    `file_name`=`job-proxy.debug.log.zstd`;
                    format=`plain_text`;
                    `compression_method`=zstd;
                    `enable_compression`=%true;
                    `enable_system_messages`=%true;
                    `rotation_policy`={
                        `rotation_period`=900000;
                        `max_total_size_to_keep`=3145728;
                    };
                };
            };
            rules=[
                {
                    `exclude_categories`=[
                        Bus;
                        Concurrency;
                    ];
                    `min_level`=debug;
                    writers=[
                        debug;
                    ];
                    family=`plain_text`;
                };
            ];
            `flush_period`=3000;
        };
    };
    `data_node`={
        `store_locations`=[
        ];
        `cache_locations`=[
            {
                path=`/yt/hdd1/chunk-cache`;
            };
        ];
        `block_cache`={
            `compressed_data`={
                capacity=0;
            };
            `uncompressed_data`={
                capacity=0;
            };
        };
        `blocks_ext_cache`={
            capacity=0;
        };
        `chunk_meta_cache`={
            capacity=0;
        };
        `block_meta_cache`={
            capacity=0;
        };
    };
    `tablet_node`={
        `versioned_chunk_meta_cache`={
            capacity=0;
        };
    };
    `caching_object_service`={
        capacity=0;
    };
}".
Proof. by vm_compute. Qed.

Example TestGetHTTPProxyConfig :
  GetHTTPProxyConfig (gen everything) http_proxy = ok
"{
    `address_resolver`={
        `enable_ipv4`=%true;
        `enable_ipv6`=%false;
        retries=1000;
    };
    `solomon_exporter`={
        host=`{POD_SHORT_HOSTNAME}`;
        `instance_tags`={
            pod=`{K8S_POD_NAME}`;
        };
    };
    logging={
        writers={
            info={
                type=file;
                `file_name`=`/var/log/http-proxy.info.log`;
                format=`plain_text`;
                `enable_system_messages`=%true;
            };
            stderr={
                type=stderr;
                format=`plain_text`;
                `enable_system_messages`=%true;
            };
        };
        rules=[
            {
                `min_level`=info;
                writers=[
                    info;
                ];
                family=`plain_text`;
            };
            {
                `min_level`=error;
                writers=[
                    stderr;
                ];
                family=`plain_text`;
            };
        ];
        `flush_period`=3000;
    };
    `monitoring_port`=10016;
    `rpc_port`=9016;
    `timestamp_provider`={
        addresses=[
            `ms-test-0.masters-test.fake.svc.fake.zone:9010`;
        ];
    };
    `cluster_connection`={
        `cluster_name`=test;
        `primary_master`={
            addresses=[
                `ms-test-0.masters-test.fake.svc.fake.zone:9010`;
            ];
            peers=[
                {
                    address=`ms-test-0.masters-test.fake.svc.fake.zone:9010`;
                    voting=%true;
                };
            ];
            `cell_id`=`65726e65-ad6b7562-259-79747361`;
        };
        `discovery_connection`={
            addresses=[
                `ds-test-0.discovery-test.fake.svc.fake.zone:9020`;
                `ds-test-1.discovery-test.fake.svc.fake.zone:9020`;
                `ds-test-2.discovery-test.fake.svc.fake.zone:9020`;
            ];
        };
        `master_cache`={
            addresses=[
                `msc-test-0.master-caches-test.fake.svc.fake.zone:9018`;
                `msc-test-1.master-caches-test.fake.svc.fake.zone:9018`;
                `msc-test-2.master-caches-test.fake.svc.fake.zone:9018`;
            ];
            `cell_id`=`65726e65-ad6b7562-259-79747361`;
            `enable_master_cache_discovery`=%false;
        };
    };
    `cypress_annotations`={
        `k8s_node_name`=`{K8S_NODE_NAME}`;
        `k8s_pod_name`=`{K8S_POD_NAME}`;
        `k8s_pod_namespace`=`{K8S_POD_NAMESPACE}`;
        `physical_host`=`{K8S_NODE_NAME}`;
    };
    port=80;
    auth={
        `cypress_cookie_manager`={
        };
        `cypress_user_manager`={
        };
        `cypress_token_authenticator`={
            secure=%true;
        };
        `oauth_service`={
            host=`oauth-host`;
            port=433;
            secure=%true;
            `user_info_endpoint`=`user-info-endpoint`;
            `user_info_login_field`=login;
        };
        `oauth_cookie_authenticator`={
        };
        `oauth_token_authenticator`={
        };
        `require_authentication`=%true;
    };
    coordinator={
        enable=%true;
        `default_role_filter`=default;
    };
    driver={
        `timestamp_provider`={
            addresses=[
                `ms-test-0.masters-test.fake.svc.fake.zone:9010`;
            ];
        };
        `primary_master`={
            addresses=[
                `ms-test-0.masters-test.fake.svc.fake.zone:9010`;
            ];
            peers=[
                {
                    address=`ms-test-0.masters-test.fake.svc.fake.zone:9010`;
                    voting=%true;
                };
            ];
            `cell_id`=`65726e65-ad6b7562-259-79747361`;
        };
    };
    role=control;
    `https_server`={
        port=443;
        credentials={
            `cert_chain`={
                `file_name`=`/config/https_secret/tls.crt`;
            };
            `private_key`={
                `file_name`=`/config/https_secret/tls.key`;
            };
            `update_period`=60000;
        };
    };
}".
Proof. by vm_compute. Qed.

Example TestGetMasterConfig :
  GetMasterConfig (gen everything) (primary_masters []) = ok
"{
    `address_resolver`={
        `enable_ipv4`=%true;
        `enable_ipv6`=%false;
        retries=1000;
    };
    `solomon_exporter`={
        host=`{POD_SHORT_HOSTNAME}`;
        `instance_tags`={
            pod=`{K8S_POD_NAME}`;
        };
    };
    logging={
        writers={
            debug={
                type=file;
                `file_name`=`/var/log/master.debug.log.zstd`;
                format=`plain_text`;
                `compression_method`=zstd;
                `enable_compression`=%true;
                `enable_system_messages`=%true;
                `rotation_policy`={
                    `rotation_period`=900000;
                    `max_total_size_to_keep`=10737418240;
                };
            };
            error={
                type=file;
                `file_name`=`/var/log/master.error.log`;
                format=`plain_text`;
                `enable_system_messages`=%true;
            };
            info={
                type=file;
                `file_name`=`/var/log/master.info.log`;
                format=`plain_text`;
                `enable_system_messages`=%true;
            };
        };
        rules=[
            {
                `min_level`=info;
                writers=[
                    info;
                ];
                family=`plain_text`;
            };
            {
                `min_level`=error;
                writers=[
                    error;
                ];
                family=`plain_text`;
            };
            {
                `exclude_categories`=[
                    Bus;
                ];
                `min_level`=debug;
                writers=[
                    debug;
                ];
                family=`plain_text`;
            };
        ];
        `flush_period`=3000;
    };
    `monitoring_port`=10010;
    `rpc_port`=9010;
    `timestamp_provider`={
        addresses=[
            `ms-test-0.masters-test.fake.svc.fake.zone:9010`;
        ];
    };
    `cluster_connection`={
        `cluster_name`=test;
        `primary_master`={
            addresses=[
                `ms-test-0.masters-test.fake.svc.fake.zone:9010`;
            ];
            peers=[
                {
                    address=`ms-test-0.masters-test.fake.svc.fake.zone:9010`;
                    voting=%true;
                };
            ];
            `cell_id`=`65726e65-ad6b7562-259-79747361`;
        };
        `discovery_connection`={
            addresses=[
                `ds-test-0.discovery-test.fake.svc.fake.zone:9020`;
                `ds-test-1.discovery-test.fake.svc.fake.zone:9020`;
                `ds-test-2.discovery-test.fake.svc.fake.zone:9020`;
            ];
        };
        `master_cache`={
            addresses=[
                `msc-test-0.master-caches-test.fake.svc.fake.zone:9018`;
                `msc-test-1.master-caches-test.fake.svc.fake.zone:9018`;
                `msc-test-2.master-caches-test.fake.svc.fake.zone:9018`;
            ];
            `cell_id`=`65726e65-ad6b7562-259-79747361`;
            `enable_master_cache_discovery`=%false;
        };
    };
    `cypress_annotations`={
        `k8s_node_name`=`{K8S_NODE_NAME}`;
        `k8s_pod_name`=`{K8S_POD_NAME}`;
        `k8s_pod_namespace`=`{K8S_POD_NAMESPACE}`;
        `physical_host`=`{K8S_NODE_NAME}`;
    };
    snapshots={
        path=`/yt/master-data/master-snapshots`;
    };
    changelogs={
        path=`/yt/master-data/master-changelogs`;
    };
    `use_new_hydra`=%true;
    `hydra_manager`={
        `max_changelog_count_to_keep`=10;
        `max_snapshot_count_to_keep`=1543;
    };
    `cypress_manager`={
        `default_table_replication_factor`=1;
        `default_file_replication_factor`=1;
        `default_journal_replication_factor`=1;
        `default_journal_read_quorum`=1;
        `default_journal_write_quorum`=1;
    };
    `primary_master`={
        addresses=[
            `ms-test-0.masters-test.fake.svc.fake.zone:9010`;
        ];
        peers=[
            {
                address=`ms-test-0.masters-test.fake.svc.fake.zone:9010`;
                voting=%true;
            };
        ];
        `cell_id`=`65726e65-ad6b7562-259-79747361`;
    };
    `secondary_masters`=[
    ];
}".
Proof. by vm_compute. Qed.

Example TestGetMasterWithFixedHostsConfig :
  GetMasterConfig (gen (bare testHosts None None)) (primary_masters testHosts) = ok
"{
    `address_resolver`={
        `enable_ipv4`=%false;
        `enable_ipv6`=%true;
        retries=1000;
    };
    `solomon_exporter`={
        host=`{POD_SHORT_HOSTNAME}`;
        `instance_tags`={
            pod=`{K8S_POD_NAME}`;
        };
    };
    logging={
        writers={
            debug={
                type=file;
                `file_name`=`/var/log/master.debug.log.zstd`;
                format=`plain_text`;
                `compression_method`=zstd;
                `enable_compression`=%true;
                `enable_system_messages`=%true;
                `rotation_policy`={
                    `rotation_period`=900000;
                    `max_total_size_to_keep`=10737418240;
                };
            };
            error={
                type=file;
                `file_name`=`/var/log/master.error.log`;
                format=`plain_text`;
                `enable_system_messages`=%true;
            };
            info={
                type=file;
                `file_name`=`/var/log/master.info.log`;
                format=`plain_text`;
                `enable_system_messages`=%true;
            };
        };
        rules=[
            {
                `min_level`=info;
                writers=[
                    info;
                ];
                family=`plain_text`;
            };
            {
                `min_level`=error;
                writers=[
                    error;
                ];
                family=`plain_text`;
            };
            {
                `exclude_categories`=[
                    Bus;
                ];
                `min_level`=debug;
                writers=[
                    debug;
                ];
                family=`plain_text`;
            };
        ];
        `flush_period`=3000;
    };
    `monitoring_port`=10010;
    `rpc_port`=9010;
    `timestamp_provider`={
        addresses=[
            `host1.external.address:9010`;
            `host2.external.address:9010`;
            `host3.external.address:9010`;
        ];
    };
    `cluster_connection`={
        `cluster_name`=test;
        `primary_master`={
            addresses=[
                `host1.external.address:9010`;
                `host2.external.address:9010`;
                `host3.external.address:9010`;
            ];
            peers=[
                {
                    address=`host1.external.address:9010`;
                    voting=%true;
                };
                {
                    address=`host2.external.address:9010`;
                    voting=%true;
                };
                {
                    address=`host3.external.address:9010`;
                    voting=%true;
                };
            ];
            `cell_id`=`65726e65-ad6b7562-259-79747361`;
        };
        `discovery_connection`={
            addresses=[
            ];
        };
        `master_cache`={
            addresses=[
                `host1.external.address:9010`;
                `host2.external.address:9010`;
                `host3.external.address:9010`;
            ];
            `cell_id`=`65726e65-ad6b7562-259-79747361`;
            `enable_master_cache_discovery`=%false;
        };
    };
    `cypress_annotations`={
        `k8s_node_name`=`{K8S_NODE_NAME}`;
        `k8s_pod_name`=`{K8S_POD_NAME}`;
        `k8s_pod_namespace`=`{K8S_POD_NAMESPACE}`;
        `physical_host`=`{K8S_NODE_NAME}`;
    };
    snapshots={
        path=`/yt/master-data/master-snapshots`;
    };
    changelogs={
        path=`/yt/master-data/master-changelogs`;
    };
    `use_new_hydra`=%true;
    `hydra_manager`={
        `max_changelog_count_to_keep`=10;
        `max_snapshot_count_to_keep`=1543;
    };
    `cypress_manager`={
        `default_table_replication_factor`=1;
        `default_file_replication_factor`=1;
        `default_journal_replication_factor`=1;
        `default_journal_read_quorum`=1;
        `default_journal_write_quorum`=1;
    };
    `primary_master`={
        addresses=[
            `host1.external.address:9010`;
            `host2.external.address:9010`;
            `host3.external.address:9010`;
        ];
        peers=[
            {
                address=`host1.external.address:9010`;
                voting=%true;
            };
            {
                address=`host2.external.address:9010`;
                voting=%true;
            };
            {
                address=`host3.external.address:9010`;
                voting=%true;
            };
        ];
        `cell_id`=`65726e65-ad6b7562-259-79747361`;
    };
    `secondary_masters`=[
    ];
}".
Proof. by vm_compute. Qed.

Example TestGetNativeClientConfig :
  GetNativeClientConfig (gen everything) = ok
"{
    `address_resolver`={
        `enable_ipv4`=%true;
        `enable_ipv6`=%false;
        retries=1000;
    };
    logging={
        writers={
        };
        rules=[
        ];
        `flush_period`=0;
    };
    driver={
        `timestamp_provider`={
            addresses=[
                `ms-test-0.masters-test.fake.svc.fake.zone:9010`;
            ];
        };
        `primary_master`={
            addresses=[
                `ms-test-0.masters-test.fake.svc.fake.zone:9010`;
            ];
            peers=[
                {
                    address=`ms-test-0.masters-test.fake.svc.fake.zone:9010`;
                    voting=%true;
                };
            ];
            `cell_id`=`65726e65-ad6b7562-259-79747361`;
        };
        `api_version`=4;
    };
}".
Proof. by vm_compute. Qed.

Example TestGetQueryTrackerConfig :
  GetQueryTrackerConfig (gen everything) (port 10028) = ok
"{
    `address_resolver`={
        `enable_ipv4`=%true;
        `enable_ipv6`=%false;
        retries=1000;
    };
    `solomon_exporter`={
        host=`{POD_SHORT_HOSTNAME}`;
        `instance_tags`={
            pod=`{K8S_POD_NAME}`;
        };
    };
    logging={
        writers={
            info={
                type=file;
                `file_name`=`/var/log/query-tracker.info.log`;
                format=`plain_text`;
                `enable_system_messages`=%true;
            };
            stderr={
                type=stderr;
                format=`plain_text`;
                `enable_system_messages`=%true;
            };
        };
        rules=[
            {
                `min_level`=info;
                writers=[
                    info;
                ];
                family=`plain_text`;
            };
            {
                `min_level`=error;
                writers=[
                    stderr;
                ];
                family=`plain_text`;
            };
        ];
        `flush_period`=3000;
    };
    `monitoring_port`=10028;
    `rpc_port`=9028;
    `timestamp_provider`={
        addresses=[
            `ms-test-0.masters-test.fake.svc.fake.zone:9010`;
        ];
    };
    `cluster_connection`={
        `cluster_name`=test;
        `primary_master`={
            addresses=[
                `ms-test-0.masters-test.fake.svc.fake.zone:9010`;
            ];
            peers=[
                {
                    address=`ms-test-0.masters-test.fake.svc.fake.zone:9010`;
                    voting=%true;
                };
            ];
            `cell_id`=`65726e65-ad6b7562-259-79747361`;
        };
        `discovery_connection`={
            addresses=[
                `ds-test-0.discovery-test.fake.svc.fake.zone:9020`;
                `ds-test-1.discovery-test.fake.svc.fake.zone:9020`;
                `ds-test-2.discovery-test.fake.svc.fake.zone:9020`;
            ];
        };
        `master_cache`={
            addresses=[
                `msc-test-0.master-caches-test.fake.svc.fake.zone:9018`;
                `msc-test-1.master-caches-test.fake.svc.fake.zone:9018`;
                `msc-test-2.master-caches-test.fake.svc.fake.zone:9018`;
            ];
            `cell_id`=`65726e65-ad6b7562-259-79747361`;
            `enable_master_cache_discovery`=%false;
        };
    };
    `cypress_annotations`={
        `k8s_node_name`=`{K8S_NODE_NAME}`;
        `k8s_pod_name`=`{K8S_POD_NAME}`;
        `k8s_pod_namespace`=`{K8S_POD_NAMESPACE}`;
        `physical_host`=`{K8S_NODE_NAME}`;
    };
    user=`query_tracker`;
    `create_state_tables_on_startup`=%true;
}".
Proof. by vm_compute. Qed.

Example TestGetQueueAgentConfig :
  GetQueueAgentConfig (gen everything) (port 10030) = ok
"{
    `address_resolver`={
        `enable_ipv4`=%true;
        `enable_ipv6`=%false;
        retries=1000;
    };
    `solomon_exporter`={
        host=`{POD_SHORT_HOSTNAME}`;
        `instance_tags`={
            pod=`{K8S_POD_NAME}`;
        };
    };
    logging={
        writers={
            info={
                type=file;
                `file_name`=`/var/log/queue-agent.info.log`;
                format=`plain_text`;
                `enable_system_messages`=%true;
            };
            stderr={
                type=stderr;
                format=`plain_text`;
                `enable_system_messages`=%true;
            };
        };
        rules=[
            {
                `min_level`=info;
                writers=[
                    info;
                ];
                family=`plain_text`;
            };
            {
                `min_level`=error;
                writers=[
                    stderr;
                ];
                family=`plain_text`;
            };
        ];
        `flush_period`=3000;
    };
    `monitoring_port`=10030;
    `rpc_port`=9030;
    `timestamp_provider`={
        addresses=[
            `ms-test-0.masters-test.fake.svc.fake.zone:9010`;
        ];
    };
    `cluster_connection`={
        `cluster_name`=test;
        `primary_master`={
            addresses=[
                `ms-test-0.masters-test.fake.svc.fake.zone:9010`;
            ];
            peers=[
                {
                    address=`ms-test-0.masters-test.fake.svc.fake.zone:9010`;
                    voting=%true;
                };
            ];
            `cell_id`=`65726e65-ad6b7562-259-79747361`;
        };
        `discovery_connection`={
            addresses=[
                `ds-test-0.discovery-test.fake.svc.fake.zone:9020`;
                `ds-test-1.discovery-test.fake.svc.fake.zone:9020`;
                `ds-test-2.discovery-test.fake.svc.fake.zone:9020`;
            ];
        };
        `master_cache`={
            addresses=[
                `msc-test-0.master-caches-test.fake.svc.fake.zone:9018`;
                `msc-test-1.master-caches-test.fake.svc.fake.zone:9018`;
                `msc-test-2.master-caches-test.fake.svc.fake.zone:9018`;
            ];
            `cell_id`=`65726e65-ad6b7562-259-79747361`;
            `enable_master_cache_discovery`=%false;
        };
    };
    `cypress_annotations`={
        `k8s_node_name`=`{K8S_NODE_NAME}`;
        `k8s_pod_name`=`{K8S_POD_NAME}`;
        `k8s_pod_namespace`=`{K8S_POD_NAMESPACE}`;
        `physical_host`=`{K8S_NODE_NAME}`;
    };
    user=`queue_agent`;
    `queue_agent`={
        stage=production;
    };
}".
Proof. by vm_compute. Qed.

Example TestGetRPCProxyConfig :
  GetRPCProxyConfig (gen everything) rpc_proxy = ok
"{
    `address_resolver`={
        `enable_ipv4`=%true;
        `enable_ipv6`=%false;
        retries=1000;
    };
    `solomon_exporter`={
        host=`{POD_SHORT_HOSTNAME}`;
        `instance_tags`={
            pod=`{K8S_POD_NAME}`;
        };
    };
    logging={
        writers={
            info={
                type=file;
                `file_name`=`/var/log/rpc-proxy.info.log`;
                format=`plain_text`;
                `enable_system_messages`=%true;
            };
            stderr={
                type=stderr;
                format=`plain_text`;
                `enable_system_messages`=%true;
            };
        };
        rules=[
            {
                `min_level`=info;
                writers=[
                    info;
                ];
                family=`plain_text`;
            };
            {
                `min_level`=error;
                writers=[
                    stderr;
                ];
                family=`plain_text`;
            };
        ];
        `flush_period`=3000;
    };
    `monitoring_port`=10013;
    `rpc_port`=9013;
    `timestamp_provider`={
        addresses=[
            `ms-test-0.masters-test.fake.svc.fake.zone:9010`;
        ];
    };
    `cluster_connection`={
        `cluster_name`=test;
        `primary_master`={
            addresses=[
                `ms-test-0.masters-test.fake.svc.fake.zone:9010`;
            ];
            peers=[
                {
                    address=`ms-test-0.masters-test.fake.svc.fake.zone:9010`;
                    voting=%true;
                };
            ];
            `cell_id`=`65726e65-ad6b7562-259-79747361`;
        };
        `discovery_connection`={
            addresses=[
                `ds-test-0.discovery-test.fake.svc.fake.zone:9020`;
                `ds-test-1.discovery-test.fake.svc.fake.zone:9020`;
                `ds-test-2.discovery-test.fake.svc.fake.zone:9020`;
            ];
        };
        `master_cache`={
            addresses=[
                `msc-test-0.master-caches-test.fake.svc.fake.zone:9018`;
                `msc-test-1.master-caches-test.fake.svc.fake.zone:9018`;
                `msc-test-2.master-caches-test.fake.svc.fake.zone:9018`;
            ];
            `cell_id`=`65726e65-ad6b7562-259-79747361`;
            `enable_master_cache_discovery`=%false;
        };
    };
    `cypress_annotations`={
        `k8s_node_name`=`{K8S_NODE_NAME}`;
        `k8s_pod_name`=`{K8S_POD_NAME}`;
        `k8s_pod_namespace`=`{K8S_POD_NAMESPACE}`;
        `physical_host`=`{K8S_NODE_NAME}`;
    };
    role=default;
    `cypress_user_manager`={
    };
    `cypress_token_authenticator`={
        secure=%true;
    };
    `oauth_service`={
        host=`oauth-host`;
        port=433;
        secure=%true;
        `user_info_endpoint`=`user-info-endpoint`;
        `user_info_login_field`=login;
    };
    `oauth_token_authenticator`={
    };
    `require_authentication`=%true;
}".
Proof. by vm_compute. Qed.

Example TestGetRPCProxyWithoutOauthConfig :
  GetRPCProxyConfig (gen (bare [] None None)) rpc_proxy = ok
"{
    `address_resolver`={
        `enable_ipv4`=%false;
        `enable_ipv6`=%true;
        retries=1000;
    };
    `solomon_exporter`={
        host=`{POD_SHORT_HOSTNAME}`;
        `instance_tags`={
            pod=`{K8S_POD_NAME}`;
        };
    };
    logging={
        writers={
            info={
                type=file;
                `file_name`=`/var/log/rpc-proxy.info.log`;
                format=`plain_text`;
                `enable_system_messages`=%true;
            };
            stderr={
                type=stderr;
                format=`plain_text`;
                `enable_system_messages`=%true;
            };
        };
        rules=[
            {
                `min_level`=info;
                writers=[
                    info;
                ];
                family=`plain_text`;
            };
            {
                `min_level`=error;
                writers=[
                    stderr;
                ];
                family=`plain_text`;
            };
        ];
        `flush_period`=3000;
    };
    `monitoring_port`=10013;
    `rpc_port`=9013;
    `timestamp_provider`={
        addresses=[
            `ms-test-0.masters-test.fake.svc.fake.zone:9010`;
        ];
    };
    `cluster_connection`={
        `cluster_name`=test;
        `primary_master`={
            addresses=[
                `ms-test-0.masters-test.fake.svc.fake.zone:9010`;
            ];
            peers=[
                {
                    address=`ms-test-0.masters-test.fake.svc.fake.zone:9010`;
                    voting=%true;
                };
            ];
            `cell_id`=`65726e65-ad6b7562-259-79747361`;
        };
        `discovery_connection`={
            addresses=[
            ];
        };
        `master_cache`={
            addresses=[
                `ms-test-0.masters-test.fake.svc.fake.zone:9010`;
            ];
            `cell_id`=`65726e65-ad6b7562-259-79747361`;
            `enable_master_cache_discovery`=%false;
        };
    };
    `cypress_annotations`={
        `k8s_node_name`=`{K8S_NODE_NAME}`;
        `k8s_pod_name`=`{K8S_POD_NAME}`;
        `k8s_pod_namespace`=`{K8S_POD_NAMESPACE}`;
        `physical_host`=`{K8S_NODE_NAME}`;
    };
    role=default;
    `cypress_user_manager`={
    };
    `cypress_token_authenticator`={
        secure=%true;
    };
}".
Proof. by vm_compute. Qed.

Example TestGetSchedulerConfig :
  GetSchedulerConfig (gen everything) (port 10011) = ok
"{
    `address_resolver`={
        `enable_ipv4`=%true;
        `enable_ipv6`=%false;
        retries=1000;
    };
    `solomon_exporter`={
        host=`{POD_SHORT_HOSTNAME}`;
        `instance_tags`={
            pod=`{K8S_POD_NAME}`;
        };
    };
    logging={
        writers={
            info={
                type=file;
                `file_name`=`/var/log/scheduler.info.log`;
                format=`plain_text`;
                `enable_system_messages`=%true;
            };
            stderr={
                type=stderr;
                format=`plain_text`;
                `enable_system_messages`=%true;
            };
        };
        rules=[
            {
                `min_level`=info;
                writers=[
                    info;
                ];
                family=`plain_text`;
            };
            {
                `min_level`=error;
                writers=[
                    stderr;
                ];
                family=`plain_text`;
            };
        ];
        `flush_period`=3000;
    };
    `monitoring_port`=10011;
    `rpc_port`=9011;
    `timestamp_provider`={
        addresses=[
            `ms-test-0.masters-test.fake.svc.fake.zone:9010`;
        ];
    };
    `cluster_connection`={
        `cluster_name`=test;
        `primary_master`={
            addresses=[
                `ms-test-0.masters-test.fake.svc.fake.zone:9010`;
            ];
            peers=[
                {
                    address=`ms-test-0.masters-test.fake.svc.fake.zone:9010`;
                    voting=%true;
                };
            ];
            `cell_id`=`65726e65-ad6b7562-259-79747361`;
        };
        `discovery_connection`={
            addresses=[
                `ds-test-0.discovery-test.fake.svc.fake.zone:9020`;
                `ds-test-1.discovery-test.fake.svc.fake.zone:9020`;
                `ds-test-2.discovery-test.fake.svc.fake.zone:9020`;
            ];
        };
        `master_cache`={
            addresses=[
                `msc-test-0.master-caches-test.fake.svc.fake.zone:9018`;
                `msc-test-1.master-caches-test.fake.svc.fake.zone:9018`;
                `msc-test-2.master-caches-test.fake.svc.fake.zone:9018`;
            ];
            `cell_id`=`65726e65-ad6b7562-259-79747361`;
            `enable_master_cache_discovery`=%false;
        };
    };
    `cypress_annotations`={
        `k8s_node_name`=`{K8S_NODE_NAME}`;
        `k8s_pod_name`=`{K8S_POD_NAME}`;
        `k8s_pod_namespace`=`{K8S_POD_NAMESPACE}`;
        `physical_host`=`{K8S_NODE_NAME}`;
    };
    scheduler={
        `operations_cleaner`={
            `enable_operation_archivation`=%false;
        };
    };
}".
Proof. by vm_compute. Qed.

Example TestGetSchedulerWithFixedMasterHostsConfig :
  GetSchedulerConfig (gen (bare testHosts (port 10011) None)) (port 10011) = ok
"{
    `address_resolver`={
        `enable_ipv4`=%false;
        `enable_ipv6`=%true;
        retries=1000;
    };
    `solomon_exporter`={
        host=`{POD_SHORT_HOSTNAME}`;
        `instance_tags`={
            pod=`{K8S_POD_NAME}`;
        };
    };
    logging={
        writers={
            info={
                type=file;
                `file_name`=`/var/log/scheduler.info.log`;
                format=`plain_text`;
                `enable_system_messages`=%true;
            };
            stderr={
                type=stderr;
                format=`plain_text`;
                `enable_system_messages`=%true;
            };
        };
        rules=[
            {
                `min_level`=info;
                writers=[
                    info;
                ];
                family=`plain_text`;
            };
            {
                `min_level`=error;
                writers=[
                    stderr;
                ];
                family=`plain_text`;
            };
        ];
        `flush_period`=3000;
    };
    `monitoring_port`=10011;
    `rpc_port`=9011;
    `timestamp_provider`={
        addresses=[
            `host1.external.address:9010`;
            `host2.external.address:9010`;
            `host3.external.address:9010`;
        ];
    };
    `cluster_connection`={
        `cluster_name`=test;
        `primary_master`={
            addresses=[
                `host1.external.address:9010`;
                `host2.external.address:9010`;
                `host3.external.address:9010`;
            ];
            peers=[
                {
                    address=`host1.external.address:9010`;
                    voting=%true;
                };
                {
                    address=`host2.external.address:9010`;
                    voting=%true;
                };
                {
                    address=`host3.external.address:9010`;
                    voting=%true;
                };
            ];
            `cell_id`=`65726e65-ad6b7562-259-79747361`;
        };
        `discovery_connection`={
            addresses=[
            ];
        };
        `master_cache`={
            addresses=[
                `host1.external.address:9010`;
                `host2.external.address:9010`;
                `host3.external.address:9010`;
            ];
            `cell_id`=`65726e65-ad6b7562-259-79747361`;
            `enable_master_cache_discovery`=%false;
        };
    };
    `cypress_annotations`={
        `k8s_node_name`=`{K8S_NODE_NAME}`;
        `k8s_pod_name`=`{K8S_POD_NAME}`;
        `k8s_pod_namespace`=`{K8S_POD_NAMESPACE}`;
        `physical_host`=`{K8S_NODE_NAME}`;
    };
    scheduler={
        `operations_cleaner`={
            `enable_operation_archivation`=%false;
        };
    };
}".
Proof. by vm_compute. Qed.

Example TestGetStrawberryControllerConfig :
  GetStrawberryControllerConfig (gen everything) = ok
"{
    `location_proxies`=[
        `http-proxies-lb-test.fake.svc.fake.zone`;
    ];
    strawberry={
        root=`//sys/strawberry`;
        stage=production;
        `robot_username`=`robot-strawberry-controller`;
    };
    controllers={
        chyt={
            `address_resolver`={
                `enable_ipv4`=%true;
                `enable_ipv6`=%false;
                retries=1000;
            };
        };
    };
    `http_api_endpoint`=`:80`;
    `http_location_aliases`={
        `http-proxies-lb-test.fake.svc.fake.zone`=[
            test;
        ];
    };
}".
Proof. by vm_compute. Qed.

Example TestGetTabletNodeConfig :
  GetTabletNodeConfig local tablet_nodes = ok
"{
    `address_resolver`={
        `enable_ipv4`=%true;
        `enable_ipv6`=%false;
        retries=1000;
    };
    `solomon_exporter`={
        host=`{POD_SHORT_HOSTNAME}`;
        `instance_tags`={
            pod=`{K8S_POD_NAME}`;
        };
    };
    logging={
        writers={
            info={
                type=file;
                `file_name`=`/var/log/tablet-node.info.log`;
                format=`plain_text`;
                `enable_system_messages`=%true;
            };
            stderr={
                type=stderr;
                format=`plain_text`;
                `enable_system_messages`=%true;
            };
        };
        rules=[
            {
                `min_level`=info;
                writers=[
                    info;
                ];
                family=`plain_text`;
            };
            {
                `min_level`=error;
                writers=[
                    stderr;
                ];
                family=`plain_text`;
            };
        ];
        `flush_period`=3000;
    };
    `monitoring_port`=10022;
    `rpc_port`=9022;
    `timestamp_provider`={
        addresses=[
            `ms-test-0.masters-test.fake.svc.fake.zone:9010`;
        ];
    };
    `cluster_connection`={
        `cluster_name`=test;
        `primary_master`={
            addresses=[
                `ms-test-0.masters-test.fake.svc.fake.zone:9010`;
            ];
            peers=[
                {
                    address=`ms-test-0.masters-test.fake.svc.fake.zone:9010`;
                    voting=%true;
                };
            ];
            `cell_id`=`65726e65-ad6b7562-259-79747361`;
        };
        `discovery_connection`={
            addresses=[
                `ds-test-0.discovery-test.fake.svc.fake.zone:9020`;
                `ds-test-1.discovery-test.fake.svc.fake.zone:9020`;
                `ds-test-2.discovery-test.fake.svc.fake.zone:9020`;
            ];
        };
        `master_cache`={
            addresses=[
                `msc-test-0.master-caches-test.fake.svc.fake.zone:9018`;
                `msc-test-1.master-caches-test.fake.svc.fake.zone:9018`;
                `msc-test-2.master-caches-test.fake.svc.fake.zone:9018`;
            ];
            `cell_id`=`65726e65-ad6b7562-259-79747361`;
            `enable_master_cache_discovery`=%false;
        };
    };
    `cypress_annotations`={
        `k8s_node_name`=`{K8S_NODE_NAME}`;
        `k8s_pod_name`=`{K8S_POD_NAME}`;
        `k8s_pod_namespace`=`{K8S_POD_NAMESPACE}`;
        `physical_host`=`{K8S_NODE_NAME}`;
    };
    flavors=[
        tablet;
    ];
    `resource_limits`={
        `total_memory`=5368709120;
        `total_cpu`=0.000000;
        `node_dedicated_cpu`=0.000000;
    };
    tags=[
        `rack:xn-a`;
    ];
    rack=fake;
    `skynet_http_port`=11022;
    `caching_object_service`={
        capacity=0;
    };
}".
Proof. by vm_compute. Qed.

Example TestGetTabletNodeWithoutYtsaurusConfig :
  GetTabletNodeConfig remote tablet_nodes = ok
"{
    `address_resolver`={
        `enable_ipv4`=%false;
        `enable_ipv6`=%true;
        retries=1000;
    };
    `solomon_exporter`={
        host=`{POD_SHORT_HOSTNAME}`;
        `instance_tags`={
            pod=`{K8S_POD_NAME}`;
        };
    };
    logging={
        writers={
            info={
                type=file;
                `file_name`=`/var/log/tablet-node.info.log`;
                format=`plain_text`;
                `enable_system_messages`=%true;
            };
            stderr={
                type=stderr;
                format=`plain_text`;
                `enable_system_messages`=%true;
            };
        };
        rules=[
            {
                `min_level`=info;
                writers=[
                    info;
                ];
                family=`plain_text`;
            };
            {
                `min_level`=error;
                writers=[
                    stderr;
                ];
                family=`plain_text`;
            };
        ];
        `flush_period`=3000;
    };
    `monitoring_port`=10022;
    `rpc_port`=9022;
    `timestamp_provider`={
        addresses=[
            `host1.external.address:9010`;
            `host2.external.address:9010`;
            `host3.external.address:9010`;
        ];
    };
    `cluster_connection`={
        `cluster_name`=test;
        `primary_master`={
            addresses=[
                `host1.external.address:9010`;
                `host2.external.address:9010`;
                `host3.external.address:9010`;
            ];
            peers=[
                {
                    address=`host1.external.address:9010`;
                    voting=%true;
                };
                {
                    address=`host2.external.address:9010`;
                    voting=%true;
                };
                {
                    address=`host3.external.address:9010`;
                    voting=%true;
                };
            ];
            `cell_id`=`65726e65-ad6b7562-3e80259-79747361`;
        };
        `discovery_connection`={
            addresses=[
            ];
        };
        `master_cache`={
            addresses=[
                `host1.external.address:9018`;
                `host2.external.address:9018`;
                `host3.external.address:9018`;
            ];
            `cell_id`=`65726e65-ad6b7562-3e80259-79747361`;
            `enable_master_cache_discovery`=%false;
        };
    };
    `cypress_annotations`={
        `k8s_node_name`=`{K8S_NODE_NAME}`;
        `k8s_pod_name`=`{K8S_POD_NAME}`;
        `k8s_pod_namespace`=`{K8S_POD_NAMESPACE}`;
        `physical_host`=`{K8S_NODE_NAME}`;
    };
    flavors=[
        tablet;
    ];
    `resource_limits`={
        `total_memory`=5368709120;
        `total_cpu`=0.000000;
        `node_dedicated_cpu`=0.000000;
    };
    tags=[
        `rack:xn-a`;
    ];
    rack=fake;
    `skynet_http_port`=11022;
    `caching_object_service`={
        capacity=0;
    };
}".
Proof. by vm_compute. Qed.

Example TestGetTCPProxyConfig :
  GetTCPProxyConfig (gen everything) tcp_proxy = ok
"{
    `address_resolver`={
        `enable_ipv4`=%true;
        `enable_ipv6`=%false;
        retries=1000;
    };
    `solomon_exporter`={
        host=`{POD_SHORT_HOSTNAME}`;
        `instance_tags`={
            pod=`{K8S_POD_NAME}`;
        };
    };
    logging={
        writers={
            info={
                type=file;
                `file_name`=`/var/log/tcp-proxy.info.log`;
                format=`plain_text`;
                `enable_system_messages`=%true;
            };
            stderr={
                type=stderr;
                format=`plain_text`;
                `enable_system_messages`=%true;
            };
        };
        rules=[
            {
                `min_level`=info;
                writers=[
                    info;
                ];
                family=`plain_text`;
            };
            {
                `min_level`=error;
                writers=[
                    stderr;
                ];
                family=`plain_text`;
            };
        ];
        `flush_period`=3000;
    };
    `monitoring_port`=10017;
    `rpc_port`=0;
    `timestamp_provider`={
        addresses=[
            `ms-test-0.masters-test.fake.svc.fake.zone:9010`;
        ];
    };
    `cluster_connection`={
        `cluster_name`=test;
        `primary_master`={
            addresses=[
                `ms-test-0.masters-test.fake.svc.fake.zone:9010`;
            ];
            peers=[
                {
                    address=`ms-test-0.masters-test.fake.svc.fake.zone:9010`;
                    voting=%true;
                };
            ];
            `cell_id`=`65726e65-ad6b7562-259-79747361`;
        };
        `discovery_connection`={
            addresses=[
                `ds-test-0.discovery-test.fake.svc.fake.zone:9020`;
                `ds-test-1.discovery-test.fake.svc.fake.zone:9020`;
                `ds-test-2.discovery-test.fake.svc.fake.zone:9020`;
            ];
        };
        `master_cache`={
            addresses=[
                `msc-test-0.master-caches-test.fake.svc.fake.zone:9018`;
                `msc-test-1.master-caches-test.fake.svc.fake.zone:9018`;
                `msc-test-2.master-caches-test.fake.svc.fake.zone:9018`;
            ];
            `cell_id`=`65726e65-ad6b7562-259-79747361`;
            `enable_master_cache_discovery`=%false;
        };
    };
    `cypress_annotations`={
        `k8s_node_name`=`{K8S_NODE_NAME}`;
        `k8s_pod_name`=`{K8S_POD_NAME}`;
        `k8s_pod_namespace`=`{K8S_POD_NAMESPACE}`;
        `physical_host`=`{K8S_NODE_NAME}`;
    };
    role=default;
}".
Proof. by vm_compute. Qed.

Example TestGetUIClustersConfig :
  GetUIClustersConfig (gen everything) = ok
"{
    clusters=[
        {
            id=test;
            name=test;
            proxy=`http-proxies-lb-test.fake.svc.fake.zone`;
            secure=%false;
            authentication=basic;
            group=`My YTsaurus clusters`;
            theme=``;
            environment=``;
            description=`My first YTsaurus. Handle with care.`;
            primaryMaster={
                cellTag=0;
            };
        };
    ];
}".
Proof. by vm_compute. Qed.

Example TestGetUIClustersConfigWithSettings :
  GetUIClustersConfig (gen (bare [] None (ui_custom (Some "https://my-external-proxy.example.com") true))) = ok
"{
    clusters=[
        {
            id=test;
            name=test;
            proxy=`http-proxies-lb-test.fake.svc.fake.zone`;
            externalProxy=`https://my-external-proxy.example.com`;
            secure=%true;
            authentication=basic;
            group=`My YTsaurus clusters`;
            theme=``;
            environment=``;
            description=`My first YTsaurus. Handle with care.`;
            primaryMaster={
                cellTag=0;
            };
        };
    ];
}".
Proof. by vm_compute. Qed.

Example TestGetUICustomConfig :
  GetUICustomConfig (gen (bare [] None (ui_custom (Some "https://my-external-proxy.example.com") true))) = ok
"{
    odinBaseUrl=`http://odin-webservice.odin.svc.cluster.local`;
}".
Proof. by vm_compute. Qed.

Example TestGetUICustomConfigWithSettings :
  GetUICustomConfig (gen (bare [] None (ui_custom None false))) = ok
"{
    odinBaseUrl=`http://odin-webservice.odin.svc.cluster.local`;
}".
Proof. by vm_compute. Qed.

Example TestGetYQLAgentConfig :
  GetYQLAgentConfig (gen everything) (port 10019) = ok
"{
    `address_resolver`={
        `enable_ipv4`=%true;
        `enable_ipv6`=%false;
        retries=1000;
    };
    `solomon_exporter`={
        host=`{POD_SHORT_HOSTNAME}`;
        `instance_tags`={
            pod=`{K8S_POD_NAME}`;
        };
    };
    logging={
        writers={
            debug={
                type=file;
                `file_name`=`/var/log/yql-agent.debug.log`;
                format=`plain_text`;
                `enable_system_messages`=%true;
            };
            info={
                type=file;
                `file_name`=`/var/log/yql-agent.info.log`;
                format=`plain_text`;
                `enable_system_messages`=%true;
            };
            stderr={
                type=stderr;
                format=`plain_text`;
                `enable_system_messages`=%true;
            };
        };
        rules=[
            {
                `min_level`=info;
                writers=[
                    info;
                ];
                family=`plain_text`;
            };
            {
                `min_level`=debug;
                writers=[
                    debug;
                ];
                family=`plain_text`;
            };
            {
                `min_level`=error;
                writers=[
                    stderr;
                ];
                family=`plain_text`;
            };
        ];
        `flush_period`=3000;
    };
    `monitoring_port`=10019;
    `rpc_port`=9019;
    `timestamp_provider`={
        addresses=[
            `ms-test-0.masters-test.fake.svc.fake.zone:9010`;
        ];
    };
    `cluster_connection`={
        `cluster_name`=test;
        `primary_master`={
            addresses=[
                `ms-test-0.masters-test.fake.svc.fake.zone:9010`;
            ];
            peers=[
                {
                    address=`ms-test-0.masters-test.fake.svc.fake.zone:9010`;
                    voting=%true;
                };
            ];
            `cell_id`=`65726e65-ad6b7562-259-79747361`;
        };
        `discovery_connection`={
            addresses=[
                `ds-test-0.discovery-test.fake.svc.fake.zone:9020`;
                `ds-test-1.discovery-test.fake.svc.fake.zone:9020`;
                `ds-test-2.discovery-test.fake.svc.fake.zone:9020`;
            ];
        };
        `master_cache`={
            addresses=[
                `msc-test-0.master-caches-test.fake.svc.fake.zone:9018`;
                `msc-test-1.master-caches-test.fake.svc.fake.zone:9018`;
                `msc-test-2.master-caches-test.fake.svc.fake.zone:9018`;
            ];
            `cell_id`=`65726e65-ad6b7562-259-79747361`;
            `enable_master_cache_discovery`=%false;
        };
    };
    `cypress_annotations`={
        `k8s_node_name`=`{K8S_NODE_NAME}`;
        `k8s_pod_name`=`{K8S_POD_NAME}`;
        `k8s_pod_namespace`=`{K8S_POD_NAMESPACE}`;
        `physical_host`=`{K8S_NODE_NAME}`;
    };
    user=`yql_agent`;
    `yql_agent`={
        `gateway_config`={
            `mr_job_bin`=`/usr/bin/mrjob`;
            `mr_job_udfs_dir`=`/usr/lib/yql`;
            `cluster_mapping`=[
                {
                    name=test;
                    cluster=`http-proxies-test.fake.svc.fake.zone`;
                    default=%true;
                };
            ];
        };
        `yql_plugin_shared_library`=`/usr/lib/yql/libyqlplugin.so`;
        `yt_token_path`=`/usr/yql_agent_token`;
        `mr_job_binary`=`/usr/bin/mrjob`;
        `udf_directory`=`/usr/lib/yql`;
        `additional_clusters`={
            test=`http-proxies-test.fake.svc.fake.zone`;
        };
        `default_cluster`=test;
    };
}".
Proof. by vm_compute. Qed.

Example TestResolverOptionsKeepSocketAndForceTCP :
  GetMasterConfig (gen (everything_with (Some true) [])) (primary_masters []) = ok
"{
    `address_resolver`={
        `enable_ipv4`=%true;
        `enable_ipv6`=%false;
        `keep_socket`=%true;
        `force_tcp`=%true;
        retries=1000;
    };
    `solomon_exporter`={
        host=`{POD_SHORT_HOSTNAME}`;
        `instance_tags`={
            pod=`{K8S_POD_NAME}`;
        };
    };
    logging={
        writers={
            debug={
                type=file;
                `file_name`=`/var/log/master.debug.log.zstd`;
                format=`plain_text`;
                `compression_method`=zstd;
                `enable_compression`=%true;
                `enable_system_messages`=%true;
                `rotation_policy`={
                    `rotation_period`=900000;
                    `max_total_size_to_keep`=10737418240;
                };
            };
            error={
                type=file;
                `file_name`=`/var/log/master.error.log`;
                format=`plain_text`;
                `enable_system_messages`=%true;
            };
            info={
                type=file;
                `file_name`=`/var/log/master.info.log`;
                format=`plain_text`;
                `enable_system_messages`=%true;
            };
        };
        rules=[
            {
                `min_level`=info;
                writers=[
                    info;
                ];
                family=`plain_text`;
            };
            {
                `min_level`=error;
                writers=[
                    error;
                ];
                family=`plain_text`;
            };
            {
                `exclude_categories`=[
                    Bus;
                ];
                `min_level`=debug;
                writers=[
                    debug;
                ];
                family=`plain_text`;
            };
        ];
        `flush_period`=3000;
    };
    `monitoring_port`=10010;
    `rpc_port`=9010;
    `timestamp_provider`={
        addresses=[
            `ms-test-0.masters-test.fake.svc.fake.zone:9010`;
        ];
    };
    `cluster_connection`={
        `cluster_name`=test;
        `primary_master`={
            addresses=[
                `ms-test-0.masters-test.fake.svc.fake.zone:9010`;
            ];
            peers=[
                {
                    address=`ms-test-0.masters-test.fake.svc.fake.zone:9010`;
                    voting=%true;
                };
            ];
            `cell_id`=`65726e65-ad6b7562-259-79747361`;
        };
        `discovery_connection`={
            addresses=[
                `ds-test-0.discovery-test.fake.svc.fake.zone:9020`;
                `ds-test-1.discovery-test.fake.svc.fake.zone:9020`;
                `ds-test-2.discovery-test.fake.svc.fake.zone:9020`;
            ];
        };
        `master_cache`={
            addresses=[
                `msc-test-0.master-caches-test.fake.svc.fake.zone:9018`;
                `msc-test-1.master-caches-test.fake.svc.fake.zone:9018`;
                `msc-test-2.master-caches-test.fake.svc.fake.zone:9018`;
            ];
            `cell_id`=`65726e65-ad6b7562-259-79747361`;
            `enable_master_cache_discovery`=%false;
        };
    };
    `cypress_annotations`={
        `k8s_node_name`=`{K8S_NODE_NAME}`;
        `k8s_pod_name`=`{K8S_POD_NAME}`;
        `k8s_pod_namespace`=`{K8S_POD_NAMESPACE}`;
        `physical_host`=`{K8S_NODE_NAME}`;
    };
    snapshots={
        path=`/yt/master-data/master-snapshots`;
    };
    changelogs={
        path=`/yt/master-data/master-changelogs`;
    };
    `use_new_hydra`=%true;
    `hydra_manager`={
        `max_changelog_count_to_keep`=10;
        `max_snapshot_count_to_keep`=1543;
    };
    `cypress_manager`={
        `default_table_replication_factor`=1;
        `default_file_replication_factor`=1;
        `default_journal_replication_factor`=1;
        `default_journal_read_quorum`=1;
        `default_journal_write_quorum`=1;
    };
    `primary_master`={
        addresses=[
            `ms-test-0.masters-test.fake.svc.fake.zone:9010`;
        ];
        peers=[
            {
                address=`ms-test-0.masters-test.fake.svc.fake.zone:9010`;
                voting=%true;
            };
        ];
        `cell_id`=`65726e65-ad6b7562-259-79747361`;
    };
    `secondary_masters`=[
    ];
}".
Proof. by vm_compute. Qed.

Example TestGetMasterCachesWithFixedHostsConfig :
  GetMasterCachesConfig (gen (everything_with None testHosts)) (Some (master_caches testHosts)) = ok
"{
    `address_resolver`={
        `enable_ipv4`=%true;
        `enable_ipv6`=%false;
        retries=1000;
    };
    `solomon_exporter`={
        host=`{POD_SHORT_HOSTNAME}`;
        `instance_tags`={
            pod=`{K8S_POD_NAME}`;
        };
    };
    logging={
        writers={
            info={
                type=file;
                `file_name`=`/var/log/master-cache.info.log`;
                format=`plain_text`;
                `enable_system_messages`=%true;
            };
            stderr={
                type=stderr;
                format=`plain_text`;
                `enable_system_messages`=%true;
            };
        };
        rules=[
            {
                `min_level`=info;
                writers=[
                    info;
                ];
                family=`plain_text`;
            };
            {
                `min_level`=error;
                writers=[
                    stderr;
                ];
                family=`plain_text`;
            };
        ];
        `flush_period`=3000;
    };
    `monitoring_port`=10018;
    `rpc_port`=9018;
    `timestamp_provider`={
        addresses=[
            `ms-test-0.masters-test.fake.svc.fake.zone:9010`;
        ];
    };
    `cluster_connection`={
        `cluster_name`=test;
        `primary_master`={
            addresses=[
                `ms-test-0.masters-test.fake.svc.fake.zone:9010`;
            ];
            peers=[
                {
                    address=`ms-test-0.masters-test.fake.svc.fake.zone:9010`;
                    voting=%true;
                };
            ];
            `cell_id`=`65726e65-ad6b7562-259-79747361`;
        };
        `discovery_connection`={
            addresses=[
                `ds-test-0.discovery-test.fake.svc.fake.zone:9020`;
                `ds-test-1.discovery-test.fake.svc.fake.zone:9020`;
                `ds-test-2.discovery-test.fake.svc.fake.zone:9020`;
            ];
        };
        `master_cache`={
            addresses=[
                `host1.external.address:9018`;
                `host2.external.address:9018`;
                `host3.external.address:9018`;
            ];
            `cell_id`=`65726e65-ad6b7562-259-79747361`;
            `enable_master_cache_discovery`=%false;
        };
    };
    `cypress_annotations`={
        `k8s_node_name`=`{K8S_NODE_NAME}`;
        `k8s_pod_name`=`{K8S_POD_NAME}`;
        `k8s_pod_namespace`=`{K8S_POD_NAMESPACE}`;
        `physical_host`=`{K8S_NODE_NAME}`;
    };
}".
Proof. by vm_compute. Qed.

Example TestGetMasterCachesConfig :
  GetMasterCachesConfig (gen everything) (Some (master_caches [])) = ok
"{
    `address_resolver`={
        `enable_ipv4`=%true;
        `enable_ipv6`=%false;
        retries=1000;
    };
    `solomon_exporter`={
        host=`{POD_SHORT_HOSTNAME}`;
        `instance_tags`={
            pod=`{K8S_POD_NAME}`;
        };
    };
    logging={
        writers={
            info={
                type=file;
                `file_name`=`/var/log/master-cache.info.log`;
                format=`plain_text`;
                `enable_system_messages`=%true;
            };
            stderr={
                type=stderr;
                format=`plain_text`;
                `enable_system_messages`=%true;
            };
        };
        rules=[
            {
                `min_level`=info;
                writers=[
                    info;
                ];
                family=`plain_text`;
            };
            {
                `min_level`=error;
                writers=[
                    stderr;
                ];
                family=`plain_text`;
            };
        ];
        `flush_period`=3000;
    };
    `monitoring_port`=10018;
    `rpc_port`=9018;
    `timestamp_provider`={
        addresses=[
            `ms-test-0.masters-test.fake.svc.fake.zone:9010`;
        ];
    };
    `cluster_connection`={
        `cluster_name`=test;
        `primary_master`={
            addresses=[
                `ms-test-0.masters-test.fake.svc.fake.zone:9010`;
            ];
            peers=[
                {
                    address=`ms-test-0.masters-test.fake.svc.fake.zone:9010`;
                    voting=%true;
                };
            ];
            `cell_id`=`65726e65-ad6b7562-259-79747361`;
        };
        `discovery_connection`={
            addresses=[
                `ds-test-0.discovery-test.fake.svc.fake.zone:9020`;
                `ds-test-1.discovery-test.fake.svc.fake.zone:9020`;
                `ds-test-2.discovery-test.fake.svc.fake.zone:9020`;
            ];
        };
        `master_cache`={
            addresses=[
                `msc-test-0.master-caches-test.fake.svc.fake.zone:9018`;
                `msc-test-1.master-caches-test.fake.svc.fake.zone:9018`;
                `msc-test-2.master-caches-test.fake.svc.fake.zone:9018`;
            ];
            `cell_id`=`65726e65-ad6b7562-259-79747361`;
            `enable_master_cache_discovery`=%false;
        };
    };
    `cypress_annotations`={
        `k8s_node_name`=`{K8S_NODE_NAME}`;
        `k8s_pod_name`=`{K8S_POD_NAME}`;
        `k8s_pod_namespace`=`{K8S_POD_NAMESPACE}`;
        `physical_host`=`{K8S_NODE_NAME}`;
    };
}".
Proof. by vm_compute. Qed.
