(* ===== verification/ConfigFacts.v ===== *)
(** * What the generated configurations promise

    Every generator of the operator renders a configuration for an admitted
    resource; the watermarks of the stores, the quorums of the journals and
    the logging sections of what is rendered are correct. *)

From S2P Require Import Prelude Float Api Samples CellId Names YtApi Yson Logging CommonConfig NodeConfig Resources Nodes Manager Webhook Ui ServerConfigs Constructors Golden.

Local Open Scope list_scope.
Local Open Scope res_scope.

(** ** Rendering *)

Section Rendered.
Context `{U : Uuid} `{QF : Quantities} `{YP : YsonPretty}.
Context `{PT : Webhook.PathText} `{CY : ContainerYaml} `{PY : PartialYaml}.
Context (clusterDomain : string).

(** The library makes a UUID from the fixed string, and marshals the documents
    of the operator: maps, lists and scalars. *)
Hypothesis uuid_total : is_Some (uuid_NewRandomFromReader "ytsaurus-kubernetes-operator").
Hypothesis marshal_total : forall v, exists text, yson_MarshalFormat v = inr text.

(** A generator renders when it neither panics nor returns an error. *)
Abbreviation renders m := (returns m (fun _ => True)).

Lemma renders_ok {A} (a : A) : renders (ok a).
Proof. by apply returns_ok. Qed.

Lemma renders_bind {A B} (m : Res A) (f : A -> Res B) :
  renders m -> (forall a, renders (f a)) -> renders (res_bind m f).
Proof. intros Hm Hf. eapply returns_bind; [exact Hm|auto]. Qed.

Lemma renders_marshal v : renders (marshallYsonConfig v).
Proof. destruct (marshal_total v) as [text Ht]. exists text. unfold marshallYsonConfig. by rewrite Ht. Qed.

Lemma renders_deref {A} (o : option A) : is_Some o -> renders (deref o).
Proof. intros [a ->]. apply renders_ok. Qed.

Lemma renders_cellID tag : renders (deref (generateCellID tag)).
Proof. apply renders_deref. unfold generateCellID. destruct uuid_total as [b ->]. by eexists. Qed.

Lemma renders_port (p : Z) s : renders (deref (is_MonitoringPort (default_MonitoringPort p s))).
Proof. apply renders_deref. unfold default_MonitoringPort. case_match eqn:Hp; [rewrite Hp|]; by eexists. Qed.

Lemma FindFirstLocation_some l t :
  (exists x, x ∈ l /\ loc_LocationType x = t) -> is_Some (FindFirstLocation l t).
Proof.
  intros (x & Hx & Ht). induction Hx as [l|y l Hx IH]; simpl; case_decide; eauto. done.
Qed.

Lemma FindAllLocations_some l t :
  (exists x, x ∈ l /\ loc_LocationType x = t) -> FindAllLocations l t <> [].
Proof.
  intros (x & Hx & Ht) Hn. assert (x ∈ FindAllLocations l t) as Hin by by apply list_elem_of_filter.
  rewrite Hn in Hin. by apply not_elem_of_nil in Hin.
Qed.

Lemma default_port_locations p i : is_Locations (default_MonitoringPort p i) = is_Locations i.
Proof. unfold default_MonitoringPort. by case_match. Qed.

Create HintDb renders.
#[local] Hint Resolve renders_ok renders_marshal renders_cellID renders_port : renders.
#[local] Hint Extern 1 (renders (res_bind _ _)) => (apply renders_bind; [|intros]) : renders.

Lemma renders_primary g : renders (fillPrimaryMaster g).
Proof. unfold fillPrimaryMaster. eauto with renders. Qed.
#[local] Hint Resolve renders_primary : renders.

Lemma renders_connection g c s : renders (fillClusterConnection g c s).
Proof. unfold fillClusterConnection. eauto with renders. Qed.
#[local] Hint Resolve renders_connection : renders.

Lemma renders_service g c s : renders (fillCommonService g c s).
Proof. unfold fillCommonService. eauto with renders. Qed.
#[local] Hint Resolve renders_service : renders.

Lemma renders_server g c s : renders (fillServer g c s).
Proof. unfold fillServer. eauto with renders. Qed.
#[local] Hint Resolve renders_server : renders.

Lemma renders_node g n s : renders (fillNode g n s).
Proof. unfold fillNode. eauto with renders. Qed.
#[local] Hint Resolve renders_node : renders.

Lemma renders_driver g d : renders (fillDriver g d).
Proof. unfold fillDriver. eauto 6 with renders. Qed.
#[local] Hint Resolve renders_driver : renders.

Lemma renders_carcass logging rpc (p : Z) i : renders (carcass logging rpc (default_MonitoringPort p i)).
Proof. unfold carcass. auto with renders. Qed.
#[local] Hint Resolve renders_carcass : renders.

Lemma renders_node_carcass flavor s (p : Z) i limits logging :
  renders (fillClusterNodeServerCarcass flavor s (default_MonitoringPort p i) limits logging).
Proof. unfold fillClusterNodeServerCarcass. destruct flavor; auto with renders. Qed.
#[local] Hint Resolve renders_node_carcass : renders.

(** A generator of an optional part: nothing, or a configuration. *)
Lemma renders_if {A} (o : option A) f : (forall a, o = Some a -> renders (f a)) -> renders (if_specified o f).
Proof. destruct o; simpl; auto with renders. Qed.

(** ** Each generator *)

(** The steps of a generator one after the other, the ports of its
    specification in sight. *)
Ltac server_renders :=
  intros; repeat (apply renders_bind; intros);
  cbn [dn_InstanceSpec DataNodesSpec_port en_InstanceSpec ExecNodesSpec_port tn_InstanceSpec
       TabletNodesSpec_port ms_InstanceSpec MastersSpec_port hp_InstanceSpec HTTPProxiesSpec_port
       rp_InstanceSpec RPCProxiesSpec_port tp_InstanceSpec TCPProxiesSpec_port mc_InstanceSpec
       MasterCachesSpec_port];
  auto with renders.

Lemma data_node_renders g s :
  has_location (dn_InstanceSpec s) LocationTypeChunkStore -> renders (GetDataNodeConfig g (DataNodesSpec_port s)).
Proof.
  intros Hl. unfold GetDataNodeConfig, getDataNodeConfigImpl, getDataNodeServerCarcass.
  server_renders.
  rewrite default_port_locations. pose proof (FindAllLocations_some _ _ Hl) as Hs.
  destruct (FindAllLocations _ _); [done|]. apply renders_ok.
Qed.

Lemma exec_node_renders g s :
  has_location (en_InstanceSpec s) LocationTypeChunkCache -> has_location (en_InstanceSpec s) LocationTypeSlots ->
  renders (GetExecNodeConfig g (ExecNodesSpec_port s)).
Proof.
  intros Hc Hl. unfold GetExecNodeConfig, getExecNodeConfigImpl, getExecNodeServerCarcass.
  server_renders.
  rewrite default_port_locations. pose proof (FindAllLocations_some _ _ Hc). pose proof (FindAllLocations_some _ _ Hl).
  destruct (FindAllLocations _ LocationTypeChunkCache); [done|].
  destruct (FindAllLocations _ LocationTypeSlots); [done|]. simpl.
  destruct (fillJobEnvironment _ _ _) as [[? ?] ?]. apply renders_ok.
Qed.

Lemma tablet_node_renders g s : renders (GetTabletNodeConfig g (TabletNodesSpec_port s)).
Proof.
  unfold GetTabletNodeConfig, getTabletNodeConfigImpl, getTabletNodeServerCarcass.
  server_renders.
Qed.

Lemma master_renders g s :
  has_location (ms_InstanceSpec s) LocationTypeMasterChangelogs ->
  has_location (ms_InstanceSpec s) LocationTypeMasterSnapshots ->
  renders (GetMasterConfig g (MastersSpec_port s)).
Proof.
  intros Hc Hs. unfold GetMasterConfig, getMasterConfigImpl, getMasterServerCarcass.
  server_renders.
  rewrite default_port_locations.
  destruct (FindFirstLocation_some _ _ Hc) as [? ->], (FindFirstLocation_some _ _ Hs) as [? ->].
  apply renders_ok.
Qed.

Lemma http_proxy_renders g s : renders (GetHTTPProxyConfig g (HTTPProxiesSpec_port s)).
Proof.
  unfold GetHTTPProxyConfig, getHTTPProxyConfigImpl, getHTTPProxyServerCarcass.
  server_renders.
Qed.

Lemma rpc_proxy_renders g s : renders (GetRPCProxyConfig g (RPCProxiesSpec_port s)).
Proof.
  unfold GetRPCProxyConfig, getRPCProxyConfigImpl, getRPCProxyServerCarcass.
  server_renders.
Qed.

Lemma tcp_proxy_renders g s : renders (GetTCPProxyConfig g (TCPProxiesSpec_port s)).
Proof.
  unfold GetTCPProxyConfig, getTCPProxyConfigImpl, getTCPProxyServerCarcass.
  case_match; auto with renders. server_renders.
Qed.

Lemma discovery_renders g p i : renders (GetDiscoveryConfig g (default_MonitoringPort p i)).
Proof. unfold GetDiscoveryConfig, getDiscoveryConfigImpl, getDiscoveryServerCarcass. server_renders. Qed.

Lemma master_cache_renders g o : renders (GetMasterCachesConfig g (MasterCachesSpec_port <$> o)).
Proof.
  apply renders_if. intros ? (s & -> & ->)%fmap_Some. unfold getMasterCachesConfigImpl, getMasterCachesCarcass. server_renders.
Qed.

(** An optional server whose monitoring port is filled in. *)
Lemma renders_optional (p : Z) (o : option InstanceSpec) f :
  (forall i, renders (f (default_MonitoringPort p i))) -> renders (if_specified (default_MonitoringPort p <$> o) f).
Proof. intros Hf. apply renders_if. by intros ? (i & -> & ->)%fmap_Some. Qed.

Lemma scheduler_renders g p o : renders (GetSchedulerConfig g (default_MonitoringPort p <$> o)).
Proof. apply renders_optional. unfold getSchedulerConfigImpl, getSchedulerServerCarcass. server_renders. Qed.
Lemma controller_agent_renders g p o : renders (GetControllerAgentConfig g (default_MonitoringPort p <$> o)).
Proof. apply renders_optional. unfold getControllerAgentConfigImpl, getControllerAgentServerCarcass. server_renders. Qed.
Lemma query_tracker_renders g p o : renders (GetQueryTrackerConfig g (default_MonitoringPort p <$> o)).
Proof. apply renders_optional. unfold getQueryTrackerConfigImpl, getQueryTrackerServerCarcass. server_renders. Qed.
Lemma queue_agent_renders g p o : renders (GetQueueAgentConfig g (default_MonitoringPort p <$> o)).
Proof. apply renders_optional. unfold getQueueAgentConfigImpl, getQueueAgentServerCarcass. server_renders. Qed.
Lemma yql_agent_renders g p o : renders (GetYQLAgentConfig g (default_MonitoringPort p <$> o)).
Proof. apply renders_optional. unfold getYQLAgentConfigImpl, getYQLAgentServerCarcass. server_renders. Qed.

(** ** The operator's closures *)

(** Every closure that the constructors hand to a server, a job or a
    microservice of the resource. *)
Definition operator_configs (y : Ytsaurus) : list (Ytsaurus -> string + string) :=
  let s := yt_Spec y in
  let d := clusterDomain in
  [nativeClient d; discovery_config d; master_config d; cluster_connection_config d;
   controller_agent_config d; master_cache_config d; scheduler_config d; query_tracker_config d;
   queue_agent_config d; yql_agent_config d; ui_clusters_config d; ui_custom_config d;
   strawberry_controller_config d; chyt_init_config d] ++
  (data_node_config d <$> sp_DataNodes s) ++
  (exec_node_config d <$> sp_ExecNodes s) ++
  (jobs_container_config d <$> filter (fun n => is_Some (en_JobEnvironment n ≫= je_CRI)) (sp_ExecNodes s)) ++
  (tablet_node_config d <$> sp_TabletNodes s) ++
  (http_proxy_config d <$> sp_HTTPProxies s) ++
  (rpc_proxy_config d <$> sp_RPCProxies s) ++
  (tcp_proxy_config d <$> sp_TCPProxies s).

Lemma generated_renders f y :
  renders (f (NewGenerator (with_monitoring_ports y) clusterDomain) (yt_Spec (with_monitoring_ports y))) ->
  exists text, generated clusterDomain f y = inr text.
Proof. intros (text & Hf & _). exists text. unfold generated. by rewrite Hf. Qed.

(** The port of a part that depends on tablet nodes is filled in. *)
Lemma port_if_true (b : bool) (p : Z) (o : option InstanceSpec) :
  (is_Some o -> b = true) ->
  (if b then default_MonitoringPort p <$> o else o) = default_MonitoringPort p <$> o.
Proof. intros Hb. destruct b; [done|]. destruct o; [|done]. by discriminate Hb. Qed.

Lemma is_some_true {A} (o : option A) : is_Some o -> is_some o = true.
Proof. by intros [a ->]. Qed.
Lemma tables_true {A} (l : list A) `{!Decision (l = [])} : l <> [] -> negb (bool_decide (l = [])) = true.
Proof. intros Hl. by rewrite bool_decide_false. Qed.

(** C8. Every configuration of an admitted resource is rendered: whatever part
    of the operator asks for its configuration, the generator dereferences no
    nil pointer and returns no error.  The missing locations a generator
    refuses are those the webhook refuses, and the monitoring ports it
    dereferences were filled in by the constructors. *)
Theorem configurations_rendered (y : Ytsaurus) :
  valid_spec (yt_Spec y) ->
  Forall (fun config => exists text, config y = inr text) (operator_configs y).
Proof using uuid_total marshal_total.
  intros V. unfold operator_configs. rewrite !Forall_app, !Forall_fmap.
  split_and!; [repeat constructor|..]; try (apply Forall_forall; intros s Hs); apply generated_renders; simpl.
  - unfold GetNativeClientConfig. server_renders.
  - apply discovery_renders.
  - apply master_renders; apply V.
  - unfold GetClusterConnection. server_renders.
  - apply controller_agent_renders.
  - apply master_cache_renders.
  - apply scheduler_renders.
  - rewrite port_if_true; [apply query_tracker_renders|]. intros Hq.
    apply andb_true_iff. split; [|apply tables_true, (vs_tables _ V); by left].
    apply is_some_true, (vs_scheduled _ V). by right; right.
  - rewrite port_if_true; [apply queue_agent_renders|]. intros Hq. apply tables_true, (vs_tables _ V). by right.
  - apply yql_agent_renders.
  - apply renders_if. auto with renders.
  - apply renders_if. auto with renders.
  - unfold GetStrawberryControllerConfig, getStrawberryController. server_renders.
  - apply renders_marshal.
  - apply data_node_renders. by apply (proj1 (Forall_forall _ _) (vs_stores _ V)).
  - destruct (proj1 (Forall_forall _ _) (vs_slots _ V) s Hs) as (? & ? & _). by apply exec_node_renders.
  - apply list_elem_of_filter in Hs as [[c Hc] _]. unfold GetContainerdConfig. simpl.
    destruct (en_JobEnvironment s) as [e|]; [|done]. simpl in *. rewrite Hc. apply renders_marshal.
  - apply tablet_node_renders.
  - apply http_proxy_renders.
  - apply rpc_proxy_renders.
  - apply tcp_proxy_renders.
Qed.
End Rendered.

Lemma configurations_rendered_witness :
  Forall (fun config => exists text, config (WebhookWitness.cluster ["default"; "heavy"]) = inr text)
    (operator_configs (U:=uuid) (QF:=quantities) (YP:=pretty_format) "cluster.local"
       (WebhookWitness.cluster ["default"; "heavy"])).
Proof.
  apply (configurations_rendered (U:=uuid) (QF:=quantities) (YP:=pretty_format)
           (CY:=WebhookWitness.yaml) (PY:=WebhookWitness.partial)).
  - by eexists.
  - intros v. by eexists.
  - apply WebhookWitness.cluster_valid.
Defined.

(** ** Watermarks of the stores *)

(** The node stops writing last: [disable_writes] below [high] below [low],
    and trash is cleaned up with [low]. *)
Definition ordered_watermarks (s : StoreLocation) : Prop :=
  (0 <= stl_DisableWritesWatermark s <= stl_HighWatermark s)%Z /\
  (stl_HighWatermark s <= stl_LowWatermark s)%Z /\
  stl_TrashCleanupWatermark s = stl_LowWatermark s.

Definition GiB : Z := 1024 * 1024 * 1024.

Lemma halves_ordered low :
  (0 <= low)%Z -> (0 <= Z.quot (Z.quot low 2) 2 <= Z.quot low 2)%Z /\ (Z.quot low 2 <= low)%Z.
Proof.
  intros Hl. pose proof (Z.quot_pos low 2 Hl ltac:(lia)).
  rewrite (Z.quot_div_nonneg (Z.quot low 2) 2), (Z.quot_div_nonneg low 2) by lia.
  pose proof (Z.div_pos low 2 Hl ltac:(lia)). pose proof (Z.div_pos (low / 2) 2 ltac:(lia) ltac:(lia)).
  pose proof (Z.mul_div_le low 2 ltac:(lia)). pose proof (Z.mul_div_le (low / 2) 2 ltac:(lia)). lia.
Qed.

Section Stores.
Context `{QF : Quantities} `{U : Uuid}.

(** The store rendered for a location of the specification. *)
Definition store_of (spec : InstanceSpec) (location : LocationSpec) (s : StoreLocation) : Prop :=
  stl_Path s = loc_Path location /\ stl_MediumName s = loc_Medium location /\
  match findQuotaForLocation location spec with
  | None => stl_Quota s = 0%Z /\ stl_LowWatermark s = 0%Z /\ ordered_watermarks s
  | Some quota =>
      stl_Quota s = quota /\
      match loc_LowWatermark location with
      | Some low => stl_LowWatermark s = Quantity_Value low
      | None => (0 <= quota < 2 ^ 52)%Z ->
                stl_LowWatermark s = Z.min (quota / 10) (25 * GiB) /\ (stl_LowWatermark s <= quota)%Z
      end /\
      ((0 <= stl_LowWatermark s)%Z -> ordered_watermarks s)
  end.

Lemma default_low_watermark quota : (0 <= quota < 2 ^ 52)%Z ->
  truncate (float_min (mul64 one_tenth (float64_of_int quota)) max_low_watermark) =
  Z.min (quota / 10) (25 * GiB).
Proof.
  intros Hq. rewrite truncate_min, truncate_one_tenth; [|done| |done].
  { change (truncate max_low_watermark) with (25 * GiB)%Z. done. }
  apply fl_mantissa_nonneg; [done|]. unfold float64_of_int, float64. rewrite round_exact; simpl in *; lia.
Qed.

Lemma store_location_of spec location : store_of spec location (store_location spec location).
Proof.
  unfold store_of, store_location. case_match eqn:Hq; simpl.
  - split_and!; try done.
    + destruct (loc_LowWatermark location); [done|]. intros Hb. rewrite default_low_watermark by done.
      pose proof (Z.mul_div_le z 10 ltac:(lia)). pose proof (Z.div_pos z 10 ltac:(lia) ltac:(lia)). split; [done|lia].
    + intros Hl. destruct (halves_ordered _ Hl) as [? ?]. split; [done|by split].
  - by split_and!.
Qed.

(** C9. The stores of a data node are its chunk store locations, in order, at
    least one, each with its path and medium, and their watermarks are what the
    location and its quota ask for.  Where the location gives a low watermark, it
    is taken as it is, even above the quota.  Where it gives none and the quota
    is known and between zero and four pebibytes, the low watermark is a tenth of
    the quota, computed in floating point but exact there, or 25 gibibytes if
    that is less, so never more than the quota.  A location whose quota is not
    known has none, and all its watermarks are zero.  As long as the low
    watermark is not negative, the others are ordered: writes are disabled at
    most where the store counts as full, which is at most the low watermark, at
    which the trash is cleaned up. *)
Theorem data_node_watermarks (g : BaseGenerator) (spec : DataNodesSpec) (c : DataNodeServer) :
  getDataNodeConfigImpl g spec = ok c ->
  Forall2 (store_of (dn_InstanceSpec spec))
    (FindAllLocations (is_Locations (dn_InstanceSpec spec)) LocationTypeChunkStore)
    (dns_StoreLocations (dnsv_DataNode c)) /\
  dns_StoreLocations (dnsv_DataNode c) <> [].
Proof.
  unfold getDataNodeConfigImpl, getDataNodeServerCarcass.
  destruct (fillClusterNodeServerCarcass _ _ _ _ _) as [[?|n]|]; simpl; [done| |done].
  destruct (FindAllLocations _ _) as [|l ls]; simpl; [done|].
  destruct (fillNode _ _ _) as [[?|n']|]; simpl; [done| |done]. intros [= <-]. simpl. split; [|done].
  assert (forall l, store_of (dn_InstanceSpec spec) l (fill_store g (store_location (dn_InstanceSpec spec) l))) as Hs.
  { intros l'. pose proof (store_location_of (dn_InstanceSpec spec) l') as Hl.
    by destruct (store_location _ l'). }
  constructor; [done|]. apply Forall2_fmap_r, Forall2_fmap_r, Forall_Forall2_diag, Forall_true. exact Hs.
Qed.
End Stores.

Lemma data_node_watermarks_witness :
  exists c, getDataNodeConfigImpl (QF:=quantities) (U:=uuid) local (data_nodes (chunk_store (Some (1024 * Gi)%Z) None None)) = ok c /\
  (stl_LowWatermark <$> dns_StoreLocations (dnsv_DataNode c)) = [(25 * GiB)%Z] /\
  dns_StoreLocations (dnsv_DataNode c) <> [].
Proof.
  eexists. split; [by vm_compute|]. split; [by vm_compute|].
  eapply (data_node_watermarks (QF:=quantities) (U:=uuid) local (data_nodes (chunk_store (Some (1024 * Gi)%Z) None None))).
  by vm_compute.
Defined.

(** ** Journals *)

(** Quorums over [factor] replicas: every read meets every write. *)
Definition quorums_meet (m : CypressManager) : Prop :=
  (cm_DefaultJournalReplicationFactor m < cm_DefaultJournalReadQuorum m + cm_DefaultJournalWriteQuorum m)%Z.

(** The replicas that may be lost while journals can be read and written. *)
Definition tolerated_losses (m : CypressManager) : Z :=
  cm_DefaultJournalReplicationFactor m -
  Z.max (cm_DefaultJournalReadQuorum m) (cm_DefaultJournalWriteQuorum m).

(** The data nodes of a cluster. *)
Definition data_node_count (s : YtsaurusSpec) : Z :=
  foldr (fun dn n => is_InstanceCount (dn_InstanceSpec dn) + n)%Z 0%Z (sp_DataNodes s).

Lemma int32_sum (l : list DataNodesSpec) (acc : Z) :
  Forall (fun dn => 0 <= is_InstanceCount (dn_InstanceSpec dn))%Z l -> (0 <= acc)%Z ->
  (acc + foldr (fun dn n => is_InstanceCount (dn_InstanceSpec dn) + n) 0 l < 2 ^ 31)%Z ->
  fold_left (fun n dn => int32 (n + is_InstanceCount (dn_InstanceSpec dn))) l acc =
  (acc + foldr (fun dn n => is_InstanceCount (dn_InstanceSpec dn) + n) 0 l)%Z.
Proof.
  revert acc. induction l as [|dn l IH]; simpl; intros acc Hl Hacc Hs; [lia|].
  apply Forall_cons in Hl as [Hd Hl].
  assert (0 <= foldr (fun dn n => is_InstanceCount (dn_InstanceSpec dn) + n) 0 l)%Z.
  { clear -Hl. induction Hl; simpl; lia. }
  rewrite int32_small by lia. rewrite IH by (done || lia). lia.
Qed.

(** C22. The replication settings of the masters fit the cluster: no more
    replicas than data nodes (a cluster without data nodes counts as one),
    quorums that can be reached and that meet, and a cluster of three data
    nodes keeps its journals when one is lost, of five when two are.  The sum of
    the instance counts is an [int32]: the hypothesis keeps it in range. *)
Theorem replication_fits (y : Ytsaurus) (clusterDomain : string) :
  Forall (fun dn => 0 <= is_InstanceCount (dn_InstanceSpec dn))%Z (sp_DataNodes (yt_Spec y)) ->
  (data_node_count (yt_Spec y) < 2 ^ 31)%Z ->
  let n := data_node_count (yt_Spec y) in
  let m := configureMasterServerCypressManager (GetMaxReplicationFactor (gen_base (NewGenerator y clusterDomain))) in
  (1 <= cm_DefaultTableReplicationFactor m <= Z.max 1 n)%Z /\
  cm_DefaultFileReplicationFactor m = cm_DefaultTableReplicationFactor m /\
  (1 <= cm_DefaultJournalReplicationFactor m <= Z.max 1 n)%Z /\
  quorums_meet m /\ (0 <= tolerated_losses m)%Z /\
  (3 <= n -> 1 <= tolerated_losses m)%Z /\ (5 <= n -> 2 <= tolerated_losses m)%Z.
Proof.
  intros Hpos Hlt n m. subst m. unfold GetMaxReplicationFactor, NewGenerator, NewLocalBaseGenerator. simpl.
  rewrite (int32_sum _ 0) by (done || lia). rewrite Z.add_0_l.
  change (foldr _ 0%Z (sp_DataNodes (yt_Spec y))) with n. clearbody n. clear Hpos Hlt.
  unfold configureMasterServerCypressManager, quorums_meet, tolerated_losses.
  repeat case_match; simpl; lia.
Qed.

Lemma replication_fits_witness :
  tolerated_losses (configureMasterServerCypressManager
    (GetMaxReplicationFactor (gen_base (NewGenerator (WebhookWitness.cluster ["default"]) "cluster.local")))) = 0%Z /\
  quorums_meet (configureMasterServerCypressManager
    (GetMaxReplicationFactor (gen_base (NewGenerator (WebhookWitness.cluster ["default"]) "cluster.local")))).
Proof.
  split; [by vm_compute|].
  apply (replication_fits (WebhookWitness.cluster ["default"]) "cluster.local"); [|done].
  by repeat constructor.
Defined.

(** ** Logging *)

Section LoggingFacts.
Context `{QF : Quantities}.

(** The loggers of a server with the writers they ask for: its text loggers,
    or the default ones, then its structured loggers. *)
Definition named_writers (spec : InstanceSpec) (componentName : string) (defaults : list TextLoggerSpec)
    : list (string * LoggingWriter) :=
  let dir := lgb_loggingDirectory (newLoggingBuilder (FindFirstLocation (is_Locations spec) LocationTypeLogs)
                                     componentName) in
  ((fun s => (bl_Name (tl_BaseLoggerSpec s), createLoggingWriter componentName dir s))
     <$> loggers_or (is_Loggers spec) defaults) ++
  ((fun s => (bl_Name (sl_BaseLoggerSpec s), createStructuredLoggingWriter componentName dir s))
     <$> is_StructuredLoggers spec).

(** A builder that was given these loggers: a rule for each, in order, and the
    writer of the last one of each name. *)
Definition built_from (b : loggingBuilder) (l : list (string * LoggingWriter)) : Prop :=
  lr_Writers <$> lg_Rules (lgb_logging b) = (fun p => [p.1]) <$> l /\
  forall n, lg_Writers (lgb_logging b) !! n = snd <$> last (filter (fun p => p.1 = n) l).

Lemma add_rule_built b l rule n w :
  built_from b l -> lr_Writers rule = [n] -> built_from (add_rule b rule n w) (l ++ [(n, w)]).
Proof.
  intros [Hr Hw] Hn. split; simpl.
  - rewrite !fmap_app, Hr. simpl. by rewrite Hn.
  - intros k. rewrite filter_app, filter_cons. simpl. case_decide as Hk.
    + subst k. by rewrite filter_nil, last_snoc, lookup_insert_eq.
    + by rewrite filter_nil, app_nil_r, lookup_insert_ne.
Qed.

(** Adding loggers one by one keeps the directory and the component. *)
Lemma fold_built {A} (add : loggingBuilder -> A -> loggingBuilder) (name : A -> string)
    (writer : string -> string -> A -> LoggingWriter) rule (specs : list A) b l :
  (forall b s, add b s = add_rule b (rule s) (name s) (writer (lgb_componentName b) (lgb_loggingDirectory b) s)) ->
  (forall s, lr_Writers (rule s) = [name s]) ->
  built_from b l ->
  built_from (fold_left add specs b)
    (l ++ ((fun s => (name s, writer (lgb_componentName b) (lgb_loggingDirectory b) s)) <$> specs)) /\
  lgb_componentName (fold_left add specs b) = lgb_componentName b /\
  lgb_loggingDirectory (fold_left add specs b) = lgb_loggingDirectory b.
Proof.
  intros Hadd Hrule. revert b l. induction specs as [|s specs IH]; intros b l Hb; simpl.
  - by rewrite app_nil_r.
  - rewrite Hadd. destruct (IH _ _ (add_rule_built b l (rule s) (name s)
      (writer (lgb_componentName b) (lgb_loggingDirectory b) s) Hb (Hrule s))) as (H1 & H2 & H3). simpl in *. by rewrite <- app_assoc in H1.
Qed.

(** Every rule of a built logging section writes to a writer of it. *)
Lemma built_rules_written b l :
  built_from b l ->
  Forall (fun r => Forall (fun n => is_Some (lg_Writers (lgb_logging b) !! n)) (lr_Writers r))
    (lg_Rules (lgb_logging b)).
Proof.
  intros [Hr Hw]. apply Forall_forall. intros r Hin.
  apply (list_elem_of_fmap_2 lr_Writers) in Hin. rewrite Hr in Hin.
  apply list_elem_of_fmap in Hin as ([n w] & -> & Hin). apply Forall_singleton. simpl. rewrite Hw.
  apply fmap_is_Some. destruct (last _) eqn:Hl; [by eexists|]. apply last_None in Hl.
  assert ((n, w) ∈ filter (fun p => p.1 = n) l) as Hf by by apply list_elem_of_filter.
  rewrite Hl in Hf. by apply not_elem_of_nil in Hf.
Qed.

Lemma createLoggingRule_writers s : lr_Writers (createLoggingRule s) = [bl_Name (tl_BaseLoggerSpec s)].
Proof. unfold createLoggingRule. repeat case_match; by simplify_eq. Qed.

(** C16. The logging section of a server has one rule for each of its loggers,
    in order, and every rule writes to a writer that exists: the one of the last
    logger with that name.  A server without text loggers uses the default
    ones. *)
Theorem createLogging_correct (spec : InstanceSpec) (componentName : string) (defaults : list TextLoggerSpec) :
  let logging := createLogging spec componentName defaults in
  let named := named_writers spec componentName defaults in
  lr_Writers <$> lg_Rules logging = (fun p => [p.1]) <$> named /\
  (forall n, lg_Writers logging !! n = snd <$> last (filter (fun p => p.1 = n) named)) /\
  Forall (fun r => Forall (fun n => is_Some (lg_Writers logging !! n)) (lr_Writers r)) (lg_Rules logging).
Proof.
  intros logging named. subst logging. unfold createLogging, flushed. simpl.
  set (b0 := newLoggingBuilder _ componentName).
  destruct (fold_built addLogger (fun s => bl_Name (tl_BaseLoggerSpec s)) createLoggingWriter createLoggingRule
    (loggers_or (is_Loggers spec) defaults) b0 [] ltac:(done) createLoggingRule_writers ltac:(done)) as (H1 & Hc & Hd).
  set (b1 := fold_left addLogger _ b0) in *.
  destruct (fold_built addStructuredLogger (fun s => bl_Name (sl_BaseLoggerSpec s)) createStructuredLoggingWriter
    createStructuredLoggingRule (is_StructuredLoggers spec) b1 _ ltac:(done) ltac:(done) H1) as ([Hr Hw] & _).
  rewrite Hc, Hd in Hr, Hw. split; [exact Hr|]. split; [exact Hw|].
  exact (built_rules_written _ _ (conj Hr Hw)).
Qed.
End LoggingFacts.
