(* ===== verification/Releases.v ===== *)
(** * Chyt and Spyt: chyt.go and spyt.go of pkg/components and pkg/apiproxy,
    controllers/chyt_sync.go, controllers/spyt_sync.go

    A [Chyt] or [Spyt] resource installs a release of CHYT or SPYT into a
    running cluster: a token, a job that creates the user, jobs that upload the
    release; the status of the resource names the step it is at.

    The resource is a variable of the heap, and the Ytsaurus resource of the
    world is the cluster it belongs to, in the same namespace.  The client [K]
    is the one of the proxy of the Chyt or Spyt resource: it makes that resource
    the owner of what it creates. *)

From S2P Require Import Prelude GoPath Api Kube Conditions Samples CellId Labeller Names Proxy Component Resources ConfigHelper Server InitJob Observe ServerComponent Nodes YtApi Yson Logging CommonConfig NodeConfig YtsaurusClient StateJobs Sync Manager Ui ServerConfigs Constructors.

(** ** The resources: api/v1/chyt_types.go, spyt_types.go *)

Inductive ChytReleaseStatus :=
| ChytReleaseStatusCreatingUserSecret
| ChytReleaseStatusCreatingUser
| ChytReleaseStatusUploadingIntoCypress
| ChytReleaseStatusCreatingChPublicClique
| ChytReleaseStatusFinished
| ChytReleaseStatusOther (s : string).

#[export] Instance ChytReleaseStatus_eq_dec : EqDecision ChytReleaseStatus.
Proof. solve_decision. Defined.

Record ChytSpec := mkChytSpec {
  chyt_ImagePullSecrets : list LocalObjectReference;
  chyt_Ytsaurus : option LocalObjectReference;
  chyt_Image : string;
  chyt_MakeDefault : bool;
}.
Record ChytStatus := mkChytStatus {
  chyt_Conditions : list Condition;
  chyt_ReleaseStatus : ChytReleaseStatus;
}.
Record Chyt := mkChyt {
  chyt_Name : string;
  chyt_Namespace : string;
  chyt_Spec : ChytSpec;
  chyt_Status : ChytStatus;
}.

Inductive SpytReleaseStatus :=
| SpytReleaseStatusCreatingUserSecret
| SpytReleaseStatusCreatingUser
| SpytReleaseStatusUploadingIntoCypress
| SpytReleaseStatusFinished
| SpytReleaseStatusOther (s : string).

#[export] Instance SpytReleaseStatus_eq_dec : EqDecision SpytReleaseStatus.
Proof. solve_decision. Defined.

Record SpytSpec := mkSpytSpec {
  spyt_ImagePullSecrets : list LocalObjectReference;
  spyt_Ytsaurus : option LocalObjectReference;
  spyt_Image : string;
}.
Record SpytStatus := mkSpytStatus {
  spyt_Conditions : list Condition;
  spyt_ReleaseStatus : SpytReleaseStatus;
}.
Record Spyt := mkSpyt {
  spyt_Name : string;
  spyt_Namespace : string;
  spyt_Spec : SpytSpec;
  spyt_Status : SpytStatus;
}.

(** What the proxies of the two resources have in common: a list of conditions
    and a release status. *)
Class ReleaseResource (R S : Type) := {
  rel_Conditions : R -> list Condition;
  set_rel_Conditions : list Condition -> R -> R;
  rel_ReleaseStatus : R -> S;
  set_rel_ReleaseStatus : S -> R -> R;
  rel_Conditions_set : forall c r, rel_Conditions (set_rel_Conditions c r) = c;
  rel_ReleaseStatus_set : forall s r, rel_ReleaseStatus (set_rel_ReleaseStatus s r) = s;
  rel_Conditions_release : forall s r, rel_Conditions (set_rel_ReleaseStatus s r) = rel_Conditions r;
  rel_release_release : forall s t r,
    set_rel_ReleaseStatus s (set_rel_ReleaseStatus t r) = set_rel_ReleaseStatus s r;
}.

#[export] Instance Chyt_release : ReleaseResource Chyt ChytReleaseStatus.
Proof.
  refine {|
    rel_Conditions c := chyt_Conditions (chyt_Status c);
    set_rel_Conditions l c := mkChyt (chyt_Name c) (chyt_Namespace c) (chyt_Spec c)
      (mkChytStatus l (chyt_ReleaseStatus (chyt_Status c)));
    rel_ReleaseStatus c := chyt_ReleaseStatus (chyt_Status c);
    set_rel_ReleaseStatus s c := mkChyt (chyt_Name c) (chyt_Namespace c) (chyt_Spec c)
      (mkChytStatus (chyt_Conditions (chyt_Status c)) s) |}; done.
Defined.

#[export] Instance Spyt_release : ReleaseResource Spyt SpytReleaseStatus.
Proof.
  refine {|
    rel_Conditions c := spyt_Conditions (spyt_Status c);
    set_rel_Conditions l c := mkSpyt (spyt_Name c) (spyt_Namespace c) (spyt_Spec c)
      (mkSpytStatus l (spyt_ReleaseStatus (spyt_Status c)));
    rel_ReleaseStatus c := spyt_ReleaseStatus (spyt_Status c);
    set_rel_ReleaseStatus s c := mkSpyt (spyt_Name c) (spyt_Namespace c) (spyt_Spec c)
      (mkSpytStatus (spyt_Conditions (spyt_Status c)) s) |}; done.
Defined.

(** The status writer of the resource. *)
Class ReleaseWriter (R E : Type) := client_StatusUpdate_release : R -> E -> error * E.

(** ** pkg/apiproxy/chyt.go, spyt.go *)

Section ReleaseProxy.
Context {H E R S : Type} `{K : Kube E} `{CM : ConditionMeta} `{RR : ReleaseResource R S}.
Context `{RW : ReleaseWriter R E}.
Local Abbreviation W := (World H E).
Context (r : Ref H R).

Definition Release_SetStatusCondition (condition : Condition) : M W unit :=
  modify (fun w =>
    let o := load r (heap w) in
    mkWorld (resource w)
      (store r (set_rel_Conditions
                  (meta_SetStatusCondition (client_now (ext w)) (rel_Conditions o) condition) o) (heap w))
      (ext w)).
Definition Release_IsStatusConditionTrue (conditionType : string) : M W bool :=
  o ← read r; mret (meta_IsStatusConditionTrue (rel_Conditions o) conditionType).
Definition Release_IsStatusConditionFalse (conditionType : string) : M W bool :=
  o ← read r; mret (meta_IsStatusConditionFalse (rel_Conditions o) conditionType).

Definition Release_conditions : ConditionManager W :=
  mkConditionManager W Release_SetStatusCondition Release_IsStatusConditionTrue
    Release_IsStatusConditionFalse.

(** [GetResource().Status.ReleaseStatus = s]. *)
Definition set_ReleaseStatus (s : S) : M W unit :=
  o ← read r; write r (set_rel_ReleaseStatus s o).

Definition Release_UpdateStatus : M W error :=
  o ← read r; outside (client_StatusUpdate_release o).

Definition SaveReleaseStatus (s : S) : M W error :=
  _ ← set_ReleaseStatus s; Release_UpdateStatus.
End ReleaseProxy.

(** ** The steps the two components share *)

Section ReleaseSteps.
Context {H E R S : Type} `{K : Kube E} `{CM : ConditionMeta} `{CO : Codec} `{Y : Yt E} `{EN : Entropy E}.
Context `{RR : ReleaseResource R S}.
Local Abbreviation W := (World H E).
Context (r : Ref H R).

(** The token of the user that installs the release. *)
Definition release_secret (l : Labeller) (secret : Handle H KSecret) (dry : bool) (s : S)
    (rest : M W SyncResult) : M W SyncResult :=
  need ← StringSecret_NeedSync secret TokenSecretKey "";
  if (need : bool) then
    err ← (if dry then mret None else sync_secret l secret);
    _ ← set_ReleaseStatus r s;
    mret (WaitingStatus SyncStatusPending (hd_name secret), err)
  else rest.

(** A job: its status is returned while it is not ready, or, where the code
    looks at the error too, has failed; the rest gets the error. *)
Definition release_job (j : InitJob H E) (dry check_err : bool) (prepare : M W unit) (s : S)
    (rest : error -> M W SyncResult) : M W SyncResult :=
  _ ← (if dry then mret tt else prepare);
  '(status, err) ← InitJob_Sync j dry;
  if (check_err && negb (no_error err)) || negb (bool_decide (cst_SyncStatus status = SyncStatusReady)) then
    _ ← set_ReleaseStatus r s;
    mret (status, err)
  else rest err.

Definition releaser_script (user : string) (secret : Handle H KSecret) : M W string :=
  '(token, _) ← StringSecret_GetValue secret TokenSecretKey;
  mret (String.concat NL (initJobWithNativeDriverPrologue :: createUserCommand user "" token true)).

(** [job.Spec.Template.Spec.Containers[0].Env = env]. *)
Definition job_env (job : Ref H Job) (env : list EnvVar) : M W unit :=
  o ← read job;
  let p := pt_Spec (job_Template o) in
  match ps_Containers p with
  | [] => panic
  | c :: cs =>
      write job (mkJob (job_ObjectMeta o) (job_TTLSecondsAfterFinished o) (job_BackoffLimit o)
        (mkPodTemplateSpec (pt_ObjectMeta (job_Template o)) (set_ps_Containers (set_ct_Env env c :: cs) p))
        (job_Status_Succeeded o))
  end.

(** The script of the release and the environment of its job. *)
Definition prepare_release (j : InitJob H E) (cfgen : Generator) (secret : Handle H KSecret) (script : string)
    (extra : list EnvVar) : M W unit :=
  _ ← SetInitScript j script;
  job ← InitJob_Build j;
  '(token, _) ← StringSecret_GetValue secret TokenSecretKey;
  job_env job
    ([mkEnvVar "YT_PROXY" (GetHTTPProxiesAddress cfgen DefaultHTTPProxyRole) None;
      mkEnvVar "YT_TOKEN" token None] ++ extra).
End ReleaseSteps.

(** The variables of the token. *)
Record ReleaseVars (H : Type) := mkReleaseVars {
  rv_secret_old : Ref H Secret;
  rv_secret_new : Ref H Secret;
}.
Arguments rv_secret_old {H} _. Arguments rv_secret_new {H} _.

(** ** pkg/components/chyt.go *)

Section ChytComponent.
Context {H E : Type} `{K : Kube E} `{CM : ConditionMeta} `{CO : Codec} `{Y : Yt E} `{EN : Entropy E}.
Context `{RW : ReleaseWriter Chyt E} `{U : Uuid} `{YP : YsonPretty}.
Local Abbreviation W := (World H E).

Record ChytComponent := mkChytComponent {
  cyc_labeller : Labeller;
  cyc_chyt : Ref H Chyt;
  cyc_cfgen : Generator;
  cyc_secret : Handle H KSecret;
  cyc_initUser : InitJob H E;
  cyc_initEnvironment : InitJob H E;
  cyc_initChPublicJob : InitJob H E;
}.

(** [cfgen.GetNativeClientConfig]: the cluster is the one fetched with the
    resource. *)
Definition release_client (cfgen : Generator) : Ytsaurus -> string + string :=
  fun _ => match GetNativeClientConfig cfgen with None => inl panicked | Some text => text end.

(** [chyt.GetResource()] is read once, for its name and its image. *)
Definition NewChyt (vars : ReleaseVars H) (user release ch_public : InitJobVars H) (cfgen : Generator)
    (r : Ref H Chyt) (chyt : Chyt) (ytsaurus : Ytsaurus) : ChytComponent :=
  let common := sp_CommonSpec (yt_Spec ytsaurus) in
  let l := mkLabeller (chyt_Name chyt) (chyt_Namespace chyt) ("ytsaurus-chyt-" +:+ chyt_Name chyt)
             ("CHYT-" +:+ chyt_Name chyt) (cs_ExtraPodAnnotations common) in
  let job v name image :=
    NewInitJob v l (Release_conditions r) (cs_ImagePullSecrets common)
      name ClientConfigFileName image (release_client cfgen) in
  mkChytComponent l r cfgen
    (mkHandle H KSecret (GetSecretName l) (rv_secret_old vars) (rv_secret_new vars))
    (job user "user" (cs_CoreImage common)) (job release "release" (chyt_Image (chyt_Spec chyt)))
    (job ch_public "ch-public" (chyt_Image (chyt_Spec chyt))).

Definition chyt_initScript (chyt : Chyt) : string :=
  "/setup_cluster_for_chyt.sh" +:+ (if chyt_MakeDefault (chyt_Spec chyt) then " --make-default" else "").

Definition createInitChPublicScript (cfgen : Generator) : string :=
  String.concat NL
    [initJobPrologue;
     "export YT_PROXY=" +:+ GetHTTPProxiesAddress cfgen DefaultHTTPProxyRole +:+
       " CHYT_CTL_ADDRESS=" +:+ GetStrawberryControllerServiceAddress cfgen +:+ " YT_LOG_LEVEL=debug";
     "yt create scheduler_pool --attributes '{name=chyt; pool_tree=default}' --ignore-existing";
     "yt clickhouse ctl create ch_public || true";
     "yt clickhouse ctl set-option --alias ch_public pool chyt";
     "yt clickhouse ctl set-option --alias ch_public enable_geodata '%false'";
     "yt clickhouse ctl set-option --alias ch_public instance_cpu 1";
     "yt clickhouse ctl set-option --alias ch_public instance_memory '{reader=100000000;chunk_meta_cache=100000000;compressed_cache=100000000;clickhouse=100000000;clickhouse_watermark=10;footprint=500000000;log_tailer=100000000;watchdog_oom_watermark=0;watchdog_oom_window_watermark=0}'";
     "yt clickhouse ctl set-option --alias ch_public instance_count 1";
     "yt clickhouse ctl start ch_public"].

Definition prepareChPublicJob (c : ChytComponent) : M W unit :=
  prepare_state_job (cyc_initChPublicJob c) (cyc_secret c) (createInitChPublicScript (cyc_cfgen c)).

Definition Chyt_doSync (c : ChytComponent) (dry : bool) : M W SyncResult :=
  let r := cyc_chyt c in
  let finish err := _ ← set_ReleaseStatus r ChytReleaseStatusFinished; mret (SimpleStatus SyncStatusReady, err) in
  state ← GetClusterState;
  if decide (state <> ClusterStateRunning) then
    mret (WaitingStatus SyncStatusBlocked "ytsaurus running", None)
  else
  release_secret r (cyc_labeller c) (cyc_secret c) dry ChytReleaseStatusCreatingUserSecret
  (release_job r (cyc_initUser c) dry false
     (script ← releaser_script "chyt_releaser" (cyc_secret c); SetInitScript (cyc_initUser c) script)
     ChytReleaseStatusCreatingUser
  (fun _ => release_job r (cyc_initEnvironment c) dry true
     (chyt ← read r; prepare_release (cyc_initEnvironment c) (cyc_cfgen c) (cyc_secret c) (chyt_initScript chyt) [])
     ChytReleaseStatusUploadingIntoCypress
  (fun err =>
     ytsaurus ← GetResource;
     chyt ← read r;
     if is_some (sp_StrawberryController (yt_Spec ytsaurus)) && chyt_MakeDefault (chyt_Spec chyt) then
       release_job r (cyc_initChPublicJob c) dry true (prepareChPublicJob c)
         ChytReleaseStatusCreatingChPublicClique finish
     else finish err))).

Definition Chyt_Fetch (c : ChytComponent) : M W error :=
  in_order [InitJob_Fetch (cyc_initUser c); InitJob_Fetch (cyc_initEnvironment c);
            InitJob_Fetch (cyc_initChPublicJob c); Fetch (cyc_secret c)].
End ChytComponent.

(** ** pkg/components/spyt.go *)

Section SpytComponent.
Context {H E : Type} `{K : Kube E} `{CM : ConditionMeta} `{CO : Codec} `{Y : Yt E} `{EN : Entropy E}.
Context `{RW : ReleaseWriter Spyt E} `{U : Uuid} `{YP : YsonPretty}.
Local Abbreviation W := (World H E).

Record SpytComponent := mkSpytComponent {
  spc_labeller : Labeller;
  spc_spyt : Ref H Spyt;
  spc_cfgen : Generator;
  spc_secret : Handle H KSecret;
  spc_initUser : InitJob H E;
  spc_initEnvironment : InitJob H E;
}.

Definition NewSpyt (vars : ReleaseVars H) (user environment : InitJobVars H) (cfgen : Generator)
    (r : Ref H Spyt) (spyt : Spyt) (ytsaurus : Ytsaurus) : SpytComponent :=
  let common := sp_CommonSpec (yt_Spec ytsaurus) in
  let l := mkLabeller (spyt_Name spyt) (spyt_Namespace spyt) ("ytsaurus-spyt-" +:+ spyt_Name spyt)
             ("SPYT-" +:+ spyt_Name spyt) (cs_ExtraPodAnnotations common) in
  let job v name image :=
    NewInitJob v l (Release_conditions r) (cs_ImagePullSecrets common)
      name ClientConfigFileName image (release_client cfgen) in
  mkSpytComponent l r cfgen
    (mkHandle H KSecret (GetSecretName l) (rv_secret_old vars) (rv_secret_new vars))
    (job user "user" (cs_CoreImage common))
    (job environment "spyt-environment" (spyt_Image (spyt_Spec spyt))).

Definition spyt_initScript : string := "/entrypoint.sh".

Definition Spyt_doSync (s : SpytComponent) (dry : bool) : M W SyncResult :=
  let r := spc_spyt s in
  ytsaurus ← GetResource;
  if decide (st_State (yt_Status ytsaurus) <> ClusterStateRunning) then
    mret (WaitingStatus SyncStatusBlocked (yt_Name ytsaurus), None)
  else
  spyt ← read r;
  if decide (rel_ReleaseStatus spyt = SpytReleaseStatusFinished) then
    mret (SimpleStatus SyncStatusReady, None)
  else
  release_secret r (spc_labeller s) (spc_secret s) dry SpytReleaseStatusCreatingUserSecret
  (release_job r (spc_initUser s) dry false
     (script ← releaser_script "spyt_releaser" (spc_secret s); SetInitScript (spc_initUser s) script)
     SpytReleaseStatusCreatingUser
  (fun _ => release_job r (spc_initEnvironment s) dry false
     (prepare_release (spc_initEnvironment s) (spc_cfgen s) (spc_secret s) spyt_initScript
        [mkEnvVar "EXTRA_PUBLISH_CLUSTER_OPTIONS" "--ignore-existing" None])
     SpytReleaseStatusUploadingIntoCypress
  (fun _ => _ ← set_ReleaseStatus r SpytReleaseStatusFinished; mret (SimpleStatus SyncStatusReady, None)))).

Definition Spyt_Fetch (s : SpytComponent) : M W error :=
  in_order [InitJob_Fetch (spc_initUser s); InitJob_Fetch (spc_initEnvironment s); Fetch (spc_secret s)].
End SpytComponent.

(** ** controllers/chyt_sync.go, spyt_sync.go

    The two reconcilers are the same code for the two components. *)

Section ReleaseSync.
Context {H E R S : Type} `{K : Kube E} `{RR : ReleaseResource R S} `{RW : ReleaseWriter R E}.
Context `{ED : EqDecision S}.
Local Abbreviation W := (World H E).

(** [RequeueAfter: time.Second * 10]. *)
Definition release_later : Result := mkResult false 10.
Definition release_done : Result := mkResult false 0.

Definition release_Sync (r : Ref H R) (fetch : M W error) (doSync : bool -> M W SyncResult) (finished : S)
    : M W (Result * error) :=
  err ← fetch;
  match err with
  | Some _ => mret (requeue, err)
  | None =>
      o ← read r;
      if decide (rel_ReleaseStatus o = finished) then mret (release_done, None)
      else
        (* [Status]: a dry run, that panics on an error. *)
        '(status, err) ← doSync true;
        match err with
        | Some _ => panic
        | None =>
            if decide (cst_SyncStatus status = SyncStatusBlocked) then mret (release_later, None)
            else if decide (cst_SyncStatus status = SyncStatusReady) then
              err ← SaveReleaseStatus r finished;
              mret (requeue, err)
            else
              '(_, err) ← doSync false;
              match err with
              | Some _ => mret (requeue, err)
              | None =>
                  err ← Release_UpdateStatus r;
                  mret (requeue, err)
              end
        end
  end.
End ReleaseSync.

Section Reconcilers.
Context {H E : Type} `{K : Kube E} `{CM : ConditionMeta} `{CO : Codec} `{Y : Yt E} `{EN : Entropy E}.
Context `{RWC : ReleaseWriter Chyt E} `{RWS : ReleaseWriter Spyt E}.
Local Abbreviation W := (World H E).

Definition ChytReconciler_Sync (c : ChytComponent (H:=H) (E:=E)) : M W (Result * error) :=
  release_Sync (cyc_chyt c) (Chyt_Fetch c) (Chyt_doSync c) ChytReleaseStatusFinished.
Definition SpytReconciler_Sync (s : SpytComponent (H:=H) (E:=E)) : M W (Result * error) :=
  release_Sync (spc_spyt s) (Spyt_Fetch s) (Spyt_doSync s) SpytReleaseStatusFinished.
End Reconcilers.

(** ** The conditions of the resource *)

Section ReleaseConditions.
Context {H E R S : Type} `{K : Kube E} `{CM : ConditionMeta} `{CL : !ConditionMetaLaws CM}.
Context `{RR : ReleaseResource R S}.
Local Abbreviation W := (World H E).

(** The proxy of the resource is a condition manager: the conditions are those
    in its variable. *)
#[export] Instance Release_conditions_laws (r : Ref H R) :
  ConditionManagerLaws (H:=H) (E:=E) (Release_conditions r).
Proof.
  refine {| manages := fun w => conditions_wf (rel_Conditions (load r (heap w)));
            kept := fun w => kept_in (rel_Conditions (load r (heap w)));
            undisturbed := same r |}.
  - intros w t Hwf. simpl. unfold Release_IsStatusConditionTrue, read. rewrite run_gets.
    unfold mret, M_ret. do 2 f_equal. by apply query_kept, is_true_spec.
  - intros w t Hwf. simpl. unfold Release_IsStatusConditionFalse, read. rewrite run_gets.
    unfold mret, M_ret. do 2 f_equal. by apply query_kept, is_false_spec.
  - intros w c Hwf. eexists. split; [reflexivity|]. simpl. rewrite load_store, rel_Conditions_set.
    pose proof (set_wf (client_now (ext w)) _ c Hwf) as Hwf2.
    repeat split; [done|]. intros t. apply option_ext_iff. intros s.
    rewrite kept_in_holds by done. rewrite set_holds by done.
    case_decide; [split; congruence|by rewrite kept_in_holds].
  - by intros w w' ->.
  - by intros w w' t ->.
Defined.
End ReleaseConditions.
