(* ===== verification/ReleaseFacts.v ===== *)
(** * What the reconcilers of the Chyt and Spyt resources do

    The release status of a Chyt or Spyt resource names the first step that is
    missing, and is [Finished] only when none is. *)

From S2P Require Import Prelude GoPath Api Kube Conditions Samples CellId Labeller Names Proxy Component Resources ConfigHelper Server InitJob Observe ServerComponent Nodes YtApi Yson Logging CommonConfig NodeConfig YtsaurusClient StateJobs Agents Sync Manager Ui ServerConfigs Constructors Releases.

(** ** The steps *)

Section Steps.
Context {H E R S : Type} `{K : Kube E} `{CM : ConditionMeta} `{CO : Codec} `{Y : Yt E} `{EN : Entropy E}.
Context `{CL : !ConditionMetaLaws CM} `{RR : ReleaseResource R S}.
Local Abbreviation W := (World H E).
Context (r : Ref H R) (secret : Handle H KSecret) (finished : S).
Implicit Types (j : InitJob H E) (w : W).

Definition release_status w : S := rel_ReleaseStatus (load r (heap w)).
Definition release_conditions w : list Condition := rel_Conditions (load r (heap w)).

(** The token and the jobs, as last fetched. *)
Definition token_missing w : bool :=
  bool_decide (GetResourceVersion (k:=KSecret) (load (oldObject secret) (heap w)) = "") ||
  bool_decide (sec_Data (load (oldObject secret) (heap w)) !! TokenSecretKey = None).
Definition job_done j w : bool :=
  bool_decide (kept_in (release_conditions w) (ij_initCompletedCondition j) = Some ConditionTrue).

(** The world with another release status. *)
Definition released (s : S) w : W :=
  mkWorld (resource w) (store r (set_rel_ReleaseStatus s (load r (heap w))) (heap w)) (ext w).

Lemma set_ReleaseStatus_run s w : set_ReleaseStatus r s w = Some (tt, released s w).
Proof. done. Qed.

Lemma released_status s w : release_status (released s w) = s.
Proof. unfold release_status, released. simpl. by rewrite load_store, rel_ReleaseStatus_set. Qed.

Lemma released_conditions s w : release_conditions (released s w) = release_conditions w.
Proof. unfold release_conditions, released. simpl. by rewrite load_store, rel_Conditions_release. Qed.

(** What preparing a job leaves alone: the cluster, the resource and the token. *)
Definition aside w w' : Prop :=
  resource w' = resource w /\ same r w w' /\ same (oldObject secret) w w'.

#[export] Instance aside_preorder : PreOrder aside.
Proof.
  split; [by intros w|]. intros w1 w2 w3 (H1 & H2 & H3) (H4 & H5 & H6).
  split; [congruence|]. split; etransitivity; eassumption.
Qed.

Record job_apart j : Prop := {
  apart_resource_cm : separate r (newObject (ch_configMap (ij_configHelper j)));
  apart_resource_job : separate r (newObject (ij_initJob j));
  apart_resource_built : separate r (ij_built j);
  apart_token_cm : separate (oldObject secret) (newObject (ch_configMap (ij_configHelper j)));
  apart_token_job : separate (oldObject secret) (newObject (ij_initJob j));
  apart_token_built : separate (oldObject secret) (ij_built j);
}.

(** Each job reports to the resource and has variables of its own. *)
Definition job_wired j : Prop := ij_conditionsManager j = Release_conditions r /\ job_apart j.

(** The same of the variables a constructor is given. *)
Record vars_apart (v : InitJobVars H) : Prop := {
  vars_resource_cm : separate r (jv_configMap_new v);
  vars_resource_job : separate r (jv_job_new v);
  vars_resource_built : separate r (jv_built v);
  vars_token_cm : separate (oldObject secret) (jv_configMap_new v);
  vars_token_job : separate (oldObject secret) (jv_job_new v);
  vars_token_built : separate (oldObject secret) (jv_built v);
}.

Lemma NewInitJob_wired v l ips name file image gen :
  vars_apart v -> job_wired (NewInitJob v l (Release_conditions r) ips name file image gen).
Proof. intros []. split; [done|by split]. Qed.

Lemma aside_write {A} (q : Ref H A) a :
  separate r q -> separate (oldObject secret) q -> preserves aside (write q a : M W unit).
Proof. intros H1 H2. apply preserves_modify. intros w. split; [done|]. split; [apply H1|apply H2]. Qed.

Lemma aside_reports {A} (m : M W A) (g : W -> A) : (forall w, reports m w (g w)) -> preserves aside m.
Proof.
  intros Hm w b w' Hr. destruct (Hm w) as (w1 & H1 & Hres & Hh). rewrite Hr in H1.
  injection H1 as _ <-. unfold aside, same. by rewrite Hres, Hh.
Qed.

Lemma preserves_bind_yields {A B} (Q : A -> Prop) (m : M W A) (f : A -> M W B) :
  preserves aside m -> yields Q m -> (forall a, Q a -> preserves aside (f a)) -> preserves aside (m ≫= f).
Proof.
  intros Hm Hq Hf w b w' (a & w1 & Ha & Hrun)%bind_inv.
  transitivity w1; [by eapply Hm|]. eapply Hf; [by eapply Hq|exact Hrun].
Qed.

Lemma ConfigHelper_Build_yields h :
  yields (fun o => o = None \/ o = Some (newObject (ch_configMap h))) (ConfigHelper_Build h : M W _).
Proof.
  intros w o w' (cm & w1 & Hcm & (ok & w2 & _ & Hret)%bind_inv)%bind_inv. injection Hret as <- _.
  unfold ConfigMap_Build in Hcm. inv_run Hcm. injection Hcm as <- _. destruct ok; auto.
Qed.

Lemma InitJob_Build_yields j :
  yields (fun o => o = newObject (ij_initJob j)) (InitJob_Build j : M W _).
Proof.
  intros w o w'. unfold InitJob_Build, read. rewrite run_gets.
  destruct (load (ij_built j) (heap w)); intros Hrun; by injection Hrun as <- _.
Qed.

Lemma SetInitScript_aside j script : job_apart j -> preserves aside (SetInitScript j script : M W unit).
Proof.
  intros []. eapply preserves_bind_yields; [|apply ConfigHelper_Build_yields|].
  - apply build_preserves; [tc_solve|intros; by apply aside_write|].
    intros f. eapply aside_reports. intros w. apply getConfig_reports.
  - intros o [->| ->]; [done|]. apply preserves_bind; [tc_solve|apply preserves_gets, _|].
    intros c. by apply aside_write.
Qed.

Lemma InitJob_Build_aside j : job_apart j -> preserves aside (InitJob_Build j : M W _).
Proof.
  intros []. unfold InitJob_Build. apply preserves_bind; [tc_solve|apply preserves_gets, _|].
  intros []; [apply preserves_ret, _|].
  eapply (preserves_bind_yields (fun o => o = newObject (ij_initJob j))).
  - unfold Job_Build. apply preserves_bind; [tc_solve|apply preserves_gets, _|]. intros o.
    apply preserves_bind; [tc_solve|by apply aside_write|]. intros. apply preserves_ret, _.
  - intros w o w' Hrun. unfold Job_Build in Hrun. inv_run Hrun. inv_run Hrun. by injection Hrun as <- _.
  - intros o ->. apply preserves_bind; [tc_solve|apply preserves_gets, _|]. intros o.
    do 2 (apply preserves_bind; [tc_solve|by apply aside_write|]; intros _). apply preserves_ret, _.
Qed.

Lemma aside_gets_bind {A B} (f : W -> A) (m : A -> M W B) :
  (forall a, preserves aside (m a)) -> preserves aside (gets f ≫= m).
Proof. intros. apply preserves_bind; [tc_solve|apply preserves_gets, _|done]. Qed.

(** Changing the container of a job that is built. *)
Lemma built_job_aside j (edit : Ref H Job -> M W unit) :
  job_apart j -> preserves aside (edit (newObject (ij_initJob j))) ->
  preserves aside (job ← InitJob_Build j; edit job).
Proof.
  intros Hj He. eapply preserves_bind_yields; [by apply InitJob_Build_aside|apply InitJob_Build_yields|].
  by intros o ->.
Qed.

Lemma job_env_aside j env : job_apart j -> preserves aside (job_env (newObject (ij_initJob j)) env : M W unit).
Proof.
  intros []. apply aside_gets_bind. intros o. cbv zeta.
  destruct (ps_Containers _); [apply preserves_panic|by apply aside_write].
Qed.

Lemma job_env_from_aside j s :
  job_apart j -> preserves aside (job_env_from (newObject (ij_initJob j)) s : M W unit).
Proof.
  intros []. apply aside_gets_bind. intros o. cbv zeta.
  destruct (ps_Containers _); [apply preserves_panic|by apply aside_write].
Qed.

Lemma GetValue_aside s key : preserves aside (StringSecret_GetValue s key : M W _).
Proof. apply aside_gets_bind. intros o. destruct (_ !! _); apply preserves_ret, _. Qed.

Lemma prepare_release_aside j cfgen script extra :
  job_apart j -> preserves aside (prepare_release j cfgen secret script extra : M W unit).
Proof.
  intros Hj. apply preserves_bind; [tc_solve|by apply SetInitScript_aside|]. intros _.
  eapply preserves_bind_yields; [by apply InitJob_Build_aside|apply InitJob_Build_yields|].
  intros o ->. apply preserves_bind; [tc_solve|apply GetValue_aside|]. intros [token ok].
  by apply job_env_aside.
Qed.

Lemma prepare_state_job_aside j script :
  job_apart j -> preserves aside (prepare_state_job j secret script : M W unit).
Proof.
  intros Hj. apply preserves_bind; [tc_solve|by apply SetInitScript_aside|]. intros _.
  eapply preserves_bind_yields; [by apply InitJob_Build_aside|apply InitJob_Build_yields|].
  intros o ->. by apply job_env_from_aside.
Qed.

Lemma prepare_user_aside j user :
  job_apart j ->
  preserves aside (script ← releaser_script user secret; SetInitScript j script : M W unit).
Proof.
  intros Hj. apply preserves_bind; [tc_solve| |intros; by apply SetInitScript_aside].
  apply preserves_bind; [tc_solve|apply GetValue_aside|]. intros [token ok]. apply preserves_ret, _.
Qed.

(** ** The answer of a synchronisation

    [missing] is the first step that is not done: the status names it, and is
    [Ready] when there is none.  A dry run changes nothing else. *)
Definition answers (dry : bool) (m : M W SyncResult) w (missing : option S) : Prop :=
  forall res w', m w = Some (res, w') ->
    (cst_SyncStatus res.1 = SyncStatusReady <-> missing = None) /\
    release_status w' = default finished missing /\
    (dry = true -> res.2 = None /\ w' = released (default finished missing) w).

Lemma NeedSync_run w :
  StringSecret_NeedSync secret TokenSecretKey "" w = Some (token_missing w, w).
Proof.
  unfold StringSecret_NeedSync, token_missing. rewrite (bind_step _ _ _ _ _ (Exists_run _ w)).
  rewrite negb_involutive. destruct (bool_decide _); [done|].
  unfold StringSecret_GetValue, read. rewrite run_assoc, run_gets.
  by destruct (_ !! _).
Qed.

Lemma secret_answers dry l s rest w missing :
  (token_missing w = false -> answers dry rest w missing) ->
  answers dry (release_secret r l secret dry s rest) w (if token_missing w then Some s else missing).
Proof.
  intros Hrest res w' Hrun. unfold release_secret in Hrun.
  rewrite (bind_step _ _ _ _ _ (NeedSync_run w)) in Hrun.
  destruct (token_missing w); [|by apply Hrest]. inv_run Hrun.
  rewrite (bind_step _ _ _ _ _ (set_ReleaseStatus_run s w0)) in Hrun. injection Hrun as <- <-.
  split; [done|]. split; [apply released_status|]. intros ->. by injection Hrun0 as <- <-.
Qed.

(** A job that keeps its condition in the resource. *)
Lemma InitJob_Sync_release j dry w res w' :
  ij_conditionsManager j = Release_conditions r -> conditions_wf (release_conditions w) ->
  InitJob_Sync j dry w = Some (res, w') ->
  if job_done j w then cst_SyncStatus res.1 = SyncStatusReady /\ res.2 = None /\ w' = w
  else cst_SyncStatus res.1 <> SyncStatusReady /\ (dry = true -> res.2 = None /\ w' = w).
Proof.
  intros Hj Hwf Hrun. destruct j as [l cmg ips ij ch cond img built]. simpl in Hj. subst cmg.
  set (j := mkInitJob _ _ _ _ _ _ _ _ _ _) in *.
  rewrite (InitJob_Sync_run j (CML := Release_conditions_laws r)) in Hrun by done.
  unfold job_done. unfold init_completed in Hrun. simpl kept in Hrun. fold (release_conditions w) in Hrun.
  destruct (bool_decide _); [injection Hrun as <- <-; done|].
  destruct (job_exists _ _); cbv beta iota delta [negb] in Hrun.
  - destruct (job_succeeded _ _); cbv beta iota in Hrun; [|injection Hrun as <- <-; done].
    inv_run Hrun. injection Hrun as <- <-. split; [done|]. intros ->. by injection Hrun0 as _ <-.
  - inv_run Hrun. injection Hrun as <- <-. split; [done|]. intros ->. by injection Hrun0 as <- <-.
Qed.

Lemma job_answers j dry check_err prepare s rest w missing :
  ij_conditionsManager j = Release_conditions r -> conditions_wf (release_conditions w) ->
  preserves aside prepare ->
  (forall w1, aside w w1 -> (dry = true -> w1 = w) -> job_done j w = true ->
     answers dry (rest None) w1 missing) ->
  answers dry (release_job r j dry check_err prepare s rest) w
    (if job_done j w then missing else Some s).
Proof.
  intros Hj Hwf Hp Hrest res w' Hrun. unfold release_job in Hrun.
  apply bind_inv in Hrun as ([] & w1 & Hprep & Hrun).
  assert (aside w w1 /\ (dry = true -> w1 = w)) as [Ha Hd].
  { destruct dry; [by injection Hprep as <-|]. split; [by eapply Hp|done]. }
  apply bind_inv in Hrun as ([st err] & w2 & Hsync & Hrun).
  pose proof Ha as (_ & Hr & _).
  assert (release_conditions w1 = release_conditions w) as Hc by (unfold release_conditions; by rewrite Hr).
  apply InitJob_Sync_release in Hsync; [|done|by rewrite Hc].
  unfold job_done in Hsync. rewrite Hc in Hsync. fold (job_done j w) in Hsync.
  destruct (job_done j w) eqn:Hdone.
  - destruct Hsync as (Hst & Herr & ->). simpl in Hst, Herr. subst err. rewrite Hst in Hrun.
    rewrite bool_decide_eq_true_2, andb_false_r in Hrun by done. simpl in Hrun.
    eapply Hrest in Hrun as (H1 & H2 & H3); [|done..]. split; [done|]. split; [done|].
    intros Hdry. rewrite (Hd Hdry) in H3. auto.
  - destruct Hsync as [Hst Hsync]. simpl in Hst, Hsync.
    rewrite (bool_decide_eq_false_2 _ Hst), orb_true_r in Hrun.
    rewrite (bind_step _ _ _ _ _ (set_ReleaseStatus_run s w2)) in Hrun. injection Hrun as <- <-.
    split; [done|]. split; [apply released_status|]. intros Hdry.
    destruct (Hsync Hdry) as [-> ->]. by rewrite (Hd Hdry).
Qed.

Lemma finish_answers dry err w :
  (dry = true -> err = None) ->
  answers dry (_ ← set_ReleaseStatus r finished; mret (SimpleStatus SyncStatusReady, err)) w None.
Proof.
  intros He res w' Hrun. rewrite (bind_step _ _ _ _ _ (set_ReleaseStatus_run finished w)) in Hrun.
  injection Hrun as <- <-. split; [done|]. split; [apply released_status|]. auto.
Qed.

Lemma released_token s w :
  separate (oldObject secret) r -> token_missing (released s w) = token_missing w.
Proof. intros Hs. unfold token_missing, released. simpl. by rewrite Hs. Qed.

Lemma released_job_done j s w : job_done j (released s w) = job_done j w.
Proof. unfold job_done. by rewrite released_conditions. Qed.

Lemma aside_conditions w w1 : aside w w1 -> release_conditions w1 = release_conditions w.
Proof. intros (_ & Hr & _). unfold release_conditions. by rewrite Hr. Qed.

Lemma aside_job_done j w w1 : aside w w1 -> job_done j w1 = job_done j w.
Proof. intros Ha. unfold job_done. by rewrite (aside_conditions w w1 Ha). Qed.

Lemma answers_gets {A} dry (g : W -> A) (f : A -> M W SyncResult) w missing :
  answers dry (f (g w)) w missing -> answers dry (gets g ≫= f) w missing.
Proof. done. Qed.
End Steps.

(** ** The reconcilers *)

Section Reconciler.
Context {H E R S : Type} `{K : Kube E} `{CM : ConditionMeta}.
Context `{CL : !ConditionMetaLaws CM} `{RR : ReleaseResource R S} `{RW : ReleaseWriter R E} `{ED : EqDecision S}.
Local Abbreviation W := (World H E).
Context (r : Ref H R) (finished : S).
Implicit Types w : W.

Definition cluster_running w : Prop := st_State (status w) = ClusterStateRunning.

(** What a reconciliation makes of the resource it fetched ([w]), when
    [missing] is the first missing step. *)
Definition release_outcome (missing : option S) w (res : Result) (err : error) w' : Prop :=
  if decide (release_status r w = finished) then res = release_done /\ err = None /\ w' = w
  else if decide (cluster_running w) then
    match missing with
    | None =>
        (** The release is finished, and saved as such. *)
        res = requeue /\ Release_UpdateStatus r (released r finished w) = Some (err, w')
    | Some s =>
        (** The resource names the step; the step is waited for, or tried and
            the status saved. *)
        release_status r w' = s /\ s <> finished /\
        (res = release_later /\ err = None /\ w' = released r s w \/
         res = requeue /\
         (err = None -> exists w2, Release_UpdateStatus r w2 = Some (None, w')))
    end
  else res = release_later /\ err = None /\ w' = w.

Lemma released_released s t w : released r s (released r t w) = released r s w.
Proof.
  unfold released. simpl. by rewrite load_store, rel_release_release, store_store.
Qed.

Lemma UpdateStatus_aside w err w' :
  Release_UpdateStatus r w = Some (err, w') -> release_status r w' = release_status r w.
Proof.
  unfold Release_UpdateStatus, read. rewrite run_gets. unfold outside.
  destruct (client_StatusUpdate_release _ _). by intros [= _ <-].
Qed.

Context (fetch : M W error) (doSync : bool -> M W SyncResult) (missing : W -> option S).

Lemma release_Sync_outcome w w1 res err w' :
  fetch w = Some (None, w1) ->
  (~ cluster_running w1 -> exists st,
     cst_SyncStatus st = SyncStatusBlocked /\ doSync true w1 = Some ((st, None), w1)) ->
  (release_status r w1 <> finished -> cluster_running w1 ->
     answers r finished true (doSync true) w1 (missing w1) /\
     forall s, s <> finished -> answers r finished false (doSync false) (released r s w1) (missing w1)) ->
  missing w1 <> Some finished ->
  release_Sync r fetch doSync finished w = Some ((res, err), w') ->
  release_outcome (missing w1) w1 res err w'.
Proof.
  intros Hfetch Hblocked Hsync Hmiss Hrun. unfold release_Sync in Hrun.
  rewrite (bind_step _ _ _ _ _ Hfetch) in Hrun. unfold read in Hrun. rewrite run_gets in Hrun.
  fold (release_status r w1) in Hrun. unfold release_outcome.
  destruct (decide (release_status r w1 = finished)) as [|Hf]; [by injection Hrun as <- <- <-|].
  destruct (decide (cluster_running w1)) as [Hc|Hc].
  2:{ destruct (Hblocked Hc) as (st & Hst & Hdry). rewrite (bind_step _ _ _ _ _ Hdry) in Hrun.
      rewrite decide_True in Hrun by done. by injection Hrun as <- <- <-. }
  destruct (Hsync Hf Hc) as [Ha Hwet].
  apply bind_inv in Hrun as ([st e] & w2 & Hdry & Hrun).
  destruct (Ha _ _ Hdry) as (Hst & _ & Hw2). destruct (Hw2 eq_refl) as [He ->].
  simpl in Hst, He. subst e. clear Ha Hw2.
  destruct (missing w1) as [s|]; simpl default in *.
  - assert (s <> finished) as Hs by congruence.
    case_decide; [injection Hrun as <- <- <-; split; [apply released_status|]; split; [done|by left]|].
    rewrite decide_False in Hrun by naive_solver.
    apply bind_inv in Hrun as ([st2 e2] & w3 & Hw & Hrun).
    destruct (Hwet s Hs _ _ Hw) as (_ & Hs3 & _). simpl in Hs3. destruct e2 as [m|].
    + injection Hrun as <- <- <-. split; [done|]. split; [done|]. right. done.
    + apply bind_inv in Hrun as (e4 & w4 & Hup & Hrun). injection Hrun as <- <- <-.
      rewrite (UpdateStatus_aside _ _ _ Hup). split; [done|]. split; [done|]. right. split; [done|].
      intros ->. eauto.
  - assert (cst_SyncStatus st = SyncStatusReady) as Hready by by apply Hst.
    rewrite Hready in Hrun. rewrite decide_False, decide_True in Hrun by done.
    apply bind_inv in Hrun as (e & w3 & Hsave & Hrun). injection Hrun as <- <- <-. split; [done|].
    unfold SaveReleaseStatus in Hsave.
    rewrite (bind_step _ _ _ _ _ (set_ReleaseStatus_run r finished _)) in Hsave.
    by rewrite released_released in Hsave.
Qed.
End Reconciler.

(** ** CHYT *)

Section Chyt.
Context {H E : Type} `{K : Kube E} `{CM : ConditionMeta} `{CO : Codec} `{Y : Yt E} `{EN : Entropy E}.
Context `{CL : !ConditionMetaLaws CM} `{RW : ReleaseWriter Chyt E}.
Local Abbreviation W := (World H E).
Context (c : ChytComponent (H:=H) (E:=E)).
Let r := cyc_chyt c.

Record chyt_wired : Prop := {
  chyt_token_apart : separate (oldObject (cyc_secret c)) r;
  chyt_user_wired : job_wired r (cyc_secret c) (cyc_initUser c);
  chyt_environment_wired : job_wired r (cyc_secret c) (cyc_initEnvironment c);
  chyt_ch_public_wired : job_wired r (cyc_secret c) (cyc_initChPublicJob c);
}.

(** The public clique is made when the cluster has a controller of cliques and
    this release is the default one. *)
Definition wants_clique (w : W) : bool :=
  is_some (sp_StrawberryController (yt_Spec (resource w))) &&
  chyt_MakeDefault (chyt_Spec (load r (heap w))).

Definition chyt_missing (w : W) : option ChytReleaseStatus :=
  if token_missing (cyc_secret c) w then Some ChytReleaseStatusCreatingUserSecret
  else if job_done r (cyc_initUser c) w then
    if job_done r (cyc_initEnvironment c) w then
      if wants_clique w then
        if job_done r (cyc_initChPublicJob c) w then None else Some ChytReleaseStatusCreatingChPublicClique
      else None
    else Some ChytReleaseStatusUploadingIntoCypress
  else Some ChytReleaseStatusCreatingUser.

Lemma chyt_answers dry w :
  chyt_wired -> cluster_running w -> conditions_wf (release_conditions r w) ->
  answers r ChytReleaseStatusFinished dry (Chyt_doSync c dry) w (chyt_missing w).
Proof.
  intros [Ht [Hu1 Hu2] [He1 He2] [Hp1 Hp2]] Hc Hwf. unfold Chyt_doSync. cbv zeta. fold r.
  apply answers_gets. rewrite decide_False by (intros Hn; by apply Hn).
  unfold chyt_missing. apply secret_answers. intros _.
  apply (job_answers r (cyc_secret c)); [done|done|by apply prepare_user_aside|]. intros w1 Ha1 Hd1 _.
  pose proof (aside_conditions r (cyc_secret c) _ _ Ha1) as Hc1.
  rewrite <- (aside_job_done r _ (cyc_initEnvironment c) w w1 Ha1).
  apply (job_answers r (cyc_secret c)); [done|by rewrite Hc1| |].
  { apply aside_gets_bind. intros chyt. by apply prepare_release_aside. }
  intros w2 Ha2 Hd2 _. assert (aside r (cyc_secret c) w w2) as Ha by by transitivity w1.
  rewrite <- (aside_job_done r _ (cyc_initChPublicJob c) w w2 Ha).
  do 2 apply answers_gets. pose proof Ha as (Hy & Hr & _). unfold wants_clique.
  rewrite <- Hy, <- Hr. destruct (_ && _); [|by apply finish_answers].
  apply (job_answers r (cyc_secret c)); [done|by rewrite (aside_conditions r (cyc_secret c) w w2)|by apply prepare_state_job_aside|].
  intros. by apply finish_answers.
Qed.

Lemma chyt_missing_released s w : chyt_wired -> chyt_missing (released r s w) = chyt_missing w.
Proof.
  intros Hw. unfold chyt_missing, wants_clique. rewrite (released_token r), !released_job_done by apply Hw.
  simpl. by rewrite load_store.
Qed.

(** C15. The reconciler of a Chyt resource follows the steps of the release: once
    what belongs to the release is fetched, a finished release is left alone
    and not looked at again, a cluster that is not running is waited for,
    otherwise the release status names the first step that is missing (the
    token, the user, the upload, and, for the default release of a cluster
    with a controller of cliques, the public clique) and is [Finished], and
    saved, only when no step is. *)
Theorem ChytReconciler_Sync_follows (w w1 : W) (res : Result) (err : error) (w' : W)
    (Hwired : chyt_wired) (Hfetch : Chyt_Fetch c w = Some (None, w1))
    (Hwf : conditions_wf (release_conditions r w1))
    (Hrun : ChytReconciler_Sync c w = Some ((res, err), w')) :
  release_outcome r ChytReleaseStatusFinished (chyt_missing w1) w1 res err w'.
Proof.
  eapply release_Sync_outcome; [exact Hfetch| | | |exact Hrun].
  - intros Hc. eexists. split; [|unfold Chyt_doSync; cbv zeta; unfold GetClusterState].
    2:{ rewrite run_gets, decide_True by done. done. }
    done.
  - intros _ Hc. split; [by apply chyt_answers|]. intros s _. rewrite <- (chyt_missing_released s) by done.
    apply chyt_answers; [done|done|]. by rewrite released_conditions.
  - unfold chyt_missing. repeat case_match; discriminate.
Qed.
End Chyt.

(** ** SPYT *)

Section Spyt.
Context {H E : Type} `{K : Kube E} `{CM : ConditionMeta} `{CO : Codec} `{Y : Yt E} `{EN : Entropy E}.
Context `{CL : !ConditionMetaLaws CM} `{RW : ReleaseWriter Spyt E}.
Local Abbreviation W := (World H E).
Context (s : SpytComponent (H:=H) (E:=E)).
Let r := spc_spyt s.

Record spyt_wired : Prop := {
  spyt_token_apart : separate (oldObject (spc_secret s)) r;
  spyt_user_wired : job_wired r (spc_secret s) (spc_initUser s);
  spyt_environment_wired : job_wired r (spc_secret s) (spc_initEnvironment s);
}.

Definition spyt_missing (w : W) : option SpytReleaseStatus :=
  if token_missing (spc_secret s) w then Some SpytReleaseStatusCreatingUserSecret
  else if job_done r (spc_initUser s) w then
    if job_done r (spc_initEnvironment s) w then None else Some SpytReleaseStatusUploadingIntoCypress
  else Some SpytReleaseStatusCreatingUser.

Lemma spyt_answers dry w :
  spyt_wired -> cluster_running w -> release_status r w <> SpytReleaseStatusFinished ->
  conditions_wf (release_conditions r w) ->
  answers r SpytReleaseStatusFinished dry (Spyt_doSync s dry) w (spyt_missing w).
Proof.
  intros [Ht [Hu1 Hu2] [He1 He2]] Hc Hf Hwf. unfold Spyt_doSync. cbv zeta. fold r.
  apply answers_gets. rewrite decide_False by (intros Hn; by apply Hn).
  apply answers_gets. rewrite decide_False by done.
  unfold spyt_missing. apply secret_answers. intros _.
  apply (job_answers r (spc_secret s)); [done|done|by apply prepare_user_aside|]. intros w1 Ha1 Hd1 _.
  rewrite <- (aside_job_done r _ (spc_initEnvironment s) w w1 Ha1).
  apply (job_answers r (spc_secret s)); [done| |by apply prepare_release_aside|].
  { by rewrite (aside_conditions r (spc_secret s) _ _ Ha1). }
  intros. by apply finish_answers.
Qed.

Lemma spyt_missing_released t w : spyt_wired -> spyt_missing (released r t w) = spyt_missing w.
Proof.
  intros Hw. unfold spyt_missing. by rewrite (released_token r), !released_job_done by apply Hw.
Qed.

(** The reconciler of a Spyt resource follows the steps of its release in the
    same way: the token, the user, the upload. *)
Theorem SpytReconciler_Sync_follows (w w1 : W) (res : Result) (err : error) (w' : W)
    (Hwired : spyt_wired) (Hfetch : Spyt_Fetch s w = Some (None, w1))
    (Hwf : conditions_wf (release_conditions r w1))
    (Hrun : SpytReconciler_Sync s w = Some ((res, err), w')) :
  release_outcome r SpytReleaseStatusFinished (spyt_missing w1) w1 res err w'.
Proof.
  eapply release_Sync_outcome; [exact Hfetch| | | |exact Hrun].
  - intros Hc. eexists. split; [|unfold Spyt_doSync; cbv zeta; unfold GetResource].
    2:{ rewrite run_gets, decide_True by done. done. }
    done.
  - intros Hf Hc. split; [by apply spyt_answers|]. intros t Hneq. rewrite <- (spyt_missing_released t) by done.
    apply spyt_answers; [done|done| |by rewrite released_conditions]. by rewrite released_status.
  - unfold spyt_missing. repeat case_match; discriminate.
Qed.
End Spyt.

(** The constructors wire the components this way. *)
Section Wiring.
Context {H E : Type} `{K : Kube E} `{CM : ConditionMeta} `{U : Uuid} `{YP : YsonPretty}.

Lemma NewChyt_wired (vars : ReleaseVars H) user release ch_public cfgen r chyt ytsaurus :
  let c := NewChyt (E:=E) vars user release ch_public cfgen r chyt ytsaurus in
  separate (rv_secret_old vars) r ->
  vars_apart r (cyc_secret c) user -> vars_apart r (cyc_secret c) release ->
  vars_apart r (cyc_secret c) ch_public -> chyt_wired c.
Proof. intros c Hs H1 H2 H3. split; [done|by apply NewInitJob_wired..]. Qed.

Lemma NewSpyt_wired (vars : ReleaseVars H) user environment cfgen r spyt ytsaurus :
  let s := NewSpyt (E:=E) vars user environment cfgen r spyt ytsaurus in
  separate (rv_secret_old vars) r ->
  vars_apart r (spc_secret s) user -> vars_apart r (spc_secret s) environment -> spyt_wired s.
Proof. intros s Hs H1 H2. split; [done|by apply NewInitJob_wired..]. Qed.
End Wiring.

(** ** Witnesses *)

Import RefKube RefMeta RefCodec NoCluster.

Module ReleaseWitness.
#[export] Instance chyt_writer : ReleaseWriter Chyt YtsaurusStatus := fun _ e => (None, e).
#[export] Instance spyt_writer : ReleaseWriter Spyt YtsaurusStatus := fun _ e => (None, e).
#[export] Instance uuid : Uuid := sample_uuid_lib.
#[export] Instance yson_pretty : YsonPretty := fun _ => inr ""%string.

Definition cluster : Ytsaurus := sample_Ytsaurus ClusterStateRunning.
Definition cfgen : Generator := NewGenerator cluster "cluster.local".

(** The resource, its token and three jobs. *)
Definition heap_t (R : Type) : Type :=
  R * (Secret * (Secret * (JobWitness.heap_t * (JobWitness.heap_t * JobWitness.heap_t)))).
Definition resource_at {R} : Ref (heap_t R) R := fst_ref.
Definition job_vars {R} (r : Ref (heap_t R) JobWitness.heap_t) : InitJobVars (heap_t R) :=
  let v := JobWitness.vars in
  mkInitJobVars (heap_t R) (comp_ref r (jv_job_old v)) (comp_ref r (jv_job_new v))
    (comp_ref r (jv_overrides v)) (comp_ref r (jv_configMap_old v)) (comp_ref r (jv_configMap_new v))
    (comp_ref r (jv_built v)).
Definition jobs_at {R} : Ref (heap_t R) (JobWitness.heap_t * (JobWitness.heap_t * JobWitness.heap_t)) :=
  comp_ref snd_ref (comp_ref snd_ref snd_ref).
Definition vars {R} : ReleaseVars (heap_t R) :=
  mkReleaseVars (heap_t R) (comp_ref snd_ref fst_ref) (comp_ref snd_ref (comp_ref snd_ref fst_ref)).
Definition first {R} := job_vars (R:=R) (comp_ref jobs_at fst_ref).
Definition second {R} := job_vars (R:=R) (comp_ref jobs_at (comp_ref snd_ref fst_ref)).
Definition third {R} := job_vars (R:=R) (comp_ref jobs_at (comp_ref snd_ref snd_ref)).

Definition completed (t : string) : Condition := mkCondition t ConditionTrue 0 "InitJobCompleted" "".
Definition jobs := heap (JobWitness.world JobWitness.job_zero []).
Definition world {R} (o : R) : World (heap_t R) YtsaurusStatus :=
  mkWorld cluster (o, (token, (StateJobWitness.secret_zero, (jobs, (jobs, jobs)))))
    (sample_Status ClusterStateRunning).

(** A release whose user exists and that is not uploaded yet. *)
Definition chyt : Chyt :=
  mkChyt "ch" "default" (mkChytSpec [] (Some "minisaurus") "chyt:dev" true)
    (mkChytStatus [completed "userCHYT-chInitJobCompleted"] (ChytReleaseStatusOther "")).
Definition chyt_component := NewChyt vars first second third cfgen resource_at chyt cluster.

(** A release with nothing left to do. *)
Definition spyt : Spyt :=
  mkSpyt "sp" "default" (mkSpytSpec [] (Some "minisaurus") "spyt:dev")
    (mkSpytStatus [completed "userSPYT-spInitJobCompleted"; completed "spyt-environmentSPYT-spInitJobCompleted"]
       SpytReleaseStatusUploadingIntoCypress).
Definition spyt_component := NewSpyt vars first second cfgen resource_at spyt cluster.
End ReleaseWitness.

Import ReleaseWitness.

Lemma ChytReconciler_Sync_follows_witness :
  exists w', ChytReconciler_Sync chyt_component (world chyt) = Some ((requeue, None), w') /\
    release_status resource_at w' = ChytReleaseStatusUploadingIntoCypress.
Proof.
  assert (fst <$> ChytReconciler_Sync chyt_component (world chyt) = Some (requeue, None)) as Hres
    by (vm_compute; reflexivity).
  destruct (ChytReconciler_Sync chyt_component (world chyt)) as [[ans w']|] eqn:Hrun; [|discriminate Hres].
  simpl in Hres. injection Hres as ->.
  exists w'. split; [done|].
  refine (proj1 (ChytReconciler_Sync_follows chyt_component (world chyt) (world chyt) requeue None w' _ _ _ Hrun)).
  - apply NewChyt_wired; repeat split; intros ? ?; reflexivity.
  - vm_compute. reflexivity.
  - apply (bool_decide_unpack _). vm_compute. exact I.
Defined.

Lemma SpytReconciler_Sync_follows_witness :
  exists w', SpytReconciler_Sync spyt_component (world spyt) = Some ((requeue, None), w') /\
    Release_UpdateStatus resource_at (released resource_at SpytReleaseStatusFinished (world spyt)) =
      Some (None, w').
Proof.
  assert (fst <$> SpytReconciler_Sync spyt_component (world spyt) = Some (requeue, None)) as Hres
    by (vm_compute; reflexivity).
  destruct (SpytReconciler_Sync spyt_component (world spyt)) as [[ans w']|] eqn:Hrun; [|discriminate Hres].
  simpl in Hres. injection Hres as ->.
  exists w'. split; [done|].
  refine (proj2 (SpytReconciler_Sync_follows spyt_component (world spyt) (world spyt) requeue None w' _ _ _ Hrun)).
  - apply NewSpyt_wired; repeat split; intros ? ?; reflexivity.
  - vm_compute. reflexivity.
  - apply (bool_decide_unpack _). vm_compute. exact I.
Defined.
