(* ===== verification/RemoteNodes.v ===== *)
(** * Remote exec nodes: pkg/components/exec_node_remote.go,
    controllers/remoteexecnodes_sync.go

    Remote exec nodes belong to a [RemoteExecNodes] resource and join a cluster
    run elsewhere, described by a [RemoteYtsaurus] resource.  The resource of
    the world stands for the [RemoteExecNodes], as far as the objects of the
    nodes see it ([stands_for]); its status is in a variable of the heap. *)

From S2P Require Import Prelude GoPath Api Kube Conditions Samples CellId Labeller Names Proxy Component Resources ConfigHelper Server InitJob Observe ServerComponent Nodes YtApi Yson Logging CommonConfig NodeConfig YtsaurusClient StateJobs Agents Sync Manager Ui ServerConfigs Constructors Wiring Releases.

(** ** The resources: api/v1/remoteexecnodes_types.go, remoteytsaurus_types.go *)

Inductive RemoteExecNodeReleaseStatus :=
| RemoteExecNodeReleaseStatusPending
| RemoteExecNodeReleaseStatusRunning
| RemoteExecNodeReleaseStatusOther (s : string).

#[export] Instance RemoteExecNodeReleaseStatus_eq_dec : EqDecision RemoteExecNodeReleaseStatus.
Proof. solve_decision. Defined.

Record RemoteExecNodesSpec := mkRemoteExecNodesSpec {
  rns_RemoteClusterSpec : option LocalObjectReference;
  rns_CommonSpec : CommonSpec;
  rns_ExecNodesSpec : ExecNodesSpec;
}.
Record RemoteExecNodes := mkRemoteExecNodes {
  rn_Name : string;
  rn_Namespace : string;
  rn_Spec : RemoteExecNodesSpec;
  rn_ReleaseStatus : RemoteExecNodeReleaseStatus;
}.

Record RemoteYtsaurusSpec := mkRemoteYtsaurusSpec {
  rys_MasterConnectionSpec : MasterConnectionSpec;
  rys_MasterCachesSpec : MasterCachesSpec;
}.
Record RemoteYtsaurus := mkRemoteYtsaurus { ry_Spec : RemoteYtsaurusSpec }.

Definition set_rn_ReleaseStatus (s : RemoteExecNodeReleaseStatus) (n : RemoteExecNodes) : RemoteExecNodes :=
  mkRemoteExecNodes (rn_Name n) (rn_Namespace n) (rn_Spec n) s.

(** The resource of the world, for these nodes. *)
Definition stands_for (n : RemoteExecNodes) (y : Ytsaurus) : Prop :=
  yt_Name y = rn_Name n /\ yt_Namespace y = rn_Namespace n /\
  sp_CommonSpec (yt_Spec y) = rns_CommonSpec (rn_Spec n).

Definition NewRemoteNodeGenerator (name namespace clusterDomain : string) (commonSpec : CommonSpec)
    (masterConnectionSpec : MasterConnectionSpec) (masterCachesSpec : option MasterCachesSpec) : BaseGenerator :=
  NewRemoteBaseGenerator name namespace clusterDomain commonSpec masterConnectionSpec masterCachesSpec.

Section RemoteExecNode.
Context {H E : Type} `{K : Kube E} `{CM : ConditionMeta} `{CO : Codec} `{CY : ContainerYaml}.
Context `{U : Uuid} `{QF : Quantities} `{YP : YsonPretty} `{RW : ReleaseWriter RemoteExecNodes E}.
Local Abbreviation W := (World H E).

(** ** pkg/components/exec_node_remote.go *)

Record RemoteExecNode := mkRemoteExecNode {
  ren_base : baseExecNode W H;
  ren_labeller : Labeller;
}.

(** A generator of the nodes, which is given its specification when it is
    made. *)
Definition remote_generated (f : Res string) : Ytsaurus -> string + string :=
  fun _ => match f with None => inl panicked | Some text => text end.

Definition NewRemoteExecNodes `{AL : Alloc H} (cfgen : BaseGenerator) (nodes : RemoteExecNodes)
    (spec : ExecNodesSpec) (commonSpec : CommonSpec) : option RemoteExecNode :=
  let l := mkLabeller (rn_Name nodes) (rn_Namespace nodes)
             (FormatComponentStringWithDefault YTComponentLabelExecNode (en_Name spec))
             (FormatComponentStringWithDefault (ComponentType_string ExecNodeType) (en_Name spec)) None in
  let label := lb_ComponentLabel l in
  let spec := ExecNodesSpec_port spec in
  srv ← newServerConfigured (al_server label) l commonSpec (en_InstanceSpec spec)
    "/usr/bin/ytserver-node" "ytserver-exec-node.yson"
    (GetExecNodesStatefulSetName cfgen (en_Name spec)) (GetExecNodesServiceName cfgen (en_Name spec))
    (remote_generated (GetExecNodeConfig cfgen spec)) [rpcPort ExecNodeRPCPort];
  let sidecarConfig :=
    match en_JobEnvironment spec ≫= je_CRI with
    | None => None
    | Some _ =>
        Some (mkConfigHelper H l
          [(ContainerdConfigFileName,
            mkGeneratorDescriptor (remote_generated (GetContainerdConfig spec)) ConfigFormatToml)]
          (cs_ConfigOverrides commonSpec) (al_sidecar_overrides label)
          (mkHandle H KConfigMap (GetSidecarConfigMapName l JobsContainerName)
             (al_sidecar_old label) (al_sidecar_new label)))
    end in
  Some (mkRemoteExecNode (mkBaseExecNode W H (serverImpl_server srv) spec sidecarConfig) l).

(** The component of [Sync]. *)
Definition remote_component `{AL : Alloc H} (clusterDomain : string) (nodes : RemoteExecNodes)
    (remoteYtsaurus : RemoteYtsaurus) : option RemoteExecNode :=
  let spec := rn_Spec nodes in
  NewRemoteExecNodes
    (NewRemoteNodeGenerator (rn_Name nodes) (rn_Namespace nodes) clusterDomain (rns_CommonSpec spec)
       (rys_MasterConnectionSpec (ry_Spec remoteYtsaurus)) (Some (rys_MasterCachesSpec (ry_Spec remoteYtsaurus))))
    nodes (rns_ExecNodesSpec spec) (rns_CommonSpec spec).

(** [n.server.needSync() || n.server.needUpdate()]. *)
Definition remote_outdated (n : RemoteExecNode) : M W bool :=
  let srv := ben_server (ren_base n) in
  sync ← sv_needSync srv;
  if (sync : bool) then mret true else sv_needUpdate srv.

Definition RemoteExecNode_doSync (n : RemoteExecNode) (dry : bool) : M W SyncResult :=
  outdated ← remote_outdated n;
  if (outdated : bool) then doSyncBase (ren_base n) dry
  else await_pods (pm_arePodsReady (sv_pods (ben_server (ren_base n)))) ready.

Definition RemoteExecNode_Sync (n : RemoteExecNode) : M W SyncResult := RemoteExecNode_doSync n false.
Definition RemoteExecNode_Fetch (n : RemoteExecNode) : M W error := baseExecNode_Fetch (ren_base n).

(** ** controllers/remoteexecnodes_sync.go *)

Definition RemoteExecNodesReconciler_Sync (r : Ref H RemoteExecNodes) (component : RemoteExecNode)
    : M W (Result * error) :=
  err ← RemoteExecNode_Fetch component;
  match err with
  | Some _ => mret (requeue, err)
  | None =>
      '(status, err) ← RemoteExecNode_Sync component;
      match err with
      | Some _ => mret (requeue, err)
      | None =>
          let again := negb (bool_decide (cst_SyncStatus status = SyncStatusReady)) in
          resource ← read r;
          _ ← write r (set_rn_ReleaseStatus
                (if again then RemoteExecNodeReleaseStatusPending else RemoteExecNodeReleaseStatusRunning)
                resource);
          resource ← read r;
          err ← outside (client_StatusUpdate_release resource);
          match err with
          | Some _ => mret (requeue, err)
          | None => mret (mkResult again 0, None)
          end
      end
  end.
End RemoteExecNode.

(** ** What the reconciler of remote nodes records *)

Section RemoteTheorem.
Context {H E : Type} `{K : Kube E} `{CM : ConditionMeta} `{CO : Codec} `{CY : ContainerYaml}.
Context `{RW : ReleaseWriter RemoteExecNodes E}.
Local Abbreviation W := (World H E).
Context (r : Ref H RemoteExecNodes) (n : RemoteExecNode (H:=H) (E:=E)).

Definition remote_pods_ready : M W bool := pm_arePodsReady (sv_pods (ben_server (ren_base n))).

Lemma doSyncBase_not_ready (b : baseExecNode W H) dry (w : W) st err w' :
  doSyncBase b dry w = Some ((st, err), w') -> cst_SyncStatus st <> SyncStatusReady.
Proof.
  unfold doSyncBase. destruct dry; [by intros [= <- _ _]|]. intros Hrun. inv_run Hrun.
  destruct a; [by injection Hrun as <- _ _|]. inv_run Hrun. by injection Hrun as <- _ _.
Qed.

(** The nodes are ready exactly when nothing is to be synchronised or updated
    and their pods are ready. *)
Lemma RemoteExecNode_Sync_run (w w' : W) st err :
  RemoteExecNode_Sync n w = Some ((st, err), w') ->
  exists outdated w1, remote_outdated n w = Some (outdated, w1) /\
    if outdated : bool then cst_SyncStatus st <> SyncStatusReady
    else exists up w2, remote_pods_ready w1 = Some (up, w2) /\ w' = w2 /\
      (cst_SyncStatus st = SyncStatusReady <-> up = true).
Proof.
  intros Hrun. unfold RemoteExecNode_Sync, RemoteExecNode_doSync in Hrun.
  apply bind_inv in Hrun as (outdated & w1 & Ho & Hrun). exists outdated, w1. split; [done|].
  destruct outdated; [by eapply doSyncBase_not_ready|].
  unfold await_pods in Hrun. apply bind_inv in Hrun as (up & w2 & Hup & Hrun).
  exists up, w2. destruct up; injection Hrun as <- _ <-; (split; [done|]; split; [done|]; simpl; done).
Qed.

(** C20. The reconciler of remote exec nodes records what it saw: when it ends
    without error the objects of the nodes were fetched, the status saved is
    [Running], and the resource is not looked at again, exactly when no object
    of the nodes needs to be synchronised or updated and the pods are ready;
    otherwise the status saved is [Pending] and the nodes are reconciled again.
    On any error, that of the fetch included, they are reconciled again, and a
    failed fetch does nothing more. *)
Theorem RemoteExecNodesReconciler_Sync_records (w : W) (res : Result) (err : error) (w' : W)
    (Hrun : RemoteExecNodesReconciler_Sync r n w = Some ((res, err), w')) :
  (err <> None -> res = requeue) /\
  (forall msg w1, RemoteExecNode_Fetch n w = Some (Some msg, w1) -> err = Some msg /\ w' = w1) /\
  (err = None -> exists w1 outdated w2,
     RemoteExecNode_Fetch n w = Some (None, w1) /\ remote_outdated n w1 = Some (outdated, w2) /\
     exists running, res = mkResult (negb running) 0 /\
       rn_ReleaseStatus (load r (heap w')) =
         (if running then RemoteExecNodeReleaseStatusRunning else RemoteExecNodeReleaseStatusPending) /\
       (if outdated : bool then running = false else exists w3, remote_pods_ready w2 = Some (running, w3)) /\
       (exists e, client_StatusUpdate_release (load r (heap w')) e = (None, ext w'))).
Proof.
  unfold RemoteExecNodesReconciler_Sync in Hrun. apply bind_inv in Hrun as (e0 & w1 & Hfetch & Hrun).
  destruct e0 as [m0|].
  { injection Hrun as <- <- <-. split; [done|]. split; [|done]. intros msg w2 Hf. rewrite Hfetch in Hf.
    by injection Hf as <- <-. }
  split; [|split; [intros msg w2 Hf; by rewrite Hfetch in Hf|]].
  { intros He. apply bind_inv in Hrun as ([st e] & w2 & _ & Hrun). destruct e as [m|]; [by injection Hrun as <- _ _|].
    unfold read, write in Hrun. cbv zeta in Hrun. rewrite run_gets, run_modify, run_gets in Hrun.
    apply bind_inv in Hrun as (e & w4 & _ & Hrun). destruct e; [by injection Hrun as <- _ _|].
    injection Hrun as _ <- _. done. }
  intros ->.
  apply bind_inv in Hrun as ([st e] & w2 & Hsync & Hrun).
  apply RemoteExecNode_Sync_run in Hsync as (outdated & w3 & Ho & Hst).
  destruct e as [m|]; [done|].
  set (running := bool_decide (cst_SyncStatus st = SyncStatusReady)) in *.
  unfold read, write in Hrun. rewrite run_gets, run_modify, run_gets in Hrun. simpl heap in Hrun.
  rewrite load_store in Hrun. apply bind_inv in Hrun as (e & w4 & Hup & Hrun).
  unfold outside in Hup. simpl ext in Hup.
  destruct (client_StatusUpdate_release _ _) as [e' x] eqn:Hx. injection Hup as <- <-.
  destruct e' as [m|]; [discriminate Hrun|]. injection Hrun as <- <-.
  exists w1, outdated, w3. split; [done|]. split; [done|]. exists running. split; [done|]. simpl. rewrite load_store.
  split; [by destruct running|]. split; [|by eexists].
  destruct outdated; [by apply bool_decide_eq_false|]. destruct Hst as (up & w5 & Hready & _ & Hiff).
  exists w5. rewrite Hready. do 2 f_equal. destruct up; symmetry; [by apply bool_decide_eq_true, Hiff|].
  apply bool_decide_eq_false. by intros ?%Hiff.
Qed.
End RemoteTheorem.

(** ** Witness *)

Import RefKube RefMeta RefCodec OperatorWitness.

Module RemoteWitness.
#[export] Instance nodes_writer : ReleaseWriter RemoteExecNodes YtsaurusStatus := fun _ e => (None, e).
#[export] Instance yaml : ContainerYaml := fun _ => inl "no parser"%string.

Definition nodes : RemoteExecNodes :=
  mkRemoteExecNodes "remote" "default"
    (mkRemoteExecNodesSpec (Some "cluster") sample_CommonSpec
       (mkExecNodesSpec sample_InstanceSpec (mkClusterNodesSpec [] "") "" [] [] false [] None None))
    (RemoteExecNodeReleaseStatusOther "").
Definition cluster : RemoteYtsaurus :=
  mkRemoteYtsaurus (mkRemoteYtsaurusSpec (mkMasterConnectionSpec 1 ["master.cluster"])
    (mkMasterCachesSpec sample_InstanceSpec 0 [] "")).

(** The nodes, and the variables of their objects. *)
Definition heap_t : Type := RemoteExecNodes * OperatorWitness.heap_t.
#[export] Instance variables : Alloc heap_t := alloc_at snd_ref.
Definition nodes_at : Ref heap_t RemoteExecNodes := fst_ref.
Definition start : World heap_t YtsaurusStatus :=
  mkWorld (mkYtsaurus "remote" "default" (sample_Spec true UpdateSelectorUnspecified)
             (sample_Status ClusterStateRunning))
    (nodes, heap OperatorWitness.world) (sample_Status ClusterStateRunning).
Definition reconcile (component : option (RemoteExecNode (H:=heap_t) (E:=YtsaurusStatus)))
    : M (World heap_t YtsaurusStatus) (Result * error) :=
  match component with
  | None => panic
  | Some n => RemoteExecNodesReconciler_Sync nodes_at n
  end.

Lemma start_stands : stands_for nodes (resource start).
Proof. done. Qed.
End RemoteWitness.

Import RemoteWitness.

(** The first reconciliation creates the nodes and records that they are
    pending. *)
Lemma RemoteExecNodesReconciler_Sync_records_witness :
  exists w', reconcile (remote_component "cluster.local" nodes cluster) start = Some ((requeue, None), w') /\
    rn_ReleaseStatus (load nodes_at (heap w')) = RemoteExecNodeReleaseStatusPending.
Proof.
  assert (fst <$> reconcile (remote_component "cluster.local" nodes cluster) start = Some (requeue, None))
    as Hres by (vm_compute; reflexivity).
  destruct (remote_component "cluster.local" nodes cluster) as [n|]; [|discriminate Hres].
  destruct (reconcile (Some n) start) as [[ans w']|] eqn:Hrun; [|discriminate Hres].
  simpl in Hres. injection Hres as ->. exists w'. split; [done|].
  destruct (RemoteExecNodesReconciler_Sync_records nodes_at n start requeue None w' Hrun)
    as (_ & _ & Hok). destruct (Hok eq_refl) as (w1 & o & w2 & _ & _ & running & Hq & -> & _).
  destruct running; [discriminate Hq|reflexivity].
Defined.
