(* ===== verification/Controllers.v ===== *)
(** * The entries of the reconcilers: controllers/*_controller.go, helpers.go

    How a [Reconcile] finds the resources of its request, which resources a
    watched object wakes, and the domain of the Kubernetes cluster. *)

From S2P Require Import Prelude Api Kube Manager Sync Releases RemoteNodes.

(** ** Lookups *)

Section Lookup.
Context {X C : Type} (get_resource : string -> GetResult X) (reference : X -> option LocalObjectReference).
Context (get_cluster : string -> GetResult C).

(** The resource of the request; [client.IgnoreNotFound]: one that is gone is
    not an error. *)
Definition find_resource (name : string) : Result * error + X :=
  match get_resource name with
  | GetNotFound _ => inl (release_done, None)
  | GetError e => inl (release_done, Some e)
  | GetOk x => inr x
  end.

(** And the cluster it names; [None]: the name of a nil reference is asked
    for, a panic. *)
Definition find_resources (name : string) : option (Result * error + X * C) :=
  match find_resource name with
  | inl r => Some (inl r)
  | inr x =>
      match reference x with
      | None => None
      | Some cluster =>
          match get_cluster cluster with
          | GetOk c => Some (inr (x, c))
          | GetNotFound e | GetError e => Some (inl (release_later, Some e))
          end
      end
  end.
End Lookup.

Definition YtsaurusReconciler_find (get_ytsaurus : string -> GetResult Ytsaurus) :=
  find_resource get_ytsaurus.
Definition ChytReconciler_find (get_chyt : string -> GetResult Chyt) (get_ytsaurus : string -> GetResult Ytsaurus) :=
  find_resources get_chyt (fun c => chyt_Ytsaurus (chyt_Spec c)) get_ytsaurus.
Definition SpytReconciler_find (get_spyt : string -> GetResult Spyt) (get_ytsaurus : string -> GetResult Ytsaurus) :=
  find_resources get_spyt (fun s => spyt_Ytsaurus (spyt_Spec s)) get_ytsaurus.
Definition RemoteExecNodesReconciler_find (get_nodes : string -> GetResult RemoteExecNodes)
    (get_cluster : string -> GetResult RemoteYtsaurus) :=
  find_resources get_nodes (fun n => rns_RemoteClusterSpec (rn_Spec n)) get_cluster.

(** ** Watches *)

Record NamespacedName := mkNamespacedName { nn_Namespace : string; nn_Name : string }.

(** The field a resource is indexed by: the object it refers to, if any. *)
Definition reference_index (reference : option LocalObjectReference) : list string :=
  match reference with None => [] | Some name => [name] end.
Definition configOverrides_index (y : Ytsaurus) : list string :=
  reference_index (cs_ConfigOverrides (sp_CommonSpec (yt_Spec y))).
Definition remoteClusterSpec_index (n : RemoteExecNodes) : list string :=
  reference_index (rns_RemoteClusterSpec (rn_Spec n)).

Section Watch.
Context {X : Type} (name_of : X -> NamespacedName) (index : X -> list string).
(** [List] with a namespace and a field selector. *)
Context (list_indexed : string -> string -> string + list X).

(** The requests a change of the object [o] makes; none when the listing
    fails. *)
Definition find_attached (o : NamespacedName) : list NamespacedName :=
  match list_indexed (nn_Namespace o) (nn_Name o) with
  | inl _ => []
  | inr items => name_of <$> items
  end.

(** The selector lists the resources of the namespace with that index. *)
Definition lists (all : list X) : Prop := forall ns v,
  list_indexed ns v = inr (filter (fun x => nn_Namespace (name_of x) = ns /\ v ∈ index x) all).

Lemma find_attached_spec all o n :
  lists all ->
  n ∈ find_attached o <->
  exists x, x ∈ all /\ n = name_of x /\ nn_Namespace n = nn_Namespace o /\ nn_Name o ∈ index x.
Proof.
  intros Hl. unfold find_attached. rewrite Hl, list_elem_of_fmap.
  setoid_rewrite list_elem_of_filter. naive_solver.
Qed.
End Watch.

Definition ytsaurus_name (y : Ytsaurus) : NamespacedName := mkNamespacedName (yt_Namespace y) (yt_Name y).
Definition nodes_name (n : RemoteExecNodes) : NamespacedName := mkNamespacedName (rn_Namespace n) (rn_Name n).

Definition findObjectsForConfigMap (list_ytsaurus : string -> string -> string + list Ytsaurus) :
    NamespacedName -> list NamespacedName := find_attached ytsaurus_name list_ytsaurus.
Definition findRemoteNodesForRemoteYtsaurus (list_nodes : string -> string -> string + list RemoteExecNodes) :
    NamespacedName -> list NamespacedName := find_attached nodes_name list_nodes.

Lemma elem_of_reference_index v r : v ∈ reference_index r <-> r = Some v.
Proof. destruct r; simpl; set_unfold; naive_solver. Qed.

(** A change of a config map wakes exactly the clusters of its namespace that
    take their overrides from it. *)
Lemma config_map_wakes list_ytsaurus all o n :
  lists ytsaurus_name configOverrides_index list_ytsaurus all ->
  n ∈ findObjectsForConfigMap list_ytsaurus o <->
  exists y, y ∈ all /\ n = ytsaurus_name y /\ yt_Namespace y = nn_Namespace o /\
    cs_ConfigOverrides (sp_CommonSpec (yt_Spec y)) = Some (nn_Name o).
Proof.
  intros Hl. unfold findObjectsForConfigMap. rewrite find_attached_spec by done.
  unfold configOverrides_index. setoid_rewrite elem_of_reference_index. naive_solver.
Qed.

(** A change of a remote cluster wakes exactly the nodes attached to it. *)
Lemma remote_cluster_wakes list_nodes all o n :
  lists nodes_name remoteClusterSpec_index list_nodes all ->
  n ∈ findRemoteNodesForRemoteYtsaurus list_nodes o <->
  exists x, x ∈ all /\ n = nodes_name x /\ rn_Namespace x = nn_Namespace o /\
    rns_RemoteClusterSpec (rn_Spec x) = Some (nn_Name o).
Proof.
  intros Hl. unfold findRemoteNodesForRemoteYtsaurus. rewrite find_attached_spec by done.
  unfold remoteClusterSpec_index. setoid_rewrite elem_of_reference_index. naive_solver.
Qed.

(** ** The domain of the cluster: helpers.go *)

Local Open Scope string_scope.

(** [strings.TrimPrefix], [strings.TrimSuffix]. *)
Definition TrimPrefix (s prefix : string) : string :=
  if String.prefix prefix s
  then String.substring (String.length prefix) (String.length s - String.length prefix) s
  else s.
Fixpoint TrimSuffix (s suffix : string) : string :=
  if String.eqb s suffix then ""
  else match s with EmptyString => "" | String c t => String c (TrimSuffix t suffix) end.

Definition defaultClusterDomain : string := "cluster.local".

Definition getClusterDomain (lookup_env : string -> option string) (lookup_CNAME : string -> string + string)
    : string :=
  match lookup_env "K8S_CLUSTER_DOMAIN" with
  | Some domain => domain
  | None =>
      let apiSvc := "kubernetes.default.svc" in
      match lookup_CNAME apiSvc with
      | inl _ => defaultClusterDomain
      | inr cname => TrimSuffix (TrimPrefix (TrimPrefix cname apiSvc) ".") "."
      end
  end.

Lemma prefix_app p s : String.prefix p (p +:+ s) = true.
Proof. induction p as [|c p IH]; simpl; [by destruct s|]. destruct (Ascii.ascii_dec c c) as [_|n]; [exact IH|by destruct n]. Qed.

Lemma substring_app p s n : String.substring (String.length p) n (p +:+ s) = String.substring 0 n s.
Proof. by induction p as [|c p IH]. Qed.

Lemma substring_all s : String.substring 0 (String.length s) s = s.
Proof. induction s as [|c s IH]; simpl; by f_equal. Qed.

Lemma TrimPrefix_app p s : TrimPrefix (p +:+ s) p = s.
Proof.
  unfold TrimPrefix. rewrite prefix_app, substring_app, string_length_app.
  replace (String.length p + String.length s - String.length p) with (String.length s) by lia.
  apply substring_all.
Qed.

Lemma TrimSuffix_app s p : TrimSuffix (s +:+ p) p = s.
Proof.
  induction s as [|c s IH].
  - change ("" +:+ p) with p. destruct p; cbn [TrimSuffix]; by rewrite String.eqb_refl.
  - change (String c s +:+ p) with (String c (s +:+ p)). cbn [TrimSuffix].
    destruct (String.eqb_spec (String c (s +:+ p)) p) as [Heq|_]; [|by f_equal].
    apply (f_equal String.length) in Heq. simpl in Heq. rewrite string_length_app in Heq. lia.
Qed.

(** The answer of a name server that knows the service under its full name is
    the domain, without the dots around it. *)
Lemma getClusterDomain_resolved lookup_env lookup_CNAME domain :
  lookup_env "K8S_CLUSTER_DOMAIN" = None ->
  lookup_CNAME "kubernetes.default.svc" = inr ("kubernetes.default.svc." +:+ domain +:+ ".") ->
  getClusterDomain lookup_env lookup_CNAME = domain.
Proof.
  intros Henv Hname. unfold getClusterDomain. rewrite Henv, Hname.
  change ("kubernetes.default.svc." +:+ domain +:+ ".")
    with ("kubernetes.default.svc" +:+ ("." +:+ domain +:+ ".")).
  by rewrite !TrimPrefix_app, TrimSuffix_app.
Qed.

(** ** The webhooks of the smaller resources: api/v1/chyt_webhook.go, spyt_webhook.go

    Warnings and an error: every validator accepts. *)

Definition Chyt_ValidateCreate (_ : Chyt) : list string * error := ([], None).
Definition Chyt_ValidateUpdate (_ _ : Chyt) : list string * error := ([], None).
Definition Chyt_ValidateDelete (_ : Chyt) : list string * error := ([], None).
Definition Spyt_ValidateCreate (_ : Spyt) : list string * error := ([], None).
Definition Spyt_ValidateUpdate (_ _ : Spyt) : list string * error := ([], None).
Definition Spyt_ValidateDelete (_ : Spyt) : list string * error := ([], None).
