(* ===== verification/StartUp.v ===== *)
(** * Start-up: main.go

    The command line and the environment become the options of the manager;
    then the controllers, the webhooks and the checks are registered one by one,
    and the manager is started.  Registration is a call of controller-runtime,
    a parameter; the first one that fails ends the process. *)

From S2P Require Import Prelude GoStrings.
From Stdlib Require Import Ascii.

(** ** The options of the manager *)

(** The flags, with the values [flag.Parse] leaves when they are not given. *)
Record Flags := mkFlags {
  metricsAddr : string;
  probeAddr : string;
  enableLeaderElection : bool;
}.
Definition Flags_default : Flags := mkFlags ":8080" ":8081" false.

(** [ctrl.Options]; the namespaces of the cache are [None] for a nil map. *)
Record Options := mkOptions {
  opt_WebhookPort : Z;
  opt_MetricsBindAddress : string;
  opt_HealthProbeBindAddress : string;
  opt_LeaderElection : bool;
  opt_LeaderElectionID : string;
  opt_LeaderElectionNamespace : string;
  opt_DefaultNamespaces : option (gset string);
}.

Definition comma : ascii := ","%char.

(** [strings.Contains(s, ",")], [strings.Split(s, ",")]. *)
Definition contains_comma (s : string) : bool := contains_char comma s.
Definition split_commas (s : string) : list string := Split comma s.

(** What is asked of controller-runtime, in order.  Loading the configuration
    of the client, which may end the process too, belongs to [NewManager]. *)
Inductive action :=
| NewManager (options : Options)
| SetupController (name recorder : string)
| SetupWebhook (name : string)
| AddHealthzCheck
| AddReadyzCheck
| StartManager.

(** How the process ends: after [mgr.Start] returned, or with status 1; and
    what it had asked for. *)
Inductive outcome :=
| Finished (trace : list action)
| Exit1 (trace : list action).

Section Main.
Context (LookupEnv : string -> option string).
(** Whether a call fails may depend on the ones before. *)
Context (call : list action -> action -> error).

(** [os.Getenv]: an unset variable is empty. *)
Definition Getenv (name : string) : string := default "" (LookupEnv name).

(** The loop inserts every element of the list. *)
Definition managerOptions (flags : Flags) : Options :=
  let options namespaces leaderNamespace :=
    mkOptions 9443 (metricsAddr flags) (probeAddr flags) (enableLeaderElection flags)
      "6ab077f0.ytsaurus.tech" leaderNamespace namespaces in
  match LookupEnv "WATCH_NAMESPACE" with
  | Some watchNamespace =>
      if decide (watchNamespace <> "") then
        if contains_comma watchNamespace then
          options (Some (fold_left (fun m namespace => {[ namespace ]} ∪ m) (split_commas watchNamespace) ∅)) ""
        else options (Some ({[ watchNamespace ]} ∪ ∅)) watchNamespace
      else options None ""
  | None => options None ""
  end.

(** [if err := f(); err != nil { os.Exit(1) }]. *)
Definition attempt (a : action) (rest : list action -> outcome) (trace : list action) : outcome :=
  match call trace a with
  | Some _ => Exit1 (trace ++ [a])
  | None => rest (trace ++ [a])
  end.

(** [if os.Getenv("ENABLE_WEBHOOKS") != "false" { ... }]. *)
Definition attempt_webhook (name : string) (rest : list action -> outcome) : list action -> outcome :=
  if decide (Getenv "ENABLE_WEBHOOKS" <> "false") then attempt (SetupWebhook name) rest else rest.

Definition main (flags : Flags) : outcome :=
  (attempt (NewManager (managerOptions flags))
  (attempt (SetupController "Ytsaurus" "ytsaurus-controller")
  (attempt_webhook "Ytsaurus"
  (attempt (SetupController "Spyt" "spyt-controller")
  (attempt_webhook "Spyt"
  (attempt (SetupController "Chyt" "chyt-controller")
  (attempt_webhook "Chyt"
  (attempt (SetupController "RemoteExecNodes" "remoteexecnodes-controller")
  (attempt AddHealthzCheck
  (attempt AddReadyzCheck
  (attempt StartManager Finished))))))))))) [].

(** ** What is asked for *)

Definition plan (flags : Flags) : list action :=
  let webhook name := if decide (Getenv "ENABLE_WEBHOOKS" <> "false") then [SetupWebhook name] else [] in
  NewManager (managerOptions flags)
    :: SetupController "Ytsaurus" "ytsaurus-controller" :: webhook "Ytsaurus"
    ++ SetupController "Spyt" "spyt-controller" :: webhook "Spyt"
    ++ SetupController "Chyt" "chyt-controller" :: webhook "Chyt"
    ++ [SetupController "RemoteExecNodes" "remoteexecnodes-controller"; AddHealthzCheck; AddReadyzCheck;
        StartManager].

(** All of a list, up to the first failure. *)
Fixpoint perform (actions trace : list action) : outcome :=
  match actions with
  | [] => Finished trace
  | a :: rest => attempt a (perform rest) trace
  end.

Lemma main_performs flags : main flags = perform (plan flags) [].
Proof. unfold main, plan, attempt_webhook. by case_decide. Qed.

(** A performance ends with the first failure, or after the last call. *)
Lemma perform_correct actions trace :
  (exists pre a post, actions = pre ++ a :: post /\ call (trace ++ pre) a <> None /\
     (forall p b q, pre = p ++ b :: q -> call (trace ++ p) b = None) /\
     perform actions trace = Exit1 (trace ++ pre ++ [a])) \/
  (forall p b q, actions = p ++ b :: q -> call (trace ++ p) b = None) /\
  perform actions trace = Finished (trace ++ actions).
Proof.
  revert trace. induction actions as [|a actions IH]; intros trace.
  - right. split; [by intros [] ? ?|]. by rewrite app_nil_r.
  - simpl. unfold attempt. destruct (call trace a) as [err|] eqn:Ha.
    + left. exists [], a, actions. rewrite app_nil_r. split; [done|]. split; [by rewrite Ha|].
      split; [by intros [] ? ?|done].
    + destruct (IH (trace ++ [a])) as [(pre & b & post & -> & Hb & Hpre & Hrun)|[Hall Hrun]].
      * left. exists (a :: pre), b, post. rewrite <- !(assoc_L (++)) in *. split; [done|].
        split; [done|]. split; [|exact Hrun].
        intros [|x p] c q [= -> Heq]; [by rewrite app_nil_r|].
        pose proof (Hpre p c q Heq) as Hp. by rewrite <- (assoc_L (++)) in Hp.
      * right. rewrite <- (assoc_L (++)) in Hrun. split; [|exact Hrun].
        intros [|x p] c q [= -> Heq]; [by rewrite app_nil_r|].
        pose proof (Hall p c q Heq) as Hp. by rewrite <- (assoc_L (++)) in Hp.
Qed.
End Main.

(** ** The namespaces *)

Lemma insert_all (l : list string) (m : gset string) :
  fold_left (fun m x => {[ x ]} ∪ m) l m = list_to_set l ∪ m.
Proof.
  revert m. induction l as [|x l IH]; intros m; simpl; [by rewrite (left_id_L ∅ (∪))|].
  rewrite IH. set_solver.
Qed.

(** C32. The start-up asks controller-runtime, in this order, for the manager, the
    controllers with their webhooks, unless they are turned off, and the checks,
    and starts the manager only after all of them succeeded; the first failure
    ends the process with status 1, and nothing is asked for after it.  The
    manager watches exactly the namespaces of WATCH_NAMESPACE, the elements of a
    list separated by commas, or all of them when it is unset or empty; its
    leader is elected in a namespace of the list only when it is the only one. *)
Theorem main_correct (LookupEnv : string -> option string) (call : list action -> action -> error)
    (flags : Flags) :
  (main LookupEnv call flags = Finished (plan LookupEnv flags) /\
     (forall p a q, plan LookupEnv flags = p ++ a :: q -> call p a = None) \/
   exists pre a post, plan LookupEnv flags = pre ++ a :: post /\ call pre a <> None /\
     (forall p b q, pre = p ++ b :: q -> call p b = None) /\
     main LookupEnv call flags = Exit1 (pre ++ [a])) /\
  opt_DefaultNamespaces (managerOptions LookupEnv flags) =
    (if decide (Getenv LookupEnv "WATCH_NAMESPACE" = "") then None
     else Some (list_to_set (split_commas (Getenv LookupEnv "WATCH_NAMESPACE")))) /\
  (forall s, String.concat "," (split_commas s) = s /\
     Forall (fun namespace => contains_comma namespace = false) (split_commas s)) /\
  (opt_LeaderElectionNamespace (managerOptions LookupEnv flags) <> "" ->
   opt_DefaultNamespaces (managerOptions LookupEnv flags) =
     Some {[ opt_LeaderElectionNamespace (managerOptions LookupEnv flags) ]}).
Proof.
  split; [|split; [|split]].
  - rewrite main_performs.
    destruct (perform_correct call (plan LookupEnv flags) []) as [(pre & a & post & ? & ? & ? & ?)|[? ?]];
      [right; by exists pre, a, post|by left].
  - unfold managerOptions, Getenv. destruct (LookupEnv "WATCH_NAMESPACE") as [ns|]; [|done]. simpl.
    destruct (decide (ns = "")) as [->|Hne]; [done|]. rewrite decide_True by done.
    destruct (contains_comma ns) eqn:Hc; simpl; f_equal.
    + rewrite insert_all. set_solver.
    + unfold split_commas; rewrite Split_one by done. set_solver.
  - intros s. split; [apply (Split_roundtrip comma)|apply Split_plain].
  - unfold managerOptions. destruct (LookupEnv "WATCH_NAMESPACE") as [ns|]; [|done].
    case_decide; [|done]. destruct (contains_comma ns); simpl; [done|]. intros _. f_equal. set_solver.
Qed.

(** Two namespaces; the webhooks are turned off, and a controller fails. *)
Module StartUpExample.
Definition env (name : string) : option string :=
  if decide (name = "WATCH_NAMESPACE") then Some "blue,green"
  else if decide (name = "ENABLE_WEBHOOKS") then Some "false" else None.

Definition call (_ : list action) (a : action) : error :=
  match a with SetupController "Chyt" _ => Some "no matches for kind Chyt" | _ => None end.

Example namespaces : opt_DefaultNamespaces (managerOptions env Flags_default) = Some {[ "blue"; "green" ]}.
Proof. vm_compute. reflexivity. Qed.

Example fails :
  main env call Flags_default =
  Exit1 [NewManager (managerOptions env Flags_default); SetupController "Ytsaurus" "ytsaurus-controller";
         SetupController "Spyt" "spyt-controller"; SetupController "Chyt" "chyt-controller"].
Proof. reflexivity. Qed.
End StartUpExample.
