(* ===== verification/TestSpecs.v ===== *)
(** * The resources of the tests: pkg/testutil, test/webhooks

    The resources the tests of the repository are built on.  The base resource,
    once the API server has filled the defaults in, is one the webhook admits;
    and what the tests of the webhook expect of resources derived from it is
    what the model of the webhook answers. *)

From S2P Require Import Prelude Api Kube Samples Names Resources Nodes Webhook Constructors.
From Stdlib Require Import Ascii.

(** ** Parsing a port: strconv.ParseInt(s, 10, 32) *)

(** The digits from the left, onto [acc]. *)
Fixpoint parse_digits (s : string) (acc : Z) : option Z :=
  match s with
  | EmptyString => Some acc
  | String c s' =>
      let d := (Z.of_N (N_of_ascii c) - 48)%Z in
      if decide (0 <= d <= 9)%Z then parse_digits s' (10 * acc + d) else None
  end.

(** [None]: a syntax error, or out of range. *)
Definition ParseInt32 (s : string) : option Z :=
  let parsed :=
    match s with
    | EmptyString => None
    | String c EmptyString =>
        if decide (c = "+"%char \/ c = "-"%char) then None else parse_digits s 0
    | String c s' =>
        if decide (c = "+"%char) then parse_digits s' 0
        else if decide (c = "-"%char) then Z.opp <$> parse_digits s' 0
        else parse_digits s 0
    end in
  n ← parsed; if decide (- 2 ^ 31 <= n < 2 ^ 31)%Z then Some n else None.

(** ** Assignments to the fields of a specification *)

Definition set_sp_CommonSpec (v : CommonSpec) (s : YtsaurusSpec) : YtsaurusSpec :=
  mkYtsaurusSpec v (sp_UIImage s) (sp_AdminCredentials s) (sp_OauthService s) (sp_IsManaged s)
    (sp_EnableFullUpdate s) (sp_UpdateSelector s) (sp_Bootstrap s) (sp_Discovery s)
    (sp_PrimaryMasters s) (sp_SecondaryMasters s) (sp_MasterCaches s) (sp_HTTPProxies s)
    (sp_RPCProxies s) (sp_TCPProxies s) (sp_DataNodes s) (sp_ExecNodes s) (sp_Schedulers s)
    (sp_ControllerAgents s) (sp_TabletNodes s) (sp_StrawberryController s)
    (sp_DeprecatedChytController s) (sp_QueryTrackers s) (sp_Spyt s) (sp_YQLAgents s)
    (sp_QueueAgents s) (sp_UI s).
Definition set_sp_Bootstrap (v : option BootstrapSpec) (s : YtsaurusSpec) : YtsaurusSpec :=
  mkYtsaurusSpec (sp_CommonSpec s) (sp_UIImage s) (sp_AdminCredentials s) (sp_OauthService s)
    (sp_IsManaged s) (sp_EnableFullUpdate s) (sp_UpdateSelector s) v (sp_Discovery s)
    (sp_PrimaryMasters s) (sp_SecondaryMasters s) (sp_MasterCaches s) (sp_HTTPProxies s)
    (sp_RPCProxies s) (sp_TCPProxies s) (sp_DataNodes s) (sp_ExecNodes s) (sp_Schedulers s)
    (sp_ControllerAgents s) (sp_TabletNodes s) (sp_StrawberryController s)
    (sp_DeprecatedChytController s) (sp_QueryTrackers s) (sp_Spyt s) (sp_YQLAgents s)
    (sp_QueueAgents s) (sp_UI s).
Definition set_sp_PrimaryMasters (v : MastersSpec) (s : YtsaurusSpec) : YtsaurusSpec :=
  mkYtsaurusSpec (sp_CommonSpec s) (sp_UIImage s) (sp_AdminCredentials s) (sp_OauthService s)
    (sp_IsManaged s) (sp_EnableFullUpdate s) (sp_UpdateSelector s) (sp_Bootstrap s)
    (sp_Discovery s) v (sp_SecondaryMasters s) (sp_MasterCaches s) (sp_HTTPProxies s)
    (sp_RPCProxies s) (sp_TCPProxies s) (sp_DataNodes s) (sp_ExecNodes s) (sp_Schedulers s)
    (sp_ControllerAgents s) (sp_TabletNodes s) (sp_StrawberryController s)
    (sp_DeprecatedChytController s) (sp_QueryTrackers s) (sp_Spyt s) (sp_YQLAgents s)
    (sp_QueueAgents s) (sp_UI s).
Definition set_sp_HTTPProxies (v : list HTTPProxiesSpec) (s : YtsaurusSpec) : YtsaurusSpec :=
  mkYtsaurusSpec (sp_CommonSpec s) (sp_UIImage s) (sp_AdminCredentials s) (sp_OauthService s)
    (sp_IsManaged s) (sp_EnableFullUpdate s) (sp_UpdateSelector s) (sp_Bootstrap s)
    (sp_Discovery s) (sp_PrimaryMasters s) (sp_SecondaryMasters s) (sp_MasterCaches s) v
    (sp_RPCProxies s) (sp_TCPProxies s) (sp_DataNodes s) (sp_ExecNodes s) (sp_Schedulers s)
    (sp_ControllerAgents s) (sp_TabletNodes s) (sp_StrawberryController s)
    (sp_DeprecatedChytController s) (sp_QueryTrackers s) (sp_Spyt s) (sp_YQLAgents s)
    (sp_QueueAgents s) (sp_UI s).
Definition set_sp_RPCProxies (v : list RPCProxiesSpec) (s : YtsaurusSpec) : YtsaurusSpec :=
  mkYtsaurusSpec (sp_CommonSpec s) (sp_UIImage s) (sp_AdminCredentials s) (sp_OauthService s)
    (sp_IsManaged s) (sp_EnableFullUpdate s) (sp_UpdateSelector s) (sp_Bootstrap s)
    (sp_Discovery s) (sp_PrimaryMasters s) (sp_SecondaryMasters s) (sp_MasterCaches s)
    (sp_HTTPProxies s) v (sp_TCPProxies s) (sp_DataNodes s) (sp_ExecNodes s) (sp_Schedulers s)
    (sp_ControllerAgents s) (sp_TabletNodes s) (sp_StrawberryController s)
    (sp_DeprecatedChytController s) (sp_QueryTrackers s) (sp_Spyt s) (sp_YQLAgents s)
    (sp_QueueAgents s) (sp_UI s).
Definition set_sp_TCPProxies (v : list TCPProxiesSpec) (s : YtsaurusSpec) : YtsaurusSpec :=
  mkYtsaurusSpec (sp_CommonSpec s) (sp_UIImage s) (sp_AdminCredentials s) (sp_OauthService s)
    (sp_IsManaged s) (sp_EnableFullUpdate s) (sp_UpdateSelector s) (sp_Bootstrap s)
    (sp_Discovery s) (sp_PrimaryMasters s) (sp_SecondaryMasters s) (sp_MasterCaches s)
    (sp_HTTPProxies s) (sp_RPCProxies s) v (sp_DataNodes s) (sp_ExecNodes s) (sp_Schedulers s)
    (sp_ControllerAgents s) (sp_TabletNodes s) (sp_StrawberryController s)
    (sp_DeprecatedChytController s) (sp_QueryTrackers s) (sp_Spyt s) (sp_YQLAgents s)
    (sp_QueueAgents s) (sp_UI s).
Definition set_sp_DataNodes (v : list DataNodesSpec) (s : YtsaurusSpec) : YtsaurusSpec :=
  mkYtsaurusSpec (sp_CommonSpec s) (sp_UIImage s) (sp_AdminCredentials s) (sp_OauthService s)
    (sp_IsManaged s) (sp_EnableFullUpdate s) (sp_UpdateSelector s) (sp_Bootstrap s)
    (sp_Discovery s) (sp_PrimaryMasters s) (sp_SecondaryMasters s) (sp_MasterCaches s)
    (sp_HTTPProxies s) (sp_RPCProxies s) (sp_TCPProxies s) v (sp_ExecNodes s) (sp_Schedulers s)
    (sp_ControllerAgents s) (sp_TabletNodes s) (sp_StrawberryController s)
    (sp_DeprecatedChytController s) (sp_QueryTrackers s) (sp_Spyt s) (sp_YQLAgents s)
    (sp_QueueAgents s) (sp_UI s).
Definition set_sp_ExecNodes (v : list ExecNodesSpec) (s : YtsaurusSpec) : YtsaurusSpec :=
  mkYtsaurusSpec (sp_CommonSpec s) (sp_UIImage s) (sp_AdminCredentials s) (sp_OauthService s)
    (sp_IsManaged s) (sp_EnableFullUpdate s) (sp_UpdateSelector s) (sp_Bootstrap s)
    (sp_Discovery s) (sp_PrimaryMasters s) (sp_SecondaryMasters s) (sp_MasterCaches s)
    (sp_HTTPProxies s) (sp_RPCProxies s) (sp_TCPProxies s) (sp_DataNodes s) v (sp_Schedulers s)
    (sp_ControllerAgents s) (sp_TabletNodes s) (sp_StrawberryController s)
    (sp_DeprecatedChytController s) (sp_QueryTrackers s) (sp_Spyt s) (sp_YQLAgents s)
    (sp_QueueAgents s) (sp_UI s).
Definition set_sp_Schedulers (v : option InstanceSpec) (s : YtsaurusSpec) : YtsaurusSpec :=
  mkYtsaurusSpec (sp_CommonSpec s) (sp_UIImage s) (sp_AdminCredentials s) (sp_OauthService s)
    (sp_IsManaged s) (sp_EnableFullUpdate s) (sp_UpdateSelector s) (sp_Bootstrap s)
    (sp_Discovery s) (sp_PrimaryMasters s) (sp_SecondaryMasters s) (sp_MasterCaches s)
    (sp_HTTPProxies s) (sp_RPCProxies s) (sp_TCPProxies s) (sp_DataNodes s) (sp_ExecNodes s) v
    (sp_ControllerAgents s) (sp_TabletNodes s) (sp_StrawberryController s)
    (sp_DeprecatedChytController s) (sp_QueryTrackers s) (sp_Spyt s) (sp_YQLAgents s)
    (sp_QueueAgents s) (sp_UI s).
Definition set_sp_ControllerAgents (v : option InstanceSpec) (s : YtsaurusSpec) : YtsaurusSpec :=
  mkYtsaurusSpec (sp_CommonSpec s) (sp_UIImage s) (sp_AdminCredentials s) (sp_OauthService s)
    (sp_IsManaged s) (sp_EnableFullUpdate s) (sp_UpdateSelector s) (sp_Bootstrap s)
    (sp_Discovery s) (sp_PrimaryMasters s) (sp_SecondaryMasters s) (sp_MasterCaches s)
    (sp_HTTPProxies s) (sp_RPCProxies s) (sp_TCPProxies s) (sp_DataNodes s) (sp_ExecNodes s)
    (sp_Schedulers s) v (sp_TabletNodes s) (sp_StrawberryController s)
    (sp_DeprecatedChytController s) (sp_QueryTrackers s) (sp_Spyt s) (sp_YQLAgents s)
    (sp_QueueAgents s) (sp_UI s).
Definition set_sp_TabletNodes (v : list TabletNodesSpec) (s : YtsaurusSpec) : YtsaurusSpec :=
  mkYtsaurusSpec (sp_CommonSpec s) (sp_UIImage s) (sp_AdminCredentials s) (sp_OauthService s)
    (sp_IsManaged s) (sp_EnableFullUpdate s) (sp_UpdateSelector s) (sp_Bootstrap s)
    (sp_Discovery s) (sp_PrimaryMasters s) (sp_SecondaryMasters s) (sp_MasterCaches s)
    (sp_HTTPProxies s) (sp_RPCProxies s) (sp_TCPProxies s) (sp_DataNodes s) (sp_ExecNodes s)
    (sp_Schedulers s) (sp_ControllerAgents s) v (sp_StrawberryController s)
    (sp_DeprecatedChytController s) (sp_QueryTrackers s) (sp_Spyt s) (sp_YQLAgents s)
    (sp_QueueAgents s) (sp_UI s).
Definition set_sp_QueryTrackers (v : option InstanceSpec) (s : YtsaurusSpec) : YtsaurusSpec :=
  mkYtsaurusSpec (sp_CommonSpec s) (sp_UIImage s) (sp_AdminCredentials s) (sp_OauthService s)
    (sp_IsManaged s) (sp_EnableFullUpdate s) (sp_UpdateSelector s) (sp_Bootstrap s)
    (sp_Discovery s) (sp_PrimaryMasters s) (sp_SecondaryMasters s) (sp_MasterCaches s)
    (sp_HTTPProxies s) (sp_RPCProxies s) (sp_TCPProxies s) (sp_DataNodes s) (sp_ExecNodes s)
    (sp_Schedulers s) (sp_ControllerAgents s) (sp_TabletNodes s) (sp_StrawberryController s)
    (sp_DeprecatedChytController s) v (sp_Spyt s) (sp_YQLAgents s) (sp_QueueAgents s) (sp_UI
    s).
Definition set_sp_QueueAgents (v : option InstanceSpec) (s : YtsaurusSpec) : YtsaurusSpec :=
  mkYtsaurusSpec (sp_CommonSpec s) (sp_UIImage s) (sp_AdminCredentials s) (sp_OauthService s)
    (sp_IsManaged s) (sp_EnableFullUpdate s) (sp_UpdateSelector s) (sp_Bootstrap s)
    (sp_Discovery s) (sp_PrimaryMasters s) (sp_SecondaryMasters s) (sp_MasterCaches s)
    (sp_HTTPProxies s) (sp_RPCProxies s) (sp_TCPProxies s) (sp_DataNodes s) (sp_ExecNodes s)
    (sp_Schedulers s) (sp_ControllerAgents s) (sp_TabletNodes s) (sp_StrawberryController s)
    (sp_DeprecatedChytController s) (sp_QueryTrackers s) (sp_Spyt s) (sp_YQLAgents s) v (sp_UI
    s).

(** ** spec_builders.go *)

Definition YtsaurusName : string := "test-ytsaurus".
Definition CoreImageFirst : string :=
  "ytsaurus/ytsaurus-nightly:dev-23.1-9779e0140ff73f5a786bd5362313ef9a74fcd0de".

(** Quantities are counted in units of 10^-9. *)
Definition Gi (n : Z) : Quantity := (n * 2 ^ 30 * 10 ^ 9)%Z.
Definition units (n : Z) : Quantity := (n * 10 ^ 9)%Z.
Definition masterVolumeSize : Quantity := Gi 5.

Definition createLoggersSpec : list TextLoggerSpec :=
  [mkTextLoggerSpec
     (mkBaseLoggerSpec "info-stderr" (LogFormatOther "") LogLevelInfo (LogCompressionOther "") false None)
     LogWriterTypeStderr None].

(** A composite literal of [InstanceSpec]: the fields not named are zero. *)
Definition instance_literal (resources : ResourceRequirements) (instanceCount : Z)
    (locations : list LocationSpec) (volumes : list Volume) (mounts : list VolumeMount)
    (claims : list EmbeddedPersistentVolumeClaim) (loggers : list TextLoggerSpec) : InstanceSpec :=
  mkInstanceSpec None [] volumes mounts None resources instanceCount None locations claims None None None
    None loggers [] None ∅ [] ∅ ∅ None None None.
Definition no_resources : ResourceRequirements := mkResourceRequirements None None.
Definition instances (instanceCount : Z) : InstanceSpec :=
  instance_literal no_resources instanceCount [] [] [] [] [].
Definition location_at (t : LocationType) (path : string) : LocationSpec :=
  mkLocationSpec t path "" None None None.
Definition mount_at (name path : string) : VolumeMount := mkVolumeMount name path false None "".

Section Builders.
Context (Getenv : string -> string).

(** [None] is the panic of a port that does not parse. *)
Definition getPortFromEnv (envvar : string) : option (option Z) :=
  let portStr := Getenv envvar in
  if decide (portStr <> "") then
    match ParseInt32 portStr with None => None | Some port => Some (Some port) end
  else Some None.

Definition createHTTPProxiesSpec : option HTTPProxiesSpec :=
  port ← getPortFromEnv "E2E_HTTP_PROXY_INTERNAL_PORT";
  Some (mkHTTPProxiesSpec (instances 1) "NodePort" port None "" (mkHTTPTransportSpec None false)).

Definition createRPCProxiesSpec : option RPCProxiesSpec :=
  port ← getPortFromEnv "E2E_RPC_PROXY_INTERNAL_PORT";
  Some (mkRPCProxiesSpec (instances 1) (Some "NodePort"%string) port ""
          (mkRPCTransportSpec None false false "")).

Definition CreateExecNodeInstanceSpec : InstanceSpec :=
  instance_literal (mkResourceRequirements (Some {[ "cpu" := units 1; "memory" := Gi 2 ]}) None) 1
    [location_at LocationTypeChunkCache "/yt/node-data/chunk-cache";
     location_at LocationTypeSlots "/yt/node-data/slots"]
    [mkVolume "node-data" (VolumeEmptyDir (Some (Gi 3)))] [mount_at "node-data" "/yt/node-data"] []
    createLoggersSpec.

Definition CreateDataNodeInstanceSpec (instanceCount : Z) : InstanceSpec :=
  instance_literal no_resources (int32 instanceCount)
    [location_at LocationTypeChunkStore "/yt/node-data/chunk-store"]
    [mkVolume "node-data" (VolumeEmptyDir (Some masterVolumeSize))]
    [mount_at "node-data" "/yt/node-data"] [] [].

Definition CreateTabletNodeSpec (instanceCount : Z) : InstanceSpec :=
  instance_literal no_resources (int32 instanceCount) [] [] [] [] createLoggersSpec.

(** The spec of [CreateMinimalYtsaurusResource]. *)
Definition minimal_spec (hp : HTTPProxiesSpec) : YtsaurusSpec :=
  let masters :=
    instance_literal no_resources 1
      [location_at LocationTypeMasterChangelogs "/yt/master-data/master-changelogs";
       location_at LocationTypeMasterSnapshots "/yt/master-data/master-snapshots"] []
      [mount_at "master-data" "/yt/master-data"]
      [mkEmbeddedPersistentVolumeClaim "master-data" ∅ ∅
         (mkResourceRequirements (Some {[ "storage" := masterVolumeSize ]}) None)]
      createLoggersSpec in
  mkYtsaurusSpec
    (mkCommonSpec CoreImageFirst None None None true false false None None true false false None None [])
    "" None None true true UpdateSelectorUnspecified None (instances 1)
    (mkMastersSpec masters (mkMasterConnectionSpec 1 []) "" None None []) [] None [hp] [] [] [] [] None None
    [] None None None None None None None.

(** The zero value of the status. *)
Definition Status_zero : YtsaurusStatus :=
  mkYtsaurusStatus (ClusterStateOther "") []
    (mkUpdateStatus (UpdateStateOther "") None UpdateFlowNone [] [] []).

Definition CreateMinimalYtsaurusResource (namespace : string) : option Ytsaurus :=
  hp ← createHTTPProxiesSpec;
  Some (mkYtsaurus YtsaurusName namespace (minimal_spec hp) Status_zero).

(** The functions [With...] assign to a field of the resource they are given
    and return it. *)
Definition on_spec (f : YtsaurusSpec -> YtsaurusSpec) (y : Ytsaurus) : Ytsaurus :=
  mkYtsaurus (yt_Name y) (yt_Namespace y) (f (yt_Spec y)) (yt_Status y).

Definition plain_nodes : ClusterNodesSpec := mkClusterNodesSpec [] "".

Definition WithDataNodesCount (y : Ytsaurus) (count : Z) : Ytsaurus :=
  on_spec (set_sp_DataNodes [mkDataNodesSpec (CreateDataNodeInstanceSpec count) plain_nodes ""]) y.
Definition WithDataNodes (y : Ytsaurus) : Ytsaurus := WithDataNodesCount y 3.

Definition WithTabletNodesCount (y : Ytsaurus) (count : Z) : Ytsaurus :=
  on_spec (set_sp_TabletNodes [mkTabletNodesSpec (CreateTabletNodeSpec count) plain_nodes ""]) y.
Definition WithTabletNodes (y : Ytsaurus) : Ytsaurus := WithTabletNodesCount y 3.

Definition exec_nodes (i : InstanceSpec) (sidecars : list string) : ExecNodesSpec :=
  mkExecNodesSpec i plain_nodes "" [] sidecars false [] None None.
Definition WithExecNodes (y : Ytsaurus) : Ytsaurus :=
  on_spec (set_sp_ExecNodes [exec_nodes CreateExecNodeInstanceSpec []]) y.

Definition WithScheduler (y : Ytsaurus) : Ytsaurus := on_spec (set_sp_Schedulers (Some (instances 1))) y.
Definition WithControllerAgents (y : Ytsaurus) : Ytsaurus :=
  on_spec (set_sp_ControllerAgents (Some (instances 1))) y.

Definition WithBootstrap (y : Ytsaurus) : Ytsaurus :=
  let bundle := mkBundleBootstrapSpec (Some "default"%string) (Some "default"%string) 2 in
  on_spec (set_sp_Bootstrap (Some (mkBootstrapSpec
    (Some (mkBundlesBootstrapSpec (Some bundle) (Some bundle)))))) y.

Definition WithQueryTracker (y : Ytsaurus) : Ytsaurus :=
  on_spec (set_sp_QueryTrackers (Some (instances 1))) y.

Definition WithRPCProxies (y : Ytsaurus) : option Ytsaurus :=
  rp ← createRPCProxiesSpec; Some (on_spec (set_sp_RPCProxies [rp]) y).

Definition CreateBaseYtsaurusResource (namespace : string) : option Ytsaurus :=
  ytsaurus ← CreateMinimalYtsaurusResource namespace;
  let ytsaurus := WithBootstrap ytsaurus in
  let ytsaurus := WithScheduler ytsaurus in
  let ytsaurus := WithControllerAgents ytsaurus in
  let ytsaurus := WithDataNodes ytsaurus in
  let ytsaurus := WithTabletNodes ytsaurus in
  let ytsaurus := WithExecNodes ytsaurus in
  Some ytsaurus.
End Builders.

(** ** builders.go *)

Definition BuildMinimalYtsaurus (namespace name : string) : Ytsaurus :=
  let with_port (port : Z) (i : InstanceSpec) :=
    mkInstanceSpec None [] [] [] None no_resources (is_InstanceCount i) None (is_Locations i) [] None None None
      (Some port) [] [] None ∅ [] ∅ ∅ None None None in
  let masters :=
    instance_literal no_resources 3
      [location_at LocationTypeMasterChangelogs "/yt/master-data/master-changelogs";
       location_at LocationTypeMasterSnapshots "/yt/master-data/master-snapshots"] [] [] [] [] in
  let stores :=
    instance_literal no_resources 5 [location_at LocationTypeChunkStore "/yt/node-data/chunk-store"]
      [] [] [] [] in
  mkYtsaurus name namespace
    (mkYtsaurusSpec
       (mkCommonSpec "test-ytsaurus-image" None None None false false false None None true false false
          None None [])
       "" None None true false UpdateSelectorUnspecified None (with_port DiscoveryMonitoringPort (instances 3))
       (mkMastersSpec (with_port MasterMonitoringPort masters) (mkMasterConnectionSpec 1 []) "" None None []) [] None
       [mkHTTPProxiesSpec (instances 3) "NodePort" None None "" (mkHTTPTransportSpec None false)] [] []
       [mkDataNodesSpec stores plain_nodes "dn-1"] [] None None [] None None None None None None None)
    Status_zero.

(** ** The defaults of the roles and names

    The API server fills in the roles and names that are left out, before the
    webhook runs (the markers [kubebuilder:default] of ytsaurus_types.go); the
    checks of the webhook read no other field that has a default. *)

Definition default_name (s : string) : string := if decide (s = "") then "default" else s.

Definition default_names (s : YtsaurusSpec) : YtsaurusSpec :=
  let hp p := mkHTTPProxiesSpec (hp_InstanceSpec p) (hp_ServiceType p) (hp_HttpNodePort p)
                (hp_HttpsNodePort p) (default_name (hp_Role p)) (hp_Transport p) in
  let rp p := mkRPCProxiesSpec (rp_InstanceSpec p) (rp_ServiceType p) (rp_NodePort p)
                (default_name (rp_Role p)) (rp_Transport p) in
  let tp p := mkTCPProxiesSpec (tp_InstanceSpec p) (tp_ServiceType p) (tp_MinPort p) (tp_PortCount p)
                (default_name (tp_Role p)) in
  let dn n := mkDataNodesSpec (dn_InstanceSpec n) (dn_ClusterNodesSpec n) (default_name (dn_Name n)) in
  let tn n := mkTabletNodesSpec (tn_InstanceSpec n) (tn_ClusterNodesSpec n) (default_name (tn_Name n)) in
  let en n := mkExecNodesSpec (en_InstanceSpec n) (en_ClusterNodesSpec n) (default_name (en_Name n))
                (en_InitContainers n) (en_Sidecars n) (en_Privileged n) (en_JobProxyLoggers n)
                (en_JobResources n) (en_JobEnvironment n) in
  set_sp_HTTPProxies (hp <$> sp_HTTPProxies s)
    (set_sp_RPCProxies (rp <$> sp_RPCProxies s)
    (set_sp_TCPProxies (tp <$> sp_TCPProxies s)
    (set_sp_DataNodes (dn <$> sp_DataNodes s)
    (set_sp_TabletNodes (tn <$> sp_TabletNodes s)
    (set_sp_ExecNodes (en <$> sp_ExecNodes s) s))))).

(** What reaches the webhook when a resource is created. *)
Definition received (y : Ytsaurus) : Ytsaurus := on_spec default_names y.

(** The base resource is admitted, in a namespace that holds no other; so is
    one with a query tracker and RPC proxies. *)
Theorem base_admitted {E : Type} `{PathText} `{ContainerYaml} `{PartialYaml} `{Lister E}
    (Getenv : string -> string) (namespace : string) (y : Ytsaurus) (e : E) :
  CreateBaseYtsaurusResource Getenv namespace = Some y ->
  list_Ytsaurus namespace e = (None, []) \/ list_Ytsaurus namespace e = (None, [YtsaurusName]) ->
  ValidateCreate (inl (received y)) e = Some None /\
  ValidateCreate (inl (received (WithQueryTracker y))) e = Some None /\
  (forall y', WithRPCProxies Getenv y = Some y' -> ValidateCreate (inl (received y')) e = Some None).
Proof.
  unfold CreateBaseYtsaurusResource, CreateMinimalYtsaurusResource, WithRPCProxies, createHTTPProxiesSpec,
    createRPCProxiesSpec.
  destruct (getPortFromEnv Getenv "E2E_HTTP_PROXY_INTERNAL_PORT") as [port|]; [|done].
  intros [= <-] Halone.
  assert (forall z, yt_Name z = YtsaurusName -> yt_Namespace z = namespace ->
            validateExistsYtsaurus z e = []) as Hexists.
  { intros z Hname Hspace. unfold validateExistsYtsaurus. rewrite Hspace, Hname.
    by destruct Halone as [-> | ->]. }
  assert (forall z, yt_Name z = YtsaurusName -> yt_Namespace z = namespace ->
            validateYtsaurus z None e = validateExistsYtsaurus z e ->
            ValidateCreate (inl z) e = Some None) as Hadmit.
  { intros z Hname Hspace Hz. unfold ValidateCreate, evaluateYtsaurusValidation.
    by rewrite Hz, Hexists. }
  split; [|split].
  - apply Hadmit; [reflexivity|reflexivity|]. vm_compute. reflexivity.
  - apply Hadmit; [reflexivity|reflexivity|]. vm_compute. reflexivity.
  - destruct (getPortFromEnv Getenv "E2E_RPC_PROXY_INTERNAL_PORT") as [rport|]; [|done].
    intros y' [= <-]. apply Hadmit; [reflexivity|reflexivity|]. vm_compute. reflexivity.
Qed.

(** ** What the tests of the webhook expect: test/webhooks/ytsaurus_webhooks_test.go

    Each example gives the errors of one resource of the tests, all of them
    where the test looks for one. *)

Module WebhookTests.
#[export] Instance path_text : PathText := fun p =>
  String.concat "." (map (fun x => match x with Child name => name | Index i => "[" +:+ pretty i +:+ "]" end) p).
(** One container is written by the tests. *)
#[export] Instance yaml : ContainerYaml := fun s =>
  if decide (s = "name: foo") then inr (mkContainer "" "foo" [] [] [] [] [] [] no_resources None None)
  else inl "not a container".
#[export] Instance partial : PartialYaml := fun _ => "".
(** The test of the cell tag leaves its resource behind. *)
#[export] Instance lister : Lister unit := fun _ _ => (None, [YtsaurusName]).

Definition base : Ytsaurus :=
  default (mkYtsaurus "" "" (minimal_spec (mkHTTPProxiesSpec (instances 0) "" None None ""
                                             (mkHTTPTransportSpec None false))) Status_zero)
    (CreateBaseYtsaurusResource (fun _ => "") "default").
Definition errors (f : YtsaurusSpec -> YtsaurusSpec) (old : option Ytsaurus) : ErrorList :=
  validateYtsaurus (received (on_spec f base)) old tt.
Definition at_index (field : string) (i : nat) (name : string) : Path :=
  child (index (spec_path field) i) name.
Definition duplicate_at (field : string) (i : nat) (name value : string) : FieldError :=
  Duplicate (at_index field i name) (BadString value).
Definition missing_at (field : string) (i : nat) (t : LocationType) : FieldError :=
  NotFound (at_index field i "locations") (BadLocationType t).

Definition http (role : string) : HTTPProxiesSpec :=
  mkHTTPProxiesSpec (instances 1) "" None None role (mkHTTPTransportSpec None false).
Definition rpc : RPCProxiesSpec :=
  mkRPCProxiesSpec (instances 1) None None "" (mkRPCTransportSpec None false false "").
Definition tcp : TCPProxiesSpec := mkTCPProxiesSpec (instances 1) None 0 0 "".
Definition data (i : InstanceSpec) (name : string) : DataNodesSpec := mkDataNodesSpec i plain_nodes name.
Definition tablet : TabletNodesSpec := mkTabletNodesSpec (instances 1) plain_nodes "".

Example base_is_created : CreateBaseYtsaurusResource (fun _ => "") "default" = Some base.
Proof. reflexivity. Qed.

Example no_default_role :
  errors (set_sp_HTTPProxies [http "not_default"]) None =
  [Required (spec_path "httpProxies") "HTTP proxy with `default` role should exist"].
Proof. vm_compute. reflexivity. Qed.

Example same_rpc_roles :
  errors (set_sp_RPCProxies [rpc; rpc]) None = [duplicate_at "rpcProxies" 1 "role" "default"].
Proof. vm_compute. reflexivity. Qed.

Example same_tcp_roles :
  errors (set_sp_TCPProxies [tcp; tcp]) None = [duplicate_at "tcpProxies" 1 "role" "default"].
Proof. vm_compute. reflexivity. Qed.

Example same_http_roles :
  errors (set_sp_HTTPProxies [http ""; http ""]) None = [duplicate_at "httpProxies" 1 "role" "default"].
Proof. vm_compute. reflexivity. Qed.

Example same_data_nodes :
  errors (set_sp_DataNodes [data (instances 1) ""; data (instances 1) ""]) None =
  [missing_at "dataNodes" 0 LocationTypeChunkStore; duplicate_at "dataNodes" 1 "name" "default";
   missing_at "dataNodes" 1 LocationTypeChunkStore].
Proof. vm_compute. reflexivity. Qed.

Example same_tablet_nodes :
  errors (set_sp_TabletNodes [tablet; tablet]) None = [duplicate_at "tabletNodes" 1 "name" "default"].
Proof. vm_compute. reflexivity. Qed.

Example same_exec_nodes :
  errors (set_sp_ExecNodes [exec_nodes (instances 1) []; exec_nodes (instances 1) []]) None =
  [missing_at "execNodes" 0 LocationTypeChunkCache; missing_at "execNodes" 0 LocationTypeSlots;
   duplicate_at "execNodes" 1 "name" "default"; missing_at "execNodes" 1 LocationTypeChunkCache;
   missing_at "execNodes" 1 LocationTypeSlots].
Proof. vm_compute. reflexivity. Qed.

(** The specification of the masters, with another list of addresses. *)
Definition with_masters (i : InstanceSpec -> InstanceSpec) (cellTag : Z) (hosts : list string)
    (s : YtsaurusSpec) : YtsaurusSpec :=
  set_sp_PrimaryMasters
    (mkMastersSpec (i (ms_InstanceSpec (sp_PrimaryMasters s))) (mkMasterConnectionSpec cellTag hosts) ""
       None None []) s.

Example cell_tag_update :
  errors (with_masters id 123 []) (Some (received base)) =
  [Invalid (child (spec_path "primaryMasters") "cellTag") (BadInt 123) "Could not be changed"].
Proof. vm_compute. reflexivity. Qed.

(** A server whose flag is set. *)
Definition with_flag (flag : bool) (locations : list LocationSpec) (mounts : list VolumeMount) : InstanceSpec :=
  mkInstanceSpec None [] [] mounts None no_resources 0 None locations [] None (Some flag) None None [] []
    None ∅ [] ∅ ∅ None None None.
Definition flag_error (path : Path) (flag : bool) : FieldError :=
  Invalid (child path "EnableAntiAffinity") (BadBool flag) "EnableAntiAffinity is deprecated, use Affinity instead".

Example anti_affinity_flags :
  errors (fun s =>
    let stores flag :=
      with_flag flag [location_at LocationTypeChunkStore "/yt/chunk-store"] [mount_at "123" "/yt"] in
    set_sp_PrimaryMasters
      (mkMastersSpec
         (with_flag true [location_at LocationTypeMasterSnapshots "/yt/master-snapshots";
                          location_at LocationTypeMasterChangelogs "/yt/master-changelogs"]
            [mount_at "123" "/yt"]) (mkMasterConnectionSpec 0 []) "" None None [])
      (set_sp_ControllerAgents (Some (with_flag true [] []))
      (set_sp_DataNodes [data (stores true) "default"; data (stores false) "other"] s))) None =
  [flag_error (spec_path "primaryMasters") true; flag_error (index (spec_path "dataNodes") 0) true;
   flag_error (index (spec_path "dataNodes") 1) false; flag_error (spec_path "controllerAgents") true].
Proof. vm_compute. reflexivity. Qed.

Example invalid_sidecar :
  errors (set_sp_ExecNodes [exec_nodes (instances 1) ["foo"]]) None =
  [missing_at "execNodes" 0 LocationTypeChunkCache; missing_at "execNodes" 0 LocationTypeSlots;
   Invalid (index (at_index "execNodes" 0 "sidecars") 0) (BadString "foo") "not a container"].
Proof. vm_compute. reflexivity. Qed.

Example same_sidecars :
  errors (set_sp_ExecNodes [exec_nodes CreateExecNodeInstanceSpec ["name: foo"; "name: foo"]]) None =
  [Duplicate (child (index (at_index "execNodes" 0 "sidecars") 1) "name") (BadString "foo")].
Proof. vm_compute. reflexivity. Qed.

Example no_schedulers :
  errors (set_sp_Schedulers None) None =
  [Required (spec_path "schedulers") "execNodes doesn't make sense without schedulers";
   Required (spec_path "schedulers") "controllerAgents doesn't make sense without schedulers"].
Proof. vm_compute. reflexivity. Qed.

Example no_controller_agents :
  errors (set_sp_ControllerAgents None) None =
  [Required (spec_path "controllerAgents") "schedulers doesn't make sense without controllerAgents"].
Proof. vm_compute. reflexivity. Qed.

Example no_scheduling :
  errors (fun s => set_sp_Schedulers None (set_sp_ControllerAgents None s)) None =
  [Required (spec_path "schedulers") "execNodes doesn't make sense without schedulers"].
Proof. vm_compute. reflexivity. Qed.

Example query_tracker_without_tablets :
  errors (fun s => set_sp_QueryTrackers (Some (instances 1)) (set_sp_TabletNodes [] s)) None =
  [Required (spec_path "tabletNodes") "tabletNodes are required for queryTrackers"].
Proof. vm_compute. reflexivity. Qed.

Example query_tracker_without_schedulers :
  errors (fun s => set_sp_QueryTrackers (Some (instances 1)) (set_sp_Schedulers None s)) None =
  [Required (spec_path "schedulers") "execNodes doesn't make sense without schedulers";
   Required (spec_path "schedulers") "controllerAgents doesn't make sense without schedulers";
   Required (spec_path "schedulers") "schedulers are required for queryTrackers"].
Proof. vm_compute. reflexivity. Qed.

Example queue_agent_without_tablets :
  errors (fun s => set_sp_QueueAgents (Some (instances 1)) (set_sp_TabletNodes [] s)) None =
  [Required (spec_path "tabletNodes") "tabletNodes are required for queueAgents"].
Proof. vm_compute. reflexivity. Qed.

(** Other masters: their mounts, and their number. *)
Definition masters_with (mounts : list VolumeMount) (instanceCount : Z) (i : InstanceSpec) : InstanceSpec :=
  instance_literal no_resources instanceCount (is_Locations i) (is_Volumes i) mounts
    (is_VolumeClaimTemplates i) (is_Loggers i).
Definition not_mounted (i : nat) (l : LocationSpec) : FieldError :=
  Invalid (index (child (spec_path "primaryMasters") "locations") i) (BadLocation l)
    "location path is not in any volume mount".
Definition hosts_path : Path := child (spec_path "primaryMasters") "hostAddresses".

Example no_volume_mounts :
  errors (with_masters (masters_with [] 1) 1 []) None =
  [not_mounted 0 (location_at LocationTypeMasterChangelogs "/yt/master-data/master-changelogs");
   not_mounted 1 (location_at LocationTypeMasterSnapshots "/yt/master-data/master-snapshots")].
Proof. vm_compute. reflexivity. Qed.

Example addresses_without_host_network :
  errors (with_masters id 1 ["test.yt.address"]) None =
  [Required (spec_path "hostNetwork") (path_String hosts_path +:+ " doesn't make sense without hostNetwork=true")].
Proof. vm_compute. reflexivity. Qed.

Example too_few_addresses :
  errors (fun s =>
    let c := sp_CommonSpec s in
    set_sp_CommonSpec
      (mkCommonSpec (cs_CoreImage c) None None None (cs_EphemeralCluster c) false false None None
         (cs_UseShortNames c) true false None None [])
      (with_masters (masters_with [mount_at "master-data" "/yt/master-data"] 3) 1 ["test.yt.address"] s))
    None =
  [Invalid hosts_path (BadStrings ["test.yt.address"])
     (path_String hosts_path +:+ " list length shoud be equal to " +:+
        path_String (child (spec_path "primaryMasters") "instanceCount"))].
Proof. vm_compute. reflexivity. Qed.

(** The webhook does not reject the same resource twice: the API server does. *)
Example created_again : ValidateCreate (inl (received base)) tt = Some None.
Proof. vm_compute. reflexivity. Qed.
End WebhookTests.
