(* ===== verification/Canonize.v ===== *)
(** * Golden files: pkg/canonize

    The tests of pkg/ytconfig compare what is generated with files kept in the
    repository; with the variable CANONIZE set they write the files first.  The
    file system is a parameter, as the API server is; so is the unified diff of
    the difflib package. *)

From S2P Require Import Prelude GoStrings GoPath.
From stdpp Require Import gmap.

(** ** The file system: what package os promises *)

Inductive StatError := NotExist (err : string) | StatFailed (err : string).

Class FileSystem (F : Type) := {
  os_Stat : string -> F -> option StatError;
  os_ReadFile : string -> F -> string + string;
  os_WriteFile : string -> string -> Z -> F -> error * F;
  os_MkdirAll : string -> Z -> F -> error * F;
}.

(** A file that was written is there, and holds what was written. *)
Class FileSystemLaws (F : Type) (FS : FileSystem F) := {
  write_stat : forall p data perm f f', os_WriteFile p data perm f = (None, f') -> os_Stat p f' = None;
  write_read : forall p data perm f f', os_WriteFile p data perm f = (None, f') -> os_ReadFile p f' = inr data;
}.

(** The difflib package: the lines of a text, and the text of a diff. *)
Class Difflib := {
  difflib_SplitLines : string -> list string;
  difflib_UnifiedDiff : list string -> list string -> string;
}.

(** Different texts have different lines, and the diff of two lists of lines
    is empty when they are the same, and only then. *)
Class DifflibLaws (D : Difflib) := {
  split_lines_inj : Inj (=) (=) difflib_SplitLines;
  diff_empty : forall a b, difflib_UnifiedDiff a b = "" <-> a = b;
}.
#[export] Existing Instance split_lines_inj.

(** ** colordiff.go *)

Definition newline : Ascii.ascii := Ascii.ascii_of_nat 10.
Definition escape (code : string) : string := String (Ascii.ascii_of_nat 27) ("[" +:+ code +:+ "m").
Definition colorRed : string := escape "31".
Definition colorGreen : string := escape "32".
Definition colorCyan : string := escape "36".
Definition colorReset : string := escape "0".

(** The body of the loop: the line as it is printed. *)
Definition color_line (l : string) : string :=
  if HasPrefix l "+" then colorGreen +:+ l +:+ colorReset
  else if HasPrefix l "-" then colorRed +:+ l +:+ colorReset
  else if HasPrefix l "@@" then colorCyan +:+ l +:+ colorReset
  else l.

Definition addColorsToDiff (text : string) : string :=
  fold_left (fun coloredText l => coloredText +:+ color_line l +:+ String newline "") (Split newline text) "".

(** ** canonize.go *)

Definition envDoCanonize : string := "CANONIZE".
Definition canonDirName : string := "canondata".
Definition canonFileName : string := "test.canondata".
Definition defaultFilePermissions : Z := 420.
Definition defaultDirPermissions : Z := 493.

(** What the test reports before it fails. *)
Inductive Report :=
| CantWrite (err : string)
| CantRead (err : string)
| Differs (text : string).
Inductive Verdict := Passed | Failed (report : Report).

Section Canonize.
Context {F : Type} `{FS : FileSystem F} `{D : Difflib}.
(** The environment, and the name of the test. *)
Context (LookupEnv : string -> option string) (testName : string).

Definition getCanonFilePath : string := path_Join [canonDirName; testName; canonFileName].

Definition isCanonizeNeeded : bool := match LookupEnv envDoCanonize with Some _ => true | None => false end.

Definition createCanonDirsIfNeeded (canonFilePath : string) (f : F) : error * F :=
  let canonDir := path_Dir canonFilePath in
  match os_Stat canonDir f with
  | Some (NotExist _) => os_MkdirAll canonDir defaultDirPermissions f
  | Some (StatFailed err) => (Some err, f)
  | None => (None, f)
  end.

Definition writeCanonData (canonFilePath data : string) (f : F) : error * F :=
  let '(err, f) := createCanonDirsIfNeeded canonFilePath f in
  match err with
  | Some _ => (err, f)
  | None => os_WriteFile canonFilePath data defaultFilePermissions f
  end.

(** The path is printed with %q: between quotes; the names of the tests hold
    nothing to escape. *)
Definition readCanonData (canonFilePath : string) (f : F) : string + string :=
  match os_Stat canonFilePath f with
  | Some (NotExist _) =>
      inl ("can't find canon data file " +:+ DQ +:+ canonFilePath +:+ DQ +:+ ", please run tests with " +:+ envDoCanonize +:+
             "=y environment variable")
  | Some (StatFailed err) => inl err
  | None => os_ReadFile canonFilePath f
  end.

(** [t.FailNow] ends the test where it is called. *)
Definition Assert (data : string) (f : F) : Verdict * F :=
  let canonFilePath := getCanonFilePath in
  let '(err, f) := if isCanonizeNeeded then writeCanonData canonFilePath data f else (None, f) in
  match err with
  | Some err => (Failed (CantWrite err), f)
  | None =>
      match readCanonData canonFilePath f with
      | inl err => (Failed (CantRead err), f)
      | inr canonData =>
          let text := difflib_UnifiedDiff (difflib_SplitLines canonData) (difflib_SplitLines data) in
          (if decide (text <> "") then Failed (Differs (addColorsToDiff text)) else Passed, f)
      end
  end.
End Canonize.

(** ** What the golden files promise *)

Section CanonizeFacts.
Context {F : Type} `{FS : FileSystem F} `{D : Difflib} `{FL : !FileSystemLaws F FS} `{DL : !DifflibLaws D}.
Implicit Types f : F.

(** The file of a test holds [data]. *)
Definition canon_holds (testName data : string) f : Prop :=
  os_Stat (getCanonFilePath testName) f = None /\ os_ReadFile (getCanonFilePath testName) f = inr data.

Lemma readCanonData_iff testName data f :
  readCanonData (getCanonFilePath testName) f = inr data <-> canon_holds testName data f.
Proof. unfold readCanonData, canon_holds. destruct (os_Stat _ f) as [[]|]; naive_solver. Qed.

(** Without CANONIZE a test only reads, and passes exactly when its file holds
    what was generated. *)
Lemma Assert_compares env testName data f :
  isCanonizeNeeded env = false ->
  (Assert env testName data f).2 = f /\
  ((Assert env testName data f).1 = Passed <-> canon_holds testName data f).
Proof.
  intros Hn. unfold Assert. rewrite Hn. destruct (readCanonData _ f) as [err|canon] eqn:Hr; simpl.
  { split; [done|]. split; [done|]. intros Hh%readCanonData_iff. congruence. }
  split; [done|]. rewrite <- readCanonData_iff, Hr. case_decide as Ht; (split; [|try done]).
  - done.
  - intros [= ->]. destruct Ht. by apply diff_empty.
  - intros _. apply diff_empty in Ht. by apply (inj difflib_SplitLines) in Ht as ->.
Qed.

Lemma Assert_writes env testName data f f' :
  isCanonizeNeeded env = true -> Assert env testName data f = (Passed, f') -> canon_holds testName data f'.
Proof.
  intros Hn. unfold Assert. rewrite Hn. unfold writeCanonData.
  destruct (createCanonDirsIfNeeded _ f) as [[err|] f1]; [done|].
  destruct (os_WriteFile _ data _ f1) as [[err|] f2] eqn:Hw; [done|].
  destruct (readCanonData _ f2); [done|]. case_decide; [done|]. intros [= <-].
  split; [by eapply write_stat|by eapply write_read].
Qed.

(** A test that was canonized passes from then on exactly with what it was
    canonized with: a run with CANONIZE that passes leaves a file, and a later
    run without CANONIZE that finds the same file system passes if and only if
    the same text is generated; it writes nothing. *)
Theorem canonize_roundtrip (env env' : string -> option string) (testName data data' : string) (f f' : F) :
  isCanonizeNeeded env = true -> isCanonizeNeeded env' = false ->
  Assert env testName data f = (Passed, f') ->
  (Assert env' testName data' f').2 = f' /\
  ((Assert env' testName data' f').1 = Passed <-> data' = data).
Proof.
  intros Hn Hn' Hrun. apply Assert_writes in Hrun as [Hs Hr]; [|done].
  destruct (Assert_compares env' testName data' f' Hn') as [Hf Hp]. split; [done|]. rewrite Hp.
  unfold canon_holds. rewrite Hr. naive_solver.
Qed.
End CanonizeFacts.

(** The colors are all that is added to a diff, and one line break. *)
Lemma addColorsToDiff_plain text :
  Forall (fun l => color_line l = l) (Split newline text) -> addColorsToDiff text = text +:+ String newline "".
Proof.
  intros Hplain. rewrite <- (Split_roundtrip newline text) at 2. unfold addColorsToDiff.
  pose proof (Split_nonempty newline text) as Hne. revert Hplain Hne.
  enough (forall ls acc, Forall (fun l => color_line l = l) ls -> ls <> [] ->
    fold_left (fun t l => t +:+ color_line l +:+ String newline "") ls acc =
    acc +:+ String.concat (String newline "") ls +:+ String newline "") as Hls by (by apply (Hls _ "")).
  induction ls as [|l ls IH]; intros acc Hp Hne; [done|]. apply Forall_cons in Hp as [Hl Hp]. simpl. rewrite Hl.
  destruct ls as [|l2 ls]; [done|]. rewrite IH by done.
  by rewrite !string_app_assoc.
Qed.

(** A file system of files in directories, and a test that is canonized. *)
Module CanonizeWitness.
Definition F : Type := gmap string string * gset string.
#[export] Instance fs : FileSystem F := {|
  os_Stat p f := if decide (is_Some (f.1 !! p) \/ p ∈ f.2) then None else Some (NotExist "no such file");
  os_ReadFile p f := match f.1 !! p with Some data => inr data | None => inl "no such file" end;
  os_WriteFile p data _ f :=
    if decide (path_Dir p ∈ f.2) then (None, (<[ p := data ]> f.1, f.2)) else (Some "no such directory", f);
  os_MkdirAll p _ f := (None, (f.1, {[ p ]} ∪ f.2));
|}.
#[export] Instance fs_laws : FileSystemLaws F fs.
Proof.
  split; simpl; intros p data _ f f'; case_decide; intros [= <-]; simpl.
  - rewrite decide_True; [done|]. left. rewrite lookup_insert_eq. by eexists.
  - by rewrite lookup_insert_eq.
Qed.
#[export] Instance difflib : Difflib := {|
  difflib_SplitLines s := [s];
  difflib_UnifiedDiff a b := if decide (a = b) then "" else "+difference";
|}.
#[export] Instance difflib_laws : DifflibLaws difflib.
Proof. split; [by intros a b [= ->]|]. intros a b. simpl. by case_decide. Qed.

Definition canonizing (name : string) : option string := if decide (name = "CANONIZE") then Some "y" else None.
Definition plain (_ : string) : option string := None.
Definition after : F := (Assert canonizing "TestGetMasterConfig" "{}" (∅, ∅)).2.
End CanonizeWitness.

Import CanonizeWitness.

Lemma canonize_roundtrip_witness :
  (Assert plain "TestGetMasterConfig" "{}" after).1 = Passed /\
  (Assert plain "TestGetMasterConfig" "[]" after).1 <> Passed.
Proof.
  assert (Assert canonizing "TestGetMasterConfig" "{}" (∅, ∅) = (Passed, after)) as Hrun
    by (vm_compute; reflexivity).
  split.
  - by apply (canonize_roundtrip canonizing plain "TestGetMasterConfig" "{}" "{}" (∅, ∅) after eq_refl eq_refl Hrun).
  - intros Hp.
    by apply (canonize_roundtrip canonizing plain "TestGetMasterConfig" "{}" "[]" (∅, ∅) after eq_refl eq_refl Hrun)
      in Hp.
Defined.

Example missing_file :
  (Assert plain "TestGetMasterConfig" "{}" (∅, ∅)).1 =
  Failed (CantRead ("can't find canon data file " +:+ DQ +:+ "canondata/TestGetMasterConfig/test.canondata" +:+ DQ +:+
                      ", please run tests with CANONIZE=y environment variable")).
Proof. vm_compute. reflexivity. Qed.
